(* ===== verification/_CoqProject ===== *)
-Q . S2P
Prelude.v
CInt.v
Memory.v
CString.v
CStringSpec.v
State.v
I8259.v
Screen.v
Printf.v
Paging.v
PagingInit.v
Translate.v
FS.v
FSSpec.v
Rtc.v
Pit.v
ExecHelper.v
Process.v
Terminal.v
Keyboard.v
Schedule.v
Syscalls.v
Boot.v
Example.v
ScreenSpec.v
FileReads.v
SpaceSpec.v
DeviceSpec.v
BootSpec.v
ParseSpec.v
ExecSpec.v
Views.v
LoadSpec.v
StartSpec.v
ProcTable.v
ProcessSpec.v
HaltSpec.v
ScheduleSpec.v
SyscallSpec.v
TerminalSpec.v
KeyboardSpec.v
FrameSpec.v
ReadLine.v
RtcRead.v
SwitchSpec.v
NewTerm.v
UserLib.v
SupportSpec.v
UserProgs.v
UserTests.v
UserSpec.v
ProgSpec.v
CountSpec.v
TestSpec.v
UserKernel.v
WriteSpec.v
KernelSys.v
KernelLaws.v
UserExample.v
ProgRuns.v
ProgEnd.v
Emulate.v
EmulateSpec.v
EmulateFiles.v
EmulateExample.v
Typed.v
TypedMem.v
TypedState.v
TypedIO.v
TypedKernel.v
TypedProc.v
Stubs.v
StubSpec.v
StubCalls.v
Entry.v
Start.v
TypedCalls.v
Runs.v
EntrySpec.v
StartRun.v
