(* ===== verification/Prelude.v ===== *)
(** * clOS

    A verification development for clOS, a small kernel for the 80386: three
    text terminals, up to six processes run from an ELF file system image in
    memory, a round-robin scheduler on the timer, and ten system calls. The C
    files of the kernel are under [src/filesIWorkedOn] and
    [src/filesTeamWorkedOn], the programs it runs under [src/syscalls].

    ** The model

    C code over a state [S] is a function of type [K S A] ([Prelude.v]): from
    a state to [Ok] of a result and a state, to [Fault] (an access outside an
    object or to an unmapped address), or to [Spin] (no result within the fuel
    of a loop). Every theorem about a run says that it is [Ok].

    - [CInt.v]: the integer types, with their wrap-around, as [Z].
    - [Memory.v]: memory as a finite map from addresses to bytes; loads,
      stores and their laws.
    - [State.v]: all globals and statics as the record [kstate], with one
      sub-record per component; [Device], what port reads answer, given the
      trace of accesses before; [Layout], where the compiler places what the
      code takes the address of; [inb], [outb], [cli], [sti] of [lib.h].
    - [Example.v]: a concrete layout, device, file system image and kernel,
      on which the hypotheses of the theorems are shown to hold.

    ** The components

    Each file of definitions follows one C file, with its names:

    - [CString.v]: the string and memory functions of [lib.c], the assembly
      included; [Screen.v], [Printf.v]: its screen and [printf].
    - [I8259.v], [Rtc.v], [Pit.v]: [i8259.c], [rtc.c], [pit.c].
    - [Paging.v]: the paging of [kernel.c] and [paging.S], with the
      translation the processor does. [kmem] holds what the current address
      space shows: physical memory until paging comes on, then what the tables
      show of it, so that an address without a mapping has no byte ([paged]);
      exchanging the program page exchanges the bytes between [kmem] and
      [kpages] ([remap]).
    - [FS.v]: [fs.c]; [ExecHelper.v]: [executehelper.c].
    - [Process.v]: [sys_execute] and [sys_halt] of [syscalls.c]; control that
      leaves C (the [iret] to a program, the jump to [halt_ret_label]) is the
      result type [ctl]. [Syscalls.v]: the other calls, and what the
      dispatcher of [idt.S] does with a call and its arguments.
    - [Schedule.v]: [schedule.c] and the handler of [pit.c]. The switch of
      stacks is the switch of [esp] and [ebp] in [kcpu].
    - [Terminal.v]: [terminal.c]; [Keyboard.v]: [keyboard.c], [keyhelper.c]
      and [screenChange] of [lib.c].
    - [Boot.v]: the descriptors of [x86_desc.h] and the parts of [entry] of
      [kernel.c] that set up the kernel, and the variables as they are loaded
      ([as_loaded]); [Entry.v]: [entry] as a whole, with
      the report of the multiboot structure of [multiboot.h] and the tables of
      [x86_desc.S].
    - [Stubs.v]: the entry points of [idt.S], as the list of their
      instructions, and a machine with the eight registers that runs them on
      the kernel's memory; a [call] runs the C function, by name or through
      [syscall_table]. [Start.v]: [boot.S] in the same way, on a machine that
      has the segment registers and the descriptor table too.
    - [UserLib.v], [UserProgs.v], [UserTests.v]: the programs and the library
      they are linked with, over any state with loads, stores and system calls
      (the class [Sys]; the library needs loads and stores only, [UserMem]);
      [UserKernel.v] makes the kernel such a state, by the interrupt of
      [ece391syscall.S] and the program page.
    - [Emulate.v]: [ece391emulate.c], which makes a Linux process such a state.
      The kernel of Linux and its C library are the class [Linux]: what
      [int $0x80], [fork], [execv] with [wait], [open], [readdir] and [mmap] do
      to memory and to a world of its own.

    Code that waits for an interrupt takes the handler as a parameter and the
    pending interrupts from [kirqs]; the theorems on it ([ReadLine.v],
    [RtcRead.v]) are about the handlers of the kernel.

    ** The theorems

    - [CStringSpec.v]: numerals, comparison and copies against byte-wise and
      list specifications.
    - [ScreenSpec.v]: an abstract terminal ([tty]: cells and cursor) that
      [putc] and [printf] refine, displayed or not; erasing, clearing.
    - [FSSpec.v], [FileReads.v]: a memory that shows an image ([image_at]);
      look-ups, reads, and that reading an open file to its end gives its
      contents.
    - [PagingInit.v], [Translate.v], [SpaceSpec.v]: the address space of each
      process as a function, that the tables built at boot give it, that
      programs are isolated, and that a switch moves no byte of a program.
    - [DeviceSpec.v], [BootSpec.v]: the enabled lines, the clock and timer
      rates, the gates of the interrupt table.
    - [ParseSpec.v], [ExecSpec.v], [Views.v], [LoadSpec.v], [StartSpec.v]:
      the stages of [sys_execute]; [prog_view] is the program memory of a
      process, shown or hidden.
    - [ProcTable.v]: the control blocks, bit map and directories as a forest
      of processes; [ProcessSpec.v], [HaltSpec.v]: the kernel's invariant
      [kernel_ok], the effect of execute and halt, and their round trip.
    - [ScheduleSpec.v]: whose turn it is, that a ready process runs within six
      ticks, and that a preempted one continues where it was.
    - [SyscallSpec.v]: descriptors: which one [sys_open] gives and what it
      refers to, the errors, the life of a descriptor.
    - [TerminalSpec.v], [KeyboardSpec.v], [ReadLine.v]: the line buffers as
      lists, a key as an edit of the line and of the screen (also when its echo
      scrolls the terminal of another process), and [tRead] as the
      line typed ([type_line]); [WriteSpec.v]: what [tWrite] shows;
      [RtcRead.v]: a process that waits for the clock while keys are pressed.
    - [SwitchSpec.v]: the switch of the displayed terminal; [NewTerm.v]: the
      switch to one that has no shell yet.
    - [EntrySpec.v]: what [entry] sets up between its report and the first
      shell, and that its screen calls leave what C defines; [StartRun.v]: the
      first shell, on a kernel that has run no process, up to its first
      instruction, and the stages of the boot together, from the first
      instruction of [boot.S].
    - [Typed.v], [TypedMem.v], [TypedState.v], [TypedIO.v], [TypedKernel.v],
      [TypedProc.v], [TypedCalls.v]: every global, table and descriptor keeps
      its type ([state_ok]), operation by operation, by the rules of a small
      logic ([safe]) and a tactic that follows the code; [Runs.v]: the
      reachable states as a relation (an entry point of [idt.S] runs, a program
      stores a byte, an interrupt is requested, [entry] or its parts run), all
      of them typed, from the variables as they are loaded on.
    - [StubSpec.v], [StubCalls.v]: what the entry points do with the registers:
      a wrapper gives them back, at once or when the preempted process runs
      again; the dispatcher passes the arguments and gives the result; the
      return of a program restores those of the caller of [sys_execute].
    - [UserSpec.v]: what the system calls promise, as a class ([ProcSys]) over
      the view a program has of its process: its memory, its descriptors with
      what is left to read of each, its terminal, its arguments, the lines to
      be typed. [ProgSpec.v], [CountSpec.v], [TestSpec.v]: the programs,
      against the class.
    - [SupportSpec.v]: the library of the programs on any state that shows a
      memory ([MemView]); it computes what the kernel's library computes.
    - [KernelSys.v], [KernelLaws.v]: the relation of the kernel to the view
      ([process_at]), and the instance of the class: each call through the
      dispatcher keeps it, and leaves the kernel as it was when the program
      started, but for the files ([same_frame] of [FrameSpec.v]). [ProgRuns.v] puts both together: the programs on
      the kernel; [ProgEnd.v]: any program from its start code to its parent.
      [UserExample.v]: a concrete process.
    - [EmulateSpec.v]: the emulated [ece391_execute] runs the words of a command
      and tells how it ended; the emulated [ece391_getargs] gives what the
      kernel's parser gives. [EmulateFiles.v]: [ls] on Linux, against what its
      directories promise ([LinuxFiles]) as long as Linux has room for the calls.
      [EmulateExample.v]: a concrete Linux.

    ** Bounds

    Loops over strings run with the size of memory as fuel ([mem_fuel]): a
    string ends within memory or the loop faults. Waiting loops run with one
    step more than there are pending interrupts. Busy waits on the keyboard
    take their number of polls as a parameter. The entry points of [idt.S] are
    run with 64 instructions: none has more than 24, and each runs once; [boot.S]
    has 16 and is run with 32. A directory name is copied in at most 33 steps,
    since the copy stops at 32 bytes. The
    entries of the multiboot memory map are bounded by a parameter of [entry]:
    they give the distance to the next, which may lead round the address space.

    ** Not modelled

    The words the processor pushes for an interrupt: [iret] ends a run of the
    machine. The contents of stacks below the kernel's own pushes, and the
    place of the globals in memory: a C function that wrote outside its object
    faults in the model and does not change a global. So does the boot: [entry]
    clears the screen and prints before [currentTerminal] and [pcb] are set, and
    clears it again before the first shell ([screen_unset_at_load]). The theorem
    on the whole boot is therefore about its parts: from any memory and cursors
    that these calls leave ([reported]) to the first shell.
    The functions that are commented out; the boot loader; the build. Interrupts that
    arrive outside the waiting loops are not interleaved with kernel code: the
    theorems on the handlers take any state that satisfies the invariant
    instead, and those on programs a process whose calls are not preempted. *)

From stdpp Require Export prelude base list list_numbers numbers option gmap sets strings.
From Stdlib Require Export ZArith Lia.

#[global] Open Scope list_scope.
#[global] Open Scope Z_scope.
#[global] Arguments bool_decide : simpl never.

(** ** Outcomes and the state monad of C code *)

(** What running a piece of C code gives: a result, a fault (an access
    outside the object or to an unmapped address), or no result within the
    fuel of a loop. *)
Inductive outcome (A : Type) : Type :=
  | Ok (a : A)
  | Fault
  | Spin.
Arguments Ok {A} a.
Arguments Fault {A}.
Arguments Spin {A}.

(** Code over a state [S]: explicit state passing with an outcome. *)
Definition K (S A : Type) : Type := S → outcome (A * S).

#[global] Instance K_ret {S} : MRet (K S) := λ A a s, Ok (a, s).
#[global] Instance K_bind {S} : MBind (K S) := λ A B f c s,
  match c s with
  | Ok (a, s') => f a s'
  | Fault => Fault
  | Spin => Spin
  end.

Definition kfault {S A} : K S A := λ _, Fault.
Definition kspin {S A} : K S A := λ _, Spin.
Definition kget {S T} (f : S → T) : K S T := λ s, Ok (f s, s).
Definition kmod {S} (f : S → S) : K S unit := λ s, Ok (tt, f s).
Definition klift {S A} (o : option A) : K S A :=
  match o with Some a => mret a | None => kfault end.

(** ** Record update *)

(** [Setter p]: the record type of the field [p] can be updated at [p]. *)
Class Setter {R T} (p : R → T) := upd : (T → T) → R → R.
Arguments upd {R T} p {_} _ _.

Declare Scope clos_scope.
Delimit Scope clos_scope with clos.
#[global] Open Scope clos_scope.
Notation "s <| p := v |>" := (upd p (λ _, v) s)
  (at level 1, left associativity, p at level 9, v at level 200) : clos_scope.
Notation "s <| p ::= f |>" := (upd p f s)
  (at level 1, left associativity, p at level 9, f at level 200) : clos_scope.
Notation "'put' p v" := (kmod (upd p (λ _, v)))
  (at level 10, p at level 9, v at level 9, only parsing) : clos_scope.

(** Run code of a component on the component's part of a larger state. *)
Definition zoom {R T A} (p : R → T) `{!Setter p} (c : K T A) : K R A := λ s,
  match c (p s) with
  | Ok (a, t) => Ok (a, s <| p := t |>)
  | Fault => Fault
  | Spin => Spin
  end.

(** ** Total-correctness predicate transformer *)

(** [wp c Q s]: running [c] from [s] gives a result, and it satisfies [Q]. *)
Definition wp {S A} (c : K S A) (Q : A → S → Prop) (s : S) : Prop :=
  match c s with Ok (a, s') => Q a s' | _ => False end.

(** ** Bounds-checked arrays *)

(** The element at a C index: none below zero or past the end. *)
Definition zlookup {A} (l : list A) (i : Z) : option A :=
  if bool_decide (0 ≤ i) then l !! Z.to_nat i else None.
Definition zupdate {A} (l : list A) (i : Z) (x : A) : option (list A) :=
  if bool_decide (0 ≤ i < Z.of_nat (length l))
  then Some (<[Z.to_nat i := x]> l) else None.

(** A bounded [for] loop whose body neither leaves it nor touches its
    counter: [i], [i + 1], ..., [n] iterations. *)
Fixpoint for_loop {S} (n : nat) (i : Z) (body : Z → K S unit) : K S unit :=
  match n with
  | O => mret tt
  | S n' => _ ← body i; for_loop n' (i + 1) body
  end.

(** ** Laws of the predicate transformer *)
Section wp_laws.
Context {S : Type}.

Lemma wp_ret {A} (a : A) Q (s : S) : wp (mret a) Q s ↔ Q a s.
Proof. done. Qed.

Lemma wp_bind {A B} (c : K S A) (f : A → K S B) Q s :
  wp (c ≫= f) Q s ↔ wp c (λ a s', wp (f a) Q s') s.
Proof. unfold wp, mbind, K_bind. by destruct (c s) as [[a s']| |]. Qed.

Lemma wp_seq {A B C} (a : K S A) (b : K S B) (k : K S C) Q s :
  wp (_ ← a; b) (λ _, wp k Q) s → wp (_ ← a; _ ← b; k) Q s.
Proof. unfold wp, mbind, K_bind. destruct (a s) as [[? s']| |]; [|done..]. by destruct (b s') as [[]| |]. Qed.

Lemma wp_assoc {A B C} (m : K S A) (f : A → K S B) (k : B → K S C) Q s :
  wp ((m ≫= f) ≫= k) Q s → wp (m ≫= λ a, f a ≫= k) Q s.
Proof. unfold wp, mbind, K_bind. by destruct (m s) as [[? s']| |]. Qed.

Lemma wp_mono {A} (c : K S A) (Q Q' : A → S → Prop) s :
  wp c Q s → (∀ a s', Q a s' → Q' a s') → wp c Q' s.
Proof. unfold wp. destruct (c s) as [[a s']| |]; naive_solver. Qed.

Lemma wp_ok {A} (c : K S A) Q s :
  wp c Q s ↔ ∃ a s', c s = Ok (a, s') ∧ Q a s'.
Proof. unfold wp. destruct (c s) as [[a s']| |]; naive_solver. Qed.

Lemma wp_run {A} (c : K S A) Q s a s' : c s = Ok (a, s') → Q a s' → wp c Q s.
Proof. unfold wp. by intros ->. Qed.

Lemma wp_and {A} (c : K S A) (Q Q' : A → S → Prop) s :
  wp c Q s → wp c Q' s → wp c (λ a s', Q a s' ∧ Q' a s') s.
Proof. unfold wp. destruct (c s) as [[a s']| |]; naive_solver. Qed.

Lemma wp_get {T} (f : S → T) Q s : wp (kget f) Q s ↔ Q (f s) s.
Proof. done. Qed.

Lemma wp_mod (f : S → S) Q s : wp (kmod f) Q s ↔ Q tt (f s).
Proof. done. Qed.

Lemma wp_lift {A} (o : option A) a (Q : A → S → Prop) s : o = Some a → Q a s → wp (klift o) Q s.
Proof. by intros ->. Qed.

Lemma wp_zoom {T A} (p : S → T) `{!Setter p} (c : K T A) Q s :
  wp (zoom p c) Q s ↔ wp c (λ a t, Q a (s <| p := t |>)) (p s).
Proof. unfold wp, zoom. by destruct (c (p s)) as [[a t]| |]. Qed.

(** A [for] loop by an invariant on the counter. *)
Lemma wp_for (body : Z → K S unit) (I : Z → S → Prop) n i s :
  I i s →
  (∀ j s, i ≤ j < i + Z.of_nat n → I j s → wp (body j) (λ _ s', I (j + 1) s') s) →
  wp (for_loop n i body) (λ _ s', I (i + Z.of_nat n) s') s.
Proof.
  revert i s. induction n as [|n IH]; intros i s HI Hb; cbn [for_loop].
  - by rewrite wp_ret, Z.add_0_r.
  - rewrite wp_bind. eapply wp_mono; [apply Hb; [lia|done]|].
    intros ? s' HI'. replace (i + Z.of_nat (Datatypes.S n)) with (i + 1 + Z.of_nat n) by lia.
    apply IH; [done|]. intros j s'' Hj. apply Hb. lia.
Qed.
End wp_laws.

(** Running a bind whose first part is known. *)
Lemma bind_ok {S A B} (c : K S A) (f : A → K S B) s a s' :
  c s = Ok (a, s') → (c ≫= f) s = f a s'.
Proof. unfold mbind, K_bind. by intros ->. Qed.

Lemma zoom_ok {R T A} (p : R → T) `{!Setter p} (c : K T A) s a t :
  c (p s) = Ok (a, t) → zoom p c s = Ok (a, s <| p := t |>).
Proof. unfold zoom. by intros ->. Qed.

(** ** Arrays *)
Section arrays.
Context {A : Type}.
Implicit Types (l : list A) (i : Z).

Lemma zlookup_Some l i x :
  zlookup l i = Some x ↔ 0 ≤ i ∧ l !! Z.to_nat i = Some x.
Proof. unfold zlookup. case_bool_decide; naive_solver. Qed.

Lemma zlookup_is_Some l i :
  is_Some (zlookup l i) ↔ 0 ≤ i < Z.of_nat (length l).
Proof.
  unfold zlookup. case_bool_decide.
  - rewrite lookup_lt_is_Some. lia.
  - split; [by intros [? ?]|lia].
Qed.

Lemma zlookup_None l i :
  zlookup l i = None ↔ ¬ (0 ≤ i < Z.of_nat (length l)).
Proof. rewrite <-zlookup_is_Some, eq_None_not_Some. done. Qed.

Lemma zupdate_Some l i x l' :
  zupdate l i x = Some l' ↔
  0 ≤ i < Z.of_nat (length l) ∧ l' = <[Z.to_nat i := x]> l.
Proof. unfold zupdate. case_bool_decide; naive_solver. Qed.

Lemma zupdate_None l i x :
  zupdate l i x = None ↔ ¬ (0 ≤ i < Z.of_nat (length l)).
Proof. unfold zupdate. case_bool_decide; naive_solver. Qed.

Lemma zupdate_in_range l i x :
  0 ≤ i < Z.of_nat (length l) →
  zupdate l i x = Some (<[Z.to_nat i := x]> l).
Proof. intros. by apply zupdate_Some. Qed.

Lemma zlookup_insert l i j x :
  0 ≤ i < Z.of_nat (length l) → 0 ≤ j →
  zlookup (<[Z.to_nat i := x]> l) j = if decide (i = j) then Some x else zlookup l j.
Proof.
  intros Hi Hj. unfold zlookup. rewrite bool_decide_eq_true_2 by done.
  destruct (decide (i = j)) as [->|Hne].
  - apply list_lookup_insert_eq. lia.
  - apply list_lookup_insert_ne. lia.
Qed.
End arrays.

(** ** Automation *)

(** Hints: the laws used to run code step by step. *)
Create HintDb clos discriminated.
Create Rewrite HintDb wp.
#[export] Hint Resolve wp_run : clos.
#[export] Hint Rewrite @wp_ret @wp_bind @wp_get @wp_mod @wp_zoom : wp.

(** Open the code on the goal one layer at a time. *)
Ltac wp_simp := autorewrite with wp.
(** Split a conjunction of facts and finish arithmetic sides. *)
Ltac split_lia := repeat split; try lia.
(** Case analysis on every test of the goal and of the hypotheses. *)
Ltac case_tests :=
  repeat first [ case_bool_decide | case_decide | case_match ]; simplify_eq.
(** Evaluate the tests on literals. *)
Ltac bool_lits :=
  repeat match goal with
    |- context [bool_decide ?P] =>
      first [change (bool_decide P) with true | change (bool_decide P) with false]
  end.
