(* ===== verification/CInt.v ===== *)
(** * Machine integers

    The integer types of [types.h] (and the C conversions between them) as
    [Z] with the wrap-around written out: [uint8_t], [uint16_t], [uint32_t],
    [int8_t] and [int32_t]. *)

From S2P Require Import Prelude.

(** Conversion to an unsigned type. *)
Definition u8 (z : Z) : Z := z mod 2 ^ 8.
Definition u16 (z : Z) : Z := z mod 2 ^ 16.
Definition u32 (z : Z) : Z := z mod 2 ^ 32.
(** Conversion to a signed type (two's complement, as gcc does). *)
Definition s8 (z : Z) : Z := (z + 2 ^ 7) mod 2 ^ 8 - 2 ^ 7.
Definition s32 (z : Z) : Z := (z + 2 ^ 31) mod 2 ^ 32 - 2 ^ 31.

(** The values of each type. *)
Definition is_u8 (z : Z) : Prop := 0 ≤ z < 2 ^ 8.
Definition is_u32 (z : Z) : Prop := 0 ≤ z < 2 ^ 32.
Definition is_s32 (z : Z) : Prop := - 2 ^ 31 ≤ z < 2 ^ 31.

(** C truth values. *)
Definition c_bool (b : bool) : Z := if b then 1 else 0.

(** Little-endian bytes of a 32-bit word. *)
Definition le32 (z : Z) : list Z :=
  [z mod 2 ^ 8; (z / 2 ^ 8) mod 2 ^ 8; (z / 2 ^ 16) mod 2 ^ 8; (z / 2 ^ 24) mod 2 ^ 8].
Definition of_le32 (b0 b1 b2 b3 : Z) : Z :=
  b0 + 2 ^ 8 * b1 + 2 ^ 16 * b2 + 2 ^ 24 * b3.

#[global] Instance is_u8_dec z : Decision (is_u8 z).
Proof. unfold is_u8. apply _. Defined.
#[global] Instance is_u32_dec z : Decision (is_u32 z).
Proof. unfold is_u32. apply _. Defined.
#[global] Instance is_s32_dec z : Decision (is_s32 z).
Proof. unfold is_s32. apply _. Defined.

Lemma u8_range z : is_u8 (u8 z).
Proof. apply Z.mod_pos_bound. lia. Qed.
Lemma u32_range z : is_u32 (u32 z).
Proof. apply Z.mod_pos_bound. lia. Qed.
Lemma s32_range z : is_s32 (s32 z).
Proof. unfold s32, is_s32. pose proof (Z.mod_pos_bound (z + 2 ^ 31) (2 ^ 32)). lia. Qed.

Lemma u8_id z : is_u8 z → u8 z = z.
Proof. intros. by apply Z.mod_small. Qed.
Lemma u16_id z : 0 ≤ z < 2 ^ 16 → u16 z = z.
Proof. intros. by apply Z.mod_small. Qed.
Lemma u32_id z : is_u32 z → u32 z = z.
Proof. intros. by apply Z.mod_small. Qed.
Lemma s32_id z : is_s32 z → s32 z = z.
Proof. unfold is_s32, s32. intros. rewrite Z.mod_small; lia. Qed.
Lemma s8_id z : - 2 ^ 7 ≤ z < 2 ^ 7 → s8 z = z.
Proof. unfold s8. intros. rewrite Z.mod_small; lia. Qed.
Lemma u8_u8 z : u8 (u8 z) = u8 z.
Proof. apply u8_id, u8_range. Qed.
Lemma u32_u32 z : u32 (u32 z) = u32 z.
Proof. apply u32_id, u32_range. Qed.

(** On bytes, the signed view separates exactly what the unsigned view does. *)
Lemma s8_inj a b : is_u8 a → is_u8 b → s8 a = s8 b → a = b.
Proof.
  unfold is_u8, s8. intros Ha Hb H.
  assert (∀ x, 0 ≤ x < 2 ^ 8 →
    (x + 2 ^ 7) mod 2 ^ 8 = if bool_decide (x < 2 ^ 7) then x + 2 ^ 7 else x - 2 ^ 7) as Hs.
  { intros x Hx. case_bool_decide.
    - apply Z.mod_small. lia.
    - symmetry. apply Z.mod_unique with 1; lia. }
  rewrite !Hs in H by done. revert H. repeat case_bool_decide; lia.
Qed.

Lemma s8_zero a : is_u8 a → s8 a = 0 → a = 0.
Proof. intros Ha H. apply s8_inj; [done|unfold is_u8; lia|by rewrite H]. Qed.

Lemma of_le32_le32 z : is_u32 z →
  of_le32 (z mod 2 ^ 8) ((z / 2 ^ 8) mod 2 ^ 8) ((z / 2 ^ 16) mod 2 ^ 8)
    ((z / 2 ^ 24) mod 2 ^ 8) = z.
Proof. unfold of_le32, is_u32. intros. Z.to_euclidean_division_equations. lia. Qed.

Lemma of_le32_range b0 b1 b2 b3 :
  is_u8 b0 → is_u8 b1 → is_u8 b2 → is_u8 b3 → is_u32 (of_le32 b0 b1 b2 b3).
Proof. unfold of_le32, is_u8, is_u32. lia. Qed.

#[export] Hint Resolve u8_range u32_range s32_range : clos.

(** ** Bits *)

Lemma testbit_u8 z k : 0 ≤ k < 8 → Z.testbit (u8 z) k = Z.testbit z k.
Proof. intros. unfold u8. apply Z.mod_pow2_bits_low. lia. Qed.

Lemma testbit_one n k : 0 ≤ n → 0 ≤ k → Z.testbit (Z.shiftl 1 n) k = bool_decide (k = n).
Proof.
  intros. rewrite Z.shiftl_spec by lia. case_bool_decide.
  - subst. by rewrite Z.sub_diag.
  - destruct (decide (k < n)); [apply Z.testbit_neg_r; lia|].
    replace (k - n) with (Z.succ (k - n - 1)) by lia.
    rewrite <-Z.div2_bits by lia. apply Z.bits_0.
Qed.

(** Clearing and setting one bit of a byte. *)
Lemma clear_bit v n k :
  0 ≤ n < 8 → 0 ≤ k < 8 →
  Z.testbit (Z.land v (u8 (Z.lnot (u8 (Z.shiftl 1 n))))) k =
  Z.testbit v k && negb (bool_decide (k = n)).
Proof.
  intros. rewrite Z.land_spec, testbit_u8, Z.lnot_spec, testbit_u8, testbit_one by lia. done.
Qed.

Lemma set_bit v n k :
  0 ≤ n < 8 → 0 ≤ k < 8 →
  Z.testbit (u8 (Z.lor v (Z.shiftl 1 n))) k = Z.testbit v k || bool_decide (k = n).
Proof. intros. by rewrite testbit_u8, Z.lor_spec, testbit_one by lia. Qed.
