(* ===== verification/Memory.v ===== *)
(** * Byte memory

    The flat 32-bit address space the C code reads and writes: a finite map
    from addresses to bytes. An access to an address outside the map faults.
    Pointers are addresses ([Z]); a pointer plus an offset is their sum. *)

From S2P Require Import Prelude CInt.

Abbreviation mem := (gmap Z Z).

(** [*(uint8_t * )a] read and written. *)
Definition load8 (a : Z) : K mem Z := λ m,
  match m !! a with Some b => Ok (b, m) | None => Fault end.
Definition store8 (a v : Z) : K mem unit := λ m,
  match m !! a with Some _ => Ok (tt, <[a := u8 v]> m) | None => Fault end.

(** [*(uint32_t * )a] read (little endian) and written. *)
Definition load32 (a : Z) : K mem Z :=
  b0 ← load8 a; b1 ← load8 (a + 1); b2 ← load8 (a + 2); b3 ← load8 (a + 3);
  mret (of_le32 b0 b1 b2 b3).
Definition store32 (a v : Z) : K mem unit :=
  _ ← store8 a v; _ ← store8 (a + 1) (v / 2 ^ 8);
  _ ← store8 (a + 2) (v / 2 ^ 16); store8 (a + 3) (v / 2 ^ 24).

(** Fuel of a loop that touches a new address in each of its iterations:
    after more iterations than there are mapped addresses it has faulted. *)
Definition mem_fuel {A} (f : nat → K mem A) : K mem A := λ m, f (S (size m)) m.

(** The memory holds the bytes [l] from address [a] on. *)
Fixpoint bytes_at (m : mem) (a : Z) (l : list Z) : Prop :=
  match l with
  | [] => True
  | b :: l' => m !! a = Some b ∧ bytes_at m (a + 1) l'
  end.

(** The memory with the bytes [l] written from address [a] on. *)
Fixpoint put_bytes (m : mem) (a : Z) (l : list Z) : mem :=
  match l with
  | [] => m
  | b :: l' => <[a := b]> (put_bytes m (a + 1) l')
  end.

(** [n] addresses from [a] on can be accessed. *)
Definition mapped (m : mem) (a n : Z) : Prop :=
  Forall (λ x, is_Some (m !! x)) (seqZ a n).

(** A character of a C string, and a C string in memory: such characters,
    then a zero. *)
Definition is_char (c : Z) : Prop := 0 < c < 2 ^ 8.
Definition cstr_at (m : mem) (a : Z) (s : list Z) : Prop :=
  bytes_at m a (s ++ [0]) ∧ Forall is_char s.

(** Two address ranges share no address. *)
Definition disjoint_range (a n b k : Z) : Prop := a + n ≤ b ∨ b + k ≤ a.

(** A memory that maps the bytes [l] at [a] and nothing else is known of. *)
Definition mem_of (l : list (Z * list Z)) : mem :=
  foldr (λ '(a, bs) m, put_bytes m a bs) ∅ l.

Fixpoint bytes_atb (m : mem) (a : Z) (l : list Z) : bool :=
  match l with
  | [] => true
  | b :: l' => bool_decide (m !! a = Some b) && bytes_atb m (a + 1) l'
  end.
Lemma bytes_atb_spec m a l : bytes_atb m a l = true ↔ bytes_at m a l.
Proof.
  revert a. induction l as [|b l IH]; intros a; cbn; [done|].
  by rewrite andb_true_iff, bool_decide_eq_true, IH.
Qed.
#[global] Instance bytes_at_dec m a l : Decision (bytes_at m a l).
Proof. refine (cast_if (decide (bytes_atb m a l = true))); abstract (by rewrite <-bytes_atb_spec). Defined.
#[global] Instance mapped_dec m a n : Decision (mapped m a n).
Proof. unfold mapped. apply _. Defined.
#[global] Instance is_char_dec c : Decision (is_char c).
Proof. unfold is_char. apply _. Defined.
#[global] Instance cstr_at_dec m a s : Decision (cstr_at m a s).
Proof. unfold cstr_at. apply _. Defined.
#[global] Instance disjoint_range_dec a n b k : Decision (disjoint_range a n b k).
Proof. unfold disjoint_range. apply _. Defined.

(** ** Mapped ranges *)

Lemma mapped_spec m a n :
  mapped m a n ↔ ∀ x, a ≤ x < a + n → is_Some (m !! x).
Proof.
  unfold mapped. rewrite Forall_forall. split.
  - intros H x Hx. apply H, elem_of_seqZ. lia.
  - intros H x Hx. apply H. apply elem_of_seqZ in Hx. lia.
Qed.

Lemma mapped_sub m a n b k :
  mapped m a n → a ≤ b → b + k ≤ a + n → mapped m b k.
Proof. rewrite !mapped_spec. intros H ?? x ?. apply H. lia. Qed.

Lemma mapped_dom m m' a n : dom m' = dom m → mapped m a n → mapped m' a n.
Proof.
  rewrite !mapped_spec. intros Hd H x Hx. apply elem_of_dom.
  rewrite Hd. apply elem_of_dom. auto.
Qed.

Lemma mapped_size m a n : mapped m a n → (Z.to_nat n ≤ size m)%nat.
Proof.
  intros H. unfold mapped in H.
  assert (list_to_set (seqZ a n) ⊆ dom m) as Hsub.
  { intros x Hx. apply elem_of_list_to_set in Hx. apply elem_of_dom.
    rewrite Forall_forall in H. auto. }
  apply subseteq_size in Hsub.
  rewrite size_list_to_set, length_seqZ, size_dom in Hsub by apply NoDup_seqZ.
  done.
Qed.

Lemma mapped_load m a n x : mapped m a n → a ≤ x < a + n → ∃ b, m !! x = Some b.
Proof. rewrite mapped_spec. intros H Hx. destruct (H x Hx) as [b Hb]. eauto. Qed.

(** ** Bytes at an address *)

Lemma bytes_at_lookup m a l :
  bytes_at m a l ↔ ∀ (i : nat) b, l !! i = Some b → m !! (a + Z.of_nat i) = Some b.
Proof.
  revert a. induction l as [|c l IH]; intros a; cbn [bytes_at].
  - split; [intros _ i b Hi; done|done].
  - rewrite IH. split.
    + intros [Hc Hl] [|i] b Hi; simplify_eq/=; [by rewrite Z.add_0_r|].
      replace (a + Z.of_nat (S i)) with (a + 1 + Z.of_nat i) by lia. auto.
    + intros H. split; [rewrite <-(H 0%nat c); [f_equal; lia|done]|].
      intros i b Hi. replace (a + 1 + Z.of_nat i) with (a + Z.of_nat (S i)) by lia.
      by apply H.
Qed.

Lemma bytes_at_app m a l1 l2 :
  bytes_at m a (l1 ++ l2) ↔
  bytes_at m a l1 ∧ bytes_at m (a + Z.of_nat (length l1)) l2.
Proof.
  revert a. induction l1 as [|b l1 IH]; intros a; cbn [app bytes_at length].
  - rewrite Z.add_0_r. naive_solver.
  - rewrite IH. replace (a + 1 + Z.of_nat (length l1))
      with (a + Z.of_nat (S (length l1))) by lia. naive_solver.
Qed.

Lemma bytes_at_mapped m a l : bytes_at m a l → mapped m a (Z.of_nat (length l)).
Proof.
  rewrite mapped_spec, bytes_at_lookup. intros H x Hx.
  destruct (lookup_lt_is_Some_2 l (Z.to_nat (x - a))) as [b Hb]; [lia|].
  exists b. rewrite <-(H _ _ Hb). f_equal. lia.
Qed.

Lemma bytes_at_size m a l : bytes_at m a l → (length l ≤ size m)%nat.
Proof. intros H%bytes_at_mapped%mapped_size. lia. Qed.

(** Two memories that agree on the range hold the same bytes there. *)
Lemma bytes_at_agree m m' a l :
  (∀ x, a ≤ x < a + Z.of_nat (length l) → m' !! x = m !! x) →
  bytes_at m a l → bytes_at m' a l.
Proof.
  rewrite !bytes_at_lookup. intros Hag H i b Hi. rewrite Hag; [auto|].
  apply lookup_lt_Some in Hi. lia.
Qed.

(** ** Writing bytes *)

Lemma put_bytes_lookup m a l x :
  put_bytes m a l !! x =
  if decide (a ≤ x < a + Z.of_nat (length l)) then l !! Z.to_nat (x - a) else m !! x.
Proof.
  revert a. induction l as [|b l IH]; intros a; cbn [put_bytes length].
  - rewrite decide_False by lia. done.
  - destruct (decide (a = x)) as [->|Hne].
    + rewrite lookup_insert_eq, decide_True by lia.
      by replace (x - x) with 0 by lia.
    + rewrite lookup_insert_ne, IH by done.
      destruct (decide (a + 1 ≤ x < _)).
      * rewrite decide_True by lia.
        replace (Z.to_nat (x - a)) with (S (Z.to_nat (x - (a + 1)))) by lia. done.
      * rewrite decide_False by lia. done.
Qed.

Lemma put_bytes_outside m a l x :
  ¬ (a ≤ x < a + Z.of_nat (length l)) → put_bytes m a l !! x = m !! x.
Proof. intros. rewrite put_bytes_lookup, decide_False; done. Qed.

Lemma put_bytes_app m a l1 l2 :
  put_bytes m a (l1 ++ l2) =
  put_bytes (put_bytes m (a + Z.of_nat (length l1)) l2) a l1.
Proof.
  revert a. induction l1 as [|b l1 IH]; intros a; cbn [app put_bytes length].
  - by rewrite Z.add_0_r.
  - rewrite IH. do 2 f_equal. f_equal. lia.
Qed.

(** Writing one more byte just after a written range. *)
Lemma put_bytes_snoc m a l b :
  <[a + Z.of_nat (length l) := b]> (put_bytes m a l) = put_bytes m a (l ++ [b]).
Proof.
  apply map_eq. intros x. rewrite lookup_insert, !put_bytes_lookup, length_app.
  cbn [length]. case_decide.
  - rewrite decide_True by lia. subst x.
    rewrite lookup_app_r by lia.
    by replace (Z.to_nat _ - _)%nat with 0%nat by lia.
  - destruct (decide (a ≤ x < a + Z.of_nat (length l))).
    + rewrite decide_True by lia. rewrite lookup_app_l by lia. done.
    + rewrite decide_False by lia. done.
Qed.

Lemma put_bytes_dom m a l :
  mapped m a (Z.of_nat (length l)) → dom (put_bytes m a l) = dom m.
Proof.
  intros H. apply set_eq. intros x. rewrite !elem_of_dom, put_bytes_lookup.
  case_decide as Hx; [|done]. split; intros _.
  - rewrite mapped_spec in H. auto.
  - apply lookup_lt_is_Some. lia.
Qed.

Lemma put_bytes_at m a l : bytes_at (put_bytes m a l) a l.
Proof.
  apply bytes_at_lookup. intros i b Hi. rewrite put_bytes_lookup.
  pose proof (lookup_lt_Some _ _ _ Hi). rewrite decide_True by lia.
  by replace (Z.to_nat _) with i by lia.
Qed.

Lemma put_bytes_id m a l : bytes_at m a l → put_bytes m a l = m.
Proof.
  intros H. apply map_eq. intros x. rewrite put_bytes_lookup. case_decide; [|done].
  destruct (lookup_lt_is_Some_2 l (Z.to_nat (x - a))) as [b Hb]; [lia|].
  rewrite bytes_at_lookup in H. rewrite Hb. symmetry.
  rewrite <-(H _ _ Hb). f_equal. lia.
Qed.

Lemma bytes_at_put_disjoint m a l b k :
  disjoint_range a (Z.of_nat (length k)) b (Z.of_nat (length l)) →
  bytes_at m b l → bytes_at (put_bytes m a k) b l.
Proof.
  intros Hd. apply bytes_at_agree. intros x Hx. apply put_bytes_outside.
  unfold disjoint_range in Hd. lia.
Qed.
Lemma put_blocks_outside m l x : Forall (λ p, ¬ (p.1 ≤ x < p.1 + Z.of_nat (length p.2))) l →
  foldr (λ '(a, bs) m, put_bytes m a bs) m l !! x = m !! x.
Proof. induction 1 as [|[a bs] l Hx _ IH]; [done|]. cbn. by rewrite put_bytes_outside. Qed.
(** A block of [mem_of], where no block before it covers it. *)
Lemma mem_of_block l (k : nat) a bs : l !! k = Some (a, bs) →
  Forall (λ p, disjoint_range p.1 (Z.of_nat (length p.2)) a (Z.of_nat (length bs))) (take k l) →
  bytes_at (mem_of l) a bs.
Proof.
  revert k. induction l as [|[b cs] l IH]; intros [|k] Hk Hd; [done..| |].
  - injection Hk as -> ->. apply put_bytes_at.
  - cbn in Hd. apply Forall_cons in Hd as [Hd1 Hd]. apply bytes_at_put_disjoint; [exact Hd1|]. by apply (IH k).
Qed.

(** Overwriting a byte inside a written range. *)
Lemma put_bytes_insert m a l (i : Z) b :
  0 ≤ i < Z.of_nat (length l) →
  <[a + i := b]> (put_bytes m a l) = put_bytes m a (<[Z.to_nat i := b]> l).
Proof.
  intros Hi. apply map_eq. intros x.
  rewrite lookup_insert, !put_bytes_lookup, length_insert. case_decide.
  - subst x. rewrite decide_True by lia. replace (a + i - a) with i by lia.
    rewrite list_lookup_insert_eq by lia. done.
  - case_decide; [|done]. rewrite list_lookup_insert_ne by lia. done.
Qed.

Lemma put_bytes_put m a l k :
  length k = length l → put_bytes (put_bytes m a l) a k = put_bytes m a k.
Proof.
  intros Hl. apply map_eq. intros x. rewrite !put_bytes_lookup, Hl. by case_decide.
Qed.

(** ** Loads and stores *)

Lemma load8_ok m a b : m !! a = Some b → load8 a m = Ok (b, m).
Proof. unfold load8. by intros ->. Qed.

Lemma load8_bytes m a l (i : Z) b :
  bytes_at m a l → 0 ≤ i → l !! Z.to_nat i = Some b → load8 (a + i) m = Ok (b, m).
Proof.
  rewrite bytes_at_lookup. intros H Hi Hb. apply load8_ok.
  rewrite <-(H _ _ Hb). f_equal. lia.
Qed.

Lemma store8_ok m a v : is_Some (m !! a) → store8 a v m = Ok (tt, <[a := u8 v]> m).
Proof. unfold store8. by intros [b ->]. Qed.

(** One more byte of a growing written range. *)
Lemma store8_snoc m a l v :
  is_Some (m !! (a + Z.of_nat (length l))) →
  store8 (a + Z.of_nat (length l)) v (put_bytes m a l) =
  Ok (tt, put_bytes m a (l ++ [u8 v])).
Proof.
  intros Hm. rewrite store8_ok; [by rewrite put_bytes_snoc|].
  rewrite put_bytes_outside by lia. done.
Qed.

Lemma load32_ok m a b0 b1 b2 b3 :
  bytes_at m a [b0; b1; b2; b3] → load32 a m = Ok (of_le32 b0 b1 b2 b3, m).
Proof.
  intros (H0 & H1 & H2 & H3 & _). unfold load32.
  rewrite (bind_ok _ _ _ _ _ (load8_ok _ _ _ H0)).
  rewrite (bind_ok _ _ _ _ _ (load8_ok _ _ _ H1)).
  replace (a + 2) with (a + 1 + 1) by lia.
  rewrite (bind_ok _ _ _ _ _ (load8_ok _ _ _ H2)).
  replace (a + 3) with (a + 1 + 1 + 1) by lia.
  by rewrite (bind_ok _ _ _ _ _ (load8_ok _ _ _ H3)).
Qed.

Lemma load32_le32 m a v :
  bytes_at m a (le32 v) → is_u32 v → load32 a m = Ok (v, m).
Proof. intros H Hv. rewrite (load32_ok _ _ _ _ _ _ H). by rewrite of_le32_le32. Qed.

Lemma store32_ok m a v :
  mapped m a 4 → store32 a v m = Ok (tt, put_bytes m a (le32 v)).
Proof.
  rewrite mapped_spec. intros H. unfold store32.
  assert (∀ l k, l = put_bytes m a k → (length k < 4)%nat → ∀ w,
    store8 (a + Z.of_nat (length k)) w l = Ok (tt, put_bytes m a (k ++ [u8 w]))) as Hs.
  { intros l k -> Hk w. apply store8_snoc. apply H. lia. }
  pose proof (Hs m [] eq_refl ltac:(cbn; lia) v) as H0. cbn in H0. rewrite Z.add_0_r in H0.
  rewrite (bind_ok _ _ _ _ _ H0).
  pose proof (Hs _ [u8 v] eq_refl ltac:(cbn; lia) (v / 2 ^ 8)) as H1.
  rewrite (bind_ok _ _ _ _ _ H1).
  pose proof (Hs _ [u8 v; u8 (v / 2 ^ 8)] eq_refl ltac:(cbn; lia) (v / 2 ^ 16)) as H2.
  rewrite (bind_ok _ _ _ _ _ H2).
  exact (Hs _ [u8 v; u8 (v / 2 ^ 8); u8 (v / 2 ^ 16)] eq_refl ltac:(cbn; lia) (v / 2 ^ 24)).
Qed.

Lemma load32_store32 m a v m' :
  is_u32 v → store32 a v m = Ok (tt, m') → mapped m a 4 → load32 a m' = Ok (v, m').
Proof.
  intros Hv Hs Hm. rewrite store32_ok in Hs by done. simplify_eq.
  apply load32_le32; [|done]. apply (put_bytes_at m a (le32 v)).
Qed.

(** A store to a mapped address maps no other. *)
Lemma dom_insert_mapped (m : mem) a v : is_Some (m !! a) → dom (<[a := v]> m) = dom m.
Proof. intros H. rewrite dom_insert_L. apply elem_of_dom in H. set_solver. Qed.

Lemma load32_agree m m' a v :
  load32 a m = Ok (v, m) → (∀ x, a ≤ x < a + 4 → m' !! x = m !! x) → load32 a m' = Ok (v, m').
Proof.
  intros E Ha. revert E. unfold load32, load8, mbind, K_bind, mret, K_ret.
  rewrite (Ha a) by lia. destruct (m !! a); [|done].
  rewrite (Ha (a + 1)) by lia. destruct (m !! (a + 1)); [|done].
  rewrite (Ha (a + 2)) by lia. destruct (m !! (a + 2)); [|done].
  rewrite (Ha (a + 3)) by lia. destruct (m !! (a + 3)); [|done].
  intros E. injection E as <-. done.
Qed.

(** ** C strings *)

Lemma cstr_at_char m a s (i : nat) c :
  cstr_at m a s → s !! i = Some c → load8 (a + Z.of_nat i) m = Ok (c, m) ∧ is_char c.
Proof.
  intros [Hb Hs] Hi. split.
  - eapply load8_bytes; [done|lia|]. rewrite Nat2Z.id, lookup_app_l; [done|].
    by eapply lookup_lt_Some.
  - by eapply Forall_lookup_1 in Hs.
Qed.

Lemma cstr_at_end m a s :
  cstr_at m a s → load8 (a + Z.of_nat (length s)) m = Ok (0, m).
Proof.
  intros [Hb _]. eapply load8_bytes; [done|lia|].
  rewrite Nat2Z.id, lookup_app_r, Nat.sub_diag; done.
Qed.

Lemma cstr_at_size m a s : cstr_at m a s → (length s < size m)%nat.
Proof. intros [H%bytes_at_size _]. rewrite length_app in H. cbn in H. lia. Qed.

Lemma cstr_at_agree m m' a s :
  (∀ x, a ≤ x ≤ a + Z.of_nat (length s) → m' !! x = m !! x) →
  cstr_at m a s → cstr_at m' a s.
Proof.
  intros H [Hb Hs]. split; [|done]. eapply bytes_at_agree; [|done].
  intros x Hx. apply H. rewrite length_app in Hx. cbn in Hx. lia.
Qed.

Lemma cstr_at_put_disjoint m a k b s :
  disjoint_range a (Z.of_nat (length k)) b (Z.of_nat (length s) + 1) →
  cstr_at m b s → cstr_at (put_bytes m a k) b s.
Proof.
  intros Hd. apply cstr_at_agree. intros x Hx. apply put_bytes_outside.
  unfold disjoint_range in Hd. lia.
Qed.

(** A string is determined by the memory: two strings at one address agree. *)
Lemma cstr_at_unique m a s s' : cstr_at m a s → cstr_at m a s' → s = s'.
Proof.
  unfold cstr_at, is_char. revert a s'.
  induction s as [|c s IH]; intros a s' [H1 H2] [H3 H4];
    destruct s' as [|c' s']; cbn in *; try done;
    rewrite ?Forall_cons in *; destruct_and?; simplify_eq; try lia.
  f_equal. eapply IH; split; done.
Qed.

Lemma cstr_at_u8 m a s : cstr_at m a s → Forall is_u8 s.
Proof. intros [_ H]. eapply Forall_impl; [done|]. unfold is_char, is_u8. lia. Qed.

#[export] Hint Resolve load8_ok store8_ok mapped_sub : clos.
