(* ===== verification/CString.v ===== *)
(** * The string and memory routines of [lib.c]

    [strlen], [strcpy], [strncpy], [strncmp], [strrev], [itoa] and the
    assembly bodies of [memset], [memset_word], [memset_dword], [memcpy] and
    [memmove], over the byte memory. Each returns what the C function returns.
    The loops of the assembly count their register down, so they recurse on
    it; the loops of the C code touch a new address in every iteration, so
    the number of mapped addresses is fuel enough. *)

From S2P Require Import Prelude CInt Memory.

(** [while(s[len] != '\0') len++;] *)
Fixpoint strlen_loop (fuel : nat) (s len : Z) : K mem Z :=
  match fuel with
  | O => kspin
  | S fuel' =>
      c ← load8 (s + len);
      if bool_decide (c = 0) then mret len
      else strlen_loop fuel' s (u32 (len + 1))
  end.
Definition strlen (s : Z) : K mem Z := mem_fuel (λ fuel, strlen_loop fuel s 0).

(** [for(i=0; i<n; i++) if (s1[i] != s2[i] || s1[i] == '\0') return s1[i]-s2[i];] *)
Fixpoint strncmp_loop (fuel : nat) (s1 s2 i n : Z) : K mem Z :=
  match fuel with
  | O => kspin
  | S fuel' =>
      if bool_decide (i < n) then
        a ← load8 (s1 + i); b ← load8 (s2 + i);
        if bool_decide (a ≠ b) || bool_decide (a = 0) then mret (s8 a - s8 b)
        else strncmp_loop fuel' s1 s2 (i + 1) n
      else mret 0
  end.
Definition strncmp (s1 s2 n : Z) : K mem Z :=
  mem_fuel (λ fuel, strncmp_loop fuel s1 s2 0 n).

Fixpoint strcpy_loop (fuel : nat) (dest src i : Z) : K mem Z :=
  match fuel with
  | O => kspin
  | S fuel' =>
      c ← load8 (src + i);
      if bool_decide (c ≠ 0) then
        _ ← store8 (dest + i) c; strcpy_loop fuel' dest src (i + 1)
      else mret i
  end.
Definition strcpy (dest src : Z) : K mem Z :=
  i ← mem_fuel (λ fuel, strcpy_loop fuel dest src 0);
  _ ← store8 (dest + i) 0; mret dest.

(** The first loop of [strncpy]: it looks at [src[i]] before it tests [i < n]. *)
Fixpoint strncpy_copy (fuel : nat) (dest src i n : Z) : K mem Z :=
  match fuel with
  | O => kspin
  | S fuel' =>
      c ← load8 (src + i);
      if bool_decide (c ≠ 0) && bool_decide (i < n) then
        _ ← store8 (dest + i) c; strncpy_copy fuel' dest src (i + 1) n
      else mret i
  end.
(** The second loop: [while(i < n) dest[i++] = '\0';] *)
Fixpoint strncpy_pad (fuel : nat) (dest i n : Z) : K mem unit :=
  match fuel with
  | O => kspin
  | S fuel' =>
      if bool_decide (i < n) then
        _ ← store8 (dest + i) 0; strncpy_pad fuel' dest (i + 1) n
      else mret tt
  end.
Definition strncpy (dest src n : Z) : K mem Z :=
  i ← mem_fuel (λ fuel, strncpy_copy fuel dest src 0 n);
  _ ← mem_fuel (λ fuel, strncpy_pad fuel dest i n); mret dest.

(** [while(beg < end) swap(s[beg++], s[end--]);] *)
Fixpoint strrev_loop (fuel : nat) (s beg end_ : Z) : K mem unit :=
  match fuel with
  | O => kspin
  | S fuel' =>
      if bool_decide (beg < end_) then
        tmp ← load8 (s + end_);
        sb ← load8 (s + beg);
        _ ← store8 (s + end_) sb;
        _ ← store8 (s + beg) tmp;
        strrev_loop fuel' s (beg + 1) (end_ - 1)
      else mret tt
  end.
Definition strrev (s : Z) : K mem Z :=
  len ← strlen s;
  _ ← mem_fuel (λ fuel, strrev_loop fuel s 0 (s32 len - 1)); mret s.

(** The bytes of a string literal, without its terminator. *)
Fixpoint chars (s : string) : list Z :=
  match s with
  | EmptyString => []
  | String c s => Z.of_N (Ascii.N_of_ascii c) :: chars s
  end.
Definition newline : list Z := [10].

(** ["0123456789ABCDEFGHIJKLMNOPQRSTUVWXYZ"] with its terminator. *)
Definition lookup_digits : list Z := seqZ 48 10 ++ seqZ 65 26 ++ [0].

(** [while(newval > 0) { i = newval % radix; *newbuf++ = lookup[i]; newval /= radix; }]
    The result is the position after the last digit. *)
Fixpoint itoa_loop (fuel : nat) (newval newbuf radix : Z) : K mem Z :=
  match fuel with
  | O => kspin
  | S fuel' =>
      if bool_decide (newval > 0) then
        if bool_decide (radix = 0) then kfault else
        c ← klift (zlookup lookup_digits (newval mod radix));
        _ ← store8 newbuf c;
        itoa_loop fuel' (newval / radix) (newbuf + 1) radix
      else mret newbuf
  end.
Definition itoa (value buf radix : Z) : K mem Z :=
  if bool_decide (value = 0) then
    _ ← store8 buf 48; _ ← store8 (buf + 1) 0; mret buf
  else
    newbuf ← mem_fuel (λ fuel, itoa_loop fuel value buf (u32 radix));
    _ ← store8 newbuf 0;
    strrev buf.

(** ** Assembly bodies *)

(** [.memset_top]: single bytes until [edi] is aligned or [ecx] is zero;
    gives the registers [ecx] and [edi]. *)
Fixpoint memset_top (ecx : nat) (edi al : Z) : K mem (nat * Z) :=
  match ecx with
  | O => mret (O, edi)
  | S ecx' =>
      if bool_decide (Z.land edi 3 = 0) then mret (ecx, edi)
      else _ ← store8 edi al; memset_top ecx' (edi + 1) al
  end.
(** [rep stosl] with the direction flag clear; gives [edi]. *)
Fixpoint rep_stosl (ecx : nat) (edi eax : Z) : K mem Z :=
  match ecx with
  | O => mret edi
  | S ecx' => _ ← store32 edi eax; rep_stosl ecx' (edi + 4) eax
  end.
(** [rep stosw]. *)
Fixpoint rep_stosw (ecx : nat) (edi ax : Z) : K mem Z :=
  match ecx with
  | O => mret edi
  | S ecx' => _ ← store8 edi ax; _ ← store8 (edi + 1) (ax / 2 ^ 8); rep_stosw ecx' (edi + 2) ax
  end.
(** [.memset_bottom]: the remaining [edx] single bytes. *)
Fixpoint memset_bottom (edx : nat) (edi al : Z) : K mem unit :=
  match edx with
  | O => mret tt
  | S edx' => _ ← store8 edi al; memset_bottom edx' (edi + 1) al
  end.
Definition memset (s c n : Z) : K mem Z :=
  let c := Z.land c 0xFF in
  let eax := Z.lor (Z.lor (Z.lor (Z.shiftl c 24) (Z.shiftl c 16)) (Z.shiftl c 8)) c in
  '(ecx, edi) ← memset_top (Z.to_nat n) s eax;
  if bool_decide (ecx = O) then mret s else
  let edx := Z.land (Z.of_nat ecx) 3 in
  edi ← rep_stosl (Z.to_nat (Z.shiftr (Z.of_nat ecx) 2)) edi eax;
  _ ← memset_bottom (Z.to_nat edx) edi eax;
  mret s.
Definition memset_word (s c n : Z) : K mem Z :=
  _ ← rep_stosw (Z.to_nat n) s c; mret s.
Definition memset_dword (s c n : Z) : K mem Z :=
  _ ← rep_stosl (Z.to_nat n) s c; mret s.

(** [.memcpy_top]: gives [ecx], [edi] and [esi]. *)
Fixpoint memcpy_top (ecx : nat) (edi esi : Z) : K mem (nat * Z * Z) :=
  match ecx with
  | O => mret (O, edi, esi)
  | S ecx' =>
      if bool_decide (Z.land edi 3 = 0) then mret (ecx, edi, esi)
      else b ← load8 esi; _ ← store8 edi b; memcpy_top ecx' (edi + 1) (esi + 1)
  end.
(** [rep movsl] with the direction flag clear; gives [edi] and [esi]. *)
Fixpoint rep_movsl (ecx : nat) (edi esi : Z) : K mem (Z * Z) :=
  match ecx with
  | O => mret (edi, esi)
  | S ecx' => w ← load32 esi; _ ← store32 edi w; rep_movsl ecx' (edi + 4) (esi + 4)
  end.
Fixpoint memcpy_bottom (edx : nat) (edi esi : Z) : K mem unit :=
  match edx with
  | O => mret tt
  | S edx' => b ← load8 esi; _ ← store8 edi b; memcpy_bottom edx' (edi + 1) (esi + 1)
  end.
Definition memcpy (dest src n : Z) : K mem Z :=
  '(ecx, edi, esi) ← memcpy_top (Z.to_nat n) dest src;
  if bool_decide (ecx = O) then mret dest else
  let edx := Z.land (Z.of_nat ecx) 3 in
  '(edi, esi) ← rep_movsl (Z.to_nat (Z.shiftr (Z.of_nat ecx) 2)) edi esi;
  _ ← memcpy_bottom (Z.to_nat edx) edi esi;
  mret dest.

(** [rep movsb]: the direction flag gives the sense of the two pointers. *)
Fixpoint rep_movsb (ecx : nat) (edi esi : Z) (df : bool) : K mem unit :=
  match ecx with
  | O => mret tt
  | S ecx' =>
      b ← load8 esi; _ ← store8 edi b;
      let d := if df then -1 else 1 in
      rep_movsb ecx' (edi + d) (esi + d) df
  end.
(** [memmove] gives [dest] and the direction flag it leaves behind: [cld] at
    the start, [std] on the backward path, and no [cld] after it. *)
Definition memmove (dest src n : Z) : K mem (Z * bool) :=
  if bool_decide (dest ≤ src) then
    _ ← rep_movsb (Z.to_nat n) dest src false; mret (dest, false)
  else
    _ ← rep_movsb (Z.to_nat n) (dest + n - 1) (src + n - 1) true; mret (dest, true).

(** ** Reference functions *)

(** [strncmp] of two byte sequences; [None] when it would need bytes past
    their ends. *)
Fixpoint ncmp (n : nat) (l1 l2 : list Z) : option Z :=
  match n, l1, l2 with
  | O, _, _ => Some 0
  | S n', a :: l1', b :: l2' =>
      if bool_decide (a ≠ b) || bool_decide (a = 0) then Some (s8 a - s8 b)
      else ncmp n' l1' l2'
  | _, _, _ => None
  end.

(** The number a digit string denotes, most significant digit first. *)
Definition digit_value (c : Z) : Z := if bool_decide (c < 58) then c - 48 else c - 55.
Definition number_of (radix : Z) (s : list Z) : Z :=
  foldl (λ acc c, acc * radix + digit_value c) 0 s.
(** Its digits, least significant first. *)
Fixpoint digits_rev (fuel : nat) (v radix : Z) : list Z :=
  match fuel with
  | O => []
  | S fuel' =>
      if bool_decide (v > 0) then
        default 0 (zlookup lookup_digits (v mod radix)) :: digits_rev fuel' (v / radix) radix
      else []
  end.
Definition digits (v radix : Z) : list Z :=
  if bool_decide (v = 0) then [48] else reverse (digits_rev 32 v radix).

(** ** strlen *)

Lemma strlen_loop_ok m s str fuel (k : nat) :
  cstr_at m s str → Z.of_nat (length str) < 2 ^ 32 →
  (k ≤ length str)%nat → (length str - k < fuel)%nat →
  strlen_loop fuel s (Z.of_nat k) m = Ok (Z.of_nat (length str), m).
Proof.
  intros Hs Hlen. revert k. induction fuel as [|fuel IH]; intros k Hk Hf; [lia|].
  cbn [strlen_loop]. destruct (decide (k = length str)) as [->|Hne].
  - by rewrite (bind_ok _ _ _ _ _ (cstr_at_end _ _ _ Hs)).
  - destruct (lookup_lt_is_Some_2 str k) as [c Hc]; [lia|].
    destruct (cstr_at_char _ _ _ _ _ Hs Hc) as [Hl Hnz].
    rewrite (bind_ok _ _ _ _ _ Hl), bool_decide_eq_false_2 by (unfold is_char in Hnz; lia).
    rewrite u32_id by (unfold is_u32; lia).
    replace (Z.of_nat k + 1) with (Z.of_nat (S k)) by lia. apply IH; lia.
Qed.

Lemma strlen_ok m s str :
  cstr_at m s str → Z.of_nat (length str) < 2 ^ 32 →
  strlen s m = Ok (Z.of_nat (length str), m).
Proof.
  intros Hs Hl. pose proof (cstr_at_size _ _ _ Hs).
  apply (strlen_loop_ok m s str _ 0); [done|done|lia|lia].
Qed.

(** ** strncmp *)

Lemma strncmp_loop_ok m s1 s2 n l1 l2 k i r fuel :
  bytes_at m (s1 + i) l1 → bytes_at m (s2 + i) l2 →
  k = Z.to_nat (n - i) → (length l1 < fuel)%nat →
  ncmp k l1 l2 = Some r → strncmp_loop fuel s1 s2 i n m = Ok (r, m).
Proof.
  intros H1 H2 Hk Hf. revert l1 l2 i k H1 H2 Hk Hf.
  induction fuel as [|fuel IH]; intros l1 l2 i k H1 H2 Hk Hf Hr; [lia|].
  cbn [strncmp_loop]. destruct k as [|k].
  - rewrite bool_decide_eq_false_2 by lia. by destruct l1; simplify_eq/=.
  - rewrite bool_decide_eq_true_2 by lia. cbn [ncmp] in Hr.
    destruct l1 as [|a l1]; [done|]. destruct l2 as [|b l2]; [done|].
    destruct H1 as [Ha H1], H2 as [Hb H2].
    rewrite (bind_ok _ _ _ _ _ (load8_ok _ _ _ Ha)), (bind_ok _ _ _ _ _ (load8_ok _ _ _ Hb)).
    destruct (_ || _); [by simplify_eq|].
    rewrite <-Z.add_assoc in H1, H2. cbn [length] in Hf.
    eapply IH; [done|done| |lia|done]. lia.
Qed.

Lemma strncmp_ok m s1 s2 n l1 l2 r :
  bytes_at m s1 l1 → bytes_at m s2 l2 →
  ncmp (Z.to_nat n) l1 l2 = Some r → strncmp s1 s2 n m = Ok (r, m).
Proof.
  intros H1 H2 Hr. pose proof (bytes_at_size _ _ _ H1).
  eapply strncmp_loop_ok; [rewrite Z.add_0_r; done|rewrite Z.add_0_r; done|done| |].
  - lia.
  - by rewrite Z.sub_0_r.
Qed.

(** The comparison of two C strings looks at no more than their bytes, and is
    zero exactly when they have the same first [n] characters. *)
Lemma ncmp_cstr n x y :
  Forall is_char x → Forall is_char y →
  ∃ r, ncmp n (x ++ [0]) (y ++ [0]) = Some r ∧ (r = 0 ↔ take n x = take n y).
Proof.
  revert x y. induction n as [|n IH]; intros x y Hx Hy.
  { exists 0. by destruct x, y. }
  destruct x as [|a x], y as [|b y]; cbn [app ncmp take].
  - exists 0. split; [by case_bool_decide|done].
  - apply Forall_cons in Hy as [Hb _]. unfold is_char in Hb.
    rewrite bool_decide_eq_true_2 by lia. eexists; split; [done|].
    split; [|done]. intros H. assert (s8 b = 0) as Hz by (change (s8 0) with 0 in H; lia).
    apply s8_zero in Hz; unfold is_u8; lia.
  - apply Forall_cons in Hx as [Ha _]. unfold is_char in Ha.
    rewrite bool_decide_eq_true_2 by lia. eexists; split; [done|].
    split; [|done]. intros H. assert (s8 a = 0) as Hz by (change (s8 0) with 0 in H; lia).
    apply s8_zero in Hz; unfold is_u8; lia.
  - apply Forall_cons in Hx as [Ha Hx]. apply Forall_cons in Hy as [Hb Hy].
    unfold is_char in Ha, Hb. rewrite (bool_decide_eq_false_2 (a = 0)) by lia.
    rewrite orb_false_r. case_bool_decide.
    + eexists; split; [done|]. split; [|naive_solver].
      intros E. assert (s8 a = s8 b) as He by lia. apply s8_inj in He; unfold is_u8; lia.
    + subst b. destruct (IH x y Hx Hy) as (r & Hr & Hiff). exists r. split; [done|].
      rewrite Hiff. split; [by intros ->|by intros [=]].
Qed.

(** ** strcpy and strncpy *)

Section copy.
Context (m : mem) (dest src : Z).

(** While the bytes before position [i] of [x] are in place, the source is
    still what it was. *)
Lemma copy_load x k (i : nat) c :
  bytes_at m src k → k !! i = Some c →
  disjoint_range dest (Z.of_nat (length x)) src (Z.of_nat (length k)) →
  load8 (src + Z.of_nat i) (put_bytes m dest x) = Ok (c, put_bytes m dest x).
Proof.
  intros Hk Hi Hd. eapply load8_bytes; [|lia|by rewrite Nat2Z.id].
  apply bytes_at_put_disjoint; [done|]. done.
Qed.

Lemma copy_store x c :
  mapped m (dest + Z.of_nat (length x)) 1 →
  store8 (dest + Z.of_nat (length x)) c (put_bytes m dest x) =
  Ok (tt, put_bytes m dest (x ++ [u8 c])).
Proof. rewrite mapped_spec. intros H. apply store8_snoc, H. lia. Qed.
End copy.

Lemma strcpy_loop_ok m dest src s done rest fuel :
  cstr_at m src s → s = done ++ rest →
  mapped m dest (Z.of_nat (length s)) →
  disjoint_range dest (Z.of_nat (length s)) src (Z.of_nat (length s) + 1) →
  (length rest < fuel)%nat →
  strcpy_loop fuel dest src (Z.of_nat (length done)) (put_bytes m dest done) =
  Ok (Z.of_nat (length s), put_bytes m dest s).
Proof.
  intros Hs -> Hm Hd. revert done Hs Hm Hd fuel.
  induction rest as [|c rest IH]; intros done Hs Hm Hd fuel Hf;
    (destruct fuel as [|fuel]; [cbn in Hf; lia|]); cbn [strcpy_loop].
  - rewrite app_nil_r in *. erewrite bind_ok.
    2:{ eapply copy_load; [apply Hs|apply list_lookup_middle; reflexivity|].
        rewrite length_app; cbn [length]. unfold disjoint_range in *. lia. }
    by rewrite bool_decide_eq_false_2 by naive_solver.
  - rewrite length_app in Hm, Hd. cbn [length] in Hm, Hd.
    assert (is_char c) as Hc.
    { destruct Hs as [_ Hs]. apply Forall_app in Hs as [_ Hs]. by inversion Hs. }
    erewrite bind_ok.
    2:{ eapply copy_load; [apply Hs| |].
        - rewrite <-app_assoc. apply list_lookup_middle. reflexivity.
        - rewrite !length_app; cbn [length]. unfold disjoint_range in *. lia. }
    unfold is_char in Hc. rewrite bool_decide_eq_true_2 by lia.
    erewrite bind_ok.
    2:{ apply copy_store. eapply mapped_sub; [done|lia|lia]. }
    rewrite u8_id by (unfold is_u8; lia).
    replace (Z.of_nat (length done) + 1) with (Z.of_nat (length (done ++ [c])))
      by (rewrite length_app; cbn; lia).
    rewrite (cons_middle c done rest), app_assoc. apply IH.
    + by rewrite <-app_assoc.
    + eapply mapped_sub; [done|lia|]. rewrite !length_app. cbn. lia.
    + rewrite !length_app. cbn. unfold disjoint_range in *. lia.
    + cbn in Hf. lia.
Qed.

Lemma strcpy_ok m dest src s :
  cstr_at m src s → mapped m dest (Z.of_nat (length s) + 1) →
  disjoint_range dest (Z.of_nat (length s) + 1) src (Z.of_nat (length s) + 1) →
  strcpy dest src m = Ok (dest, put_bytes m dest (s ++ [0])).
Proof.
  intros Hs Hm Hd. unfold strcpy. erewrite bind_ok.
  2:{ apply (strcpy_loop_ok m dest src s [] s); [done|done|..].
      - eapply mapped_sub; [done|lia|lia].
      - unfold disjoint_range in *. lia.
      - pose proof (cstr_at_size _ _ _ Hs). lia. }
  erewrite bind_ok.
  2:{ apply copy_store. eapply mapped_sub; [done|lia|lia]. }
  done.
Qed.

Lemma strncpy_copy_ok m dest src n x c done rest fuel :
  bytes_at m src (x ++ [c]) → Forall is_char x → x = done ++ rest →
  c = 0 ∧ Z.of_nat (length x) ≤ n ∨ Z.of_nat (length x) = n →
  mapped m dest (Z.of_nat (length x)) →
  disjoint_range dest (Z.of_nat (length x)) src (Z.of_nat (length x) + 1) →
  (length rest < fuel)%nat →
  strncpy_copy fuel dest src (Z.of_nat (length done)) n (put_bytes m dest done) =
  Ok (Z.of_nat (length x), put_bytes m dest x).
Proof.
  intros Hs Hx -> Hc Hm Hd. revert done Hs Hx Hc Hm Hd fuel.
  induction rest as [|b rest IH]; intros done Hs Hx Hc Hm Hd fuel Hf;
    (destruct fuel as [|fuel]; [cbn in Hf; lia|]); cbn [strncpy_copy].
  - rewrite app_nil_r in *. erewrite bind_ok.
    2:{ eapply copy_load; [apply Hs|apply list_lookup_middle; reflexivity|].
        rewrite length_app; cbn [length]. unfold disjoint_range in *. lia. }
    destruct Hc as [[-> _]|<-].
    + by rewrite bool_decide_eq_false_2 by naive_solver.
    + by rewrite (bool_decide_eq_false_2 (_ < _)), andb_false_r by lia.
  - rewrite length_app in Hm, Hd, Hc. cbn [length] in Hm, Hd, Hc.
    assert (is_char b) as Hb by (apply Forall_app in Hx as [_ Hx]; by inversion Hx).
    erewrite bind_ok.
    2:{ eapply copy_load; [apply Hs| |].
        - rewrite <-app_assoc. apply list_lookup_middle. reflexivity.
        - rewrite !length_app; cbn [length]. unfold disjoint_range in *. lia. }
    unfold is_char in Hb. rewrite !bool_decide_eq_true_2 by lia. cbn [andb].
    erewrite bind_ok.
    2:{ apply copy_store. eapply mapped_sub; [done|lia|lia]. }
    rewrite u8_id by (unfold is_u8; lia).
    replace (Z.of_nat (length done) + 1) with (Z.of_nat (length (done ++ [b])))
      by (rewrite length_app; cbn; lia).
    rewrite (cons_middle b done rest), app_assoc in *. apply IH;
      rewrite <-?app_assoc, ?length_app in *; cbn [length app] in *;
      [done|done|lia|eapply mapped_sub; [done|lia|lia]|unfold disjoint_range in *; lia|lia].
Qed.

Lemma strncpy_pad_ok m dest n x fuel k :
  mapped m dest n → k = Z.to_nat (n - Z.of_nat (length x)) → (k < fuel)%nat →
  strncpy_pad fuel dest (Z.of_nat (length x)) n (put_bytes m dest x) =
  Ok (tt, put_bytes m dest (x ++ replicate k 0)).
Proof.
  intros Hm. revert x k. induction fuel as [|fuel IH]; intros x k Hk Hf; [lia|].
  cbn [strncpy_pad]. destruct k as [|k].
  - rewrite bool_decide_eq_false_2 by lia. cbn [replicate]. by rewrite app_nil_r.
  - rewrite bool_decide_eq_true_2 by lia. erewrite bind_ok.
    2:{ apply copy_store. eapply mapped_sub; [done|lia|lia]. }
    change (u8 0) with 0.
    replace (Z.of_nat (length x) + 1) with (Z.of_nat (length (x ++ [0])))
      by (rewrite length_app; cbn; lia).
    rewrite (IH _ k); [|rewrite length_app; cbn [length]; lia|lia].
    rewrite <-app_assoc. done.
Qed.

Lemma strncpy_ok m dest src n x c :
  bytes_at m src (x ++ [c]) → Forall is_char x →
  c = 0 ∧ Z.of_nat (length x) ≤ n ∨ Z.of_nat (length x) = n →
  mapped m dest n →
  disjoint_range dest n src (Z.of_nat (length x) + 1) →
  strncpy dest src n m =
  Ok (dest, put_bytes m dest (x ++ replicate (Z.to_nat (n - Z.of_nat (length x))) 0)).
Proof.
  intros Hs Hx Hc Hm Hd. unfold strncpy. erewrite bind_ok.
  2:{ apply (strncpy_copy_ok m dest src n x c [] x); [done|done|done|done|..].
      - eapply mapped_sub; [done|lia|lia].
      - unfold disjoint_range in *. lia.
      - pose proof (bytes_at_size _ _ _ Hs) as Hz. rewrite length_app in Hz. cbn in Hz. lia. }
  erewrite bind_ok; [done|]. unfold mem_fuel. apply strncpy_pad_ok; [done|done|].
  pose proof (mapped_size _ _ _ Hm) as Hz.
  rewrite <-size_dom in *. rewrite put_bytes_dom; [lia|]. eapply mapped_sub; [done|lia|lia].
Qed.

Lemma strncpy_cstr m dest src n s :
  cstr_at m src s → 0 ≤ n → mapped m dest n →
  disjoint_range dest n src (Z.of_nat (length s) + 1) →
  let x := take (Z.to_nat n) s in
  strncpy dest src n m =
  Ok (dest, put_bytes m dest (x ++ replicate (Z.to_nat (n - Z.of_nat (length x))) 0)).
Proof.
  intros [Hb Hs] Hn Hm Hd x. destruct (decide (Z.of_nat (length s) ≤ n)) as [Hle|Hgt].
  - assert (x = s) as -> by (apply take_ge; lia).
    apply (strncpy_ok _ _ _ _ _ 0); auto.
  - destruct (lookup_lt_is_Some_2 s (Z.to_nat n)) as [c Hc]; [lia|].
    assert (Z.of_nat (length x) = n) as Hl by (unfold x; rewrite length_take; lia).
    apply (strncpy_ok _ _ _ _ _ c); auto.
    + rewrite <-(take_drop_middle s (Z.to_nat n) c Hc), <-app_assoc in Hb.
      cbn [app] in Hb. rewrite cons_middle, app_assoc, bytes_at_app in Hb. apply Hb.
    + unfold x. by apply Forall_take.
    + unfold disjoint_range in *. lia.
Qed.

(** ** strrev *)

(** The state of the reversal: the ends up to [beg] are already swapped. *)
Definition part_reversed (str l : list Z) (beg : Z) : Prop :=
  length l = length str ∧
  ∀ i : nat, (i < length str)%nat →
    l !! i = if decide (Z.of_nat i < beg ∨ Z.of_nat (length str) - 1 - beg < Z.of_nat i)
             then str !! (length str - 1 - i)%nat else str !! i.

Lemma part_reversed_done str l beg :
  part_reversed str l beg → Z.of_nat (length str) - 1 - beg ≤ beg → l = reverse str.
Proof.
  intros [Hl H] Hb. apply list_eq. intros i.
  destruct (decide (i < length str)%nat) as [Hi|Hi].
  - rewrite H by done. rewrite reverse_lookup by done. case_decide as Hd.
    + f_equal. lia.
    + f_equal. lia.
  - rewrite !lookup_ge_None_2; rewrite ?length_reverse; [done|lia|lia].
Qed.

Lemma part_reversed_step str l beg a b :
  part_reversed str l beg → 0 ≤ beg → beg < Z.of_nat (length str) - 1 - beg →
  let end_ := Z.of_nat (length str) - 1 - beg in
  l !! Z.to_nat end_ = Some a → l !! Z.to_nat beg = Some b →
  part_reversed str (<[Z.to_nat beg := a]> (<[Z.to_nat end_ := b]> l)) (beg + 1).
Proof.
  intros [Hl H] H0 Hlt end_ Ha Hb. unfold end_ in *. split; [by rewrite !length_insert|].
  intros i Hi. rewrite H in Ha, Hb by lia.
  rewrite decide_False in Ha by lia. rewrite decide_False in Hb by lia.
  destruct (decide (i = Z.to_nat beg)) as [->|N1].
  { rewrite list_lookup_insert_eq by (rewrite length_insert; lia).
    rewrite decide_True by lia. rewrite <-Ha. f_equal. lia. }
  rewrite list_lookup_insert_ne by done.
  destruct (decide (i = Z.to_nat (Z.of_nat (length str) - 1 - beg))) as [->|N2].
  { rewrite list_lookup_insert_eq by lia.
    rewrite decide_True by lia. rewrite <-Hb. f_equal. lia. }
  rewrite list_lookup_insert_ne, H by done. repeat case_decide; try done; lia.
Qed.

Lemma strrev_loop_ok m s str l beg fuel :
  part_reversed str l beg → 0 ≤ beg ≤ Z.of_nat (length str) → Forall is_u8 l →
  mapped m s (Z.of_nat (length str)) → Z.of_nat (length str) - beg < Z.of_nat fuel →
  strrev_loop fuel s beg (Z.of_nat (length str) - 1 - beg) (put_bytes m s l) =
  Ok (tt, put_bytes m s (reverse str)).
Proof.
  revert l beg. induction fuel as [|fuel IH]; intros l beg Hp H0 Hu Hm Hf; [lia|].
  pose proof Hp as [Hl _]; cbn [strrev_loop]. case_bool_decide as Hlt.
  2:{ by rewrite (part_reversed_done _ _ _ Hp) by lia. }
  set (end_ := Z.of_nat (length str) - 1 - beg) in *.
  destruct (lookup_lt_is_Some_2 l (Z.to_nat end_)) as [a Ha]; [lia|].
  destruct (lookup_lt_is_Some_2 l (Z.to_nat beg)) as [b Hb]; [lia|].
  erewrite bind_ok by (eapply load8_bytes; [apply put_bytes_at|lia|done]).
  erewrite bind_ok by (eapply load8_bytes; [apply put_bytes_at|lia|done]).
  assert (is_u8 a ∧ is_u8 b) as [Hua Hub]
    by (split; by eapply Forall_lookup_1).
  assert (∀ k i, 0 ≤ i < Z.of_nat (length str) → length k = length str →
    is_Some (put_bytes m s k !! (s + i))) as Hput.
  { intros k i Hi Hk. rewrite put_bytes_lookup, decide_True by lia.
    apply lookup_lt_is_Some. lia. }
  erewrite bind_ok by (apply store8_ok, Hput; lia).
  rewrite (u8_id b), put_bytes_insert by (done || lia).
  erewrite bind_ok by (apply store8_ok, Hput; rewrite ?length_insert; lia).
  rewrite (u8_id a), put_bytes_insert by (rewrite ?length_insert; done || lia).
  replace (end_ - 1) with (Z.of_nat (length str) - 1 - (beg + 1)) by lia.
  apply IH; [|lia| |done|lia].
  - by apply part_reversed_step; try lia.
  - by apply Forall_insert; [apply Forall_insert|].
Qed.

Lemma strrev_ok m s str :
  cstr_at m s str → Z.of_nat (length str) < 2 ^ 31 →
  strrev s m = Ok (s, put_bytes m s (reverse str)).
Proof.
  intros Hs Hl. unfold strrev. rewrite (bind_ok _ _ _ _ _ (strlen_ok _ _ _ Hs ltac:(lia))).
  rewrite s32_id by (unfold is_s32; lia).
  pose proof (cstr_at_u8 _ _ _ Hs) as Hu.
  destruct Hs as [Hb Hc]. apply bytes_at_app in Hb as [Hb Hz].
  erewrite bind_ok; [done|]. rewrite <-(put_bytes_id m s str) at 1 by done.
  unfold mem_fuel. replace (Z.of_nat (length str) - 1) with (Z.of_nat (length str) - 1 - 0) by lia.
  apply strrev_loop_ok; [|lia|done| |].
  - split; [done|]. intros i Hi. rewrite decide_False by lia. done.
  - by apply bytes_at_mapped.
  - rewrite put_bytes_id by done. apply bytes_at_size in Hb. lia.
Qed.

(** ** itoa *)

Lemma lookup_digit i :
  0 ≤ i < 36 → ∃ c, zlookup lookup_digits i = Some c ∧ is_char c ∧ digit_value c = i.
Proof.
  intros Hi.
  assert (Forall (λ i, is_char (default 0 (zlookup lookup_digits i)) ∧
    digit_value (default 0 (zlookup lookup_digits i)) = i) (seqZ 0 36)) as H
    by (apply (bool_decide_unpack _); by vm_compute).
  rewrite Forall_forall in H. specialize (H i). rewrite elem_of_seqZ in H.
  assert (length lookup_digits = 37%nat) as El by done.
  destruct (zlookup_is_Some lookup_digits i) as [_ [c Hc]]; [rewrite El; lia|].
  rewrite Hc in H. cbn in H. destruct H as [H1 H2]; [lia|]. exists c. done.
Qed.

Section digits.
Context (radix : Z) (Hradix : 2 ≤ radix ≤ 36).

Lemma digits_rev_chars k v : Forall is_char (digits_rev k v radix).
Proof using Hradix.
  revert v. induction k as [|k IH]; intros v; cbn [digits_rev]; [constructor|].
  case_bool_decide; [|constructor]. constructor; [|done].
  destruct (lookup_digit (v mod radix)) as (c & -> & Hc & _); [|done].
  pose proof (Z.mod_pos_bound v radix). lia.
Qed.

Lemma digits_rev_length k v : (length (digits_rev k v radix) ≤ k)%nat.
Proof using.
  revert v. induction k as [|k IH]; intros v; cbn [digits_rev]; [done|].
  case_bool_decide; cbn [length]; [|lia]. specialize (IH (v / radix)). lia.
Qed.

Lemma digits_rev_value k v :
  0 ≤ v < radix ^ Z.of_nat k → number_of radix (reverse (digits_rev k v radix)) = v.
Proof using Hradix.
  revert v. induction k as [|k IH]; intros v Hv; cbn [digits_rev].
  { cbn in *. lia. }
  case_bool_decide; [|cbn; lia].
  destruct (lookup_digit (v mod radix)) as (c & -> & _ & Hc).
  { pose proof (Z.mod_pos_bound v radix). lia. }
  rewrite reverse_cons. unfold number_of in *. rewrite foldl_app. cbn.
  rewrite IH, Hc.
  - pose proof (Z.div_mod v radix). lia.
  - rewrite Nat2Z.inj_succ, Z.pow_succ_r in Hv by lia. split.
    + apply Z.div_pos; lia.
    + apply Z.div_lt_upper_bound; lia.
Qed.

(** The digits are below the radix, and the most significant is not zero. *)
Lemma digits_rev_below k v :
  Forall (λ c, 0 ≤ digit_value c < radix) (digits_rev k v radix).
Proof using Hradix.
  revert v. induction k as [|k IH]; intros v; cbn [digits_rev]; [constructor|].
  case_bool_decide; [|constructor]. constructor; [|done].
  pose proof (Z.mod_pos_bound v radix).
  destruct (lookup_digit (v mod radix)) as (c & -> & _ & Hc); cbn; lia.
Qed.

Lemma digits_rev_last k v :
  0 < v < radix ^ Z.of_nat k → last (digits_rev k v radix) ≠ Some 48.
Proof using Hradix.
  revert v. induction k as [|k IH]; intros v Hv; cbn [digits_rev]; [done|].
  rewrite bool_decide_eq_true_2 by lia.
  destruct (decide (v < radix)) as [Hlt|Hge].
  - rewrite Z.div_small by lia. replace (digits_rev k 0 radix) with (@nil Z).
    2:{ by destruct k. }
    destruct (lookup_digit (v mod radix)) as (c & -> & _ & Hc).
    { rewrite Z.mod_small; lia. }
    cbn. intros [= ->]. rewrite Z.mod_small in Hc by lia.
    change (digit_value 48) with 0 in Hc. lia.
  - assert (0 < v / radix < radix ^ Z.of_nat k) as Hq.
    { rewrite Nat2Z.inj_succ, Z.pow_succ_r in Hv by lia. split.
      - apply Z.div_str_pos. lia.
      - apply Z.div_lt_upper_bound; lia. }
    specialize (IH _ Hq). destruct (digits_rev k (v / radix) radix) as [|c l] eqn:E.
    2:{ destruct (zlookup _ _); exact IH. }
    apply (f_equal (λ l, number_of radix (reverse l))) in E.
    rewrite digits_rev_value in E by lia. change (number_of radix (reverse [])) with 0 in E. lia.
Qed.

Lemma itoa_loop_ok m buf k v fuel done :
  0 ≤ v < radix ^ Z.of_nat k → (length (digits_rev k v radix) < fuel)%nat →
  mapped m buf (Z.of_nat (length done + length (digits_rev k v radix))) →
  itoa_loop fuel v (buf + Z.of_nat (length done)) radix (put_bytes m buf done) =
  Ok (buf + Z.of_nat (length (done ++ digits_rev k v radix)),
      put_bytes m buf (done ++ digits_rev k v radix)).
Proof using Hradix.
  revert v fuel done. induction k as [|k IH]; intros v fuel done Hv Hf Hm;
    (destruct fuel as [|fuel]; [lia|]); cbn [itoa_loop digits_rev] in *.
  - cbn in Hv. rewrite bool_decide_eq_false_2, app_nil_r by lia. done.
  - case_bool_decide; [|by rewrite app_nil_r].
    rewrite bool_decide_eq_false_2 by lia.
    destruct (lookup_digit (v mod radix)) as (c & Hc & Hch & _).
    { pose proof (Z.mod_pos_bound v radix). lia. }
    rewrite Hc in *. cbn [klift default from_option length] in *.
    erewrite bind_ok by done. erewrite bind_ok.
    2:{ apply copy_store. eapply mapped_sub; [done|lia|lia]. }
    rewrite u8_id by (unfold is_char, is_u8 in *; lia).
    rewrite Nat2Z.inj_succ, Z.pow_succ_r in Hv by lia.
    replace (buf + Z.of_nat (length done) + 1)
      with (buf + Z.of_nat (length (done ++ [c]))) by (rewrite length_app; cbn; lia).
    cbn [length] in Hf. rewrite IH; [by rewrite <-app_assoc| |lia|].
    + split; [apply Z.div_pos; lia|apply Z.div_lt_upper_bound; lia].
    + rewrite length_app. cbn [length]. eapply mapped_sub; [done|lia|lia].
Qed.

Lemma digits_chars v : Forall is_char (digits v radix).
Proof using Hradix.
  unfold digits. case_bool_decide; [by repeat constructor|].
  apply Forall_reverse, digits_rev_chars.
Qed.

Lemma digits_length v : (1 ≤ length (digits v radix) ≤ 32)%nat ∨ v < 0.
Proof using Hradix.
  unfold digits. case_bool_decide; [cbn; lia|]. rewrite length_reverse.
  pose proof (digits_rev_length 32 v). destruct (decide (v < 0)); [lia|].
  left. split; [|lia]. cbn [digits_rev]. rewrite bool_decide_eq_true_2 by lia. cbn. lia.
Qed.

Lemma pow32_bound v : is_u32 v → 0 ≤ v < radix ^ Z.of_nat 32.
Proof using Hradix.
  unfold is_u32. intros. split; [lia|]. eapply Z.lt_le_trans; [apply H|].
  apply (Z.pow_le_mono_l 2 radix 32). lia.
Qed.

Lemma digits_value v : is_u32 v → number_of radix (digits v radix) = v.
Proof using Hradix.
  intros Hv. unfold digits. case_bool_decide; [by subst|].
  by apply digits_rev_value, pow32_bound.
Qed.

Lemma itoa_ok m v buf :
  is_u32 v → mapped m buf (Z.of_nat (length (digits v radix)) + 1) →
  itoa v buf radix m = Ok (buf, put_bytes m buf (digits v radix ++ [0])).
Proof using Hradix.
  intros Hv Hm. pose proof (pow32_bound v Hv) as Hp. unfold itoa, digits in *.
  case_bool_decide as Hz.
  - cbn [length] in Hm. erewrite bind_ok.
    2:{ apply store8_ok. rewrite mapped_spec in Hm. apply Hm. lia. }
    erewrite bind_ok.
    2:{ apply store8_ok. rewrite lookup_insert_is_Some.
        right. split; [lia|]. rewrite mapped_spec in Hm. apply Hm. lia. }
    change (u8 48) with 48. change (u8 0) with 0. cbn [app put_bytes].
    by rewrite insert_insert_ne by lia.
  - rewrite length_reverse in Hm. set (ds := digits_rev 32 v radix) in *.
    rewrite (u32_id radix) by (unfold is_u32; lia).
    pose proof (mapped_size _ _ _ Hm) as Hsz.
    assert (Forall is_char (reverse ds)) as Hch by apply Forall_reverse, digits_rev_chars.
    pose proof (digits_rev_length 32 v) as Hlen. fold ds in Hlen.
    pose proof (itoa_loop_ok m buf 32 v (S (size m)) [] Hp) as Hloop.
    cbn [length app put_bytes] in Hloop. fold ds in Hloop. rewrite Z.add_0_r in Hloop.
    erewrite bind_ok by (apply Hloop; [lia|eapply mapped_sub; [done|lia|lia]]).
    erewrite bind_ok.
    2:{ apply copy_store. eapply mapped_sub; [done|lia|lia]. }
    change (u8 0) with 0. rewrite strrev_ok with (str := ds).
    + rewrite put_bytes_app, put_bytes_app, length_reverse.
      rewrite put_bytes_put by (by rewrite length_reverse). done.
    + split; [apply put_bytes_at|]. by apply Forall_reverse in Hch; rewrite reverse_involutive in Hch.
    + lia.
Qed.
End digits.

(** ** memset *)

Lemma le32_of_le32 b0 b1 b2 b3 :
  is_u8 b0 → is_u8 b1 → is_u8 b2 → is_u8 b3 →
  le32 (of_le32 b0 b1 b2 b3) = [b0; b1; b2; b3].
Proof.
  unfold is_u8, le32, of_le32. intros. repeat f_equal;
    Z.to_euclidean_division_equations; lia.
Qed.

Lemma store32_snoc m a l v :
  mapped m (a + Z.of_nat (length l)) 4 →
  store32 (a + Z.of_nat (length l)) v (put_bytes m a l) =
  Ok (tt, put_bytes m a (l ++ le32 v)).
Proof.
  intros Hm. rewrite store32_ok.
  - rewrite (put_bytes_app _ _ l). f_equal. f_equal.
    apply map_eq. intros x. rewrite !put_bytes_lookup. repeat case_decide; try done.
    cbn in *. lia.
  - rewrite mapped_spec in *. intros x Hx. rewrite put_bytes_outside by lia. auto.
Qed.

Lemma memset_bottom_ok m a l c k :
  mapped m (a + Z.of_nat (length l)) (Z.of_nat k) →
  memset_bottom k (a + Z.of_nat (length l)) c (put_bytes m a l) =
  Ok (tt, put_bytes m a (l ++ replicate k (u8 c))).
Proof.
  revert l. induction k as [|k IH]; intros l Hm; cbn [memset_bottom replicate].
  - by rewrite app_nil_r.
  - erewrite bind_ok by (apply copy_store; eapply mapped_sub; [done|lia|lia]).
    replace (a + Z.of_nat (length l) + 1) with (a + Z.of_nat (length (l ++ [u8 c])))
      by (rewrite length_app; cbn; lia).
    rewrite IH by (rewrite length_app; cbn; eapply mapped_sub; [done|lia|lia]).
    by rewrite <-app_assoc.
Qed.

(** The alignment loop stops after at most [k] bytes, all of them set. *)
Lemma memset_top_ok m a l c k :
  mapped m (a + Z.of_nat (length l)) (Z.of_nat k) →
  ∃ j, (j ≤ k)%nat ∧
    memset_top k (a + Z.of_nat (length l)) c (put_bytes m a l) =
    Ok ((k - j)%nat, a + Z.of_nat (length l + j),
        put_bytes m a (l ++ replicate j (u8 c))).
Proof.
  revert l. induction k as [|k IH]; intros l Hm; cbn [memset_top].
  - exists 0%nat. cbn. by rewrite app_nil_r, Nat.add_0_r.
  - case_bool_decide.
    + exists 0%nat. cbn. rewrite app_nil_r, Nat.add_0_r. split; [lia|done].
    + erewrite bind_ok by (apply copy_store; eapply mapped_sub; [done|lia|lia]).
      destruct (IH (l ++ [u8 c])) as (j & Hj & E).
      { rewrite length_app; cbn. eapply mapped_sub; [done|lia|lia]. }
      exists (S j). split; [lia|].
      replace (a + Z.of_nat (length l) + 1) with (a + Z.of_nat (length (l ++ [u8 c])))
        by (rewrite length_app; cbn; lia).
      rewrite E, <-app_assoc, length_app. cbn [length app replicate].
      do 3 f_equal; [f_equal; lia].
Qed.

Lemma rep_stosl_ok m a l w c k :
  le32 w = replicate 4 c → mapped m (a + Z.of_nat (length l)) (4 * Z.of_nat k) →
  rep_stosl k (a + Z.of_nat (length l)) w (put_bytes m a l) =
  Ok (a + Z.of_nat (length l + 4 * k), put_bytes m a (l ++ replicate (4 * k) c)).
Proof.
  intros Hw. revert l. induction k as [|k IH]; intros l Hm; cbn [rep_stosl].
  - cbn. by rewrite app_nil_r, Nat.add_0_r.
  - erewrite bind_ok by (apply store32_snoc; eapply mapped_sub; [done|lia|lia]).
    rewrite Hw. replace (a + Z.of_nat (length l) + 4)
      with (a + Z.of_nat (length (l ++ replicate 4 c))) by (rewrite length_app; cbn; lia).
    rewrite IH by (rewrite length_app; cbn; eapply mapped_sub; [done|lia|lia]).
    rewrite <-app_assoc, <-replicate_add, length_app, length_replicate.
    do 2 f_equal; [f_equal; lia|]. do 3 f_equal. lia.
Qed.

(** The pattern [c<<24|c<<16|c<<8|c] has the byte [c] four times. *)
Lemma memset_pattern c : is_u8 c →
  Z.lor (Z.lor (Z.lor (Z.shiftl c 24) (Z.shiftl c 16)) (Z.shiftl c 8)) c = of_le32 c c c c.
Proof.
  unfold is_u8. intros Hc.
  assert (Forall (λ c, Z.lor (Z.lor (Z.lor (Z.shiftl c 24) (Z.shiftl c 16)) (Z.shiftl c 8)) c
    = of_le32 c c c c) (seqZ 0 256)) as H by (apply (bool_decide_unpack _); by vm_compute).
  rewrite Forall_forall in H. apply H, elem_of_seqZ. lia.
Qed.

Lemma land_255 c : Z.land c 0xFF = u8 c.
Proof. change 0xFF with (Z.ones 8). by rewrite Z.land_ones. Qed.

Lemma shiftr_2 n : Z.shiftr n 2 = n / 4.
Proof. by rewrite Z.shiftr_div_pow2. Qed.
Lemma land_3 n : Z.land n 3 = n mod 4.
Proof. change 3 with (Z.ones 2). by rewrite Z.land_ones. Qed.

Lemma memset_ok m s c n :
  0 ≤ n → mapped m s n →
  memset s c n m = Ok (s, put_bytes m s (replicate (Z.to_nat n) (u8 c))).
Proof.
  intros Hn Hm. unfold memset. rewrite land_255, memset_pattern by apply u8_range.
  pose proof (u8_range c) as Hc. set (b := u8 c) in *. set (w := of_le32 b b b b).
  assert (u8 w = b) as Hwb.
  { unfold w, of_le32, u8, is_u8 in *. Z.to_euclidean_division_equations. lia. }
  destruct (memset_top_ok m s [] w (Z.to_nat n)) as (j & Hj & E).
  { eapply mapped_sub; [done|cbn; lia|cbn; lia]. }
  cbn [length app put_bytes] in E. rewrite Z.add_0_r, Hwb in E.
  erewrite bind_ok by exact E. cbn [fst snd]. case_bool_decide as Hk.
  { by replace (Z.to_nat n) with j by lia. }
  rewrite shiftr_2, land_3. set (e := (Z.to_nat n - j)%nat) in *.
  pose proof (Z.div_mod (Z.of_nat e) 4 ltac:(lia)) as Hdm.
  pose proof (Z.mod_pos_bound (Z.of_nat e) 4 ltac:(lia)).
  pose proof (Z.div_pos (Z.of_nat e) 4 ltac:(lia) ltac:(lia)).
  replace (s + Z.of_nat (0 + j)) with (s + Z.of_nat (length (replicate j b)))
    by (rewrite length_replicate; lia).
  erewrite bind_ok.
  2:{ apply (rep_stosl_ok _ _ _ _ b).
      - apply le32_of_le32; done.
      - rewrite length_replicate. eapply mapped_sub; [done|lia|lia]. }
  rewrite <-replicate_add, length_replicate.
  set (q := Z.to_nat (Z.of_nat e / 4)) in *.
  replace (s + Z.of_nat (j + 4 * q)) with (s + Z.of_nat (length (replicate (j + 4 * q) b)))
    by (rewrite length_replicate; lia).
  erewrite bind_ok.
  2:{ apply memset_bottom_ok. rewrite length_replicate. eapply mapped_sub; [done|lia|lia]. }
  rewrite Hwb, <-replicate_add.
  by replace (j + 4 * q + Z.to_nat (Z.of_nat e mod 4))%nat with (Z.to_nat n) by lia.
Qed.

(** ** memcpy *)

Section memcpy.
Context (m : mem) (dest src : Z) (d : list Z).
Context (Hd : bytes_at m src d) (Hu : Forall is_u8 d).
Context (Hm : mapped m dest (Z.of_nat (length d))).
Context (Hdisj : disjoint_range dest (Z.of_nat (length d)) src (Z.of_nat (length d))).

(** The memory after the first [i] bytes. *)
Definition copied (i : nat) : mem := put_bytes m dest (take i d).

Lemma copied_source i : (i ≤ length d)%nat → bytes_at (copied i) src d.
Proof using Hd Hdisj.
  intros Hi. apply bytes_at_put_disjoint; [|done]. rewrite length_take.
  unfold disjoint_range in *. lia.
Qed.

Lemma copied_step i :
  (i < length d)%nat →
  ∃ b, load8 (src + Z.of_nat i) (copied i) = Ok (b, copied i) ∧
    store8 (dest + Z.of_nat i) b (copied i) = Ok (tt, copied (S i)).
Proof using Hd Hdisj Hm Hu.
  intros Hi. destruct (lookup_lt_is_Some_2 d i Hi) as [b Hb]. exists b. split.
  - eapply load8_bytes; [apply copied_source; lia|lia|by rewrite Nat2Z.id].
  - unfold copied. replace i with (length (take i d)) at 1 by (rewrite length_take; lia).
    rewrite copy_store.
    + rewrite (take_S_r _ _ _ Hb), u8_id by (by eapply Forall_lookup_1). done.
    + eapply mapped_sub; [done|lia|rewrite length_take; lia].
Qed.

Lemma memcpy_bottom_ok k i :
  (i + k = length d)%nat →
  memcpy_bottom k (dest + Z.of_nat i) (src + Z.of_nat i) (copied i) =
  Ok (tt, put_bytes m dest d).
Proof using Hd Hdisj Hm Hu.
  revert i. induction k as [|k IH]; intros i Hi; cbn [memcpy_bottom].
  - unfold copied. by rewrite take_ge by lia.
  - destruct (copied_step i) as (b & Hl & Hs); [lia|].
    rewrite (bind_ok _ _ _ _ _ Hl), (bind_ok _ _ _ _ _ Hs).
    replace (dest + Z.of_nat i + 1) with (dest + Z.of_nat (S i)) by lia.
    replace (src + Z.of_nat i + 1) with (src + Z.of_nat (S i)) by lia.
    apply IH. lia.
Qed.

Lemma memcpy_top_ok k i :
  (i + k = length d)%nat →
  ∃ j, (j ≤ k)%nat ∧
    memcpy_top k (dest + Z.of_nat i) (src + Z.of_nat i) (copied i) =
    Ok ((k - j)%nat, dest + Z.of_nat (i + j), src + Z.of_nat (i + j), copied (i + j)).
Proof using Hd Hdisj Hm Hu.
  revert i. induction k as [|k IH]; intros i Hi; cbn [memcpy_top].
  - exists 0%nat. by rewrite Nat.add_0_r.
  - case_bool_decide.
    + exists 0%nat. rewrite Nat.add_0_r. split; [lia|done].
    + destruct (copied_step i) as (b & Hl & Hs); [lia|].
      rewrite (bind_ok _ _ _ _ _ Hl), (bind_ok _ _ _ _ _ Hs).
      destruct (IH (S i)) as (j & Hj & E); [lia|]. exists (S j). split; [lia|].
      replace (dest + Z.of_nat i + 1) with (dest + Z.of_nat (S i)) by lia.
      replace (src + Z.of_nat i + 1) with (src + Z.of_nat (S i)) by lia.
      rewrite E. by replace (i + S j)%nat with (S i + j)%nat by lia.
Qed.

Lemma rep_movsl_ok q i :
  (i + 4 * q ≤ length d)%nat →
  rep_movsl q (dest + Z.of_nat i) (src + Z.of_nat i) (copied i) =
  Ok (dest + Z.of_nat (i + 4 * q), src + Z.of_nat (i + 4 * q), copied (i + 4 * q)).
Proof using Hd Hdisj Hm Hu.
  revert i. induction q as [|q IH]; intros i Hi; cbn [rep_movsl].
  - by rewrite Nat.mul_0_r, Nat.add_0_r.
  - pose proof (copied_source i ltac:(lia)) as Hsrc.
    rewrite <-(take_drop i d) in Hsrc. apply bytes_at_app in Hsrc as [_ Hsrc].
    rewrite length_take, Nat.min_l in Hsrc by lia.
    pose proof (take_drop i d) as Htd. pose proof (length_drop d i) as Hld.
    destruct (drop i d) as [|b0 [|b1 [|b2 [|b3 rest]]]]; cbn [length] in Hld; try lia.
    assert (bytes_at (copied i) (src + Z.of_nat i) [b0; b1; b2; b3]) as Hq
      by (destruct Hsrc as (?&?&?&?&?); repeat split; done).
    rewrite (bind_ok _ _ _ _ _ (load32_ok _ _ _ _ _ _ Hq)).
    assert (Forall is_u8 [b0; b1; b2; b3]) as Hq8.
    { rewrite <-Htd in Hu. apply Forall_app in Hu as [_ Hr].
      by repeat (apply Forall_cons in Hr as [? Hr]; constructor; [done|]). }
    rewrite !Forall_cons in Hq8. destruct_and?.
    assert (length (take i d) = i) as Hti by (rewrite length_take; lia).
    erewrite bind_ok.
    2:{ unfold copied. rewrite <-Hti at 1. apply store32_snoc.
        eapply mapped_sub; [done|lia|lia]. }
    rewrite le32_of_le32 by done.
    replace (put_bytes m dest (take i d ++ [b0; b1; b2; b3])) with (copied (i + 4)).
    2:{ unfold copied. f_equal. rewrite <-Htd at 1.
        rewrite take_app_add' by (by symmetry). done. }
    replace (dest + Z.of_nat i + 4) with (dest + Z.of_nat (i + 4)) by lia.
    replace (src + Z.of_nat i + 4) with (src + Z.of_nat (i + 4)) by lia.
    rewrite IH by lia. by replace (i + 4 + 4 * q)%nat with (i + 4 * S q)%nat by lia.
Qed.

Lemma memcpy_ok :
  memcpy dest src (Z.of_nat (length d)) m = Ok (dest, put_bytes m dest d).
Proof using Hd Hdisj Hm Hu.
  unfold memcpy. rewrite Nat2Z.id.
  destruct (memcpy_top_ok (length d) 0) as (j & Hj & E); [lia|].
  change (copied 0) with m in E. rewrite !Z.add_0_r in E. erewrite bind_ok by exact E.
  cbn [fst snd]. case_bool_decide as Hk.
  { unfold copied. rewrite take_ge by lia. done. }
  rewrite shiftr_2, land_3. set (e := (length d - j)%nat) in *.
  pose proof (Z.div_mod (Z.of_nat e) 4 ltac:(lia)).
  pose proof (Z.mod_pos_bound (Z.of_nat e) 4 ltac:(lia)).
  pose proof (Z.div_pos (Z.of_nat e) 4 ltac:(lia) ltac:(lia)).
  erewrite bind_ok by (apply rep_movsl_ok; lia). cbn [fst snd].
  erewrite bind_ok by (apply memcpy_bottom_ok; lia). done.
Qed.
End memcpy.

(** ** memmove *)

Lemma rep_movsb_forward m dest src d i k :
  bytes_at m src d → Forall is_u8 d → mapped m dest (Z.of_nat (length d)) →
  dest ≤ src → (i + k = length d)%nat →
  rep_movsb k (dest + Z.of_nat i) (src + Z.of_nat i) false (put_bytes m dest (take i d)) =
  Ok (tt, put_bytes m dest d).
Proof.
  intros Hd Hu Hm Hle. revert i. induction k as [|k IH]; intros i Hi; cbn [rep_movsb].
  - by rewrite take_ge by lia.
  - destruct (lookup_lt_is_Some_2 d i) as [b Hb]; [lia|].
    erewrite bind_ok.
    2:{ apply load8_ok. rewrite put_bytes_outside by (rewrite length_take; lia).
        rewrite bytes_at_lookup in Hd. by apply Hd. }
    erewrite bind_ok.
    2:{ replace i with (length (take i d)) at 1 by (rewrite length_take; lia).
        apply copy_store. eapply mapped_sub; [done|lia|rewrite length_take; lia]. }
    rewrite u8_id, <-(take_S_r _ _ _ Hb) by (by eapply Forall_lookup_1).
    replace (dest + Z.of_nat i + 1) with (dest + Z.of_nat (S i)) by lia.
    replace (src + Z.of_nat i + 1) with (src + Z.of_nat (S i)) by lia.
    apply IH. lia.
Qed.

Lemma rep_movsb_backward m dest src d k :
  bytes_at m src d → Forall is_u8 d → mapped m dest (Z.of_nat (length d)) →
  src < dest → (k ≤ length d)%nat →
  rep_movsb k (dest + Z.of_nat k - 1) (src + Z.of_nat k - 1) true
    (put_bytes m (dest + Z.of_nat k) (drop k d)) =
  Ok (tt, put_bytes m dest d).
Proof.
  intros Hd Hu Hm Hlt. induction k as [|k IH]; intros Hk; cbn [rep_movsb].
  - by rewrite Z.add_0_r.
  - destruct (lookup_lt_is_Some_2 d k) as [b Hb]; [lia|].
    replace (dest + Z.of_nat (S k) - 1) with (dest + Z.of_nat k) by lia.
    replace (src + Z.of_nat (S k) - 1) with (src + Z.of_nat k) by lia.
    erewrite bind_ok.
    2:{ apply load8_ok. rewrite put_bytes_outside by lia.
        rewrite bytes_at_lookup in Hd. by apply Hd. }
    erewrite bind_ok.
    2:{ apply store8_ok. rewrite put_bytes_outside by lia.
        rewrite mapped_spec in Hm. apply Hm. lia. }
    rewrite u8_id by (by eapply Forall_lookup_1).
    replace (<[dest + Z.of_nat k:=b]> (put_bytes m (dest + Z.of_nat (S k)) (drop (S k) d)))
      with (put_bytes m (dest + Z.of_nat k) (drop k d)).
    + apply IH. lia.
    + rewrite (drop_S _ _ _ Hb). cbn [put_bytes]. do 2 f_equal. lia.
Qed.

Lemma memmove_ok m dest src d :
  bytes_at m src d → Forall is_u8 d → mapped m dest (Z.of_nat (length d)) →
  memmove dest src (Z.of_nat (length d)) m =
  Ok (dest, bool_decide (src < dest), put_bytes m dest d).
Proof.
  intros Hd Hu Hm. unfold memmove. rewrite Nat2Z.id. case_bool_decide.
  - pose proof (rep_movsb_forward m dest src d 0 (length d) Hd Hu Hm H eq_refl) as E.
    rewrite !Z.add_0_r in E. cbn [take put_bytes] in E. erewrite bind_ok by exact E.
    by rewrite bool_decide_eq_false_2 by lia.
  - pose proof (rep_movsb_backward m dest src d (length d) Hd Hu Hm ltac:(lia) ltac:(lia)) as E.
    rewrite drop_all in E. cbn [put_bytes] in E. erewrite bind_ok by exact E.
    by rewrite bool_decide_eq_true_2 by lia.
Qed.
