(* ===== verification/CStringSpec.v ===== *)
(** * What the string and memory functions promise

    The properties of [CString], on memories where the arguments are C
    strings or mapped ranges. *)

From S2P Require Import Prelude CInt Memory CString.

(** C35: [itoa] writes a numeral of the value: digits below the radix, no
    leading zero but for zero itself, denoting the value, and the terminator;
    it writes nothing else and gives back the buffer. *)
Theorem itoa_writes_numeral m v buf radix :
  is_u32 v → 2 ≤ radix ≤ 36 → mapped m buf 33 →
  ∃ s, itoa v buf radix m = Ok (buf, put_bytes m buf (s ++ [0])) ∧
    number_of radix s = v ∧ Forall is_char s ∧ (1 ≤ length s ≤ 32)%nat ∧
    (v ≠ 0 → head s ≠ Some 48).
Proof.
  intros Hv Hr Hm. exists (digits v radix).
  pose proof (digits_value radix Hr v Hv). pose proof (digits_chars radix Hr v).
  destruct (digits_length radix Hr v) as [Hl|]; [|unfold is_u32 in *; lia].
  split; [apply itoa_ok; [done|done|]; eapply mapped_sub; [exact Hm|lia|lia]|].
  do 3 (split; [done|]). intros Hz. unfold digits. rewrite bool_decide_eq_false_2 by done.
  rewrite head_reverse. pose proof (pow32_bound radix Hr v Hv) as Hp.
  apply (digits_rev_last radix Hr). lia.
Qed.

Lemma itoa_writes_numeral_witness :
  ∃ s, itoa 305441741 100 16 (mem_of [(100, replicate 40 7)]) =
    Ok (100, put_bytes (mem_of [(100, replicate 40 7)]) 100 (s ++ [0])) ∧
    number_of 16 s = 305441741 ∧ Forall is_char s ∧ (1 ≤ length s ≤ 32)%nat ∧
    (305441741 ≠ 0 → head s ≠ Some 48).
Proof.
  apply itoa_writes_numeral; [unfold is_u32; lia|lia|].
  apply (bool_decide_unpack _). by vm_compute.
Defined.

(** [strncmp] of two C strings is zero exactly when they agree in their
    first [n] characters, and it only reads the strings. *)
Lemma strncmp_compares m a b n x y :
  cstr_at m a x → cstr_at m b y → 0 ≤ n →
  ∃ r, strncmp a b n m = Ok (r, m) ∧ (r = 0 ↔ take (Z.to_nat n) x = take (Z.to_nat n) y).
Proof.
  intros [Ha Hx] [Hb Hy] Hn. destruct (ncmp_cstr (Z.to_nat n) x y Hx Hy) as (r & Hr & Hiff).
  exists r. split; [|done]. by eapply strncmp_ok.
Qed.

(** [strncpy] writes exactly [n] bytes: the first [n] characters of the
    source, then zeros. A source of [n] or more characters is left without a
    terminator. *)
Lemma strncpy_writes m dest src n s :
  cstr_at m src s → 0 ≤ n → mapped m dest n →
  disjoint_range dest n src (Z.of_nat (length s) + 1) →
  ∃ bs, strncpy dest src n m = Ok (dest, put_bytes m dest bs) ∧
    Z.of_nat (length bs) = n ∧
    ∀ i, 0 ≤ i < n → zlookup bs i = Some (default 0 (zlookup s i)).
Proof.
  intros Hs Hn Hm Hd. eexists. split; [by apply strncpy_cstr|].
  set (x := take (Z.to_nat n) s). assert (length x ≤ Z.to_nat n)%nat as Hx
    by (unfold x; rewrite length_take; lia).
  split; [rewrite length_app, length_replicate; lia|].
  intros i Hi. unfold zlookup. rewrite !bool_decide_eq_true_2 by lia.
  destruct (decide (Z.to_nat i < length x)%nat) as [Hlt|Hge].
  - rewrite lookup_app_l by done. unfold x. rewrite lookup_take_lt by lia.
    destruct (lookup_lt_is_Some_2 s (Z.to_nat i)) as [c ->]; [|done].
    unfold x in Hlt. rewrite length_take in Hlt. lia.
  - rewrite lookup_app_r by lia. rewrite lookup_replicate_2 by lia.
    rewrite (proj2 (lookup_ge_None s (Z.to_nat i))); [done|].
    unfold x in Hge. rewrite length_take in Hge. lia.
Qed.

(** C40: [memcpy] and [memset], which work on words once the pointer is
    aligned, do what the byte by byte versions would. *)
Theorem memcpy_memset_bytes m dest src d c n :
  bytes_at m src d → Forall is_u8 d → mapped m dest (Z.of_nat (length d)) →
  disjoint_range dest (Z.of_nat (length d)) src (Z.of_nat (length d)) →
  0 ≤ n → mapped m dest n →
  memcpy dest src (Z.of_nat (length d)) m = Ok (dest, put_bytes m dest d) ∧
  memset dest c n m = Ok (dest, put_bytes m dest (replicate (Z.to_nat n) (u8 c))).
Proof. intros. split; [by apply memcpy_ok|by apply memset_ok]. Qed.

Lemma memcpy_memset_bytes_witness :
  let m := mem_of [(11, seqZ 100 13); (33, replicate 20 0)] in
  memcpy 33 11 13 m = Ok (33, put_bytes m 33 (seqZ 100 13)) ∧
  memset 33 300 10 m = Ok (33, put_bytes m 33 (replicate (Z.to_nat 10) (u8 300))).
Proof.
  apply (memcpy_memset_bytes _ 33 11 (seqZ 100 13) 300 10);
    try lia; apply (bool_decide_unpack _); by vm_compute.
Defined.

(** [memmove] copies overlapping ranges as if through a buffer. When it
    copies backwards it leaves the direction flag of the processor set. *)
Theorem memmove_overlapping m dest src d :
  bytes_at m src d → Forall is_u8 d → mapped m dest (Z.of_nat (length d)) →
  ∃ m', memmove dest src (Z.of_nat (length d)) m = Ok (dest, bool_decide (src < dest), m') ∧
    bytes_at m' dest d ∧
    ∀ a, ¬ (dest ≤ a < dest + Z.of_nat (length d)) → m' !! a = m !! a.
Proof.
  intros Hd Hu Hm. eexists. split; [by apply memmove_ok|]. split; [apply put_bytes_at|].
  intros a Ha. by apply put_bytes_outside.
Qed.

