(* ===== verification/State.v ===== *)
(** * The kernel's state

    The global and static variables of the C files as one record, a
    sub-record per component, with an update at each field; the port
    accesses ([inb], [outb], [cli], [sti] of [lib.h]) and the locals and
    tables the compiler places in memory. *)

From S2P Require Import Prelude CInt Memory.

(** A port access or a change of the interrupt flag. *)
Inductive io_event : Type :=
  | Out (port value : Z)
  | In (port value : Z)
  | Cli
  | Sti.

(** The interrupts the kernel handles. *)
Inductive irq : Type := IRQ_pit | IRQ_keyboard | IRQ_rtc.

(** The four file operation tables of [syscalls.c]. *)
Inductive fops : Type := fops_rtc | fops_dir | fops_file | fops_term.

#[global] Instance io_event_eq_dec : EqDecision io_event.
Proof. solve_decision. Defined.
#[global] Instance irq_eq_dec : EqDecision irq.
Proof. solve_decision. Defined.
#[global] Instance fops_eq_dec : EqDecision fops.
Proof. solve_decision. Defined.

(** The I/O side of the processor: the port accesses so far, newest first,
    and the interrupt flag. *)
Record io_t : Type := Mk_io_t {
  io_trace : list io_event;
  io_if : bool;
}.
#[global] Instance Set_io_trace : Setter io_trace := λ g s,
  Mk_io_t (g (io_trace s)) (io_if s).
#[global] Instance Set_io_if : Setter io_if := λ g s,
  Mk_io_t (io_trace s) (g (io_if s)).

(** The screen variables of [lib.c] and [lib.h], and [keyInt] of [keyboard.h]. *)
Record screen_t : Type := Mk_screen_t {
  screen_x : list Z;
  screen_y : list Z;
  currentTerminal : Z;
  numShells : Z;
  whichTerm : Z;
  keyInt : Z;
}.
#[global] Instance Set_screen_x : Setter screen_x := λ g s,
  Mk_screen_t (g (screen_x s)) (screen_y s) (currentTerminal s) (numShells s) (whichTerm s) (keyInt s).
#[global] Instance Set_screen_y : Setter screen_y := λ g s,
  Mk_screen_t (screen_x s) (g (screen_y s)) (currentTerminal s) (numShells s) (whichTerm s) (keyInt s).
#[global] Instance Set_currentTerminal : Setter currentTerminal := λ g s,
  Mk_screen_t (screen_x s) (screen_y s) (g (currentTerminal s)) (numShells s) (whichTerm s) (keyInt s).
#[global] Instance Set_numShells : Setter numShells := λ g s,
  Mk_screen_t (screen_x s) (screen_y s) (currentTerminal s) (g (numShells s)) (whichTerm s) (keyInt s).
#[global] Instance Set_whichTerm : Setter whichTerm := λ g s,
  Mk_screen_t (screen_x s) (screen_y s) (currentTerminal s) (numShells s) (g (whichTerm s)) (keyInt s).
#[global] Instance Set_keyInt : Setter keyInt := λ g s,
  Mk_screen_t (screen_x s) (screen_y s) (currentTerminal s) (numShells s) (whichTerm s) (g (keyInt s)).

(** The variables of [terminal.c]: [idx[3]] and [set]; the array [tbuf] is in memory. *)
Record term_t : Type := Mk_term_t {
  idx : list Z;
  set_flag : Z;
}.
#[global] Instance Set_idx : Setter idx := λ g s,
  Mk_term_t (g (idx s)) (set_flag s).
#[global] Instance Set_set_flag : Setter set_flag := λ g s,
  Mk_term_t (idx s) (g (set_flag s)).

(** The variables of [keyhelper.c] and [keyboard.c]: the scan code table and [back]. *)
Record kbd_t : Type := Mk_kbd_t {
  getChar : list Z;
  back : Z;
}.
#[global] Instance Set_getChar : Setter getChar := λ g s,
  Mk_kbd_t (g (getChar s)) (back s).
#[global] Instance Set_back : Setter back := λ g s,
  Mk_kbd_t (getChar s) (g (back s)).

(** The variables of [rtc.c]. *)
Record rtc_t : Type := Mk_rtc_t {
  rtc_interrupt_happened : Z;
  rtc_interrupt_count : Z;
  rtc_cur_freq : Z;
}.
#[global] Instance Set_rtc_interrupt_happened : Setter rtc_interrupt_happened := λ g s,
  Mk_rtc_t (g (rtc_interrupt_happened s)) (rtc_interrupt_count s) (rtc_cur_freq s).
#[global] Instance Set_rtc_interrupt_count : Setter rtc_interrupt_count := λ g s,
  Mk_rtc_t (rtc_interrupt_happened s) (g (rtc_interrupt_count s)) (rtc_cur_freq s).
#[global] Instance Set_rtc_cur_freq : Setter rtc_cur_freq := λ g s,
  Mk_rtc_t (rtc_interrupt_happened s) (rtc_interrupt_count s) (g (rtc_cur_freq s)).

(** [struct file_struct] of [pcb.h]; no table pointer before the first open. *)
Record file_struct_t : Type := Mk_file_struct_t {
  fops_table : option fops;
  inode : Z;
  file_position : Z;
  flags : Z;
}.
#[global] Instance Set_fops_table : Setter fops_table := λ g s,
  Mk_file_struct_t (g (fops_table s)) (inode s) (file_position s) (flags s).
#[global] Instance Set_inode : Setter inode := λ g s,
  Mk_file_struct_t (fops_table s) (g (inode s)) (file_position s) (flags s).
#[global] Instance Set_file_position : Setter file_position := λ g s,
  Mk_file_struct_t (fops_table s) (inode s) (g (file_position s)) (flags s).
#[global] Instance Set_flags : Setter flags := λ g s,
  Mk_file_struct_t (fops_table s) (inode s) (file_position s) (g (flags s)).

(** [struct pcb_struct] of [pcb.h]. *)
Record pcb_t : Type := Mk_pcb_t {
  file_array : list file_struct_t;
  curTerminal : Z;
  child_pid : Z;
  pid : Z;
  esp_screen : Z;
  ebp_screen : Z;
  esp_schedule : Z;
  ebp_schedule : Z;
  parent_pid : Z;
  parent_esp : Z;
  parent_ebp : Z;
  rtc_freq : Z;
  arguments : Z;
}.
#[global] Instance Set_file_array : Setter file_array := λ g s,
  Mk_pcb_t (g (file_array s)) (curTerminal s) (child_pid s) (pid s) (esp_screen s) (ebp_screen s) (esp_schedule s) (ebp_schedule s) (parent_pid s) (parent_esp s) (parent_ebp s) (rtc_freq s) (arguments s).
#[global] Instance Set_curTerminal : Setter curTerminal := λ g s,
  Mk_pcb_t (file_array s) (g (curTerminal s)) (child_pid s) (pid s) (esp_screen s) (ebp_screen s) (esp_schedule s) (ebp_schedule s) (parent_pid s) (parent_esp s) (parent_ebp s) (rtc_freq s) (arguments s).
#[global] Instance Set_child_pid : Setter child_pid := λ g s,
  Mk_pcb_t (file_array s) (curTerminal s) (g (child_pid s)) (pid s) (esp_screen s) (ebp_screen s) (esp_schedule s) (ebp_schedule s) (parent_pid s) (parent_esp s) (parent_ebp s) (rtc_freq s) (arguments s).
#[global] Instance Set_pid : Setter pid := λ g s,
  Mk_pcb_t (file_array s) (curTerminal s) (child_pid s) (g (pid s)) (esp_screen s) (ebp_screen s) (esp_schedule s) (ebp_schedule s) (parent_pid s) (parent_esp s) (parent_ebp s) (rtc_freq s) (arguments s).
#[global] Instance Set_esp_screen : Setter esp_screen := λ g s,
  Mk_pcb_t (file_array s) (curTerminal s) (child_pid s) (pid s) (g (esp_screen s)) (ebp_screen s) (esp_schedule s) (ebp_schedule s) (parent_pid s) (parent_esp s) (parent_ebp s) (rtc_freq s) (arguments s).
#[global] Instance Set_ebp_screen : Setter ebp_screen := λ g s,
  Mk_pcb_t (file_array s) (curTerminal s) (child_pid s) (pid s) (esp_screen s) (g (ebp_screen s)) (esp_schedule s) (ebp_schedule s) (parent_pid s) (parent_esp s) (parent_ebp s) (rtc_freq s) (arguments s).
#[global] Instance Set_esp_schedule : Setter esp_schedule := λ g s,
  Mk_pcb_t (file_array s) (curTerminal s) (child_pid s) (pid s) (esp_screen s) (ebp_screen s) (g (esp_schedule s)) (ebp_schedule s) (parent_pid s) (parent_esp s) (parent_ebp s) (rtc_freq s) (arguments s).
#[global] Instance Set_ebp_schedule : Setter ebp_schedule := λ g s,
  Mk_pcb_t (file_array s) (curTerminal s) (child_pid s) (pid s) (esp_screen s) (ebp_screen s) (esp_schedule s) (g (ebp_schedule s)) (parent_pid s) (parent_esp s) (parent_ebp s) (rtc_freq s) (arguments s).
#[global] Instance Set_parent_pid : Setter parent_pid := λ g s,
  Mk_pcb_t (file_array s) (curTerminal s) (child_pid s) (pid s) (esp_screen s) (ebp_screen s) (esp_schedule s) (ebp_schedule s) (g (parent_pid s)) (parent_esp s) (parent_ebp s) (rtc_freq s) (arguments s).
#[global] Instance Set_parent_esp : Setter parent_esp := λ g s,
  Mk_pcb_t (file_array s) (curTerminal s) (child_pid s) (pid s) (esp_screen s) (ebp_screen s) (esp_schedule s) (ebp_schedule s) (parent_pid s) (g (parent_esp s)) (parent_ebp s) (rtc_freq s) (arguments s).
#[global] Instance Set_parent_ebp : Setter parent_ebp := λ g s,
  Mk_pcb_t (file_array s) (curTerminal s) (child_pid s) (pid s) (esp_screen s) (ebp_screen s) (esp_schedule s) (ebp_schedule s) (parent_pid s) (parent_esp s) (g (parent_ebp s)) (rtc_freq s) (arguments s).
#[global] Instance Set_rtc_freq : Setter rtc_freq := λ g s,
  Mk_pcb_t (file_array s) (curTerminal s) (child_pid s) (pid s) (esp_screen s) (ebp_screen s) (esp_schedule s) (ebp_schedule s) (parent_pid s) (parent_esp s) (parent_ebp s) (g (rtc_freq s)) (arguments s).
#[global] Instance Set_arguments : Setter arguments := λ g s,
  Mk_pcb_t (file_array s) (curTerminal s) (child_pid s) (pid s) (esp_screen s) (ebp_screen s) (esp_schedule s) (ebp_schedule s) (parent_pid s) (parent_esp s) (parent_ebp s) (rtc_freq s) (g (arguments s)).

(** The process variables: the pointer [pcb], the control blocks by address,
    the statics of [syscalls.c] and [curProc] of [schedule.c]. *)
Record proc_t : Type := Mk_proc_t {
  pcb : Z;
  pcbs : gmap Z pcb_t;
  pid_bitmap : Z;
  first_flag : Z;
  attemptExit : Z;
  program_exception : Z;
  curProc : Z;
}.
#[global] Instance Set_pcb : Setter pcb := λ g s,
  Mk_proc_t (g (pcb s)) (pcbs s) (pid_bitmap s) (first_flag s) (attemptExit s) (program_exception s) (curProc s).
#[global] Instance Set_pcbs : Setter pcbs := λ g s,
  Mk_proc_t (pcb s) (g (pcbs s)) (pid_bitmap s) (first_flag s) (attemptExit s) (program_exception s) (curProc s).
#[global] Instance Set_pid_bitmap : Setter pid_bitmap := λ g s,
  Mk_proc_t (pcb s) (pcbs s) (g (pid_bitmap s)) (first_flag s) (attemptExit s) (program_exception s) (curProc s).
#[global] Instance Set_first_flag : Setter first_flag := λ g s,
  Mk_proc_t (pcb s) (pcbs s) (pid_bitmap s) (g (first_flag s)) (attemptExit s) (program_exception s) (curProc s).
#[global] Instance Set_attemptExit : Setter attemptExit := λ g s,
  Mk_proc_t (pcb s) (pcbs s) (pid_bitmap s) (first_flag s) (g (attemptExit s)) (program_exception s) (curProc s).
#[global] Instance Set_program_exception : Setter program_exception := λ g s,
  Mk_proc_t (pcb s) (pcbs s) (pid_bitmap s) (first_flag s) (attemptExit s) (g (program_exception s)) (curProc s).
#[global] Instance Set_curProc : Setter curProc := λ g s,
  Mk_proc_t (pcb s) (pcbs s) (pid_bitmap s) (first_flag s) (attemptExit s) (program_exception s) (g (curProc s)).

(** The paging structures of [kernel.c] and the control registers. *)
Record page_t : Type := Mk_page_t {
  page_dir : list (list Z);
  page_table_0 : list Z;
  page_table_vidmap : list Z;
  page_table_term : list Z;
  cr0 : Z;
  cr3 : Z;
  cr4 : Z;
}.
#[global] Instance Set_page_dir : Setter page_dir := λ g s,
  Mk_page_t (g (page_dir s)) (page_table_0 s) (page_table_vidmap s) (page_table_term s) (cr0 s) (cr3 s) (cr4 s).
#[global] Instance Set_page_table_0 : Setter page_table_0 := λ g s,
  Mk_page_t (page_dir s) (g (page_table_0 s)) (page_table_vidmap s) (page_table_term s) (cr0 s) (cr3 s) (cr4 s).
#[global] Instance Set_page_table_vidmap : Setter page_table_vidmap := λ g s,
  Mk_page_t (page_dir s) (page_table_0 s) (g (page_table_vidmap s)) (page_table_term s) (cr0 s) (cr3 s) (cr4 s).
#[global] Instance Set_page_table_term : Setter page_table_term := λ g s,
  Mk_page_t (page_dir s) (page_table_0 s) (page_table_vidmap s) (g (page_table_term s)) (cr0 s) (cr3 s) (cr4 s).
#[global] Instance Set_cr0 : Setter cr0 := λ g s,
  Mk_page_t (page_dir s) (page_table_0 s) (page_table_vidmap s) (page_table_term s) (g (cr0 s)) (cr3 s) (cr4 s).
#[global] Instance Set_cr3 : Setter cr3 := λ g s,
  Mk_page_t (page_dir s) (page_table_0 s) (page_table_vidmap s) (page_table_term s) (cr0 s) (g (cr3 s)) (cr4 s).
#[global] Instance Set_cr4 : Setter cr4 := λ g s,
  Mk_page_t (page_dir s) (page_table_0 s) (page_table_vidmap s) (page_table_term s) (cr0 s) (cr3 s) (g (cr4 s)).

(** The stack registers, and the fields of the TSS the kernel sets. *)
Record cpu_t : Type := Mk_cpu_t {
  esp : Z;
  ebp : Z;
  tss_esp0 : Z;
  tss_ss0 : Z;
  tss_eip : Z;
}.
#[global] Instance Set_esp : Setter esp := λ g s,
  Mk_cpu_t (g (esp s)) (ebp s) (tss_esp0 s) (tss_ss0 s) (tss_eip s).
#[global] Instance Set_ebp : Setter ebp := λ g s,
  Mk_cpu_t (esp s) (g (ebp s)) (tss_esp0 s) (tss_ss0 s) (tss_eip s).
#[global] Instance Set_tss_esp0 : Setter tss_esp0 := λ g s,
  Mk_cpu_t (esp s) (ebp s) (g (tss_esp0 s)) (tss_ss0 s) (tss_eip s).
#[global] Instance Set_tss_ss0 : Setter tss_ss0 := λ g s,
  Mk_cpu_t (esp s) (ebp s) (tss_esp0 s) (g (tss_ss0 s)) (tss_eip s).
#[global] Instance Set_tss_eip : Setter tss_eip := λ g s,
  Mk_cpu_t (esp s) (ebp s) (tss_esp0 s) (tss_ss0 s) (g (tss_eip s)).

(** The kernel: byte memory and the components' variables. [kirqs] are the
    interrupt requests the hardware still has to deliver, [kpages] the program
    pages (by physical base) that the current address space does not show. *)
Record kstate : Type := Mk_kstate {
  kmem : mem;
  kio : io_t;
  kscr : screen_t;
  kterm : term_t;
  kkbd : kbd_t;
  krtc : rtc_t;
  kproc : proc_t;
  kpage : page_t;
  kcpu : cpu_t;
  kpages : gmap Z mem;
  bblock : Z;
  kirqs : list irq;
}.
#[global] Instance Set_kmem : Setter kmem := λ g s,
  Mk_kstate (g (kmem s)) (kio s) (kscr s) (kterm s) (kkbd s) (krtc s) (kproc s) (kpage s) (kcpu s) (kpages s) (bblock s) (kirqs s).
#[global] Instance Set_kio : Setter kio := λ g s,
  Mk_kstate (kmem s) (g (kio s)) (kscr s) (kterm s) (kkbd s) (krtc s) (kproc s) (kpage s) (kcpu s) (kpages s) (bblock s) (kirqs s).
#[global] Instance Set_kscr : Setter kscr := λ g s,
  Mk_kstate (kmem s) (kio s) (g (kscr s)) (kterm s) (kkbd s) (krtc s) (kproc s) (kpage s) (kcpu s) (kpages s) (bblock s) (kirqs s).
#[global] Instance Set_kterm : Setter kterm := λ g s,
  Mk_kstate (kmem s) (kio s) (kscr s) (g (kterm s)) (kkbd s) (krtc s) (kproc s) (kpage s) (kcpu s) (kpages s) (bblock s) (kirqs s).
#[global] Instance Set_kkbd : Setter kkbd := λ g s,
  Mk_kstate (kmem s) (kio s) (kscr s) (kterm s) (g (kkbd s)) (krtc s) (kproc s) (kpage s) (kcpu s) (kpages s) (bblock s) (kirqs s).
#[global] Instance Set_krtc : Setter krtc := λ g s,
  Mk_kstate (kmem s) (kio s) (kscr s) (kterm s) (kkbd s) (g (krtc s)) (kproc s) (kpage s) (kcpu s) (kpages s) (bblock s) (kirqs s).
#[global] Instance Set_kproc : Setter kproc := λ g s,
  Mk_kstate (kmem s) (kio s) (kscr s) (kterm s) (kkbd s) (krtc s) (g (kproc s)) (kpage s) (kcpu s) (kpages s) (bblock s) (kirqs s).
#[global] Instance Set_kpage : Setter kpage := λ g s,
  Mk_kstate (kmem s) (kio s) (kscr s) (kterm s) (kkbd s) (krtc s) (kproc s) (g (kpage s)) (kcpu s) (kpages s) (bblock s) (kirqs s).
#[global] Instance Set_kcpu : Setter kcpu := λ g s,
  Mk_kstate (kmem s) (kio s) (kscr s) (kterm s) (kkbd s) (krtc s) (kproc s) (kpage s) (g (kcpu s)) (kpages s) (bblock s) (kirqs s).
#[global] Instance Set_kpages : Setter kpages := λ g s,
  Mk_kstate (kmem s) (kio s) (kscr s) (kterm s) (kkbd s) (krtc s) (kproc s) (kpage s) (kcpu s) (g (kpages s)) (bblock s) (kirqs s).
#[global] Instance Set_bblock : Setter bblock := λ g s,
  Mk_kstate (kmem s) (kio s) (kscr s) (kterm s) (kkbd s) (krtc s) (kproc s) (kpage s) (kcpu s) (kpages s) (g (bblock s)) (kirqs s).
#[global] Instance Set_kirqs : Setter kirqs := λ g s,
  Mk_kstate (kmem s) (kio s) (kscr s) (kterm s) (kkbd s) (krtc s) (kproc s) (kpage s) (kcpu s) (kpages s) (bblock s) (g (kirqs s)).

(** Compute record updates. *)
Ltac upd_cbv :=
  cbv beta delta [upd Set_io_trace Set_io_if Set_screen_x Set_screen_y Set_currentTerminal
    Set_numShells Set_whichTerm Set_keyInt Set_idx Set_set_flag Set_getChar
    Set_back Set_rtc_interrupt_happened Set_rtc_interrupt_count Set_rtc_cur_freq
    Set_fops_table Set_inode Set_file_position Set_flags Set_file_array
    Set_curTerminal Set_child_pid Set_pid Set_esp_screen Set_ebp_screen
    Set_esp_schedule Set_ebp_schedule Set_parent_pid Set_parent_esp
    Set_parent_ebp Set_rtc_freq Set_arguments Set_pcb Set_pcbs Set_pid_bitmap
    Set_first_flag Set_attemptExit Set_program_exception Set_curProc
    Set_page_dir Set_page_table_0 Set_page_table_vidmap Set_page_table_term
    Set_cr0 Set_cr3 Set_cr4 Set_esp Set_ebp Set_tss_esp0 Set_tss_ss0 Set_tss_eip
    Set_kmem Set_kio Set_kscr Set_kterm Set_kkbd Set_krtc Set_kproc Set_kpage
    Set_kcpu Set_kpages Set_bblock Set_kirqs];
  cbn [io_trace io_if screen_x screen_y currentTerminal numShells whichTerm keyInt
    idx set_flag getChar back rtc_interrupt_happened rtc_interrupt_count
    rtc_cur_freq fops_table inode file_position flags file_array curTerminal
    child_pid pid esp_screen ebp_screen esp_schedule ebp_schedule parent_pid
    parent_esp parent_ebp rtc_freq arguments pcb pcbs pid_bitmap first_flag
    attemptExit program_exception curProc page_dir page_table_0
    page_table_vidmap page_table_term cr0 cr3 cr4 esp ebp tss_esp0 tss_ss0
    tss_eip kmem kio kscr kterm kkbd krtc kproc kpage kcpu kpages bblock kirqs].

#[global] Instance file_struct_eq_dec : EqDecision file_struct_t.
Proof. solve_decision. Defined.

(** ** Hardware

    What the devices answer: the value a port read gives, from the accesses
    before it (newest first). *)
Class Device := dev_in : list io_event → Z → Z.

Section io.
Context `{Device}.

(** [inb] and [outb] of [lib.h]. *)
Definition inb (port : Z) : K io_t Z := λ io,
  let v := u8 (dev_in (io_trace io) port) in
  Ok (v, io <| io_trace ::= cons (In port v) |>).
Definition outb (data port : Z) : K io_t unit :=
  kmod (λ io, io <| io_trace ::= cons (Out port (u8 data)) |>).
Definition cli : K io_t unit :=
  kmod (λ io, (io <| io_trace ::= cons Cli |>) <| io_if := false |>).
Definition sti : K io_t unit :=
  kmod (λ io, (io <| io_trace ::= cons Sti |>) <| io_if := true |>).
(** [cli_and_save(flags)]: the interrupt flag is what [flags] keeps of it. *)
Definition cli_and_save : K io_t bool :=
  flags ← kget io_if; _ ← cli; mret flags.
Definition restore_flags (flags : bool) : K io_t unit :=
  kmod (λ io, io <| io_if := flags |>).
End io.

(** The byte a device was last given at a port, the first such if none. *)
Fixpoint last_out (d : Z) (tr : list io_event) (port : Z) : Z :=
  match tr with
  | [] => d
  | Out p v :: tr' => if bool_decide (p = port) then v else last_out d tr' port
  | _ :: tr' => last_out d tr' port
  end.

(** The bytes given to the devices, oldest first. *)
Definition outs (tr : list io_event) : list (Z * Z) :=
  reverse (omap (λ e, match e with Out p v => Some (p, v) | _ => None end) tr).

Lemma outs_cons e tr :
  outs (e :: tr) = outs tr ++ match e with Out p v => [(p, v)] | _ => [] end.
Proof.
  unfold outs. set (f := λ e : io_event, match e with Out p v => Some (p, v) | _ => None end).
  change (omap f (e :: tr)) with (match f e with Some y => y :: omap f tr | None => omap f tr end).
  destruct e; cbn [f]; [by rewrite reverse_cons|by rewrite app_nil_r..].
Qed.

(** ** Where the compiler places what the C code takes the address of *)
Class Layout := {
  (** locals *)
  L_conv_buf : Z;   (* [conv_buf] of [printf] *)
  L_open_file : Z;  (* [open_file] of [sys_open] *)
  L_exe_prog : Z;   (* [prog] of [checkExe] *)
  L_elf : Z;        (* [elf] of [checkExe] *)
  (** the locals of [sys_execute], which live as long as the program it
      started, by the stack pointer of its frame *)
  L_cmd : Z → Z;
  L_args : Z → Z;
  L_prog : Z → Z;
  L_prog_img : Z → Z;
  L_rtc_buf : Z;    (* [buf] of [rtc_open] *)
  (** string literals *)
  L_empty : Z;      (* [""] *)
  L_terminal : Z;   (* ["terminal"] *)
  L_shell : Z;      (* ["shell"] *)
  L_shell_nl : Z;   (* ["shell\n"] *)
  (** tables *)
  L_tbuf : Z;                (* [tbuf[3][BUFSIZE]] of [terminal.c] *)
  L_page_dir : Z → Z;        (* [page_dir[pid]] *)
  L_page_table_0 : Z;
  L_page_table_vidmap : Z;
  L_page_table_term : Z;
  (** the bytes of [.data] after the 128 entries of [getChar] *)
  L_after_getChar : Z → Z;
}.

(** ** Lifting to the kernel *)
Definition on_mem {A} (c : K mem A) : K kstate A := zoom kmem c.
Definition on_io {A} (c : K io_t A) : K kstate A := zoom kio c.

(** The control block the pointer [p] points to, read and updated; a pointer
    to no control block faults. *)
Definition pcb_get (p : Z) : K kstate pcb_t :=
  s ← kget kproc; klift (pcbs s !! p).
Definition pcb_mod (p : Z) (f : pcb_t → pcb_t) : K kstate unit :=
  b ← pcb_get p;
  kmod (λ s, s <| kproc ::= (λ k, k <| pcbs ::= insert p (f b) |>) |>).
(** [pcb->...]: the current process. *)
Definition cur_pcb : K kstate pcb_t := s ← kget kproc; pcb_get (pcb s).

(** ** Laws *)

Lemma on_mem_ok {A} (c : K mem A) s a m :
  c (kmem s) = Ok (a, m) → on_mem c s = Ok (a, s <| kmem := m |>).
Proof. apply zoom_ok. Qed.

Lemma on_mem_pure {A} (c : K mem A) s a :
  c (kmem s) = Ok (a, kmem s) → on_mem c s = Ok (a, s).
Proof. intros E. erewrite on_mem_ok by done. by destruct s. Qed.

Lemma cur_pcb_ok s b : pcbs (kproc s) !! pcb (kproc s) = Some b → cur_pcb s = Ok (b, s).
Proof. unfold cur_pcb, pcb_get, kget, mbind, K_bind, klift. by intros ->. Qed.

Lemma pcb_mod_ok s p b f :
  pcbs (kproc s) !! p = Some b →
  pcb_mod p f s = Ok (tt, s <| kproc ::= (λ k, k <| pcbs ::= insert p (f b) |>) |>).
Proof. unfold pcb_mod, pcb_get, kget, mbind, K_bind, klift. by intros ->. Qed.
