(* ===== verification/I8259.v ===== *)
(** * The interrupt controllers ([i8259.c])

    Programming the two 8259 PICs through their ports. What the controllers
    answer is the parameter [Device]; that their data port reads back the
    interrupt mask last written there is the hypothesis [imr_device]. *)

From S2P Require Import Prelude CInt Memory State.

Definition MASTER_8259_PORT := 0x20.
Definition SLAVE_8259_PORT := 0xA0.
Definition MASTER_PORT_DATA := MASTER_8259_PORT + 1.
Definition SLAVE_PORT_DATA := SLAVE_8259_PORT + 1.
Definition ICW1 := 0x11.
Definition ICW2_MASTER := 0x20.
Definition ICW2_SLAVE := 0x28.
Definition ICW3_MASTER := 0x04.
Definition ICW3_SLAVE := 0x02.
Definition ICW4 := 0x01.
Definition DISABLE := 0xFF.
Definition EOI := 0x60.

Section i8259.
Context `{Device}.

Definition i8259_init : K io_t unit :=
  flags ← cli_and_save;
  _ ← outb DISABLE MASTER_PORT_DATA;
  _ ← outb DISABLE SLAVE_PORT_DATA;
  _ ← outb ICW1 MASTER_8259_PORT;
  _ ← outb ICW1 SLAVE_8259_PORT;
  _ ← outb ICW2_MASTER MASTER_PORT_DATA;
  _ ← outb ICW2_SLAVE SLAVE_PORT_DATA;
  _ ← outb ICW3_MASTER MASTER_PORT_DATA;
  _ ← outb ICW3_SLAVE SLAVE_PORT_DATA;
  _ ← outb ICW4 MASTER_PORT_DATA;
  _ ← outb ICW4 SLAVE_PORT_DATA;
  _ ← outb DISABLE MASTER_PORT_DATA;
  _ ← outb DISABLE SLAVE_PORT_DATA;
  restore_flags flags.

(** [tmp = ~(1 << irq_num)] kept in a [uint8_t]. *)
Definition enable_irq (irq_num : Z) : K io_t unit :=
  if bool_decide (8 ≤ irq_num) && bool_decide (irq_num < 16) then
    let irq_num := irq_num - 8 in
    let tmp := u8 (Z.shiftl 1 irq_num) in
    let tmp := u8 (Z.lnot tmp) in
    imr ← inb SLAVE_PORT_DATA;
    outb (Z.land imr tmp) SLAVE_PORT_DATA
  else if bool_decide (0 ≤ irq_num) && bool_decide (irq_num < 8) then
    let tmp := u8 (Z.shiftl 1 irq_num) in
    let tmp := u8 (Z.lnot tmp) in
    imr ← inb MASTER_PORT_DATA;
    outb (Z.land imr tmp) MASTER_PORT_DATA
  else mret tt.

Definition disable_irq (irq_num : Z) : K io_t unit :=
  if bool_decide (8 ≤ irq_num) && bool_decide (irq_num < 16) then
    let irq_num := irq_num - 8 in
    imr ← inb SLAVE_PORT_DATA;
    outb (u8 (Z.lor imr (Z.shiftl 1 irq_num))) SLAVE_PORT_DATA
  else if bool_decide (0 ≤ irq_num) && bool_decide (irq_num < 8) then
    imr ← inb MASTER_PORT_DATA;
    outb (u8 (Z.lor imr (Z.shiftl 1 irq_num))) MASTER_PORT_DATA
  else mret tt.

Definition send_eoi (irq_num : Z) : K io_t unit :=
  if bool_decide (0 ≤ irq_num) && bool_decide (irq_num < 16) then
    eoiSig ←
      (if bool_decide (8 ≤ irq_num) then
        let irq_num := irq_num - 8 in
        _ ← outb (u8 (Z.lor EOI irq_num)) SLAVE_8259_PORT;
        mret (u8 (Z.lor EOI 2))
      else mret (u8 (Z.lor EOI irq_num)));
    outb eoiSig MASTER_8259_PORT
  else mret tt.
End i8259.

(** ** The abstract controllers *)

(** The set of masked lines is the pair of mask registers; the data port of
    a controller reads back the mask last written to it (OCW1). *)
Class ImrDevice (dev : Device) := imr_device :
  ∀ tr p, p = MASTER_PORT_DATA ∨ p = SLAVE_PORT_DATA → dev tr p = last_out 0 tr p.

(** Is line [n] masked? *)
Definition line_port (n : Z) : Z := if bool_decide (n < 8) then MASTER_PORT_DATA else SLAVE_PORT_DATA.
Definition masked (io : io_t) (n : Z) : bool :=
  Z.testbit (last_out 0 (io_trace io) (line_port n)) (n mod 8).

(** The controllers with their masks as a function of the line: what the
    two operations promise their clients. *)
Record pic_ops (S : Type) := {
  pic_masked : S → Z → bool;
  pic_enable : Z → K S unit;
  pic_disable : Z → K S unit;
}.
Arguments pic_masked {S} _ _ _.
Arguments pic_enable {S} _ _.
Arguments pic_disable {S} _ _.
Class PicSpec {S} (I : S → Prop) (ops : pic_ops S) := {
  pic_enable_spec n s : 0 ≤ n < 16 → I s →
    wp (pic_enable ops n) (λ _ s', I s' ∧ ∀ k, 0 ≤ k < 16 →
      pic_masked ops s' k = pic_masked ops s k && negb (bool_decide (k = n))) s;
  pic_disable_spec n s : 0 ≤ n < 16 → I s →
    wp (pic_disable ops n) (λ _ s', I s' ∧ ∀ k, 0 ≤ k < 16 →
      pic_masked ops s' k = pic_masked ops s k || bool_decide (k = n)) s;
}.
Definition i8259_ops `{Device} : pic_ops io_t := {|
  pic_masked := masked; pic_enable := enable_irq; pic_disable := disable_irq |}.

(** Every byte in the trace is a byte. *)
Definition trace_ok (io : io_t) : Prop :=
  Forall (λ e, match e with Out _ v | In _ v => is_u8 v | _ => True end) (io_trace io).

Section i8259_laws.
Context `{dev : Device}.

Lemma outb_run data port io :
  outb data port io = Ok (tt, io <| io_trace ::= cons (Out port (u8 data)) |>).
Proof. done. Qed.

Lemma inb_run port io :
  inb port io = let v := u8 (dev (io_trace io) port) in
    Ok (v, io <| io_trace ::= cons (In port v) |>).
Proof. done. Qed.

Lemma trace_ok_cons io e :
  trace_ok io → match e with Out _ v | In _ v => is_u8 v | _ => True end →
  trace_ok (io <| io_trace ::= cons e |>).
Proof. intros. by constructor. Qed.

Lemma last_out_u8 io p : trace_ok io → is_u8 (last_out 0 (io_trace io) p).
Proof.
  unfold trace_ok. induction 1 as [|[p' v|p' v| |] tr Hv _ IH]; cbn; [done| |done..].
  by case_bool_decide.
Qed.

Lemma masked_other io p v n :
  line_port n ≠ p → masked (io <| io_trace ::= cons (Out p v) |>) n = masked io n.
Proof. intros. unfold masked. cbn. by rewrite bool_decide_eq_false_2. Qed.

Lemma masked_at io p v n :
  line_port n = p → masked (io <| io_trace ::= cons (Out p v) |>) n = Z.testbit v (n mod 8).
Proof. intros <-. unfold masked. cbn. by rewrite bool_decide_eq_true_2. Qed.

Lemma line_port_same n k :
  0 ≤ n < 16 → 0 ≤ k < 16 →
  (line_port k = line_port n ∧ (k mod 8 = n mod 8 ↔ k = n)) ∨
  (line_port k ≠ line_port n ∧ k ≠ n).
Proof.
  intros. unfold line_port.
  assert (k mod 8 = if decide (k < 8) then k else k - 8) as ->.
  { case_decide; [apply Z.mod_small; lia|]. symmetry. apply Z.mod_unique with 1; lia. }
  assert (n mod 8 = if decide (n < 8) then n else n - 8) as ->.
  { case_decide; [apply Z.mod_small; lia|]. symmetry. apply Z.mod_unique with 1; lia. }
  repeat case_bool_decide; repeat case_decide; try lia;
    (left; split; [done|lia]) || (right; split; [done|lia]).
Qed.

(** Both operations read the mask of the line's controller, change the bit of
    the line and write it back. *)
Lemma enable_irq_run n io :
  0 ≤ n < 16 →
  enable_irq n io =
    let p := line_port n in
    let v := u8 (dev (io_trace io) p) in
    Ok (tt, (io <| io_trace ::= cons (In p v) |>) <| io_trace ::=
      cons (Out p (u8 (Z.land v (u8 (Z.lnot (u8 (Z.shiftl 1 (n mod 8)))))))) |>).
Proof.
  intros Hn. unfold enable_irq, line_port. case_bool_decide as H8.
  - rewrite (bool_decide_eq_true_2 (n < 16)), (bool_decide_eq_false_2 (n < 8)) by lia.
    cbn [andb]. replace (n mod 8) with (n - 8); [done|].
    apply Z.mod_unique with 1; lia.
  - rewrite !bool_decide_eq_true_2 by lia. cbn [andb].
    rewrite Z.mod_small by lia. done.
Qed.

Lemma disable_irq_run n io :
  0 ≤ n < 16 →
  disable_irq n io =
    let p := line_port n in
    let v := u8 (dev (io_trace io) p) in
    Ok (tt, (io <| io_trace ::= cons (In p v) |>) <| io_trace ::=
      cons (Out p (u8 (u8 (Z.lor v (Z.shiftl 1 (n mod 8)))))) |>).
Proof.
  intros Hn. unfold disable_irq, line_port. case_bool_decide as H8.
  - rewrite (bool_decide_eq_true_2 (n < 16)), (bool_decide_eq_false_2 (n < 8)) by lia.
    cbn [andb]. replace (n mod 8) with (n - 8); [done|].
    apply Z.mod_unique with 1; lia.
  - rewrite !bool_decide_eq_true_2 by lia. cbn [andb].
    rewrite Z.mod_small by lia. done.
Qed.

Lemma line_port_cases n : line_port n = MASTER_PORT_DATA ∨ line_port n = SLAVE_PORT_DATA.
Proof. unfold line_port. case_bool_decide; auto. Qed.

(** What the mask registers read back is what the abstract state says. *)
Lemma imr_masked `{!ImrDevice dev} io n k :
  trace_ok io → line_port k = line_port n →
  Z.testbit (u8 (dev (io_trace io) (line_port n))) (k mod 8) = masked io k.
Proof.
  intros Ht Hp. unfold masked. rewrite Hp, imr_device by apply line_port_cases.
  rewrite u8_id by (by apply last_out_u8). done.
Qed.

#[global] Instance i8259_spec `{!ImrDevice dev} : PicSpec trace_ok i8259_ops.
Proof.
  split; intros n s Hn Ht; cbn -[trace_ok masked].
  - unfold wp. rewrite enable_irq_run by done. cbv zeta. split.
    { repeat apply trace_ok_cons; auto using u8_range. }
    intros k Hk. pose proof (Z.mod_pos_bound n 8). pose proof (Z.mod_pos_bound k 8).
    destruct (line_port_same n k) as [[Hp Hmod]|[Hp Hne]]; [done|done| |].
    + rewrite masked_at by done. rewrite testbit_u8, clear_bit by lia.
      rewrite imr_masked by done. f_equal. f_equal. by apply bool_decide_ext.
    + rewrite masked_other by done. rewrite bool_decide_eq_false_2 by done.
      by rewrite andb_true_r.
  - unfold wp. rewrite disable_irq_run by done. cbv zeta. split.
    { repeat apply trace_ok_cons; auto using u8_range. }
    intros k Hk. pose proof (Z.mod_pos_bound n 8). pose proof (Z.mod_pos_bound k 8).
    destruct (line_port_same n k) as [[Hp Hmod]|[Hp Hne]]; [done|done| |].
    + rewrite masked_at by done. rewrite testbit_u8, set_bit by lia.
      rewrite imr_masked by done. f_equal. by apply bool_decide_ext.
    + rewrite masked_other by done. rewrite bool_decide_eq_false_2 by done.
      by rewrite orb_false_r.
Qed.
End i8259_laws.

#[export] Hint Resolve trace_ok_cons : clos.
