(* ===== verification/Screen.v ===== *)
(** * The screen ([lib.c])

    Three terminals share one display. The displayed terminal's characters
    are in video memory at [VIDEO]; each other terminal has a page at
    [VIDEO_TERM + VIDEO_OFFSET * t]. A character cell is two bytes, the
    character and its attribute. *)

From S2P Require Import Prelude CInt Memory CString State.

Definition VIDEO := 0xB8000.
Definition VIDEO_TERM := 0x8800000.
Definition VIDEO_OFFSET := 0x1000.
Definition NUM_COLS := 80.
Definition NUM_ROWS := 25.
Definition ATTRIB := 0x7.

(** [screen_x[i]] and [screen_y[i]], read and assigned. *)
Definition screen_x_at (i : Z) : K kstate Z :=
  s ← kget kscr; klift (zlookup (screen_x s) i).
Definition screen_y_at (i : Z) : K kstate Z :=
  s ← kget kscr; klift (zlookup (screen_y s) i).
Definition set_screen_x (i v : Z) : K kstate unit :=
  s ← kget kscr; l ← klift (zupdate (screen_x s) i v);
  kmod (λ s, s <| kscr ::= (λ c, c <| screen_x := l |>) |>).
Definition set_screen_y (i v : Z) : K kstate unit :=
  s ← kget kscr; l ← klift (zupdate (screen_y s) i v);
  kmod (λ s, s <| kscr ::= (λ c, c <| screen_y := l |>) |>).

Definition whatTerm : K kstate Z := s ← kget kscr; mret (currentTerminal s).

Definition screenInit : K kstate unit :=
  kmod (λ s, s <| kscr ::= (λ c, (c <| currentTerminal := 1 |>)
    <| numShells := Z.lor (numShells c) 0x01 |>) |>).

(** One blank cell. *)
Definition blank_cell (base i : Z) : K mem unit :=
  _ ← store8 (base + Z.shiftl i 1) 32; store8 (base + Z.shiftl i 1 + 1) ATTRIB.

Definition clear : K kstate unit :=
  _ ← on_mem (for_loop (Z.to_nat (NUM_ROWS * NUM_COLS)) 0 (blank_cell VIDEO));
  t ← whatTerm;
  _ ← set_screen_y (t - 1) 0;
  set_screen_x (t - 1) 0.

Definition backspace : K kstate unit :=
  t ← whatTerm;
  y ← screen_y_at (t - 1);
  x ← screen_x_at (t - 1);
  _ ← (if bool_decide (y > 0) then
        if bool_decide (x = 0) then
          _ ← set_screen_x (t - 1) 79; set_screen_y (t - 1) (y - 1)
        else
          let x := Z.rem (x - 1) NUM_COLS in
          _ ← set_screen_x (t - 1) x;
          set_screen_y (t - 1) (Z.rem (y + Z.quot x NUM_COLS) NUM_ROWS)
      else if bool_decide (y = 0) then
        if bool_decide (x > 0) then set_screen_x (t - 1) (x - 1) else mret tt
      else mret tt);
  y ← screen_y_at (t - 1);
  x ← screen_x_at (t - 1);
  on_mem (blank_cell VIDEO (NUM_COLS * y + x)).

Section ports.
Context `{Device}.

Definition updatecursor : K kstate unit :=
  t ← whatTerm;
  y ← screen_y_at (t - 1);
  x ← screen_x_at (t - 1);
  let position := u16 (y * 80 + x) in
  on_io (_ ← outb 0x0F 0x3D4; _ ← outb (u8 position) 0x3D5;
         _ ← outb 0x0E 0x3D4; outb (u8 (Z.shiftr position 8)) 0x3D5).
End ports.

(** The two loops of [tScroll] over the screen at [base]. *)
Definition scroll_cell (base i : Z) : K mem unit :=
  c ← load8 (base + Z.shiftl (i + NUM_COLS) 1);
  _ ← store8 (base + Z.shiftl i 1) c;
  store8 (base + Z.shiftl i 1 + 1) ATTRIB.
Definition scroll_at (base : Z) : K mem unit :=
  _ ← for_loop (Z.to_nat ((NUM_ROWS - 1) * NUM_COLS)) 0 (scroll_cell base);
  for_loop (Z.to_nat NUM_COLS) ((NUM_ROWS - 1) * NUM_COLS) (blank_cell base).

(** The parameter is not used. *)
Definition tScroll (terminal : Z) : K kstate unit :=
  b ← cur_pcb; t ← whatTerm;
  if bool_decide (curTerminal b ≠ t)
  then on_mem (scroll_at (VIDEO_TERM + VIDEO_OFFSET * curTerminal b))
  else on_mem (scroll_at VIDEO).

(** The two branches of [putc] differ in the terminal whose cursor they move,
    the memory they write and the argument of [tScroll]. *)
Definition putc_at (c term base scroll : Z) : K kstate unit :=
  if bool_decide (c = 10) || bool_decide (c = 13) then
    y ← screen_y_at (term - 1);
    _ ← (if bool_decide (y = NUM_ROWS - 1) then tScroll scroll
        else set_screen_y (term - 1) (y + 1));
    set_screen_x (term - 1) 0
  else
    y ← screen_y_at (term - 1);
    x ← screen_x_at (term - 1);
    _ ← on_mem (_ ← store8 (base + Z.shiftl (NUM_COLS * y + x) 1) c;
               store8 (base + Z.shiftl (NUM_COLS * y + x) 1 + 1) ATTRIB);
    _ ← set_screen_x (term - 1) (x + 1);
    _ ← (if bool_decide (y = NUM_ROWS - 1) && bool_decide (x + 1 = NUM_COLS)
        then tScroll scroll
        else set_screen_y (term - 1) (Z.rem (y + Z.quot (x + 1) NUM_COLS) NUM_ROWS));
    set_screen_x (term - 1) (Z.rem (x + 1) NUM_COLS).
Definition putc (c : Z) : K kstate unit :=
  b ← cur_pcb; t ← whatTerm; s ← kget kscr;
  if bool_decide (curTerminal b = t) || negb (bool_decide (keyInt s = 0))
  then putc_at c t VIDEO 0
  else putc_at c (curTerminal b) (VIDEO_TERM + VIDEO_OFFSET * curTerminal b) 1.

Fixpoint puts_loop (fuel : nat) (s index : Z) : K kstate Z :=
  match fuel with
  | O => kspin
  | S fuel' =>
      c ← on_mem (load8 (s + index));
      if bool_decide (c ≠ 0) then
        _ ← putc c; puts_loop fuel' s (index + 1)
      else mret index
  end.
Definition puts (s : Z) : K kstate Z := λ k, puts_loop (S (size (kmem k))) s 0 k.

(** [test_interrupts]: [video_mem[i<<1]++]. *)
Definition test_interrupts : K kstate unit :=
  on_mem (for_loop (Z.to_nat (NUM_ROWS * NUM_COLS)) 0 (λ i,
    c ← load8 (VIDEO + Z.shiftl i 1); store8 (VIDEO + Z.shiftl i 1) (c + 1))).

(** ** The abstract terminal *)

Record tty : Type := Mk_tty { cells : list Z; row : Z; col : Z }.
#[global] Instance Set_cells : Setter cells := λ g v, Mk_tty (g (cells v)) (row v) (col v).
#[global] Instance Set_row : Setter row := λ g v, Mk_tty (cells v) (g (row v)) (col v).
#[global] Instance Set_col : Setter col := λ g v, Mk_tty (cells v) (row v) (g (col v)).

(** The lines move up by one and a blank line enters at the bottom. *)
Definition tty_scroll (cs : list Z) : list Z := drop 80 cs ++ replicate 80 32.
Definition tty_newline (v : tty) : tty :=
  if bool_decide (row v = 24) then Mk_tty (tty_scroll (cells v)) 24 0
  else Mk_tty (cells v) (row v + 1) 0.
Definition tty_putc (c : Z) (v : tty) : tty :=
  if bool_decide (c = 10 ∨ c = 13) then tty_newline v
  else
    let v' := v <| cells ::= <[Z.to_nat (80 * row v + col v) := c]> |> in
    if bool_decide (col v = 79) then tty_newline v' else v' <| col := col v + 1 |>.
Definition tty_puts (s : list Z) (v : tty) : tty := foldl (λ v c, tty_putc c v) v s.

Definition tty_ok (v : tty) : Prop :=
  length (cells v) = 2000%nat ∧ Forall is_u8 (cells v) ∧ 0 ≤ row v < 25 ∧ 0 ≤ col v < 80.

(** The bytes of cells: each character with the attribute. *)
Definition cell_bytes (cs : list Z) : list Z := cs ≫= λ c, [c; ATTRIB].
(** The memory at [base] shows the characters [cs]. *)
Definition screen_at (m : mem) (base : Z) (cs : list Z) : Prop :=
  mapped m base 4000 ∧
  Forall (λ i, m !! (base + 2 * i) = zlookup cs i) (seqZ 0 2000).

(** Where terminal [t] is shown. *)
Definition term_base (s : screen_t) (t : Z) : Z :=
  if bool_decide (t = currentTerminal s) then VIDEO else VIDEO_TERM + VIDEO_OFFSET * t.
(** Terminal [t] of the kernel shows the abstract terminal [v]. *)
Definition tty_at (s : kstate) (t : Z) (v : tty) : Prop :=
  tty_ok v ∧ screen_at (kmem s) (term_base (kscr s) t) (cells v) ∧
  zlookup (screen_x (kscr s)) (t - 1) = Some (col v) ∧
  zlookup (screen_y (kscr s)) (t - 1) = Some (row v).

(** The process that runs writes to terminal [t]. *)
Definition writes_to (s : kstate) (t : Z) : Prop :=
  ∃ b, pcbs (kproc s) !! pcb (kproc s) = Some b ∧ curTerminal b = t ∧ 1 ≤ t ≤ 3.

(** ** Cells *)

Lemma length_cell_bytes cs : length (cell_bytes cs) = (2 * length cs)%nat.
Proof.
  unfold cell_bytes. induction cs as [|c cs IH]; [done|].
  rewrite bind_cons, length_app, IH. cbn [length]. lia.
Qed.

Lemma cell_bytes_app cs1 cs2 : cell_bytes (cs1 ++ cs2) = cell_bytes cs1 ++ cell_bytes cs2.
Proof. unfold cell_bytes. apply bind_app. Qed.

Lemma cell_bytes_lookup cs i : cell_bytes cs !! (2 * i)%nat = cs !! i.
Proof.
  revert i. induction cs as [|c cs IH]; intros i; [done|]. destruct i as [|i]; [done|].
  replace (2 * S i)%nat with (S (S (2 * i))) by lia. cbn. apply IH.
Qed.

Lemma shiftl_1 i : Z.shiftl i 1 = 2 * i.
Proof. rewrite Z.shiftl_mul_pow2 by lia. lia. Qed.

(** Appending one cell to a drawn range. *)
Lemma draw_cell m base cs c :
  mapped m base (2 * Z.of_nat (length cs) + 2) → is_u8 c →
  (_ ← store8 (base + Z.shiftl (Z.of_nat (length cs)) 1) c;
   store8 (base + Z.shiftl (Z.of_nat (length cs)) 1 + 1) ATTRIB)
    (put_bytes m base (cell_bytes cs)) =
  Ok (tt, put_bytes m base (cell_bytes (cs ++ [c]))).
Proof.
  intros Hm Hc. rewrite shiftl_1.
  replace (2 * Z.of_nat (length cs)) with (Z.of_nat (length (cell_bytes cs)))
    by (rewrite length_cell_bytes; lia).
  erewrite bind_ok.
  2:{ apply store8_snoc. rewrite mapped_spec in Hm. apply Hm.
      rewrite length_cell_bytes. lia. }
  rewrite u8_id by done.
  replace (base + Z.of_nat (length (cell_bytes cs)) + 1)
    with (base + Z.of_nat (length (cell_bytes cs ++ [c])))
    by (rewrite length_app; cbn [length]; lia).
  rewrite store8_snoc.
  - by rewrite cell_bytes_app, <-app_assoc.
  - rewrite mapped_spec in Hm. apply Hm. rewrite length_app, length_cell_bytes. cbn. lia.
Qed.

Lemma screen_at_spec m base cs :
  length cs = 2000%nat →
  screen_at m base cs ↔
  mapped m base 4000 ∧ ∀ (i : nat) c, cs !! i = Some c → m !! (base + 2 * Z.of_nat i) = Some c.
Proof.
  intros Hl. unfold screen_at. rewrite Forall_forall. split; intros [Hm H]; split; try done.
  - intros i c Hi. rewrite H.
    + apply zlookup_Some. rewrite Nat2Z.id. split; [lia|done].
    + apply elem_of_seqZ. apply lookup_lt_Some in Hi. lia.
  - intros i Hi. apply elem_of_seqZ in Hi.
    destruct (zlookup_is_Some cs i) as [_ [c Hc]]; [lia|]. rewrite Hc.
    apply zlookup_Some in Hc as [? Hc]. rewrite <-(H _ _ Hc). f_equal. lia.
Qed.

Lemma screen_of_bytes m base cs : length cs = 2000%nat → bytes_at m base (cell_bytes cs) → screen_at m base cs.
Proof.
  intros Hl Hb. apply screen_at_spec; [done|]. split.
  - apply bytes_at_mapped in Hb. by rewrite length_cell_bytes, Hl in Hb.
  - intros i c Hi. rewrite bytes_at_lookup in Hb. rewrite <-(Hb (2 * i)%nat c); [f_equal; lia|].
    by rewrite cell_bytes_lookup.
Qed.

(** A screen drawn whole shows what was drawn. *)
Lemma put_cells_screen m base cs :
  length cs = 2000%nat → mapped m base 4000 →
  screen_at (put_bytes m base (cell_bytes cs)) base cs.
Proof.
  intros Hl Hm. apply screen_at_spec; [done|]. split.
  - eapply mapped_dom; [|done]. apply put_bytes_dom.
    rewrite length_cell_bytes, Hl. done.
  - intros i c Hi. pose proof (lookup_lt_Some _ _ _ Hi).
    rewrite put_bytes_lookup, decide_True by (rewrite length_cell_bytes; lia).
    rewrite <-Hi, <-(cell_bytes_lookup cs i). f_equal. lia.
Qed.

Lemma screen_at_agree m m' base cs :
  dom m' = dom m → (∀ a, base ≤ a < base + 4000 → m' !! a = m !! a) →
  screen_at m base cs → screen_at m' base cs.
Proof.
  intros Hd Ha [Hm H]. split; [by eapply mapped_dom|].
  rewrite Forall_forall in *. intros i Hi. rewrite Ha; [auto|].
  apply elem_of_seqZ in Hi. lia.
Qed.

Lemma screen_at_same m m' base cs : length cs = 2000%nat →
  (∀ a, base ≤ a < base + 4000 → m' !! a = m !! a) → screen_at m base cs → screen_at m' base cs.
Proof.
  intros Hl Hm Hs. apply screen_at_spec in Hs as [Hma Hc]; [|done]. apply screen_at_spec; [done|]. split.
  - rewrite mapped_spec in Hma |- *. intros a Ha. rewrite Hm by done. by apply Hma.
  - intros k c Hk. rewrite Hm; [by apply Hc|]. apply lookup_lt_Some in Hk. lia.
Qed.

(** A loop that draws the cells of [T] one after the other. *)
Lemma draw_loop m base T body i n :
  (∀ j c, i ≤ j < i + Z.of_nat n → T !! Z.to_nat j = Some c →
    body j (put_bytes m base (cell_bytes (take (Z.to_nat j) T))) =
    Ok (tt, put_bytes m base (cell_bytes (take (Z.to_nat j) T ++ [c])))) →
  0 ≤ i → i + Z.of_nat n ≤ Z.of_nat (length T) →
  for_loop n i body (put_bytes m base (cell_bytes (take (Z.to_nat i) T))) =
  Ok (tt, put_bytes m base (cell_bytes (take (Z.to_nat i + n) T))).
Proof.
  revert i. induction n as [|n IH]; intros i Hb Hi Hl; cbn [for_loop].
  - by rewrite Nat.add_0_r.
  - destruct (lookup_lt_is_Some_2 T (Z.to_nat i)) as [c Hc]; [lia|].
    erewrite bind_ok by (apply Hb; [lia|done]).
    rewrite <-(take_S_r _ _ _ Hc).
    replace (S (Z.to_nat i)) with (Z.to_nat (i + 1)) by lia.
    rewrite IH; [|intros j c' Hj; apply Hb; lia|lia|lia].
    by replace (Z.to_nat (i + 1) + n)%nat with (Z.to_nat i + S n)%nat by lia.
Qed.

Lemma draw_cell_at m base T j c :
  mapped m base 4000 → length T = 2000%nat → 0 ≤ j → T !! Z.to_nat j = Some c → is_u8 c →
  (_ ← store8 (base + Z.shiftl j 1) c; store8 (base + Z.shiftl j 1 + 1) ATTRIB)
    (put_bytes m base (cell_bytes (take (Z.to_nat j) T))) =
  Ok (tt, put_bytes m base (cell_bytes (take (Z.to_nat j) T ++ [c]))).
Proof.
  intros Hm Hl Hj Hc Hu. pose proof (lookup_lt_Some _ _ _ Hc).
  rewrite <-draw_cell; rewrite ?length_take; [|eapply mapped_sub; [done|lia|lia]|done].
  by replace (Z.of_nat (Z.to_nat j `min` length T)) with j by lia.
Qed.

Lemma scroll_at_ok m base cs :
  length cs = 2000%nat → Forall is_u8 cs → screen_at m base cs →
  scroll_at base m = Ok (tt, put_bytes m base (cell_bytes (tty_scroll cs))).
Proof.
  intros Hl Hu Hs. apply screen_at_spec in Hs as [Hm Hs]; [|done].
  assert (length (tty_scroll cs) = 2000%nat) as HT.
  { unfold tty_scroll. rewrite length_app, length_drop, length_replicate. lia. }
  unfold scroll_at. erewrite bind_ok.
  2:{ change m with (put_bytes m base (cell_bytes (take (Z.to_nat 0) (tty_scroll cs)))) at 1.
      apply draw_loop; [|lia|rewrite HT; done].
      intros j c Hj Hc. change (Z.of_nat _) with 1920 in Hj. unfold scroll_cell.
      unfold tty_scroll in Hc at 1. rewrite lookup_app_l in Hc by (rewrite length_drop; lia).
      rewrite lookup_drop in Hc. erewrite bind_ok.
      2:{ apply load8_ok. rewrite put_bytes_outside.
          - rewrite shiftl_1, <-(Hs _ _ Hc). f_equal. unfold NUM_COLS. lia.
          - rewrite length_cell_bytes, length_take, shiftl_1. unfold NUM_COLS. lia. }
      apply draw_cell_at; [done|done|lia| |by eapply Forall_lookup_1].
      unfold tty_scroll. rewrite lookup_app_l by (rewrite length_drop; lia).
      by rewrite lookup_drop. }
  change (Z.to_nat 0 + Z.to_nat ((NUM_ROWS - 1) * NUM_COLS))%nat
    with (Z.to_nat ((NUM_ROWS - 1) * NUM_COLS)).
  rewrite (draw_loop m base (tty_scroll cs)).
  - rewrite take_ge; [done|]. rewrite HT. done.
  - intros j c Hj Hc. unfold NUM_ROWS, NUM_COLS in Hj.
    assert (c = 32) as ->.
    { unfold tty_scroll in Hc. rewrite lookup_app_r in Hc by (rewrite length_drop; lia).
      by apply lookup_replicate in Hc as [-> _]. }
    apply draw_cell_at; try done. lia.
  - done.
  - rewrite HT. done.
Qed.

Lemma tty_scroll_length cs : length cs = 2000%nat → length (tty_scroll cs) = 2000%nat.
Proof. unfold tty_scroll. rewrite length_app, length_drop, length_replicate. lia. Qed.

Lemma tty_scroll_u8 cs : Forall is_u8 cs → Forall is_u8 (tty_scroll cs).
Proof.
  intros H. apply Forall_app. split; [by apply Forall_drop|].
  apply Forall_replicate. unfold is_u8. lia.
Qed.

Lemma clear_screen_ok m base :
  mapped m base 4000 →
  for_loop (Z.to_nat (NUM_ROWS * NUM_COLS)) 0 (blank_cell base) m =
  Ok (tt, put_bytes m base (cell_bytes (replicate 2000 32))).
Proof.
  intros Hm.
  change m with (put_bytes m base (cell_bytes (take (Z.to_nat 0) (replicate 2000 32)))) at 1.
  rewrite (draw_loop m base (replicate 2000 32)).
  - rewrite take_ge; [done|]. by rewrite length_replicate.
  - intros j c Hj Hc. pose proof Hc as [-> _]%lookup_replicate.
    apply (draw_cell_at _ _ (replicate 2000 32)); try done. lia.
  - done.
  - by rewrite length_replicate.
Qed.

(** ** Cursor arrays *)

Lemma wp_screen_x_at i v Q s :
  zlookup (screen_x (kscr s)) i = Some v → Q v s → wp (screen_x_at i) Q s.
Proof. unfold wp, screen_x_at, kget, mbind, K_bind, klift. by intros ->. Qed.
Lemma wp_screen_y_at i v Q s :
  zlookup (screen_y (kscr s)) i = Some v → Q v s → wp (screen_y_at i) Q s.
Proof. unfold wp, screen_y_at, kget, mbind, K_bind, klift. by intros ->. Qed.
Lemma wp_set_screen_x i v (Q : unit → kstate → Prop) s :
  is_Some (zlookup (screen_x (kscr s)) i) →
  Q tt (s <| kscr ::= (λ c, c <| screen_x := <[Z.to_nat i := v]> (screen_x (kscr s)) |>) |>) →
  wp (set_screen_x i v) Q s.
Proof.
  rewrite zlookup_is_Some. intros Hi HQ. unfold wp, set_screen_x, kget, mbind, K_bind, klift.
  by rewrite zupdate_in_range.
Qed.
Lemma wp_set_screen_y i v (Q : unit → kstate → Prop) s :
  is_Some (zlookup (screen_y (kscr s)) i) →
  Q tt (s <| kscr ::= (λ c, c <| screen_y := <[Z.to_nat i := v]> (screen_y (kscr s)) |>) |>) →
  wp (set_screen_y i v) Q s.
Proof.
  rewrite zlookup_is_Some. intros Hi HQ. unfold wp, set_screen_y, kget, mbind, K_bind, klift.
  by rewrite zupdate_in_range.
Qed.
Lemma wp_on_mem {A} (c : K mem A) a m' Q s :
  c (kmem s) = Ok (a, m') → Q a (s <| kmem := m' |>) → wp (on_mem c) Q s.
Proof. intros E HQ. eapply wp_run; [by apply on_mem_ok|done]. Qed.
Lemma wp_cur_pcb b Q s :
  pcbs (kproc s) !! pcb (kproc s) = Some b → Q b s → wp cur_pcb Q s.
Proof. intros E HQ. eapply wp_run; [by apply cur_pcb_ok|done]. Qed.

(** ** putc

    The state after the terminal [t] was given the cells [cs] and the cursor
    [x], [y]; every step of [putc] leads to such a state. *)
Definition draw (s : kstate) (t : Z) (m : mem) (x y : Z) : kstate :=
  (s <| kmem := m |>) <| kscr ::= (λ c, (c
    <| screen_x ::= <[Z.to_nat (t - 1) := x]> |>)
    <| screen_y ::= <[Z.to_nat (t - 1) := y]> |>) |>.

Lemma draw_id s t x y :
  1 ≤ t → zlookup (screen_x (kscr s)) (t - 1) = Some x →
  zlookup (screen_y (kscr s)) (t - 1) = Some y → draw s t (kmem s) x y = s.
Proof.
  intros Ht [_ Hx]%zlookup_Some [_ Hy]%zlookup_Some. unfold draw. upd_cbv.
  rewrite !list_insert_id by done. by destruct s as [? ? []].
Qed.

Lemma wp_draw_start {A} s t x y (c : K kstate A) Q :
  1 ≤ t → zlookup (screen_x (kscr s)) (t - 1) = Some x →
  zlookup (screen_y (kscr s)) (t - 1) = Some y →
  wp c Q (draw s t (kmem s) x y) → wp c Q s.
Proof. intros ???. by rewrite draw_id. Qed.

Section putc.
Context (s : kstate) (t : Z) (Ht : 1 ≤ t).
Context (Hx : is_Some (zlookup (screen_x (kscr s)) (t - 1))).
Context (Hy : is_Some (zlookup (screen_y (kscr s)) (t - 1))).
Implicit Types (Q : unit → kstate → Prop).

Lemma draw_x m x y : zlookup (screen_x (kscr (draw s t m x y))) (t - 1) = Some x.
Proof using Ht Hx Hy.
  rewrite zlookup_is_Some in Hx. cbn. rewrite zlookup_insert, decide_True by (done || lia). done.
Qed.
Lemma draw_y m x y : zlookup (screen_y (kscr (draw s t m x y))) (t - 1) = Some y.
Proof using Ht Hx Hy.
  rewrite zlookup_is_Some in Hy. cbn. rewrite zlookup_insert, decide_True by (done || lia). done.
Qed.
Lemma wp_draw_x m x y (Q : Z → kstate → Prop) : Q x (draw s t m x y) → wp (screen_x_at (t - 1)) Q (draw s t m x y).
Proof using Ht Hx Hy. apply wp_screen_x_at, draw_x. Qed.
Lemma wp_draw_y m x y (Q : Z → kstate → Prop) : Q y (draw s t m x y) → wp (screen_y_at (t - 1)) Q (draw s t m x y).
Proof using Ht Hx Hy. apply wp_screen_y_at, draw_y. Qed.
Lemma wp_draw_set_x m x y v Q :
  Q tt (draw s t m v y) → wp (set_screen_x (t - 1) v) Q (draw s t m x y).
Proof using Ht Hx Hy.
  intros HQ. apply wp_set_screen_x; [by rewrite draw_x|].
  revert HQ. unfold draw. upd_cbv. by rewrite list_insert_insert_eq.
Qed.
Lemma wp_draw_set_y m x y v Q :
  Q tt (draw s t m x v) → wp (set_screen_y (t - 1) v) Q (draw s t m x y).
Proof using Ht Hx Hy.
  intros HQ. apply wp_set_screen_y; [by rewrite draw_y|].
  revert HQ. unfold draw. upd_cbv. by rewrite list_insert_insert_eq.
Qed.
Lemma wp_draw_mem m x y c m' Q :
  c m = Ok (tt, m') → Q tt (draw s t m' x y) → wp (on_mem c) Q (draw s t m x y).
Proof using. intros E HQ. by eapply wp_on_mem. Qed.
End putc.

Lemma wp_tScroll k s t m x y cs (Q : unit → kstate → Prop) :
  writes_to s t → length cs = 2000%nat → Forall is_u8 cs →
  screen_at m (term_base (kscr s) t) cs →
  Q tt (draw s t (put_bytes m (term_base (kscr s) t) (cell_bytes (tty_scroll cs))) x y) →
  wp (tScroll k) Q (draw s t m x y).
Proof.
  intros (b & Hb & Ht & _) Hl Hu Hs HQ. unfold tScroll. rewrite wp_bind.
  eapply wp_cur_pcb; [done|]. rewrite wp_bind. unfold whatTerm.
  rewrite wp_bind, wp_get, wp_ret. unfold draw at 1. upd_cbv. rewrite Ht.
  destruct (decide (t = currentTerminal (kscr s))) as [E|N].
  - rewrite bool_decide_eq_false_2 by naive_solver. unfold term_base in *.
    rewrite bool_decide_eq_true_2 in Hs, HQ by done.
    eapply wp_draw_mem; [by apply scroll_at_ok|done].
  - rewrite bool_decide_eq_true_2 by done. unfold term_base in *.
    rewrite bool_decide_eq_false_2 in Hs, HQ by done.
    eapply wp_draw_mem; [by apply scroll_at_ok|done].
Qed.

(** One cell written inside a screen. *)
Lemma write_cell_ok m base cs k c :
  screen_at m base cs → length cs = 2000%nat → 0 ≤ k < 2000 → is_u8 c →
  ∃ m', (_ ← store8 (base + Z.shiftl k 1) c; store8 (base + Z.shiftl k 1 + 1) ATTRIB) m
      = Ok (tt, m') ∧
    screen_at m' base (<[Z.to_nat k := c]> cs) ∧ dom m' = dom m ∧
    ∀ a, ¬ (base ≤ a < base + 4000) → m' !! a = m !! a.
Proof.
  intros Hs Hl Hk Hc. apply screen_at_spec in Hs as [Hm Hs]; [|done].
  rewrite mapped_spec in Hm. rewrite shiftl_1.
  exists (<[base + 2 * k + 1 := ATTRIB]> (<[base + 2 * k := c]> m)).
  erewrite bind_ok by (apply store8_ok, Hm; lia). rewrite u8_id by done.
  rewrite store8_ok.
  2:{ rewrite lookup_insert_ne by lia. apply Hm. lia. }
  assert (dom (<[base + 2 * k + 1:=ATTRIB]> (<[base + 2 * k:=c]> m)) = dom m) as Hd.
  { rewrite !dom_insert_mapped; [done|apply Hm; lia|rewrite lookup_insert_ne by lia; apply Hm; lia]. }
  split; [done|]. split; [|split; [done|]].
  - apply screen_at_spec; [by rewrite length_insert|].
    split; [eapply mapped_dom; [done|by apply mapped_spec]|].
    intros i d Hi. rewrite lookup_insert_ne by lia.
    destruct (decide (i = Z.to_nat k)) as [->|Hne].
    + rewrite list_lookup_insert_eq in Hi by lia. simplify_eq.
      replace (base + 2 * Z.of_nat (Z.to_nat k)) with (base + 2 * k) by lia.
      apply lookup_insert_eq.
    + rewrite list_lookup_insert_ne in Hi by done. rewrite lookup_insert_ne by lia. auto.
  - intros a Ha. rewrite !lookup_insert_ne by lia. done.
Qed.

Lemma tty_newline_ok v : tty_ok v → tty_ok (tty_newline v).
Proof.
  intros (Hl & Hu & Hr & Hc). unfold tty_newline. case_bool_decide; repeat split; cbn;
    try lia; auto using tty_scroll_length, tty_scroll_u8.
Qed.

Lemma tty_putc_ok c v : is_u8 c → tty_ok v → tty_ok (tty_putc c v).
Proof.
  intros Hc Hv. pose proof Hv as (Hl & Hu & Hr & Hcol). unfold tty_putc.
  case_bool_decide; [by apply tty_newline_ok|].
  assert (tty_ok (v <| cells ::= <[Z.to_nat (80 * row v + col v):=c]> |>)) as Hv'.
  { repeat split; cbn; try lia; [by rewrite length_insert|by apply Forall_insert]. }
  case_bool_decide; [by apply tty_newline_ok|].
  destruct Hv' as (H1 & H2 & H3 & H4). repeat split; cbn in *; try done; lia.
Qed.

(** What is left to show after a step of drawing. *)
Definition drawn_to (s : kstate) (t : Z) (v : tty) (s' : kstate) : Prop :=
  ∃ m', s' = draw s t m' (col v) (row v) ∧
    screen_at m' (term_base (kscr s) t) (cells v) ∧ dom m' = dom (kmem s) ∧
    ∀ a, ¬ (term_base (kscr s) t ≤ a < term_base (kscr s) t + 4000) →
      m' !! a = kmem s !! a.

(** A character that makes the terminal scroll. *)
Definition scrolls (c : Z) (v : tty) : Prop := row v = 24 ∧ (c = 10 ∨ c = 13 ∨ col v = 79).

(** [tScroll] looks at the running process; no other part of [putc_at] does. *)
Section putc_ok.
Context (s : kstate) (t : Z) (Ht : 1 ≤ t ≤ 3).
Context (Hx : is_Some (zlookup (screen_x (kscr s)) (t - 1))).
Context (Hy : is_Some (zlookup (screen_y (kscr s)) (t - 1))).
Let base := term_base (kscr s) t.

(** Scrolling keeps the rest of memory. *)
Lemma scroll_drawn m v :
  tty_ok v → screen_at m base (cells v) → dom m = dom (kmem s) →
  (∀ a, ¬ (base ≤ a < base + 4000) → m !! a = kmem s !! a) →
  row v = 24 →
  drawn_to s t (tty_newline v)
    (draw s t (put_bytes m base (cell_bytes (tty_scroll (cells v)))) 0 (row v)).
Proof using Type.
  intros (Hl & Hu & Hr & Hc) Hs Hd Ho Hrow. pose proof (tty_scroll_length _ Hl) as Hsl.
  assert (mapped m base 4000) as Hm by apply Hs.
  unfold tty_newline. rewrite bool_decide_eq_true_2, Hrow by done.
  eexists. split; [done|]. cbn [cells]. split; [by apply put_cells_screen|]. split.
  - rewrite put_bytes_dom; [done|]. by rewrite length_cell_bytes, Hsl.
  - intros a Ha. rewrite put_bytes_outside; [by apply Ho|].
    rewrite length_cell_bytes, Hsl. unfold base in *. lia.
Qed.

Lemma putc_at_newline c k v :
  (scrolls c v → writes_to s t) → tty_at s t v → c = 10 ∨ c = 13 →
  wp (putc_at c t base k) (λ _ s', drawn_to s t (tty_putc c v) s') s.
Proof using Ht Hx Hy.
  intros Hw (Hv & Hs & Ex & Ey) Hc. assert (1 ≤ t) by lia. pose proof Hv as (Hl & Hu & Hr & Hcol).
  unfold putc_at, tty_putc. rewrite (bool_decide_eq_true_2 (_ ∨ _)) by done.
  replace (bool_decide (c = 10) || bool_decide (c = 13)) with true
    by (destruct Hc as [-> | ->]; done).
  apply (wp_draw_start s t _ _ _ _ ltac:(done) Ex Ey).
  rewrite wp_bind. apply wp_draw_y; [done|done|done|]. rewrite wp_bind.
  case_bool_decide as H24.
  - change (NUM_ROWS - 1) with 24 in H24.
    eapply wp_tScroll; [apply Hw; split; [done|tauto]|exact Hl|done|done|].
    apply wp_draw_set_x; [done|done|done|]. by apply scroll_drawn.
  - change (NUM_ROWS - 1) with 24 in H24.
    apply wp_draw_set_y; [done|done|done|]. apply wp_draw_set_x; [done|done|done|].
    unfold tty_newline. rewrite bool_decide_eq_false_2 by done. by eexists.
Qed.

Lemma putc_at_char c k v :
  (scrolls c v → writes_to s t) → tty_at s t v → ¬ (c = 10 ∨ c = 13) → is_u8 c →
  wp (putc_at c t base k) (λ _ s', drawn_to s t (tty_putc c v) s') s.
Proof using Ht Hx Hy.
  intros Hw (Hv & Hs & Ex & Ey) Hc Huc. assert (1 ≤ t) by lia.
  pose proof Hv as (Hl & Hu & Hr & Hcol).
  unfold putc_at, tty_putc. rewrite (bool_decide_eq_false_2 (_ ∨ _)) by done.
  rewrite !(bool_decide_eq_false_2 (c = _)) by naive_solver. cbn [orb].
  apply (wp_draw_start s t _ _ _ _ ltac:(done) Ex Ey).
  rewrite wp_bind. apply wp_draw_y; [done|done|done|].
  rewrite wp_bind. apply wp_draw_x; [done|done|done|]. rewrite wp_bind.
  destruct (write_cell_ok (kmem s) base (cells v) (80 * row v + col v) c)
    as (m' & E & Hs' & Hd & Ho); [done|done|lia|done|].
  eapply wp_draw_mem; [exact E|]. rewrite wp_bind.
  apply wp_draw_set_x; [done|done|done|]. rewrite wp_bind.
  change (NUM_ROWS - 1) with 24. change NUM_COLS with 80. change NUM_ROWS with 25.
  set (v' := v <| cells ::= <[Z.to_nat (80 * row v + col v):=c]> |>).
  assert (tty_ok v') as Hv'.
  { repeat split; cbn; try lia; [by rewrite length_insert|by apply Forall_insert]. }
  destruct (decide (col v = 79)) as [E79|N79].
  - rewrite (bool_decide_eq_true_2 (col v = 79)), (bool_decide_eq_true_2 (col v + 1 = 80)) by lia.
    rewrite andb_true_r, E79. case_bool_decide as H24.
    + eapply wp_tScroll; [apply Hw; split; [done|tauto]|by rewrite length_insert|by apply Forall_insert|done|].
      apply wp_draw_set_x; [done|done|done|].
      by apply (scroll_drawn m' v').
    + apply wp_draw_set_y; [done|done|done|]. apply wp_draw_set_x; [done|done|done|].
      unfold tty_newline. cbn [row v' upd Set_cells cells].
      rewrite bool_decide_eq_false_2 by done. exists m'. split; [|done].
      cbn [col row]. change (Z.quot (79 + 1) 80) with 1.
      by rewrite (Z.rem_small (row v + 1)) by lia.
  - rewrite (bool_decide_eq_false_2 (col v = 79)), (bool_decide_eq_false_2 (col v + 1 = 80)) by lia.
    rewrite andb_false_r. apply wp_draw_set_y; [done|done|done|].
    apply wp_draw_set_x; [done|done|done|]. exists m'. split; [|done].
    cbn [col row v' upd Set_cells Set_col cells].
    rewrite (Z.quot_small (col v + 1)), Z.add_0_r, !Z.rem_small by lia. done.
Qed.
End putc_ok.

(** [putc] writes one character to the terminal of the running process, as
    the abstract terminal does. *)
Lemma putc_ok s t v c :
  writes_to s t → keyInt (kscr s) = 0 ∨ t = currentTerminal (kscr s) →
  tty_at s t v → is_u8 c →
  wp (putc c) (λ _ s', drawn_to s t (tty_putc c v) s') s.
Proof.
  intros Hw Hk Hv Hc. pose proof Hw as (b & Hb & Hbt & Ht).
  assert (is_Some (zlookup (screen_x (kscr s)) (t - 1)) ∧
    is_Some (zlookup (screen_y (kscr s)) (t - 1))) as [Hx Hy]
    by (destruct Hv as (_ & _ & -> & ->); done).
  unfold putc. rewrite wp_bind. eapply wp_cur_pcb; [done|].
  rewrite wp_bind. unfold whatTerm. rewrite wp_bind, wp_get, wp_ret, wp_bind, wp_get.
  rewrite Hbt.
  assert (∀ k, wp (putc_at c t (term_base (kscr s) t) k)
    (λ _ s', drawn_to s t (tty_putc c v) s') s) as Hput.
  { intros k. destruct (decide (c = 10 ∨ c = 13)).
    - by apply putc_at_newline.
    - by apply putc_at_char. }
  destruct (decide (t = currentTerminal (kscr s))) as [E|N].
  - rewrite (bool_decide_eq_true_2 (t = _)) by done. cbn [orb].
    specialize (Hput 0). unfold term_base in Hput at 1.
    rewrite bool_decide_eq_true_2 in Hput by done. by rewrite E in Hput at 1.
  - destruct Hk as [Hk|]; [|done].
    rewrite (bool_decide_eq_false_2 (t = _)), (bool_decide_eq_true_2 (keyInt _ = 0)) by done.
    cbn [orb negb]. specialize (Hput 1). unfold term_base in Hput at 1.
    by rewrite bool_decide_eq_false_2 in Hput by done.
Qed.

(** The echo of a typed character goes to the displayed terminal. Unless it
    scrolls, it does not matter which process runs. *)
Lemma echo_ok s t v c :
  1 ≤ t ≤ 3 → currentTerminal (kscr s) = t → keyInt (kscr s) ≠ 0 →
  is_Some (pcbs (kproc s) !! pcb (kproc s)) → (scrolls c v → writes_to s t) →
  tty_at s t v → is_u8 c → wp (putc c) (λ _ s', drawn_to s t (tty_putc c v) s') s.
Proof.
  intros Ht Hc Hk [b Hb] Hw Hv Hu.
  assert (is_Some (zlookup (screen_x (kscr s)) (t - 1)) ∧
    is_Some (zlookup (screen_y (kscr s)) (t - 1))) as [Hx Hy]
    by (destruct Hv as (_ & _ & -> & ->); done).
  unfold putc. rewrite wp_bind. eapply wp_cur_pcb; [done|].
  rewrite wp_bind. unfold whatTerm. rewrite wp_bind, wp_get, wp_ret, wp_bind, wp_get.
  rewrite (bool_decide_eq_false_2 (keyInt _ = 0)) by done. rewrite orb_true_r, Hc.
  replace VIDEO with (term_base (kscr s) t) by (unfold term_base; by rewrite bool_decide_eq_true_2).
  destruct (decide (c = 10 ∨ c = 13)); [by apply putc_at_newline|by apply putc_at_char].
Qed.

(** ** What a step of drawing leaves *)

Lemma term_base_drawn s t v s' t' :
  drawn_to s t v s' → term_base (kscr s') t' = term_base (kscr s) t'.
Proof. intros (m' & -> & _). reflexivity. Qed.

Lemma drawn_writes_to s t v s' u : drawn_to s t v s' → writes_to s u → writes_to s' u.
Proof. intros (m' & -> & _). done. Qed.

Lemma drawn_tty s t v w s' :
  1 ≤ t → tty_at s t w → tty_ok v → drawn_to s t v s' → tty_at s' t v.
Proof.
  intros Ht (_ & _ & Hx & Hy) Hv (m' & -> & Hs & Hd & Ho).
  split; [done|]. split; [done|].
  split; [by apply draw_x; auto; rewrite ?Hx, ?Hy|by apply draw_y; auto; rewrite ?Hx, ?Hy].
Qed.

Lemma term_base_disjoint s t t' :
  t ≠ t' → 1 ≤ t ≤ 3 → 1 ≤ t' ≤ 3 → disjoint_range (term_base s t) 4000 (term_base s t') 4000.
Proof.
  intros. unfold disjoint_range, term_base, VIDEO, VIDEO_TERM, VIDEO_OFFSET.
  repeat case_bool_decide; lia.
Qed.

(** The other terminals are not touched. *)
Lemma drawn_other s t v s' t' w :
  t ≠ t' → 1 ≤ t ≤ 3 → 1 ≤ t' ≤ 3 → drawn_to s t v s' → tty_at s t' w → tty_at s' t' w.
Proof.
  intros Hne Ht Ht' (m' & -> & Hs & Hd & Ho) (Hw & Hs' & Hx & Hy).
  pose proof (term_base_disjoint (kscr s) t t') as Hdis. unfold disjoint_range in Hdis.
  split; [done|]. split.
  - cbn. eapply screen_at_agree; [done| |exact Hs']. intros a Ha. apply Ho.
    change (term_base _ t') with (term_base (kscr s) t') in Ha. lia.
  - unfold draw. upd_cbv. unfold zlookup in *. rewrite bool_decide_eq_true_2 in * by lia.
    split; rewrite list_lookup_insert_ne by lia; done.
Qed.

Lemma drawn_id s t v : 1 ≤ t → tty_at s t v → drawn_to s t v s.
Proof.
  intros Ht (_ & Hs & Hx & Hy). exists (kmem s). by rewrite draw_id.
Qed.

Lemma draw_draw s t m x y m' x' y' :
  draw (draw s t m x y) t m' x' y' = draw s t m' x' y'.
Proof. unfold draw. upd_cbv. by rewrite !list_insert_insert_eq. Qed.

Lemma drawn_trans s t v s1 w s2 :
  drawn_to s t v s1 → drawn_to s1 t w s2 → drawn_to s t w s2.
Proof.
  intros Hd (m2 & -> & Hs2 & Hd2 & Ho2). rewrite (term_base_drawn _ _ _ _ _ Hd) in *.
  destruct Hd as (m1 & -> & Hs1 & Hd1 & Ho1).
  exists m2. rewrite draw_draw. split; [done|]. split; [done|]. split; [by etrans|].
  intros a Ha. rewrite Ho2 by done. by apply Ho1.
Qed.

(** ** puts *)

Lemma tty_puts_ok str v : Forall is_u8 str → tty_ok v → tty_ok (tty_puts str v).
Proof.
  unfold tty_puts. intros Hs. revert v. induction Hs; intros v Hv; cbn; auto using tty_putc_ok.
Qed.

Lemma puts_loop_ok s t v0 a str fuel (k : nat) s1 :
  writes_to s t → keyInt (kscr s) = 0 ∨ t = currentTerminal (kscr s) →
  tty_at s t v0 → cstr_at (kmem s) a str →
  disjoint_range (term_base (kscr s) t) 4000 a (Z.of_nat (length str) + 1) →
  (k ≤ length str)%nat → (length str - k < fuel)%nat →
  drawn_to s t (tty_puts (take k str) v0) s1 →
  wp (puts_loop fuel a (Z.of_nat k)) (λ r s', r = Z.of_nat (length str) ∧
    drawn_to s t (tty_puts str v0) s') s1.
Proof.
  intros Hw Hk Hv Hstr Hdis. revert k s1. induction fuel as [|fuel IH]; intros k s1 Hle Hf Hs1;
    [lia|].
  pose proof Hw as (_ & _ & _ & Ht).
  cbn [puts_loop]. rewrite wp_bind.
  assert (cstr_at (kmem s1) a str) as Hstr1.
  { destruct Hs1 as (m1 & -> & _ & _ & Ho). eapply cstr_at_agree; [|done].
    intros x Hx. apply Ho. unfold disjoint_range in Hdis. lia. }
  destruct (decide (k = length str)) as [->|Hne].
  - eapply wp_run.
    { apply on_mem_pure. by apply cstr_at_end. }
    rewrite bool_decide_eq_false_2, wp_ret by tauto.
    split; [done|]. by rewrite take_ge in Hs1.
  - destruct (lookup_lt_is_Some_2 str k) as [c Hc]; [lia|].
    destruct (cstr_at_char _ _ _ _ _ Hstr1 Hc) as [Hload Hchar].
    eapply wp_run; [by apply on_mem_pure|].
    rewrite bool_decide_eq_true_2 by (unfold is_char in *; lia).
    rewrite wp_bind.
    assert (Forall is_u8 (take k str)) as Hu by (apply Forall_take; by eapply cstr_at_u8).
    eapply wp_mono.
    { apply putc_ok.
      - by eapply drawn_writes_to.
      - destruct Hs1 as (m1 & -> & _). done.
      - eapply drawn_tty; [lia|done| |exact Hs1]. apply tty_puts_ok; [done|apply Hv].
      - unfold is_u8. unfold is_char in *. lia. }
    cbn. intros _ s2 Hs2. replace (Z.of_nat k + 1) with (Z.of_nat (S k)) by lia.
    apply IH; [lia|lia|]. rewrite (take_S_r _ _ _ Hc). unfold tty_puts.
    rewrite foldl_app. cbn. eapply drawn_trans; done.
Qed.

(** [puts] writes the characters of a string one after the other, and gives
    their number. *)
Lemma puts_ok s t v a str :
  writes_to s t → keyInt (kscr s) = 0 ∨ t = currentTerminal (kscr s) →
  tty_at s t v → cstr_at (kmem s) a str →
  disjoint_range (term_base (kscr s) t) 4000 a (Z.of_nat (length str) + 1) →
  wp (puts a) (λ r s', r = Z.of_nat (length str) ∧ drawn_to s t (tty_puts str v) s') s.
Proof.
  intros Hw Hk Hv Hstr Hdis. pose proof Hw as (_ & _ & _ & Ht).
  pose proof (cstr_at_size _ _ _ Hstr).
  apply (puts_loop_ok s t v a str _ 0); try done; [lia|lia|].
  apply drawn_id; [lia|done].
Qed.

(** ** backspace and clear *)

(** The cursor moves back by one cell, and the cell becomes blank. *)
Definition tty_backspace (v : tty) : tty :=
  let '(r, c) :=
    if bool_decide (col v = 0) then if bool_decide (row v = 0) then (0, 0) else (row v - 1, 79)
    else (row v, col v - 1) in
  Mk_tty (<[Z.to_nat (80 * r + c) := 32]> (cells v)) r c.
Definition tty_blank : tty := Mk_tty (replicate 2000 32) 0 0.

Lemma tty_backspace_ok v : tty_ok v → tty_ok (tty_backspace v).
Proof.
  intros (Hl & Hu & Hr & Hc). unfold tty_backspace.
  assert (∀ k r c, 0 ≤ r < 25 → 0 ≤ c < 80 → tty_ok (Mk_tty (<[k := 32]> (cells v)) r c)) as H.
  { intros k r c H1 H2. split; [cbn; by rewrite length_insert|].
    split; [by apply Forall_insert|done]. }
  repeat case_bool_decide; apply H; lia.
Qed.

(** The displayed terminal. *)
Section displayed.
Context (s : kstate) (t : Z) (Ht1 : 1 ≤ t) (Htc : currentTerminal (kscr s) = t).
Context (v : tty) (Hv : tty_at s t v).

Lemma displayed_arrays : is_Some (zlookup (screen_x (kscr s)) (t - 1)) ∧
  is_Some (zlookup (screen_y (kscr s)) (t - 1)).
Proof using Hv. destruct Hv as (_ & _ & -> & ->). done. Qed.

Lemma displayed_base : term_base (kscr s) t = VIDEO.
Proof using Htc. unfold term_base. by rewrite bool_decide_eq_true_2. Qed.

(** The blank cell both operations end with. *)
Lemma blank_ok r c :
  0 ≤ r < 25 → 0 ≤ c < 80 →
  wp (y ← screen_y_at (t - 1); x ← screen_x_at (t - 1);
      on_mem (blank_cell VIDEO (NUM_COLS * y + x)))
    (λ _ s', drawn_to s t (Mk_tty (<[Z.to_nat (80 * r + c) := 32]> (cells v)) r c) s')
    (draw s t (kmem s) c r).
Proof using Ht1 Htc Hv.
  intros Hr Hc. destruct displayed_arrays as [Hx Hy]. destruct Hv as ((Hl & Hu & _) & Hs & _).
  rewrite displayed_base in Hs. rewrite wp_bind. apply wp_draw_y; [done|done|done|].
  rewrite wp_bind. apply wp_draw_x; [done|done|done|].
  destruct (write_cell_ok (kmem s) VIDEO (cells v) (80 * r + c) 32) as (m' & E & H1 & H2 & H3);
    [done|done|lia|unfold is_u8; lia|].
  eapply wp_draw_mem; [exact E|]. exists m'. rewrite displayed_base. done.
Qed.

Lemma backspace_ok : wp backspace (λ _ s', drawn_to s t (tty_backspace v) s') s.
Proof using Ht1 Htc Hv.
  destruct displayed_arrays as [Hx Hy]. pose proof Hv as ((_ & _ & Hr & Hc) & _ & Ex & Ey).
  unfold backspace, whatTerm. rewrite wp_bind, wp_bind, wp_get, wp_ret, Htc.
  apply (wp_draw_start s t _ _ _ _ Ht1 Ex Ey).
  rewrite wp_bind. apply wp_draw_y; [done|done|done|].
  rewrite wp_bind. apply wp_draw_x; [done|done|done|]. rewrite wp_bind.
  unfold tty_backspace. destruct (decide (col v = 0)) as [Hc0|Hc0];
    [rewrite (bool_decide_eq_true_2 (col v = 0)) by done
    |rewrite (bool_decide_eq_false_2 (col v = 0)) by done].
  - destruct (decide (row v = 0)) as [Hr0|Hr0].
    + rewrite (bool_decide_eq_false_2 (row v > 0)), (bool_decide_eq_true_2 (row v = 0)),
        (bool_decide_eq_false_2 (col v > 0)), wp_ret by lia.
      rewrite Hr0, Hc0. apply blank_ok; lia.
    + rewrite (bool_decide_eq_true_2 (row v > 0)), (bool_decide_eq_false_2 (row v = 0)) by lia.
      rewrite wp_bind. apply wp_draw_set_x; [done|done|done|].
      apply wp_draw_set_y; [done|done|done|]. apply blank_ok; lia.
  - destruct (decide (row v = 0)) as [Hr0|Hr0].
    + rewrite (bool_decide_eq_false_2 (row v > 0)), (bool_decide_eq_true_2 (row v = 0)),
        (bool_decide_eq_true_2 (col v > 0)) by lia.
      apply wp_draw_set_x; [done|done|done|]. rewrite Hr0. apply blank_ok; lia.
    + rewrite (bool_decide_eq_true_2 (row v > 0)) by lia.
      change NUM_COLS with 80. change NUM_ROWS with 25.
      rewrite (Z.rem_small (col v - 1)), (Z.quot_small (col v - 1)), Z.add_0_r,
        (Z.rem_small (row v)) by lia.
      rewrite wp_bind. apply wp_draw_set_x; [done|done|done|].
      apply wp_draw_set_y; [done|done|done|]. apply blank_ok; lia.
Qed.
End displayed.

Lemma clear_ok s t x y :
  1 ≤ t → currentTerminal (kscr s) = t → mapped (kmem s) VIDEO 4000 →
  zlookup (screen_x (kscr s)) (t - 1) = Some x →
  zlookup (screen_y (kscr s)) (t - 1) = Some y →
  wp clear (λ _ s', drawn_to s t tty_blank s') s.
Proof.
  intros Ht Htc Hm Hx Hy. unfold clear. rewrite wp_bind.
  eapply wp_on_mem; [by apply clear_screen_ok|]. unfold whatTerm.
  rewrite wp_bind, wp_bind, wp_get, wp_ret. cbn [kscr upd Set_kmem]. rewrite Htc.
  set (m' := put_bytes _ _ _).
  replace (s <| kmem := m' |>) with (draw s t m' x y).
  2:{ pose proof (draw_id s t x y Ht Hx Hy) as E. unfold draw in *. revert E. upd_cbv.
      intros E. apply (f_equal (λ s, s <| kmem := m' |>)) in E. exact E. }
  assert (is_Some (zlookup (screen_x (kscr s)) (t - 1)) ∧
    is_Some (zlookup (screen_y (kscr s)) (t - 1))) as [Hx' Hy'] by (rewrite Hx, Hy; done).
  rewrite wp_bind. apply wp_draw_set_y; [done|done|done|]. apply wp_draw_set_x; [done|done|done|].
  exists m'. unfold term_base. rewrite bool_decide_eq_true_2 by done.
  split; [done|]. split; [by apply put_cells_screen|]. split.
  - apply put_bytes_dom. by rewrite length_cell_bytes.
  - intros a Ha. apply put_bytes_outside. by rewrite length_cell_bytes.
Qed.

(** Erasing a character that was typed on a blank cell. *)
Lemma tty_putc_backspace v c :
  tty_ok v → ¬ (c = 10 ∨ c = 13) → (row v, col v) ≠ (24, 79) →
  cells v !! Z.to_nat (80 * row v + col v) = Some 32 → tty_backspace (tty_putc c v) = v.
Proof.
  intros (Hl & _ & Hr & Hc) Hn Hlast Hcell. unfold tty_putc.
  rewrite (bool_decide_eq_false_2 (_ ∨ _)) by done.
  assert (∀ k, k = Z.to_nat (80 * row v + col v) →
    <[k := 32]> (<[Z.to_nat (80 * row v + col v) := c]> (cells v)) = cells v) as Hins.
  { intros k ->. rewrite list_insert_insert_eq. by apply list_insert_id. }
  case_bool_decide as H79.
  - assert (row v ≠ 24) by congruence. unfold tty_newline. cbn [row upd Set_cells cells].
    rewrite bool_decide_eq_false_2 by done. unfold tty_backspace. cbn [row col cells].
    rewrite (bool_decide_eq_true_2 (0 = 0)), (bool_decide_eq_false_2 (row v + 1 = 0)) by lia.
    rewrite Hins by lia. destruct v; cbn in *. f_equal; lia.
  - unfold tty_backspace. cbn [row col cells upd Set_cells Set_col].
    rewrite (bool_decide_eq_false_2 (col v + 1 = 0)) by lia.
    rewrite Hins by lia. destruct v; cbn in *. f_equal; lia.
Qed.
