(* ===== verification/Printf.v ===== *)
(** * Formatted output ([printf] of [lib.c])

    The conversions, and the rendering of a format that [printf] writes to
    the terminal of the running process. *)

From S2P Require Import Prelude CInt Memory CString State Screen.

(** ** The code

    The format is the bytes of the string literal; the arguments are the
    words [esp] walks over. A conversion with no argument left reads the
    stack past them and faults. *)
Section printf.
Context `{Layout}.

Definition next_arg (args : list Z) : K kstate (Z * list Z) :=
  match args with [] => kfault | a :: args' => mret (a, args') end.

(** [while(i < 8) conv_buf[i++] = '0';] *)
Fixpoint pad_zeros (fuel : nat) (i : Z) : K mem unit :=
  match fuel with
  | O => mret tt
  | S fuel' =>
      if bool_decide (i < 8) then
        _ ← store8 (L_conv_buf + i) 48; pad_zeros fuel' (i + 1)
      else mret tt
  end.

(** The [switch] on the conversion specifier [c]; the remaining arguments. *)
Definition conversion (c alternate : Z) (args : list Z) : K kstate (list Z) :=
  if bool_decide (c = 37) then _ ← putc 37; mret args                  (* '%' *)
  else if bool_decide (c = 120) then                                    (* 'x' *)
    '(a, args) ← next_arg args;
    _ ← (if bool_decide (alternate = 0) then
          _ ← on_mem (itoa (u32 a) L_conv_buf 16); puts L_conv_buf
        else
          _ ← on_mem (itoa (u32 a) (L_conv_buf + 8) 16);
          starting_index ← on_mem (strlen (L_conv_buf + 8));
          _ ← on_mem (pad_zeros 8 starting_index);
          puts (L_conv_buf + starting_index));
    mret args
  else if bool_decide (c = 117) then                                    (* 'u' *)
    '(a, args) ← next_arg args;
    _ ← on_mem (itoa (u32 a) L_conv_buf 10);
    _ ← puts L_conv_buf; mret args
  else if bool_decide (c = 100) then                                    (* 'd' *)
    '(a, args) ← next_arg args;
    let value := s32 a in
    _ ← on_mem (if bool_decide (value < 0) then
          _ ← store8 L_conv_buf 45; itoa (u32 (- value)) (L_conv_buf + 1) 10
        else itoa (u32 value) L_conv_buf 10);
    _ ← puts L_conv_buf; mret args
  else if bool_decide (c = 99) then                                     (* 'c' *)
    '(a, args) ← next_arg args; _ ← putc (u8 a); mret args
  else if bool_decide (c = 115) then                                    (* 's' *)
    '(a, args) ← next_arg args; _ ← puts (u32 a); mret args
  else mret args.

(** After ['%']: the flags ['#'], then a specifier. Gives the rest of the
    format. A format that ends here makes the C loop step over its
    terminator, outside the literal. *)
Fixpoint format_char_switch (fmt : list Z) (alternate : Z) (args : list Z)
    : K kstate (list Z * list Z) :=
  match fmt with
  | [] => kfault
  | c :: fmt' =>
      if bool_decide (c = 35) then format_char_switch fmt' 1 args         (* '#' *)
      else args ← conversion c alternate args; mret (fmt', args)
  end.

Fixpoint printf_loop (fuel : nat) (fmt args : list Z) : K kstate unit :=
  match fuel, fmt with
  | _, [] => mret tt
  | O, _ => kspin
  | S fuel', c :: fmt' =>
      if bool_decide (c = 37) then
        '(fmt', args) ← format_char_switch fmt' 0 args;
        printf_loop fuel' fmt' args
      else _ ← putc c; printf_loop fuel' fmt' args
  end.
Definition printf (fmt args : list Z) : K kstate Z :=
  _ ← printf_loop (length fmt) fmt args; mret (Z.of_nat (length fmt)).

End printf.

(** ** The rendering of a format

    [strs] gives the string at an address. *)
Section render.
Context (strs : Z → option (list Z)).

(** The characters of a conversion, and the arguments left. *)
Definition render_conv (c : Z) (alternate : bool) (args : list Z) : option (list Z * list Z) :=
  if bool_decide (c = 37) then Some ([37], args)
  else if bool_decide (c ∈ [120; 117; 100; 99; 115]) then
    match args with
    | [] => None
    | a :: args =>
        if bool_decide (c = 120) then
          let ds := digits (u32 a) 16 in
          Some ((if alternate then replicate (8 - length ds) 48 ++ ds else ds), args)
        else if bool_decide (c = 117) then Some (digits (u32 a) 10, args)
        else if bool_decide (c = 100) then
          Some ((if bool_decide (s32 a < 0) then 45 :: digits (- s32 a) 10
                 else digits (s32 a) 10), args)
        else if bool_decide (c = 99) then Some ([u8 a], args)
        else str ← strs (u32 a); Some (str, args)
    end
  else Some ([], args).

(** The flags and the specifier after a ['%']. *)
Fixpoint render_spec (fmt : list Z) (alternate : bool) (args : list Z)
    : option (list Z * list Z * list Z) :=
  match fmt with
  | [] => None
  | c :: fmt =>
      if bool_decide (c = 35) then render_spec fmt true args
      else '(out, args) ← render_conv c alternate args; Some (out, fmt, args)
  end.

Inductive renders : list Z → list Z → list Z → Prop :=
  | renders_end args : renders [] args []
  | renders_char c fmt args out :
      c ≠ 37 → is_u8 c → renders fmt args out → renders (c :: fmt) args (c :: out)
  | renders_conv fmt args o fmt' args' out :
      render_spec fmt false args = Some (o, fmt', args') →
      renders fmt' args' out → renders (37 :: fmt) args (o ++ out).
End render.

(** What printing leaves: terminal [t] shows [v], and [conv_buf] may have
    changed. *)
Section printed.
Context `{Layout}.

Definition printed_to (s : kstate) (t : Z) (v : tty) (s' : kstate) : Prop :=
  ∃ m', s' = draw s t m' (col v) (row v) ∧
    screen_at m' (term_base (kscr s) t) (cells v) ∧ dom m' = dom (kmem s) ∧
    ∀ a, ¬ (term_base (kscr s) t ≤ a < term_base (kscr s) t + 4000) →
      ¬ (L_conv_buf ≤ a < L_conv_buf + 64) → m' !! a = kmem s !! a.

Definition printing (s : kstate) (t : Z) (v : tty) (s' : kstate) : Prop :=
  tty_ok v ∧ printed_to s t v s'.

(** The buffer and the strings to print are apart from the screen. *)
Record print_ok (s : kstate) (t : Z) (strs : Z → option (list Z)) : Prop := {
  po_writes : writes_to s t;
  po_key : keyInt (kscr s) = 0 ∨ t = currentTerminal (kscr s);
  po_mapped : mapped (kmem s) L_conv_buf 64;
  po_apart : disjoint_range (term_base (kscr s) t) 4000 L_conv_buf 64;
  po_strs a str : strs a = Some str → cstr_at (kmem s) a str ∧
    disjoint_range (term_base (kscr s) t) 4000 a (Z.of_nat (length str) + 1) ∧
    disjoint_range L_conv_buf 64 a (Z.of_nat (length str) + 1);
}.
End printed.

(** ** Steps of printing *)

(** The padding of [%#x]: zeros from [i] up to the digits. *)
Lemma pad_zeros_ok `{Layout} m i k n :
  mapped m L_conv_buf 8 → 0 ≤ i ≤ 8 → Z.to_nat (8 - i) = n → (n ≤ k)%nat →
  pad_zeros k i m = Ok (tt, put_bytes m (L_conv_buf + i) (replicate n 48)).
Proof.
  revert i n m. induction k as [|k IH]; intros i n m Hm Hi Hn Hk.
  { replace n with 0%nat by lia. done. }
  cbn [pad_zeros]. case_bool_decide as H8.
  - destruct n as [|n]; [lia|]. rewrite mapped_spec in Hm.
    erewrite bind_ok by (apply store8_ok, Hm; lia). rewrite (IH _ n); [|..|lia|lia].
    + do 2 f_equal. apply map_eq. intros x. change (u8 48) with 48.
      cbn [replicate put_bytes]. rewrite !lookup_insert, !put_bytes_lookup, lookup_insert.
      rewrite length_replicate. replace (L_conv_buf + (i + 1)) with (L_conv_buf + i + 1) by lia.
      repeat case_decide; done || lia.
    + rewrite mapped_spec. intros x Hx. rewrite lookup_insert_is_Some.
      destruct (decide (L_conv_buf + i = x)); [by left|right; split; [done|by apply Hm]].
    + lia.
  - replace n with 0%nat by lia. done.
Qed.

Section steps.
Context `{Layout} (s : kstate) (t : Z) (strs : Z → option (list Z)).
Context (Hp : print_ok s t strs) (v0 : tty) (Hv0 : tty_at s t v0).
Let base := term_base (kscr s) t.
Let I := printing s t.

Lemma printed_start : I v0 s.
Proof using Hp Hv0.
  split; [apply Hv0|]. destruct Hp as [(? & ? & ? & ?) _ _ _ _].
  destruct Hv0 as (_ & Hs & Hx & Hy). exists (kmem s). rewrite draw_id by (done || lia). done.
Qed.

Lemma printed_base v s' : printed_to s t v s' → term_base (kscr s') t = base.
Proof using. by intros (m' & -> & _). Qed.

Lemma printed_tty v s' : I v s' → tty_at s' t v.
Proof using Hp Hv0.
  intros (Hv & m' & -> & Hs & Hd & Ho). destruct Hp as [(? & ? & ? & ?) _ _ _ _].
  destruct Hv0 as (_ & _ & Hx & Hy).
  split; [done|]. split; [done|].
  split; [apply draw_x|apply draw_y]; rewrite ?Hx, ?Hy; done || lia.
Qed.

Lemma printed_drawn v v' s1 s2 : I v s1 → drawn_to s1 t v' s2 → tty_ok v' → I v' s2.
Proof using.
  intros (Hv & H1) Hd2 Hv'. pose proof (printed_base _ _ H1) as Eb.
  destruct H1 as (m1 & -> & Hs1 & Hd1 & Ho1). destruct Hd2 as (m2 & -> & Hs2 & Hd2 & Ho2).
  rewrite Eb in *. split; [done|]. exists m2. rewrite draw_draw.
  split; [done|]. split; [done|]. split; [by etrans|].
  intros a Ha Hb. rewrite Ho2 by done. by apply Ho1.
Qed.

Lemma printed_putc v s1 c : I v s1 → is_u8 c → wp (putc c) (λ _ s2, I (tty_putc c v) s2) s1.
Proof using Hp Hv0.
  intros HI Hc. pose proof (printed_tty _ _ HI) as Ht. pose proof HI as (Hv & m1 & Es1 & _).
  eapply wp_mono.
  - apply putc_ok; [| |exact Ht|done].
    + destruct Hp as [Hw _ _ _ _]. subst s1. exact Hw.
    + destruct Hp as [_ Hk _ _ _]. by subst s1.
  - cbn. intros _ s2 Hd. eapply printed_drawn; [done..|]. by apply tty_putc_ok.
Qed.

Lemma printed_puts v s1 a str :
  I v s1 → cstr_at (kmem s1) a str →
  disjoint_range base 4000 a (Z.of_nat (length str) + 1) →
  wp (puts a) (λ _ s2, I (tty_puts str v) s2) s1.
Proof using Hp Hv0.
  intros HI Hstr Hdis. pose proof (printed_tty _ _ HI) as Ht. pose proof HI as (Hv & m1 & Es1 & _).
  eapply wp_mono.
  - apply puts_ok; [| |exact Ht|exact Hstr|].
    + destruct Hp as [Hw _ _ _ _]. subst s1. exact Hw.
    + destruct Hp as [_ Hk _ _ _]. by subst s1.
    + rewrite (printed_base v) by apply HI. done.
  - cbn. intros _ s2 [_ Hd]. eapply printed_drawn; [done..|].
    apply tty_puts_ok; [|done]. by eapply cstr_at_u8.
Qed.

(** Writing into [conv_buf]. *)
Lemma printed_buf v s1 a k :
  I v s1 → L_conv_buf ≤ a → a + Z.of_nat (length k) ≤ L_conv_buf + 64 →
  I v (s1 <| kmem := put_bytes (kmem s1) a k |>).
Proof using Hp.
  intros (Hv & m1 & -> & Hs1 & Hd1 & Ho1) Ha Hk. destruct Hp as [_ _ Hm Hap _].
  unfold disjoint_range in Hap. split; [done|].
  exists (put_bytes m1 a k). split; [done|].
  assert (mapped m1 a (Z.of_nat (length k))) as Hma.
  { apply (mapped_dom (kmem s)); [done|]. eapply mapped_sub; [exact Hm|lia|lia]. }
  split; [|split].
  - eapply screen_at_agree; [by apply put_bytes_dom| |exact Hs1].
    intros x Hx. apply put_bytes_outside. unfold base in *. lia.
  - by rewrite put_bytes_dom.
  - intros x Hx1 Hx2. rewrite put_bytes_outside by lia. by apply Ho1.
Qed.

Lemma printed_mapped v s1 : I v s1 → mapped (kmem s1) L_conv_buf 64.
Proof using Hp.
  intros (_ & m1 & -> & _ & Hd & _). destruct Hp as [_ _ Hm _ _]. by eapply mapped_dom.
Qed.

Lemma printed_str v s1 a str :
  I v s1 → strs a = Some str → cstr_at (kmem s1) a str ∧
    disjoint_range base 4000 a (Z.of_nat (length str) + 1).
Proof using Hp.
  intros (_ & m1 & -> & _ & Hd & Ho) Hs. destruct Hp as [_ _ _ _ Hstr].
  destruct (Hstr _ _ Hs) as (Hc & Hd1 & Hd2). split; [|done].
  unfold disjoint_range, base in *. eapply cstr_at_agree; [|done].
  intros x Hx. cbn. apply Ho; lia.
Qed.

(** A number written into the buffer at [off] and printed from there. *)
Lemma printed_number v s1 z off radix :
  I v s1 → is_u32 z → 2 ≤ radix ≤ 36 → 0 ≤ off ≤ 8 →
  wp (on_mem (itoa z (L_conv_buf + off) radix))
    (λ _ s2, I v s2 ∧ s2 = s1 <| kmem := put_bytes (kmem s1) (L_conv_buf + off)
                                        (digits z radix ++ [0]) |> ∧
      cstr_at (kmem s2) (L_conv_buf + off) (digits z radix)) s1.
Proof using Hp.
  intros HI Hz Hr Hoff. pose proof (printed_mapped _ _ HI) as Hm.
  destruct (digits_length radix Hr z) as [Hlen|]; [|unfold is_u32 in *; lia].
  eapply wp_run.
  - apply on_mem_ok, itoa_ok; [done|done|]. eapply mapped_sub; [exact Hm|lia|lia].
  - split; [|split; [done|]].
    + apply printed_buf; [done|lia|]. rewrite length_app. cbn. lia.
    + split; [apply put_bytes_at|]. by apply digits_chars.
Qed.

(** Printing a string kept in the buffer. *)
Lemma printed_puts_buf v s1 off str :
  I v s1 → cstr_at (kmem s1) (L_conv_buf + off) str → 0 ≤ off →
  off + Z.of_nat (length str) < 64 →
  wp (puts (L_conv_buf + off)) (λ _ s2, I (tty_puts str v) s2) s1.
Proof using Hp Hv0.
  intros HI Hs Hoff Hl. apply printed_puts; [done|done|].
  destruct Hp as [_ _ _ Hap _]. unfold disjoint_range, base in *. lia.
Qed.

End steps.

(** ** printf writes the rendering *)

Lemma digits_rev_short radix (n k : nat) v :
  2 ≤ radix ≤ 36 → 0 ≤ v < radix ^ Z.of_nat n → (length (digits_rev k v radix) ≤ n)%nat.
Proof.
  intros Hr. revert n v. induction k as [|k IH]; intros n v Hv; cbn [digits_rev]; [cbn; lia|].
  case_bool_decide; [|cbn; lia]. destruct n as [|n]; [cbn in Hv; lia|].
  cbn [length]. apply le_n_S, IH. rewrite Nat2Z.inj_succ, Z.pow_succ_r in Hv by lia.
  split; [apply Z.div_pos; lia|apply Z.div_lt_upper_bound; lia].
Qed.

Lemma digits_short radix (n : nat) v :
  2 ≤ radix ≤ 36 → 0 ≤ v < radix ^ Z.of_nat n → (1 ≤ n)%nat →
  (length (digits v radix) ≤ n)%nat.
Proof.
  intros Hr Hv Hn. unfold digits. case_bool_decide; [cbn; lia|].
  rewrite length_reverse. by apply digits_rev_short.
Qed.

Lemma hex_short z : is_u32 z → (length (digits z 16) ≤ 8)%nat.
Proof. intros Hz. apply digits_short; [lia|exact Hz|lia]. Qed.

Lemma dec_short z : is_u32 z → (length (digits z 10) ≤ 10)%nat.
Proof.
  unfold is_u32. intros Hz. apply digits_short; [lia| |lia]. lia.
Qed.

Section conversions.
Context `{Layout} (s : kstate) (t : Z) (strs : Z → option (list Z)).
Context (Hp : print_ok s t strs) (v0 : tty) (Hv0 : tty_at s t v0).

Lemma tty_puts_app l1 l2 v : tty_puts (l1 ++ l2) v = tty_puts l2 (tty_puts l1 v).
Proof using. apply foldl_app. Qed.

(** [%x], [%u] and the non-negative [%d]: the digits in the buffer. *)
Lemma print_digits v s1 z radix :
  printing s t v s1 → is_u32 z → 2 ≤ radix ≤ 36 →
  wp (_ ← on_mem (itoa z L_conv_buf radix); puts L_conv_buf)
    (λ _ s2, printing s t (tty_puts (digits z radix) v) s2) s1.
Proof using Hp Hv0.
  intros HI Hz Hr. rewrite wp_bind.
  pose proof (printed_number s t strs Hp v s1 z 0 radix HI Hz Hr) as Hn.
  rewrite Z.add_0_r in Hn. eapply wp_mono; [apply Hn; lia|]. cbn. intros _ s2 (HI2 & _ & Hs2).
  rewrite <-(Z.add_0_r L_conv_buf) in Hs2 |- *.
  destruct (digits_length radix Hr z) as [Hl|]; [|unfold is_u32 in *; lia].
  apply (printed_puts_buf s t strs Hp v0 Hv0 v); done || lia.
Qed.

(** [%d] of a negative number: the sign, then the digits. *)
Lemma print_negative v s1 z :
  printing s t v s1 → 0 ≤ z ≤ 2 ^ 31 →
  wp (_ ← on_mem (_ ← store8 L_conv_buf 45; itoa z (L_conv_buf + 1) 10);
      puts L_conv_buf)
    (λ _ s2, printing s t (tty_puts (45 :: digits z 10) v) s2) s1.
Proof using Hp Hv0.
  intros HI Hz. assert (is_u32 z) as Hu by (unfold is_u32; lia).
  pose proof (dec_short z Hu) as Hl. pose proof (digits_chars 10 ltac:(lia) z) as Hch.
  pose proof (printed_mapped s t strs Hp _ _ HI) as Hm.
  set (m1 := <[L_conv_buf := 45]> (kmem s1)).
  assert (m1 = put_bytes (kmem s1) L_conv_buf [45]) as Em1 by done.
  set (m2 := put_bytes m1 (L_conv_buf + 1) (digits z 10 ++ [0])).
  assert (bytes_at m2 L_conv_buf ((45 :: digits z 10) ++ [0])) as Hb.
  { cbn [app bytes_at]. split; [|apply put_bytes_at].
    unfold m2. rewrite put_bytes_outside by lia. apply lookup_insert_eq. }
  assert (mapped m1 L_conv_buf 64) as Hm1.
  { eapply mapped_dom; [|exact Hm]. rewrite Em1. apply put_bytes_dom.
    eapply mapped_sub; [exact Hm|lia|cbn; lia]. }
  rewrite wp_bind. eapply wp_run.
  { apply on_mem_ok. erewrite bind_ok.
    2:{ apply store8_ok. rewrite mapped_spec in Hm. apply Hm. lia. }
    apply itoa_ok; [lia|done|]. eapply mapped_sub; [exact Hm1|lia|lia]. }
  assert (printing s t v (s1 <| kmem := m2 |>)) as HI2.
  { assert (printing s t v (s1 <| kmem := m1 |>)) as HI1.
    { rewrite Em1. apply (printed_buf s t strs Hp); [done|lia|cbn; lia]. }
    apply (printed_buf s t strs Hp v _ (L_conv_buf + 1) (digits z 10 ++ [0])) in HI1;
      [exact HI1|lia|rewrite length_app; cbn; lia]. }
  rewrite <-(Z.add_0_r L_conv_buf).
  apply (printed_puts_buf s t strs Hp v0 Hv0 v _ _ (45 :: digits z 10)).
  - rewrite Z.add_0_r. exact HI2.
  - split; [rewrite Z.add_0_r; exact Hb|]. constructor; [|done]. unfold is_char. lia.
  - done.
  - cbn [length]. lia.
Qed.

(** [%#x]: eight digits. *)
Lemma print_hex8 v s1 z :
  printing s t v s1 → is_u32 z →
  wp (_ ← on_mem (itoa z (L_conv_buf + 8) 16);
      starting_index ← on_mem (strlen (L_conv_buf + 8));
      _ ← on_mem (pad_zeros 8 starting_index);
      puts (L_conv_buf + starting_index))
    (λ _ s2,
      printing s t (tty_puts (replicate (8 - length (digits z 16)) 48 ++ digits z 16) v) s2) s1.
Proof using Hp Hv0.
  intros HI Hz. pose proof (hex_short z Hz) as Hl.
  pose proof (digits_chars 16 ltac:(lia) z) as Hch. set (ds := digits z 16) in *.
  rewrite wp_bind.
  eapply wp_mono; [by apply (printed_number s t strs Hp v s1 z 8 16)|].
  cbv beta. fold ds. intros _ s2 (HI2 & _ & Hs2). rewrite wp_bind.
  eapply wp_run; [by apply on_mem_pure, strlen_ok; [exact Hs2|lia]|]. rewrite wp_bind.
  pose proof (printed_mapped s t strs Hp _ _ HI2) as Hm2.
  eapply wp_run.
  { apply on_mem_ok, (pad_zeros_ok _ _ _ (8 - length ds)); [|lia|lia|lia].
    eapply mapped_sub; [exact Hm2|lia|lia]. }
  set (zs := replicate (8 - length ds) 48).
  assert (length zs = (8 - length ds)%nat) as Hzs by apply length_replicate.
  apply (printed_puts_buf s t strs Hp v0 Hv0 v _ _ (zs ++ ds)).
  - apply (printed_buf s t strs Hp); [done|lia|lia].
  - split.
    + rewrite <-app_assoc, bytes_at_app. cbn. split; [apply put_bytes_at|].
      destruct Hs2 as [Hs2 _].
      replace (L_conv_buf + Z.of_nat (length ds) + Z.of_nat (length zs))
        with (L_conv_buf + 8) by lia.
      eapply bytes_at_agree; [|exact Hs2]. intros x Hx. apply put_bytes_outside. lia.
    + apply Forall_app. split; [|done]. apply Forall_replicate. unfold is_char. lia.
  - lia.
  - rewrite length_app. lia.
Qed.

Lemma conversion_ok v s1 c (alt : bool) args out args' :
  render_conv strs c alt args = Some (out, args') → printing s t v s1 →
  wp (conversion c (c_bool alt) args)
    (λ r s2, r = args' ∧ printing s t (tty_puts out v) s2) s1.
Proof using Hp Hv0.
  unfold render_conv, conversion, next_arg. intros E HI.
  case_bool_decide as H37.
  { simplify_eq. rewrite wp_bind. eapply wp_mono; [by apply (printed_putc s t strs Hp v0 Hv0 v)|].
    done. }
  assert (∀ a, is_u32 (u32 a)) as Hu by auto using u32_range.
  case_bool_decide as Hin.
  2:{ rewrite !elem_of_cons in Hin. rewrite !bool_decide_eq_false_2 by tauto.
      simplify_eq. done. }
  destruct args as [|a args]; [done|].
  case_bool_decide as H120.
  { rewrite wp_bind, wp_ret, wp_bind. simplify_eq.
    eapply wp_mono; [|intros ? ? Hs2; split; [done|exact Hs2]]. destruct alt; cbn [c_bool].
    - rewrite (bool_decide_eq_false_2 (1 = 0)) by done. by apply print_hex8.
    - rewrite (bool_decide_eq_true_2 (0 = 0)) by done. apply print_digits; done || lia. }
  case_bool_decide as H117.
  { rewrite wp_bind, wp_ret. simplify_eq. apply wp_seq.
    eapply wp_mono; [by apply print_digits; [|apply Hu|lia]|done]. }
  case_bool_decide as H100.
  { rewrite wp_bind, wp_ret. cbv zeta. pose proof (s32_range a) as Hr. unfold is_s32 in Hr.
    apply wp_seq. case_bool_decide as Hneg; simplify_eq;
      (eapply wp_mono; [|intros ? ? Hs2; split; [done|exact Hs2]]);
      rewrite u32_id by (unfold is_u32; lia).
    - apply print_negative; done || lia.
    - apply print_digits; [done|unfold is_u32; lia|lia]. }
  case_bool_decide as H99.
  { rewrite wp_bind, wp_ret, wp_bind. simplify_eq.
    eapply wp_mono; [apply (printed_putc s t strs Hp v0 Hv0 v); [done|apply u8_range]|]. done. }
  rewrite (bool_decide_eq_true_2 (c = 115)) by (rewrite !elem_of_cons, elem_of_nil in Hin; tauto).
  destruct (strs (u32 a)) as [str|] eqn:Es; [|done]. cbn in E. simplify_eq.
  destruct (printed_str s t strs Hp v s1 _ _ HI Es) as [Hc Hd].
  rewrite wp_bind, wp_ret, wp_bind.
  eapply wp_mono; [by apply (printed_puts s t strs Hp v0 Hv0 v s1 _ out)|]. done.
Qed.

Lemma format_char_switch_ok fmt v s1 (alt : bool) args out fmt' args' :
  render_spec strs fmt alt args = Some (out, fmt', args') → printing s t v s1 →
  wp (format_char_switch fmt (c_bool alt) args)
    (λ r s2, r = (fmt', args') ∧ printing s t (tty_puts out v) s2) s1.
Proof using Hp Hv0.
  revert alt. induction fmt as [|c fmt IH]; intros alt E HI; [done|].
  cbn [render_spec format_char_switch] in *. case_bool_decide as H35.
  - by apply (IH true).
  - destruct (render_conv strs c alt args) as [[o a']|] eqn:Ec; [|done]. cbn in E. simplify_eq.
    rewrite wp_bind. eapply wp_mono; [by apply conversion_ok|]. cbv beta.
    intros r s2 [-> Hs2]. done.
Qed.

Lemma render_spec_shorter fmt alt args out fmt' args' :
  render_spec strs fmt alt args = Some (out, fmt', args') → (length fmt' < length fmt)%nat.
Proof using Type.
  revert alt. induction fmt as [|c fmt IH]; intros alt E; [done|]. cbn in *.
  case_bool_decide; [specialize (IH _ E); lia|].
  destruct (render_conv strs c alt args) as [[o a']|]; [|done]. cbn in E. simplify_eq. lia.
Qed.

Lemma printf_loop_ok fuel fmt args out v s1 :
  renders strs fmt args out → (length fmt ≤ fuel)%nat → printing s t v s1 →
  wp (printf_loop fuel fmt args) (λ _ s2, printing s t (tty_puts out v) s2) s1.
Proof using Hp Hv0.
  intros Hr. revert fuel v s1. induction Hr as [args|c fmt args out Hc Hu _ IH
    |fmt args o fmt' args' out Hs _ IH]; intros fuel v s1 Hf HI.
  - by destruct fuel.
  - cbn [length] in Hf. destruct fuel as [|fuel]; [lia|]. cbn [printf_loop].
    rewrite bool_decide_eq_false_2, wp_bind by done.
    eapply wp_mono; [by apply (printed_putc s t strs Hp v0 Hv0 v)|]. cbv beta. intros _ s2 HI2.
    apply (IH fuel (tty_putc c v)); [lia|done].
  - cbn [length] in Hf. destruct fuel as [|fuel]; [lia|]. cbn [printf_loop].
    rewrite bool_decide_eq_true_2, wp_bind by done. pose proof (render_spec_shorter _ _ _ _ _ _ Hs).
    eapply wp_mono; [by apply (format_char_switch_ok fmt v s1 false)|]. cbv beta.
    intros r s2 [-> HI2]. rewrite tty_puts_app. apply IH; [lia|done].
Qed.

Lemma printf_renders fmt args out :
  renders strs fmt args out →
  wp (printf fmt args) (λ r s2, r = Z.of_nat (length fmt) ∧ printing s t (tty_puts out v0) s2) s.
Proof using Hp Hv0.
  intros Hr. unfold printf. rewrite wp_bind. eapply wp_mono.
  - apply (printf_loop_ok _ fmt args out v0); [done|done|]. by apply (printed_start s t strs).
  - done.
Qed.
End conversions.

(** A format without conversions, and ["%c"]. *)
Lemma renders_plain strs fmt args :
  Forall (λ c, is_u8 c ∧ c ≠ 37) fmt → renders strs fmt args fmt.
Proof. induction 1 as [|c fmt [] _ IH]; by constructor. Qed.

(** Formats without conversions need no buffer. *)
Lemma printf_plain_loop `{Layout} s t v fmt fuel :
  writes_to s t → keyInt (kscr s) = 0 ∨ t = currentTerminal (kscr s) →
  tty_at s t v → Forall (λ c, is_u8 c ∧ c ≠ 37) fmt → (length fmt ≤ fuel)%nat →
  wp (printf_loop fuel fmt []) (λ _ s', drawn_to s t (tty_puts fmt v) s') s.
Proof.
  intros Hw Hk Hv Hf. revert s v fuel Hw Hk Hv.
  induction Hf as [|c fmt [Hc Hne] Hf IH]; intros s v fuel Hw Hk Hv Hfuel; cbn [length] in *.
  - pose proof Hw as (_ & _ & _ & Ht). destruct fuel; apply wp_ret, drawn_id; done || lia.
  - destruct fuel as [|fuel]; [lia|]. cbn [printf_loop].
    rewrite bool_decide_eq_false_2, wp_bind by done.
    eapply wp_mono; [by apply putc_ok|]. cbv beta. intros _ s1 Hs1.
    pose proof Hw as (_ & _ & _ & Ht).
    eapply wp_mono.
    + apply (IH s1 (tty_putc c v) fuel); [by eapply drawn_writes_to| | |lia].
      * destruct Hs1 as (m1 & -> & _). exact Hk.
      * eapply drawn_tty; [lia|done| |exact Hs1]. apply tty_putc_ok; [done|apply Hv].
    + cbv beta. intros _ s2 Hs2. by eapply drawn_trans.
Qed.

Lemma printf_plain `{Layout} s t v fmt :
  writes_to s t → keyInt (kscr s) = 0 ∨ t = currentTerminal (kscr s) →
  tty_at s t v → Forall (λ c, is_u8 c ∧ c ≠ 37) fmt →
  wp (printf fmt []) (λ r s', r = Z.of_nat (length fmt) ∧ drawn_to s t (tty_puts fmt v) s') s.
Proof.
  intros Hw Hk Hv Hf. unfold printf. rewrite wp_bind.
  eapply wp_mono; [by apply printf_plain_loop|]. done.
Qed.

Lemma printf_char `{Layout} c s : printf [37; 99] [c] s = (_ ← putc (u8 c); mret 2) s.
Proof.
  unfold printf. cbn [length printf_loop format_char_switch]. unfold conversion, next_arg.
  bool_lits. unfold mbind, K_bind. cbn. by destruct (putc (u8 c) s) as [[[] s1]| |].
Qed.
