(* ===== verification/Paging.v ===== *)
(** * Paging ([kernel.c], [paging.S])

    Each process has a page directory. They share the first 4 MB, the kernel
    page and the table of the terminals' pages; entry 32 maps the program
    page of the process and entry 33, once [vidmap] was called, the video
    page. *)

From S2P Require Import Prelude CInt Memory State.

Definition NUM_PAGES := 1024.
Definition NUM_PAGE_TABLES := 1024.
Definition NUM_PROCESS := 6.
Definition PAGE_SIZE := 4096.
Definition VIDEO_PAGE := 0xB8000.
Definition VIDEO_TERM1 := 0x2401000.
Definition VIDEO_TERM2 := 0x2402000.
Definition VIDEO_TERM3 := 0x2403000.
Definition video_table_entry := 184.
Definition kernel_hardcode := 0x400183.
Definition R_W_BIT_ENABLE := 0x02.
Definition SHELL_HARDCODE := 0x800187.
Definition physical_page_offset := 0x400000.
Definition EMPTY_PHYS_MEM := 0x2400000.
Definition FOUR_MB := 4 * 1024 * 1024.
Definition PROG_VIR_ADDR_START := 0x8000000.

(** Assignments to the tables. *)
Definition set_dir (i j v : Z) : K page_t unit :=
  d ← kget page_dir;
  row ← klift (zlookup d i);
  row' ← klift (zupdate row j (u32 v));
  d' ← klift (zupdate d i row');
  kmod (λ p, p <| page_dir := d' |>).
Definition set_table (p : page_t → list Z) `{!Setter p} (i v : Z) : K page_t unit :=
  l ← kget p;
  l' ← klift (zupdate l i (u32 v));
  kmod (λ s, s <| p := l' |>).

Section code.
Context `{Layout}.

(** [set_pse], [set_cr0] and the write of [load_CR3], on the registers. *)
Definition set_pse : K page_t unit := kmod (λ p, p <| cr4 ::= (λ v, Z.lor v 0x10) |>).
Definition cr0_paging : page_t → page_t := λ p, p <| cr0 ::= (λ v, Z.lor v 0x80000000) |>.

Definition initilize_paging : K page_t unit :=
  _ ← for_loop (Z.to_nat NUM_PROCESS) 0 (λ i,
        for_loop (Z.to_nat NUM_PAGE_TABLES) 0 (λ j, set_dir i j R_W_BIT_ENABLE));
  (* [map_to_addr] is [i * PAGE_SIZE] in the iteration [i] *)
  _ ← for_loop (Z.to_nat NUM_PAGES) 0 (λ i,
        set_table page_table_0 i (Z.lor (u32 (i * PAGE_SIZE)) R_W_BIT_ENABLE));
  _ ← set_table page_table_0 video_table_entry (Z.lor VIDEO_PAGE 7);
  _ ← for_loop (Z.to_nat NUM_PROCESS) 0 (λ i,
        _ ← set_dir i 0 (Z.lor L_page_table_0 0x07);
        set_dir i 34 (Z.lor L_page_table_term 7));
  _ ← for_loop (Z.to_nat NUM_PROCESS) 0 (λ i, set_dir i 1 kernel_hardcode);
  _ ← for_loop (Z.to_nat NUM_PAGES) 0 (λ i,
        let map_to_addr := u32 (EMPTY_PHYS_MEM + i * PAGE_SIZE) in
        _ ← set_table page_table_vidmap i (Z.lor map_to_addr R_W_BIT_ENABLE);
        set_table page_table_term i (Z.lor map_to_addr R_W_BIT_ENABLE));
  _ ← set_table page_table_vidmap 0 (Z.lor VIDEO_PAGE 7);
  _ ← set_table page_table_term 1 (Z.lor VIDEO_TERM1 7);
  _ ← set_table page_table_term 2 (Z.lor VIDEO_TERM2 7);
  _ ← set_table page_table_term 3 (Z.lor VIDEO_TERM3 7);
  set_pse.

(** ** Translation *)

(** The directory in CR3. *)
Definition cur_dir (p : page_t) : option (list Z) :=
  i ← list_find (λ i, L_page_dir i = cr3 p) (seqZ 0 NUM_PROCESS);
  zlookup (page_dir p) (i.2).
(** The table at a physical address; the kernel is mapped at its address. *)
Definition table_at (p : page_t) (a : Z) : option (list Z) :=
  if bool_decide (a = L_page_table_0) then Some (page_table_0 p)
  else if bool_decide (a = L_page_table_vidmap) then Some (page_table_vidmap p)
  else if bool_decide (a = L_page_table_term) then Some (page_table_term p)
  else None.

(** A mapping: the physical address, and whether user code may access it. *)
Definition translate (p : page_t) (va : Z) : option (Z * bool) :=
  if Z.testbit (cr0 p) 31 then
    dir ← cur_dir p;
    pde ← zlookup dir (va / FOUR_MB);
    if Z.testbit pde 0 then
      if Z.testbit pde 7 then
        if Z.testbit (cr4 p) 4
        then Some (pde / FOUR_MB * FOUR_MB + va mod FOUR_MB, Z.testbit pde 2)
        else None
      else
        tbl ← table_at p (pde / PAGE_SIZE * PAGE_SIZE);
        pte ← zlookup tbl (va mod FOUR_MB / PAGE_SIZE);
        if Z.testbit pte 0
        then Some (pte / PAGE_SIZE * PAGE_SIZE + va mod PAGE_SIZE,
                   Z.testbit pde 2 && Z.testbit pte 2)
        else None
    else None
  else Some (va, true).

(** The physical base of the program page, with paging on. *)
Definition prog_page (p : page_t) : option Z :=
  if Z.testbit (cr0 p) 31 then fst <$> translate p PROG_VIR_ADDR_START else None.

(** Memory is what the current address space shows. The address spaces
    differ in the program page, so a change of the registers that exchanges
    it exchanges the bytes shown there. *)
Definition in_prog (a : Z) : Prop := PROG_VIR_ADDR_START ≤ a < PROG_VIR_ADDR_START + FOUR_MB.
#[global] Instance in_prog_dec a : Decision (in_prog a).
Proof. unfold in_prog. apply _. Defined.
Definition show_page (new : option Z) (pages : gmap Z mem) (m : mem) : mem :=
  default ∅ (p ← new; pages !! p) ∪ filter (λ x, ¬ in_prog x.1) m.
Definition hide_page (old : option Z) (pages : gmap Z mem) (m : mem) : gmap Z mem :=
  match old with
  | Some p => <[p := filter (λ x, in_prog x.1) m]> pages
  | None => pages
  end.
Definition remap (f : page_t → page_t) : K kstate unit :=
  kmod (λ s,
    let old := prog_page (kpage s) in
    let new := prog_page (f (kpage s)) in
    let s := s <| kpage ::= f |> in
    if bool_decide (old = new) then s
    else
      let pages := hide_page old (kpages s) (kmem s) in
      (s <| kpages := pages |>) <| kmem ::= show_page new pages |>).

(** Until paging is on, memory is physical memory. Then an address shows the
    byte that the tables map it to, and an address without a mapping shows
    none: reading it faults. [offsets] are the distances, in the present pages,
    from the physical address to the virtual one. *)
Definition offsets (p : page_t) : list Z :=
  remove_dups (seqZ 0 NUM_PAGE_TABLES ≫= λ j,
    match (d ← cur_dir p; zlookup d j) with
    | Some pde =>
        if negb (Z.testbit pde 0) then []
        else if Z.testbit pde 7 then [j * FOUR_MB - pde / FOUR_MB * FOUR_MB]
        else
          let tbl := default [] (table_at p (pde / PAGE_SIZE * PAGE_SIZE)) in
          seqZ 0 NUM_PAGES ≫= λ k,
            match zlookup tbl k with
            | Some pte =>
                if Z.testbit pte 0 then [j * FOUR_MB + k * PAGE_SIZE - pte / PAGE_SIZE * PAGE_SIZE] else []
            | None => []
            end
    | None => []
    end).
Definition shown_from (p : page_t) (ds : list Z) (m : mem) : mem :=
  foldr (λ d shown,
    filter (λ x, fst <$> translate p x.1 = Some (x.1 - d)) (kmap (λ a, a + d) m) ∪ shown) ∅ ds.
Definition paged (p : page_t) (m : mem) : mem := shown_from p (offsets p) m.

Definition load_CR3 (ptr : Z) : K kstate unit := remap (λ p, p <| cr3 := ptr |>).
Definition set_cr0 : K kstate unit :=
  _ ← kmod (λ s,
    if Z.testbit (cr0 (kpage s)) 31 then s else s <| kmem ::= paged (cr0_paging (kpage s)) |>);
  remap cr0_paging.

Definition setup_paging (pid : Z) : K kstate unit :=
  _ ← zoom kpage (set_dir pid 32 (SHELL_HARDCODE + pid * physical_page_offset));
  _ ← zoom kpage set_pse;
  _ ← load_CR3 (L_page_dir pid);
  set_cr0.

Definition update_paging (pid : Z) : K kstate unit := load_CR3 (L_page_dir pid).

Definition add_vidmap (virt_vmem : Z) : K kstate unit :=
  let index := virt_vmem / FOUR_MB in
  b ← cur_pcb;
  _ ← zoom kpage (set_dir (pid b) index (Z.lor L_page_table_vidmap 7));
  load_CR3 (L_page_dir (pid b)).
End code.
