(* ===== verification/PagingInit.v ===== *)
(** * The tables [initilize_paging] builds *)

From S2P Require Import Prelude CInt Memory State Paging.

(** ** Tables *)

Record tables_ok (p : page_t) : Prop := {
  to_dirs : length (page_dir p) = 6%nat;
  to_dir : Forall (λ d, length d = 1024%nat) (page_dir p);
  to_0 : length (page_table_0 p) = 1024%nat;
  to_vidmap : length (page_table_vidmap p) = 1024%nat;
  to_term : length (page_table_term p) = 1024%nat;
}.

Lemma wp_set_dir i j v row (Q : unit → page_t → Prop) p :
  zlookup (page_dir p) i = Some row → 0 ≤ j < Z.of_nat (length row) →
  Q tt (p <| page_dir := <[Z.to_nat i := <[Z.to_nat j := u32 v]> row]> (page_dir p) |>) →
  wp (set_dir i j v) Q p.
Proof.
  intros Hi Hj HQ. unfold set_dir. rewrite wp_bind, wp_get, wp_bind. eapply wp_lift; [exact Hi|].
  rewrite wp_bind. eapply wp_lift; [by apply zupdate_in_range|].
  rewrite wp_bind.
  eapply wp_lift; [apply zupdate_in_range, zlookup_is_Some; by rewrite Hi|exact HQ].
Qed.

(** A table filled entry by entry. *)
Definition filled (f : Z → Z) (k : Z) (l : list Z) : list Z :=
  ((λ i, u32 (f i)) <$> seqZ 0 k) ++ drop (Z.to_nat k) l.

Lemma filled_step f k l :
  0 ≤ k < Z.of_nat (length l) →
  <[Z.to_nat k := u32 (f k)]> (filled f k l) = filled f (k + 1) l.
Proof.
  intros Hk. unfold filled.
  assert (length ((λ i, u32 (f i)) <$> seqZ 0 k) = Z.to_nat k) as Hl
    by (rewrite length_fmap, length_seqZ; lia).
  destruct (lookup_lt_is_Some_2 l (Z.to_nat k)) as [c Hc]; [lia|].
  rewrite (drop_S _ c _ Hc), insert_app_r_alt, Hl, Nat.sub_diag by lia. cbn.
  replace (Z.to_nat (k + 1)) with (S (Z.to_nat k)) by lia.
  replace (seqZ 0 (k + 1)) with (seqZ 0 k ++ [k]).
  - rewrite fmap_app, <-app_assoc. done.
  - rewrite seqZ_app by lia. f_equal.
Qed.

Lemma filled_length f k l :
  0 ≤ k ≤ Z.of_nat (length l) → length (filled f k l) = length l.
Proof. intros. unfold filled. rewrite length_app, length_fmap, length_seqZ, length_drop. lia. Qed.

Lemma filled_1024 f l :
  length l = 1024%nat → filled f 1024 l = (λ i, u32 (f i)) <$> seqZ 0 1024.
Proof. intros Hl. unfold filled. by rewrite drop_ge, app_nil_r by lia. Qed.

Lemma filled_lookup f n i :
  0 ≤ i < n → zlookup ((λ i, u32 (f i)) <$> seqZ 0 n) i = Some (u32 (f i)).
Proof.
  intros Hi. apply zlookup_Some. split; [lia|]. rewrite list_lookup_fmap.
  rewrite lookup_seqZ_lt by lia. cbn. do 2 f_equal. f_equal. lia.
Qed.

(** The rows of the directories changed one after the other. *)
Lemma wp_rows (g : list Z → list Z) body p (Q : unit → page_t → Prop) :
  length (page_dir p) = 6%nat →
  (∀ i D row Q', 0 ≤ i < 6 → length D = 6%nat → zlookup D i = Some row → row ∈ page_dir p →
    Q' tt (p <| page_dir := <[Z.to_nat i := g row]> D |>) →
    wp (body i) Q' (p <| page_dir := D |>)) →
  Q tt (p <| page_dir := g <$> page_dir p |>) → wp (for_loop 6 0 body) Q p.
Proof.
  intros Hl Hbody HQ.
  eapply wp_mono.
  - apply (wp_for body (λ i p', p' = p <| page_dir :=
      (g <$> take (Z.to_nat i) (page_dir p)) ++ drop (Z.to_nat i) (page_dir p) |>)).
    + cbn. by destruct p.
    + intros j s Hj ->.
      set (D := (g <$> take (Z.to_nat j) (page_dir p)) ++ drop (Z.to_nat j) (page_dir p)).
      destruct (lookup_lt_is_Some_2 (page_dir p) (Z.to_nat j)) as [row Hrow]; [lia|].
      assert (length (g <$> take (Z.to_nat j) (page_dir p)) = Z.to_nat j) as Hlt
        by (rewrite length_fmap, length_take; lia).
      assert (zlookup D j = Some row) as HD.
      { apply zlookup_Some. split; [lia|]. unfold D. rewrite lookup_app_r by (rewrite Hlt; done). rewrite Hlt.
        rewrite lookup_drop. by replace (Z.to_nat j + (Z.to_nat j - Z.to_nat j))%nat with (Z.to_nat j) by lia. }
      apply (Hbody j D row); [lia| |done|by eapply list_elem_of_lookup_2|].
      { unfold D. rewrite length_app, Hlt, length_drop. lia. }
      f_equal. unfold D. rewrite (drop_S _ row _ Hrow), insert_app_r_alt by (rewrite Hlt; done).
      rewrite Hlt, Nat.sub_diag.
      replace (Z.to_nat (j + 1)) with (S (Z.to_nat j)) by lia.
      rewrite (take_S_r _ _ _ Hrow), fmap_app, <-app_assoc. done.
  - cbv beta. intros [] s ->. rewrite take_ge, drop_ge, app_nil_r by (rewrite Hl; lia). done.
Qed.

Section init.
Context `{Layout}.

(** The tables after [initilize_paging]. *)
Definition dir_init : list Z :=
  <[1%nat := u32 kernel_hardcode]> (<[34%nat := u32 (Z.lor L_page_table_term 7)]>
    (<[0%nat := u32 (Z.lor L_page_table_0 0x07)]> (replicate 1024 2))).
Definition table_0_init : list Z :=
  <[184%nat := u32 (Z.lor VIDEO_PAGE 7)]>
    ((λ i, u32 (Z.lor (u32 (i * PAGE_SIZE)) R_W_BIT_ENABLE)) <$> seqZ 0 1024).
Definition free_table : list Z :=
  (λ i, u32 (Z.lor (u32 (EMPTY_PHYS_MEM + i * PAGE_SIZE)) R_W_BIT_ENABLE)) <$> seqZ 0 1024.
Definition table_term_init : list Z :=
  <[3%nat := u32 (Z.lor VIDEO_TERM3 7)]> (<[2%nat := u32 (Z.lor VIDEO_TERM2 7)]>
    (<[1%nat := u32 (Z.lor VIDEO_TERM1 7)]> free_table)).
Definition pages_init (p : page_t) : page_t :=
  Mk_page_t (replicate 6 dir_init) table_0_init
    (<[0%nat := u32 (Z.lor VIDEO_PAGE 7)]> free_table) table_term_init
    (cr0 p) (cr3 p) (Z.lor (cr4 p) 0x10).

Lemma fill_row i row p Q :
  length (page_dir p) = 6%nat → zlookup (page_dir p) i = Some row → length row = 1024%nat →
  Q tt (p <| page_dir := <[Z.to_nat i := replicate 1024 2]> (page_dir p) |>) →
  wp (for_loop (Z.to_nat NUM_PAGE_TABLES) 0 (λ j, set_dir i j R_W_BIT_ENABLE)) Q p.
Proof using Type.
  intros Hl Hi Hr HQ. assert (is_Some (zlookup (page_dir p) i)) as Hir%zlookup_is_Some by (by rewrite Hi).
  eapply wp_mono.
  - apply (wp_for _ (λ k p', p' = p <| page_dir :=
      <[Z.to_nat i := filled (λ _, 2) k row]> (page_dir p) |>)).
    + unfold filled. cbn. rewrite list_insert_id; [by destruct p|].
      by apply zlookup_Some in Hi as [_ Hi].
    + intros j s Hj ->. change (0 + Z.of_nat (Z.to_nat NUM_PAGE_TABLES)) with 1024 in Hj.
      eapply wp_set_dir.
      * cbn. rewrite zlookup_insert, decide_True by (done || lia). done.
      * rewrite filled_length by lia. lia.
      * cbn [page_dir upd Set_page_dir]. upd_cbv. rewrite list_insert_insert_eq.
        pose proof (filled_step (λ _, 2) j row ltac:(lia)) as E. cbv beta in E.
        unfold R_W_BIT_ENABLE. by rewrite E.
  - cbv beta. intros [] s ->. change (0 + Z.of_nat (Z.to_nat NUM_PAGE_TABLES)) with 1024.
    rewrite filled_1024 by done. exact HQ.
Qed.

Lemma wp_set_table (t : page_t → list Z) `{!Setter t} i v (Q : unit → page_t → Prop) p :
  0 ≤ i < Z.of_nat (length (t p)) →
  Q tt (p <| t := <[Z.to_nat i := u32 v]> (t p) |>) → wp (set_table t i v) Q p.
Proof using Type.
  intros Hi HQ. unfold set_table. rewrite wp_bind, wp_get, wp_bind.
  eapply wp_lift; [by apply zupdate_in_range|exact HQ].
Qed.

Lemma fill_table_0 f p (Q : unit → page_t → Prop) :
  length (page_table_0 p) = 1024%nat →
  Q tt (p <| page_table_0 := (λ i, u32 (f i)) <$> seqZ 0 1024 |>) →
  wp (for_loop (Z.to_nat NUM_PAGES) 0 (λ i, set_table page_table_0 i (f i))) Q p.
Proof using Type.
  intros Hl HQ. eapply wp_mono.
  - apply (wp_for _ (λ k p', p' = p <| page_table_0 := filled f k (page_table_0 p) |>)).
    + unfold filled. cbn. by destruct p.
    + intros j s Hj ->. change (0 + Z.of_nat (Z.to_nat NUM_PAGES)) with 1024 in Hj.
      apply wp_set_table; cbn; [rewrite filled_length by lia; lia|]. upd_cbv.
      by rewrite filled_step by lia.
  - cbv beta. intros [] s ->. change (0 + Z.of_nat (Z.to_nat NUM_PAGES)) with 1024.
    by rewrite filled_1024.
Qed.

Lemma fill_free_tables f p (Q : unit → page_t → Prop) :
  length (page_table_vidmap p) = 1024%nat → length (page_table_term p) = 1024%nat →
  Q tt ((p <| page_table_vidmap := (λ i, u32 (f i)) <$> seqZ 0 1024 |>)
          <| page_table_term := (λ i, u32 (f i)) <$> seqZ 0 1024 |>) →
  wp (for_loop (Z.to_nat NUM_PAGES) 0 (λ i,
    _ ← set_table page_table_vidmap i (f i); set_table page_table_term i (f i))) Q p.
Proof using Type.
  intros Hv Ht HQ. eapply wp_mono.
  - apply (wp_for _ (λ k p', p' = (p <| page_table_vidmap := filled f k (page_table_vidmap p) |>)
      <| page_table_term := filled f k (page_table_term p) |>)).
    + unfold filled. cbn. by destruct p.
    + intros j s Hj ->. change (0 + Z.of_nat (Z.to_nat NUM_PAGES)) with 1024 in Hj.
      rewrite wp_bind. apply wp_set_table; cbn; [rewrite filled_length by lia; lia|].
      apply wp_set_table; cbn; [rewrite filled_length by lia; lia|]. upd_cbv.
      by rewrite !filled_step by lia.
  - cbv beta. intros [] s ->. change (0 + Z.of_nat (Z.to_nat NUM_PAGES)) with 1024.
    by rewrite !filled_1024.
Qed.

Lemma initilize_paging_ok p :
  tables_ok p → initilize_paging p = Ok (tt, pages_init p).
Proof using Type.
  intros [Hl Hd H0 Hv Ht].
  enough (wp initilize_paging (λ _ p', p' = pages_init p) p) as Hwp
    by (apply wp_ok in Hwp as ([] & q & E & ->); exact E).
  unfold initilize_paging. rewrite wp_bind.
  apply (wp_rows (λ _, replicate 1024 2)); [done| |].
  { intros i D row Q Hi HD Hrow Hin HQ. eapply fill_row; [done|exact Hrow| |].
    - rewrite Forall_forall in Hd. by apply Hd.
    - exact HQ. }
  assert ((λ _ : list Z, replicate 1024 2) <$> page_dir p = replicate 6 (replicate 1024 2)) as ->.
  { destruct (page_dir p) as [|? [|? [|? [|? [|? [|? [|]]]]]]]; done. }
  rewrite wp_bind. apply fill_table_0; [done|].
  rewrite wp_bind. apply wp_set_table; [done|].
  rewrite wp_bind.
  apply (wp_rows (λ d, <[34%nat := u32 (Z.lor L_page_table_term 7)]>
    (<[0%nat := u32 (Z.lor L_page_table_0 0x07)]> d))); [done| |].
  { intros i D row Q Hi HD Hrow Hin HQ. rewrite wp_bind.
    assert (length row = 1024%nat) as Hrl.
    { apply (elem_of_replicate 6 _ row) in Hin as [-> _]. done. }
    assert (is_Some (zlookup D i)) as Hir%zlookup_is_Some by (by rewrite Hrow).
    eapply wp_set_dir; [exact Hrow|lia|].
    eapply wp_set_dir.
    - cbn. rewrite zlookup_insert, decide_True by (done || lia). done.
    - rewrite length_insert. lia.
    - upd_cbv. rewrite list_insert_insert_eq. exact HQ. }
  rewrite wp_bind. apply (wp_rows (λ d, <[1%nat := u32 kernel_hardcode]> d)); [done| |].
  { intros i D row Q Hi HD Hrow Hin HQ. eapply wp_set_dir; [exact Hrow| |exact HQ].
    assert (length row = 1024%nat) as ->; [|lia].
    apply (elem_of_replicate 6 _ row) in Hin as [-> _]. by rewrite !length_insert. }
  rewrite wp_bind. apply fill_free_tables; [done|done|].
  rewrite wp_bind. apply wp_set_table; [done|].
  rewrite wp_bind. apply wp_set_table; [done|].
  rewrite wp_bind. apply wp_set_table; [done|].
  rewrite wp_bind. apply wp_set_table; [done|].
  reflexivity.
Qed.
End init.
