(* ===== verification/Translate.v ===== *)
(** * Address spaces

    The translation of every address once [setup_paging] has run, the
    isolation of the processes, and the exchange of the program pages. *)

From S2P Require Import Prelude CInt Memory State Paging PagingInit.

(** Case analysis on a test; the length of a directory. *)
Ltac split_test P E :=
  destruct (bool_decide P) eqn:E; [apply bool_decide_eq_true in E|apply bool_decide_eq_false in E].
Ltac dir_len := rewrite ?length_insert; apply length_replicate.

(** Where the linker must put the tables: on page boundaries, apart. *)
Record layout_ok `{Layout} : Prop := {
  lo_aligned : Forall (λ a, is_u32 a ∧ a mod 4096 = 0)
    [L_page_table_0; L_page_table_vidmap; L_page_table_term];
  lo_apart : NoDup [L_page_table_0; L_page_table_vidmap; L_page_table_term];
  lo_dirs i j : 0 ≤ i < 6 → 0 ≤ j < 6 → L_page_dir i = L_page_dir j → i = j;
}.

Lemma testbit_mod a k n : 0 ≤ n < k → Z.testbit (a mod 2 ^ k) n = Z.testbit a n.
Proof. intros. by rewrite Z.mod_pow2_bits_low by lia. Qed.

(** A page-aligned address with flags in its low bits. *)
Lemma flags_low a f n :
  a mod 4096 = 0 → 0 ≤ n < 12 → Z.testbit (Z.lor a f) n = Z.testbit f n.
Proof.
  intros Ha Hn. rewrite Z.lor_spec. replace (Z.testbit a n) with false; [done|].
  rewrite <-(testbit_mod a 12) by lia. change (2 ^ 12) with 4096. by rewrite Ha, Z.bits_0.
Qed.

Lemma flags_sum a f : a mod 4096 = 0 → 0 ≤ f < 4096 → Z.lor a f = a + f.
Proof.
  intros Ha Hf. rewrite Z.add_nocarry_lxor.
  - apply Z.bits_inj'. intros n Hn. rewrite Z.lor_spec, Z.lxor_spec.
    destruct (decide (n < 12)) as [Hlt|Hge].
    + replace (Z.testbit a n) with false by (rewrite <-(testbit_mod a 12) by lia;
        change (2 ^ 12) with 4096; by rewrite Ha, Z.bits_0). by rewrite xorb_false_l.
    + replace (Z.testbit f n) with false; [by rewrite orb_false_r, xorb_false_r|].
      symmetry. rewrite <-(Z.mod_small f (2 ^ 12)) by (change (2 ^ 12) with 4096; lia).
      by rewrite Z.mod_pow2_bits_high by lia.
  - apply Z.bits_inj'. intros n Hn. rewrite Z.land_spec, Z.bits_0.
    destruct (decide (n < 12)) as [Hlt|Hge].
    + replace (Z.testbit a n) with false by (rewrite <-(testbit_mod a 12) by lia;
        change (2 ^ 12) with 4096; by rewrite Ha, Z.bits_0). done.
    + replace (Z.testbit f n) with false; [apply andb_false_r|].
      symmetry. rewrite <-(Z.mod_small f (2 ^ 12)) by (change (2 ^ 12) with 4096; lia).
      by rewrite Z.mod_pow2_bits_high by lia.
Qed.

Section translate.
Context `{Layout} (Hlay : layout_ok).

(** The directory of a process, before and after [vidmap]. *)
Definition prog_entry (i : Z) : Z := u32 (SHELL_HARDCODE + i * physical_page_offset).
Definition proc_dir (i : Z) (vid : bool) : list Z :=
  let d := <[32%nat := prog_entry i]> dir_init in
  if vid then <[33%nat := u32 (Z.lor L_page_table_vidmap 7)]> d else d.

(** The address space of process [i]. *)
Definition space (i : Z) (vid : bool) (va : Z) : option (Z * bool) :=
  if bool_decide (0x400000 ≤ va < 0x800000) then Some (va, false)
  else if bool_decide (0xB8000 ≤ va < 0xB9000) then Some (va, true)
  else if bool_decide (0x8000000 ≤ va < 0x8400000)
  then Some (0x800000 + i * 0x400000 + (va - 0x8000000), true)
  else if vid && bool_decide (0x8400000 ≤ va < 0x8401000)
  then Some (0xB8000 + (va - 0x8400000), true)
  else if bool_decide (0x8801000 ≤ va < 0x8804000)
  then Some (0x2401000 + (va - 0x8801000), true)
  else None.

(** Process [i] runs in its address space. *)
Record in_space (p : page_t) (i : Z) (vid : bool) : Prop := {
  is_pid : 0 ≤ i < 6;
  is_dir : zlookup (page_dir p) i = Some (proc_dir i vid);
  is_cr3 : cr3 p = L_page_dir i;
  is_0 : page_table_0 p = table_0_init;
  is_vidmap : page_table_vidmap p = <[0%nat := u32 (Z.lor VIDEO_PAGE 7)]> free_table;
  is_term : page_table_term p = table_term_init;
  is_cr0 : Z.testbit (cr0 p) 31 = true;
  is_cr4 : Z.testbit (cr4 p) 4 = true;
}.

Lemma cur_dir_ok p i vid : in_space p i vid → cur_dir p = Some (proc_dir i vid).
Proof using Hlay.
  intros [Hi Hd Hc _ _ _ _ _]. unfold cur_dir.
  assert (list_find (λ j, L_page_dir j = cr3 p) (seqZ 0 NUM_PROCESS) = Some (Z.to_nat i, i)) as ->.
  { apply list_find_Some. split; [|split; [by rewrite Hc|]].
    - unfold NUM_PROCESS. rewrite lookup_seqZ_lt by lia. f_equal. lia.
    - intros j y Hj Hlt Hy. apply lookup_seqZ in Hj as [-> Hj]. rewrite Hc in Hy.
      unfold NUM_PROCESS in Hj. apply lo_dirs in Hy; [lia|done|lia|done]. }
  done.
Qed.

(** The entry of an address. *)
Lemma dir_entry i vid k :
  0 ≤ k < 1024 →
  zlookup (proc_dir i vid) k = Some (
    if bool_decide (k = 32) then prog_entry i
    else if vid && bool_decide (k = 33) then u32 (Z.lor L_page_table_vidmap 7)
    else if bool_decide (k = 1) then u32 kernel_hardcode
    else if bool_decide (k = 34) then u32 (Z.lor L_page_table_term 7)
    else if bool_decide (k = 0) then u32 (Z.lor L_page_table_0 7) else 2).
Proof using Type.
  intros Hk. unfold proc_dir, dir_init.
  assert (∀ (l : list Z) (j : nat) x y, zlookup l k = Some y →
    length l = 1024%nat → (j < 1024)%nat →
    zlookup (<[j := x]> l) k = Some (if bool_decide (k = Z.of_nat j) then x else y)) as Hins.
  { intros l j x y Hy Hl Hj. rewrite <-(Nat2Z.id j) at 1.
    rewrite zlookup_insert by lia. case_bool_decide; case_decide; done || lia. }
  assert (zlookup (replicate 1024 2) k = Some 2) as H0.
  { apply zlookup_Some. split; [lia|]. apply lookup_replicate_2. lia. }
  apply (Hins _ 0%nat (u32 (Z.lor L_page_table_0 0x07))) in H0;
    [|dir_len|lia].
  apply (Hins _ 34%nat (u32 (Z.lor L_page_table_term 7))) in H0;
    [|dir_len|lia].
  apply (Hins _ 1%nat (u32 kernel_hardcode)) in H0;
    [|dir_len|lia].
  apply (Hins _ 32%nat (prog_entry i)) in H0;
    [|dir_len|lia].
  destruct vid; cbn [andb].
  - apply (Hins _ 33%nat (u32 (Z.lor L_page_table_vidmap 7))) in H0;
      [|dir_len|lia].
    rewrite H0. f_equal. repeat case_bool_decide; done || lia.
  - exact H0.
Qed.

(** A directory entry that points to a table. *)
Lemma table_pde a tbl p va vid i :
  in_space p i vid → is_u32 a → a mod 4096 = 0 → 0 ≤ va < 2 ^ 32 →
  zlookup (proc_dir i vid) (va / FOUR_MB) = Some (u32 (Z.lor a 7)) →
  table_at p a = Some tbl →
  translate p va =
    (pte ← zlookup tbl (va mod FOUR_MB / PAGE_SIZE);
     if Z.testbit pte 0 then Some (pte / PAGE_SIZE * PAGE_SIZE + va mod PAGE_SIZE, Z.testbit pte 2)
     else None).
Proof using Hlay.
  intros Hs Ha Hm Hva He Ht. unfold translate. rewrite (is_cr0 _ _ _ Hs).
  rewrite (cur_dir_ok _ _ _ Hs). cbn [mbind option_bind]. rewrite He. cbn [option_bind].
  unfold is_u32 in Ha.
  assert (a + 7 < 2 ^ 32) as Hlt.
  { pose proof (Z.div_mod a 4096 ltac:(lia)) as Hd. rewrite Hm in Hd.
    assert (a / 4096 < 2 ^ 20) by (apply Z.div_lt_upper_bound; lia). lia. }
  assert (u32 (Z.lor a 7) = Z.lor a 7) as ->.
  { rewrite (flags_sum a 7) by lia. apply u32_id. unfold is_u32. lia. }
  change (Some (Z.lor a 7) ≫= ?f) with (f (Z.lor a 7)). cbv beta.
  rewrite !(flags_low a) by lia. cbn [Z.testbit Pos.testbit].
  rewrite (flags_sum a 7) by lia.
  assert ((a + 7) / PAGE_SIZE * PAGE_SIZE = a) as ->.
  { unfold PAGE_SIZE. pose proof (Z.div_mod a 4096 ltac:(lia)).
    replace ((a + 7) / 4096) with (a / 4096); [lia|].
    apply Z.div_unique with 7; lia. }
  rewrite Ht. reflexivity.
Qed.

(** An address in a page whose entry is present. *)
Lemma pte_hit b f va : b mod 4096 = 0 → 0 ≤ b < 2 ^ 32 - 4096 →
  0 ≤ f < 4096 → Z.testbit f 0 = true →
  (if Z.testbit (u32 (Z.lor b f)) 0
   then Some (u32 (Z.lor b f) / PAGE_SIZE * PAGE_SIZE + va mod PAGE_SIZE,
              Z.testbit (u32 (Z.lor b f)) 2) else None)
  = Some (b + va mod PAGE_SIZE, Z.testbit f 2).
Proof using Type.
  intros Hm Hb Hf H0. rewrite u32_id by (unfold is_u32; rewrite flags_sum by lia; lia).
  rewrite !flags_low by lia. rewrite H0. do 3 f_equal. rewrite flags_sum by lia.
  unfold PAGE_SIZE. pose proof (Z.div_mod b 4096 ltac:(lia)).
  replace ((b + f) / 4096) with (b / 4096); [lia|]. apply Z.div_unique with f; lia.
Qed.
Lemma pte_miss b va : b mod 4096 = 0 → 0 ≤ b < 2 ^ 32 - 4096 →
  (if Z.testbit (u32 (Z.lor (u32 b) R_W_BIT_ENABLE)) 0
   then Some (u32 (Z.lor (u32 b) R_W_BIT_ENABLE) / PAGE_SIZE * PAGE_SIZE + va mod PAGE_SIZE,
              Z.testbit (u32 (Z.lor (u32 b) R_W_BIT_ENABLE)) 2) else None) = None.
Proof using Type.
  intros Hm Hb. unfold R_W_BIT_ENABLE. rewrite (u32_id b) by (unfold is_u32; lia).
  rewrite u32_id by (unfold is_u32; rewrite flags_sum by lia; lia).
  by rewrite flags_low by lia.
Qed.

(** The entries of the tables. *)
Lemma fmap_seqZ_lookup f k : 0 ≤ k < 1024 →
  zlookup ((λ i, u32 (f i)) <$> seqZ 0 1024) k = Some (u32 (f k)).
Proof using Type. apply filled_lookup. Qed.

Lemma insert_lookup (l : list Z) (j : nat) (k x y : Z) : zlookup l k = Some y →
  zlookup (<[j := x]> l) k = Some (if bool_decide (k = Z.of_nat j) then x else y).
Proof using Type.
  intros Hy. assert (is_Some (zlookup l k)) as Hk%zlookup_is_Some by (by rewrite Hy).
  apply zlookup_Some in Hy as [_ Hy]. apply zlookup_Some. split; [lia|].
  case_bool_decide as E.
  - subst k. rewrite Nat2Z.id in *. apply list_lookup_insert_eq. lia.
  - rewrite list_lookup_insert_ne by lia. exact Hy.
Qed.

Lemma table_0_pte p i vid va : in_space p i vid → 0 ≤ va < 0x400000 →
  (pte ← zlookup (page_table_0 p) (va mod FOUR_MB / PAGE_SIZE);
   if Z.testbit pte 0 then Some (pte / PAGE_SIZE * PAGE_SIZE + va mod PAGE_SIZE, Z.testbit pte 2)
   else None) = if bool_decide (0xB8000 ≤ va < 0xB9000) then Some (va, true) else None.
Proof using Type.
  intros Hs Hva. rewrite (is_0 _ _ _ Hs). unfold table_0_init.
  assert (va mod FOUR_MB = va) as -> by (unfold FOUR_MB; apply Z.mod_small; lia).
  pose proof (Z.div_mod va 4096 ltac:(lia)) as Hd.
  pose proof (Z.mod_pos_bound va 4096 ltac:(lia)) as Hm.
  change PAGE_SIZE with 4096 in *. set (k := va / 4096) in *. clearbody k.
  erewrite insert_lookup by (apply fmap_seqZ_lookup; lia).
  change (Some ?x ≫= ?f) with (f x). cbv beta.
  case_bool_decide as E; case_bool_decide as E'; try (exfalso; change (Z.of_nat 184) with 184 in E; lia).
  - rewrite (pte_hit VIDEO_PAGE 7) by (done || lia). change VIDEO_PAGE with 0xB8000.
    change (Z.of_nat 184) with 184 in E. do 2 f_equal. change PAGE_SIZE with 4096. lia.
  - change PAGE_SIZE with 4096. rewrite (pte_miss (k * 4096)); [done|apply Z.mod_mul; lia|lia].
Qed.

Lemma free_pte k va : 0 ≤ k < 1024 →
  (if Z.testbit (u32 (Z.lor (u32 (EMPTY_PHYS_MEM + k * PAGE_SIZE)) R_W_BIT_ENABLE)) 0
   then Some (u32 (Z.lor (u32 (EMPTY_PHYS_MEM + k * PAGE_SIZE)) R_W_BIT_ENABLE)
              / PAGE_SIZE * PAGE_SIZE + va mod PAGE_SIZE,
              Z.testbit (u32 (Z.lor (u32 (EMPTY_PHYS_MEM + k * PAGE_SIZE)) R_W_BIT_ENABLE)) 2)
   else None) = None.
Proof using Type.
  intros Hk. apply pte_miss; change PAGE_SIZE with 4096; change EMPTY_PHYS_MEM with 37748736; [|lia].
  change 37748736 with (9216 * 4096). rewrite <-Z.mul_add_distr_r. apply Z.mod_mul. lia.
Qed.

Lemma vidmap_pte p i vid va : in_space p i vid → 0x8400000 ≤ va < 0x8800000 →
  (pte ← zlookup (page_table_vidmap p) (va mod FOUR_MB / PAGE_SIZE);
   if Z.testbit pte 0 then Some (pte / PAGE_SIZE * PAGE_SIZE + va mod PAGE_SIZE, Z.testbit pte 2)
   else None) =
  if bool_decide (0x8400000 ≤ va < 0x8401000) then Some (0xB8000 + (va - 0x8400000), true) else None.
Proof using Type.
  intros Hs Hva. rewrite (is_vidmap _ _ _ Hs). unfold free_table.
  assert (va mod FOUR_MB = va - 0x8400000) as E0.
  { change FOUR_MB with 4194304. symmetry. apply Z.mod_unique with 33; lia. }
  rewrite E0. pose proof (Z.div_mod (va - 0x8400000) 4096 ltac:(lia)) as Hd.
  assert (va mod PAGE_SIZE = (va - 0x8400000) mod 4096) as Hvm.
  { change PAGE_SIZE with 4096. change 0x8400000 with (33792 * 4096).
    rewrite Zminus_mod, Z.mod_mul, Z.sub_0_r, Z.mod_mod by lia. done. }
  pose proof (Z.mod_pos_bound (va - 0x8400000) 4096 ltac:(lia)) as Hm.
  change PAGE_SIZE with 4096. set (k := (va - 0x8400000) / 4096) in *. clearbody k.
  erewrite insert_lookup by (apply fmap_seqZ_lookup; lia).
  change (Some ?x ≫= ?f) with (f x). cbv beta. change 4096 with PAGE_SIZE.
  case_bool_decide as E; case_bool_decide as E'; try (exfalso; change (Z.of_nat 0) with 0 in E; lia).
  - rewrite (pte_hit VIDEO_PAGE 7) by (done || lia). change VIDEO_PAGE with 0xB8000.
    change (Z.of_nat 0) with 0 in E. do 2 f_equal. rewrite Hvm. lia.
  - apply free_pte. lia.
Qed.

Lemma term_pte p i vid va : in_space p i vid → 0x8800000 ≤ va < 0x8C00000 →
  (pte ← zlookup (page_table_term p) (va mod FOUR_MB / PAGE_SIZE);
   if Z.testbit pte 0 then Some (pte / PAGE_SIZE * PAGE_SIZE + va mod PAGE_SIZE, Z.testbit pte 2)
   else None) =
  if bool_decide (0x8801000 ≤ va < 0x8804000) then Some (0x2401000 + (va - 0x8801000), true) else None.
Proof using Type.
  intros Hs Hva. rewrite (is_term _ _ _ Hs). unfold table_term_init, free_table.
  assert (va mod FOUR_MB = va - 0x8800000) as E0.
  { change FOUR_MB with 4194304. symmetry. apply Z.mod_unique with 34; lia. }
  rewrite E0. pose proof (Z.div_mod (va - 0x8800000) 4096 ltac:(lia)) as Hd.
  assert (va mod PAGE_SIZE = (va - 0x8800000) mod 4096) as Hvm.
  { change PAGE_SIZE with 4096. change 0x8800000 with (34816 * 4096).
    rewrite Zminus_mod, Z.mod_mul, Z.sub_0_r, Z.mod_mod by lia. done. }
  pose proof (Z.mod_pos_bound (va - 0x8800000) 4096 ltac:(lia)) as Hm.
  change PAGE_SIZE with 4096. set (k := (va - 0x8800000) / 4096) in *. clearbody k.
  erewrite insert_lookup by (eapply insert_lookup, insert_lookup, fmap_seqZ_lookup; lia).
  change (Some ?x ≫= ?f) with (f x). cbv beta. change 4096 with PAGE_SIZE.
  change (Z.of_nat 3) with 3. change (Z.of_nat 2) with 2. change (Z.of_nat 1) with 1.
  case_bool_decide as E3; [|case_bool_decide as E2; [|case_bool_decide as E1]];
    case_bool_decide as E'; try (exfalso; lia).
  - rewrite (pte_hit VIDEO_TERM3 7) by (done || lia). change VIDEO_TERM3 with 0x2403000.
    do 2 f_equal. rewrite Hvm. lia.
  - rewrite (pte_hit VIDEO_TERM2 7) by (done || lia). change VIDEO_TERM2 with 0x2402000.
    do 2 f_equal. rewrite Hvm. lia.
  - rewrite (pte_hit VIDEO_TERM1 7) by (done || lia). change VIDEO_TERM1 with 0x2401000.
    do 2 f_equal. rewrite Hvm. lia.
  - apply free_pte. lia.
Qed.

Lemma table_at_0 p : table_at p L_page_table_0 = Some (page_table_0 p).
Proof using Type. unfold table_at. by rewrite bool_decide_eq_true_2. Qed.
Lemma table_at_vidmap p : table_at p L_page_table_vidmap = Some (page_table_vidmap p).
Proof using Hlay.
  pose proof (lo_apart Hlay) as Hnd. apply NoDup_cons in Hnd as [Hn _].
  unfold table_at. rewrite bool_decide_eq_false_2; [by rewrite bool_decide_eq_true_2|].
  intros E. apply Hn. rewrite <-E. constructor.
Qed.
Lemma table_at_term p : table_at p L_page_table_term = Some (page_table_term p).
Proof using Hlay.
  pose proof (lo_apart Hlay) as Hnd. apply NoDup_cons in Hnd as [Hn Hnd].
  apply NoDup_cons in Hnd as [Hn' _]. unfold table_at.
  rewrite bool_decide_eq_false_2 by (intros E; apply Hn; rewrite <-E; repeat constructor).
  rewrite bool_decide_eq_false_2 by (intros E; apply Hn'; rewrite <-E; repeat constructor).
  by rewrite bool_decide_eq_true_2.
Qed.

(** A directory entry that maps a 4 MB page. *)
Lemma big_pde p i vid va b f :
  in_space p i vid → 0 ≤ b < 1024 → 0 ≤ f < 4096 →
  Z.testbit f 0 = true → Z.testbit f 7 = true →
  zlookup (proc_dir i vid) (va / FOUR_MB) = Some (u32 (b * FOUR_MB + f)) →
  translate p va = Some (b * FOUR_MB + va mod FOUR_MB, Z.testbit f 2).
Proof using Hlay.
  intros Hs Hb Hf H0 H7 He. unfold translate. rewrite (is_cr0 _ _ _ Hs).
  rewrite (cur_dir_ok _ _ _ Hs). cbn [mbind option_bind]. rewrite He. cbn [option_bind].
  change FOUR_MB with 4194304 in *.
  assert (b * 4194304 mod 4096 = 0) as Hm.
  { replace (b * 4194304) with (b * 1024 * 4096) by lia. apply Z.mod_mul. lia. }
  rewrite u32_id by (unfold is_u32; lia).
  replace (b * 4194304 + f) with (Z.lor (b * 4194304) f) by (apply flags_sum; done).
  change (Some (Z.lor ?x f) ≫= ?g) with (g (Z.lor x f)). cbv beta.
  rewrite !flags_low by lia. rewrite H0, H7, (is_cr4 _ _ _ Hs). do 3 f_equal.
  rewrite flags_sum by done. replace ((b * 4194304 + f) / 4194304) with b; [done|].
  apply Z.div_unique with f; lia.
Qed.

(** The translation of every address is that of the address space. *)
Lemma translate_space p i vid va :
  in_space p i vid → 0 ≤ va < 2 ^ 32 → translate p va = space i vid va.
Proof using Hlay.
  intros Hs Hva. pose proof (is_pid _ _ _ Hs) as Hi.
  pose proof (Z.div_mod va FOUR_MB ltac:(done)) as Hdm.
  pose proof (Z.mod_pos_bound va FOUR_MB ltac:(done)) as Hmod.
  change FOUR_MB with 4194304 in Hdm, Hmod.
  assert (Forall (λ a, is_u32 a ∧ a mod 4096 = 0)
    [L_page_table_0; L_page_table_vidmap; L_page_table_term]) as Hal by apply Hlay.
  rewrite !Forall_cons in Hal. destruct Hal as ([H0u H0m] & [Hvu Hvm] & [Htu Htm] & _).
  pose proof (dir_entry i vid (va / 4194304) ltac:(lia)) as He.
  unfold space. split_test (va / 4194304 = 32) E32.
  { assert (translate p va = Some ((2 + i) * FOUR_MB + va mod FOUR_MB, Z.testbit 0x187 2)) as ->.
    { apply (big_pde p i vid va (2 + i) 0x187); [done|lia|lia|done|done|].
      change FOUR_MB with 4194304. rewrite He. unfold prog_entry. do 2 f_equal.
      unfold SHELL_HARDCODE, physical_page_offset. lia. }
    change FOUR_MB with 4194304. rewrite !bool_decide_eq_false_2 by lia.
    rewrite bool_decide_eq_true_2 by lia. do 2 f_equal. lia. }
  destruct (vid && bool_decide (va / 4194304 = 33)) eqn:E33.
  { apply andb_true_iff in E33 as [-> E33%bool_decide_eq_true].
    rewrite (table_pde _ _ _ _ _ _ Hs Hvu Hvm Hva He (table_at_vidmap p)).
    rewrite (vidmap_pte _ _ _ _ Hs) by lia.
    rewrite !(bool_decide_eq_false_2 (4194304 ≤ va < 8388608)),
      (bool_decide_eq_false_2 (753664 ≤ va < 757760)),
      (bool_decide_eq_false_2 (134217728 ≤ va < 138412032)),
      (bool_decide_eq_false_2 (142610432 ≤ va < 142622720)) by lia.
    by cbn [andb]. }
  split_test (va / 4194304 = 1) E1.
  { assert (translate p va = Some (1 * FOUR_MB + va mod FOUR_MB, Z.testbit 0x183 2)) as ->.
    { apply (big_pde p i vid va 1 0x183); [done|lia|lia|done|done|].
      change FOUR_MB with 4194304. rewrite He. done. }
    change FOUR_MB with 4194304. rewrite bool_decide_eq_true_2 by lia. do 2 f_equal. lia. }
  split_test (va / 4194304 = 34) E34.
  { rewrite (table_pde _ _ _ _ _ _ Hs Htu Htm Hva He (table_at_term p)).
    rewrite (term_pte _ _ _ _ Hs) by lia.
    rewrite (bool_decide_eq_false_2 (4194304 ≤ va < 8388608)),
      (bool_decide_eq_false_2 (753664 ≤ va < 757760)),
      (bool_decide_eq_false_2 (134217728 ≤ va < 138412032)),
      (bool_decide_eq_false_2 (138412032 ≤ va < 138416128)) by lia.
    by rewrite andb_false_r. }
  assert (vid && bool_decide (138412032 ≤ va < 138416128) = false) as Hv.
  { destruct vid; [|done]. cbn [andb] in *. apply bool_decide_eq_false in E33.
    apply bool_decide_eq_false. lia. }
  rewrite (bool_decide_eq_false_2 (4194304 ≤ va < 8388608)),
    (bool_decide_eq_false_2 (134217728 ≤ va < 138412032)),
    (bool_decide_eq_false_2 (142610432 ≤ va < 142622720)), Hv by lia.
  split_test (va / 4194304 = 0) E0.
  - rewrite (table_pde _ _ _ _ _ _ Hs H0u H0m Hva He (table_at_0 p)).
    by rewrite (table_0_pte _ _ _ _ Hs) by lia.
  - rewrite bool_decide_eq_false_2 by lia.
    unfold translate. rewrite (is_cr0 _ _ _ Hs), (cur_dir_ok _ _ _ Hs). cbn [mbind option_bind].
    change FOUR_MB with 4194304. rewrite He. done.
Qed.
End translate.

(** ** Turning paging on *)
Section paged.
Context `{Layout}.

Lemma translate_offset p a pa u : Z.testbit (cr0 p) 31 = true → 0 ≤ a < 2 ^ 32 →
  translate p a = Some (pa, u) → a - pa ∈ offsets p.
Proof using Type.
  intros Hon Ha E. unfold translate in E. rewrite Hon in E. unfold offsets. apply elem_of_remove_dups, list_elem_of_bind.
  destruct (cur_dir p) as [dir|]; [|done]. cbv beta iota delta [mbind option_bind] in *. exists (a / FOUR_MB).
  assert (0 ≤ a / FOUR_MB < 1024) as Hj.
  { unfold FOUR_MB. split; [apply Z.div_pos; lia|apply Z.div_lt_upper_bound; lia]. }
  split; [|apply elem_of_seqZ; unfold NUM_PAGE_TABLES; lia]. destruct (zlookup dir (a / FOUR_MB)) as [pde|]; [|done]. cbv beta iota in E.
  destruct (Z.testbit pde 0); [|done]. cbv beta iota delta [negb]. pose proof (Z.div_mod a FOUR_MB ltac:(done)) as Hd.
  destruct (Z.testbit pde 7).
  { destruct (Z.testbit (cr4 p) 4); [|done]. injection E as <- _. apply list_elem_of_singleton. lia. }
  destruct (table_at p (pde / PAGE_SIZE * PAGE_SIZE)) as [tbl|]; [|done]. cbv beta iota delta [default from_option] in *.
  destruct (zlookup tbl (a mod FOUR_MB / PAGE_SIZE)) as [pte|] eqn:Et; [|done]. cbv beta iota in E.
  destruct (Z.testbit pte 0) eqn:E0; [|done]. injection E as <- _.
  apply list_elem_of_bind. exists (a mod FOUR_MB / PAGE_SIZE). unfold id. rewrite Et, E0.
  pose proof (Z.mod_pos_bound a FOUR_MB ltac:(done)) as Hr.
  assert (a mod FOUR_MB mod PAGE_SIZE = a mod PAGE_SIZE) as Em.
  { apply Z.mod_mod_divide. by exists 1024. }
  pose proof (Z.div_mod (a mod FOUR_MB) PAGE_SIZE ltac:(done)) as Hd2. rewrite Em in Hd2. split.
  - apply list_elem_of_singleton. lia.
  - apply elem_of_seqZ. unfold FOUR_MB, PAGE_SIZE, NUM_PAGES in *.
    split; [apply Z.div_pos; lia|apply Z.div_lt_upper_bound; lia].
Qed.

Lemma shown_from_lookup p ds m a : shown_from p ds m !! a =
  match translate p a with
  | Some (pa, _) => if decide (a - pa ∈ ds) then m !! pa else None
  | None => None
  end.
Proof using Type.
  assert (∀ d (M : mem), filter (λ x, fst <$> translate p x.1 = Some (x.1 - d)) M !! a =
    if decide (fst <$> translate p a = Some (a - d)) then M !! a else None) as Hf.
  { intros d M. case_decide as E.
    - destruct (M !! a) eqn:Ea; [by apply map_lookup_filter_Some_2|]. apply map_lookup_filter_None. by left.
    - apply map_lookup_filter_None. right. intros x _. exact E. }
  induction ds as [|d ds IH]; cbn [shown_from foldr].
  { rewrite lookup_empty. destruct (translate p a) as [[pa u]|]; [|done]. rewrite decide_False; [done|]. apply not_elem_of_nil. }
  fold (shown_from p ds m). rewrite lookup_union, Hf, IH.
  assert (Inj (=) (=) (λ x : Z, x + d)) as Hinj by (intros x y Exy; lia).
  assert (kmap (M2 := gmap Z) (λ x, x + d) m !! a = m !! (a - d)) as ->.
  { rewrite <-(lookup_kmap (M2 := gmap Z) (λ x, x + d) m (a - d)). f_equal. lia. }
  destruct (translate p a) as [[pa u]|]; cbn [fmap option_fmap option_map fst]; [|by rewrite decide_False].
  destruct (decide (a - pa = d)) as [<-|Hne].
  - rewrite decide_True by (f_equal; lia). rewrite (decide_True (P := a - pa ∈ (a - pa) :: ds)) by (apply list_elem_of_here).
    replace (a - (a - pa)) with pa by lia. destruct (m !! pa); [by destruct (if decide _ then _ else _)|].
    by case_decide.
  - rewrite decide_False by (intros [= E]; lia). 
    destruct (decide (a - pa ∈ ds)) as [Hin|Hin].
    + rewrite decide_True by (by apply list_elem_of_further). by destruct (m !! pa).
    + rewrite decide_False by (by apply not_elem_of_cons). done.
Qed.

(** Then an address shows what it is mapped to. *)
Lemma paged_lookup p m a : Z.testbit (cr0 p) 31 = true → 0 ≤ a < 2 ^ 32 →
  paged p m !! a = (t ← translate p a; m !! t.1).
Proof using Type.
  intros Hon Ha. unfold paged. rewrite shown_from_lookup. destruct (translate p a) as [[pa u]|] eqn:E; [|done].
  by rewrite decide_True by (by eapply translate_offset).
Qed.
Lemma paged_value p m a x : paged p m !! a = Some x → ∃ pa, m !! pa = Some x.
Proof using Type.
  unfold paged. rewrite shown_from_lookup. destruct (translate p a) as [[pa u]|]; [|done].
  case_decide; [|done]. by exists pa.
Qed.
End paged.

(** ** Switching address spaces *)
Section switch.
Context `{Layout} (Hlay : layout_ok).

(** The physical base of a program page. *)
Definition prog_base (i : Z) : Z := 0x800000 + i * 0x400000.

Lemma prog_page_ok p i vid : in_space p i vid → prog_page p = Some (prog_base i).
Proof using Hlay.
  intros Hs. unfold prog_page. rewrite (is_cr0 _ _ _ Hs).
  rewrite (translate_space Hlay _ _ _ _ Hs) by (vm_compute; split; [discriminate|done]).
  unfold space, prog_base, PROG_VIR_ADDR_START.
  repeat (first [rewrite bool_decide_eq_false_2 by lia|rewrite bool_decide_eq_true_2 by lia]).
  cbn. f_equal. lia.
Qed.

(** Loading the directory of another process whose directory is set up. *)
Lemma in_space_load p i vi j vj :
  in_space p i vi → 0 ≤ j < 6 → zlookup (page_dir p) j = Some (proc_dir j vj) →
  in_space (p <| cr3 := L_page_dir j |>) j vj.
Proof using Type. intros [] Hj Hd. split; done. Qed.

(** The hidden pages show only program addresses. *)
Definition pages_ok (pages : gmap Z mem) : Prop :=
  ∀ b pg a, pages !! b = Some pg → is_Some (pg !! a) → in_prog a.

Lemma show_page_out new pages m a :
  pages_ok pages → ¬ in_prog a → show_page new pages m !! a = m !! a.
Proof using Type.
  intros Hp Ha. unfold show_page.
  assert (default ∅ (p ← new; pages !! p) !! a = None) as Hn.
  { destruct new as [b|]; cbn; [|done]. destruct (pages !! b) as [pg|] eqn:E; [|done].
    cbn. destruct (pg !! a) eqn:Epg; [|done]. destruct Ha. by eapply Hp. }
  rewrite lookup_union_r by done. destruct (m !! a) as [x|] eqn:E.
  - by apply map_lookup_filter_Some_2.
  - apply map_lookup_filter_None. by left.
Qed.

Lemma show_page_in new pages m a :
  in_prog a → show_page new pages m !! a = (p ← new; pages !! p) ≫= lookup a.
Proof using Type.
  intros Ha. unfold show_page. rewrite lookup_union.
  replace (filter _ m !! a) with (@None Z).
  - rewrite (right_id_L None union). destruct new as [b|]; cbn; [|done].
    by destruct (pages !! b).
  - symmetry. apply map_lookup_filter_None. right. intros x _ Hx. by apply Hx.
Qed.

Lemma hide_pages_ok old pages m : pages_ok pages → pages_ok (hide_page old pages m).
Proof using Type.
  intros Hp. destruct old as [b|]; [|done]. intros b' pg a. cbn.
  rewrite lookup_insert_Some. intros [[<- <-]|[_ E]] Ha; [|by eapply Hp].
  destruct Ha as [x Hx]. by apply map_lookup_filter_Some in Hx as [_ Hx].
Qed.

(** The switch from [i] to [j], written out. *)
Definition switched (s : kstate) (i j : Z) : kstate :=
  let pages := hide_page (Some (prog_base i)) (kpages s) (kmem s) in
  ((s <| kpage ::= (λ p, p <| cr3 := L_page_dir j |>) |>) <| kpages := pages |>)
    <| kmem ::= show_page (Some (prog_base j)) pages |>.

Lemma update_paging_ok s i vi j vj :
  in_space (kpage s) i vi → 0 ≤ j < 6 → j ≠ i →
  zlookup (page_dir (kpage s)) j = Some (proc_dir j vj) →
  update_paging j s = Ok (tt, switched s i j).
Proof using Hlay.
  intros Hs Hj Hne Hd. unfold update_paging, load_CR3, remap, kmod.
  rewrite (prog_page_ok _ _ _ Hs), (prog_page_ok _ _ _ (in_space_load _ _ _ _ _ Hs Hj Hd)).
  rewrite bool_decide_eq_false_2; [done|]. unfold prog_base. intros E. simplify_eq. lia.
Qed.

Lemma update_paging_same s i vi :
  in_space (kpage s) i vi → update_paging i s = Ok (tt, s).
Proof using Hlay.
  intros Hs. unfold update_paging, load_CR3, remap, kmod.
  assert (in_space ((kpage s) <| cr3 := L_page_dir i |>) i vi) as Hs'.
  { eapply in_space_load; [exact Hs|apply Hs|apply Hs]. }
  rewrite (prog_page_ok _ _ _ Hs), (prog_page_ok _ _ _ Hs').
  rewrite bool_decide_eq_true_2 by done. pose proof (is_cr3 _ _ _ Hs) as Hc.
  destruct s as [? ? ? ? ? ? ? [] ? ? ? ?]; cbn in *. by rewrite Hc.
Qed.
End switch.
