(* ===== verification/FS.v ===== *)
(** * The file system ([fs.c])

    A read-only image in memory at [bblock]: the boot block with up to 63
    directory entries of 64 bytes, one block of 4096 bytes per inode (the
    length and the numbers of the data blocks), then the data blocks. *)

From S2P Require Import Prelude CInt Memory CString State.

Definition MAX_FILES := 63.
Definition BYTES_PER_BLOCK := 4096.
Definition OPEN := 0x10.
Definition CLOSE := 0x00.
Definition TYPE_DIR := 0x1.
Definition TYPE_FILE := 0x2.
Definition TYPE_RTC := 0x0.
Definition TYPE_TERM := 0x4.
Definition DIR_INODE := 0.
Definition DIR_POS := 0.
Definition FILE_POS := 0.

(** The fields of the structures of [fs.h], by address. *)
Definition bb_inode_cnt (bb : Z) : Z := bb + 4.
Definition bb_dentry (bb d : Z) : Z := bb + 64 + 64 * d.
Definition d_file_name (d : Z) : Z := d.
Definition d_file_type (d : Z) : Z := d + 32.
Definition d_inode_num (d : Z) : Z := d + 36.
Definition i_length (i : Z) : Z := i.
Definition i_data_block (i k : Z) : Z := u32 (i + 4 + 4 * k).

(** [bblock + 1 + index], in boot blocks. *)
Definition GET_INODE_ADRS (bb index : Z) : Z := u32 (bb + 4096 * (1 + index)).
Definition GET_DATABLOCK_ADRS (bb index : Z) : K mem Z :=
  inode_cnt ← load32 (bb_inode_cnt bb);
  mret (u32 (bb + u32 (BYTES_PER_BLOCK * u32 (u32 (inode_cnt + index) + 1)))).

(** The copy of a directory entry both lookups end with. *)
Definition copy_dentry (dentry d : Z) : K mem unit :=
  _ ← strcpy (d_file_name dentry) (d_file_name d);
  file_type ← load32 (d_file_type d);
  _ ← store32 (d_file_type dentry) file_type;
  inode_num ← load32 (d_inode_num d);
  store32 (d_inode_num dentry) inode_num.

Section code.
Context `{Layout}.

Fixpoint find_name (fuel : nat) (bb fname d : Z) : K mem (option Z) :=
  match fuel with
  | O => kspin
  | S fuel' =>
      c ← strncmp (d_file_name (bb_dentry bb d)) fname 32;
      if bool_decide (c = 0) then mret (Some d)
      else
        e ← strncmp (d_file_name (bb_dentry bb d)) L_empty 32;
        if bool_decide (e = 0) then mret None
        else find_name fuel' bb fname (d + 1)
  end.
Definition read_dentry_by_name (bb fname dentry : Z) : K mem Z :=
  c ← strncmp fname L_empty 32;
  if bool_decide (c = 0) then mret (-1)
  else
    r ← mem_fuel (λ fuel, find_name fuel bb fname 0);
    match r with
    | None => mret (-1)
    | Some d => _ ← copy_dentry dentry (bb_dentry bb d); mret 0
    end.
End code.

Fixpoint find_inode (fuel : nat) (bb index d : Z) : K mem (option Z) :=
  match fuel with
  | O => kspin
  | S fuel' =>
      inode_num ← load32 (d_inode_num (bb_dentry bb d));
      found ← (if bool_decide (inode_num ≠ index) then mret false
              else file_type ← load32 (d_file_type (bb_dentry bb d));
                   mret (bool_decide (file_type = 2)));
      if (found : bool) then mret (Some d)
      else if bool_decide (MAX_FILES - 1 ≤ d) then mret None
      else find_inode fuel' bb index (d + 1)
  end.
Definition read_dentry_by_index (bb index dentry : Z) : K mem Z :=
  r ← find_inode (Z.to_nat MAX_FILES) bb index 0;
  match r with
  | None => mret (-1)
  | Some d => _ ← copy_dentry dentry (bb_dentry bb d); mret 0
  end.

(** The inner loop of [read_data]: whether it returned, and [bytes_copied]. *)
Fixpoint copy_block (fuel : nat) (inp buf ptr j len bytes_copied : Z) : K mem (bool * Z) :=
  match fuel with
  | O => mret (false, bytes_copied)
  | S fuel' =>
      if bool_decide (j < BYTES_PER_BLOCK) then
        in_length ← load32 (i_length inp);
        if bool_decide (bytes_copied = len) || bool_decide (bytes_copied = in_length)
        then mret (true, bytes_copied)
        else
          c ← load8 (u32 (ptr + j));
          _ ← store8 (buf + bytes_copied) c;
          copy_block fuel' inp buf ptr (j + 1) len (bytes_copied + 1)
      else mret (false, bytes_copied)
  end.
Fixpoint copy_blocks (fuel : nat) (bb inp buf i start_block offset len bytes_copied : Z)
    : K mem Z :=
  match fuel with
  | O => mret bytes_copied
  | S fuel' =>
      let offset := if bool_decide (i = 0) then offset mod BYTES_PER_BLOCK else 0 in
      cur_block_num ← load32 (i_data_block inp (u32 (start_block + i)));
      ptr ← GET_DATABLOCK_ADRS bb cur_block_num;
      if bool_decide (cur_block_num = 0) then mret bytes_copied
      else
        '(returned, bytes_copied) ←
          copy_block (Z.to_nat BYTES_PER_BLOCK) inp buf ptr offset len bytes_copied;
        if (returned : bool) then mret bytes_copied
        else copy_blocks fuel' bb inp buf (i + 1) start_block offset len bytes_copied
  end.
Definition read_data (bb inode offset buf len : Z) : K mem Z :=
  let inp := GET_INODE_ADRS bb inode in
  inode_cnt ← load32 (bb_inode_cnt bb);
  if bool_decide (inode_cnt ≤ inode) then mret (-1)
  else
    in_length ← load32 (i_length inp);
    if bool_decide (in_length < offset) then mret (-1)
    else if bool_decide (offset = in_length) then mret 0
    else if bool_decide (len = 0) then mret 0
    else
      let len := if bool_decide (u32 (in_length - offset) < len)
                 then u32 (in_length - offset) else len in
      let start_block := offset / BYTES_PER_BLOCK in
      let num_blocks_left := len / BYTES_PER_BLOCK + 1 in
      n ← copy_blocks (Z.to_nat num_blocks_left) bb inp buf 0 start_block offset len 0;
      mret (s32 n).

(** ** The file operations *)

Definition reg_file_open (filename : Z) : K kstate Z := mret 0.
Definition reg_file_write (fd buf nbytes : Z) : K kstate Z := mret (-1).
Definition reg_file_close (fd : Z) : K kstate Z := mret 0.
Definition dir_open (filename : Z) : K kstate Z := mret 0.
Definition dir_write (fd buf nbytes : Z) : K kstate Z := mret (-1).
Definition dir_close (fd : Z) : K kstate Z := mret 0.

(** [pcb->file_array[fd]], read and updated. *)
Definition cur_file (fd : Z) : K kstate file_struct_t :=
  b ← cur_pcb; klift (zlookup (file_array b) fd).
Definition mod_file (fd : Z) (f : file_struct_t → file_struct_t) : K kstate unit :=
  p ← kget kproc;
  b ← cur_pcb;
  x ← klift (zlookup (file_array b) fd);
  l ← klift (zupdate (file_array b) fd (f x));
  pcb_mod (pcb p) (λ b, b <| file_array := l |>).

Definition reg_file_read (fd buf nbytes : Z) : K kstate Z :=
  f ← cur_file fd;
  if bool_decide (flags f = Z.lor TYPE_FILE OPEN) then
    bb ← kget bblock;
    ret_val ← on_mem (read_data bb (u32 (inode f)) (u32 (file_position f)) buf (u32 nbytes));
    _ ← (if bool_decide (ret_val > 0)
        then mod_file fd (λ f, f <| file_position ::= (λ p, s32 (p + ret_val)) |>)
        else mret tt);
    mret ret_val
  else mret (-1).

Section code.
Context `{Layout}.

Definition dir_read (fd buf nbytes : Z) : K kstate Z :=
  f ← cur_file fd;
  if bool_decide (flags f = Z.lor TYPE_DIR OPEN) then
    bb ← kget bblock;
    c ← on_mem (strncmp L_empty (d_file_name (bb_dentry bb (file_position f))) (u32 nbytes));
    if bool_decide (c = 0) then mret 0
    else
      _ ← on_mem (strncpy buf (d_file_name (bb_dentry bb (file_position f))) (u32 nbytes));
      _ ← mod_file fd (λ f, f <| file_position ::= (λ p, s32 (p + 1)) |>);
      mret nbytes
  else mret (-1).
End code.

(** ** The open files of the running process *)

Definition running (s : kstate) (b : pcb_t) : Prop := pcbs (kproc s) !! pcb (kproc s) = Some b.
(** [s] with file [fd] of the running process changed. *)
Definition with_file (s : kstate) (b : pcb_t) (fd : Z) (x : file_struct_t) : kstate :=
  s <| kproc ::= (λ k, k <| pcbs ::= insert (pcb (kproc s))
    (b <| file_array := <[Z.to_nat fd := x]> (file_array b) |>) |>) |>.

Lemma cur_file_ok s b fd x :
  running s b → zlookup (file_array b) fd = Some x → cur_file fd s = Ok (x, s).
Proof.
  intros Hb Hx. unfold cur_file. erewrite bind_ok by (by apply cur_pcb_ok). by rewrite Hx.
Qed.

Lemma mod_file_ok s b fd x f :
  running s b → zlookup (file_array b) fd = Some x →
  mod_file fd f s = Ok (tt, with_file s b fd (f x)).
Proof.
  intros Hb Hx. unfold mod_file. unfold mbind at 1, K_bind at 1, kget.
  erewrite bind_ok by (by apply cur_pcb_ok). rewrite Hx.
  assert (is_Some (zlookup (file_array b) fd)) as Hr%zlookup_is_Some by (by rewrite Hx).
  cbn [klift]. erewrite bind_ok by done. rewrite zupdate_in_range by done.
  erewrite bind_ok by done. erewrite pcb_mod_ok by exact Hb. done.
Qed.

Lemma with_file_running s b fd x :
  running (with_file s b fd x)
    (b <| file_array := <[Z.to_nat fd := x]> (file_array b) |>).
Proof. unfold running, with_file. upd_cbv. apply lookup_insert_eq. Qed.

Lemma with_file_lookup b fd x y :
  zlookup (file_array b) fd = Some y →
  zlookup (<[Z.to_nat fd := x]> (file_array b)) fd = Some x.
Proof.
  intros Hy. assert (is_Some (zlookup (file_array b) fd)) as Hr%zlookup_is_Some by (by rewrite Hy).
  rewrite zlookup_insert, decide_True by (done || lia). done.
Qed.

Lemma with_file_id s b fd x :
  running s b → zlookup (file_array b) fd = Some x → with_file s b fd x = s.
Proof.
  intros Hb [Hfd Hx]%zlookup_Some. unfold with_file. rewrite list_insert_id by done.
  destruct s as [? ? ? ? ? ? [] ? ? ? ? ?], b. unfold running in Hb. cbn in Hb.
  upd_cbv. by rewrite insert_id.
Qed.

Lemma with_file_twice s b fd x y m :
  with_file ((with_file s b fd x) <| kmem := m |>)
    (b <| file_array := <[Z.to_nat fd := x]> (file_array b) |>) fd y =
  with_file (s <| kmem := m |>) b fd y.
Proof. unfold with_file. upd_cbv. by rewrite insert_insert_eq, list_insert_insert_eq. Qed.
