(* ===== verification/FSSpec.v ===== *)
(** * The file system image and what reading it gives

    An abstract image (entries, inodes, data blocks), its layout in memory,
    the contents of its files, and the proofs that the lookups and
    [read_data] of [FS] compute them. *)

From S2P Require Import Prelude CInt Memory CString State FS.

(** A directory entry: the 32 bytes of its name, its type and its inode. *)
Record entry : Type := Mk_entry { e_name : list Z; e_type : Z; e_inode : Z }.
(** An inode: the length and the numbers of the data blocks. *)
Record inode_a : Type := Mk_inode_a { in_len : Z; in_blocks : list Z }.
Record image : Type := Mk_image {
  entries : list entry;
  inodes : list inode_a;
  blocks : list (list Z);
}.

Definition BLOCK : nat := Z.to_nat 4096.
Definition n_inodes (img : image) : Z := Z.of_nat (length (inodes img)).
Definition image_size (img : image) : Z :=
  4096 * (1 + n_inodes img + Z.of_nat (length (blocks img))).

(** The blocks a file of length [len] fills. *)
Definition blocks_of (len : Z) : nat := Z.to_nat ((len + 4095) / 4096).
(** The contents of the file of an inode. *)
Definition content (img : image) (x : inode_a) : list Z :=
  take (Z.to_nat (in_len x))
    (mjoin (omap (λ b, zlookup (blocks img) b) (take (blocks_of (in_len x)) (in_blocks x)))).

Definition entry_bytes (e : entry) : list Z :=
  e_name e ++ le32 (e_type e) ++ le32 (e_inode e).
Definition inode_bytes (x : inode_a) : list Z :=
  le32 (in_len x) ++ (in_blocks x ≫= le32).

(** Well-formed: names of 32 bytes, not empty; at most 62 entries, so that the empty name
    that ends the directory is inside the boot block; every inode has 1023
    words of block numbers, those of the file being data blocks other than 0,
    which [read_data] takes for the end of the file. *)
Definition entry_ok (e : entry) : Prop :=
  length (e_name e) = 32%nat ∧ Forall is_u8 (e_name e) ∧ head (e_name e) ≠ Some 0 ∧
  0 ≤ e_type e < 2 ^ 24 ∧ is_u32 (e_inode e).
Definition inode_ok (img : image) (x : inode_a) : Prop :=
  0 ≤ in_len x < 4096 * 1023 ∧ length (in_blocks x) = 1023%nat ∧
  Forall is_u32 (in_blocks x) ∧
  Forall (λ b, 0 < b < Z.of_nat (length (blocks img)))
    (take (blocks_of (in_len x)) (in_blocks x)).
Definition block_ok (b : list Z) : Prop := length b = BLOCK ∧ Forall is_u8 b.
Record image_ok (img : image) : Prop := {
  io_entries : Forall entry_ok (entries img);
  io_count : (length (entries img) ≤ 62)%nat;
  io_inodes : Forall (inode_ok img) (inodes img);
  io_blocks : Forall block_ok (blocks img);
}.

(** The image in memory at [bb]. The name after the last entry is empty,
    which is how the lookups find the end of the directory. *)
Record image_at (m : mem) (bb : Z) (img : image) : Prop := {
  ia_ok : image_ok img;
  ia_range : 0 ≤ bb ∧ bb + image_size img < 2 ^ 32;
  ia_inode_cnt : bytes_at m (bb + 4) (le32 (n_inodes img));
  ia_entry d e : entries img !! d = Some e →
    bytes_at m (bb_dentry bb (Z.of_nat d)) (entry_bytes e);
  ia_end : m !! bb_dentry bb (Z.of_nat (length (entries img))) = Some 0;
  ia_inode i x : inodes img !! i = Some x →
    bytes_at m (bb + 4096 * (1 + Z.of_nat i)) (inode_bytes x);
  ia_block b cs : blocks img !! b = Some cs →
    bytes_at m (bb + 4096 * (1 + n_inodes img + Z.of_nat b)) cs;
}.

(** Memory that agrees on the image shows it too. *)
Definition agree_on (m m' : mem) (a n : Z) : Prop := ∀ x, a ≤ x < a + n → m' !! x = m !! x.

Lemma length_le32 z : length (le32 z) = 4%nat.
Proof. done. Qed.

Lemma length_le32s l : length (l ≫= le32) = (4 * length l)%nat.
Proof. induction l as [|a l IH]; [done|]. rewrite bind_cons, length_app, IH. cbn. lia. Qed.

Lemma length_inode_bytes img x : inode_ok img x → length (inode_bytes x) = BLOCK.
Proof.
  intros (_ & Hl & _). unfold inode_bytes. rewrite length_app, length_le32s, Hl. done.
Qed.

Lemma length_entry_bytes e : entry_ok e → length (entry_bytes e) = 40%nat.
Proof. intros (Hl & _). unfold entry_bytes. rewrite !length_app, Hl. done. Qed.

(** Word [k] of a list of words. *)
Lemma le32s_lookup m a l k w :
  bytes_at m a (l ≫= le32) → l !! k = Some w → bytes_at m (a + 4 * Z.of_nat k) (le32 w).
Proof.
  revert a k. induction l as [|v l IH]; intros a k Hb Hk; [done|].
  rewrite bind_cons, bytes_at_app in Hb. destruct Hb as [H1 H2].
  destruct k as [|k]; cbn in Hk.
  - simplify_eq. by rewrite Z.add_0_r.
  - rewrite length_le32 in H2. specialize (IH _ _ H2 Hk).
    by replace (a + 4 * Z.of_nat (S k)) with (a + Z.of_nat 4 + 4 * Z.of_nat k) by lia.
Qed.

(** The pieces of the image lie inside it. *)
Section image.
Context (m : mem) (bb : Z) (img : image) (Hi : image_at m bb img).

Lemma image_agree m' : agree_on m m' bb (image_size img) → image_at m' bb img.
Proof using Hi.
  intros Ha. destruct Hi as [Hok Hr Hc He Hend Hino Hblk].
  pose proof (io_count _ Hok) as Hcnt. unfold n_inodes in *.
  assert (4096 ≤ image_size img) as Hsz by (unfold image_size, n_inodes; lia).
  split; try done.
  - eapply bytes_at_agree; [|exact Hc]. intros x Hx. rewrite length_le32 in Hx. apply Ha. lia.
  - intros d e Hd. eapply bytes_at_agree; [|by apply He]. intros x Hx.
    pose proof (io_entries _ Hok) as Hes. rewrite Forall_lookup in Hes.
    rewrite (length_entry_bytes e) in Hx by eauto. apply lookup_lt_Some in Hd.
    unfold bb_dentry in Hx. apply Ha. lia.
  - rewrite Ha; [done|]. unfold bb_dentry. lia.
  - intros i x Hx. eapply bytes_at_agree; [|by apply Hino]. intros y Hy.
    pose proof (io_inodes _ Hok) as His. rewrite Forall_lookup in His.
    rewrite (length_inode_bytes img) in Hy by eauto. apply lookup_lt_Some in Hx.
    apply Ha. unfold image_size, n_inodes, BLOCK in *. lia.
  - intros b cs Hb. eapply bytes_at_agree; [|by apply Hblk]. intros y Hy.
    pose proof (io_blocks _ Hok) as Hbs. rewrite Forall_lookup in Hbs.
    destruct (Hbs _ _ Hb) as [Hl _]. rewrite Hl in Hy. apply lookup_lt_Some in Hb.
    apply Ha. unfold image_size, n_inodes, BLOCK in *. lia.
Qed.

Lemma n_inodes_u32 : is_u32 (n_inodes img).
Proof using Hi. destruct Hi as [_ Hr _ _ _ _ _]. unfold is_u32, image_size, n_inodes in *. lia. Qed.

Lemma load_inode_cnt : load32 (bb_inode_cnt bb) m = Ok (n_inodes img, m).
Proof using Hi. apply load32_le32; [apply Hi|apply n_inodes_u32]. Qed.

Lemma inode_address i :
  0 ≤ i < n_inodes img → GET_INODE_ADRS bb i = bb + 4096 * (1 + i).
Proof using Hi.
  intros. destruct Hi as [_ Hr _ _ _ _ _]. unfold GET_INODE_ADRS.
  apply u32_id. unfold is_u32, image_size, n_inodes in *. lia.
Qed.

Lemma inode_is_ok i x : zlookup (inodes img) i = Some x → inode_ok img x.
Proof using Hi.
  intros [_ H]%zlookup_Some. pose proof (io_inodes _ (ia_ok _ _ _ Hi)) as His.
  rewrite Forall_lookup in His. eauto.
Qed.

Lemma inode_at i x :
  zlookup (inodes img) i = Some x → bytes_at m (bb + 4096 * (1 + i)) (inode_bytes x).
Proof using Hi.
  intros [H0 H]%zlookup_Some. apply (ia_inode _ _ _ Hi) in H. by rewrite Z2Nat.id in H.
Qed.

Lemma load_length i x :
  zlookup (inodes img) i = Some x →
  load32 (i_length (bb + 4096 * (1 + i))) m = Ok (in_len x, m).
Proof using Hi.
  intros H. pose proof (inode_is_ok _ _ H) as (Hl & _). apply inode_at in H.
  unfold inode_bytes in H. rewrite bytes_at_app in H.
  apply load32_le32; [apply H|unfold is_u32; lia].
Qed.

Lemma load_data_block i x k b :
  zlookup (inodes img) i = Some x → zlookup (in_blocks x) k = Some b →
  load32 (i_data_block (bb + 4096 * (1 + i)) k) m = Ok (b, m).
Proof using Hi.
  intros Hx Hk. pose proof (inode_is_ok _ _ Hx) as (_ & Hl & Hu & _).
  apply zlookup_Some in Hk as [Hk0 Hk]. pose proof (lookup_lt_Some _ _ _ Hk).
  assert (0 ≤ i < n_inodes img) as Hi0.
  { apply (zlookup_is_Some (inodes img)). by rewrite Hx. }
  pose proof (ia_range _ _ _ Hi) as Hr.
  unfold i_data_block. rewrite u32_id by (unfold is_u32, image_size, n_inodes in *; lia).
  apply load32_le32; [|by eapply Forall_lookup_1 in Hu].
  apply inode_at in Hx. unfold inode_bytes in Hx. rewrite bytes_at_app in Hx.
  destruct Hx as [_ Hx]. eapply le32s_lookup in Hx; [|exact Hk].
  rewrite length_le32 in Hx. rewrite Z2Nat.id in Hx by done. done.
Qed.

Lemma data_block_address b :
  0 ≤ b < Z.of_nat (length (blocks img)) →
  GET_DATABLOCK_ADRS bb b m = Ok (bb + 4096 * (1 + n_inodes img + b), m).
Proof using Hi.
  intros Hb. unfold GET_DATABLOCK_ADRS. erewrite bind_ok by apply load_inode_cnt.
  pose proof (ia_range _ _ _ Hi) as Hr. unfold image_size in Hr.
  assert (0 ≤ n_inodes img) by (unfold n_inodes; lia). unfold BYTES_PER_BLOCK.
  rewrite (u32_id (n_inodes img + b)) by (unfold is_u32; lia).
  rewrite (u32_id (_ + 1)) by (unfold is_u32; lia).
  rewrite (u32_id (4096 * _)) by (unfold is_u32; lia).
  rewrite u32_id by (unfold is_u32; lia). unfold mret, K_ret. do 2 f_equal. lia.
Qed.

Lemma data_block_address_any b :
  ∃ p, GET_DATABLOCK_ADRS bb b m = Ok (p, m).
Proof using Hi.
  unfold GET_DATABLOCK_ADRS. erewrite bind_ok by apply load_inode_cnt. by eexists.
Qed.
End image.

(** ** The bytes of a file *)

Lemma omap_lookup_all {A B} (f : A → option B) l k :
  Forall (λ a, is_Some (f a)) l → omap f l !! k = (l !! k) ≫= f.
Proof.
  intros H. revert k. induction H as [|a l [b Hb] _ IH]; intros k; [done|].
  change (omap f (a :: l)) with (match f a with Some b => b :: omap f l | None => omap f l end).
  rewrite Hb. destruct k as [|k]; cbn; [by rewrite Hb|]. apply IH.
Qed.

Lemma omap_length_all {A B} (f : A → option B) l :
  Forall (λ a, is_Some (f a)) l → length (omap f l) = length l.
Proof.
  induction 1 as [|a l [b Hb] _ IH]; [done|].
  change (omap f (a :: l)) with (match f a with Some b => b :: omap f l | None => omap f l end).
  rewrite Hb. cbn. by rewrite IH.
Qed.

Lemma length_mjoin_same {A} n (ls : list (list A)) :
  Forall (λ l, length l = n) ls → length (mjoin ls) = (length ls * n)%nat.
Proof. induction 1 as [|l ls Hl _ IH]; [done|].
  change (mjoin (l :: ls)) with (l ++ mjoin ls). rewrite length_app, Hl, IH. done. Qed.

Section content.
Context (img : image) (Hok : image_ok img) (x : inode_a) (Hx : inode_ok img x).
Let bs := take (blocks_of (in_len x)) (in_blocks x).
Let data := omap (λ b, zlookup (blocks img) b) bs.

Lemma blocks_of_bound : 4096 * (Z.of_nat (blocks_of (in_len x)) - 1) < in_len x ≤
  4096 * Z.of_nat (blocks_of (in_len x)).
Proof using Hx.
  destruct Hx as [Hl _]. unfold blocks_of.
  pose proof (Z.div_mod (in_len x + 4095) 4096 ltac:(lia)).
  pose proof (Z.mod_pos_bound (in_len x + 4095) 4096 ltac:(lia)). lia.
Qed.

Lemma blocks_all : Forall (λ b, is_Some (zlookup (blocks img) b)) bs.
Proof using Hx.
  destruct Hx as (_ & _ & _ & Hb). eapply Forall_impl; [exact Hb|].
  intros b Hb'. cbv beta in Hb'. apply zlookup_is_Some. lia.
Qed.

Lemma data_same_length : Forall (λ l, length l = BLOCK) data.
Proof using Hok Hx.
  apply Forall_forall. intros cs Hcs. apply list_elem_of_omap in Hcs as (b & _ & Hb).
  apply zlookup_Some in Hb as [_ Hb]. pose proof (io_blocks _ Hok) as H.
  rewrite Forall_lookup in H. by apply H in Hb as [? _].
Qed.

Lemma length_bs : length bs = blocks_of (in_len x).
Proof using Hx.
  destruct Hx as (Hl & Hlen & _). unfold bs. rewrite length_take, Hlen.
  pose proof blocks_of_bound; lia.
Qed.

Lemma length_data : length (mjoin data) = (blocks_of (in_len x) * BLOCK)%nat.
Proof using Hok Hx.
  rewrite (length_mjoin_same BLOCK) by apply data_same_length.
  unfold data. rewrite omap_length_all by apply blocks_all. by rewrite length_bs.
Qed.

Lemma length_content : length (content img x) = Z.to_nat (in_len x).
Proof using Hok Hx.
  unfold content. fold bs. fold data. rewrite length_take, length_data.
  destruct Hx as [Hl _]. unfold BLOCK. pose proof blocks_of_bound; lia.
Qed.

(** Byte [p] of a file is byte [p mod 4096] of the data block whose number is
    word [p / 4096] of the inode. *)
Lemma content_byte p :
  0 ≤ p < in_len x → ∃ b cs c,
    zlookup (in_blocks x) (p / 4096) = Some b ∧ 0 < b < Z.of_nat (length (blocks img)) ∧
    zlookup (blocks img) b = Some cs ∧ zlookup cs (p mod 4096) = Some c ∧
    zlookup (content img x) p = Some c.
Proof using Hok Hx.
  intros Hp. pose proof (Z.div_mod p 4096 ltac:(lia)) as Hdm.
  pose proof (Z.mod_pos_bound p 4096 ltac:(lia)) as Hm.
  assert (0 ≤ p / 4096 < Z.of_nat (blocks_of (in_len x))) as Hk.
  { pose proof blocks_of_bound. split; [apply Z.div_pos; lia|].
    apply Z.div_lt_upper_bound; lia. }
  assert (Z.of_nat (blocks_of (in_len x)) ≤ 1023) as Hb.
  { destruct Hx as [Hl _]. pose proof blocks_of_bound; lia. }
  pose proof Hx as (Hl & Hlen & _ & Hbs).
  destruct (lookup_lt_is_Some_2 bs (Z.to_nat (p / 4096))) as [b Eb].
  { rewrite length_bs. lia. }
  pose proof Eb as Eb'. apply lookup_take_Some in Eb' as [Eb' _].
  assert (0 < b < Z.of_nat (length (blocks img))) as Hbr.
  { rewrite Forall_lookup in Hbs. by eapply Hbs. }
  destruct (zlookup_is_Some (blocks img) b) as [_ [cs Ecs]]; [lia|].
  assert (length cs = BLOCK) as Hcs.
  { apply zlookup_Some in Ecs as [_ Ecs]. pose proof (io_blocks _ Hok) as H.
    rewrite Forall_lookup in H. by apply H in Ecs as [? _]. }
  destruct (zlookup_is_Some cs (p mod 4096)) as [_ [c Ec]]; [rewrite Hcs; done|].
  exists b, cs, c. split; [|split; [done|split; [done|split; [done|]]]].
  - apply zlookup_Some. split; [lia|done].
  - apply zlookup_Some. split; [lia|]. unfold content. fold bs. fold data.
    rewrite lookup_take_lt by lia.
    apply (join_lookup_Some_same_length BLOCK); [apply data_same_length|].
    exists (Z.to_nat (p / 4096)), cs, (Z.to_nat (p mod 4096)). split; [|split].
    + unfold data. rewrite omap_lookup_all by apply blocks_all. rewrite Eb. exact Ecs.
    + by apply zlookup_Some in Ec as [_ ?].
    + unfold BLOCK. lia.
Qed.
End content.

(** ** read_data *)

Lemma cell_u8 img b cs k c :
  image_ok img → zlookup (blocks img) b = Some cs → zlookup cs k = Some c → is_u8 c.
Proof.
  intros Hok [_ Hb]%zlookup_Some [_ Hc]%zlookup_Some. pose proof (io_blocks _ Hok) as H.
  rewrite Forall_lookup in H. apply H in Hb as [_ Hu]. by eapply Forall_lookup_1 in Hu.
Qed.

Section read.
Context (m : mem) (bb : Z) (img : image) (Hi : image_at m bb img).
Context (ino : Z) (x : inode_a) (Hx : zlookup (inodes img) ino = Some x).
Context (o buf len : Z) (Ho : 0 ≤ o) (Hlen : 0 ≤ len) (Hol : o + len ≤ in_len x).
Context (Hbuf : mapped m buf len) (Hdis : disjoint_range buf len bb (image_size img)).
Let inp := bb + 4096 * (1 + ino).
Let D := drop (Z.to_nat o) (content img x).
(** The memory after [k] bytes. *)
Definition read_mem (k : Z) : mem := put_bytes m buf (take (Z.to_nat k) D).

Lemma read_inode_ok : inode_ok img x.
Proof using Hi Hx. by eapply inode_is_ok. Qed.

Lemma length_D : length D = Z.to_nat (in_len x - o).
Proof using Hi Hx Ho Hlen Hol.
  unfold D. rewrite length_drop, length_content; [lia|apply Hi|apply read_inode_ok].
Qed.

Lemma length_take_D k : 0 ≤ k ≤ len → length (take (Z.to_nat k) D) = Z.to_nat k.
Proof using Hi Hx Ho Hlen Hol. intros. rewrite length_take, length_D. lia. Qed.

Lemma read_mem_image k : 0 ≤ k ≤ len → image_at (read_mem k) bb img.
Proof using Hi Hx Ho Hlen Hol Hdis.
  intros Hk. apply (image_agree m); [done|]. intros a Ha. apply put_bytes_outside.
  rewrite length_take_D by done. unfold disjoint_range in Hdis. lia.
Qed.

Lemma D_byte k : 0 ≤ k < len → ∃ b cs c,
  zlookup (in_blocks x) ((o + k) / 4096) = Some b ∧ 0 < b < Z.of_nat (length (blocks img)) ∧
  zlookup (blocks img) b = Some cs ∧ zlookup cs ((o + k) mod 4096) = Some c ∧
  D !! Z.to_nat k = Some c ∧ is_u8 c.
Proof using Hi Hx Ho Hlen Hol.
  intros Hk. destruct (content_byte img (ia_ok _ _ _ Hi) x read_inode_ok (o + k))
    as (b & cs & c & H1 & H2 & H3 & H4 & H5); [lia|].
  exists b, cs, c. do 4 (split; [done|]). split.
  - unfold D. rewrite lookup_drop. apply zlookup_Some in H5 as [_ H5]. rewrite <-H5. f_equal. lia.
  - eapply cell_u8; [apply Hi|done|done].
Qed.

(** Storing the next byte. *)
Lemma read_mem_step k c :
  0 ≤ k < len → D !! Z.to_nat k = Some c → is_u8 c →
  store8 (buf + k) c (read_mem k) = Ok (tt, read_mem (k + 1)).
Proof using Hi Hx Ho Hlen Hol Hbuf.
  intros Hk Hc Hu. unfold read_mem.
  replace (buf + k) with (buf + Z.of_nat (length (take (Z.to_nat k) D)))
    by (rewrite length_take_D by lia; lia).
  rewrite store8_snoc.
  - rewrite u8_id by done. replace (Z.to_nat (k + 1)) with (S (Z.to_nat k)) by lia.
    by rewrite (take_S_r _ _ _ Hc).
  - rewrite mapped_spec in Hbuf. apply Hbuf. rewrite length_take_D by lia. lia.
Qed.

Lemma copy_block_ok fuel ptr j k :
  0 ≤ j ≤ 4096 → (Z.to_nat (4096 - j) ≤ fuel)%nat → 0 ≤ k ≤ len →
  (∀ q c, j ≤ q < 4096 → k + (q - j) < len → D !! Z.to_nat (k + (q - j)) = Some c →
    m !! u32 (ptr + q) = Some c ∧ bb ≤ u32 (ptr + q) < bb + image_size img) →
  copy_block fuel inp buf ptr j len k (read_mem k) =
  Ok ((bool_decide (len - k < 4096 - j), Z.min len (k + (4096 - j))),
      read_mem (Z.min len (k + (4096 - j)))).
Proof using Hi Hx Ho Hlen Hol Hbuf Hdis.
  revert j k. induction fuel as [|fuel IH]; intros j k Hj Hf Hk Hptr.
  { cbn [copy_block]. replace j with 4096 by lia. rewrite bool_decide_eq_false_2 by lia.
    by replace (Z.min len (k + (4096 - 4096))) with k by lia. }
  cbn [copy_block]. unfold BYTES_PER_BLOCK. case_bool_decide as Hj4.
  2:{ replace j with 4096 by lia. rewrite bool_decide_eq_false_2 by lia.
      by replace (Z.min len (k + (4096 - 4096))) with k by lia. }
  pose proof (read_mem_image k Hk) as Hik.
  erewrite bind_ok by (by apply (load_length _ _ _ Hik)).
  destruct (decide (k = len)) as [->|Hne].
  - rewrite (bool_decide_eq_true_2 (len = len)) by done. cbn [orb].
    rewrite bool_decide_eq_true_2 by lia. by replace (Z.min len _) with len by lia.
  - rewrite (bool_decide_eq_false_2 (k = len)), (bool_decide_eq_false_2 (k = in_len x)) by lia.
    cbn [orb]. destruct (D_byte k) as (b & cs & c & _ & _ & _ & _ & HD & Hu); [lia|].
    destruct (Hptr j c) as [Hl Hin]; [lia|lia|by rewrite Z.sub_diag, Z.add_0_r|].
    erewrite bind_ok.
    2:{ apply load8_ok. unfold read_mem. rewrite put_bytes_outside; [exact Hl|].
        rewrite length_take_D by lia. unfold disjoint_range in Hdis. lia. }
    erewrite bind_ok by (apply read_mem_step; [lia|done|done]).
    rewrite IH; [|lia|lia|lia|].
    + replace (k + 1 + (4096 - (j + 1))) with (k + (4096 - j)) by lia.
      do 3 f_equal. apply bool_decide_ext. lia.
    + intros q d Hq Hq' Hd. apply Hptr; [lia|lia|].
      by replace (k + (q - j)) with (k + 1 + (q - (j + 1))) by lia.
Qed.

(** The pointer to the data block the next byte is in. *)
Lemma block_pointer k b cs :
  0 ≤ k < len → zlookup (in_blocks x) ((o + k) / 4096) = Some b →
  zlookup (blocks img) b = Some cs → ∀ q c,
  (o + k) mod 4096 ≤ q < 4096 → k + (q - (o + k) mod 4096) < len →
  D !! Z.to_nat (k + (q - (o + k) mod 4096)) = Some c →
  let a := u32 (bb + 4096 * (1 + n_inodes img + b) + q) in
  m !! a = Some c ∧ bb ≤ a < bb + image_size img.
Proof using Hi Hx Ho Hlen Hol.
  intros Hk Hb Hcs q c Hq Hql HD.
  pose proof (Z.div_mod (o + k) 4096 ltac:(lia)) as Hdm.
  pose proof (Z.mod_pos_bound (o + k) 4096 ltac:(lia)) as Hm.
  set (k' := k + (q - (o + k) mod 4096)) in *.
  assert ((o + k') / 4096 = (o + k) / 4096 ∧ (o + k') mod 4096 = q) as [Ed Em].
  { split; [symmetry; apply Z.div_unique with q|symmetry; apply Z.mod_unique with ((o + k) / 4096)];
      unfold k'; lia. }
  destruct (D_byte k') as (b' & cs' & c' & H1 & H2 & H3 & H4 & H5 & _); [lia|].
  rewrite Ed, Hb in H1. rewrite Em in H4. simplify_eq.
  pose proof (ia_range _ _ _ Hi) as Hr. unfold image_size in *.
  assert (0 ≤ n_inodes img) by (unfold n_inodes; lia).
  rewrite u32_id by (unfold is_u32; lia). split; [|lia].
  apply zlookup_Some in Hcs as [_ Hcs]. apply zlookup_Some in H4 as [Hq0 H4].
  pose proof (ia_block _ _ _ Hi _ _ Hcs) as Hbl. rewrite bytes_at_lookup in Hbl.
  apply Hbl in H4. rewrite <-H4. f_equal. lia.
Qed.

Lemma copy_blocks_ok fuel i k off :
  0 ≤ i → (i = 0 → off = o) → (i = 0 → fuel ≠ 0%nat) → 0 ≤ k ≤ len →
  let j := if bool_decide (i = 0) then off mod 4096 else 0 in
  o + k = 4096 * (o / 4096 + i) + j →
  let r := Z.min len (k + 4096 * Z.of_nat fuel - j) in
  copy_blocks fuel bb inp buf i (o / 4096) off len k (read_mem k) = Ok (r, read_mem r).
Proof using Hi Hx Ho Hlen Hol Hbuf Hdis.
  revert i k off. induction fuel as [|fuel IH]; intros i k off Hi0 Hoff Hfi Hk j Hpos r.
  { unfold r, j. rewrite bool_decide_eq_false_2 by naive_solver. cbn [copy_blocks].
    by replace (Z.min len _) with k by lia. }
  pose proof read_inode_ok as (Hil & Hbl & _).
  pose proof (Z.mod_pos_bound off 4096 ltac:(lia)) as Hmb.
  assert (0 ≤ j < 4096) as Hj by (unfold j; case_bool_decide; lia).
  pose proof (read_mem_image k Hk) as Hik. pose proof (Z.div_pos o 4096 ltac:(lia) ltac:(lia)).
  cbn [copy_blocks]. unfold BYTES_PER_BLOCK. fold j.
  rewrite (u32_id (o / 4096 + i)) by (unfold is_u32; lia).
  destruct (zlookup_is_Some (in_blocks x) (o / 4096 + i)) as [_ [b Hb]]; [lia|].
  erewrite bind_ok by (by eapply (load_data_block _ _ _ Hik)).
  assert (k < len → (o + k) / 4096 = o / 4096 + i ∧ (o + k) mod 4096 = j) as Hdm.
  { intros _. split; symmetry; [apply Z.div_unique with j|
      apply Z.mod_unique with (o / 4096 + i)]; lia. }
  assert (∃ ptr, GET_DATABLOCK_ADRS bb b (read_mem k) = Ok (ptr, read_mem k) ∧
    (k < len → ptr = bb + 4096 * (1 + n_inodes img + b) ∧ 0 < b ∧
      ∃ cs, zlookup (blocks img) b = Some cs)) as (ptr & Eptr & Hptr).
  { destruct (decide (k < len)) as [Hlt|].
    - destruct (Hdm Hlt) as [Ed Em].
      destruct (D_byte k) as (b' & cs & c & H1 & H2 & H3 & _); [lia|].
      rewrite Ed, Hb in H1. simplify_eq. eexists. split.
      + eapply data_block_address; [exact Hik|lia].
      + intros _. split; [done|]. split; [lia|]. by exists cs.
    - destruct (data_block_address_any _ _ _ Hik b) as [p Ep]. by exists p. }
  erewrite bind_ok by exact Eptr. case_bool_decide as Hb0.
  { assert (k = len) as -> by (destruct (decide (k < len)); [naive_solver lia|lia]).
    unfold r. by replace (Z.min len _) with len by lia. }
  erewrite bind_ok.
  2:{ apply copy_block_ok; [lia|lia|done|]. intros q c Hq Hql HD.
      destruct (Hptr ltac:(lia)) as (-> & _ & cs & Hcs). destruct (Hdm ltac:(lia)) as [Ed Em].
      eapply block_pointer; [|rewrite Ed; exact Hb|exact Hcs|rewrite Em; exact Hq|..];
        rewrite ?Em; try done; lia. }
  cbv beta iota. case_bool_decide as Hret.
  - unfold r. by replace (Z.min len (k + 4096 * _ - j)) with len by lia;
      replace (Z.min len (k + (4096 - j))) with len by lia.
  - replace (Z.min len (k + (4096 - j))) with (k + (4096 - j)) by lia.
    rewrite IH; [|lia|lia|lia|lia|rewrite bool_decide_eq_false_2 by lia; lia].
    rewrite bool_decide_eq_false_2 by lia. unfold r.
    by replace (k + (4096 - j) + 4096 * Z.of_nat fuel - 0)
      with (k + 4096 * Z.of_nat (S fuel) - j) by lia.
Qed.

(** The whole loop, from the first block on. *)
Lemma copy_blocks_start nb :
  (0 < nb)%nat →
  let r := Z.min len (4096 * Z.of_nat nb - o mod 4096) in
  copy_blocks nb bb inp buf 0 (o / 4096) o len 0 m = Ok (r, read_mem r).
Proof using Hi Hx Ho Hlen Hol Hbuf Hdis.
  intros Hnb r. pose proof (Z.div_mod o 4096 ltac:(lia)) as Hdm.
  pose proof (copy_blocks_ok nb 0 0 o) as H.
  rewrite (bool_decide_eq_true_2 (0 = 0)), Z.add_0_l in H by done.
  apply H; [lia|done|lia|lia|lia].
Qed.
End read.

(** The bytes a read of [len] at [offset] of a file of length [flen] gives:
    what is left of the file, but no more than the [len / 4096 + 1] blocks
    from the one of [offset] on hold. *)
Definition read_length (flen offset len : Z) : Z :=
  let n := Z.min len (flen - offset) in
  Z.min n (4096 * (n / 4096 + 1) - offset mod 4096).

(** What [read_data] is to do. *)
Definition read_result (img : image) (ino offset len : Z) : Z * list Z :=
  match zlookup (inodes img) ino with
  | None => (-1, [])
  | Some x =>
      if bool_decide (in_len x < offset) then (-1, [])
      else
        let r := read_length (in_len x) offset len in
        (r, take (Z.to_nat r) (drop (Z.to_nat offset) (content img x)))
  end.

Lemma read_length_range flen offset len :
  0 ≤ offset ≤ flen → 0 ≤ len → 0 ≤ read_length flen offset len ≤ Z.min len (flen - offset).
Proof.
  intros. unfold read_length.
  pose proof (Z.mod_pos_bound offset 4096 ltac:(lia)).
  pose proof (Z.div_mod (Z.min len (flen - offset)) 4096 ltac:(lia)).
  pose proof (Z.mod_pos_bound (Z.min len (flen - offset)) 4096 ltac:(lia)). lia.
Qed.

(** [read_data] gives the result, and writes the bytes to the buffer. *)
Lemma read_data_ok m bb img ino offset buf len :
  image_at m bb img → 0 ≤ ino → 0 ≤ offset → is_u32 len →
  (∀ x, zlookup (inodes img) ino = Some x →
    mapped m buf (Z.min len (in_len x - offset)) ∧
    disjoint_range buf (Z.min len (in_len x - offset)) bb (image_size img)) →
  let '(r, bytes) := read_result img ino offset len in
  read_data bb ino offset buf len m = Ok (r, put_bytes m buf bytes).
Proof.
  intros Hi Hino Hoff Hlen Hbuf. unfold read_result, read_data, is_u32 in *.
  erewrite bind_ok by (by eapply load_inode_cnt).
  destruct (zlookup (inodes img) ino) as [x|] eqn:Ex.
  2:{ apply zlookup_None in Ex. rewrite bool_decide_eq_true_2; [done|]. unfold n_inodes. lia. }
  assert (0 ≤ ino < n_inodes img) as Hr.
  { apply (zlookup_is_Some (inodes img)). by rewrite Ex. }
  rewrite (bool_decide_eq_false_2 (n_inodes img ≤ ino)), (inode_address m _ img) by (done || lia).
  erewrite bind_ok by (by eapply load_length).
  pose proof (inode_is_ok _ _ _ Hi _ _ Ex) as (Hil & _).
  destruct (Hbuf x eq_refl) as [Hmap Hdis]. clear Hbuf.
  case_bool_decide as Hlt; [done|].
  pose proof (read_length_range (in_len x) offset len) as Hrl.
  assert (∀ r, 0 ≤ r ≤ 0 → put_bytes m buf (take (Z.to_nat r)
    (drop (Z.to_nat offset) (content img x))) = m) as Hz.
  { intros r Hr0. by replace (Z.to_nat r) with 0%nat by lia. }
  case_bool_decide as Heq.
  { rewrite Hz by lia. by replace (read_length _ _ _) with 0 by lia. }
  case_bool_decide as Hl0.
  { rewrite Hz by lia. by replace (read_length _ _ _) with 0 by lia. }
  rewrite (u32_id (in_len x - offset)) by (unfold is_u32; lia).
  replace (if bool_decide (in_len x - offset < len) then in_len x - offset else len)
    with (Z.min len (in_len x - offset)) by (case_bool_decide; lia).
  set (n := Z.min len (in_len x - offset)) in *. unfold BYTES_PER_BLOCK.
  assert (0 ≤ n / 4096) by (apply Z.div_pos; lia).
  erewrite bind_ok.
  2:{ apply (copy_blocks_start m bb img Hi ino x Ex offset buf n); try done; lia. }
  unfold read_mem, mret, K_ret. unfold read_length in *. fold n in Hrl |- *.
  rewrite Z2Nat.id by lia. rewrite s32_id by (unfold is_s32; lia). done.
Qed.

(** ** Looking up a name *)

(** The C string at the start of a byte sequence. *)
Fixpoint c_str (l : list Z) : list Z :=
  match l with
  | [] => []
  | c :: l => if bool_decide (c = 0) then [] else c :: c_str l
  end.
(** The name of an entry as the string functions see it. A name of 32
    characters runs on into the type. *)
Definition e_str (e : entry) : list Z := c_str (entry_bytes e).

Definition find_entry (img : image) (s : list Z) : option (nat * entry) :=
  if bool_decide (s = []) then None
  else list_find (λ e, take 32 (e_str e) = take 32 s) (entries img).

Lemma c_str_at m a l :
  bytes_at m a l → 0 ∈ l → Forall is_u8 l → cstr_at m a (c_str l).
Proof.
  revert a. induction l as [|c l IH]; intros a Hb H0 Hu; [by apply not_elem_of_nil in H0|].
  destruct Hb as [Hc Hb]. apply Forall_cons in Hu as [Hcu Hu]. cbn.
  case_bool_decide as Hz; [subst; by split|].
  apply elem_of_cons in H0 as [|H0]; [done|].
  destruct (IH (a + 1) Hb H0 Hu) as [H1 H2]. split; [done|].
  constructor; [|done]. unfold is_char, is_u8 in *. lia.
Qed.

Lemma c_str_app_length l1 l2 : 0 ∈ l1 → (length (c_str (l1 ++ l2)) < length l1)%nat.
Proof.
  induction l1 as [|c l1 IH]; intros H0; [by apply not_elem_of_nil in H0|]. cbn.
  case_bool_decide; [cbn; lia|]. apply elem_of_cons in H0 as [|H0]; [done|].
  apply IH in H0. cbn. lia.
Qed.

Section entries.
Context (m : mem) (bb : Z) (img : image) (Hi : image_at m bb img).

Lemma entry_is_ok d e : entries img !! d = Some e → entry_ok e.
Proof using Hi.
  intros Hd. pose proof (io_entries _ (ia_ok _ _ _ Hi)) as H. rewrite Forall_lookup in H. eauto.
Qed.

Lemma type_zero z : 0 ≤ z < 2 ^ 24 → 0 ∈ le32 z.
Proof using.
  intros Hz. assert (z / 2 ^ 24 = 0) as E by (apply Z.div_small; lia).
  unfold le32, u8. rewrite E. do 3 (apply elem_of_cons; right). by apply elem_of_cons; left.
Qed.

Lemma le32_u8 z : Forall is_u8 (le32 z).
Proof using. repeat constructor; apply u8_range. Qed.

Lemma entry_string d e :
  entries img !! d = Some e →
  cstr_at m (bb_dentry bb (Z.of_nat d)) (e_str e) ∧ (0 < length (e_str e) < 36)%nat.
Proof using Hi.
  intros Hd. pose proof (entry_is_ok _ _ Hd) as (Hl & Hu & Hh & Ht & _).
  pose proof (ia_entry _ _ _ Hi _ _ Hd) as Hb.
  assert (0 ∈ e_name e ++ le32 (e_type e)) as H0.
  { apply elem_of_app. right. by apply type_zero. }
  split; [|split].
  - apply c_str_at; [done| |].
    + unfold entry_bytes. rewrite app_assoc. apply elem_of_app. by left.
    + unfold entry_bytes. rewrite !Forall_app. auto using le32_u8.
  - unfold e_str, entry_bytes. destruct (e_name e) as [|c l]; [done|]. cbn.
    rewrite bool_decide_eq_false_2 by naive_solver. cbn. lia.
  - unfold e_str, entry_bytes. rewrite app_assoc.
    pose proof (c_str_app_length _ (le32 (e_inode e)) H0) as Hlt.
    rewrite length_app, Hl, length_le32 in Hlt. done.
Qed.

Lemma entries_size : (length (entries img) < size m)%nat.
Proof using Hi.
  set (l := seqZ 0 (Z.of_nat (length (entries img)) + 1)).
  assert (length l = S (length (entries img))) as Hl by (unfold l; rewrite length_seqZ; lia).
  assert (NoDup ((λ d, bb_dentry bb d) <$> l)) as Hnd.
  { apply NoDup_fmap; [|apply NoDup_seqZ]. unfold bb_dentry. intros a b. lia. }
  rewrite <-size_dom. enough (S (length (entries img)) ≤ size (dom m))%nat by lia.
  rewrite <-Hl, <-(length_fmap (λ d, bb_dentry bb d)), <-(size_list_to_set (C := gset Z)) by done.
  apply subseteq_size. intros x Hx. apply elem_of_list_to_set, list_elem_of_fmap in Hx.
  destruct Hx as (d & -> & Hd). apply elem_of_seqZ in Hd. apply elem_of_dom.
  destruct (decide (d = Z.of_nat (length (entries img)))) as [->|Hne].
  - rewrite (ia_end _ _ _ Hi). done.
  - destruct (lookup_lt_is_Some_2 (entries img) (Z.to_nat d)) as [e He]; [lia|].
    destruct (entry_string _ _ He) as [[Hb _] Hlen]. rewrite Z2Nat.id in Hb by lia.
    apply bytes_at_mapped in Hb. rewrite mapped_spec in Hb. apply Hb.
    rewrite length_app. cbn. lia.
Qed.
End entries.

Section lookup.
Context `{Layout} (m : mem) (bb : Z) (img : image) (Hi : image_at m bb img).
Context (He : m !! L_empty = Some 0).

Lemma empty_at : cstr_at m L_empty [].
Proof using He. by split. Qed.

(** Comparing with a name. *)
Lemma strncmp_name a x b y :
  cstr_at m a x → cstr_at m b y →
  ∃ c, strncmp a b 32 m = Ok (c, m) ∧ (c = 0 ↔ take 32 x = take 32 y).
Proof using Type.
  intros [Hx Hcx] [Hy Hcy]. destruct (ncmp_cstr 32 x y Hcx Hcy) as (c & Hc & Hiff).
  exists c. split; [|done]. by eapply strncmp_ok.
Qed.

Lemma take_nil_iff (s : list Z) : take 32 s = take 32 [] ↔ s = [].
Proof using Type. by destruct s. Qed.

Lemma find_name_ok fname s fuel d :
  cstr_at m fname s → s ≠ [] → (d ≤ length (entries img))%nat →
  (length (entries img) - d < fuel)%nat →
  find_name fuel bb fname (Z.of_nat d) m =
  Ok ((λ p : nat * entry, Z.of_nat (d + p.1)) <$>
        list_find (λ e, take 32 (e_str e) = take 32 s) (drop d (entries img)), m).
Proof using Hi He.
  intros Hs Hne. revert d. induction fuel as [|fuel IH]; intros d Hd Hf; [lia|].
  cbn [find_name]. unfold d_file_name.
  destruct (decide (d = length (entries img))) as [->|Hlt].
  - assert (cstr_at m (bb_dentry bb (Z.of_nat (length (entries img)))) []) as Hend.
    { split; [|done]. split; [apply Hi|done]. }
    destruct (strncmp_name _ _ _ _ Hend Hs) as (c & Ec & Hc).
    erewrite bind_ok by exact Ec. rewrite bool_decide_eq_false_2.
    2:{ intros Hz. apply Hc in Hz. destruct s; done. }
    destruct (strncmp_name _ _ _ _ Hend empty_at) as (c' & Ec' & Hc').
    erewrite bind_ok by exact Ec'. rewrite bool_decide_eq_true_2 by (by apply Hc').
    by rewrite drop_ge.
  - destruct (lookup_lt_is_Some_2 (entries img) d) as [e Ee]; [lia|].
    destruct (entry_string _ _ _ Hi _ _ Ee) as [Hestr Hel].
    destruct (strncmp_name _ _ _ _ Hestr Hs) as (c & Ec & Hc).
    erewrite bind_ok by exact Ec. rewrite (drop_S _ e) by done. cbn [list_find].
    case_bool_decide as Hz.
    + rewrite decide_True by (by apply Hc). cbn. by rewrite Nat.add_0_r.
    + destruct (strncmp_name _ _ _ _ Hestr empty_at) as (c' & Ec' & Hc').
      erewrite bind_ok by exact Ec'. rewrite bool_decide_eq_false_2.
      2:{ rewrite Hc', take_nil_iff. intros E. rewrite E in Hel. cbn in Hel. lia. }
      rewrite decide_False by naive_solver.
      replace (Z.of_nat d + 1) with (Z.of_nat (S d)) by lia. rewrite IH by lia.
      destruct (list_find _ _) as [[i e']|]; [|done]. cbn. do 3 f_equal. lia.
Qed.

(** The memory after an entry was copied to [dentry]. *)
Definition dentry_mem (dentry : Z) (e : entry) : mem :=
  put_bytes (put_bytes (put_bytes m dentry (e_str e ++ [0]))
    (dentry + 32) (le32 (e_type e))) (dentry + 36) (le32 (e_inode e)).

Lemma copy_dentry_ok dentry d e :
  entries img !! d = Some e → mapped m dentry 64 →
  disjoint_range dentry 64 bb (image_size img) →
  copy_dentry dentry (bb_dentry bb (Z.of_nat d)) m = Ok (tt, dentry_mem dentry e).
Proof using Hi.
  intros Hd Hm Hdis. destruct (entry_string _ _ _ Hi _ _ Hd) as [Hestr Hel].
  pose proof (entry_is_ok _ _ _ Hi _ _ Hd) as (Hl & _ & _ & Ht & Hino).
  pose proof (ia_entry _ _ _ Hi _ _ Hd) as Hb. unfold entry_bytes in Hb.
  rewrite !bytes_at_app, Hl, length_le32 in Hb. destruct Hb as (_ & Hbt & Hbi).
  set (a := bb_dentry bb (Z.of_nat d)) in *.
  assert (bb ≤ a ∧ a + 64 ≤ bb + image_size img) as Ha.
  { apply lookup_lt_Some in Hd. pose proof (io_count _ (ia_ok _ _ _ Hi)).
    unfold a, bb_dentry, image_size, n_inodes. lia. }
  unfold disjoint_range in Hdis.
  assert (mapped m dentry (Z.of_nat (length (e_str e ++ [0])))) as Hms.
  { rewrite length_app. cbn. eapply mapped_sub; [exact Hm|lia|lia]. }
  set (m1 := put_bytes m dentry (e_str e ++ [0])).
  assert (mapped m1 dentry 64) as Hm1 by (eapply mapped_dom; [by apply put_bytes_dom|done]).
  unfold copy_dentry, d_file_name, d_file_type, d_inode_num. erewrite bind_ok.
  2:{ apply strcpy_ok; [exact Hestr| |].
      - rewrite length_app in Hms. cbn in Hms. eapply mapped_sub; [exact Hms|lia|lia].
      - unfold disjoint_range. lia. }
  fold m1.
  assert (∀ c w, bytes_at m c (le32 w) → a ≤ c → c + 4 ≤ a + 64 → bytes_at m1 c (le32 w)) as Hk1.
  { intros c w Hc H1 H2. apply bytes_at_put_disjoint; [|done].
    rewrite length_app, length_le32. cbn. unfold disjoint_range. lia. }
  erewrite bind_ok.
  2:{ apply load32_le32; [apply Hk1; [exact Hbt|lia|lia]|unfold is_u32; lia]. }
  erewrite bind_ok.
  2:{ apply store32_ok. eapply mapped_sub; [exact Hm1|lia|lia]. }
  erewrite bind_ok.
  2:{ apply load32_le32; [|exact Hino]. apply bytes_at_put_disjoint.
      - rewrite !length_le32. unfold disjoint_range. lia.
      - replace (a + 36) with (a + Z.of_nat 32 + Z.of_nat 4) by lia.
        apply Hk1; [exact Hbi|lia|lia]. }
  rewrite store32_ok; [done|]. eapply mapped_dom.
  - apply put_bytes_dom. eapply mapped_sub; [exact Hm1|lia|]. rewrite length_le32. lia.
  - eapply mapped_sub; [exact Hm1|lia|lia].
Qed.

(** What is in the copy. *)
Lemma dentry_mem_fields dentry e :
  mapped m dentry 64 → entry_ok e → (length (e_str e) < 36)%nat →
  bytes_at (dentry_mem dentry e) (dentry + 32) (le32 (e_type e)) ∧
  bytes_at (dentry_mem dentry e) (dentry + 36) (le32 (e_inode e)) ∧
  dom (dentry_mem dentry e) = dom m ∧
  (∀ a, ¬ (dentry ≤ a < dentry + 40) → dentry_mem dentry e !! a = m !! a).
Proof using Type.
  intros Hm (_ & _ & _ & Ht & Hn) Hl. unfold dentry_mem. split; [|split; [|split]].
  - apply bytes_at_put_disjoint; [|apply put_bytes_at]. rewrite !length_le32.
    unfold disjoint_range. lia.
  - apply put_bytes_at.
  - assert (∀ k c M, dom M = dom m → dentry ≤ c → c + Z.of_nat (length k) ≤ dentry + 64 →
      dom (put_bytes M c k) = dom m) as Hd.
    { intros k c M HM H1 H2. rewrite put_bytes_dom; [done|].
      eapply mapped_dom; [exact HM|]. eapply mapped_sub; [exact Hm|lia|lia]. }
    apply Hd; [|lia|rewrite length_le32; lia]. apply Hd; [|lia|rewrite length_le32; lia].
    apply Hd; [done|lia|]. rewrite length_app. cbn. lia.
  - intros a Ha. rewrite !put_bytes_outside; [done|..]; rewrite ?length_le32, ?length_app;
      cbn [length]; lia.
Qed.

Lemma read_dentry_by_name_ok fname s dentry :
  cstr_at m fname s → mapped m dentry 64 → disjoint_range dentry 64 bb (image_size img) →
  read_dentry_by_name bb fname dentry m =
  match find_entry img s with
  | None => Ok (-1, m)
  | Some (_, e) => Ok (0, dentry_mem dentry e)
  end.
Proof using Hi He.
  intros Hs Hm Hdis. unfold read_dentry_by_name, find_entry.
  destruct (strncmp_name _ _ _ _ Hs empty_at) as (c & Ec & Hc).
  erewrite bind_ok by exact Ec. rewrite take_nil_iff in Hc. rewrite <-(bool_decide_ext _ _ Hc).
  case_bool_decide as Hz; [done|].
  pose proof (entries_size _ _ _ Hi) as Hsz. unfold mem_fuel. erewrite bind_ok.
  2:{ apply (find_name_ok fname s _ 0); [done|naive_solver|lia|lia]. }
  rewrite drop_0. destruct (list_find _ _) as [[i e]|] eqn:Ef; [|done]. cbn [fmap option_fmap option_map fst].
  erewrite bind_ok.
  2:{ apply copy_dentry_ok; [|done|done]. by apply list_find_Some in Ef as [? _]. }
  done.
Qed.
End lookup.
