(* ===== verification/Rtc.v ===== *)
(** * The real-time clock ([rtc.c])

    The clock interrupts at a rate set in the low four bits of its register
    A. [rtc_read] waits for an interrupt: [handler] is what an interrupt does
    to the kernel until control is back at the interrupted code. *)

From S2P Require Import Prelude CInt Memory CString State I8259 Screen Printf.

Definition RTC_PORT := 0x70.
Definition PORT_DATA := 0x71.
Definition REGB_NONMI := 0x8B.
Definition NMI_ON := 0x7F.
Definition REGA := 0x8A.
Definition REGC := 0x0C.
Definition RTC_ENABLE := 0x40.
Definition IR_LINE := 8.
Definition RTC_DEFAULT_FREQ := 32768.
Definition RTC_PRGM_MAX_FREQ := 1024.
Definition RTC_RATE_LOW := 6.
Definition RTC_RATE_HIGH := 15.

(** The next interrupt, when the processor accepts it. Without one the
    waiting code waits for ever. *)
Definition wait_irq (handler : irq → K kstate unit) : K kstate unit := λ s,
  match io_if (kio s), kirqs s with
  | true, i :: irqs => handler i (s <| kirqs := irqs |>)
  | _, _ => Spin
  end.

Section rtc.
Context `{Device} `{Layout}.

Definition rtc_init : K kstate unit :=
  on_io (
    _ ← cli;
    _ ← outb REGB_NONMI RTC_PORT;
    curReg ← inb PORT_DATA;
    _ ← outb REGB_NONMI RTC_PORT;
    _ ← outb (Z.lor curReg RTC_ENABLE) PORT_DATA;
    _ ← enable_irq IR_LINE;
    _ ← enable_irq 2;
    _ ← outb NMI_ON RTC_PORT;
    sti).

Definition rtc_handler : K kstate unit :=
  _ ← kmod (λ s, s <| krtc ::= (λ r, r <| rtc_interrupt_count ::= (λ c, u32 (c + 1)) |>) |>);
  _ ← on_io (_ ← outb REGC RTC_PORT; _ ← inb PORT_DATA; send_eoi IR_LINE);
  kmod (λ s, s <| krtc ::= (λ r, r <| rtc_interrupt_happened := 1 |>) |>).

Section read.
Context (handler : irq → K kstate unit).

Fixpoint rtc_read_loop (fuel : nat) : K kstate unit :=
  match fuel with
  | O => kspin
  | S fuel' =>
      r ← kget krtc;
      if bool_decide (rtc_interrupt_happened r = 0)
      then _ ← wait_irq handler; rtc_read_loop fuel'
      else mret tt
  end.
(** The fuel is one more than the interrupts to come. *)
Definition rtc_read (fd buf nbytes : Z) : K kstate Z :=
  _ ← kmod (λ s, s <| krtc ::= (λ r, r <| rtc_interrupt_happened := 0 |>) |>);
  n ← kget (λ s, length (kirqs s));
  _ ← rtc_read_loop (S n);
  mret 0.
End read.

(** [while ((tmp > 1) && (tmp % 2 == 0)) tmp = tmp >> 1;] *)
Fixpoint halve (fuel : nat) (tmp : Z) : Z :=
  match fuel with
  | O => tmp
  | S fuel' =>
      if bool_decide (tmp > 1) && bool_decide (Z.rem tmp 2 = 0)
      then halve fuel' (Z.shiftr tmp 1) else tmp
  end.
(** [while ((RTC_DEFAULT_FREQ >> (rate - 1)) != freq) rate++;] *)
Fixpoint find_rate (fuel : nat) (freq rate : Z) : option Z :=
  match fuel with
  | O => None
  | S fuel' =>
      if bool_decide (Z.shiftr RTC_DEFAULT_FREQ (rate - 1) ≠ freq)
      then find_rate fuel' freq (rate + 1) else Some rate
  end.

Definition msg_not_power : list Z :=
  chars "rtc_write: ERROR - new frequency not a power of 2" ++ newline.
Definition msg_not_valid : list Z :=
  chars "rtc_write: ERROR - frequency power of 2 but not in valid range" ++ newline.
Definition msg_rate : list Z :=
  chars "rtc_write: ERROR - new rate out of range" ++ newline.

(** A shift by the 32 bits of the frequency ends the first loop; the second
    ends within 16 steps on the frequencies that reach it. *)
Definition rtc_write (fd buf nbytes : Z) : K kstate Z :=
  w ← on_mem (load32 buf);
  let freq := s32 w in
  let tmp := halve 32 freq in
  if bool_decide (tmp ≠ 1) then
    _ ← printf msg_not_power []; mret (-1)
  else if bool_decide (freq > RTC_PRGM_MAX_FREQ) || bool_decide (freq ≤ 0) then
    _ ← printf msg_not_valid []; mret (-1)
  else
    rate ← (match find_rate 32 freq 1 with Some r => mret r | None => kspin end);
    if bool_decide (rate < RTC_RATE_LOW) || bool_decide (rate > RTC_RATE_HIGH) then
      _ ← printf msg_rate []; mret (-1)
    else
      _ ← kmod (λ s, s <| krtc ::= (λ r, r <| rtc_cur_freq := freq |>) |>);
      _ ← on_io (_ ← cli; outb REGB_NONMI RTC_PORT);
      _ ← kmod (λ s, s <| krtc ::= (λ r, r <| rtc_interrupt_count := 0 |>) |>);
      _ ← on_io (
        _ ← outb REGA RTC_PORT;
        v ← inb PORT_DATA;
        let reg_prev := s8 v in
        _ ← outb REGA RTC_PORT;
        let reg_prev := s8 (Z.lor (Z.land reg_prev 0xF0) rate) in
        _ ← outb reg_prev PORT_DATA;
        _ ← outb NMI_ON RTC_PORT;
        sti);
      mret 0.

Definition rtc_open (filename : Z) : K kstate Z :=
  _ ← on_mem (store32 L_rtc_buf 2);
  rtc_write 0 L_rtc_buf 0.
Definition rtc_close (fd : Z) : K kstate Z := mret 0.

(** [while (ticks) { rtc_read(0,0,0); ticks--; }] *)
Fixpoint wait_ticks (handler : irq → K kstate unit) (ticks : nat) : K kstate unit :=
  match ticks with
  | O => mret tt
  | S ticks' => _ ← rtc_read handler 0 0 0; wait_ticks handler ticks'
  end.
Definition rtc_wait (handler : irq → K kstate unit) (seconds print : Z) : K kstate unit :=
  _ ← (if bool_decide (print ≠ 0)
      then _ ← printf (chars "rtc_wait: waiting for %u seconds..." ++ newline) [seconds]; mret tt
      else mret tt);
  _ ← on_io cli;
  _ ← kmod (λ s, s <| krtc ::= (λ r, r <| rtc_interrupt_count := 0 |>) |>);
  _ ← on_io sti;
  r ← kget krtc;
  wait_ticks handler (Z.to_nat (u32 (seconds * rtc_cur_freq r))).
End rtc.
