(* ===== verification/Pit.v ===== *)
(** * The interval timer ([pit.c]), without its handler *)

From S2P Require Import Prelude CInt Memory State I8259.

Definition PIT_IRQ_LINE := 0.
Definition PIT_FREQ_MAX := 1193182.
Definition PIT_FREQ_SCHEDULE := 25.
Definition PIT_CH0_PORT := 0x40.
Definition PIT_CMD_PORT := 0x43.
Definition PIT_SET_RATE_CMD := 0x36.

Section pit.
Context `{Device}.

Definition pit_init : K io_t unit := _ ← cli; _ ← enable_irq PIT_IRQ_LINE; sti.

(** [freq < PIT_FREQ_MAX / 65536.0] compares in floating point; both sides
    are exact multiples of 2 to the power of -16, so it is a comparison of
    integers. *)
Definition below_PIT_FREQ_MIN (freq : Z) : bool := bool_decide (freq * 65536 < PIT_FREQ_MAX).

Definition pit_set_freq (channel freq : Z) : K io_t Z :=
  if bool_decide (channel > 2) || bool_decide (channel = 1) then mret (-1)
  else if bool_decide (freq > PIT_FREQ_MAX) || below_PIT_FREQ_MIN freq then mret (-1)
  else
    _ ← cli;
    let divider := u16 (PIT_FREQ_MAX / freq) in
    _ ← outb (PIT_SET_RATE_CMD + Z.shiftl channel 6) PIT_CMD_PORT;
    _ ← outb (Z.land divider 0xFF) (PIT_CH0_PORT + channel);
    _ ← outb (Z.shiftr divider 8) (PIT_CH0_PORT + channel);
    _ ← sti;
    mret 0.
End pit.
