(* ===== verification/ExecHelper.v ===== *)
(** * Parsing a command and checking a program ([executehelper.c]) *)

From S2P Require Import Prelude CInt Memory CString State Screen Printf FS.

Definition ARGSIZE := 32.

(** [while(command[i] != ' ' && != '\n' && != '\0') cmd[i] = command[i], i++;] *)
Fixpoint parse_cmd (fuel : nat) (command cmd i : Z) : K mem Z :=
  match fuel with
  | O => kspin
  | S fuel' =>
      c ← load8 (command + i);
      if bool_decide (c ≠ 32) && bool_decide (c ≠ 10) && bool_decide (c ≠ 0) then
        c ← load8 (command + i);
        _ ← store8 (cmd + i) c; parse_cmd fuel' command cmd (i + 1)
      else mret i
  end.
(** The loop over the arguments; the final [t]. *)
Fixpoint parse_args (fuel : nat) (command args t i : Z) : K mem Z :=
  match fuel with
  | O => kspin
  | S fuel' =>
      c ← load8 (command + i);
      if bool_decide (c ≠ 10) && bool_decide (c ≠ 0) then
        c ← load8 (command + i);
        _ ← store8 (args + t) c;
        let t := t + 1 in let i := i + 1 in
        if bool_decide (t = ARGSIZE - 1) then mret t else parse_args fuel' command args t i
      else mret t
  end.
Definition parser (command cmd args : Z) : K mem unit :=
  i ← mem_fuel (λ fuel, parse_cmd fuel command cmd 0);
  c ← load8 (command + i);
  let i := if bool_decide (c = 32) then i + 1 else i in
  t ← parse_args (Z.to_nat ARGSIZE) command args 0 i;
  if bool_decide (t = ARGSIZE - 1) then store8 (args + t) 0 else mret tt.

Section check.
Context `{Layout}.

(** [checkExe]: 0, or -1 as a [uint32_t]. The comparison of the caller with
    [-1] is of unsigned numbers. *)
Definition checkExe (cmd : Z) : K kstate Z :=
  bb ← kget bblock;
  r ← on_mem (read_dentry_by_name bb cmd L_exe_prog);
  if bool_decide (r = -1) then
    _ ← printf (chars "%s is an invalid filename! ") [cmd]; mret (u32 (-1))
  else
    inode_num ← on_mem (load32 (d_inode_num L_exe_prog));
    n ← on_mem (read_data bb inode_num 0 L_elf 4);
    if bool_decide (n = -1) then
      _ ← printf (chars "Could not read file:%s" ++ newline) [cmd]; mret (u32 (-1))
    else
      (* [&&] looks at the next byte only after the previous one matched *)
      is_elf ← on_mem (
        e0 ← load8 L_elf;
        if bool_decide (e0 = 0x7F) then
          e1 ← load8 (L_elf + 1);
          if bool_decide (e1 = 69) then
            e2 ← load8 (L_elf + 2);
            if bool_decide (e2 = 76) then
              e3 ← load8 (L_elf + 3); mret (bool_decide (e3 = 70))
            else mret false
          else mret false
        else mret false);
      if (is_elf : bool) then mret 0
      else _ ← printf (chars "%s is not an ELF file :(") [cmd]; mret (u32 (-1)).
End check.
