(* ===== verification/Process.v ===== *)
(** * Processes: execute and halt ([syscalls.c])

    A process has a number from 0 to 5, a control block and a kernel stack in
    the 8 KB below [KERNEL_STACK_BASE - 8192 * pid], a page directory, and the
    program page of that directory. *)

From S2P Require Import Prelude CInt Memory CString State Screen Printf Paging FS.
From S2P Require Import ExecHelper.

Definition KERNEL_STACK_BASE := 0x800000.
Definition ENTRY_POINT_START := 0x8000000.
Definition TASK_STACK_SIZE := 8192.
Definition IMG_OFFSET := 0x48000.
Definition KERNEL_DS := 0x18.
Definition MAX_OPEN_FILES := 8.
Definition PCB_ADDR (pid : Z) : Z := KERNEL_STACK_BASE - (pid + 1) * TASK_STACK_SIZE.
Definition child_esp := 0x8400000 - 4.
Definition IMG_SIZE := 63 * 4096.

(** Where control goes: back to the caller, to a user program by [iret], or
    to [halt_ret_label] in the [sys_execute] of the parent. *)
Inductive ctl : Type :=
  | Return (r : Z)
  | Enter (eip esp : Z)
  | Resume (eax : Z).

(** [pid_bitmap] as the [int8_t] that [getBitMap] gives. *)
Definition getBitMap : K kstate Z := s ← kget kproc; mret (s8 (pid_bitmap s)).

(** Assignments through [pcb] and to the globals. *)
Definition mod_cur_pcb (f : pcb_t → pcb_t) : K kstate unit :=
  p ← kget kproc; pcb_mod (pcb p) f.
Definition mod_proc (f : proc_t → proc_t) : K kstate unit := kmod (λ s, s <| kproc ::= f |>).
Definition mod_cpu (f : cpu_t → cpu_t) : K kstate unit := kmod (λ s, s <| kcpu ::= f |>).
Definition set_whichTerm (v : Z) : K kstate unit :=
  kmod (λ s, s <| kscr ::= (λ c, c <| whichTerm := v |>) |>).

(** [for(i=0; i<n; i++) a[i]=0;] *)
Definition zero_array (a n : Z) : K mem unit := for_loop (Z.to_nat n) 0 (λ i, store8 (a + i) 0).

Section process.
Context `{Layout}.

(** The search for a free process number; none when all are taken. *)
Fixpoint find_free_pid (fuel : nat) (bitmap free_pid : Z) : option Z :=
  match fuel with
  | O => Some free_pid
  | S fuel' =>
      if bool_decide (free_pid < 6) then
        if bool_decide (Z.land bitmap (Z.shiftl 1 free_pid) = 0) then Some free_pid
        else
          let free_pid := free_pid + 1 in
          if bool_decide (NUM_PROCESS ≤ free_pid) then None
          else find_free_pid fuel' bitmap free_pid
      else Some free_pid
  end.

(** The control block of the new process: everything from [pcb->pid =
    free_pid] to the two open files. [old_pcb] is only dereferenced on the
    branches that use it. *)
Definition init_pcb (free_pid old_pcb : Z) : K kstate unit :=
  _ ← mod_proc (λ p, p <| pcb := PCB_ADDR free_pid |>);
  _ ← mod_cur_pcb (λ b, (b <| pid := free_pid |>) <| child_pid := -1 |>);
  t ← kget kscr;
  _ ← (if bool_decide (whichTerm t = 1) then
        mod_cur_pcb (λ b, (b <| parent_pid := -1 |>) <| curTerminal := 1 |>)
      else if bool_decide (whichTerm t = 2) then
        mod_cur_pcb (λ b, (b <| parent_pid := -1 |>) <| curTerminal := 2 |>)
      else if bool_decide (whichTerm t = 4) then
        mod_cur_pcb (λ b, (b <| parent_pid := -1 |>) <| curTerminal := 3 |>)
      else
        o ← pcb_get old_pcb; mod_cur_pcb (λ b, b <| parent_pid := pid o |>));
  _ ← set_whichTerm 0;
  p ← kget kproc;
  _ ← (if bool_decide (attemptExit p ≠ 0) then
        _ ← mod_proc (λ p, p <| attemptExit := 0 |>);
        _ ← mod_cur_pcb (λ b, b <| parent_pid := -1 |>);
        o ← pcb_get old_pcb; mod_cur_pcb (λ b, b <| curTerminal := curTerminal o |>)
      else mret tt);
  b ← cur_pcb;
  _ ← (if bool_decide (parent_pid b ≠ -1) then
        _ ← pcb_mod old_pcb (λ o, o <| child_pid := pid b |>);
        o ← pcb_get old_pcb; mod_cur_pcb (λ b, b <| curTerminal := curTerminal o |>)
      else mret tt);
  let std_file := λ f, (f <| fops_table := Some fops_term |>) <| flags := Z.lor TYPE_TERM OPEN |> in
  _ ← mod_file 0 std_file;
  mod_file 1 std_file.

Definition msg_processes : list Z :=
  chars "Cannot run more than %d processes!" ++ newline.

(** From [pcb_t * old_pcb = pcb] on: the control block, the task state and the
    jump to the program. *)
Definition start_program (free_pid args prog_img : Z) : K kstate ctl :=
  p ← kget kproc;
  _ ← init_pcb free_pid (pcb p);
  _ ← mod_proc (λ p, p <| pid_bitmap ::= (λ v, u8 (Z.lor v (Z.shiftl 1 free_pid))) |>);
  entry_point ← on_mem (load32 (prog_img + 4 * 6));
  b ← cur_pcb;
  _ ← mod_cpu (λ c, ((c <| tss_eip := entry_point |>)
        <| tss_esp0 := KERNEL_STACK_BASE - pid b * TASK_STACK_SIZE |>)
        <| tss_ss0 := KERNEL_DS |>);
  _ ← mod_cur_pcb (λ b, b <| arguments := args |>);
  p ← kget kproc;
  _ ← (if bool_decide (first_flag p = 0)
      then _ ← mod_proc (λ p, p <| first_flag := 1 |>); screenInit
      else mret tt);
  c ← kget kcpu;
  _ ← mod_cur_pcb (λ b, (b <| parent_esp := esp c |>) <| parent_ebp := ebp c |>);
  mret (Enter entry_point child_esp).

(** From [setup_paging(free_pid)] on: the program's page and its contents. *)
Definition load_program (free_pid cmd args prog prog_img : Z) : K kstate ctl :=
  _ ← setup_paging free_pid;
  bb ← kget bblock;
  r ← on_mem (read_dentry_by_name bb cmd prog);
  if bool_decide (r = -1) then mret (Return (-1))
  else
    inode_num ← on_mem (load32 (d_inode_num prog));
    num_byte ← on_mem (read_data bb inode_num 0 prog_img IMG_SIZE);
    if bool_decide (num_byte = -1) then mret (Return (-1))
    else
      _ ← on_mem (memcpy (IMG_OFFSET + ENTRY_POINT_START) prog_img num_byte);
      start_program free_pid args prog_img.

Definition sys_execute (command : Z) : K kstate ctl :=
  c ← kget kcpu;
  let cmd := L_cmd (esp c) in let args := L_args (esp c) in
  _ ← on_mem (_ ← zero_array cmd 1024; _ ← zero_array args ARGSIZE; parser command cmd args);
  r ← checkExe cmd;
  if bool_decide (r = u32 (-1)) then mret (Return (-1))
  else
    p ← kget kproc;
    match find_free_pid 6 (pid_bitmap p) 0 with
    | None => _ ← printf msg_processes [NUM_PROCESS]; mret (Return (-1))
    | Some free_pid =>
        load_program free_pid cmd args (L_prog (esp c)) (L_prog_img (esp c))
    end.

(** [ebx] is the register at entry: the status, or 256 from the handler of
    exceptions. *)
Definition sys_halt (ebx : Z) : K kstate ctl :=
  _ ← mod_proc (λ p, p <| program_exception := c_bool (bool_decide (ebx = 256)) |>);
  _ ← for_loop (Z.to_nat MAX_OPEN_FILES) 0 (λ i, mod_file i (λ f, f <| flags := CLOSE |>));
  b ← cur_pcb;
  let parent_pcb := PCB_ADDR (parent_pid b) in
  _ ← mod_proc (λ p, p <| pid_bitmap ::= (λ v, u8 (v - Z.shiftl 1 (pid b))) |>);
  if bool_decide (parent_pid b = -1) then
    _ ← mod_proc (λ p, p <| attemptExit := 1 |>);
    sys_execute L_shell
  else
    _ ← mod_proc (λ p, p <| pcb := parent_pcb |>);
    _ ← mod_cur_pcb (λ b, b <| child_pid := -1 |>);
    _ ← mod_cpu (λ c, (c <| esp := parent_esp b |>) <| ebp := parent_ebp b |>);
    q ← cur_pcb;
    _ ← update_paging (pid q);
    _ ← mod_cpu (λ c, (c <| tss_esp0 := KERNEL_STACK_BASE - pid q * TASK_STACK_SIZE |>)
          <| tss_ss0 := KERNEL_DS |>);
    mret (Resume (u8 ebx)).

(** [halt_ret_label]: the value [sys_execute] gives in the parent. [r2] is
    the register that held [program_exception] when the parent executed. *)
Definition halt_return (r2 eax : Z) : Z := if bool_decide (r2 = 1) then 256 else eax.
End process.
