(* ===== verification/Terminal.v ===== *)
(** * The terminal driver ([terminal.c])

    Each terminal has a line buffer of 128 bytes, [tbuf[t]], and the number
    of characters in it, [idx[t]]. The keyboard fills the buffer of the
    displayed terminal; a process reads that of its own. *)

From S2P Require Import Prelude CInt Memory CString State Screen Printf Rtc.

Definition BUFSIZE := 128.
Definition KB_PORT := 0x60.
Definition KB_STAT := 0x64.
Definition MAKE := 0x01.
Definition BKSP := 0x0E.
Definition CNTRL := 0x1D.
Definition ENTR := 0x1C.
Definition ALT := 0x38.

(** [idx[i]], read and assigned. *)
Definition idx_at (i : Z) : K kstate Z := t ← kget kterm; klift (zlookup (idx t) i).
Definition set_idx (i v : Z) : K kstate unit :=
  t ← kget kterm; l ← klift (zupdate (idx t) i v);
  kmod (λ s, s <| kterm ::= (λ t, t <| idx := l |>) |>).

(** [setback] of [keyboard.c]. *)
Definition setback : K kstate unit := kmod (λ s, s <| kkbd ::= (λ k, k <| back := 0 |>) |>).

Section terminal.
Context `{Device} `{Layout}.

(** [&tbuf[t][i]]; the rows are consecutive. *)
Definition tbuf_at (t i : Z) : Z := L_tbuf + BUFSIZE * t + i.

Definition insert (letter : Z) : K kstate Z :=
  w ← whatTerm;
  i ← idx_at (w - 1);
  if bool_decide (i > 127) then mret i
  else
    _ ← on_mem (store8 (tbuf_at (w - 1) i) letter);
    _ ← set_idx (w - 1) (i + 1);
    mret (i + 1).

Definition clearbuf : K kstate unit :=
  b ← cur_pcb;
  let t := curTerminal b - 1 in
  _ ← on_mem (for_loop (Z.to_nat BUFSIZE) 0 (λ i, store8 (tbuf_at t i) 0));
  set_idx t 0.

Definition backspacebuf : K kstate Z :=
  w ← whatTerm;
  i ← idx_at (w - 1);
  _ ← on_mem (store8 (tbuf_at (w - 1) (i - 1)) 0);
  if bool_decide (i > 0) then _ ← set_idx (w - 1) (i - 1); mret (i - 1)
  else mret (-1).

Definition cur_idx : K kstate Z := b ← cur_pcb; idx_at (curTerminal b - 1).
(** [tbuf[pcb->curTerminal-1][idx[pcb->curTerminal-1]-1]] *)
Definition cur_last : K kstate Z :=
  b ← cur_pcb; i ← idx_at (curTerminal b - 1);
  on_mem (load8 (tbuf_at (curTerminal b - 1) (i - 1))).

(** [while(!(inb(KB_STAT)&MAKE)){}], within [polls] readings. *)
Fixpoint poll_make (polls : nat) : K kstate unit :=
  match polls with
  | O => kspin
  | S polls' =>
      v ← on_io (inb KB_STAT);
      if bool_decide (Z.land v MAKE = 0) then poll_make polls' else mret tt
  end.

Section read.
Context (handler : irq → K kstate unit).

(** The first loop of [tRead]: interrupts come between [sti] and [cli]. *)
Fixpoint wait_line (fuel : nat) : K kstate unit :=
  match fuel with
  | O => kspin
  | S fuel' =>
      i ← cur_idx;
      if bool_decide (i < BUFSIZE) then
        _ ← on_io cli;
        i ← cur_idx;
        ended ← (if bool_decide (i = 0) then mret false
                else c ← cur_last; mret (bool_decide (c = 10)));
        _ ← on_io sti;
        if (ended : bool) then mret tt else _ ← wait_irq handler; wait_line fuel'
      else mret tt
  end.

(** The loop over a full buffer. It polls the keyboard, and interrupts come
    once it has executed [sti]. *)
Fixpoint full_line (fuel polls : nat) (scancode : Z) : K kstate unit :=
  match fuel with
  | O => kspin
  | S fuel' =>
      if bool_decide (scancode ≠ ENTR) then
        s ← kget (λ s, s);
        _ ← (if io_if (kio s) then
              match kirqs s with [] => mret tt | _ => wait_irq handler end
            else mret tt);
        c ← cur_last;
        if bool_decide (c = 10) then mret tt
        else
          i ← cur_idx;
          if bool_decide (i = BUFSIZE) then
            t ← kget kterm;
            _ ← (if bool_decide (set_flag t = 0) then
                  _ ← on_io cli;
                  kmod (λ s, s <| kterm ::= (λ t, t <| set_flag := 1 |>) |>)
                else mret tt);
            _ ← poll_make polls;
            scancode ← on_io (inb KB_PORT);
            _ ← (if bool_decide (scancode = BKSP) || bool_decide (scancode = CNTRL)
                    || bool_decide (scancode = ALT) then
                  _ ← kmod (λ s, s <| kterm ::= (λ t, t <| set_flag := 0 |>) |>);
                  on_io sti
                else mret tt);
            full_line fuel' polls scancode
          else full_line fuel' polls scancode
      else mret tt
  end.

(** [scancode] is the uninitialised local; [busy] and [polls] bound the busy
    waits of the loop over a full buffer. *)
Definition tRead (busy polls : nat) (scancode fd buf nbytes : Z) : K kstate Z :=
  _ ← on_mem (for_loop (Z.to_nat (nbytes + 1)) 0 (λ i, store8 (buf + i) 0));
  _ ← updatecursor;
  _ ← setback;
  _ ← clearbuf;
  n ← kget (λ s, length (kirqs s));
  _ ← wait_line (S n);
  _ ← on_io cli;
  w ← whatTerm;
  i ← idx_at (w - 1);
  _ ← (if bool_decide (i = BUFSIZE) then
        _ ← full_line busy polls scancode;
        i ← cur_idx;
        if bool_decide (i = BUFSIZE) then
          b ← cur_pcb;
          _ ← on_mem (store8 (tbuf_at (curTerminal b - 1) (BUFSIZE - 1)) 10);
          _ ← printf newline []; mret tt
        else mret tt
      else mret tt);
  i ← cur_idx;
  b ← cur_pcb;
  let src := tbuf_at (curTerminal b - 1) 0 in
  if bool_decide (nbytes ≤ i) then
    _ ← on_mem (strncpy buf src (u32 nbytes)); _ ← on_io sti; mret nbytes
  else
    _ ← on_mem (strncpy buf src (u32 i)); _ ← on_io sti; cur_idx.
End read.

Fixpoint tWrite_loop (n : nat) (buf_ptr nbytes i bytesWritten : Z) : K kstate Z :=
  match n with
  | O => mret bytesWritten
  | S n' =>
      c ← on_mem (load8 (buf_ptr + i));
      if bool_decide (c ≠ 0) then
        _ ← printf (chars "%c") [c];
        tWrite_loop n' buf_ptr nbytes (i + 1) (bytesWritten + 1)
      else
        _ ← (if bool_decide (i = nbytes - 1) then
              c ← on_mem (load8 (buf_ptr + (nbytes - 1)));
              if bool_decide (c = 0) then _ ← printf newline []; mret tt else mret tt
            else mret tt);
        tWrite_loop n' buf_ptr nbytes (i + 1) bytesWritten
  end.
Definition tWrite (fd buf nbytes : Z) : K kstate Z :=
  tWrite_loop (Z.to_nat nbytes) buf nbytes 0 0.

Definition tOpen (filename : Z) : K kstate Z := _ ← clearbuf; mret 0.
Definition tClose (fd : Z) : K kstate Z := mret 0.
End terminal.
