(* ===== verification/Keyboard.v ===== *)
(** * The keyboard ([keyboard.c], [keyhelper.c], [screenChange] of [lib.c])

    The handler of the keyboard interrupt: it echoes a character to the
    displayed terminal and puts it in that terminal's line buffer, erases,
    clears, and switches between the terminals. *)

From S2P Require Import Prelude CInt Memory CString State I8259 Screen Printf Process.
From S2P Require Import Terminal.

Definition RD_CMD := 0x20.
Definition WRT_CMD := 0x60.
Definition SET_BITS := 0x41.
Definition KB_IR_LINE := 1.
Definition LSHFT := 0x80.
Definition RSHFT := 0x81.
Definition LUSHFT := 0xAA.
Definition RUSHFT := 0xB6.
Definition CAPS := 0x3A.
Definition CLR := 0x26.
Definition F1 := 0x3B.
Definition F2 := 0x3C.
Definition F3 := 0x3D.
Definition SCANLIMIT := 128.
Definition LOWERLET := 0x60.
Definition UPPERLET := 0x7B.
Definition CAPCHANGE := 0x20.

(** The initial scan code table: 90 entries, then zeros. *)
Definition getChar_init : list Z :=
  [0xFF; 0xFF] ++ chars "1234567890-=" ++ [8; 0xFF] ++ chars "qwertyuiop[]" ++ [10; 0] ++
  chars "asdfghjkl;'`" ++ [0x80] ++ chars "\zxcvbnm,./" ++ [0x81; 42; 0; 32; 0] ++
  replicate 10 0xFF ++ replicate 5 0xFF ++ [45] ++ replicate 3 0xFF ++ [43] ++
  replicate 5 0xFF ++ replicate 3 0xFF ++ [0xFF; 0xFF; 0xFF] ++ replicate 38 0.

(** The shifted form of a key, 255 when it has none. *)
Definition getShift (letter : Z) : Z :=
  if bool_decide (letter = 96) then 126        (* '`' '~' *)
  else if bool_decide (letter = 49) then 33    (* '1' '!' *)
  else if bool_decide (letter = 50) then 64    (* '2' '@' *)
  else if bool_decide (letter = 51) then 35    (* '3' '#' *)
  else if bool_decide (letter = 52) then 36    (* '4' '$' *)
  else if bool_decide (letter = 53) then 37    (* '5' '%' *)
  else if bool_decide (letter = 54) then 94    (* '6' '^' *)
  else if bool_decide (letter = 55) then 38    (* '7' '&' *)
  else if bool_decide (letter = 56) then 42    (* '8' '*' *)
  else if bool_decide (letter = 57) then 40    (* '9' '(' *)
  else if bool_decide (letter = 48) then 41    (* '0' ')' *)
  else if bool_decide (letter = 45) then 95    (* '-' '_' *)
  else if bool_decide (letter = 61) then 43    (* '=' '+' *)
  else if bool_decide (letter = 91) then 123   (* '[' '{' *)
  else if bool_decide (letter = 93) then 125   (* ']' '}' *)
  else if bool_decide (letter = 0x5C) then 124 (* backslash, '|' *)
  else if bool_decide (letter = 59) then 58    (* ';' ':' *)
  else if bool_decide (letter = 0x27) then 34  (* quote, double quote *)
  else if bool_decide (letter = 44) then 60    (* ',' '<' *)
  else if bool_decide (letter = 46) then 62    (* '.' '>' *)
  else if bool_decide (letter = 47) then 63    (* '/' '?' *)
  else u8 (-1).

Section keyboard.
Context `{Device} `{Layout}.

(** [getChar[scancode]]. Scan codes reach 255; the array has 128 entries. *)
Definition scan2Let (scancode : Z) : K kstate Z :=
  k ← kget kkbd;
  mret (u8 (default (L_after_getChar scancode) (zlookup (getChar k) scancode))).
Definition setCaps (v : Z) : K kstate unit :=
  k ← kget kkbd; l ← klift (zupdate (getChar k) CAPS v);
  kmod (λ s, s <| kkbd ::= (λ k, k <| getChar := l |>) |>).

Definition set_keyInt (v : Z) : K kstate unit :=
  kmod (λ s, s <| kscr ::= (λ c, c <| keyInt := v |>) |>).

Definition keyboard_init : K kstate unit :=
  _ ← on_io (
    fl ← cli_and_save;
    v ← inb KB_STAT;
    let check := Z.land v 0x01 in
    _ ← (if bool_decide (check = 0) then
          _ ← outb RD_CMD KB_STAT;
          curCmd ← inb KB_PORT;
          _ ← outb WRT_CMD KB_STAT;
          outb (Z.lor curCmd SET_BITS) KB_PORT
        else mret tt);
    _ ← enable_irq KB_IR_LINE;
    restore_flags fl);
  set_keyInt 0.

(** One character typed: [insert], then the echo. *)
Definition type_letter (letter : Z) : K kstate unit :=
  n ← insert (u8 letter);
  if bool_decide (n < 128) then
    _ ← set_keyInt 1;
    _ ← printf (chars "%c") [letter];
    _ ← set_keyInt 0;
    _ ← updatecursor;
    kmod (λ s, s <| kkbd ::= (λ k, k <| back ::= (λ b, s32 (b + 1)) |>) |>)
  else mret tt.

(** ** Switching terminals *)

Definition save_screen (currentTerminal : Z) : K mem unit :=
  for_loop (Z.to_nat (NUM_ROWS * NUM_COLS)) 0 (λ i,
    c ← load8 (VIDEO + Z.shiftl i 1);
    store8 (VIDEO_TERM + VIDEO_OFFSET * currentTerminal + Z.shiftl i 1) c).
Definition show_screen (newScreen : Z) : K mem unit :=
  for_loop (Z.to_nat (NUM_ROWS * NUM_COLS)) 0 (λ i,
    c ← load8 (VIDEO_TERM + VIDEO_OFFSET * newScreen + Z.shiftl i 1);
    _ ← store8 (VIDEO + Z.shiftl i 1) c;
    store8 (VIDEO + Z.shiftl i 1 + 1) ATTRIB).

Definition set_currentTerminal (t : Z) : K kstate unit :=
  kmod (λ s, s <| kscr ::= (λ c, c <| currentTerminal := t |>) |>).

(** The three cases of the second [switch] differ in the terminal [n] and
    its bit. *)
Definition show_terminal (n bit : Z) : K kstate ctl :=
  b ← getBitMap;
  c ← kget kscr;
  let shell := bool_decide (Z.land (numShells c) bit ≠ 0) in
  if bool_decide (b = 0x3F) && negb shell then mret (Return 0)
  else
    r ← (if shell then mret (Return 0)
        else
          _ ← kmod (λ s, s <| kscr ::= (λ c, c <| numShells ::= (λ v, s8 (Z.lor v bit)) |>) |>);
          _ ← on_io (send_eoi KB_IR_LINE);
          _ ← set_currentTerminal n;
          _ ← clear;
          _ ← set_whichTerm bit;
          sys_execute L_shell_nl);
    match r with
    | Return _ =>
        _ ← on_mem (show_screen n);
        _ ← set_currentTerminal n;
        _ ← updatecursor;
        mret (Return 0)
    | _ => mret r
    end.

Definition msg_already (n : Z) : list Z :=
  newline ++ chars "Already in terminal " ++ [48 + n] ++ newline ++ chars "391OS> ".
Definition msg_mess : list Z := newline ++ chars "How did you mess up that badly?!" ++ newline.
Definition msg_different : list Z := chars "How do you have a different Terminal".
Definition msg_higher : list Z := chars "How did you get a higher terminal".

Definition screenChange (newScreen : Z) : K kstate ctl :=
  t ← whatTerm;
  if bool_decide (newScreen = t) then
    if bool_decide (1 ≤ newScreen ≤ 3) then
      _ ← printf (msg_already newScreen) [];
      _ ← clearbuf; _ ← updatecursor; mret (Return 0)
    else _ ← printf msg_mess []; _ ← updatecursor; mret (Return 0)
  else
    _ ← (if bool_decide (1 ≤ t ≤ 3) then on_mem (save_screen t)
        else _ ← printf msg_different []; mret tt);
    if bool_decide (newScreen = 1) then show_terminal 1 0x01
    else if bool_decide (newScreen = 2) then show_terminal 2 0x02
    else if bool_decide (newScreen = 3) then show_terminal 3 0x04
    else _ ← printf msg_higher []; mret (Return 0).

(** ** The handler *)

(** [busy] bounds the loops that wait for a key, [polls] those that wait for
    the keyboard to have a byte. *)
Section handler.
Context (busy polls : nat).

(** [while(inb(KB_PORT)!=0x9D){}] *)
Fixpoint wait_port (fuel : nat) (v : Z) : K kstate unit :=
  match fuel with
  | O => kspin
  | S fuel' =>
      c ← on_io (inb KB_PORT);
      if bool_decide (c ≠ v) then wait_port fuel' v else mret tt
  end.

(** The loops while a shift key is down, [up] being its release code; with
    caps lock off and on. *)
Fixpoint shift_loop (fuel : nat) (up : Z) : K kstate unit :=
  match fuel with
  | O => kspin
  | S fuel' =>
      c ← on_io (inb KB_PORT);
      if bool_decide (c ≠ up) then
        _ ← poll_make polls;
        scancode ← on_io (inb KB_PORT);
        if bool_decide (scancode = up) then mret tt
        else
          letter ← scan2Let scancode;
          _ ← (if bool_decide (scancode < SCANLIMIT) then
                if bool_decide (letter > LOWERLET) && bool_decide (letter < UPPERLET)
                then type_letter (letter - CAPCHANGE)
                else type_letter (getShift letter)
              else mret tt);
          shift_loop fuel' up
      else mret tt
  end.
Fixpoint shift_caps_loop (fuel : nat) (up : Z) : K kstate unit :=
  match fuel with
  | O => kspin
  | S fuel' =>
      c ← on_io (inb KB_PORT);
      if bool_decide (c ≠ up) then
        _ ← poll_make polls;
        c ← on_io (inb KB_PORT);
        if bool_decide (c = up) then mret tt
        else
          scancode ← on_io (inb KB_PORT);
          letter ← scan2Let scancode;
          _ ← (if bool_decide (scancode < SCANLIMIT) then
                if bool_decide (letter > LOWERLET) && bool_decide (letter < UPPERLET)
                then type_letter letter
                else type_letter (getShift letter)
              else mret tt);
          shift_caps_loop fuel' up
      else mret tt
  end.

(** A key that is not special: the branch under [!(check&MAKE)]. *)
Definition plain_key (scancode letter : Z) : K kstate unit :=
  caps ← scan2Let CAPS;
  if bool_decide (caps = 0) then
    if bool_decide (letter = LSHFT) then shift_loop busy LUSHFT
    else if bool_decide (letter = RSHFT) then shift_loop busy RUSHFT
    else type_letter letter
  else
    if bool_decide (letter = LSHFT) then shift_caps_loop busy LUSHFT
    else if bool_decide (letter = RSHFT) then shift_caps_loop busy RUSHFT
    else if bool_decide (letter > LOWERLET) && bool_decide (letter < UPPERLET)
    then type_letter (letter - CAPCHANGE)
    else type_letter letter.

Definition keyboard_handler : K kstate ctl :=
  scancode ← on_io (inb KB_PORT);
  let check := Z.shiftr scancode 7 in
  letter ← scan2Let scancode;
  r ← (if bool_decide (letter = 0xFF) then mret (Return 0)
      else if bool_decide (scancode = CAPS) && bool_decide (letter = 0x00) then
        _ ← setCaps 0x01; mret (Return 0)
      else if bool_decide (scancode = CAPS) && bool_decide (letter = 0x01) then
        _ ← setCaps 0x00; mret (Return 0)
      else if bool_decide (scancode = CNTRL) then
        _ ← poll_make polls;
        c ← on_io (inb KB_PORT);
        _ ← (if bool_decide (c = CLR) then
              _ ← wait_port busy 0x9D;
              _ ← clear;
              _ ← clearbuf;
              updatecursor
            else mret tt);
        mret (Return 0)
      else if bool_decide (scancode = ALT) then
        _ ← poll_make polls;
        scancode ← on_io (inb KB_PORT);
        if bool_decide (scancode = F1) then screenChange 1
        else if bool_decide (scancode = F2) then screenChange 2
        else if bool_decide (scancode = F3) then screenChange 3
        else mret (Return 0)
      else if bool_decide (scancode = BKSP) then
        i ← backspacebuf;
        _ ← (if bool_decide (i > -1) then _ ← backspace; updatecursor else mret tt);
        mret (Return 0)
      else if bool_decide (Z.land check MAKE = 0) then
        _ ← plain_key scancode letter; mret (Return 0)
      else mret (Return 0));
  match r with
  | Return _ => _ ← on_io (send_eoi KB_IR_LINE); mret (Return 0)
  | _ => mret r
  end.
End handler.
End keyboard.
