(* ===== verification/Schedule.v ===== *)
(** * Scheduling ([schedule.c], the handler of [pit.c])

    Round robin over the six process numbers: the next one that is in use
    and whose process has no child. *)

From S2P Require Import Prelude CInt Memory CString State I8259 Paging Pit Process.

Section schedule.
Context `{Device} `{Layout}.

(** The [while] loop; the six process numbers come round within six steps. *)
Fixpoint next_proc (fuel : nat) (activeTerminals : Z) : K kstate unit :=
  match fuel with
  | O => kspin
  | S fuel' =>
      p ← kget kproc;
      idle ← (if bool_decide (Z.land activeTerminals (Z.shiftl 1 (curProc p)) = 0) then mret true
             else b ← cur_pcb; mret (bool_decide (child_pid b ≠ -1)));
      if (idle : bool) then
        _ ← mod_proc (λ p, p <| curProc ::= (λ c, if bool_decide (c + 1 = 6) then 0 else c + 1) |>);
        _ ← mod_proc (λ p, p <| pcb := PCB_ADDR (curProc p) |>);
        next_proc fuel' activeTerminals
      else mret tt
  end.

Definition schedule : K kstate unit :=
  activeTerminals ← getBitMap;
  p ← kget kproc;
  let old_pcb := pcb p in
  _ ← mod_proc (λ p, p <| pcb := PCB_ADDR (curProc p) |>);
  _ ← next_proc 7 activeTerminals;
  _ ← mod_proc (λ p, p <| curProc ::= (λ c, if bool_decide (c = 5) then 0 else c + 1) |>);
  p ← kget kproc;
  c ← kget kcpu;
  let save := λ b, (b <| esp_schedule := esp c |>) <| ebp_schedule := ebp c |> in
  if bool_decide (old_pcb = pcb p) then pcb_mod old_pcb save
  else
    b ← cur_pcb;
    _ ← pcb_mod old_pcb save;
    _ ← mod_cpu (λ c, (c <| esp := esp_schedule b |>) <| ebp := ebp_schedule b |>);
    _ ← update_paging (pid b);
    _ ← mod_cpu (λ c, (c <| tss_esp0 := KERNEL_STACK_BASE - pid b * TASK_STACK_SIZE |>)
          <| tss_ss0 := KERNEL_DS |>);
    on_io (send_eoi PIT_IRQ_LINE).

Definition pit_handler : K kstate unit :=
  b ← getBitMap;
  _ ← (if bool_decide (b ≠ 0) then schedule else mret tt);
  on_io (send_eoi PIT_IRQ_LINE).
End schedule.
