(* ===== verification/Syscalls.v ===== *)
(** * System calls ([syscalls.c], the dispatcher of [idt.S]) *)

From S2P Require Import Prelude CInt Memory CString State I8259 Screen Printf Rtc Paging.
From S2P Require Import FS ExecHelper Process Terminal.

Definition PROG_PAGE_SIZE := 0x400000.

Section syscalls.
Context `{Device} `{Layout}.
(** Interrupts while a call waits, the bounds of its busy waits, and the
    uninitialised local of [tRead]. *)
Context (handler : irq → K kstate unit) (busy polls : nat) (scancode : Z).

(** The calls through [fops_table]. *)
Definition fops_read (t : fops) (fd buf nbytes : Z) : K kstate Z :=
  match t with
  | fops_rtc => rtc_read handler fd buf nbytes
  | fops_dir => dir_read fd buf nbytes
  | fops_file => reg_file_read fd buf nbytes
  | fops_term => tRead handler busy polls scancode fd buf nbytes
  end.
Definition fops_write (t : fops) (fd buf nbytes : Z) : K kstate Z :=
  match t with
  | fops_rtc => rtc_write fd buf nbytes
  | fops_dir => dir_write fd buf nbytes
  | fops_file => reg_file_write fd buf nbytes
  | fops_term => tWrite fd buf nbytes
  end.
Definition fops_close (t : fops) (fd : Z) : K kstate Z :=
  match t with
  | fops_rtc => rtc_close fd
  | fops_dir => dir_close fd
  | fops_file => reg_file_close fd
  | fops_term => tClose fd
  end.

(** The first descriptor from [i] on that is closed; none before the last. *)
Fixpoint find_fd (fuel : nat) (i : Z) : K kstate (option Z) :=
  match fuel with
  | O => kspin
  | S fuel' =>
      f ← cur_file i;
      if bool_decide (flags f ≠ CLOSE) then
        if bool_decide (MAX_OPEN_FILES - 1 ≤ i) then mret None else find_fd fuel' (i + 1)
      else mret (Some i)
  end.

Definition sys_open (filename : Z) : K kstate Z :=
  fd ← find_fd (Z.to_nat MAX_OPEN_FILES) 2;
  match fd with
  | None => mret (-1)
  | Some i =>
      bb ← kget bblock;
      r ← on_mem (read_dentry_by_name bb filename L_open_file);
      if bool_decide (r = -1) then mret (-1)
      else
        c ← on_mem (strncmp filename L_terminal 8);
        _ ← (if bool_decide (c = 0)
            then on_mem (store32 (d_file_type L_open_file) TYPE_TERM) else mret tt);
        file_type ← on_mem (load32 (d_file_type L_open_file));
        _ ← (if bool_decide (file_type = TYPE_DIR) then
              mod_file i (λ _, Mk_file_struct_t (Some fops_dir) DIR_INODE DIR_POS
                                 (Z.lor OPEN TYPE_DIR))
            else if bool_decide (file_type = TYPE_FILE) then
              inode_num ← on_mem (load32 (d_inode_num L_open_file));
              mod_file i (λ _, Mk_file_struct_t (Some fops_file) (s32 inode_num) FILE_POS
                                 (Z.lor OPEN TYPE_FILE))
            else if bool_decide (file_type = TYPE_RTC) then
              mod_file i (λ _, Mk_file_struct_t (Some fops_rtc) 0 0 (Z.lor OPEN TYPE_RTC))
            else if bool_decide (file_type = TYPE_TERM) then
              mod_file i (λ _, Mk_file_struct_t (Some fops_term) 0 0 (Z.lor OPEN TYPE_TERM))
            else mret tt);
        mret i
  end.

Definition sys_read (fd buf nbytes : Z) : K kstate Z :=
  if bool_decide (fd = 0) || (bool_decide (2 ≤ fd) && bool_decide (fd < 8)) then
    f ← cur_file fd;
    if bool_decide (Z.land (flags f) OPEN ≠ 0) then
      t ← klift (fops_table f); fops_read t fd buf nbytes
    else mret (-1)
  else mret (-1).

Definition sys_write (fd buf nbytes : Z) : K kstate Z :=
  if bool_decide (1 ≤ fd) && bool_decide (fd < 8) then
    f ← cur_file fd;
    if bool_decide (Z.land (flags f) OPEN ≠ 0) then
      t ← klift (fops_table f); fops_write t fd buf nbytes
    else mret (-1)
  else mret (-1).

Definition sys_close (fd : Z) : K kstate Z :=
  if bool_decide (2 ≤ fd) && bool_decide (fd < 8) then
    f ← cur_file fd;
    if bool_decide (Z.land (flags f) OPEN ≠ 0) then
      _ ← mod_file fd (λ f, f <| flags := CLOSE |>);
      t ← klift (fops_table f); fops_close t fd
    else mret (-1)
  else mret (-1).

(** [arg_length > nbytes] compares unsigned numbers. *)
Definition sys_getargs (buf nbytes : Z) : K kstate Z :=
  if bool_decide (buf = 0) then mret (-1)
  else
    bufSize ← on_mem (strlen buf);
    _ ← on_mem (zero_array buf (s32 bufSize));
    b ← cur_pcb;
    let arg := arguments b in
    arg_length ← on_mem (strlen arg);
    if bool_decide (arg_length > u32 nbytes) then mret (-1)
    else if bool_decide (arg_length = 0) then mret (-1)
    else _ ← on_mem (strncpy buf arg arg_length); mret 0.

Definition vidmap (screen_start : Z) : K kstate Z :=
  if bool_decide (u32 screen_start < PROG_VIR_ADDR_START)
     || bool_decide (PROG_VIR_ADDR_START + PROG_PAGE_SIZE ≤ u32 screen_start)
  then mret (-1)
  else
    _ ← on_mem (store32 screen_start (PROG_VIR_ADDR_START + PROG_PAGE_SIZE));
    _ ← add_vidmap (PROG_VIR_ADDR_START + PROG_PAGE_SIZE);
    mret 0.

Definition set_handler (signum handler_address : Z) : K kstate Z := mret (-1).
Definition sigreturn : K kstate Z := mret (-1).

(** The function that the table has for a number from 1 to 10, on its
    arguments. *)
Definition syscall_dispatch (eax ebx ecx edx : Z) : K kstate ctl :=
  let call := λ c : K kstate Z, r ← c; mret (Return r) in
  if bool_decide (eax = 1) then sys_halt ebx
  else if bool_decide (eax = 2) then sys_execute ebx
  else if bool_decide (eax = 3) then call (sys_read (s32 ebx) ecx (s32 edx))
  else if bool_decide (eax = 4) then call (sys_write (s32 ebx) ecx (s32 edx))
  else if bool_decide (eax = 5) then call (sys_open ebx)
  else if bool_decide (eax = 6) then call (sys_close (s32 ebx))
  else if bool_decide (eax = 7) then call (sys_getargs ebx (s32 ecx))
  else if bool_decide (eax = 8) then call (vidmap ebx)
  else if bool_decide (eax = 9) then call (set_handler (s32 ebx) ecx)
  else call sigreturn.

(** [syscall_handler]: the number in [eax], the arguments in [ebx], [ecx],
    [edx]. The processor has loaded the stack of the TSS. *)
Definition syscall_handler (eax ebx ecx edx : Z) : K kstate ctl :=
  _ ← mod_cpu (λ c, c <| esp := tss_esp0 c |>);
  if bool_decide (s32 eax < 1) || bool_decide (s32 eax > 10) then mret (Return (-1))
  else syscall_dispatch eax ebx ecx edx.

(** [exception_user_program]: the exceptions end the program with 256. *)
Definition exception_user_program : K kstate ctl :=
  _ ← mod_cpu (λ c, c <| esp := tss_esp0 c |>); sys_halt 256.
End syscalls.
