(* ===== verification/Boot.v ===== *)
(** * Boot ([entry] of [kernel.c], the descriptors of [x86_desc.h],
    [print_exceptions] of [lib.c])

    The descriptor tables, and the parts of [entry] that set up the kernel:
    descriptors, devices, paging, timer, the file system module and the first
    shell. The whole of it is in [Entry]. *)

From S2P Require Import Prelude CInt Memory CString State I8259 Screen Printf Rtc Pit.
From S2P Require Import Paging Process Keyboard.

Definition KERNEL_CS := 0x10.
Definition KERNEL_LDT := 0x38.
Definition TSS_SIZE := 104.
Definition NUM_VEC := 256.
Definition MULTIBOOT_BOOTLOADER_MAGIC := 0x2BADB002.

(** ** Descriptors *)

(** [seg_desc_t] *)
Record seg_desc_t : Type := Mk_seg_desc_t {
  seg_lim_15_00 : Z; base_15_00 : Z; base_23_16 : Z; seg_type : Z; seg_sys : Z; seg_dpl : Z;
  seg_present : Z; seg_lim_19_16 : Z; seg_avail : Z; seg_reserved : Z; seg_opsize : Z;
  seg_granularity : Z; base_31_24 : Z;
}.

(** [SET_LDT_PARAMS] and [SET_TSS_PARAMS], which are the same. The limit
    bits 19 to 16 go to a field of four bits. *)
Definition set_seg_params (d : seg_desc_t) (addr lim : Z) : seg_desc_t :=
  Mk_seg_desc_t (Z.land lim 0xFFFF) (Z.land addr 0xFFFF)
    (Z.shiftr (Z.land addr 0xFF0000) 16) (seg_type d) (seg_sys d) (seg_dpl d)
    (seg_present d) (Z.land (Z.shiftr (Z.land lim 0xF0000) 16) 0xF) (seg_avail d)
    (seg_reserved d) (seg_opsize d) (seg_granularity d)
    (Z.shiftr (Z.land addr 0xFF000000) 24).

(** The entries [entry] makes for the LDT and the TSS. *)
Definition the_ldt_desc (ldt ldt_size : Z) : seg_desc_t :=
  set_seg_params (Mk_seg_desc_t 0 0 0 0x2 0 0 1 0 0 0 1 0 0) ldt ldt_size.
Definition the_tss_desc (tss tss_size : Z) : seg_desc_t :=
  set_seg_params
    (Mk_seg_desc_t (Z.land TSS_SIZE 0xFFFF) 0 0 0x9 0 0 1
       (Z.land (Z.land TSS_SIZE 0xF0000) 0xF) 0 0 0 0 0) tss tss_size.

(** The eight bytes of a descriptor, and the base and limit the processor
    takes from them. *)
Definition seg_bytes (d : seg_desc_t) : list Z :=
  [ u8 (seg_lim_15_00 d); u8 (Z.shiftr (seg_lim_15_00 d) 8);
    u8 (base_15_00 d); u8 (Z.shiftr (base_15_00 d) 8); u8 (base_23_16 d);
    seg_type d + 16 * seg_sys d + 32 * seg_dpl d + 128 * seg_present d;
    seg_lim_19_16 d + 16 * seg_avail d + 32 * seg_reserved d + 64 * seg_opsize d
      + 128 * seg_granularity d;
    u8 (base_31_24 d) ].
Definition seg_base (bs : list Z) : option Z :=
  match bs with
  | [_; _; b0; b1; b2; _; _; b3] => Some (of_le32 b0 b1 b2 b3)
  | _ => None
  end.
Definition seg_limit (bs : list Z) : option Z :=
  match bs with
  | [l0; l1; _; _; _; _; l2; _] => Some (of_le32 l0 l1 (Z.land l2 0xF) 0)
  | _ => None
  end.

(** [idt_desc_t] *)
Record idt_desc_t : Type := Mk_idt_desc_t {
  offset_15_00 : Z; seg_selector : Z; reserved4 : Z; reserved3 : Z; reserved2 : Z;
  reserved1 : Z; size_bit : Z; reserved0 : Z; dpl : Z; present : Z; offset_31_16 : Z;
}.
Definition idt_zero : idt_desc_t := Mk_idt_desc_t 0 0 0 0 0 0 0 0 0 0 0.
(** A gate but for its offset. *)
Definition gate (r3 d : Z) (e : idt_desc_t) : idt_desc_t :=
  Mk_idt_desc_t (offset_15_00 e) KERNEL_CS 0 r3 1 1 1 0 d 1 (offset_31_16 e).
Definition SET_IDT_ENTRY (handler : Z) (e : idt_desc_t) : idt_desc_t :=
  Mk_idt_desc_t (Z.land handler 0xFFFF) (seg_selector e) (reserved4 e) (reserved3 e)
    (reserved2 e) (reserved1 e) (size_bit e) (reserved0 e) (dpl e) (present e)
    (Z.shiftr (Z.land handler 0xFFFF0000) 16).

Definition idt_bytes (e : idt_desc_t) : list Z :=
  [ u8 (offset_15_00 e); u8 (Z.shiftr (offset_15_00 e) 8);
    u8 (seg_selector e); u8 (Z.shiftr (seg_selector e) 8); reserved4 e;
    reserved3 e + 2 * reserved2 e + 4 * reserved1 e + 8 * size_bit e + 16 * reserved0 e
      + 32 * dpl e + 128 * present e;
    u8 (offset_31_16 e); u8 (Z.shiftr (offset_31_16 e) 8) ].

(** A gate as the processor reads it: offset, selector, type (14 for an
    interrupt gate, 15 for a trap gate) and privilege level. *)
Record gate_t : Type := Mk_gate { g_offset : Z; g_selector : Z; g_type : Z; g_dpl : Z }.
Definition decode_gate (bs : list Z) : option gate_t :=
  match bs with
  | [o0; o1; s0; s1; _; attr; o2; o3] =>
      if Z.testbit attr 7 then
        Some (Mk_gate (of_le32 o0 o1 o2 o3) (s0 + 2 ^ 8 * s1) (attr mod 32) (attr / 32 mod 4))
      else None
  | _ => None
  end.

(** The addresses of the entry points of [idt.S]. *)
Class Handlers := {
  exception_print : Z → Z;   (* [exception_print0] to [exception_print19] *)
  exception_print_general : Z;
  exception_user_program_entry : Z;
  pit_handler_wrapper : Z;
  keyboard_handler_wrapper : Z;
  rtc_handler_wrapper : Z;
  syscall_handler_entry : Z;
}.

Section idt.
Context `{Handlers}.

Definition mod_idt (i : Z) (f : idt_desc_t → idt_desc_t) : K (list idt_desc_t) unit := λ t,
  match (e ← zlookup t i; zupdate t i (f e)) with
  | Some t' => Ok (tt, t')
  | None => Fault
  end.

(** The vectors with an entry of their own: 0 to 19 without 15. *)
Definition own_vectors : list Z := seqZ 0 15 ++ seqZ 16 4.
Fixpoint for_each (l : list Z) (body : Z → K (list idt_desc_t) unit) : K (list idt_desc_t) unit :=
  match l with
  | [] => mret tt
  | i :: l' => _ ← body i; for_each l' body
  end.

Definition setup_idt : K (list idt_desc_t) unit :=
  _ ← for_loop 32 0 (λ i, mod_idt i (gate 0 0));
  _ ← for_each own_vectors (λ i, mod_idt i (SET_IDT_ENTRY (exception_print i)));
  _ ← mod_idt 15 (SET_IDT_ENTRY exception_print_general);
  _ ← for_loop 12 20 (λ i, mod_idt i (SET_IDT_ENTRY exception_print_general));
  _ ← mod_idt 0x20 (gate 0 0);
  _ ← mod_idt 0x20 (SET_IDT_ENTRY pit_handler_wrapper);
  _ ← mod_idt 0x21 (gate 0 0);
  _ ← mod_idt 0x21 (SET_IDT_ENTRY keyboard_handler_wrapper);
  _ ← mod_idt 0x28 (gate 0 0);
  _ ← mod_idt 0x28 (SET_IDT_ENTRY rtc_handler_wrapper);
  _ ← mod_idt 0x80 (gate 1 3);
  mod_idt 0x80 (SET_IDT_ENTRY syscall_handler_entry).

(** Later [entry] sends the exceptions to [exception_user_program]. *)
Definition squash_exceptions : K (list idt_desc_t) unit :=
  for_each own_vectors (λ i, mod_idt i (SET_IDT_ENTRY exception_user_program_entry)).
End idt.

(** ** Exceptions *)

Definition exception_name (num : Z) : list Z :=
  if bool_decide (num = 0) then chars "divide-by-zero"
  else if bool_decide (num = 1) then chars "debug"
  else if bool_decide (num = 2) then chars "NMI"
  else if bool_decide (num = 3) then chars "breakpoint"
  else if bool_decide (num = 4) then chars "overflow"
  else if bool_decide (num = 5) then chars "bound range exceeded"
  else if bool_decide (num = 6) then chars "invalid opcode"
  else if bool_decide (num = 7) then chars "device not availble"
  else if bool_decide (num = 8) then chars "double fault"
  else if bool_decide (num = 9) then chars "coproccssor segment overrun"
  else if bool_decide (num = 10) then chars "invalid tss"
  else if bool_decide (num = 11) then chars "segment not present"
  else if bool_decide (num = 12) then chars "stack segment falut"
  else if bool_decide (num = 13) then chars "general protection fault"
  else if bool_decide (num = 14) then chars "page_fault"
  else if bool_decide (num = 16) then chars "x87 floating point exception"
  else if bool_decide (num = 17) then chars "alignment check"
  else if bool_decide (num = 18) then chars "machine check"
  else if bool_decide (num = 19) then chars "SIMD floating point exceptions"
  else chars "reserved fault".

Section entry.
Context `{Device} `{Layout}.

Definition print_exceptions (num : Z) : K kstate unit :=
  _ ← clear;
  _ ← printf (chars "exceptions %d is called: " ++ exception_name num ++ newline) [num];
  mret tt.

(** The devices and paging, in the order of [entry]. *)
Definition init_devices : K kstate unit :=
  _ ← on_io i8259_init;
  _ ← rtc_init;
  _ ← on_io pit_init;
  _ ← keyboard_init;
  _ ← zoom kpage initilize_paging;
  on_io sti.

(** From the timer on; [mbi] is the multiboot structure. The interrupt table
    changes in between. *)
Definition set_timer_and_image (mbi : Z) : K kstate unit :=
  _ ← on_io (pit_set_freq 0 PIT_FREQ_SCHEDULE);
  mods_addr ← on_mem (load32 (mbi + 24));
  mod_start ← on_mem (load32 mods_addr);
  kmod (λ s, s <| bblock := mod_start |>).
(** The last two calls. *)
Definition start_shell : K kstate ctl :=
  _ ← set_whichTerm 0x01;
  sys_execute L_shell_nl.
Definition first_shell : K kstate ctl :=
  _ ← clear;
  start_shell.
End entry.

(** ** The variables as they are loaded

    The initialisers of the C files; what has none is in [.bss], zero. The
    control blocks are not variables but places in the kernel's stack area,
    which nothing has written: they are taken as zeros, six of them. *)
Definition pcb_zero : pcb_t :=
  Mk_pcb_t (replicate 8 (Mk_file_struct_t None 0 0 0)) 0 0 0 0 0 0 0 0 0 0 0 0.
Definition pcbs_zero : gmap Z pcb_t :=
  list_to_map ((λ j, (PCB_ADDR j, pcb_zero)) <$> seqZ 0 6).
Record as_loaded (k : kstate) : Prop := {
  al_scr : kscr k = Mk_screen_t [0; 0; 0] [0; 0; 0] 0 0 0 0;
  al_term : kterm k = Mk_term_t [0; 0; 0] 1;
  al_kbd : kkbd k = Mk_kbd_t getChar_init 0;
  al_rtc : krtc k = Mk_rtc_t 0 0 0;
  al_proc : kproc k = Mk_proc_t 0 pcbs_zero 0 0 0 0 0;
  al_tables : page_dir (kpage k) = replicate 6 (replicate 1024 0) ∧
    page_table_0 (kpage k) = replicate 1024 0 ∧ page_table_vidmap (kpage k) = replicate 1024 0 ∧
    page_table_term (kpage k) = replicate 1024 0;
  al_unpaged : Z.testbit (cr0 (kpage k)) 31 = false;
}.

(** A state that differs in the memory and the cursors only: the screen calls
    of [entry] leave such a one, if they come back. *)
Definition reported (k k' : kstate) : Prop := ∃ m x y,
  k' = (k <| kmem := m |>) <| kscr ::= λ c, (c <| screen_x := x |>) <| screen_y := y |> |>.
