(* ===== verification/Example.v ===== *)
(** * A concrete kernel

    A layout, a device and a kernel state with a small file system image, on
    which the hypotheses of the properties are checked. *)

From S2P Require Import Prelude CInt Memory CString State I8259 Screen Printf Paging.
From S2P Require Import PagingInit Translate FS FSSpec Process Terminal Keyboard.

(** The kernel's data from 5 MB on; the frames of [sys_execute] below their
    stack pointer. *)
#[global] Instance ex_layout : Layout := {|
  L_conv_buf := 0x500000; L_open_file := 0x500100; L_exe_prog := 0x500200;
  L_elf := 0x500300; L_rtc_buf := 0x500310;
  L_cmd := λ esp, esp - 0x1000; L_args := λ esp, esp - 0xB00;
  L_prog := λ esp, esp - 0xA00; L_prog_img := λ esp, esp - 0x60000;
  L_empty := 0x500400; L_terminal := 0x500410; L_shell := 0x500420; L_shell_nl := 0x500430;
  L_tbuf := 0x500500;
  L_page_dir := λ pid, 0x510000 + 0x1000 * pid;
  L_page_table_0 := 0x520000; L_page_table_vidmap := 0x521000; L_page_table_term := 0x522000;
  L_after_getChar := λ _, 0;
|}.

(** Mask registers that read back; every other port reads [v]. *)
Definition ex_device (v : Z) : Device := λ tr p,
  if bool_decide (p = MASTER_PORT_DATA ∨ p = SLAVE_PORT_DATA) then last_out 0 tr p else v.
#[global] Instance ex_imr v : ImrDevice (ex_device v).
Proof. intros tr p Hp. unfold ex_device. by rewrite bool_decide_eq_true_2. Qed.

(** An image with the files "." (the directory), "rtc", "shell" (a program)
    and "frame0" (text). *)
Definition ex_name (s : list Z) : list Z := s ++ replicate (32 - length s) 0.
Definition ex_shell_bytes : list Z :=
  [0x7F; 69; 76; 70] ++ replicate 20 1 ++ le32 0x8048094 ++ replicate 12 2.
Definition ex_text : list Z := chars "fish frame text".
Definition ex_block (l : list Z) : list Z := l ++ replicate (4096 - length l) 0.
Definition ex_inode (len b : Z) : inode_a := Mk_inode_a len (b :: replicate 1022 0).
Definition ex_image : image := {|
  entries := [ Mk_entry (ex_name (chars ".")) 1 0;
               Mk_entry (ex_name (chars "rtc")) 0 0;
               Mk_entry (ex_name (chars "shell")) 2 1;
               Mk_entry (ex_name (chars "frame0")) 2 2 ];
  inodes := [ ex_inode 0 0; ex_inode 40 1; ex_inode 15 2 ];
  blocks := [ replicate 4096 9; ex_block ex_shell_bytes; ex_block ex_text ];
|}.
Definition ex_bblock := 0x600000.

(** The bytes of an image, block by block. *)
Definition image_bytes (img : image) : list Z :=
  ex_block (le32 (Z.of_nat (length (entries img))) ++ le32 (n_inodes img) ++
    replicate 56 0 ++ (entries img ≫= λ e, entry_bytes e ++ replicate 24 0)) ++
  (inodes img ≫= inode_bytes) ++ mjoin (blocks img).

Definition ex_esp := 0x7FFF00.
(** A blank screen of characters with attributes. *)
Definition ex_screen (c : Z) : list Z := cell_bytes (replicate 2000 c).
Definition ex_mem_blocks : list (Z * list Z) := [
  (VIDEO, ex_screen 32);
  (VIDEO_TERM + VIDEO_OFFSET * 1, ex_screen 97);
  (VIDEO_TERM + VIDEO_OFFSET * 2, ex_screen 98);
  (VIDEO_TERM + VIDEO_OFFSET * 3, ex_screen 99);
  (0x500000, replicate 1024 5);
  (0x500400, [0]); (0x500410, chars "terminal" ++ [0]);
  (0x500420, chars "shell" ++ [0]); (0x500430, chars "shell" ++ newline ++ [0]);
  (0x5004F0, replicate 16 0); (0x500500, replicate 384 0);
  (ex_bblock, image_bytes ex_image);
  (ex_esp - 0x1000, replicate 0x1000 6);
  (ex_esp - 0x60000, replicate 64 7) ].
Definition ex_mem : mem := mem_of ex_mem_blocks.

Definition ex_file : file_struct_t := Mk_file_struct_t None 0 0 0.
Definition ex_term_file : file_struct_t := Mk_file_struct_t (Some fops_term) 0 0 (Z.lor TYPE_TERM OPEN).
Definition ex_pcb (term p parent child : Z) : pcb_t :=
  Mk_pcb_t (ex_term_file :: ex_term_file :: replicate 6 ex_file) term child p 0 0 0 0
    parent 0 0 0 (L_args ex_esp).
(** Process 0 is the shell of terminal 1 and runs; the other control blocks
    are not in use. [shown] is the displayed terminal. *)
Definition ex_pcbs : gmap Z pcb_t :=
  list_to_map ((PCB_ADDR 0, ex_pcb 1 0 (-1) (-1)) ::
    ((λ i, (PCB_ADDR i, ex_pcb 0 0 0 0)) <$> seqZ 1 5)).
Definition ex_pages : page_t :=
  Mk_page_t (replicate 6 (replicate 1024 2)) (replicate 1024 0) (replicate 1024 0)
    (replicate 1024 0) 0 0 0.
Definition ex_state (shown : Z) : kstate :=
  Mk_kstate ex_mem (Mk_io_t [] true)
    (Mk_screen_t [0; 0; 0] [0; 0; 0] shown 1 0 0)
    (Mk_term_t [0; 0; 0] 1) (Mk_kbd_t getChar_init 0) (Mk_rtc_t 0 0 2)
    (Mk_proc_t (PCB_ADDR 0) ex_pcbs 1 1 0 0 1)
    ex_pages (Mk_cpu_t ex_esp (ex_esp + 64) KERNEL_STACK_BASE KERNEL_DS 0) ∅
    ex_bblock [].

(** The terminals it shows. *)
Definition ex_tty (c : Z) : tty := Mk_tty (replicate 2000 c) 0 0.
#[global] Instance tty_ok_dec v : Decision (tty_ok v).
Proof. unfold tty_ok, is_u8. apply _. Defined.
#[global] Instance screen_at_dec m base cs : Decision (screen_at m base cs).
Proof. unfold screen_at. apply _. Defined.
#[global] Instance tty_at_dec s t v : Decision (tty_at s t v).
Proof. unfold tty_at. apply _. Defined.

(** ** Deciding that a memory shows an image *)
#[global] Instance entry_ok_dec e : Decision (entry_ok e).
Proof. unfold entry_ok, is_u8, is_u32. apply _. Defined.
#[global] Instance inode_ok_dec img x : Decision (inode_ok img x).
Proof. unfold inode_ok, is_u32. apply _. Defined.
#[global] Instance block_ok_dec b : Decision (block_ok b).
Proof. unfold block_ok, is_u8. apply _. Defined.

Definition image_check (m : mem) (bb : Z) (img : image) : Prop :=
  (Forall entry_ok (entries img) ∧ (length (entries img) ≤ 62)%nat ∧
   Forall (inode_ok img) (inodes img) ∧ Forall block_ok (blocks img)) ∧
  (0 ≤ bb ∧ bb + image_size img < 2 ^ 32) ∧
  bytes_at m (bb + 4) (le32 (n_inodes img)) ∧
  Forall (λ p, bytes_at m (bb_dentry bb (Z.of_nat p.1)) (entry_bytes p.2))
    (imap pair (entries img)) ∧
  m !! bb_dentry bb (Z.of_nat (length (entries img))) = Some 0 ∧
  Forall (λ p, bytes_at m (bb + 4096 * (1 + Z.of_nat p.1)) (inode_bytes p.2))
    (imap pair (inodes img)) ∧
  Forall (λ p, bytes_at m (bb + 4096 * (1 + n_inodes img + Z.of_nat p.1)) p.2)
    (imap pair (blocks img)).
#[global] Instance image_check_dec m bb img : Decision (image_check m bb img).
Proof. unfold image_check. apply _. Defined.

Lemma imap_pair_lookup {A} (l : list A) i x : l !! i = Some x → imap pair l !! i = Some (i, x).
Proof. intros H. rewrite list_lookup_imap, H. done. Qed.

Lemma image_check_ok m bb img : image_check m bb img → image_at m bb img.
Proof.
  intros ((H1 & H2 & H3 & H4) & Hr & Hc & He & Hend & Hi & Hb).
  rewrite Forall_lookup in He. rewrite Forall_lookup in Hi. rewrite Forall_lookup in Hb.
  split; try done.
  - intros d e Hd. apply (He _ _ (imap_pair_lookup _ _ _ Hd)).
  - intros i x Hx. apply (Hi _ _ (imap_pair_lookup _ _ _ Hx)).
  - intros b cs Hcs. apply (Hb _ _ (imap_pair_lookup _ _ _ Hcs)).
Qed.

Lemma ex_image_at : image_at ex_mem ex_bblock ex_image.
Proof. apply image_check_ok, (bool_decide_unpack _). by vm_compute. Qed.

Lemma ex_image_in m : (∀ a, ex_bblock ≤ a < ex_bblock + 0x7000 → m !! a = ex_mem !! a) → image_at m ex_bblock ex_image.
Proof. exact (image_agree _ _ _ ex_image_at m). Qed.

(** Evaluate a decidable fact. *)
Ltac decide_it := apply (bool_decide_unpack _); by vm_compute.

(** The three terminals, in a memory with the screens of [ex_mem]. *)
Definition ex_shown (u : Z) : tty := if decide (u = 1) then ex_tty 32 else ex_tty (96 + u).
Lemma ex_block_shown k base c : ex_mem_blocks !! k = Some (base, ex_screen c) →
  Forall (λ p, disjoint_range p.1 (Z.of_nat (length p.2)) base 4000) (take k ex_mem_blocks) →
  screen_at ex_mem base (replicate 2000 c).
Proof.
  intros Hk Hd. apply screen_of_bytes; [by rewrite length_replicate|]. apply (mem_of_block _ k _ _ Hk).
  unfold ex_screen. by rewrite length_cell_bytes, length_replicate.
Qed.
Lemma ex_screen_at u : 1 ≤ u ≤ 3 →
  screen_at ex_mem (if decide (u = 1) then VIDEO else VIDEO_TERM + VIDEO_OFFSET * u) (cells (ex_shown u)).
Proof.
  intros Hu. assert (u = 1 ∨ u = 2 ∨ u = 3) as [-> |[-> | ->]] by lia.
  - apply (ex_block_shown 0 VIDEO 32); [reflexivity|]. constructor.
  - apply (ex_block_shown 2 (VIDEO_TERM + VIDEO_OFFSET * 2) 98); [reflexivity|decide_it].
  - apply (ex_block_shown 3 (VIDEO_TERM + VIDEO_OFFSET * 3) 99); [reflexivity|decide_it].
Qed.
Lemma ex_kept : screen_at ex_mem (VIDEO_TERM + VIDEO_OFFSET * 1) (replicate 2000 97).
Proof. apply (ex_block_shown 1); [reflexivity|decide_it]. Qed.
Lemma ex_screens s u : 1 ≤ u ≤ 3 → currentTerminal (kscr s) = 1 →
  (∀ a, VIDEO ≤ a < VIDEO + 4000 ∨ VIDEO_TERM ≤ a < VIDEO_TERM + 0x4000 → kmem s !! a = ex_mem !! a) →
  screen_at (kmem s) (term_base (kscr s) u) (cells (ex_shown u)).
Proof.
  intros Hu Hc Hm. pose proof (ex_screen_at u Hu) as Hscr.
  replace (term_base (kscr s) u) with (if decide (u = 1) then VIDEO else VIDEO_TERM + VIDEO_OFFSET * u)
    by (unfold term_base; rewrite Hc; repeat case_decide; case_bool_decide; done).
  eapply screen_at_same; [unfold ex_shown; by case_decide| |exact Hscr].
  intros a Ha. apply Hm. unfold VIDEO_OFFSET, VIDEO_TERM, VIDEO in *. case_decide; lia.
Qed.
Lemma ex_tty_at s u : 1 ≤ u ≤ 3 → currentTerminal (kscr s) = 1 →
  screen_x (kscr s) = [0; 0; 0] → screen_y (kscr s) = [0; 0; 0] →
  (∀ a, VIDEO ≤ a < VIDEO + 4000 ∨ VIDEO_TERM ≤ a < VIDEO_TERM + 0x4000 → kmem s !! a = ex_mem !! a) →
  tty_at s u (ex_shown u).
Proof.
  intros Hu Hc Hx Hy Hm. unfold tty_at. rewrite Hx, Hy. split; [|split; [by apply ex_screens|]];
    unfold ex_shown; assert (u = 1 ∨ u = 2 ∨ u = 3) as [-> |[-> | ->]] by lia; [decide_it..|split; reflexivity|split; reflexivity|split; reflexivity].
Qed.
Lemma ex_mem_ttys s : kmem s = ex_mem → currentTerminal (kscr s) = 1 →
  screen_x (kscr s) = [0; 0; 0] → screen_y (kscr s) = [0; 0; 0] → ∀ u, 1 ≤ u ≤ 3 → tty_at s u (ex_shown u).
Proof.
  intros Hm Hc Hx Hy u Hu. apply (ex_tty_at s u Hu Hc Hx Hy). intros a _. exact (f_equal (lookup a) Hm).
Qed.

(** ** Address spaces *)
Lemma ex_layout_ok : layout_ok.
Proof.
  split.
  - apply (bool_decide_unpack _). by vm_compute.
  - apply (bool_decide_unpack _). by vm_compute.
  - intros i j _ _. cbn. lia.
Qed.

(** Paging on, in the space of process [i]; [vid]: with its video page. *)
Definition ex_space (i : Z) (vid : bool) : page_t :=
  Mk_page_t ((λ j, proc_dir j vid) <$> seqZ 0 6) table_0_init
    (<[0%nat := u32 (Z.lor VIDEO_PAGE 7)]> free_table) table_term_init
    0x80000000 (L_page_dir i) 0x10.
Lemma ex_in_space i vid : 0 ≤ i < 6 → in_space (ex_space i vid) i vid.
Proof.
  intros Hi. split; try done. cbn [page_dir ex_space]. apply zlookup_Some. split; [lia|].
  rewrite list_lookup_fmap, lookup_seqZ_lt by lia. cbn. do 2 f_equal. lia.
Qed.
Lemma ex_tables_ok : tables_ok ex_pages.
Proof. split; try done. by repeat constructor. Qed.

(** The kernel with paging on, running process 0. *)
Definition ex_paged : kstate := (ex_state 1) <| kpage := ex_space 0 false |>.
