(* ===== verification/ScreenSpec.v ===== *)
(** * What the screen promises

    [putc], [printf], [clear] and [backspace] refine the
    abstract terminal; terminals do not disturb each other. *)

From S2P Require Import Prelude CInt Memory CString State Screen Printf Example.

(** Every other component of the state is the same. *)
Definition same_but_screen (s s' : kstate) : Prop :=
  s' = (s <| kmem := kmem s' |>) <| kscr ::= (λ c, (c
    <| screen_x := screen_x (kscr s') |>) <| screen_y := screen_y (kscr s') |>) |>.

Lemma drawn_same s t v s' : drawn_to s t v s' → same_but_screen s s'.
Proof. intros (m' & -> & _). reflexivity. Qed.

(** C26: [putc] writes one character to the terminal of the running process as
    the abstract terminal does (cursor, wrap, scroll, new line), whether that
    terminal is displayed or in the background; every other terminal still
    shows what it did, and nothing but memory and the cursors changes. *)
Theorem putc_refines s t v c :
  writes_to s t → keyInt (kscr s) = 0 ∨ t = currentTerminal (kscr s) →
  tty_at s t v → is_u8 c →
  ∃ s', putc c s = Ok (tt, s') ∧ tty_at s' t (tty_putc c v) ∧ same_but_screen s s' ∧
    ∀ t' w, t' ≠ t → 1 ≤ t' ≤ 3 → tty_at s t' w → tty_at s' t' w.
Proof.
  intros Hw Hk Hv Hc. pose proof Hw as (_ & _ & _ & Ht).
  pose proof (putc_ok s t v c Hw Hk Hv Hc) as H. apply wp_ok in H as ([] & s' & E & Hs').
  exists s'. split; [done|]. split; [|split].
  - eapply drawn_tty; [lia|done| |done]. apply tty_putc_ok; [done|apply Hv].
  - by eapply drawn_same.
  - intros t' w Hne Ht' Hw'. by eapply (drawn_other s t _ s' t' w).
Qed.

(** A full background screen with its cursor in the last cell: the character
    scrolls it. *)
Definition ex_full : kstate :=
  (ex_state 2) <| kscr ::= (λ c, (c <| screen_x := [79; 0; 0] |>)
                                  <| screen_y := [24; 0; 0] |>) |>.
Lemma putc_refines_witness :
  let v := Mk_tty (replicate 2000 97) 24 79 in
  ∃ s', putc 98 ex_full = Ok (tt, s') ∧ tty_at s' 1 (tty_putc 98 v) ∧
    same_but_screen ex_full s' ∧
    ∀ t' w, t' ≠ 1 → 1 ≤ t' ≤ 3 → tty_at ex_full t' w → tty_at s' t' w.
Proof.
  apply (putc_refines ex_full 1 (Mk_tty (replicate 2000 97) 24 79) 98).
  - eexists. split; [vm_compute; reflexivity|]. split; [reflexivity|lia].
  - left. reflexivity.
  - split; [decide_it|]. split; [exact ex_kept|split; reflexivity].
  - unfold is_u8. lia.
Defined.

(** C27: [printf] writes the rendering of its format: the characters of the
    format, and for each conversion the numeral, character or string of the
    next argument, ["%#x"] being padded to eight digits. It gives the length
    of the format. *)
Theorem printf_renders_format `{Layout} s t strs v fmt args out :
  print_ok s t strs → tty_at s t v → renders strs fmt args out →
  ∃ s', printf fmt args s = Ok (Z.of_nat (length fmt), s') ∧ tty_at s' t (tty_puts out v) ∧
    same_but_screen s s'.
Proof.
  intros Hp Hv Hr. pose proof (printf_renders s t strs Hp v Hv fmt args out Hr) as H0.
  apply wp_ok in H0 as (r & s' & E & -> & Hs'). exists s'. split; [done|].
  split; [by eapply printed_tty|]. destruct Hs' as (_ & m' & -> & _). reflexivity.
Qed.

Lemma printf_renders_format_witness :
  let strs := λ a, if bool_decide (a = 0x500420) then Some (chars "shell") else None in
  ∃ s', printf (chars "%s: %d%% 0x%#x") [0x500420; u32 (-42); 0xE] (ex_state 1) = Ok (14, s') ∧
    tty_at s' 1 (tty_puts (chars "shell: -42% 0x0000000E") (ex_tty 32)) ∧
    same_but_screen (ex_state 1) s'.
Proof.
  apply (printf_renders_format (ex_state 1) 1
    (λ a, if bool_decide (a = 0x500420) then Some (chars "shell") else None) (ex_tty 32)
    (chars "%s: %d%% 0x%#x") [0x500420; u32 (-42); 0xE]).
  - split.
    + eexists. split; [vm_compute; reflexivity|]. split; [reflexivity|lia].
    + by left.
    + decide_it.
    + decide_it.
    + intros a str. case_bool_decide as Ha; [|done]. intros [= <-]. subst a.
      split; [decide_it|]. split; decide_it.
  - apply (ex_mem_ttys (ex_state 1)); [reflexivity..|lia].
  - change (chars "shell: -42% 0x0000000E")
      with (chars "shell" ++ 58 :: 32 :: chars "-42" ++ [37] ++ 32 :: 48 :: 120 :: chars "0000000E" ++ []).
    eapply renders_conv; [reflexivity|]. do 2 (apply renders_char; [done|decide_it|]).
    eapply renders_conv; [vm_compute; reflexivity|].
    eapply renders_conv; [vm_compute; reflexivity|].
    do 3 (apply renders_char; [done|decide_it|]).
    eapply renders_conv; [vm_compute; reflexivity|]. apply renders_end.
Defined.

(** Typing a character on a blank cell of the displayed terminal and
    erasing it gives the terminal back (except in the very last cell, where
    typing scrolls). *)
Theorem putc_backspace_roundtrip s t v c :
  writes_to s t → currentTerminal (kscr s) = t → tty_at s t v → is_u8 c →
  ¬ (c = 10 ∨ c = 13) → (row v, col v) ≠ (24, 79) →
  cells v !! Z.to_nat (80 * row v + col v) = Some 32 →
  ∃ s', (_ ← putc c; backspace) s = Ok (tt, s') ∧ tty_at s' t v ∧ same_but_screen s s'.
Proof.
  intros Hw Htc Hv Hc Hn Hlast Hcell. pose proof Hw as (_ & _ & _ & Ht).
  assert (wp (_ ← putc c; backspace) (λ _ s', drawn_to s t v s') s) as H.
  { rewrite wp_bind. eapply wp_mono; [apply (putc_ok s t v c); [done|by right|done|done]|]. cbv beta. intros _ s1 Hs1.
    assert (tty_ok (tty_putc c v)) as Hok by (apply tty_putc_ok; [done|apply Hv]).
    eapply wp_mono.
    - apply (backspace_ok s1 t ltac:(lia)) with (v := tty_putc c v).
      + destruct Hs1 as (m1 & -> & _). exact Htc.
      + eapply drawn_tty; [lia|done|done|exact Hs1].
    - cbv beta. intros _ s2 Hs2. rewrite tty_putc_backspace in Hs2; [|apply Hv|done..].
      by eapply drawn_trans. }
  apply wp_ok in H as ([] & s' & E & Hs'). exists s'. split; [done|]. split.
  - eapply drawn_tty; [lia|done|apply Hv|done].
  - by eapply drawn_same.
Qed.

(** [clear] blanks the displayed terminal and homes its cursor; the other
    terminals keep their contents. Before the first terminal is displayed
    ([currentTerminal] is 0, as when [entry] calls it) it writes to
    [screen_y[-1]]. *)
Theorem clear_displayed s t :
  currentTerminal (kscr s) = t →
  (t = 0 → ∀ r, clear s ≠ Ok r) ∧
  (1 ≤ t ≤ 3 → mapped (kmem s) VIDEO 4000 →
    is_Some (zlookup (screen_x (kscr s)) (t - 1)) →
    is_Some (zlookup (screen_y (kscr s)) (t - 1)) →
    ∃ s', clear s = Ok (tt, s') ∧ tty_at s' t tty_blank ∧ same_but_screen s s' ∧
      ∀ t' w, t' ≠ t → 1 ≤ t' ≤ 3 → tty_at s t' w → tty_at s' t' w).
Proof.
  intros Htc. split.
  - intros -> r. unfold clear, mbind, K_bind.
    destruct (on_mem _ s) as [[[] s1]| |] eqn:E1; [|done..].
    assert (currentTerminal (kscr s1) = 0) as Hc1.
    { unfold on_mem, zoom in E1. destruct (for_loop _ _ _ _) as [[? ?]| |]; [|done..].
      by simplify_eq. }
    unfold whatTerm, kget, mbind, K_bind, mret, K_ret. rewrite Hc1.
    unfold set_screen_y, kget, mbind, K_bind, klift, zupdate.
    by rewrite bool_decide_eq_false_2 by lia.
  - intros Ht Hm [x Hx] [y Hy].
    pose proof (clear_ok s t x y ltac:(lia) Htc Hm Hx Hy) as H.
    apply wp_ok in H as ([] & s' & E & Hs'). exists s'. split; [done|]. split; [|split].
    + pose proof Hs' as (m' & -> & Hsc & _). split; [by decide_it|]. split; [done|].
      split; [apply draw_x|apply draw_y]; rewrite ?Hx, ?Hy; done || lia.
    + by eapply drawn_same.
    + intros t' w Hne Ht' Hw'. by eapply (drawn_other s t _ s' t' w).
Qed.


(** A key echoed while the running process belongs to a background terminal:
    at the bottom of the displayed screen the character is shown and the
    cursor goes to the start of the last line, but it is the screen of the
    process that scrolls. *)
Definition echo_unscrolled (c : Z) (v : tty) : tty :=
  Mk_tty (if bool_decide (c = 10 ∨ c = 13) then cells v else <[1999%nat := c]> (cells v)) 24 0.
Definition scroll_hidden (s : kstate) (p : Z) (w : tty) : kstate :=
  s <| kmem ::= λ m, put_bytes m (VIDEO_TERM + VIDEO_OFFSET * p) (cell_bytes (tty_scroll (cells w))) |>.

Lemma scroll_hidden_draw s d m x y p w : scroll_hidden (draw s d m x y) p w =
  draw s d (put_bytes m (VIDEO_TERM + VIDEO_OFFSET * p) (cell_bytes (tty_scroll (cells w)))) x y.
Proof. reflexivity. Qed.

Section echo.
Context (s : kstate) (b : pcb_t) (d p : Z) (w : tty).
Context (Hb : pcbs (kproc s) !! pcb (kproc s) = Some b) (Hp : curTerminal b = p) (Hpr : 1 ≤ p ≤ 3).
Context (Hd : currentTerminal (kscr s) = d) (Hdr : 1 ≤ d ≤ 3) (Hne : p ≠ d) (Hw : tty_at s p w).

(** [tScroll] after a step of drawing on the displayed screen. *)
Lemma wp_scroll_hidden k m x y (Q : unit → kstate → Prop) :
  dom m = dom (kmem s) → (∀ a, ¬ (VIDEO ≤ a < VIDEO + 4000) → m !! a = kmem s !! a) →
  Q tt (scroll_hidden (draw s d m x y) p w) → wp (tScroll k) Q (draw s d m x y).
Proof using All.
  intros Hdm Ho HQ. destruct Hw as ((Hl & Hu & _ & _) & Hs & _ & _).
  unfold term_base in Hs. rewrite bool_decide_eq_false_2 in Hs by (by rewrite Hd).
  unfold tScroll. rewrite wp_bind. eapply wp_cur_pcb; [exact Hb|]. unfold whatTerm.
  rewrite wp_bind, wp_bind, wp_get, wp_ret.
  change (currentTerminal (kscr (draw s d m x y))) with (currentTerminal (kscr s)).
  rewrite Hd, Hp, (bool_decide_eq_true_2 (p ≠ d)) by done.
  eapply wp_draw_mem; [|exact HQ]. apply scroll_at_ok; [done|done|].
  eapply screen_at_agree; [exact Hdm| |exact Hs]. intros a Ha. apply Ho.
  unfold VIDEO, VIDEO_TERM, VIDEO_OFFSET in *. lia.
Qed.

Lemma echo_elsewhere v c : keyInt (kscr s) ≠ 0 → is_u8 c → scrolls c v → tty_at s d v →
  ∃ sA, drawn_to s d (echo_unscrolled c v) sA ∧ putc c s = Ok (tt, scroll_hidden sA p w).
Proof using All.
  intros Hk Huc [Hrow Hsc] Hv. pose proof Hv as ((Hl & Hu & Hr & Hcol) & Hs & Ex & Ey).
  assert (is_Some (zlookup (screen_x (kscr s)) (d - 1)) ∧ is_Some (zlookup (screen_y (kscr s)) (d - 1)))
    as [Hx Hy] by (by rewrite Ex, Ey).
  assert (term_base (kscr s) d = VIDEO) as Eb by (unfold term_base; by rewrite bool_decide_eq_true_2).
  enough (wp (putc c) (λ _ s', ∃ sA, drawn_to s d (echo_unscrolled c v) sA ∧ s' = scroll_hidden sA p w) s) as H
    by (apply wp_ok in H as ([] & s' & E & sA & HA & ->); by exists sA).
  unfold putc. rewrite wp_bind. eapply wp_cur_pcb; [exact Hb|].
  unfold whatTerm. rewrite wp_bind, wp_bind, wp_get, wp_ret, wp_bind, wp_get.
  rewrite Hd, (bool_decide_eq_false_2 (keyInt _ = 0)), orb_true_r by done. unfold putc_at.
  assert (1 ≤ d) by lia. rewrite Eb in Hs. unfold drawn_to, echo_unscrolled. rewrite Eb.
  destruct (decide (c = 10 ∨ c = 13)) as [Hc|Hc].
  - replace (bool_decide (c = 10) || bool_decide (c = 13)) with true by (destruct Hc as [-> | ->]; done).
    apply (wp_draw_start s d _ _ _ _ ltac:(done) Ex Ey). rewrite wp_bind. apply wp_draw_y; [done|done|done|].
    rewrite Hrow, (bool_decide_eq_true_2 (24 = _)), wp_bind by done.
    apply wp_scroll_hidden; [done|done|]. rewrite scroll_hidden_draw.
    apply wp_draw_set_x; [done|done|done|].
    exists (draw s d (kmem s) 0 24). split; [|done]. exists (kmem s). by rewrite bool_decide_eq_true_2.
  - assert (col v = 79) as Hc79 by tauto.
    rewrite !(bool_decide_eq_false_2 (c = _)) by naive_solver. cbn [orb].
    apply (wp_draw_start s d _ _ _ _ ltac:(done) Ex Ey).
    rewrite wp_bind. apply wp_draw_y; [done|done|done|].
    rewrite wp_bind. apply wp_draw_x; [done|done|done|]. rewrite wp_bind, Hrow, Hc79.
    destruct (write_cell_ok (kmem s) VIDEO (cells v) (NUM_COLS * 24 + 79) c) as (m' & E & Hs' & Hdm & Ho);
      [done|done|done|done|].
    eapply wp_draw_mem; [exact E|]. rewrite wp_bind.
    apply wp_draw_set_x; [done|done|done|].
    rewrite (bool_decide_eq_true_2 (24 = _)), (bool_decide_eq_true_2 (79 + 1 = _)) by done. cbn [andb].
    rewrite wp_bind. apply wp_scroll_hidden; [done|done|]. rewrite scroll_hidden_draw.
    apply wp_draw_set_x; [done|done|done|]. change (Z.rem (79 + 1) NUM_COLS) with 0.
    exists (draw s d m' 0 24). split; [|done]. exists m'. rewrite bool_decide_eq_false_2 by done.
    split; [done|]. split; [exact Hs'|]. by split.
Qed.
End echo.

