(* ===== verification/FileReads.v ===== *)
(** * What the file system promises

    Lookups and reads of the image give the entries and the contents of the
    files; a client that reads until it gets 0 has read the file. *)

From S2P Require Import Prelude CInt Memory CString State FS FSSpec Example.

(** C29: [read_data] gives a prefix of what is left of the file at the offset
    and writes it, and only it, to the buffer: never more than was asked for,
    at least one byte when there is one, and less than possible only up to
    the end of a data block. A bad inode number or an offset past the end is
    an error. *)
Theorem read_data_reads_file m bb img ino offset buf len :
  image_at m bb img → 0 ≤ ino → 0 ≤ offset → is_u32 len → mapped m buf len →
  disjoint_range buf len bb (image_size img) →
  ∃ r bytes, read_data bb ino offset buf len m = Ok (r, put_bytes m buf bytes) ∧
    match zlookup (inodes img) ino with
    | Some x =>
        if bool_decide (in_len x < offset) then r = -1 ∧ bytes = []
        else
          let rest := drop (Z.to_nat offset) (content img x) in
          r = Z.of_nat (length bytes) ∧ bytes `prefix_of` rest ∧ r ≤ len ∧
          (0 < len → rest ≠ [] → 0 < r) ∧
          (r < len → bytes ≠ rest → (offset + r) mod 4096 = 0)
    | None => r = -1 ∧ bytes = []
    end.
Proof.
  intros Hi Hino Hoff Hlen Hm Hd. unfold is_u32 in Hlen.
  pose proof (read_data_ok m bb img ino offset buf len Hi Hino Hoff Hlen) as H.
  destruct (read_result img ino offset len) as [r bytes] eqn:Er. exists r, bytes.
  unfold read_result in Er. destruct (zlookup (inodes img) ino) as [x|] eqn:Ex.
  2:{ simplify_eq. split; [by apply H|done]. }
  pose proof (inode_is_ok _ _ _ Hi _ _ Ex) as Hx. pose proof Hx as (Hil & _).
  assert (∀ x', Some x = Some x' → mapped m buf (Z.min len (in_len x' - offset)) ∧
    disjoint_range buf (Z.min len (in_len x' - offset)) bb (image_size img)) as Hbuf.
  { intros x' [= <-]. unfold disjoint_range in *. split; [|lia].
    eapply mapped_sub; [exact Hm|lia|lia]. }
  split; [by apply H|]. clear H Hbuf. case_bool_decide as Hlt; [by simplify_eq|].
  simplify_eq. set (rest := drop _ (content img x)). cbv zeta.
  pose proof (read_length_range (in_len x) offset len) as Hr.
  set (r := read_length (in_len x) offset len) in *.
  assert (length rest = Z.to_nat (in_len x - offset)) as Hrest.
  { unfold rest. rewrite length_drop, length_content; [lia|apply Hi|done]. }
  split; [rewrite length_take, Hrest; lia|]. split; [apply prefix_take|]. split; [lia|].
  pose proof (Z.div_mod offset 4096 ltac:(lia)) as Hdo.
  pose proof (Z.mod_pos_bound offset 4096 ltac:(lia)) as Hmo.
  set (n := Z.min len (in_len x - offset)) in *.
  pose proof (Z.div_mod n 4096 ltac:(lia)) as Hdn. pose proof (Z.mod_pos_bound n 4096 ltac:(lia)) as Hmn.
  assert (r = Z.min n (4096 * (n / 4096 + 1) - offset mod 4096)) as Er by done.
  split.
  - intros Hl Hne. assert (0 < in_len x - offset); [|unfold n in *; lia].
    destruct (decide (in_len x - offset ≤ 0)); [|lia]. destruct rest; [done|cbn in Hrest; lia].
  - intros Hl Hne. assert (r < in_len x - offset) as Hr'.
    { destruct (decide (r < in_len x - offset)); [done|]. destruct Hne.
      apply take_ge. rewrite Hrest. lia. }
    assert (r = 4096 * (n / 4096 + 1) - offset mod 4096) as -> by lia.
    replace (offset + _) with ((offset / 4096 + (n / 4096 + 1)) * 4096) by lia.
    apply Z.mod_mul. lia.
Qed.

Lemma read_data_reads_file_witness :
  ∃ r bytes, read_data ex_bblock 2 5 0x500000 7 ex_mem = Ok (r, put_bytes ex_mem 0x500000 bytes) ∧
    match zlookup (inodes ex_image) 2 with
    | Some x =>
        if bool_decide (in_len x < 5) then r = -1 ∧ bytes = []
        else
          let rest := drop (Z.to_nat 5) (content ex_image x) in
          r = Z.of_nat (length bytes) ∧ bytes `prefix_of` rest ∧ r ≤ 7 ∧
          (0 < 7 → rest ≠ [] → 0 < r) ∧
          (r < 7 → bytes ≠ rest → (5 + r) mod 4096 = 0)
    | None => r = -1 ∧ bytes = []
    end.
Proof.
  apply read_data_reads_file; [exact ex_image_at|lia|lia|unfold is_u32; lia|decide_it|decide_it].
Defined.

(** [read_dentry_by_name] finds a name exactly when the directory has an
    entry that agrees with it in the first 32 characters, and copies the type
    and the inode number of the first such entry; it writes to the [dentry]
    only. The empty name is not found. *)
Theorem read_dentry_by_name_finds `{Layout} m bb img fname s dentry :
  image_at m bb img → m !! L_empty = Some 0 → cstr_at m fname s →
  mapped m dentry 64 → disjoint_range dentry 64 bb (image_size img) →
  (∃ d e m', find_entry img s = Some (d, e) ∧ entries img !! d = Some e ∧
    read_dentry_by_name bb fname dentry m = Ok (0, m') ∧
    load32 (d_file_type dentry) m' = Ok (e_type e, m') ∧
    load32 (d_inode_num dentry) m' = Ok (e_inode e, m') ∧
    ∀ a, ¬ (dentry ≤ a < dentry + 64) → m' !! a = m !! a) ∨
  (find_entry img s = None ∧ read_dentry_by_name bb fname dentry m = Ok (-1, m) ∧
    (s = [] ∨ ∀ e, e ∈ entries img → take 32 (e_str e) ≠ take 32 s)).
Proof.
  intros Hi He Hs Hm Hd.
  pose proof (read_dentry_by_name_ok m bb img Hi He fname s dentry Hs Hm Hd) as E.
  destruct (find_entry img s) as [[d e]|] eqn:Ef.
  - left. exists d, e, (dentry_mem m dentry e). unfold find_entry in Ef.
    case_bool_decide; [done|]. apply list_find_Some in Ef as (Hd' & _ & _).
    destruct (entry_string _ _ _ Hi _ _ Hd') as [_ Hl].
    pose proof (entry_is_ok _ _ _ Hi _ _ Hd') as Hok.
    destruct (dentry_mem_fields m dentry e Hm Hok) as (H1 & H2 & _ & H4); [lia|].
    pose proof Hok as (_ & _ & _ & Ht & Hn).
    do 3 (split; [done|]). split; [apply load32_le32; [exact H1|unfold is_u32; lia]|].
    split; [by apply load32_le32|]. intros a Ha. apply H4. lia.
  - right. split; [done|]. split; [done|]. unfold find_entry in Ef. case_bool_decide; [by left|].
    right. intros e He'. apply list_find_None in Ef. rewrite Forall_forall in Ef. by apply Ef.
Qed.

Lemma read_dentry_by_name_finds_witness :
  (∃ d e m', find_entry ex_image (chars "shell") = Some (d, e) ∧ entries ex_image !! d = Some e ∧
    read_dentry_by_name ex_bblock 0x500420 0x500100 ex_mem = Ok (0, m') ∧
    load32 (d_file_type 0x500100) m' = Ok (e_type e, m') ∧
    load32 (d_inode_num 0x500100) m' = Ok (e_inode e, m') ∧
    ∀ a, ¬ (0x500100 ≤ a < 0x500100 + 64) → m' !! a = ex_mem !! a) ∨
  (find_entry ex_image (chars "shell") = None ∧
    read_dentry_by_name ex_bblock 0x500420 0x500100 ex_mem = Ok (-1, ex_mem) ∧
    (chars "shell" = [] ∨
      ∀ e, e ∈ entries ex_image → take 32 (e_str e) ≠ take 32 (chars "shell"))).
Proof.
  apply read_dentry_by_name_finds; [exact ex_image_at|vm_compute; reflexivity|decide_it..].
Defined.

(** ** Reading a file to its end *)

(** The bytes at an address. *)
Fixpoint load_bytes (a : Z) (n : nat) : K mem (list Z) :=
  match n with
  | O => mret []
  | S n' => b ← load8 a; bs ← load_bytes (a + 1) n'; mret (b :: bs)
  end.
(** A client that reads with [reg_file_read] until it gets 0 or an error, as
    [cat] does; what it has read. *)
Fixpoint read_all (fuel : nat) (fd buf nbytes : Z) : K kstate (list Z) :=
  match fuel with
  | O => kspin
  | S fuel' =>
      n ← reg_file_read fd buf nbytes;
      if bool_decide (n ≤ 0) then mret []
      else
        bs ← on_mem (load_bytes buf (Z.to_nat n));
        rest ← read_all fuel' fd buf nbytes;
        mret (bs ++ rest)
  end.

Lemma load_bytes_ok m a l : bytes_at m a l → load_bytes a (length l) m = Ok (l, m).
Proof.
  revert a. induction l as [|b l IH]; intros a Hb; [done|]. destruct Hb as [Hb Hl].
  cbn [length load_bytes]. erewrite bind_ok by (by apply load8_ok).
  by erewrite bind_ok by (by apply IH).
Qed.

Section read_all.
Context (bb : Z) (img : image) (ino : Z) (x : inode_a) (fd buf nbytes : Z).
Context (Hx : zlookup (inodes img) ino = Some x) (Hn : 0 < nbytes < 2 ^ 31).
Context (Hd : disjoint_range buf nbytes bb (image_size img)).

(** The state of the client at a position of the file. *)
Record reading (s : kstate) (b : pcb_t) (f : file_struct_t) (p : Z) : Prop := {
  rd_image : image_at (kmem s) bb img;
  rd_bblock : bblock s = bb;
  rd_buf : mapped (kmem s) buf nbytes;
  rd_running : running s b;
  rd_file : zlookup (file_array b) fd = Some f;
  rd_flags : flags f = Z.lor TYPE_FILE OPEN;
  rd_inode : inode f = ino;
  rd_position : file_position f = p;
  rd_range : 0 ≤ p ≤ in_len x;
}.

(** The state after some reads. *)
Definition read_to (s : kstate) (b : pcb_t) (f : file_struct_t) (m : mem) (p : Z) : kstate :=
  with_file (s <| kmem := m |>) b fd (f <| file_position := p |>).
Definition block_at (b : pcb_t) (f : file_struct_t) (p : Z) : pcb_t :=
  b <| file_array := <[Z.to_nat fd := f <| file_position := p |>]> (file_array b) |>.

Lemma reg_file_read_ok s b f p :
  reading s b f p →
  ∃ r m', reg_file_read fd buf nbytes s = Ok (r, read_to s b f m' (p + r)) ∧
    reading (read_to s b f m' (p + r)) (block_at b f (p + r)) (f <| file_position := p + r |>) (p + r) ∧
    0 ≤ r ∧ (p < in_len x → 0 < r) ∧
    bytes_at m' buf (take (Z.to_nat r) (drop (Z.to_nat p) (content img x))) ∧
    (∀ a, ¬ (buf ≤ a < buf + r) → m' !! a = kmem s !! a) ∧
    p + r ≤ in_len x ∧ r ≤ nbytes ∧ dom m' = dom (kmem s).
Proof using Hx Hn Hd.
  intros [Hi Hbb Hm Hrun Hf Hfl Hino Hp Hr].
  pose proof (inode_is_ok _ _ _ Hi _ _ Hx) as Hxok. pose proof Hxok as (Hil & _).
  assert (0 ≤ ino < n_inodes img) as Hinr.
  { apply (zlookup_is_Some (inodes img)). by rewrite Hx. }
  pose proof (n_inodes_u32 _ _ _ Hi) as Hu. unfold is_u32 in Hu.
  pose proof (read_data_ok (kmem s) bb img ino p buf nbytes Hi ltac:(lia) ltac:(lia)) as H.
  unfold read_result in H. rewrite Hx, (bool_decide_eq_false_2 (in_len x < p)) in H by lia.
  pose proof (read_length_range (in_len x) p nbytes ltac:(lia) ltac:(lia)) as Hl.
  assert (p < in_len x → 0 < read_length (in_len x) p nbytes) as Hprog.
  { intros Hlt. unfold read_length. pose proof (Z.mod_pos_bound p 4096 ltac:(lia)).
    pose proof (Z.div_pos (Z.min nbytes (in_len x - p)) 4096 ltac:(lia) ltac:(lia)). lia. }
  set (r := read_length (in_len x) p nbytes) in *.
  set (bs := take (Z.to_nat r) (drop (Z.to_nat p) (content img x))) in *.
  assert (length bs = Z.to_nat r) as Hbs.
  { unfold bs. rewrite length_take, length_drop, (length_content img) by (apply Hi || done). lia. }
  set (m' := put_bytes (kmem s) buf bs).
  assert (image_at m' bb img) as Hi'.
  { apply (image_agree _ _ _ Hi). intros a Ha. apply put_bytes_outside.
    unfold disjoint_range in Hd. rewrite Hbs. lia. }
  assert (mapped m' buf nbytes) as Hm'.
  { eapply mapped_dom; [|exact Hm]. apply put_bytes_dom. rewrite Hbs.
    eapply mapped_sub; [exact Hm|lia|lia]. }
  assert (reg_file_read fd buf nbytes s =
    Ok (r, if bool_decide (r > 0)
           then with_file (s <| kmem := m' |>) b fd (f <| file_position := p + r |>)
           else s <| kmem := m' |>)) as E.
  { unfold reg_file_read. erewrite bind_ok by (by eapply cur_file_ok).
    rewrite bool_decide_eq_true_2 by done. unfold mbind at 1, K_bind at 1, kget.
    rewrite Hbb, Hino, Hp, !u32_id by (unfold is_u32; lia).
    erewrite bind_ok.
    2:{ apply on_mem_ok, H; [unfold is_u32; lia|]. intros x' [= <-]. unfold disjoint_range in *.
        split; [eapply mapped_sub; [exact Hm|lia|lia]|lia]. }
    case_bool_decide.
    - assert (f <| file_position ::= (λ p, s32 (p + r)) |> = f <| file_position := p + r |>) as Ef
        by (upd_cbv; by rewrite Hp, s32_id by (unfold is_s32; lia)).
      erewrite bind_ok by (by apply (mod_file_ok _ b fd f)). cbv beta. by rewrite Ef.
    - done. }
  exists r, m'.
  assert (r ≤ nbytes) as Hrn by lia.
  assert (∀ a, ¬ (buf ≤ a < buf + r) → m' !! a = kmem s !! a) as Hout.
  { intros a Ha. apply put_bytes_outside. rewrite Hbs. lia. }
  split.
  - rewrite E. case_bool_decide as Hpos; [done|]. do 2 f_equal. unfold read_to.
    replace (f <| file_position := p + r |>) with f; [by rewrite with_file_id|].
    replace (p + r) with (file_position f) by lia. by destruct f.
  - assert (dom m' = dom (kmem s)) as Hdom.
    { apply put_bytes_dom. rewrite Hbs. eapply mapped_sub; [exact Hm|lia|lia]. }
    split; [|split; [lia|split; [done|split; [apply put_bytes_at|split; [done|split; [lia|by split]]]]]].
    split; try done; [|by eapply with_file_lookup|lia]. apply with_file_running.
Qed.

Lemma read_all_ok fuel s b f p :
  reading s b f p → (Z.to_nat (in_len x - p) < fuel)%nat →
  ∃ s' b' f', read_all fuel fd buf nbytes s = Ok (drop (Z.to_nat p) (content img x), s') ∧
    reading s' b' f' (in_len x).
Proof using Hx Hn Hd.
  revert s b f p. induction fuel as [|fuel IH]; intros s b f p Hs Hfuel; [lia|].
  pose proof Hs as [Hi _ _ _ _ _ _ _ Hr].
  pose proof (inode_is_ok _ _ _ Hi _ _ Hx) as Hxok.
  destruct (reg_file_read_ok _ _ _ _ Hs) as (r & m1 & E & Hs1 & Hr0 & Hprog & Hb & _ & Hle & _).
  set (s1 := read_to s b f m1 (p + r)) in *.
  cbn [read_all]. erewrite bind_ok by exact E. case_bool_decide as Hz.
  - assert (p = in_len x) as -> by lia. assert (in_len x + r = in_len x) as Hz0 by lia.
    unfold s1 in *. rewrite Hz0 in Hs1 |- *. eexists _, _, _. split; [|exact Hs1].
    rewrite drop_ge; [done|]. rewrite (length_content img); [lia|apply Hi|done].
  - set (bs := take (Z.to_nat r) (drop (Z.to_nat p) (content img x))) in *.
    assert (length bs = Z.to_nat r) as Hbs.
    { unfold bs. rewrite length_take, length_drop, (length_content img) by (apply Hi || done). lia. }
    erewrite bind_ok.
    2:{ rewrite <-Hbs. apply on_mem_pure. by apply load_bytes_ok. }
    destruct (IH _ _ _ _ Hs1) as (s2 & b2 & f2 & E2 & Hs2); [lia|].
    erewrite bind_ok by exact E2. exists s2, b2, f2. split; [|done].
    unfold mret, K_ret. do 2 f_equal. unfold bs.
    replace (Z.to_nat (p + r)) with (Z.to_nat p + Z.to_nat r)%nat by lia.
    rewrite <-drop_drop. by rewrite take_drop.
Qed.
End read_all.

(** C28: a client that reads an open file with [reg_file_read], with a buffer
    of any size, until it gets 0, terminates and has read exactly the
    contents of the file. *)
Theorem read_all_gives_content bb img ino x fd buf nbytes s b f fuel :
  zlookup (inodes img) ino = Some x → 0 < nbytes < 2 ^ 31 →
  disjoint_range buf nbytes bb (image_size img) →
  image_at (kmem s) bb img → bblock s = bb → mapped (kmem s) buf nbytes →
  running s b → zlookup (file_array b) fd = Some f →
  flags f = Z.lor TYPE_FILE OPEN → inode f = ino → file_position f = 0 →
  (Z.to_nat (in_len x) < fuel)%nat →
  ∃ s', read_all fuel fd buf nbytes s = Ok (content img x, s').
Proof.
  intros Hx Hn Hd Hi Hbb Hm Hrun Hf Hfl Hino Hp Hfuel.
  pose proof (inode_is_ok _ _ _ Hi _ _ Hx) as (Hil & _).
  destruct (read_all_ok bb img ino x fd buf nbytes Hx Hn Hd fuel s b f 0) as (s' & _ & _ & E & _).
  - by split; try lia.
  - lia.
  - exists s'. by rewrite drop_0 in E.
Qed.

Definition ex_open_file : file_struct_t :=
  Mk_file_struct_t (Some fops_file) 2 0 (Z.lor TYPE_FILE OPEN).
Definition ex_open : kstate := with_file (ex_state 1) (ex_pcb 1 0 (-1) (-1)) 2 ex_open_file.
Lemma read_all_gives_content_witness :
  ∃ s', read_all 16 2 0x500000 4 ex_open = Ok (chars "fish frame text", s').
Proof.
  apply (read_all_gives_content ex_bblock ex_image 2 (ex_inode 15 2) 2 0x500000 4 ex_open
    ((ex_pcb 1 0 (-1) (-1)) <| file_array ::= <[2%nat := ex_open_file]> |>) ex_open_file 16);
    try exact ex_image_at; try lia; try reflexivity; decide_it.
Defined.

(** ** Reading a directory

    [dir_read] gives the names of the entries in order, one per call, cut or
    filled with zeros to the size of the request, and then 0. *)

Lemma dir_read_ok `{Layout} bb img s b f fd buf nbytes d :
  image_at (kmem s) bb img → bblock s = bb → kmem s !! L_empty = Some 0 →
  running s b → zlookup (file_array b) fd = Some f → flags f = Z.lor TYPE_DIR OPEN →
  file_position f = Z.of_nat d → 0 < nbytes < 2 ^ 31 → mapped (kmem s) buf nbytes →
  disjoint_range buf nbytes bb (image_size img) →
  match entries img !! d with
  | Some e =>
      let name := take (Z.to_nat nbytes) (e_str e) in
      dir_read fd buf nbytes s =
      Ok (nbytes, with_file (s <| kmem := put_bytes (kmem s) buf
            (name ++ replicate (Z.to_nat nbytes - length name) 0) |>)
          b fd (f <| file_position := Z.of_nat (S d) |>))
  | None => d = length (entries img) → dir_read fd buf nbytes s = Ok (0, s)
  end.
Proof.
  intros Hi Hbb He Hrun Hf Hfl Hp Hn Hm Hd.
  assert (cstr_at (kmem s) L_empty []) as Hempty by (by split).
  assert (∀ str, cstr_at (kmem s) (bb_dentry bb (Z.of_nat d)) str →
    ∃ c, strncmp L_empty (d_file_name (bb_dentry bb (Z.of_nat d))) nbytes (kmem s) =
      Ok (c, kmem s) ∧ (c = 0 ↔ str = [])) as Hcmp.
  { intros str [Hs Hc]. destruct (ncmp_cstr (Z.to_nat nbytes) [] str) as (c & Ec & Hiff);
      [done|done|].
    exists c. split; [by eapply strncmp_ok; [by apply Hempty|exact Hs|]|].
    rewrite Hiff. destruct (Z.to_nat nbytes) eqn:En; [lia|]. by destruct str. }
  unfold dir_read.
  destruct (entries img !! d) as [e|] eqn:Ee.
  - destruct (entry_string _ _ _ Hi _ _ Ee) as [Hstr Hlen].
    destruct (Hcmp _ Hstr) as (c & Ec & Hc). cbv zeta.
    erewrite bind_ok by (by eapply cur_file_ok). rewrite bool_decide_eq_true_2 by done.
    unfold mbind at 1, K_bind at 1, kget. rewrite Hbb, Hp, u32_id by (unfold is_u32; lia).
    erewrite bind_ok by (apply on_mem_pure; exact Ec). rewrite bool_decide_eq_false_2.
    2:{ rewrite Hc. intros E. rewrite E in Hlen. cbn in Hlen. lia. }
    pose proof (ia_range _ _ _ Hi). pose proof (io_count _ (ia_ok _ _ _ Hi)).
    pose proof (lookup_lt_Some _ _ _ Ee).
    erewrite bind_ok.
    2:{ apply on_mem_ok, strncpy_cstr; [exact Hstr|lia|done|].
        unfold disjoint_range, image_size, n_inodes, bb_dentry, d_file_name in *. lia. }
    assert (f <| file_position ::= (λ p, s32 (p + 1)) |> =
      f <| file_position := Z.of_nat (S d) |>) as Ef.
    { upd_cbv. rewrite Hp, s32_id by (unfold is_s32; lia).
      by replace (Z.of_nat d + 1) with (Z.of_nat (S d)) by lia. }
    erewrite bind_ok by (by apply (mod_file_ok _ b fd f)). cbv beta. rewrite Ef.
    set (name := take _ _). unfold mret, K_ret.
    by replace (Z.to_nat (nbytes - Z.of_nat (length name)))
      with (Z.to_nat nbytes - length name)%nat by lia.
  - intros Hdl. subst d. destruct (Hcmp []) as (c & Ec & Hc).
    { split; [|done]. split; [apply Hi|done]. }
    erewrite bind_ok by (by eapply cur_file_ok). rewrite bool_decide_eq_true_2 by done.
    unfold mbind at 1, K_bind at 1, kget. rewrite Hbb, Hp, u32_id by (unfold is_u32; lia).
    erewrite bind_ok by (apply on_mem_pure; exact Ec).
    by rewrite bool_decide_eq_true_2 by (by apply Hc).
Qed.
