(* ===== verification/SpaceSpec.v ===== *)
(** * What paging promises

    The address space a process gets, its isolation from the others, and
    that a switch of address spaces and back restores a program. *)

From S2P Require Import Prelude CInt Memory CString State I8259 Screen Printf Paging.
From S2P Require Import PagingInit Translate FS FSSpec Process Terminal Keyboard Example.

Section space.
Context `{Layout}.

(** Whatever the directories hold, [setup_paging] enters the process's space. *)
Lemma setup_paging_space s p0 i vid d :
  layout_ok → kpage s = p0 → 0 ≤ i < 6 →
  zlookup (page_dir p0) i = Some d → length d = 1024%nat →
  <[32%nat := prog_entry i]> d = proc_dir i vid →
  page_table_0 p0 = table_0_init →
  page_table_vidmap p0 = <[0%nat := u32 (Z.lor VIDEO_PAGE 7)]> free_table →
  page_table_term p0 = table_term_init →
  wp (setup_paging i) (λ _ s', in_space (kpage s') i vid) s.
Proof.
  intros Hlay <- Hi Hd Hlen Hdir H0 Hv Ht. unfold setup_paging.
  rewrite wp_bind, wp_zoom. eapply wp_set_dir; [exact Hd|lia|].
  rewrite wp_bind, wp_zoom. unfold set_pse. rewrite wp_mod.
  assert (is_Some (zlookup (page_dir (kpage s)) i)) as Hir%zlookup_is_Some by (by rewrite Hd).
  rewrite wp_bind. unfold load_CR3, set_cr0, remap. rewrite wp_mod, wp_bind, !wp_mod.
  match goal with |- in_space (kpage ?x) _ _ =>
    assert (kpage x = cr0_paging (((kpage s) <| page_dir :=
      <[Z.to_nat i := <[32%nat := prog_entry i]> d]> (page_dir (kpage s)) |>)
      <| cr4 ::= (λ v, Z.lor v 0x10) |> <| cr3 := L_page_dir i |>)) as -> end.
  { repeat case_bool_decide; repeat case_match; reflexivity. }
  unfold cr0_paging. split; upd_cbv; try done.
  - rewrite zlookup_insert, decide_True by (done || lia). by rewrite Hdir.
  - rewrite Z.lor_spec. apply orb_true_r.
  - rewrite Z.lor_spec. apply orb_true_r.
Qed.

(** C25: whatever the tables held, after [initilize_paging] and
    [setup_paging pid] the processor translates every 32-bit address as the
    address space of process [pid] says: kernel page (not for user code),
    video memory, the process's own 4 MB, the terminals' pages, and nothing
    else. *)
Theorem paging_builds_space pid s :
  layout_ok → tables_ok (kpage s) → 0 ≤ pid < 6 →
  wp (_ ← zoom kpage initilize_paging; setup_paging pid)
    (λ _ s', ∀ va, 0 ≤ va < 2 ^ 32 → translate (kpage s') va = space pid false va) s.
Proof.
  intros Hlay Hok Hpid. rewrite wp_bind, wp_zoom.
  eapply wp_run; [by apply initilize_paging_ok|]. cbv beta.
  eapply wp_mono.
  - apply (setup_paging_space _ _ pid false dir_init Hlay eq_refl Hpid); try done.
    cbn. apply zlookup_Some. split; [lia|]. apply (lookup_replicate_2 6). lia.
  - cbv beta. intros _ s' Hs va Hva. by apply (translate_space Hlay).
Qed.

(** [vidmap]'s entry, added to the directory in use, adds exactly the
    video page at [0x8400000] to the space of the caller, and moves no byte
    of memory. *)
Theorem add_vidmap_maps_video i vid b s :
  layout_ok → in_space (kpage s) i vid →
  pcbs (kproc s) !! pcb (kproc s) = Some b → pid b = i →
  wp (add_vidmap 0x8400000)
    (λ _ s', (∀ va, 0 ≤ va < 2 ^ 32 → translate (kpage s') va = space i true va) ∧
             kmem s' = kmem s ∧ kpages s' = kpages s) s.
Proof.
  intros Hlay Hs Hb Hpid. unfold add_vidmap. rewrite wp_bind.
  eapply wp_run; [by apply cur_pcb_ok|]. rewrite Hpid.
  assert (is_Some (zlookup (page_dir (kpage s)) i)) as Hir%zlookup_is_Some
    by (by rewrite (is_dir _ _ _ Hs)).
  rewrite wp_bind, wp_zoom. eapply wp_set_dir; [exact (is_dir _ _ _ Hs)| |].
  { assert (length (proc_dir i vid) = 1024%nat) as ->; [|vm_compute; by split].
    unfold proc_dir, dir_init. destruct vid; dir_len. }
  set (p' := (kpage s) <| page_dir := _ |>). cbv beta.
  assert (in_space p' i true) as Hs'.
  { destruct Hs. split; try done. unfold p'. cbn.
    rewrite zlookup_insert, decide_True by (done || lia). f_equal.
    change (Z.to_nat (138412032 / FOUR_MB)) with 33%nat. unfold proc_dir. destruct vid; [|done].
    by rewrite list_insert_insert_eq. }
  set (s1 := s <| kpage := p' |>).
  eapply wp_run; [apply (update_paging_same Hlay s1 i true Hs')|].
  split; [|done]. intros va Hva. by apply (translate_space Hlay).
Qed.

(** C24: processes are isolated: two processes' program addresses never name
    the same physical byte, and no other address of any space, user or
    kernel, names a byte of a program page. *)
Theorem program_pages_isolated p q i vi j vj va vb a ua ub :
  layout_ok → in_space p i vi → in_space q j vj →
  in_prog va → 0 ≤ vb < 2 ^ 32 →
  translate p va = Some (a, ua) → translate q vb = Some (a, ub) → i = j ∧ va = vb.
Proof.
  intros Hlay Hp Hq Hva Hvb. unfold in_prog, PROG_VIR_ADDR_START, FOUR_MB in Hva.
  rewrite (translate_space Hlay _ _ _ _ Hp) by lia.
  rewrite (translate_space Hlay _ _ _ _ Hq) by lia.
  pose proof (is_pid _ _ _ Hp) as Hi. pose proof (is_pid _ _ _ Hq) as Hj.
  unfold space. intros Ha Hb. case_tests; lia.
Qed.

(** Running another process in between does not touch a program: switch
    to the space of [j], change any bytes [j] can reach at program addresses,
    switch back to [i]: all of [i]'s memory is as before. *)
Theorem switch_back_restores s i vi j vj (w : mem → mem) :
  layout_ok → in_space (kpage s) i vi → 0 ≤ j < 6 → j ≠ i →
  zlookup (page_dir (kpage s)) j = Some (proc_dir j vj) → pages_ok (kpages s) →
  (∀ m a, ¬ in_prog a → w m !! a = m !! a) →
  wp (_ ← update_paging j; _ ← on_mem (kmod w); update_paging i)
    (λ _ s', kmem s' = kmem s ∧ in_space (kpage s') i vi ∧
       ∀ a, in_prog a → (kpages s' !! prog_base j ≫= lookup a)
            = w (show_page (Some (prog_base j)) (kpages s) (kmem s)) !! a) s.
Proof.
  intros Hlay Hs Hj Hne Hd Hpg Hw. rewrite wp_bind.
  eapply wp_run; [by eapply update_paging_ok|]. rewrite wp_bind.
  unfold on_mem. rewrite wp_zoom, wp_mod.
  set (s1 := upd kmem _ (switched s i j)).
  assert (in_space (kpage s1) j vj) as Hs1 by (eapply in_space_load; done).
  eapply wp_run; [eapply (update_paging_ok Hlay s1 j vj i vi Hs1); [apply Hs|done|apply Hs]|].
  assert (prog_base i ≠ prog_base j) as Hb by (unfold prog_base; lia).
  assert (show_page (Some (prog_base j)) (hide_page (Some (prog_base i)) (kpages s) (kmem s)) (kmem s)
    = show_page (Some (prog_base j)) (kpages s) (kmem s)) as Eshow.
  { unfold show_page. do 2 f_equal. cbn. by rewrite lookup_insert_ne. }
  assert (kmem s1 = w (show_page (Some (prog_base j)) (kpages s) (kmem s))) as Em.
  { unfold s1, switched. cbn -[show_page hide_page]. by rewrite Eshow. }
  split; [|split].
  - apply map_eq. intros a. unfold switched. cbn -[show_page hide_page].
    assert (pages_ok (hide_page (Some (prog_base j)) (kpages s1) (kmem s1))) as Hpg1.
    { apply hide_pages_ok. unfold s1, switched. cbn -[hide_page]. by apply hide_pages_ok. }
    destruct (decide (in_prog a)) as [Ha|Ha].
    + rewrite show_page_in by done. cbn. rewrite lookup_insert_ne by done.
      unfold s1, switched. cbn. rewrite lookup_insert_eq. cbn.
      destruct (kmem s !! a) eqn:E; [by apply map_lookup_filter_Some_2|].
      apply map_lookup_filter_None. by left.
    + rewrite show_page_out by done. change (kmem s1 !! a = kmem s !! a).
      by rewrite Em, Hw, show_page_out by done.
  - eapply in_space_load; [exact Hs1|apply Hs|apply Hs].
  - intros a Ha. unfold switched. cbn -[show_page]. rewrite lookup_insert_eq. cbn -[show_page].
    change (filter (λ x, in_prog x.1) (kmem s1) !! a = w (show_page (Some (prog_base j)) (kpages s) (kmem s)) !! a).
    rewrite Em.
    destruct (w _ !! a) eqn:E; [by apply map_lookup_filter_Some_2|].
    apply map_lookup_filter_None. by left.
Qed.
End space.

(** ** Witnesses *)

Lemma paging_builds_space_witness :
  wp (_ ← zoom kpage initilize_paging; setup_paging 3)
    (λ _ s', ∀ va, 0 ≤ va < 2 ^ 32 → translate (kpage s') va = space 3 false va) (ex_state 1).
Proof. apply (paging_builds_space 3); [apply ex_layout_ok|apply ex_tables_ok|lia]. Defined.

Lemma add_vidmap_maps_video_witness :
  wp (add_vidmap 0x8400000)
    (λ _ s', (∀ va, 0 ≤ va < 2 ^ 32 → translate (kpage s') va = space 0 true va) ∧
             kmem s' = kmem ex_paged ∧ kpages s' = kpages ex_paged) ex_paged.
Proof.
  apply (add_vidmap_maps_video 0 false (ex_pcb 1 0 (-1) (-1)));
    [apply ex_layout_ok|apply ex_in_space; lia|reflexivity|reflexivity].
Defined.

Lemma program_pages_isolated_witness :
  translate (ex_space 2 false) 0x8048000 = Some (0x1048000, true) ∧ 2 = 2 ∧ 0x8048000 = 0x8048000.
Proof.
  assert (translate (ex_space 2 false) 0x8048000 = Some (0x1048000, true)) as E
    by (vm_compute; reflexivity).
  split; [exact E|].
  apply (program_pages_isolated (ex_space 2 false) (ex_space 2 false) 2 false 2 false
    0x8048000 0x8048000 0x1048000 true true);
    [apply ex_layout_ok|apply ex_in_space; lia|apply ex_in_space; lia
    |vm_compute; split; [discriminate|reflexivity]|lia|exact E|exact E].
Defined.

