(* ===== verification/DeviceSpec.v ===== *)
(** * What the device drivers promise

    The interrupt lines the kernel enables at boot, and the programming of the
    real-time clock and of the interval timer. *)

From S2P Require Import Prelude CInt Memory CString State I8259 Screen Printf Paging.
From S2P Require Import PagingInit Rtc Pit Process Terminal Keyboard Boot Example.
From S2P Require Import ScreenSpec.

(** ** Interrupt masks *)

(** The mask of every line, and a well-formed trace. *)
Definition masks (M : Z → bool) (io : io_t) : Prop :=
  trace_ok io ∧ ∀ k, 0 ≤ k < 16 → masked io k = M k.

Section masks.
Context `{dev : Device} `{!ImrDevice dev}.

Lemma masks_out M io d p (Q : unit → io_t → Prop) :
  masks M io → p ≠ MASTER_PORT_DATA → p ≠ SLAVE_PORT_DATA →
  (∀ io', masks M io' → Q tt io') → wp (outb d p) Q io.
Proof using Type.
  intros [Ht HM] Hm Hs HQ. apply HQ. split; [apply trace_ok_cons; [done|apply u8_range]|].
  intros k Hk. rewrite masked_other; [by apply HM|]. destruct (line_port_cases k); congruence.
Qed.

Lemma masks_in M io p (Q : Z → io_t → Prop) :
  masks M io → (∀ v io', masks M io' → Q v io') → wp (inb p) Q io.
Proof using Type.
  intros [Ht HM] HQ. apply HQ. split; [apply trace_ok_cons; [done|apply u8_range]|]. done.
Qed.

Lemma masks_cli M io (Q : unit → io_t → Prop) :
  masks M io → (∀ io', masks M io' → Q tt io') → wp cli Q io.
Proof using Type. intros [Ht HM] HQ. apply HQ. split; [by constructor|done]. Qed.
Lemma masks_sti M io (Q : unit → io_t → Prop) :
  masks M io → (∀ io', masks M io' → io_if io' = true → Q tt io') → wp sti Q io.
Proof using Type. intros [Ht HM] HQ. apply HQ; [split; [by constructor|done]|done]. Qed.
Lemma masks_restore M io b (Q : unit → io_t → Prop) :
  masks M io → (∀ io', masks M io' → Q tt io') → wp (restore_flags b) Q io.
Proof using Type. intros [Ht HM] HQ. by apply HQ. Qed.
Lemma masks_save M io (Q : bool → io_t → Prop) :
  masks M io → (∀ b io', masks M io' → Q b io') → wp cli_and_save Q io.
Proof using Type. intros [Ht HM] HQ. apply HQ. split; [by constructor|done]. Qed.

Lemma masks_enable M io n (Q : unit → io_t → Prop) :
  masks M io → 0 ≤ n < 16 →
  (∀ io', masks (λ k, M k && negb (bool_decide (k = n))) io' → Q tt io') →
  wp (enable_irq n) Q io.
Proof using All.
  intros [Ht HM] Hn HQ. eapply wp_mono; [exact (pic_enable_spec (ops := i8259_ops) n io Hn Ht)|].
  cbv beta. intros [] io' [Ht' HM']. apply HQ. split; [done|]. intros k Hk.
  rewrite <-HM by done. by apply HM'.
Qed.

(** After the initialisation every line is masked. *)
Lemma i8259_init_masks io (Q : unit → io_t → Prop) :
  trace_ok io → (∀ io', masks (λ _, true) io' → Q tt io') → wp i8259_init Q io.
Proof using Type.
  intros Ht HQ. apply HQ. split.
  - unfold trace_ok. cbn. repeat (constructor; [first [done|apply u8_range|exact I]|]). exact Ht.
  - intros k Hk. pose proof (Z.mod_pos_bound k 8 ltac:(lia)).
    unfold masked, line_port. case_bool_decide; cbn; bool_lits; cbv match;
      change (u8 DISABLE) with (Z.ones 8); apply Z.ones_spec_low; lia.
Qed.
End masks.

(** One step of a driver: ports other than the masks, or a line enabled. *)
Ltac mask_step :=
  first
  [ rewrite wp_bind
  | rewrite wp_mod
  | progress unfold on_io
  | rewrite wp_zoom; cbn [kio kpage kscr upd Set_kio Set_kpage Set_kscr]
  | eapply masks_out; [eassumption|done|done|]; intros ? ?
  | eapply masks_in; [eassumption|]; intros ? ? ?
  | eapply masks_cli; [eassumption|]; intros ? ?
  | eapply masks_sti; [eassumption|]; intros ? ? ?
  | eapply masks_restore; [eassumption|]; intros ? ?
  | eapply masks_save; [eassumption|]; intros ? ? ?
  | eapply masks_enable; [eassumption|vm_compute; by split|]; intros ? ? ].

Section boot.
Context `{dev : Device} `{!ImrDevice dev} `{Layout}.

(** Talking to the keyboard controller, if it can be talked to. *)
Lemma kb_command_masks M v io (Q : unit → io_t → Prop) :
  masks M io → (∀ io', masks M io' → Q tt io') →
  wp (if bool_decide (v = 0) then _ ← outb RD_CMD KB_STAT; c ← inb KB_PORT;
        _ ← outb WRT_CMD KB_STAT; outb (Z.lor c SET_BITS) KB_PORT else mret tt) Q io.
Proof using Type.
  intros HM HQ. destruct (bool_decide _); [|by apply HQ]. repeat mask_step. by apply HQ.
Qed.

(** Whatever the devices answer, once [entry] has initialised them the
    processor accepts interrupts and exactly four lines are enabled: the
    timer (0), the keyboard (1), the cascade (2) and the clock (8). *)
Theorem init_devices_masks s :
  trace_ok (kio s) → tables_ok (kpage s) →
  wp init_devices (λ _ s', io_if (kio s') = true ∧
    ∀ k, 0 ≤ k < 16 → masked (kio s') k = bool_decide (k ∉ [0; 1; 2; 8])) s.
Proof.
  intros Ht Hp. unfold init_devices, on_io, rtc_init, keyboard_init, pit_init, set_keyInt.
  rewrite wp_bind, wp_zoom. apply i8259_init_masks; [done|]. intros io1 H1.
  repeat mask_step.
  eapply kb_command_masks; [eassumption|]. intros ? ?. repeat mask_step.
  eapply wp_run; [by apply initilize_paging_ok|]. repeat mask_step.
  split; [done|]. intros k Hk.
  match goal with H : masks _ ?io |- masked ?io' k = _ =>
    change io' with io; destruct H as [_ ->]; [|done] end.
  assert (k ∈ seqZ 0 16) as Hin by (apply elem_of_seqZ; lia).
  revert k Hk Hin. intros k _. revert k. apply Forall_forall.
  apply (bool_decide_unpack _). by vm_compute.
Qed.
End boot.

Lemma init_devices_masks_witness :
  wp (init_devices (H := ex_device 0)) (λ _ s', io_if (kio s') = true ∧
    ∀ k, 0 ≤ k < 16 → masked (kio s') k = bool_decide (k ∉ [0; 1; 2; 8])) (ex_state 1).
Proof.
  apply (init_devices_masks (ex_state 1)); [by constructor|apply ex_tables_ok].
Defined.

(** ** The rate of the clock *)

Lemma halve_power k fuel : 0 ≤ k → (Z.to_nat k ≤ fuel)%nat → halve fuel (2 ^ k) = 1.
Proof.
  revert k. induction fuel as [|fuel IH]; intros k Hk Hf; [by replace k with 0 by lia|].
  cbn [halve]. destruct (decide (k = 0)) as [->|Hne]; [done|].
  assert (2 ^ k = 2 * 2 ^ (k - 1)) as E.
  { rewrite <-Z.pow_succ_r by lia. f_equal. lia. }
  pose proof (Z.pow_pos_nonneg 2 (k - 1) ltac:(lia) ltac:(lia)).
  rewrite (bool_decide_eq_true_2 (2 ^ k > 1)) by lia.
  rewrite (bool_decide_eq_true_2 (Z.rem (2 ^ k) 2 = 0)).
  - cbn [andb]. rewrite Z.shiftr_div_pow2 by lia. change (2 ^ 1) with 2.
    rewrite E, (Z.mul_comm 2), Z.div_mul by lia. apply IH; lia.
  - by rewrite E, Z.mul_comm, Z.rem_mul by lia.
Qed.

Lemma halve_one_power fuel f : halve fuel f = 1 → ∃ k, 0 ≤ k ∧ f = 2 ^ k.
Proof.
  revert f. induction fuel as [|fuel IH]; intros f; cbn [halve]; [intros ->; by exists 0|].
  destruct (bool_decide (f > 1) && bool_decide (Z.rem f 2 = 0)) eqn:E.
  - apply andb_true_iff in E as [E1%bool_decide_eq_true E2%bool_decide_eq_true].
    intros (k & Hk & E)%IH. exists (k + 1). split; [lia|].
    rewrite Z.shiftr_div_pow2 in E by lia. change (2 ^ 1) with 2 in E.
    rewrite Z.rem_mod_nonneg in E2 by lia. rewrite Z.pow_add_r by lia.
    pose proof (Z.div_mod f 2 ltac:(lia)). lia.
  - intros ->. by exists 0.
Qed.

(** The rates: [find_rate] inverts the formula of the chip, which interrupts
    [RTC_DEFAULT_FREQ / 2 ^ (rate - 1)] times a second. *)
Lemma find_rate_power k : 0 ≤ k ≤ 10 → find_rate 32 (2 ^ k) 1 = Some (16 - k).
Proof.
  intros Hk. assert (k ∈ seqZ 0 11) as Hin by (apply elem_of_seqZ; lia).
  clear Hk. revert k Hin. apply Forall_forall. apply (bool_decide_unpack _). by vm_compute.
Qed.

Lemma power_small k : 0 ≤ k → 2 ^ k ≤ 1024 → k ≤ 10.
Proof.
  intros Hk H. destruct (decide (k ≤ 10)) as [|Hgt]; [done|].
  pose proof (Z.pow_le_mono_r 2 11 k ltac:(lia) ltac:(lia)). lia.
Qed.

(** The byte for register A. *)
Lemma rate_byte v r : is_u8 v → 0 ≤ r < 16 →
  u8 (s8 (Z.lor (Z.land (s8 v) 0xF0) r)) = v / 16 * 16 + r.
Proof.
  intros Hv Hr.
  assert (v ∈ seqZ 0 256) as Hin by (apply elem_of_seqZ; unfold is_u8 in Hv; lia).
  assert (r ∈ seqZ 0 16) as Hir by (apply elem_of_seqZ; lia).
  assert (Forall (λ v, Forall (λ r,
    u8 (s8 (Z.lor (Z.land (s8 v) 0xF0) r)) = v / 16 * 16 + r) (seqZ 0 16)) (seqZ 0 256)) as H.
  { apply (bool_decide_unpack _). by vm_compute. }
  rewrite Forall_forall in H. specialize (H v Hin). rewrite Forall_forall in H. by apply H.
Qed.

(** The frequencies programs may choose. *)
Definition rtc_freq_ok (freq : Z) : Prop := ∃ k, 1 ≤ k ≤ 10 ∧ freq = 2 ^ k.

(** A message of a short list. *)
Ltac in_msgs := apply list_elem_of_In; cbn [List.In]; auto.

Section rtc.
Context `{dev : Device} `{Layout}.

Lemma rtc_freq_rejected freq : ¬ rtc_freq_ok freq →
  halve 32 freq ≠ 1 ∨ (halve 32 freq = 1 ∧ (freq > 1024 ∨ freq = 1)).
Proof using Type.
  intros Hn. destruct (decide (halve 32 freq = 1)) as [E|E]; [right|by left].
  split; [done|]. apply halve_one_power in E as (k & Hk & ->).
  destruct (decide (2 ^ k > 1024)) as [|Hle]; [by left|right].
  assert (k ≤ 10) by (apply power_small; lia). destruct (decide (k = 0)) as [->|]; [done|].
  exfalso. apply Hn. exists k. split; [lia|done].
Qed.

(** C38: [rtc_write] with a frequency [2 ^ k], [1 <= k <= 10], succeeds. It
    talks to the clock with interrupts off, and what it writes to register A
    keeps the high four bits and sets the rate whose frequency is the one
    asked for. *)
Theorem rtc_write_sets_rate fd buf n k s :
  1 ≤ k ≤ 10 → bytes_at (kmem s) buf (le32 (2 ^ k)) →
  ∃ v a, is_u8 v ∧ a / 16 = v / 16 ∧ RTC_DEFAULT_FREQ / 2 ^ (a mod 16 - 1) = 2 ^ k ∧
    rtc_write fd buf n s = Ok (0,
      (s <| kio ::= (λ io, (io <| io_trace := [Sti; Out RTC_PORT NMI_ON; Out PORT_DATA a;
             Out RTC_PORT REGA; In PORT_DATA v; Out RTC_PORT REGA; Out RTC_PORT REGB_NONMI; Cli]
             ++ io_trace io |>) <| io_if := true |>) |>)
        <| krtc ::= (λ r, (r <| rtc_cur_freq := 2 ^ k |>) <| rtc_interrupt_count := 0 |>) |>).
Proof.
  intros Hk Hb.
  set (tr := [Out RTC_PORT REGA; Out RTC_PORT REGB_NONMI; Cli] ++ io_trace (kio s)).
  set (v := u8 (dev tr PORT_DATA)). exists v, (v / 16 * 16 + (16 - k)).
  assert (is_u8 v) as Hv by apply u8_range. split; [done|]. split; [|split].
  - rewrite Z.div_add_l by lia. rewrite (Z.div_small (16 - k)) by lia. lia.
  - rewrite Z.add_comm, Z_mod_plus_full, Z.mod_small by lia.
    change RTC_DEFAULT_FREQ with (2 ^ 15). rewrite <-Z.pow_sub_r by lia. f_equal. lia.
  - assert (2 ≤ 2 ^ k ≤ 1024) as Hf.
    { pose proof (Z.pow_le_mono_r 2 1 k ltac:(lia) ltac:(lia)).
      pose proof (Z.pow_le_mono_r 2 k 10 ltac:(lia) ltac:(lia)). lia. }
    unfold rtc_write. erewrite bind_ok.
    2:{ apply on_mem_pure, load32_le32; [exact Hb|unfold is_u32; lia]. }
    cbv zeta beta. rewrite s32_id by (unfold is_s32; lia).
    rewrite halve_power by lia. rewrite (bool_decide_eq_false_2 (1 ≠ 1)) by lia.
    rewrite (bool_decide_eq_false_2 (2 ^ k > RTC_PRGM_MAX_FREQ)) by (unfold RTC_PRGM_MAX_FREQ; lia).
    rewrite (bool_decide_eq_false_2 (2 ^ k ≤ 0)) by lia. cbn [orb].
    rewrite find_rate_power by lia. erewrite bind_ok by reflexivity.
    rewrite (bool_decide_eq_false_2 (16 - k < RTC_RATE_LOW)) by (unfold RTC_RATE_LOW; lia).
    rewrite (bool_decide_eq_false_2 (16 - k > RTC_RATE_HIGH)) by (unfold RTC_RATE_HIGH; lia).
    cbn [orb]. rewrite <-(rate_byte v (16 - k)) by (done || lia). reflexivity.
Qed.

(** Every other 32-bit value is refused with -1: no port is touched and
    the current rate stays; the only effect is a message on the terminal of
    the caller. *)
Theorem rtc_write_rejects fd buf n w s t v :
  is_u32 w → bytes_at (kmem s) buf (le32 w) → ¬ rtc_freq_ok (s32 w) →
  writes_to s t → keyInt (kscr s) = 0 ∨ t = currentTerminal (kscr s) → tty_at s t v →
  ∃ msg s', msg ∈ [msg_not_power; msg_not_valid; msg_rate] ∧
    rtc_write fd buf n s = Ok (-1, s') ∧ tty_at s' t (tty_puts msg v) ∧ same_but_screen s s'.
Proof.
  intros Hw Hb Hn Hwr Hkey Htty.
  assert (∀ msg, msg ∈ [msg_not_power; msg_not_valid; msg_rate] →
    ∃ s', (_ ← printf msg []; mret (-1)) s = Ok (-1, s') ∧ tty_at s' t (tty_puts msg v) ∧
      same_but_screen s s') as Hmsg.
  { intros msg Hin. assert (Forall (λ c, is_u8 c ∧ c ≠ 37) msg) as Hplain.
    { assert (Forall (Forall (λ c, is_u8 c ∧ c ≠ 37)) [msg_not_power; msg_not_valid; msg_rate]) as Ha.
      { apply (bool_decide_unpack _). by vm_compute. }
      rewrite Forall_forall in Ha. by apply Ha. }
    pose proof (printf_plain s t v msg Hwr Hkey Htty Hplain) as Hp.
    apply wp_ok in Hp as (r & s' & E & _ & Hd). exists s'.
    split; [by erewrite bind_ok by exact E|]. split; [|by eapply drawn_same].
    pose proof Hwr as (_ & _ & _ & Ht). eapply drawn_tty; [lia|exact Htty| |exact Hd].
    apply tty_puts_ok; [|apply Htty]. eapply Forall_impl; [exact Hplain|]. by intros ? []. }
  unfold rtc_write. erewrite bind_ok by (by apply on_mem_pure, load32_le32). cbv zeta beta.
  pose proof (rtc_freq_rejected _ Hn) as [Hne|[H1 Hout]].
  - rewrite bool_decide_eq_true_2 by done.
    destruct (Hmsg msg_not_power ltac:(in_msgs)) as (s' & Hs'). exists msg_not_power, s'; split; [in_msgs|exact Hs'].
  - rewrite bool_decide_eq_false_2 by (intros Hx; by apply Hx). destruct Hout as [Hgt|H1'].
    + rewrite (bool_decide_eq_true_2 (s32 w > RTC_PRGM_MAX_FREQ)) by done. cbn [orb].
      destruct (Hmsg msg_not_valid ltac:(in_msgs)) as (s' & Hs'). exists msg_not_valid, s'; split; [in_msgs|exact Hs'].
    + rewrite H1'. bool_lits. cbn [orb]. change (find_rate 32 1 1) with (Some 16).
      erewrite bind_ok by reflexivity. bool_lits. cbn [orb].
      destruct (Hmsg msg_rate ltac:(in_msgs)) as (s' & Hs'). exists msg_rate, s'; split; [in_msgs|exact Hs'].
Qed.
End rtc.

(** A kernel whose program passes [w] to [write]. *)
Definition ex_freq (w : Z) : kstate := (ex_state 1) <| kmem ::= λ m, put_bytes m 0x500000 (le32 w) |>.

Lemma rtc_write_sets_rate_witness :
  ∃ v a, is_u8 v ∧ a / 16 = v / 16 ∧ RTC_DEFAULT_FREQ / 2 ^ (a mod 16 - 1) = 2 ^ 5 ∧
    rtc_write (H := ex_device 0x26) 2 0x500000 4 (ex_freq 32) = Ok (0,
      ((ex_freq 32) <| kio ::= (λ io, (io <| io_trace := [Sti; Out RTC_PORT NMI_ON; Out PORT_DATA a;
             Out RTC_PORT REGA; In PORT_DATA v; Out RTC_PORT REGA; Out RTC_PORT REGB_NONMI; Cli]
             ++ io_trace io |>) <| io_if := true |>) |>)
        <| krtc ::= (λ r, (r <| rtc_cur_freq := 2 ^ 5 |>) <| rtc_interrupt_count := 0 |>) |>).
Proof. apply (rtc_write_sets_rate 2 0x500000 4 5 (ex_freq 32)); [lia|decide_it]. Defined.


(** ** The interval timer *)
Section pit.
Context `{dev : Device}.

(** [pit_set_freq] accepts exactly the channels 0 and 2 (of the bytes)
    with 19 to 1193182 Hz. It then gives the channel, low byte first, the
    16-bit divider nearest below [PIT_FREQ_MAX / freq], with interrupts off;
    otherwise it gives -1 and touches nothing. *)
Theorem pit_set_freq_programs channel freq io :
  is_u8 channel → is_u32 freq →
  if bool_decide ((channel = 0 ∨ channel = 2) ∧ 19 ≤ freq ≤ PIT_FREQ_MAX) then
    ∃ lo hi, is_u8 lo ∧ is_u8 hi ∧
      (lo + 256 * hi) * freq ≤ PIT_FREQ_MAX < (lo + 256 * hi + 1) * freq ∧
      pit_set_freq channel freq io = Ok (0,
        (io <| io_trace := [Sti; Out (0x40 + channel) hi; Out (0x40 + channel) lo;
                            Out 0x43 (64 * channel + 0x36); Cli] ++ io_trace io |>)
          <| io_if := true |>)
  else pit_set_freq channel freq io = Ok (-1, io).
Proof.
  intros Hc Hf. unfold is_u8, is_u32 in *. unfold pit_set_freq, below_PIT_FREQ_MIN, PIT_FREQ_MAX.
  destruct (decide (channel = 0 ∨ channel = 2)) as [Hch|Hch].
  2:{ rewrite bool_decide_eq_false_2 by tauto.
      destruct (decide (channel > 2)).
      - by rewrite (bool_decide_eq_true_2 (channel > 2)).
      - rewrite (bool_decide_eq_false_2 (channel > 2)), (bool_decide_eq_true_2 (channel = 1)) by lia.
        done. }
  rewrite (bool_decide_eq_false_2 (channel > 2)), (bool_decide_eq_false_2 (channel = 1)) by lia.
  cbn [orb]. destruct (decide (19 ≤ freq ≤ 1193182)) as [Hr|Hr].
  2:{ rewrite (bool_decide_eq_false_2 (_ ∧ _)) by tauto.
      destruct (decide (freq > 1193182)).
      - by rewrite (bool_decide_eq_true_2 (freq > 1193182)).
      - rewrite (bool_decide_eq_false_2 (freq > 1193182)),
          (bool_decide_eq_true_2 (freq * 65536 < 1193182)) by lia. done. }
  rewrite bool_decide_eq_true_2 by tauto.
  rewrite (bool_decide_eq_false_2 (freq > 1193182)),
    (bool_decide_eq_false_2 (freq * 65536 < 1193182)) by lia. cbn [orb].
  set (d := 1193182 / freq).
  assert (1 ≤ d < 65536) as Hd.
  { unfold d. split; [apply Z.div_le_lower_bound|apply Z.div_lt_upper_bound]; lia. }
  assert (d * freq ≤ 1193182 < (d + 1) * freq) as Hdf.
  { pose proof (Z.div_mod 1193182 freq ltac:(lia)). pose proof (Z.mod_pos_bound 1193182 freq ltac:(lia)).
    fold d in H. lia. }
  exists (d mod 256), (d / 256).
  assert (0 ≤ d / 256 < 256) as Hhi.
  { split; [apply Z.div_pos; lia|apply Z.div_lt_upper_bound; lia]. }
  pose proof (Z.mod_pos_bound d 256 ltac:(lia)) as Hlo.
  assert (d mod 256 + 256 * (d / 256) = d) as -> by (pose proof (Z.div_mod d 256 ltac:(lia)); lia).
  split; [done|]. split; [done|]. split; [exact Hdf|].
  rewrite (u16_id d) by lia.
  assert (u8 (PIT_SET_RATE_CMD + Z.shiftl channel 6) = 64 * channel + 0x36) as E0.
  { destruct Hch as [->| ->]; reflexivity. }
  assert (u8 (Z.land d 0xFF) = d mod 256) as E1.
  { change 0xFF with (Z.ones 8). rewrite Z.land_ones by lia. by apply u8_u8. }
  assert (u8 (Z.shiftr d 8) = d / 256) as E2.
  { rewrite Z.shiftr_div_pow2 by lia. apply u8_id. done. }
  rewrite <-E0, <-E1, <-E2. reflexivity.
Qed.
End pit.

