(* ===== verification/BootSpec.v ===== *)
(** * What the boot code promises

    The gates of the interrupt descriptor table as the processor decodes
    them, and the base and limit of the segment descriptors. *)

From S2P Require Import Prelude CInt Memory CString State Boot.

(** ** Numbers split into parts *)

Lemma land_ones_mod a n m : 0 ≤ n → m = Z.ones n → Z.land a m = a mod 2 ^ n.
Proof. intros Hn ->. by apply Z.land_ones. Qed.

Lemma land_high a : is_u32 a → Z.shiftr (Z.land a 0xFFFF0000) 16 = a / 2 ^ 16.
Proof.
  unfold is_u32. intros Ha. rewrite Z.shiftr_land. change (Z.shiftr 0xFFFF0000 16) with (Z.ones 16).
  rewrite Z.shiftr_div_pow2, Z.land_ones by lia. apply Z.mod_small.
  split; [apply Z.div_pos; lia|apply Z.div_lt_upper_bound; lia].
Qed.

(** The four bytes of an address kept in two halves. *)
Lemma halves_le32 a : is_u32 a →
  of_le32 (u8 (Z.land a 0xFFFF)) (u8 (Z.shiftr (Z.land a 0xFFFF) 8))
    (u8 (a / 2 ^ 16)) (u8 (Z.shiftr (a / 2 ^ 16) 8)) = a.
Proof.
  unfold is_u32. intros Ha. rewrite (land_ones_mod a 16) by done.
  rewrite !Z.shiftr_div_pow2 by lia. unfold u8, of_le32.
  Z.to_euclidean_division_equations. lia.
Qed.

(** ** Interrupt gates *)

(** A present gate, decoded from its bytes. *)
Lemma gate_decodes h r3 d e :
  is_u32 h → 0 ≤ r3 < 2 → 0 ≤ d < 4 →
  decode_gate (idt_bytes (SET_IDT_ENTRY h (gate r3 d e))) =
    Some (Mk_gate h KERNEL_CS (14 + r3) d).
Proof.
  intros Hh Hr Hd. unfold decode_gate, idt_bytes, SET_IDT_ENTRY, gate. cbn [offset_15_00
    seg_selector reserved4 reserved3 reserved2 reserved1 size_bit reserved0 dpl present offset_31_16].
  rewrite land_high, halves_le32 by done.
  assert (r3 = 0 ∨ r3 = 1) as Hr' by lia. assert (d = 0 ∨ d = 1 ∨ d = 2 ∨ d = 3) as Hd' by lia.
  destruct Hr' as [->| ->], Hd' as [->|[->|[->| ->]]]; reflexivity.
Qed.

Section idt.
Context `{Handlers}.

(** The entry points are addresses. *)
Definition handlers_ok : Prop :=
  is_u32 exception_print_general ∧ is_u32 exception_user_program_entry ∧
  is_u32 pit_handler_wrapper ∧ is_u32 keyboard_handler_wrapper ∧ is_u32 rtc_handler_wrapper ∧
  is_u32 syscall_handler_entry.

(** What the processor must do at a vector. *)
Definition vector_gate (v : Z) : option gate_t :=
  if bool_decide (v ∈ own_vectors) then Some (Mk_gate exception_user_program_entry KERNEL_CS 14 0)
  else if bool_decide (v < 32) then Some (Mk_gate exception_print_general KERNEL_CS 14 0)
  else if bool_decide (v = 0x20) then Some (Mk_gate pit_handler_wrapper KERNEL_CS 14 0)
  else if bool_decide (v = 0x21) then Some (Mk_gate keyboard_handler_wrapper KERNEL_CS 14 0)
  else if bool_decide (v = 0x28) then Some (Mk_gate rtc_handler_wrapper KERNEL_CS 14 0)
  else if bool_decide (v = 0x80) then Some (Mk_gate syscall_handler_entry KERNEL_CS 15 3)
  else None.

(** The table [entry] leaves. *)
Definition final_entry (v : Z) : idt_desc_t :=
  if bool_decide (v ∈ own_vectors) then SET_IDT_ENTRY exception_user_program_entry (gate 0 0 idt_zero)
  else if bool_decide (v < 32) then SET_IDT_ENTRY exception_print_general (gate 0 0 idt_zero)
  else if bool_decide (v = 0x20) then SET_IDT_ENTRY pit_handler_wrapper (gate 0 0 idt_zero)
  else if bool_decide (v = 0x21) then SET_IDT_ENTRY keyboard_handler_wrapper (gate 0 0 idt_zero)
  else if bool_decide (v = 0x28) then SET_IDT_ENTRY rtc_handler_wrapper (gate 0 0 idt_zero)
  else if bool_decide (v = 0x80) then SET_IDT_ENTRY syscall_handler_entry (gate 1 3 idt_zero)
  else idt_zero.

Lemma setup_idt_table :
  (_ ← setup_idt; squash_exceptions) (replicate 256 idt_zero) =
    Ok (tt, final_entry <$> seqZ 0 256).
Proof using Type. cbv -[Z.land Z.shiftr]. reflexivity. Qed.

(** That table, as the processor decodes it. *)
Definition final_table : list idt_desc_t := final_entry <$> seqZ 0 256.
Lemma final_gates : handlers_ok → length final_table = 256%nat ∧
  ∀ v, 0 ≤ v < 256 → (decode_gate ∘ idt_bytes <$> zlookup final_table v) = Some (vector_gate v).
Proof using Type.
  intros (Hg & Hu & Hp & Hk & Hr & Hs). unfold final_table. split; [by rewrite length_fmap, length_seqZ|].
  intros v Hv. assert (zlookup (final_entry <$> seqZ 0 256) v = Some (final_entry v)) as ->.
  { apply zlookup_Some. split; [lia|]. rewrite list_lookup_fmap, lookup_seqZ_lt by lia.
    cbn. do 2 f_equal. lia. }
  cbn [fmap option_fmap option_map]. f_equal. unfold compose, final_entry, vector_gate.
  repeat case_bool_decide; try (rewrite gate_decodes by (done || lia); reflexivity).
  reflexivity.
Qed.

(** From the empty table, [entry] builds the one it means to: as the
    processor decodes it, each exception goes to the handler that ends the
    program (15 and 20 to 31 to the general one), the three device vectors
    to their wrappers, all through interrupt gates closed to user code; only
    vector [0x80], a trap gate, can be called by programs, and no other
    vector is present. *)
Theorem idt_gates :
  handlers_ok →
  ∃ t, (_ ← setup_idt; squash_exceptions) (replicate 256 idt_zero) = Ok (tt, t) ∧
    length t = 256%nat ∧
    ∀ v, 0 ≤ v < 256 → (decode_gate ∘ idt_bytes <$> zlookup t v) = Some (vector_gate v).
Proof.
  intros Hh. exists final_table. split; [apply setup_idt_table|]. by apply final_gates.
Qed.
End idt.

#[global] Instance ex_handlers : Handlers := {|
  exception_print := λ i, 0x401000 + 16 * i; exception_print_general := 0x402000;
  exception_user_program_entry := 0x402100; pit_handler_wrapper := 0x402200;
  keyboard_handler_wrapper := 0x402300; rtc_handler_wrapper := 0x402400;
  syscall_handler_entry := 0xFF402500 |}.

(** ** Segment descriptors *)

Lemma land_mid a : Z.shiftr (Z.land a 0xFF0000) 16 = (a / 2 ^ 16) mod 2 ^ 8.
Proof.
  rewrite Z.shiftr_land. change (Z.shiftr 0xFF0000 16) with (Z.ones 8).
  by rewrite Z.shiftr_div_pow2, Z.land_ones by lia.
Qed.
Lemma land_top a : Z.shiftr (Z.land a 0xFF000000) 24 = (a / 2 ^ 24) mod 2 ^ 8.
Proof.
  rewrite Z.shiftr_land. change (Z.shiftr 0xFF000000 24) with (Z.ones 8).
  by rewrite Z.shiftr_div_pow2, Z.land_ones by lia.
Qed.
Lemma land_nibble a : Z.land (Z.shiftr (Z.land a 0xF0000) 16) 0xF = (a / 2 ^ 16) mod 2 ^ 4.
Proof.
  rewrite Z.shiftr_land. change (Z.shiftr 0xF0000 16) with (Z.ones 4).
  rewrite Z.shiftr_div_pow2, !(land_ones_mod _ 4) by (lia || done).
  rewrite Z.mod_mod by lia. done.
Qed.

(** The descriptors made with [SET_LDT_PARAMS] and [SET_TSS_PARAMS] hold
    the base address and the limit they are given, for every address and
    every limit of 20 bits. *)
Lemma seg_params_roundtrip d addr lim :
  is_u32 addr → 0 ≤ lim < 2 ^ 20 →
  0 ≤ seg_avail d < 2 → 0 ≤ seg_reserved d < 2 → 0 ≤ seg_opsize d < 2 →
  0 ≤ seg_granularity d < 2 →
  seg_base (seg_bytes (set_seg_params d addr lim)) = Some addr ∧
  seg_limit (seg_bytes (set_seg_params d addr lim)) = Some lim.
Proof.
  unfold is_u32. intros Ha Hl H1 H2 H3 H4.
  unfold seg_base, seg_limit, seg_bytes, set_seg_params. cbn [seg_lim_15_00 base_15_00
    base_23_16 seg_type seg_sys seg_dpl seg_present seg_lim_19_16 seg_avail seg_reserved
    seg_opsize seg_granularity base_31_24].
  rewrite land_mid, land_top, land_nibble, !(land_ones_mod _ 16), (land_ones_mod _ 4) by done.
  rewrite !Z.shiftr_div_pow2 by lia. unfold of_le32, u8.
  split; f_equal; Z.to_euclidean_division_equations; lia.
Qed.
