(* ===== verification/ParseSpec.v ===== *)
(** * Commands

    Splitting a command line into the program and its argument. *)

From S2P Require Import Prelude CInt Memory CString State Screen Printf FS FSSpec.
From S2P Require Import ExecHelper Process Example.

(** The characters before the first that satisfies [p]. *)
Fixpoint upto (p : Z → bool) (l : list Z) : list Z :=
  match l with
  | [] => []
  | c :: l => if p c then [] else c :: upto p l
  end.
Lemma upto_split p l :
  ∃ rest, l = upto p l ++ rest ∧ Forall (λ c, p c = false) (upto p l) ∧
    match rest with [] => True | c :: _ => p c = true end.
Proof.
  induction l as [|c l (rest & E & Hf & Hr)]; cbn; [by exists []|].
  destruct (p c) eqn:Ep; [by exists (c :: l)|].
  exists rest. split; [by rewrite E at 1|]. split; [by constructor|done].
Qed.

Definition ends_word (c : Z) : bool := bool_decide (c = 32) || bool_decide (c = 10).
Definition ends_line (c : Z) : bool := bool_decide (c = 10).
(** The program: up to the first space or the end of the line. *)
Definition cmd_word (s : list Z) : list Z := upto ends_word s.
(** The argument: the rest of the line after one space, at most 31 characters. *)
Definition after_word (s : list Z) : list Z :=
  let r := drop (length (cmd_word s)) s in
  match r with c :: r' => if bool_decide (c = 32) then r' else r | [] => [] end.
Definition cmd_args (s : list Z) : list Z := take 31 (upto ends_line (after_word s)).

(** ** The two loops *)

Lemma parse_cmd_ok m command cmd s fuel done todo :
  cstr_at m command s → cmd_word s = done ++ todo →
  mapped m cmd (Z.of_nat (length (cmd_word s))) →
  disjoint_range cmd (Z.of_nat (length (cmd_word s))) command (Z.of_nat (length s) + 1) →
  (length todo < fuel)%nat →
  parse_cmd fuel command cmd (Z.of_nat (length done)) (put_bytes m cmd done) =
    Ok (Z.of_nat (length (cmd_word s)), put_bytes m cmd (cmd_word s)).
Proof.
  intros Hs Hw Hm Hd. destruct (upto_split ends_word s) as (rest & E & Hf & Hr).
  fold (cmd_word s) in E, Hf. set (w := cmd_word s) in *.
  assert (∀ (i : nat) c x, (s ++ [0]) !! i = Some c → (length x ≤ length w)%nat →
    load8 (command + Z.of_nat i) (put_bytes m cmd x) = Ok (c, put_bytes m cmd x)) as Hload.
  { intros i c x Hi Hx. eapply copy_load; [apply Hs|exact Hi|].
    rewrite length_app. cbn [length]. unfold disjoint_range in *. lia. }
  revert fuel done Hw. induction todo as [|c todo IH]; intros fuel dn Hw Hfuel;
    (destruct fuel as [|fuel]; [cbn in Hfuel; lia|]); cbn [parse_cmd].
  - rewrite app_nil_r in Hw. rewrite <-Hw. destruct rest as [|c rest].
    + rewrite app_nil_r in E. erewrite bind_ok.
      2:{ apply (Hload _ 0); [|done]. rewrite <-E, lookup_app_r, Nat.sub_diag by lia. done. }
      by rewrite (bool_decide_eq_false_2 (0 ≠ 0)), andb_false_r by lia.
    + erewrite bind_ok.
      2:{ apply (Hload _ c); [|done]. rewrite E, <-app_assoc. by apply list_lookup_middle. }
      unfold ends_word in Hr. apply orb_true_iff in Hr as [->%bool_decide_eq_true| ->%bool_decide_eq_true];
        bool_lits; done.
  - assert (∀ x, (length x ≤ length w)%nat →
      load8 (command + Z.of_nat (length dn)) (put_bytes m cmd x) = Ok (c, put_bytes m cmd x)) as Hc.
    { intros x Hx. apply Hload; [|done]. rewrite E, Hw, <-!app_assoc. by apply list_lookup_middle. }
    assert (length dn < length w)%nat as Hlt by (rewrite Hw, length_app; cbn; lia).
    rewrite Hw in Hf. apply Forall_app in Hf as [_ Hf%Forall_cons]. destruct Hf as [Hc0 _].
    unfold ends_word in Hc0. apply orb_false_iff in Hc0 as [Hc1%bool_decide_eq_false Hc2%bool_decide_eq_false].
    assert (is_char c) as Hch.
    { destruct Hs as [_ Hs]. rewrite E, Hw in Hs.
      apply Forall_app in Hs as [Hs _]. apply Forall_app in Hs as [_ Hs%Forall_cons]. apply Hs. }
    unfold is_char in Hch.
    erewrite bind_ok by (apply Hc; lia).
    rewrite !bool_decide_eq_true_2 by lia. cbn [andb].
    erewrite bind_ok by (apply Hc; lia). erewrite bind_ok.
    2:{ apply copy_store. eapply mapped_sub; [done|lia|lia]. }
    rewrite u8_id by (unfold is_u8; lia).
    replace (Z.of_nat (length dn) + 1) with (Z.of_nat (length (dn ++ [c])))
      by (rewrite length_app; cbn; lia).
    apply IH; [rewrite Hw, <-app_assoc; reflexivity|cbn in Hfuel; lia].
Qed.

Lemma parse_args_ok m command args s i fuel done todo :
  bytes_at m (command + i) (s ++ [0]) → Forall is_char s →
  take 31 (upto ends_line s) = done ++ todo → (todo = [] → (length done < 31)%nat) →
  mapped m args 32 → disjoint_range args 32 (command + i) (Z.of_nat (length s) + 1) →
  (length todo < fuel)%nat →
  parse_args fuel command args (Z.of_nat (length done)) (i + Z.of_nat (length done))
      (put_bytes m args done) =
    Ok (Z.of_nat (length (done ++ todo)), put_bytes m args (done ++ todo)).
Proof.
  intros Hs Hch Hw Hend Hm Hd. destruct (upto_split ends_line s) as (rest & E & Hf & Hr).
  set (w := upto ends_line s) in *.
  assert (length (done ++ todo) ≤ 31)%nat as Hlen by (rewrite <-Hw, length_take; lia).
  assert (∀ (k : nat) c x, (s ++ [0]) !! k = Some c → (length x ≤ 31)%nat →
    load8 (command + (i + Z.of_nat k)) (put_bytes m args x) = Ok (c, put_bytes m args x)) as Hload.
  { intros k c x Hk Hx. rewrite Z.add_assoc. eapply copy_load; [apply Hs|exact Hk|].
    rewrite length_app. cbn [length]. unfold disjoint_range in *. lia. }
  revert fuel done Hw Hend Hlen. induction todo as [|c todo IH]; intros fuel dn Hw Hend Hlen Hfuel;
    (destruct fuel as [|fuel]; [cbn in Hfuel; lia|]); cbn [parse_args].
  - rewrite app_nil_r in *. specialize (Hend eq_refl).
    assert (w = dn) as Ew.
    { rewrite <-Hw. rewrite take_ge; [done|]. destruct (decide (length w ≤ 31)%nat); [done|].
      rewrite <-Hw, length_take in Hend. lia. }
    destruct rest as [|c rest].
    + rewrite app_nil_r in E. erewrite bind_ok.
      2:{ apply (Hload _ 0); [|lia]. rewrite E, Ew, lookup_app_r, Nat.sub_diag by lia. done. }
      by rewrite (bool_decide_eq_false_2 (0 ≠ 0)), andb_false_r by lia.
    + erewrite bind_ok.
      2:{ apply (Hload _ c); [|lia]. rewrite E, Ew, <-app_assoc. by apply list_lookup_middle. }
      apply bool_decide_eq_true in Hr as ->. bool_lits. done.
  - rewrite length_app in Hlen. cbn in Hlen.
    assert (w !! length dn = Some c) as Hwc.
    { assert (take 31 w !! length dn = Some c) as Ht by (rewrite Hw; by apply list_lookup_middle).
      by apply lookup_take_Some in Ht as [Ht _]. }
    assert (∀ x, (length x ≤ 31)%nat → load8 (command + (i + Z.of_nat (length dn)))
      (put_bytes m args x) = Ok (c, put_bytes m args x)) as Hc.
    { intros x Hx. apply Hload; [|done]. pose proof (lookup_lt_Some _ _ _ Hwc).
      rewrite E, <-app_assoc, lookup_app_l by lia. done. }
    assert (c ≠ 10) as Hc10.
    { rewrite Forall_lookup in Hf. specialize (Hf _ _ Hwc).
      by apply bool_decide_eq_false in Hf. }
    assert (is_char c) as Hcc.
    { rewrite Forall_lookup in Hch. apply (Hch (length dn)). rewrite E.
      by rewrite lookup_app_l by (by eapply lookup_lt_Some). }
    unfold is_char in Hcc. erewrite bind_ok by (apply Hc; lia).
    rewrite !bool_decide_eq_true_2 by lia. cbn [andb].
    erewrite bind_ok by (apply Hc; lia). erewrite bind_ok.
    2:{ apply copy_store. eapply mapped_sub; [done|lia|lia]. }
    rewrite u8_id by (unfold is_u8; lia). unfold ARGSIZE.
    replace (Z.of_nat (length dn) + 1) with (Z.of_nat (length (dn ++ [c])))
      by (rewrite length_app; cbn; lia).
    replace (i + Z.of_nat (length dn) + 1) with (i + Z.of_nat (length (dn ++ [c])))
      by (rewrite length_app; cbn; lia).
    rewrite (cons_middle c dn todo), app_assoc. case_bool_decide as H31.
    + assert (todo = []) as ->.
      { destruct todo as [|d todo]; [done|]. rewrite length_app in H31. cbn in H31, Hlen. lia. }
      by rewrite app_nil_r.
    + apply IH; [by rewrite Hw, <-app_assoc| |rewrite !length_app; cbn in *; lia|cbn in Hfuel; lia].
      intros ->. rewrite length_app in H31 |- *. cbn in *. lia.
Qed.

(** ** The zeroed buffers *)

Lemma zero_array_ok m a n :
  mapped m a n → zero_array a n m = Ok (tt, put_bytes m a (replicate (Z.to_nat n) 0)).
Proof.
  intros Hm. unfold zero_array.
  enough (wp (for_loop (Z.to_nat n) 0 (λ i, store8 (a + i) 0))
    (λ _ m', m' = put_bytes m a (replicate (Z.to_nat n) 0)) m) as Hwp
    by (apply wp_ok in Hwp as ([] & q & E & ->); exact E).
  eapply wp_mono.
  - apply (wp_for _ (λ i m', m' = put_bytes m a (replicate (Z.to_nat i) 0))); [done|].
    intros j m' Hj ->. eapply wp_run.
    + replace (a + j) with (a + Z.of_nat (length (replicate (Z.to_nat j) 0)))
        by (rewrite length_replicate; lia).
      apply copy_store. rewrite length_replicate. eapply mapped_sub; [exact Hm|lia|lia].
    + cbv beta. change (u8 0) with 0. f_equal.
      replace (Z.to_nat (j + 1)) with (Z.to_nat j + 1)%nat by lia. by rewrite replicate_add.
  - cbv beta. intros _ m' ->. by replace (Z.to_nat (0 + Z.of_nat (Z.to_nat n))) with (Z.to_nat n) by lia.
Qed.

(** Bytes over a zeroed buffer. *)
Definition pad (n : nat) (l : list Z) : list Z := l ++ replicate (n - length l) 0.
Lemma length_pad n l : (length l ≤ n)%nat → length (pad n l) = n.
Proof. intros. unfold pad. rewrite length_app, length_replicate. lia. Qed.
Lemma pad_lookup n l i : pad n l !! i =
  if decide (i < length l)%nat then l !! i else if decide (i < n)%nat then Some 0 else None.
Proof.
  unfold pad. case_decide; [by apply lookup_app_l|]. rewrite lookup_app_r by lia.
  case_decide; [apply lookup_replicate_2; lia|apply lookup_ge_None_2; rewrite length_replicate; lia].
Qed.
Lemma put_zeroed m a n l : (length l ≤ n)%nat →
  put_bytes (put_bytes m a (replicate n 0)) a l = put_bytes m a (pad n l).
Proof.
  intros Hl. apply map_eq. intros x. rewrite !put_bytes_lookup, length_replicate, length_pad by done.
  repeat case_decide; try lia; try done.
  - rewrite pad_lookup, decide_True by lia. done.
  - rewrite pad_lookup, decide_False, decide_True by lia. apply lookup_replicate_2. lia.
Qed.
Lemma put_comm m a l b k :
  disjoint_range a (Z.of_nat (length l)) b (Z.of_nat (length k)) →
  put_bytes (put_bytes m a l) b k = put_bytes (put_bytes m b k) a l.
Proof.
  unfold disjoint_range. intros Hd. apply map_eq. intros x. rewrite !put_bytes_lookup.
  repeat case_decide; done || lia.
Qed.
Lemma pad_cstr m a n l : (length l < n)%nat → Forall is_char l →
  cstr_at (put_bytes m a (pad n l)) a l.
Proof.
  intros Hl Hc. split; [|done]. pose proof (put_bytes_at m a (pad n l)) as H.
  unfold pad in H at 2. destruct (n - length l)%nat as [|k] eqn:E; [lia|]. cbn [replicate] in H.
  rewrite cons_middle, app_assoc, bytes_at_app in H. apply H.
Qed.

Lemma after_word_at m command s i :
  cstr_at m command s →
  i = Z.of_nat (length (cmd_word s)) →
  ∃ c, load8 (command + i) m = Ok (c, m) ∧
    bytes_at m (command + (if bool_decide (c = 32) then i + 1 else i)) (after_word s ++ [0]) ∧
    Z.of_nat (length (after_word s)) + (if bool_decide (c = 32) then i + 1 else i)
      = Z.of_nat (length s).
Proof.
  intros Hs ->. destruct (upto_split ends_word s) as (rest & E & Hf & Hr).
  fold (cmd_word s) in E, Hf. unfold after_word. cbv zeta.
  assert (drop (length (cmd_word s)) s = rest) as -> by (rewrite E at 2; by rewrite drop_app_length).
  pose proof Hs as [Hb _]. set (w := cmd_word s) in *. rewrite E, <-app_assoc, bytes_at_app in Hb.
  destruct Hb as [_ Hb]. destruct rest as [|c rest].
  - exists 0. rewrite app_nil_r in E. split; [|split].
    + rewrite <-E. by apply cstr_at_end.
    + bool_lits. exact Hb.
    + bool_lits. rewrite <-E. cbn. lia.
  - exists c. cbn in Hb. destruct Hb as [Hc Hb]. split; [by apply load8_ok|].
    rewrite E, length_app. cbn [length]. case_bool_decide as H32.
    + split; [by rewrite Z.add_assoc|lia].
    + split; [by split|cbn [length]; lia].
Qed.

Lemma parser_splits m command cmd args s :
  cstr_at m command s → Z.of_nat (length (cmd_word s)) < 1024 →
  mapped m cmd 1024 → mapped m args 32 → disjoint_range cmd 1024 args 32 →
  disjoint_range cmd 1024 command (Z.of_nat (length s) + 1) →
  disjoint_range args 32 command (Z.of_nat (length s) + 1) →
  ∃ m', (_ ← zero_array cmd 1024; _ ← zero_array args ARGSIZE; parser command cmd args) m
      = Ok (tt, m') ∧
    cstr_at m' cmd (cmd_word s) ∧ cstr_at m' args (cmd_args s) ∧ dom m' = dom m ∧
    ∀ a, ¬ (cmd ≤ a < cmd + 1024) → ¬ (args ≤ a < args + 32) → m' !! a = m !! a.
Proof.
  intros Hs Hw Hmc Hma Hca Hdc Hda. unfold ARGSIZE, disjoint_range in *.
  assert (length (cmd_word s) ≤ length s)%nat as Hws.
  { destruct (upto_split ends_word s) as (rest & E & _). fold (cmd_word s) in E.
    rewrite E at 2. rewrite length_app. lia. }
  assert (length (cmd_args s) ≤ 31)%nat as Has by (unfold cmd_args; rewrite length_take; lia).
  assert (Forall is_char s) as Hch by apply Hs.
  assert (Forall is_char (cmd_word s)) as Hwc.
  { destruct (upto_split ends_word s) as (rest & E & _). fold (cmd_word s) in E.
    rewrite E in Hch. by apply Forall_app in Hch as [? _]. }
  assert (Forall is_char (after_word s)) as Hac.
  { unfold after_word. cbv zeta. pose proof (Forall_drop _ (length (cmd_word s)) _ Hch) as Hd.
    destruct (drop _ s) as [|c r]; [done|]. case_bool_decide; [|done]. by inversion Hd. }
  assert (Forall is_char (cmd_args s)) as Hargc.
  { unfold cmd_args. apply Forall_take. destruct (upto_split ends_line (after_word s)) as (rest & E & _).
    rewrite E in Hac. by apply Forall_app in Hac as [? _]. }
  set (m1 := put_bytes m cmd (replicate 1024 0)).
  assert (dom m1 = dom m) as Hd1 by (by apply put_bytes_dom).
  set (m2 := put_bytes m1 args (replicate 32 0)).
  assert (dom m2 = dom m) as Hd2.
  { rewrite <-Hd1. apply put_bytes_dom. by eapply mapped_dom. }
  assert (cstr_at m2 command s) as Hs2.
  { apply cstr_at_put_disjoint; [rewrite length_replicate; unfold disjoint_range; lia|].
    apply cstr_at_put_disjoint; [rewrite length_replicate; unfold disjoint_range; lia|done]. }
  set (m3 := put_bytes m2 cmd (cmd_word s)).
  assert (dom m3 = dom m) as Hd3.
  { rewrite <-Hd2. apply put_bytes_dom. eapply mapped_dom; [exact Hd2|].
    eapply mapped_sub; [exact Hmc|lia|lia]. }
  set (m4 := put_bytes m3 args (cmd_args s)).
  exists (put_bytes (put_bytes m cmd (pad 1024 (cmd_word s))) args (pad 32 (cmd_args s))).
  assert (m4 = put_bytes (put_bytes m cmd (pad 1024 (cmd_word s))) args (pad 32 (cmd_args s))) as E4.
  { unfold m4, m3, m2, m1. rewrite (put_comm (put_bytes m cmd (replicate 1024 0)) args (replicate 32 0) cmd)
      by (rewrite length_replicate; unfold disjoint_range; lia).
    by rewrite !put_zeroed by lia. }
  assert (cstr_at m3 command s) as Hs3.
  { apply cstr_at_put_disjoint; [unfold disjoint_range; lia|done]. }
  destruct (after_word_at m3 command s _ Hs3 eq_refl) as (c & Hc & Hrest & Hlen).
  set (i := if bool_decide (c = 32) then _ else _) in *.
  assert (0 ≤ i) as Hi by (unfold i; case_bool_decide; lia).
  split; [|split; [|split; [|split]]].
  - erewrite bind_ok by (by apply zero_array_ok). change (Z.to_nat 1024) with 1024%nat. fold m1.
    erewrite bind_ok by (apply zero_array_ok; by eapply mapped_dom).
    change (Z.to_nat 32) with 32%nat. fold m2. unfold parser, mem_fuel. erewrite bind_ok.
    2:{ apply (parse_cmd_ok m2 command cmd s _ [] (cmd_word s)); [done|done| | |].
        - eapply mapped_dom; [exact Hd2|]. eapply mapped_sub; [exact Hmc|lia|lia].
        - unfold disjoint_range. lia.
        - pose proof (cstr_at_size _ _ _ Hs2). lia. }
    fold m3. erewrite bind_ok by exact Hc. cbv zeta. fold i. clearbody i.
    pose proof (parse_args_ok m3 command args (after_word s) i (Z.to_nat ARGSIZE) []
      (cmd_args s) Hrest Hac eq_refl ltac:(cbn; lia)) as Hpa.
    cbn [length app put_bytes] in Hpa. rewrite Z.add_0_r in Hpa. erewrite bind_ok.
    2:{ apply Hpa; [by eapply mapped_dom|unfold disjoint_range; lia|].
        unfold ARGSIZE. lia. }
    fold m4. rewrite <-E4. case_bool_decide as H31; [|done].
    rewrite store8_ok.
    + rewrite E4. change (u8 0) with 0. do 2 f_equal. unfold ARGSIZE in H31.
      rewrite put_bytes_insert by (rewrite length_pad by lia; lia). f_equal.
      apply list_insert_id. rewrite pad_lookup.
      rewrite decide_False, decide_True by lia. done.
    + apply elem_of_dom. unfold m4. rewrite put_bytes_dom, Hd3.
      * apply elem_of_dom. rewrite mapped_spec in Hma. apply Hma. lia.
      * eapply mapped_dom; [exact Hd3|]. eapply mapped_sub; [exact Hma|lia|lia].
  - apply cstr_at_put_disjoint; [rewrite length_pad by lia; unfold disjoint_range; lia|].
    apply pad_cstr; [lia|done].
  - apply pad_cstr; [lia|done].
  - rewrite <-E4. unfold m4. rewrite put_bytes_dom; [exact Hd3|].
    eapply mapped_dom; [exact Hd3|]. eapply mapped_sub; [exact Hma|lia|lia].
  - intros a H1 H2. rewrite !put_bytes_outside; rewrite ?length_pad by lia; done || lia.
Qed.

(** C33: on a command line that fits its buffer, the start of [sys_execute]
    (the zeroed buffers and [parser]) leaves the first word of the line as a
    string in [cmd] and the rest of the line, up to 31 characters, as a
    string in [args]; it writes nothing else. *)
Theorem parser_splits_command m command cmd args s :
  cstr_at m command s → Z.of_nat (length (cmd_word s)) < 1024 →
  mapped m cmd 1024 → mapped m args 32 → disjoint_range cmd 1024 args 32 →
  disjoint_range cmd 1024 command (Z.of_nat (length s) + 1) →
  disjoint_range args 32 command (Z.of_nat (length s) + 1) →
  ∃ m', (_ ← zero_array cmd 1024; _ ← zero_array args ARGSIZE; parser command cmd args) m
      = Ok (tt, m') ∧
    cstr_at m' cmd (cmd_word s) ∧ cstr_at m' args (cmd_args s) ∧ dom m' = dom m ∧
    ∀ a, ¬ (cmd ≤ a < cmd + 1024) → ¬ (args ≤ a < args + 32) → m' !! a = m !! a.
Proof. apply parser_splits. Qed.

Definition ex_line_mem : mem := put_bytes ex_mem 0x500300 (chars "cat  frame0.txt" ++ newline ++ [0]).
Lemma parser_splits_command_witness :
  ∃ m', (_ ← zero_array (L_cmd ex_esp) 1024; _ ← zero_array (L_args ex_esp) ARGSIZE;
         parser 0x500300 (L_cmd ex_esp) (L_args ex_esp)) ex_line_mem = Ok (tt, m') ∧
    cstr_at m' (L_cmd ex_esp) (cmd_word (chars "cat  frame0.txt" ++ newline)) ∧
    cstr_at m' (L_args ex_esp) (cmd_args (chars "cat  frame0.txt" ++ newline)) ∧
    dom m' = dom ex_line_mem ∧
    ∀ a, ¬ (L_cmd ex_esp ≤ a < L_cmd ex_esp + 1024) →
      ¬ (L_args ex_esp ≤ a < L_args ex_esp + 32) → m' !! a = ex_line_mem !! a.
Proof.
  apply (parser_splits_command ex_line_mem 0x500300 (L_cmd ex_esp) (L_args ex_esp)
    (chars "cat  frame0.txt" ++ newline)); decide_it.
Defined.
