(* ===== verification/ExecSpec.v ===== *)
(** * Programs

    What [checkExe] accepts, and the memory the loading of a program leaves. *)

From S2P Require Import Prelude CInt Memory CString State Screen Printf Paging PagingInit.
From S2P Require Import Translate FS FSSpec ExecHelper Process ParseSpec SpaceSpec.
From S2P Require Import Example.

(** ** Looking up a name, with its effect on memory *)
Section lookup.
Context `{Layout}.

Lemma lookup_ok m bb img fname s dentry :
  image_at m bb img → m !! L_empty = Some 0 → cstr_at m fname s →
  mapped m dentry 64 → disjoint_range dentry 64 bb (image_size img) →
  match find_entry img s with
  | None => read_dentry_by_name bb fname dentry m = Ok (-1, m)
  | Some (_, e) => ∃ m', read_dentry_by_name bb fname dentry m = Ok (0, m') ∧
      load32 (d_file_type dentry) m' = Ok (e_type e, m') ∧
      load32 (d_inode_num dentry) m' = Ok (e_inode e, m') ∧ entry_ok e ∧
      dom m' = dom m ∧ ∀ a, ¬ (dentry ≤ a < dentry + 64) → m' !! a = m !! a
  end.
Proof.
  intros Hi He Hs Hm Hd.
  pose proof (read_dentry_by_name_ok m bb img Hi He fname s dentry Hs Hm Hd) as E.
  destruct (find_entry img s) as [[d e]|] eqn:Ef; [|exact E].
  exists (dentry_mem m dentry e). unfold find_entry in Ef.
  case_bool_decide; [done|]. apply list_find_Some in Ef as (Hd' & _ & _).
  destruct (entry_string _ _ _ Hi _ _ Hd') as [_ Hl].
  pose proof (entry_is_ok _ _ _ Hi _ _ Hd') as Hok.
  destruct (dentry_mem_fields m dentry e Hm Hok) as (H1 & H2 & H3 & H4); [lia|].
  pose proof Hok as (_ & _ & _ & Ht & Hn).
  split; [done|]. split; [apply load32_le32; [exact H1|unfold is_u32; lia]|].
  split; [by apply load32_le32|]. split; [done|]. split; [done|]. intros a Ha. apply H4. lia.
Qed.
End lookup.

(** ** The check *)

Definition elf_magic : list Z := [0x7F; 69; 76; 70].
(** [checkExe] does not look at how many bytes it read: the bytes a short
    file lacks are those the buffer held. *)
Definition seen_magic (stale D : list Z) : list Z :=
  take 4 D ++ drop (length (take 4 D)) stale.
(** The contents of the program that a name runs, if it is one. *)
Definition program (img : image) (stale w : list Z) : option (list Z) :=
  match find_entry img w with
  | Some (_, e) =>
      match zlookup (inodes img) (e_inode e) with
      | Some x => let D := content img x in
          if bool_decide (seen_magic stale D = elf_magic) then Some D else None
      | None => None
      end
  | None => None
  end.

Definition check_msgs : list (list Z) :=
  [chars "%s is an invalid filename! "; chars "Could not read file:%s" ++ newline;
   chars "%s is not an ELF file :("].

Lemma put_over m a (l k : list Z) : bytes_at m a k → (length l ≤ length k)%nat →
  bytes_at (put_bytes m a l) a (l ++ drop (length l) k).
Proof.
  intros Hk Hl. apply bytes_at_app. split; [apply put_bytes_at|].
  apply bytes_at_put_disjoint; [unfold disjoint_range; lia|].
  rewrite <-(take_drop (length l) k) in Hk. apply bytes_at_app in Hk as [_ Hk].
  by rewrite length_take, Nat.min_l in Hk by lia.
Qed.

Lemma read_small m bb img ino x buf len :
  image_at m bb img → 0 ≤ ino → zlookup (inodes img) ino = Some x → is_u32 len →
  mapped m buf (Z.min len (in_len x)) → disjoint_range buf (Z.min len (in_len x)) bb (image_size img) →
  read_data bb ino 0 buf len m =
    Ok (Z.of_nat (length (take (Z.to_nat len) (content img x))),
        put_bytes m buf (take (Z.to_nat len) (content img x))).
Proof.
  intros Hi Hino Hx Hl Hm Hd. unfold is_u32 in Hl.
  pose proof (inode_is_ok _ _ _ Hi _ _ Hx) as Hok. pose proof Hok as (Hil & _).
  pose proof (length_content img (ia_ok _ _ _ Hi) x Hok) as Hlc.
  pose proof (read_data_ok m bb img ino 0 buf len Hi Hino ltac:(lia) Hl) as H.
  unfold read_result in H. rewrite Hx in H. rewrite bool_decide_eq_false_2 in H by lia.
  rewrite drop_0 in H.
  assert (read_length (in_len x) 0 len = Z.min len (in_len x)) as Er.
  { unfold read_length. change (0 mod 4096) with 0. rewrite !Z.sub_0_r.
    pose proof (Z.div_mod (Z.min len (in_len x)) 4096 ltac:(lia)).
    pose proof (Z.mod_pos_bound (Z.min len (in_len x)) 4096 ltac:(lia)). lia. }
  rewrite Er in H. rewrite H.
  - rewrite length_take, Hlc. f_equal. f_equal; [lia|]. f_equal.
    destruct (decide (len ≤ in_len x)); [by rewrite Z.min_l by lia|].
    rewrite Z.min_r by lia. rewrite !take_ge by lia. done.
  - intros x' [= <-]. by rewrite Z.sub_0_r.
Qed.

Section check.
Context `{Layout}.

(** What the check needs of memory. *)
Record check_ok (s : kstate) (img : image) (cmd : Z) (w stale : list Z) : Prop := {
  ck_image : image_at (kmem s) (bblock s) img;
  ck_empty : kmem s !! L_empty = Some 0;
  ck_name : cstr_at (kmem s) cmd w;
  ck_prog : mapped (kmem s) L_exe_prog 64;
  ck_prog_image : disjoint_range L_exe_prog 64 (bblock s) (image_size img);
  ck_elf : bytes_at (kmem s) L_elf stale;
  ck_stale : length stale = 4%nat;
  ck_elf_image : disjoint_range L_elf 4 (bblock s) (image_size img);
  ck_elf_prog : disjoint_range L_elf 4 L_exe_prog 64;
}.

Definition same_outside (rs : list (Z * Z)) (m m' : mem) : Prop :=
  dom m' = dom m ∧ ∀ a, Forall (λ r, ¬ (r.1 ≤ a < r.1 + r.2)) rs → m' !! a = m !! a.

Lemma checkExe_ok s img cmd w stale :
  check_ok s img cmd w stale →
  ∃ m', same_outside [(L_exe_prog, 64); (L_elf, 4)] (kmem s) m' ∧
    match program img stale w with
    | Some _ => checkExe cmd s = Ok (0, s <| kmem := m' |>)
    | None => ∃ fmt, fmt ∈ check_msgs ∧
        checkExe cmd s = (_ ← printf fmt [cmd]; mret (u32 (-1))) (s <| kmem := m' |>)
    end.
Proof.
  intros [Hi He Hs Hp Hpi Helf Hst Hei Hep]. unfold checkExe, program.
  erewrite bind_ok by (unfold kget; reflexivity). cbv beta.
  pose proof (lookup_ok _ _ _ _ _ _ Hi He Hs Hp Hpi) as Hl.
  destruct (find_entry img w) as [[d e]|].
  2:{ exists (kmem s). split; [done|]. exists (chars "%s is an invalid filename! ").
      split; [apply list_elem_of_In; unfold check_msgs; cbn [List.In]; auto|].
      erewrite bind_ok by (by apply on_mem_pure). bool_lits. by destruct s. }
  destruct Hl as (m1 & Hr & _ & Hino & (_ & _ & _ & _ & Hu) & Hdom & Hout).
  assert (∀ a n, disjoint_range L_exe_prog 64 a n → ∀ z, a ≤ z < a + n → m1 !! z = kmem s !! z) as Hag.
  { unfold disjoint_range. intros a n Hd z Hz. apply Hout. lia. }
  assert (image_at m1 (bblock s) img) as Hi1.
  { eapply image_agree; [exact Hi|]. intros z Hz. by eapply Hag. }
  assert (bytes_at m1 L_elf stale) as Helf1.
  { eapply bytes_at_agree; [|exact Helf]. rewrite Hst. intros z Hz. apply Hout.
    unfold disjoint_range in Hep. lia. }
  erewrite bind_ok by (by apply on_mem_ok). cbv beta. bool_lits. cbv iota.
  erewrite bind_ok by (apply on_mem_pure; exact Hino).
  unfold is_u32 in Hu.
  destruct (zlookup (inodes img) (e_inode e)) as [x|] eqn:Ex.
  2:{ exists m1. split.
      { split; [done|]. intros a [Ha _]%Forall_cons. by apply Hout. }
      exists (chars "Could not read file:%s" ++ newline).
      split; [apply list_elem_of_In; unfold check_msgs; cbn [List.In]; auto|].
      pose proof (read_data_ok m1 (bblock s) img (e_inode e) 0 L_elf 4 Hi1 ltac:(lia) ltac:(lia)
        ltac:(unfold is_u32; lia)) as E.
      unfold read_result in E. rewrite Ex in E.
      erewrite bind_ok by (apply on_mem_pure; by apply E). bool_lits. done. }
  set (D := content img x).
  assert (length (take 4 D) ≤ 4)%nat as H4 by (rewrite length_take; lia).
  assert (0 ≤ in_len x) as Hlen by apply (inode_is_ok _ _ _ Hi _ _ Ex).
  pose proof (read_small m1 (bblock s) img (e_inode e) x L_elf 4 Hi1 ltac:(lia) Ex
    ltac:(unfold is_u32; lia)) as E.
  change (Z.to_nat 4) with 4%nat in E. fold D in E.
  set (m2 := put_bytes m1 L_elf (take 4 D)) in *. exists m2.
  assert (mapped m1 L_elf 4) as Hm4.
  { apply bytes_at_mapped in Helf1. by rewrite Hst in Helf1. }
  split.
  { split.
    - unfold m2. rewrite put_bytes_dom; [done|]. eapply mapped_sub; [exact Hm4|lia|lia].
    - intros a [Ha [Ha' _]%Forall_cons]%Forall_cons. cbn in Ha, Ha'. unfold m2.
      rewrite put_bytes_outside by lia. by apply Hout. }
  erewrite bind_ok.
  2:{ apply on_mem_ok. apply E.
      - eapply mapped_sub; [exact Hm4|lia|lia].
      - unfold disjoint_range in *. cbn. lia. }
  rewrite (bool_decide_eq_false_2 (Z.of_nat (length (take 4 D)) = -1)) by lia.
  assert (bytes_at m2 L_elf (seen_magic stale D)) as Hb by (apply put_over; [done|lia]).
  assert (length (seen_magic stale D) = 4%nat) as Hl4.
  { unfold seen_magic. rewrite length_app, length_drop. lia. }
  destruct (seen_magic stale D) as [|b0 [|b1 [|b2 [|b3 [|]]]]] eqn:Es; try (cbn in Hl4; lia).
  destruct Hb as (Hb0 & Hb1 & Hb2 & Hb3 & _).
  replace (L_elf + 1 + 1) with (L_elf + 2) in * by lia.
  replace (L_elf + 2 + 1) with (L_elf + 3) in * by lia.
  erewrite bind_ok.
  2:{ apply on_mem_pure. cbn [kmem upd Set_kmem].
      instantiate (1 := bool_decide ([b0; b1; b2; b3] = elf_magic)). unfold elf_magic.
      erewrite bind_ok by (by apply load8_ok). case_bool_decide as E0.
      2:{ rewrite bool_decide_eq_false_2; [done|congruence]. }
      erewrite bind_ok by (by apply load8_ok). case_bool_decide as E1.
      2:{ rewrite bool_decide_eq_false_2; [done|congruence]. }
      erewrite bind_ok by (by apply load8_ok). case_bool_decide as E2.
      2:{ rewrite bool_decide_eq_false_2; [done|congruence]. }
      erewrite bind_ok by (by apply load8_ok). unfold mret, K_ret. do 2 f_equal.
      apply bool_decide_ext. subst. split; [by intros ->|congruence]. }
  case_bool_decide as Em; [done|]. exists (chars "%s is not an ELF file :(").
  split; [apply list_elem_of_In; unfold check_msgs; cbn [List.In]; auto|]. done.
Qed.
End check.

(** ** Printing from the loader *)

(** What printing may change. *)
Definition printed_on `{Layout} (s : kstate) (t : Z) (s' : kstate) : Prop :=
  (∃ v, tty_at s' t v) ∧
  s' = (s <| kmem := kmem s' |>) <| kscr ::= (λ c, (c
    <| screen_x := screen_x (kscr s') |>) <| screen_y := screen_y (kscr s') |>) |> ∧
  same_outside [(term_base (kscr s) t, 4000); (L_conv_buf, 64)] (kmem s) (kmem s').

Lemma print_ok_run `{Layout} {A} s t strs v fmt args out (r : A) :
  print_ok s t strs → tty_at s t v → renders strs fmt args out →
  ∃ s', (_ ← printf fmt args; mret r) s = Ok (r, s') ∧ printed_on s t s'.
Proof.
  intros Hp Hv Hr. pose proof (printf_renders s t strs Hp v Hv fmt args out Hr) as H0.
  apply wp_ok in H0 as (k & s' & E & -> & Hs'). exists s'. split; [by erewrite bind_ok by exact E|].
  split; [eexists; by eapply printed_tty|]. destruct Hs' as (_ & m' & -> & _ & Hd & Ho).
  split; [reflexivity|]. split; [exact Hd|].
  intros a [H1 [H2 _]%Forall_cons]%Forall_cons. by apply Ho.
Qed.

(** The messages that name the program. *)
Lemma check_msg_renders cmd w fmt :
  is_u32 cmd → fmt ∈ check_msgs →
  ∃ out, renders (λ a, if bool_decide (a = cmd) then Some w else None) fmt [cmd] out.
Proof.
  intros Hc. set (strs := λ a, if bool_decide (a = cmd) then Some w else None).
  assert (∀ rest, render_spec strs (115 :: rest) false [cmd] = Some (w, rest, [])) as Hs.
  { intros rest. cbn. unfold render_conv. bool_lits. rewrite u32_id by done. unfold strs.
    by rewrite bool_decide_eq_true_2. }
  assert (∀ pre post, Forall (λ c, is_u8 c ∧ c ≠ 37) pre → Forall (λ c, is_u8 c ∧ c ≠ 37) post →
    ∃ out, renders strs (pre ++ 37 :: 115 :: post) [cmd] out) as Hr.
  { intros pre post Hpre Hpost. induction Hpre as [|c pre [Hc1 Hc2] _ [out IH]].
    - exists (w ++ post). eapply renders_conv; [apply Hs|by apply renders_plain].
    - exists (c :: out). by apply renders_char. }
  unfold check_msgs. rewrite !elem_of_cons. intros [->|[->|[->|[]%not_elem_of_nil]]].
  - apply (Hr [] (chars " is an invalid filename! ")); decide_it.
  - apply (Hr (chars "Could not read file:") newline); decide_it.
  - apply (Hr [] (chars " is not an ELF file :(")); decide_it.
Qed.

(** ** The loader's environment *)

(** Ranges of which no two share an address. *)
Fixpoint apart (rs : list (Z * Z)) : Prop :=
  match rs with
  | [] => True
  | r :: rs => Forall (λ q, disjoint_range r.1 r.2 q.1 q.2) rs ∧ apart rs
  end.
#[global] Instance apart_dec rs : Decision (apart rs).
Proof. induction rs; cbn; apply _. Defined.
Lemma apart_pair rs i j a b :
  apart rs → rs !! i = Some a → rs !! j = Some b → i ≠ j → disjoint_range a.1 a.2 b.1 b.2.
Proof.
  revert i j. induction rs as [|r rs IH]; intros i j Hap Hi Hj Hne; [done|].
  destruct Hap as [Hf Ha].
  rewrite Forall_lookup in Hf. destruct i as [|i], j as [|j]; cbn in *; simplify_eq.
  - by eapply Hf.
  - unfold disjoint_range. destruct (Hf _ _ Hi); [by right|by left].
  - eapply (IH i j); done || lia.
Qed.

Section exec.
Context `{Layout}.

(** The ranges the loader uses: its buffers, the image, the command line and
    the screen. *)
Definition exec_ranges (s : kstate) (img : image) (command : Z) (line : list Z) (t : Z)
    : list (Z * Z) :=
  let sp := esp (kcpu s) in
  [ (L_cmd sp, 1024); (L_args sp, 32); (L_prog sp, 64); (L_prog_img sp, IMG_SIZE);
    (L_exe_prog, 64); (L_elf, 4); (L_conv_buf, 64); (L_empty, 1);
    (bblock s, image_size img); (command, Z.of_nat (length line) + 1);
    (term_base (kscr s) t, 4000) ].

(** What the loader needs of memory while it prints nothing. *)
Definition loader_ranges (s : kstate) (img : image) (command : Z) (line : list Z) : list (Z * Z) :=
  let sp := esp (kcpu s) in
  [ (L_cmd sp, 1024); (L_args sp, 32); (L_prog sp, 64); (L_prog_img sp, IMG_SIZE);
    (L_exe_prog, 64); (L_elf, 4); (L_conv_buf, 64); (L_empty, 1);
    (bblock s, image_size img); (command, Z.of_nat (length line) + 1) ].
Record loader_env (s : kstate) (img : image) (command : Z) (line : list Z) : Prop := {
  ld_image : image_at (kmem s) (bblock s) img;
  ld_empty : kmem s !! L_empty = Some 0;
  ld_command : cstr_at (kmem s) command line;
  ld_word : Z.of_nat (length (cmd_word line)) < 1024;
  ld_mapped : Forall (λ r, mapped (kmem s) r.1 r.2)
    [ (L_cmd (esp (kcpu s)), 1024); (L_args (esp (kcpu s)), 32); (L_prog (esp (kcpu s)), 64);
      (L_exe_prog, 64); (L_elf, 4) ];
  ld_apart : apart (loader_ranges s img command line);
  ld_kernel : Forall (λ r, 0 ≤ r.1 ∧ r.1 + r.2 ≤ PROG_VIR_ADDR_START)
    (take 9 (loader_ranges s img command line));
}.

(** And while it may print on terminal [t]. *)
Record exec_env (s : kstate) (img : image) (command : Z) (line : list Z) (t : Z) : Prop := {
  ee_image : image_at (kmem s) (bblock s) img;
  ee_empty : kmem s !! L_empty = Some 0;
  ee_command : cstr_at (kmem s) command line;
  ee_word : Z.of_nat (length (cmd_word line)) < 1024;
  ee_mapped : Forall (λ r, mapped (kmem s) r.1 r.2)
    [ (L_cmd (esp (kcpu s)), 1024); (L_args (esp (kcpu s)), 32); (L_prog (esp (kcpu s)), 64);
      (L_exe_prog, 64); (L_elf, 4); (L_conv_buf, 64) ];
  ee_apart : apart (exec_ranges s img command line t);
  ee_kernel : Forall (λ r, 0 ≤ r.1 ∧ r.1 + r.2 ≤ PROG_VIR_ADDR_START)
    (take 9 (exec_ranges s img command line t));
  ee_writes : writes_to s t;
  ee_key : keyInt (kscr s) = 0 ∨ t = currentTerminal (kscr s);
  ee_tty : ∃ v, tty_at s t v;
}.

Lemma apart_take n l : apart l → apart (take n l).
Proof using Type.
  revert n. induction l as [|r l IH]; intros [|n]; cbn; [done..|]. intros [Hr Hl]. split; [by apply Forall_take|by apply IH].
Qed.
Lemma exec_loader s img command line t : exec_env s img command line t → loader_env s img command line.
Proof using Type.
  intros [Hi He Hc Hw Hm Ha Hk _ _ _]. split; try done.
  - exact (Forall_take _ 5%nat _ Hm).
  - exact (apart_take 10%nat _ Ha).
Qed.

(** The buffers the front of the loader writes. *)
Definition front_ranges (s : kstate) : list (Z * Z) :=
  [ (L_cmd (esp (kcpu s)), 1024); (L_args (esp (kcpu s)), 32); (L_exe_prog, 64); (L_elf, 4) ].

Lemma same_outside_at rs m m' a l :
  same_outside rs m m' → Forall (λ r, disjoint_range r.1 r.2 a (Z.of_nat (length l))) rs →
  bytes_at m a l → bytes_at m' a l.
Proof using Type.
  intros [_ Hs] Hd. apply bytes_at_agree. intros x Hx. apply Hs.
  eapply Forall_impl; [exact Hd|]. unfold disjoint_range. intros r Hr. cbv beta in Hr. lia.
Qed.
Lemma same_outside_mapped rs m m' a n : same_outside rs m m' → mapped m a n → mapped m' a n.
Proof using Type. intros [Hd _]. by apply mapped_dom. Qed.
Lemma same_outside_trans rs rs' m1 m2 m3 :
  same_outside rs m1 m2 → same_outside rs' m2 m3 → same_outside (rs ++ rs') m1 m3.
Proof using Type.
  intros [Hd1 H1] [Hd2 H2]. split; [congruence|]. intros a [Ha Hb]%Forall_app.
  by rewrite H2, H1.
Qed.

Lemma same_outside_image rs s m' img :
  same_outside rs (kmem s) m' →
  Forall (λ r, disjoint_range r.1 r.2 (bblock s) (image_size img)) rs →
  image_at (kmem s) (bblock s) img → image_at m' (bblock s) img.
Proof using Type.
  intros [_ Hs] Hd Hi. eapply image_agree; [exact Hi|]. intros x Hx. apply Hs.
  eapply Forall_impl; [exact Hd|]. unfold disjoint_range. intros r Hr. cbv beta in Hr. lia.
Qed.
Lemma same_outside_tty rs s m' t v :
  same_outside rs (kmem s) m' →
  Forall (λ r, disjoint_range r.1 r.2 (term_base (kscr s) t) 4000) rs →
  tty_at s t v → tty_at (s <| kmem := m' |>) t v.
Proof using Type.
  intros [Hdm Hs] Hd (Hok & Hscr & Hx & Hy). split; [done|]. split; [|done].
  cbn [kmem kscr upd Set_kmem]. eapply screen_at_agree; [exact Hdm| |exact Hscr].
  intros a Ha. apply Hs. eapply Forall_impl; [exact Hd|]. unfold disjoint_range.
  intros r Hr. cbv beta in Hr. lia.
Qed.
End exec.

(** The disjointness of two of the ranges, by their positions. *)
Ltac pair Hap i j :=
  let H := fresh "Hd" in
  pose proof (apart_pair _ i j _ _ Hap eq_refl eq_refl ltac:(lia)) as H; cbn [fst snd] in H.
Ltac each := repeat apply Forall_cons_2; try apply Forall_nil_2; cbn [fst snd].
Ltac use_pair Hap i j := pair Hap i j; unfold disjoint_range in *; lia.

Section loader.
Context `{Layout} (s : kstate) (img : image) (command : Z) (line : list Z).
Context (Hl : loader_env s img command line).
#[local] Notation sp := (esp (kcpu s)).

Lemma front_parse :
  ∃ m1, (_ ← zero_array (L_cmd sp) 1024; _ ← zero_array (L_args sp) ARGSIZE;
         parser command (L_cmd sp) (L_args sp)) (kmem s) = Ok (tt, m1) ∧
    cstr_at m1 (L_cmd sp) (cmd_word line) ∧ cstr_at m1 (L_args sp) (cmd_args line) ∧
    same_outside [(L_cmd sp, 1024); (L_args sp, 32)] (kmem s) m1.
Proof using Hl.
  destruct Hl as [_ _ Hc Hw Hm Hap _]. rewrite !Forall_cons in Hm.
  destruct Hm as (Hm0 & Hm1 & _).
  destruct (parser_splits (kmem s) command (L_cmd sp) (L_args sp) line) as (m1 & E & H1 & H2 & Hd & Ho);
    [done|done|done|done|pair Hap 0%nat 1%nat; done|pair Hap 0%nat 9%nat; done
    |pair Hap 1%nat 9%nat; done|].
  exists m1. split; [done|]. split; [done|]. split; [done|]. split; [done|].
  intros a [Ha [Hb _]%Forall_cons]%Forall_cons. by apply Ho.
Qed.

Lemma loader_low i a : take 9 (loader_ranges s img command line) !! i = Some a →
  0 ≤ a.1 ∧ a.1 + a.2 ≤ PROG_VIR_ADDR_START.
Proof using Hl.
  intros Hi. pose proof (ld_kernel _ _ _ _ Hl) as Hk. rewrite Forall_lookup in Hk. by apply (Hk i).
Qed.

(** The state when the buffers are filled. *)
Lemma front_check m1 stale :
  cstr_at m1 (L_cmd sp) (cmd_word line) →
  same_outside [(L_cmd sp, 1024); (L_args sp, 32)] (kmem s) m1 →
  bytes_at (kmem s) L_elf stale → length stale = 4%nat →
  check_ok (s <| kmem := m1 |>) img (L_cmd sp) (cmd_word line) stale.
Proof using Hl.
  intros Hc Hs Helf Hst. destruct Hl as [Hi Hem _ Hw Hm Hap _]. rewrite !Forall_cons in Hm.
  destruct Hm as (_ & _ & _ & Hm3 & _). split; cbn [kmem bblock upd Set_kmem].
  - eapply same_outside_image; [exact Hs| |exact Hi].
    each; [pair Hap 0%nat 8%nat|pair Hap 1%nat 8%nat]; done.
  - destruct Hs as [_ Hs]. rewrite Hs; [done|].
    each; [use_pair Hap 0%nat 7%nat|use_pair Hap 1%nat 7%nat].
  - done.
  - eapply same_outside_mapped; [exact Hs|exact Hm3].
  - pair Hap 4%nat 8%nat. done.
  - eapply same_outside_at; [exact Hs| |exact Helf]. rewrite Hst.
    each; [pair Hap 0%nat 5%nat|pair Hap 1%nat 5%nat]; done.
  - done.
  - pair Hap 5%nat 8%nat. done.
  - pair Hap 5%nat 4%nat. done.
Qed.

(** Up to the check: the program is found, or a message is next. *)
Lemma front_runs stale :
  bytes_at (kmem s) L_elf stale → length stale = 4%nat →
  ∃ m1, same_outside (front_ranges s) (kmem s) m1 ∧
    cstr_at m1 (L_cmd sp) (cmd_word line) ∧ cstr_at m1 (L_args sp) (cmd_args line) ∧
    match program img stale (cmd_word line) with
    | Some _ => sys_execute command s =
        match find_free_pid 6 (pid_bitmap (kproc s)) 0 with
        | None => _ ← printf msg_processes [NUM_PROCESS]; mret (Return (-1))
        | Some p => load_program p (L_cmd sp) (L_args sp) (L_prog sp) (L_prog_img sp)
        end (s <| kmem := m1 |>)
    | None => ∃ fmt, fmt ∈ check_msgs ∧
        sys_execute command s = (_ ← printf fmt [L_cmd sp]; mret (Return (-1))) (s <| kmem := m1 |>)
    end.
Proof using Hl.
  intros Helf Hst. destruct front_parse as (m1 & Ep & Hc1 & Ha1 & Hs1).
  pose proof (front_check m1 stale Hc1 Hs1 Helf Hst) as Hck.
  destruct (checkExe_ok _ _ _ _ _ Hck) as (m2 & Hs2 & E). cbn [kmem upd Set_kmem] in Hs2.
  pose proof (ld_apart _ _ _ _ Hl) as Hap.
  assert (same_outside (front_ranges s) (kmem s) m2) as Hs.
  { exact (same_outside_trans _ _ _ _ _ Hs1 Hs2). }
  assert (∀ a x, cstr_at m1 a x → disjoint_range L_exe_prog 64 a (Z.of_nat (length x) + 1) →
    disjoint_range L_elf 4 a (Z.of_nat (length x) + 1) → cstr_at m2 a x) as Hk.
  { intros a x Hx Hd1 Hd2. eapply cstr_at_agree; [|exact Hx]. intros z Hz. apply Hs2.
    unfold disjoint_range in *. each; lia. }
  pose proof (ld_word _ _ _ _ Hl) as Hww.
  assert (length (cmd_args line) ≤ 31)%nat as Hal by (unfold cmd_args; rewrite length_take; lia).
  exists m2. split; [done|].
  split; [apply Hk; [done|use_pair Hap 4%nat 0%nat|use_pair Hap 5%nat 0%nat]|].
  split; [apply Hk; [done|use_pair Hap 4%nat 1%nat|use_pair Hap 5%nat 1%nat]|].
  assert (sys_execute command s = (r ← checkExe (L_cmd sp);
    if bool_decide (r = u32 (-1)) then mret (Return (-1))
    else p ← kget kproc;
      match find_free_pid 6 (pid_bitmap p) 0 with
      | None => _ ← printf msg_processes [NUM_PROCESS]; mret (Return (-1))
      | Some free_pid => load_program free_pid (L_cmd sp) (L_args sp) (L_prog sp) (L_prog_img sp)
      end) (s <| kmem := m1 |>)) as ->.
  { unfold sys_execute. erewrite bind_ok by (unfold kget; reflexivity). cbv beta zeta.
    erewrite bind_ok by (apply on_mem_ok; exact Ep). done. }
  destruct (program img stale (cmd_word line)) as [D|].
  - erewrite bind_ok by exact E. cbv beta. bool_lits. cbv iota. by erewrite bind_ok by reflexivity.
  - destruct E as (fmt & Hfmt & E). exists fmt. split; [done|]. unfold mbind, K_bind. rewrite E.
    unfold mbind, K_bind. by destruct (printf fmt [L_cmd sp] _) as [[? ?]| |].
Qed.
End loader.

Section front.
Context `{Layout} (s : kstate) (img : image) (command : Z) (line : list Z) (t : Z).
Context (He : exec_env s img command line t).
#[local] Notation sp := (esp (kcpu s)).

Lemma low_range i a : (take 9 (exec_ranges s img command line t)) !! i = Some a →
  0 ≤ a.1 ∧ a.1 + a.2 ≤ PROG_VIR_ADDR_START.
Proof using He.
  intros Hi. pose proof (ee_kernel _ _ _ _ _ He) as Hk. rewrite Forall_lookup in Hk. by apply (Hk i).
Qed.

(** The loader can print once its buffers are filled. *)
Lemma front_print m1 :
  cstr_at m1 (L_cmd sp) (cmd_word line) → same_outside (front_ranges s) (kmem s) m1 →
  print_ok (s <| kmem := m1 |>) t
    (λ a, if bool_decide (a = L_cmd sp) then Some (cmd_word line) else None) ∧
  (∃ v, tty_at (s <| kmem := m1 |>) t v).
Proof using He.
  intros Hc Hs. destruct He as [_ _ _ Hw Hm Hap _ Hwr Hk (v & Hv)]. rewrite !Forall_cons in Hm.
  destruct Hm as (_ & _ & _ & _ & _ & Hm6 & _). split.
  - split; cbn [kmem kscr upd Set_kmem].
    + exact Hwr.
    + exact Hk.
    + eapply same_outside_mapped; [exact Hs|exact Hm6].
    + pair Hap 10%nat 6%nat. done.
    + intros a str. case_bool_decide as Ha; [|done]. intros [= <-]. subst a. split; [done|].
      split; [use_pair Hap 10%nat 0%nat|use_pair Hap 6%nat 0%nat].
  - exists v. eapply same_outside_tty; [exact Hs| |exact Hv].
    each; [pair Hap 0%nat 10%nat|pair Hap 1%nat 10%nat
      |pair Hap 4%nat 10%nat|pair Hap 5%nat 10%nat]; done.
Qed.

Lemma exec_front stale :
  bytes_at (kmem s) L_elf stale → length stale = 4%nat →
  ∃ m1, same_outside (front_ranges s) (kmem s) m1 ∧
    cstr_at m1 (L_cmd sp) (cmd_word line) ∧ cstr_at m1 (L_args sp) (cmd_args line) ∧
    match program img stale (cmd_word line), find_free_pid 6 (pid_bitmap (kproc s)) 0 with
    | Some _, Some p => sys_execute command s =
        load_program p (L_cmd sp) (L_args sp) (L_prog sp) (L_prog_img sp) (s <| kmem := m1 |>)
    | _, _ => ∃ s', sys_execute command s = Ok (Return (-1), s') ∧
        printed_on (s <| kmem := m1 |>) t s'
    end.
Proof using He.
  intros Helf Hst.
  destruct (front_runs s img command line (exec_loader _ _ _ _ _ He) stale Helf Hst) as (m2 & Hs & Hc2 & Ha2 & E).
  exists m2. split; [done|]. split; [done|]. split; [done|].
  destruct (front_print m2 Hc2 Hs) as (Hp & v & Hv).
  assert (is_u32 (L_cmd sp)) as Hu.
  { pose proof (low_range 0%nat _ eq_refl) as Hl. cbn in Hl. unfold PROG_VIR_ADDR_START in Hl.
    unfold is_u32. lia. }
  destruct (program img stale (cmd_word line)) as [D|].
  - rewrite E. destruct (find_free_pid 6 (pid_bitmap (kproc s)) 0) as [p|]; [done|].
    eapply print_ok_run; [exact Hp|exact Hv|].
    change msg_processes with (chars "Cannot run more than " ++ 37 :: 100 :: chars " processes!" ++ newline).
    cbn [chars app]. repeat (apply renders_char; [done|decide_it|]).
    eapply renders_conv; [vm_compute; reflexivity|]. apply renders_plain. decide_it.
  - destruct E as (fmt & Hfmt & E). rewrite E.
    destruct (check_msg_renders (L_cmd sp) (cmd_word line) fmt Hu Hfmt) as (out & Hr).
    exact (print_ok_run _ _ _ _ _ _ _ _ Hp Hv Hr).
Qed.
End front.
