(* ===== verification/Views.v ===== *)
(** * The program memory of each process

    Independent of which address space is loaded: the bytes at program
    addresses of every process, and how the operations on the page tables
    and the control registers keep them. *)

From S2P Require Import Prelude CInt Memory State Paging PagingInit Translate.

Section views.
Context `{Layout} (Hlay : layout_ok).

(** The program memory of process [j]: what memory shows, or the hidden page. *)
Definition prog_view (s : kstate) (j : Z) : mem :=
  if bool_decide (prog_page (kpage s) = Some (prog_base j))
  then filter (λ x, in_prog x.1) (kmem s) else default ∅ (kpages s !! prog_base j).

Lemma prog_base_inj i j : prog_base i = prog_base j → i = j.
Proof using Type. unfold prog_base. lia. Qed.

Lemma view_shown s i vi a :
  in_space (kpage s) i vi → in_prog a → kmem s !! a = prog_view s i !! a.
Proof using Hlay.
  intros Hs Ha. unfold prog_view. rewrite (prog_page_ok Hlay _ _ _ Hs), bool_decide_eq_true_2 by done.
  symmetry. destruct (kmem s !! a) eqn:E; [by apply map_lookup_filter_Some_2|].
  apply map_lookup_filter_None. by left.
Qed.

Lemma view_eq s s' j :
  prog_page (kpage s') = prog_page (kpage s) → kmem s' = kmem s → kpages s' = kpages s →
  prog_view s' j = prog_view s j.
Proof using Type. unfold prog_view. by intros -> -> ->. Qed.

(** Memory that changes at no program address. *)
Lemma view_kernel s m' j :
  (∀ a, in_prog a → m' !! a = kmem s !! a) → prog_view (s <| kmem := m' |>) j = prog_view s j.
Proof using Type.
  intros Hm. unfold prog_view. cbn [kpage kmem kpages upd Set_kmem].
  case_bool_decide; [|done]. apply map_eq. intros a.
  destruct (decide (in_prog a)) as [Ha|Ha].
  - destruct (kmem s !! a) eqn:E.
    + rewrite (map_lookup_filter_Some_2 _ (kmem s) a z) by done.
      apply map_lookup_filter_Some_2; [by rewrite Hm|done].
    + rewrite (proj2 (map_lookup_filter_None _ (kmem s) a)) by (by left).
      apply map_lookup_filter_None. left. by rewrite Hm.
  - rewrite (proj2 (map_lookup_filter_None _ (kmem s) a)) by (by right; intros; apply Ha).
    apply map_lookup_filter_None. by right; intros ? _ ?; apply Ha.
Qed.

(** What a change of the tables and registers may do to the kernel. *)
Definition remapped_on (keep : Z → Prop) (s s' : kstate) : Prop :=
  s' = ((s <| kpage := kpage s' |>) <| kpages := kpages s' |>) <| kmem := kmem s' |> ∧
  pages_ok (kpages s') ∧ (∀ j, 0 ≤ j < 6 → prog_view s' j = prog_view s j) ∧
  ∀ a, keep a → kmem s' !! a = kmem s !! a.
Definition no_prog (a : Z) : Prop := ¬ in_prog a.
Definition remapped : kstate → kstate → Prop := remapped_on no_prog.

Lemma remapped_trans s1 s2 s3 : remapped s1 s2 → remapped s2 s3 → remapped s1 s3.
Proof using Type.
  intros (E1 & _ & V1 & M1) (E2 & P2 & V2 & M2). split; [|split; [done|split]].
  - rewrite E2, E1. reflexivity.
  - intros j Hj. by rewrite V2, V1.
  - intros a Ha. by rewrite M2, M1.
Qed.

(** A change of the tables that leaves the shown program page. *)
Lemma remapped_page s p :
  pages_ok (kpages s) → prog_page p = prog_page (kpage s) → remapped s (s <| kpage := p |>).
Proof using Type.
  intros Hp E. split; [by destruct s|]. split; [done|]. split; [|done].
  intros j _. by apply view_eq.
Qed.

(** A page that becomes visible. *)
Lemma show_page_prog b pages m : pages_ok pages →
  filter (λ x, in_prog x.1) (show_page (Some b) pages m) = default ∅ (pages !! b).
Proof using Type.
  intros Hp. apply map_eq. intros a. destruct (decide (in_prog a)) as [Ha|Ha].
  - assert (show_page (Some b) pages m !! a = default ∅ (pages !! b) !! a) as Es.
    { rewrite show_page_in by done. cbn. by destruct (pages !! b). }
    rewrite <-Es. destruct (show_page _ _ _ !! a) eqn:Ea; [by apply map_lookup_filter_Some_2|].
    apply map_lookup_filter_None. by left.
  - rewrite (proj2 (map_lookup_filter_None _ _ a)) by (by right; intros; apply Ha).
    destruct (pages !! b) as [pg|] eqn:Ek; [|done]. cbn.
    destruct (pg !! a) eqn:Epa; [|done]. destruct Ha. by eapply Hp.
Qed.

Lemma remap_ok f s i vi j vj :
  in_space (kpage s) i vi → in_space (f (kpage s)) j vj → pages_ok (kpages s) →
  ∃ s', remap f s = Ok (tt, s') ∧ kpage s' = f (kpage s) ∧ remapped s s'.
Proof using Hlay.
  intros Hi Hj Hp. unfold remap, kmod.
  rewrite (prog_page_ok Hlay _ _ _ Hi), (prog_page_ok Hlay _ _ _ Hj). case_bool_decide as E.
  - simplify_eq. eexists. split; [done|]. split; [done|].
    apply prog_base_inj in E as <-. apply (remapped_page s (f (kpage s))); [done|].
    by rewrite (prog_page_ok Hlay _ _ _ Hi), (prog_page_ok Hlay _ _ _ Hj).
  - assert (prog_base i ≠ prog_base j) as Hne by congruence.
    remember (hide_page (Some (prog_base i)) (kpages s) (kmem s)) as pages eqn:Epages.
    assert (pages_ok pages) as Hpg by (subst; by apply hide_pages_ok).
    exists (((s <| kpage ::= f |>) <| kpages := pages |>) <| kmem ::= show_page (Some (prog_base j)) pages |>).
    split; [by subst|]. split; [done|]. split; [by destruct s|]. split; [exact Hpg|]. split.
    + intros k Hk. unfold prog_view. cbn [kpage kmem kpages upd Set_kmem Set_kpage Set_kpages].
      rewrite (prog_page_ok Hlay _ _ _ Hj), (prog_page_ok Hlay _ _ _ Hi).
      destruct (decide (k = j)) as [->|Hkj].
      { rewrite bool_decide_eq_true_2, bool_decide_eq_false_2 by done. rewrite show_page_prog by done.
        rewrite Epages. cbn. by rewrite lookup_insert_ne. }
      rewrite (bool_decide_eq_false_2 (Some (prog_base j) = _))
        by (intros [= Ex%prog_base_inj]; done).
      destruct (decide (k = i)) as [->|Hki].
      * rewrite bool_decide_eq_true_2 by done. rewrite Epages. cbn. by rewrite lookup_insert_eq.
      * rewrite bool_decide_eq_false_2 by (intros [= Ex%prog_base_inj]; done).
        rewrite Epages. cbn. rewrite lookup_insert_ne; [done|]. intros Ex%prog_base_inj. done.
    + intros a Ha. cbn [kmem upd Set_kmem]. by apply show_page_out.
Qed.

(** The tables as boot leaves them: each directory is that of its process,
    but for the entry of the program page of one not yet started. *)
Record paging_ok (p : page_t) : Prop := {
  pk_dirs i : 0 ≤ i < 6 → ∃ d v, zlookup (page_dir p) i = Some d ∧ length d = 1024%nat ∧
    <[32%nat := prog_entry i]> d = proc_dir i v;
  pk_0 : page_table_0 p = table_0_init;
  pk_vidmap : page_table_vidmap p = <[0%nat := u32 (Z.lor VIDEO_PAGE 7)]> free_table;
  pk_term : page_table_term p = table_term_init;
}.

(** Reloading a directory that is set up. *)
Lemma update_paging_remapped s i vi j vj :
  in_space (kpage s) i vi → 0 ≤ j < 6 → zlookup (page_dir (kpage s)) j = Some (proc_dir j vj) →
  pages_ok (kpages s) →
  ∃ s', update_paging j s = Ok (tt, s') ∧ kpage s' = (kpage s) <| cr3 := L_page_dir j |> ∧
    in_space (kpage s') j vj ∧ remapped s s'.
Proof using Hlay.
  intros Hi Hj Hd Hp.
  assert (in_space ((kpage s) <| cr3 := L_page_dir j |>) j vj) as Hs by (by eapply in_space_load).
  destruct (remap_ok (λ p, p <| cr3 := L_page_dir j |>) s i vi j vj Hi Hs Hp) as (s' & E & Ek & Hr).
  exists s'. split; [exact E|]. split; [done|]. split; [by rewrite Ek|done].
Qed.

(** [set_cr0] changes nothing more when paging is on already. *)
Lemma set_cr0_on s : Z.testbit (cr0 (kpage s)) 31 = true → set_cr0 s = remap cr0_paging s.
Proof using Type. intros E. unfold set_cr0. rewrite (bind_ok _ _ s tt s); [done|]. unfold kmod. by rewrite E. Qed.

(** What a change to the address space of [pid] leads to; the memory in
    [keep] is shown as before. *)
Definition entered_space (keep : Z → Prop) (s : kstate) (pid : Z) (s' : kstate) (vid : bool) : Prop :=
  in_space (kpage s') pid vid ∧ paging_ok (kpage s') ∧ remapped_on keep s s' ∧
  ∀ j, 0 ≤ j → j ≠ pid → zlookup (page_dir (kpage s')) j = zlookup (page_dir (kpage s)) j.

(** [setup_paging] on a machine that already runs process [i]. *)
Lemma setup_paging_remapped s i vi pid :
  in_space (kpage s) i vi → paging_ok (kpage s) → 0 ≤ pid < 6 → pages_ok (kpages s) →
  ∃ s' vid, setup_paging pid s = Ok (tt, s') ∧ entered_space no_prog s pid s' vid.
Proof using Hlay.
  intros Hs [Hd H0 Hv Ht] Hpid Hpg. destruct (Hd pid Hpid) as (d & v & Hdir & Hlen & Hset).
  assert (is_Some (zlookup (page_dir (kpage s)) pid)) as Hr%zlookup_is_Some by (by rewrite Hdir).
  set (p1 := (kpage s) <| page_dir := <[Z.to_nat pid := proc_dir pid v]> (page_dir (kpage s)) |>).
  set (p2 := p1 <| cr4 ::= (λ v, Z.lor v 0x10) |>).
  assert (in_space p2 i (if bool_decide (i = pid) then v else vi) ∧
    zlookup (page_dir p2) pid = Some (proc_dir pid v)) as [Hs2 Hd2].
  { destruct Hs. split.
    - split; unfold p2, p1; upd_cbv; try done.
      + rewrite zlookup_insert by lia. case_decide; case_bool_decide; try done; congruence.
      + rewrite Z.lor_spec. by rewrite is_cr4.
    - unfold p2, p1. upd_cbv. rewrite zlookup_insert by lia. by rewrite decide_True. }
  assert (in_space (p2 <| cr3 := L_page_dir pid |>) pid v) as Hs3 by (by eapply in_space_load).
  assert (in_space (cr0_paging (p2 <| cr3 := L_page_dir pid |>)) pid v) as Hs4.
  { destruct Hs3. unfold cr0_paging. split; upd_cbv; try done. rewrite Z.lor_spec.
    apply orb_true_r. }
  assert (remapped s (s <| kpage := p2 |>)) as R1.
  { apply remapped_page; [done|].
    by rewrite (prog_page_ok Hlay _ _ _ Hs), (prog_page_ok Hlay _ _ _ Hs2). }
  assert (paging_ok p2) as Hpk.
  { split; try done. intros j Hj. unfold p2, p1. cbn.
    rewrite zlookup_insert by lia. destruct (decide (pid = j)) as [Ej|Ej]; [|by apply Hd].
    subst j. exists (proc_dir pid v), v. split; [done|]. split.
    - rewrite <-Hset. by rewrite length_insert.
    - rewrite <-Hset. by rewrite list_insert_insert_eq. }
  assert (∀ j, 0 ≤ j → j ≠ pid → zlookup (page_dir p2) j = zlookup (page_dir (kpage s)) j) as Hkeep.
  { intros j Hj Hne. unfold p2, p1. cbn. rewrite zlookup_insert by lia.
    by rewrite decide_False by done. }
  assert ((_ ← zoom kpage (set_dir pid 32 (SHELL_HARDCODE + pid * physical_page_offset));
           zoom kpage set_pse) s = Ok (tt, s <| kpage := p2 |>)) as E1.
  { rewrite (bind_ok _ _ _ tt (s <| kpage := p1 |>)); [reflexivity|]. unfold zoom, set_dir.
    erewrite bind_ok by (unfold kget; reflexivity). rewrite Hdir.
    erewrite bind_ok by reflexivity. rewrite zupdate_in_range by (rewrite Hlen; lia).
    erewrite bind_ok by reflexivity. rewrite zupdate_in_range by lia.
    erewrite bind_ok by reflexivity. unfold kmod. change (Z.to_nat 32) with 32%nat.
    unfold prog_entry in Hset. by rewrite Hset. }
  clearbody p2. set (s2 := s <| kpage := p2 |>) in *. assert (kpage s2 = p2) as Ks2 by done.
  assert (kpages s2 = kpages s) as Kp2 by done. clearbody s2. rewrite <-Ks2 in Hs2, Hs3, Hs4, Hpk.
  rewrite <-Kp2 in Hpg.
  destruct (remap_ok (λ p, p <| cr3 := L_page_dir pid |>) s2 i _ pid v Hs2 Hs3 Hpg)
    as (s3 & E3 & K3 & R3).
  assert (pages_ok (kpages s3)) as Hpg3 by apply R3. rewrite <-K3 in Hs3, Hs4.
  destruct (remap_ok cr0_paging s3 pid v pid v Hs3 Hs4 Hpg3) as (s4 & E4 & K4 & R4).
  exists s4, v. split; [|split; [by rewrite K4|split; [|split]]].
  - unfold setup_paging, load_CR3.
    transitivity ((_ ← remap (λ p, p <| cr3 := L_page_dir pid |>); set_cr0) s2).
    + revert E1. unfold mbind, K_bind. destruct (zoom kpage _ s) as [[[] s1]| |]; [|done..].
      by intros ->.
    + erewrite bind_ok by exact E3. rewrite set_cr0_on by (rewrite K3; apply Hs2). exact E4.
  - rewrite K4, K3. destruct Hpk. by split.
  - eapply remapped_trans; [exact R1|]. by eapply remapped_trans.
  - intros j Hj Hne. rewrite K4, K3. change (zlookup (page_dir (kpage s2)) j = zlookup (page_dir (kpage s)) j).
    by rewrite Ks2, Hkeep.
Qed.

(** [setup_paging] for the first process turns paging on: of memory the
    kernel's page and video memory stay where they are. *)
Definition stays (a : Z) : Prop := 0x400000 ≤ a < 0x800000 ∨ 0xB8000 ≤ a < 0xB9000.
Lemma space_stays i vid a : stays a → ∃ u, space i vid a = Some (a, u).
Proof using Type.
  intros [Ha|Ha]; unfold space.
  - rewrite bool_decide_eq_true_2 by lia. by exists false.
  - rewrite bool_decide_eq_false_2, bool_decide_eq_true_2 by lia. by exists true.
Qed.
Lemma stays_low a : stays a → ¬ in_prog a ∧ 0 ≤ a < 2 ^ 32.
Proof using Type. unfold stays, in_prog, PROG_VIR_ADDR_START, FOUR_MB. lia. Qed.

Lemma setup_paging_first s pid :
  Z.testbit (cr0 (kpage s)) 31 = false → Z.testbit (cr4 (kpage s)) 4 = true →
  paging_ok (kpage s) → 0 ≤ pid < 6 → pages_ok (kpages s) →
  ∃ s' vid, setup_paging pid s = Ok (tt, s') ∧ entered_space stays s pid s' vid ∧
    ∀ a, 0 ≤ a < 2 ^ 32 → ¬ in_prog a → kmem s' !! a = (t ← space pid vid a; kmem s !! t.1).
Proof using Hlay.
  intros Hoff H4 [Hd H0 Hv Ht] Hpid Hpg. destruct (Hd pid Hpid) as (d & v & Hdir & Hlen & Hset).
  assert (is_Some (zlookup (page_dir (kpage s)) pid)) as Hr%zlookup_is_Some by (by rewrite Hdir).
  set (p1 := (kpage s) <| page_dir := <[Z.to_nat pid := proc_dir pid v]> (page_dir (kpage s)) |>).
  set (p2 := (p1 <| cr4 ::= (λ v, Z.lor v 0x10) |>) <| cr3 := L_page_dir pid |>).
  assert (in_space (cr0_paging p2) pid v) as Hs4.
  { unfold cr0_paging, p2, p1. split; upd_cbv; try done.
    - rewrite zlookup_insert by lia. by rewrite decide_True.
    - rewrite Z.lor_spec. apply orb_true_r.
    - rewrite Z.lor_spec. by rewrite H4. }
  assert (∀ p, Z.testbit (cr0 p) 31 = false → prog_page p = None) as Hnone.
  { intros p Hp. unfold prog_page. by rewrite Hp. }
  set (s4 := (s <| kpage := cr0_paging p2 |>)
    <| kmem ::= λ m, show_page (Some (prog_base pid)) (kpages s) (paged (cr0_paging p2) m) |>).
  assert (∀ a, 0 ≤ a < 2 ^ 32 → ¬ in_prog a → kmem s4 !! a = (t ← space pid v a; kmem s !! t.1)) as Hshown.
  { intros a Ha Hn. unfold s4. cbn [kmem upd Set_kmem]. rewrite show_page_out by done.
    rewrite paged_lookup by (apply Hs4 || done). by rewrite (translate_space Hlay _ _ _ _ Hs4). }
  exists s4, v. split; [|split; [|exact Hshown]].
  - unfold setup_paging, load_CR3, set_cr0.
    rewrite (bind_ok _ _ s tt (s <| kpage := p1 |>)).
    2:{ unfold zoom, set_dir.
        erewrite bind_ok by (unfold kget; reflexivity). rewrite Hdir.
        erewrite bind_ok by reflexivity. rewrite zupdate_in_range by (rewrite Hlen; lia).
        erewrite bind_ok by reflexivity. rewrite zupdate_in_range by lia.
        erewrite bind_ok by reflexivity. unfold kmod. change (Z.to_nat 32) with 32%nat.
        unfold prog_entry in Hset. by rewrite Hset. }
    erewrite bind_ok by reflexivity. rewrite (bind_ok _ _ _ tt (s <| kpage := p2 |>)).
    2:{ unfold remap, kmod. rewrite !Hnone by exact Hoff. rewrite bool_decide_eq_true_2 by done. reflexivity. }
    rewrite (bind_ok _ _ _ tt ((s <| kpage := p2 |>) <| kmem ::= paged (cr0_paging p2) |>)).
    2:{ unfold kmod. change (kpage (s <| kpage := p2 |>)) with p2.
        replace (Z.testbit (cr0 p2) 31) with false by (symmetry; exact Hoff). reflexivity. }
    unfold remap, kmod. change (kpage ((s <| kpage := p2 |>) <| kmem ::= paged (cr0_paging p2) |>)) with p2.
    rewrite (Hnone p2) by exact Hoff. rewrite (prog_page_ok Hlay _ _ _ Hs4), bool_decide_eq_false_2 by done.
    cbn [hide_page kpages upd Set_kpage Set_kmem]. unfold s4. by destruct s.
  - split; [exact Hs4|]. split; [|split].
    + split; try done. intros j Hj. unfold s4, p2, p1. cbn.
      rewrite zlookup_insert by lia. destruct (decide (pid = j)) as [Ej|Ej]; [|by apply Hd].
      subst j. exists (proc_dir pid v), v. split; [done|]. split.
      * rewrite <-Hset. by rewrite length_insert.
      * rewrite <-Hset. by rewrite list_insert_insert_eq.
    + split; [by destruct s|]. split; [exact Hpg|]. split.
      * intros j Hj. unfold prog_view, s4. cbn [kpage kmem kpages upd Set_kmem Set_kpage].
        rewrite (prog_page_ok Hlay _ _ _ Hs4), Hnone by exact Hoff. rewrite (bool_decide_eq_false_2 (None = _)) by done.
        case_bool_decide as E; [|done]. assert (j = pid) as -> by (apply prog_base_inj; congruence).
        by apply show_page_prog.
      * intros a Ha. destruct (stays_low a Ha) as [Hn Hr32]. rewrite Hshown by done.
        destruct (space_stays pid v a Ha) as [u ->]. done.
    + intros j Hj Hne. unfold s4, p2, p1. cbn. rewrite zlookup_insert by lia.
      by rewrite decide_False by done.
Qed.

(** The kernel can enter process [pid], whatever memory holds. *)
Definition can_enter (keep : Z → Prop) (s : kstate) (pid : Z) : Prop := ∀ m, let s1 := s <| kmem := m |> in
  ∃ s' vid, setup_paging pid s1 = Ok (tt, s') ∧ entered_space keep s1 pid s' vid.

(** A kernel that runs a process can enter any, and one that runs none yet
    the first. *)
Definition paging_ready (s : kstate) : Prop :=
  paging_ok (kpage s) ∧ pages_ok (kpages s) ∧ ∃ i vi, in_space (kpage s) i vi.
Lemma ready_enters s pid : paging_ready s → 0 ≤ pid < 6 → can_enter no_prog s pid.
Proof using Hlay. intros (Hp & Hg & i & vi & Hs) Hpid m s1. by eapply (setup_paging_remapped s1). Qed.
Lemma first_enters s pid : Z.testbit (cr0 (kpage s)) 31 = false → Z.testbit (cr4 (kpage s)) 4 = true →
  paging_ok (kpage s) → pages_ok (kpages s) → 0 ≤ pid < 6 → can_enter stays s pid.
Proof using Hlay.
  intros Hoff H4 Hp Hg Hpid m s1. destruct (setup_paging_first s1 pid) as (s' & vid & E & He & _); try done.
  by exists s', vid.
Qed.
Lemma pages_init_ready p : paging_ok (pages_init p).
Proof using Type.
  split; try done. intros i Hi. exists dir_init, false. split; [|split; [|done]].
  - cbn. apply zlookup_Some. split; [lia|]. apply (lookup_replicate_2 6). lia.
  - unfold dir_init. by rewrite !length_insert, length_replicate.
Qed.

(** The program memory of a process, byte by byte. *)
Lemma prog_view_lookup s j a : pages_ok (kpages s) →
  prog_view s j !! a =
    if decide (in_prog a) then
      if bool_decide (prog_page (kpage s) = Some (prog_base j)) then kmem s !! a
      else kpages s !! prog_base j ≫= lookup a
    else None.
Proof using Type.
  intros Hp. unfold prog_view. case_bool_decide; case_decide as Ha.
  - destruct (kmem s !! a) eqn:E; [by apply map_lookup_filter_Some_2|].
    apply map_lookup_filter_None. by left.
  - apply map_lookup_filter_None. by right; intros ? _ ?; apply Ha.
  - by destruct (kpages s !! prog_base j).
  - destruct (kpages s !! prog_base j) as [pg|] eqn:E; [|done]. cbn.
    destruct (pg !! a) eqn:Epg; [|done]. destruct Ha. by eapply Hp.
Qed.

(** Writing program memory changes that of the running process. *)
Lemma view_write s pid vid a l :
  in_space (kpage s) pid vid → pages_ok (kpages s) →
  PROG_VIR_ADDR_START ≤ a → a + Z.of_nat (length l) ≤ PROG_VIR_ADDR_START + FOUR_MB →
  let s' := s <| kmem := put_bytes (kmem s) a l |> in
  prog_view s' pid = put_bytes (prog_view s pid) a l ∧
  ∀ j, j ≠ pid → prog_view s' j = prog_view s j.
Proof using Hlay.
  intros Hs Hp H1 H2 s'. split.
  - apply map_eq. intros x. rewrite put_bytes_lookup, !prog_view_lookup by done.
    unfold s'. cbn [kpage kmem kpages upd Set_kmem].
    rewrite (prog_page_ok Hlay _ _ _ Hs), bool_decide_eq_true_2 by done.
    rewrite put_bytes_lookup. unfold in_prog. repeat case_decide; done || lia.
  - intros j Hj. apply map_eq. intros x. rewrite !prog_view_lookup by done.
    unfold s'. cbn [kpage kmem kpages upd Set_kmem].
    rewrite (prog_page_ok Hlay _ _ _ Hs), bool_decide_eq_false_2; [done|].
    intros [= E%prog_base_inj]. by symmetry in E.
Qed.
End views.
