(* ===== verification/LoadSpec.v ===== *)
(** * Loading a program

    From a checked command line to the first instruction: the program page,
    the file's bytes in it, and the jump. *)

From S2P Require Import Prelude CInt Memory CString State Screen Printf Paging PagingInit.
From S2P Require Import Translate FS FSSpec ExecHelper Process ParseSpec SpaceSpec.
From S2P Require Import ExecSpec Views Example.

Lemma content_u8 img x : image_ok img → Forall is_u8 (content img x).
Proof.
  intros Hok. unfold content. apply Forall_take. rewrite Forall_forall. intros c Hc.
  apply list_elem_of_join in Hc as (b & Hc & Hb). apply list_elem_of_omap in Hb as (i & _ & Hi).
  apply zlookup_Some in Hi as [_ Hi]. pose proof (io_blocks _ Hok) as H.
  rewrite Forall_lookup in H. apply H in Hi as [_ Hu]. rewrite Forall_forall in Hu. by apply Hu.
Qed.

Definition LOAD_ADDR := IMG_OFFSET + ENTRY_POINT_START.

Section load.
Context `{Layout} (Hlay : layout_ok).

(** The ranges the second half of the loader uses. *)
Definition load_ranges (s : kstate) (img : image) (cmd : Z) (w : list Z) (prog prog_img : Z)
    : list (Z * Z) :=
  [ (prog, 64); (prog_img, IMG_SIZE); (L_empty, 1); (bblock s, image_size img);
    (cmd, Z.of_nat (length w) + 1) ].

Record load_env (s : kstate) (img : image) (cmd : Z) (w : list Z) (prog prog_img : Z)
    (e : entry) (x : inode_a) (pid : Z) : Prop := {
  le_image : image_at (kmem s) (bblock s) img;
  le_empty : kmem s !! L_empty = Some 0;
  le_name : cstr_at (kmem s) cmd w;
  le_entry : ∃ d, find_entry img w = Some (d, e);
  le_inode : zlookup (inodes img) (e_inode e) = Some x;
  le_apart : apart (load_ranges s img cmd w prog prog_img);
  le_kernel : Forall (λ r, r.1 + r.2 ≤ PROG_VIR_ADDR_START)
    (load_ranges s img cmd w prog prog_img);
  le_prog : mapped (kmem s) prog 64;
  le_img : mapped (kmem s) prog_img (Z.min IMG_SIZE (in_len x));
  le_page : mapped (prog_view s pid) LOAD_ADDR (Z.min IMG_SIZE (in_len x));
}.

(** The bytes that are loaded: a file is cut at [IMG_SIZE]. *)
Definition loaded (img : image) (x : inode_a) : list Z := take (Z.to_nat IMG_SIZE) (content img x).

(** [keep]: the memory that stays where it is when the process is entered. *)
Lemma load_program_ok keep s img cmd w args prog prog_img e x pid s2 vid :
  load_env s img cmd w prog prog_img e x pid → 0 ≤ pid < 6 →
  Forall (λ r, ∀ a, r.1 ≤ a < r.1 + r.2 → keep a) (load_ranges s img cmd w prog prog_img) →
  setup_paging pid s = Ok (tt, s2) → entered_space keep s pid s2 vid →
  ∃ s', load_program pid cmd args prog prog_img s = start_program pid args prog_img s' ∧
    in_space (kpage s') pid vid ∧ paging_ok (kpage s') ∧ pages_ok (kpages s') ∧
    s' = ((s <| kpage := kpage s' |>) <| kpages := kpages s' |>) <| kmem := kmem s' |> ∧
    bytes_at (kmem s') prog_img (loaded img x) ∧
    prog_view s' pid = put_bytes (prog_view s pid) LOAD_ADDR (loaded img x) ∧
    (∀ j, 0 ≤ j < 6 → j ≠ pid → prog_view s' j = prog_view s j) ∧
    (∀ a, keep a → ¬ in_prog a → ¬ (prog ≤ a < prog + 64) → ¬ (prog_img ≤ a < prog_img + IMG_SIZE) →
      kmem s' !! a = kmem s !! a) ∧
    (∀ j, 0 ≤ j → j ≠ pid → zlookup (page_dir (kpage s')) j = zlookup (page_dir (kpage s)) j).
Proof using Hlay.
  intros [Hi He Hn (d & Hf) Hx Hap Hk Hmp Hmi Hpg] Hpid Hkeep E2
    (Hsp2 & Hpk2 & (Es2 & Hps2 & Hv2 & Hm2) & Hdirs).
  unfold load_ranges in Hk, Hkeep. rewrite !Forall_cons in Hk, Hkeep. cbn [fst snd] in Hk, Hkeep.
  destruct Hk as (K0 & K1 & K2 & K3 & K4 & _). destruct Hkeep as (G0 & G1 & G2 & G3 & G4 & _).
  assert (bblock s2 = bblock s) as Ebb by (by rewrite Es2).
  assert (image_at (kmem s2) (bblock s) img) as Hi2.
  { eapply image_agree; [exact Hi|]. intros z Hz. by apply Hm2, G3. }
  assert (∀ a n, (∀ z, a ≤ z < a + n → keep z) → mapped (kmem s) a n → mapped (kmem s2) a n) as Hmap.
  { intros a n Ha. rewrite !mapped_spec. intros Hm z Hz. rewrite Hm2 by auto. auto. }
  assert (cstr_at (kmem s2) cmd w) as Hn2.
  { eapply cstr_at_agree; [|exact Hn]. intros z Hz. apply Hm2, G4. lia. }
  assert (kmem s2 !! L_empty = Some 0) as He2 by (rewrite Hm2 by (apply G2; lia); done).
  pose proof (lookup_ok (kmem s2) (bblock s) img cmd w prog Hi2 He2 Hn2 (Hmap _ _ G0 Hmp)
    ltac:(pair Hap 0%nat 3%nat; done)) as Hl.
  rewrite Hf in Hl. destruct Hl as (m3 & E3 & _ & Eino & (_ & _ & _ & _ & Hu) & Hd3 & Ho3).
  unfold is_u32 in Hu.
  assert (image_at m3 (bblock s) img) as Hi3.
  { eapply image_agree; [exact Hi2|]. intros z Hz. apply Ho3. use_pair Hap 0%nat 3%nat. }
  assert (0 ≤ in_len x) as Hlen by apply (inode_is_ok _ _ _ Hi _ _ Hx).
  assert (length (content img x) = Z.to_nat (in_len x)) as Hlc.
  { apply length_content; [apply Hi|]. apply (inode_is_ok _ _ _ Hi _ _ Hx). }
  set (n := Z.min IMG_SIZE (in_len x)) in *.
  assert (Z.of_nat (length (loaded img x)) = n) as Hll.
  { unfold loaded. rewrite length_take, Hlc. unfold n, IMG_SIZE. lia. }
  assert (mapped m3 prog_img n) as Hmi3.
  { eapply mapped_dom; [exact Hd3|]. apply Hmap; [intros z Hz; apply G1; unfold n in Hz; lia|done]. }
  pose proof (read_small m3 (bblock s) img (e_inode e) x prog_img IMG_SIZE Hi3 ltac:(lia) Hx
    ltac:(by split) Hmi3) as E4. fold (loaded img x) in E4. rewrite Hll in E4.
  specialize (E4 ltac:(use_pair Hap 1%nat 3%nat)).
  set (m4 := put_bytes m3 prog_img (loaded img x)) in *.
  assert (mapped (kmem s2) LOAD_ADDR n) as Hpg2.
  { rewrite mapped_spec in Hpg |- *. intros z Hz. specialize (Hpg z Hz).
    rewrite <-(Hv2 pid Hpid) in Hpg. rewrite (view_shown Hlay s2 pid vid); [done|done|].
    unfold in_prog. destruct Hpg as [v Hpg]. rewrite prog_view_lookup in Hpg by done.
    by case_decide. }
  assert (dom m4 = dom (kmem s2)) as Hd4.
  { rewrite <-Hd3. apply put_bytes_dom. by rewrite Hll. }
  assert (LOAD_ADDR + n ≤ PROG_VIR_ADDR_START + FOUR_MB ∧ PROG_VIR_ADDR_START ≤ LOAD_ADDR) as Hrange.
  { unfold n, LOAD_ADDR, IMG_OFFSET, ENTRY_POINT_START, IMG_SIZE, PROG_VIR_ADDR_START, FOUR_MB. lia. }
  assert (bytes_at m4 prog_img (loaded img x)) as Hb4 by apply put_bytes_at.
  pose proof (memcpy_ok m4 LOAD_ADDR prog_img (loaded img x) Hb4) as E5. rewrite Hll in E5.
  specialize (E5 ltac:(apply Forall_take, content_u8, Hi) ltac:(by eapply mapped_dom)
    ltac:(unfold disjoint_range, PROG_VIR_ADDR_START in *; lia)).
  set (m5 := put_bytes m4 LOAD_ADDR (loaded img x)) in *.
  set (s4 := s2 <| kmem := m4 |>).
  exists (s4 <| kmem := m5 |>).
  split; [|split; [exact Hsp2|split; [exact Hpk2|split; [exact Hps2|split; [|split; [|split; [|split; [|split]]]]]]]].
  - unfold load_program. erewrite bind_ok by exact E2.
    erewrite bind_ok by (unfold kget; reflexivity). cbv beta. rewrite Ebb.
    erewrite bind_ok by (by apply on_mem_ok). bool_lits. cbv iota.
    erewrite bind_ok by (apply on_mem_pure; exact Eino).
    erewrite bind_ok by (apply on_mem_ok; exact E4).
    rewrite bool_decide_eq_false_2 by (unfold n, IMG_SIZE; lia).
    erewrite bind_ok by (apply on_mem_ok; exact E5). done.
  - unfold s4. cbn [kpage kpages kmem upd Set_kmem]. by rewrite Es2 at 1.
  - unfold m5. cbn [kmem upd Set_kmem]. apply bytes_at_put_disjoint; [|exact Hb4].
    rewrite Hll. unfold disjoint_range, n in *. lia.
  - destruct (view_write Hlay s4 pid vid LOAD_ADDR (loaded img x)) as [Hw _];
      [done|done|lia|lia|]. change (prog_view (s4 <| kmem := m5 |>) pid =
        put_bytes (prog_view s4 pid) LOAD_ADDR (loaded img x)) in Hw.
    rewrite Hw. f_equal. rewrite <-(Hv2 pid Hpid). apply view_kernel. intros z Hz.
    unfold m4. rewrite put_bytes_outside by (rewrite Hll; unfold in_prog, n in *; lia).
    apply Ho3. unfold in_prog in Hz. lia.
  - intros j Hj Hne. destruct (view_write Hlay s4 pid vid LOAD_ADDR (loaded img x)) as [_ Hw];
      [done|done|lia|lia|]. change (∀ j, j ≠ pid → prog_view (s4 <| kmem := m5 |>) j = prog_view s4 j) in Hw.
    rewrite Hw by done. rewrite <-(Hv2 j Hj). apply view_kernel. intros z Hz.
    unfold m4. rewrite put_bytes_outside by (rewrite Hll; unfold in_prog, n in *; lia).
    apply Ho3. unfold in_prog in Hz. lia.
  - intros a Hka Ha Hap' Hai. cbn [kmem upd Set_kmem]. unfold m5, m4.
    rewrite !put_bytes_outside; [rewrite Ho3 by done; by apply Hm2|rewrite Hll; unfold n; lia|].
    rewrite Hll. unfold in_prog in Ha. lia.
  - exact Hdirs.
Qed.
End load.
