(* ===== verification/StartSpec.v ===== *)
(** * The control block of a new process *)

From S2P Require Import Prelude CInt Memory CString State Screen Printf Paging PagingInit.
From S2P Require Import Translate FS FSSpec ExecHelper Process ParseSpec SpaceSpec.
From S2P Require Import ExecSpec Views LoadSpec Example.

(** ** Steps on the process variables *)
Section steps.
Context (s : kstate).

Lemma cur_mod_run a m bm ff ae pe cp f b :
  m !! a = Some b →
  mod_cur_pcb f (s <| kproc := Mk_proc_t a m bm ff ae pe cp |>) =
    Ok (tt, s <| kproc := Mk_proc_t a (<[a := f b]> m) bm ff ae pe cp |>).
Proof.
  intros Hb. unfold mod_cur_pcb. erewrite bind_ok by (unfold kget; reflexivity).
  by rewrite (pcb_mod_ok _ _ b).
Qed.

Lemma pcb_mod_run a m bm ff ae pe cp p f b :
  m !! p = Some b →
  pcb_mod p f (s <| kproc := Mk_proc_t a m bm ff ae pe cp |>) =
    Ok (tt, s <| kproc := Mk_proc_t a (<[p := f b]> m) bm ff ae pe cp |>).
Proof. intros Hb. by rewrite (pcb_mod_ok _ _ b). Qed.

Lemma pcb_get_run a m bm ff ae pe cp p b :
  m !! p = Some b →
  pcb_get p (s <| kproc := Mk_proc_t a m bm ff ae pe cp |>) =
    Ok (b, s <| kproc := Mk_proc_t a m bm ff ae pe cp |>).
Proof.
  intros Hb. unfold pcb_get. erewrite bind_ok by (unfold kget; reflexivity).
  cbn [kproc pcbs upd Set_kproc]. by rewrite Hb.
Qed.

Lemma cur_get_run a m bm ff ae pe cp b :
  m !! a = Some b →
  cur_pcb (s <| kproc := Mk_proc_t a m bm ff ae pe cp |>) =
    Ok (b, s <| kproc := Mk_proc_t a m bm ff ae pe cp |>).
Proof.
  intros Hb. unfold cur_pcb. erewrite bind_ok by (unfold kget; reflexivity).
  by apply pcb_get_run.
Qed.

Lemma mod_file_run a m bm ff ae pe cp fd f b x :
  m !! a = Some b → zlookup (file_array b) fd = Some x →
  mod_file fd f (s <| kproc := Mk_proc_t a m bm ff ae pe cp |>) =
    Ok (tt, s <| kproc := Mk_proc_t a
      (<[a := b <| file_array := <[Z.to_nat fd := f x]> (file_array b) |>]> m) bm ff ae pe cp |>).
Proof. intros Hb Hx. by rewrite (mod_file_ok _ b fd x). Qed.
End steps.

(** ** The block *)

Definition std_file (f : file_struct_t) : file_struct_t :=
  (f <| fops_table := Some fops_term |>) <| flags := Z.lor TYPE_TERM OPEN |>.
Definition std_files (l : list file_struct_t) : list file_struct_t :=
  match l with f0 :: f1 :: l => std_file f0 :: std_file f1 :: l | _ => l end.

(** A new block over the stale one, [b0]. *)
Definition new_block (b0 : pcb_t) (p parent term : Z) : pcb_t :=
  ((((b0 <| pid := p |>) <| child_pid := -1 |>) <| parent_pid := parent |>)
    <| curTerminal := term |>) <| file_array ::= std_files |>.

Section init.
Context (s : kstate) (m : gmap Z pcb_t) (bm ff pe cp : Z).
Context (p : Z) (b0 : pcb_t) (Hb0 : m !! PCB_ADDR p = Some b0).
Context (Hfiles : length (file_array b0) = 8%nat).
Context (old : Z) (o : pcb_t) (Ho : m !! old = Some o).

Lemma std_files_ok l : length l = 8%nat →
  ∃ f0 f1, zlookup l 0 = Some f0 ∧ zlookup (<[0%nat := std_file f0]> l) 1 = Some f1 ∧
    <[1%nat := std_file f1]> (<[0%nat := std_file f0]> l) = std_files l.
Proof using Type. destruct l as [|f0 [|f1 l]]; [done|done|]. intros _. by exists f0, f1. Qed.

(** The two standard files. *)
Lemma std_open s' m' bm' ff' ae' b :
  m' !! PCB_ADDR p = Some b → length (file_array b) = 8%nat →
  (_ ← mod_file 0 std_file; mod_file 1 std_file)
    (s' <| kproc := Mk_proc_t (PCB_ADDR p) m' bm' ff' ae' pe cp |>) =
  Ok (tt, s' <| kproc := Mk_proc_t (PCB_ADDR p)
    (<[PCB_ADDR p := b <| file_array ::= std_files |>]> m') bm' ff' ae' pe cp |>).
Proof using Type.
  intros Hb Hl. destruct (std_files_ok _ Hl) as (f0 & f1 & F0 & F1 & F2).
  erewrite bind_ok by (apply mod_file_run; [exact Hb|exact F0]).
  change (Z.to_nat 0) with 0%nat.
  set (b1 := b <| file_array := <[0%nat := std_file f0]> (file_array b) |>).
  assert (zlookup (file_array b1) 1 = Some f1) as F1' by exact F1.
  rewrite (mod_file_run _ _ _ _ _ _ _ _ 1 _ b1 f1 (lookup_insert_eq _ _ _) F1').
  rewrite insert_insert_eq. unfold b1. cbn [file_array upd Set_file_array].
  change (Z.to_nat 1) with 1%nat. rewrite F2. reflexivity.
Qed.

(** A program run by another one. *)
Lemma init_pcb_child :
  whichTerm (kscr s) ∉ [1; 2; 4] → old ≠ PCB_ADDR p → pid o ≠ -1 →
  init_pcb p old (s <| kproc := Mk_proc_t old m bm ff 0 pe cp |>) =
      Ok (tt, (s <| kscr ::= (λ c, c <| whichTerm := 0 |>) |>)
                <| kproc := Mk_proc_t (PCB_ADDR p)
       (<[PCB_ADDR p := new_block b0 p (pid o) (curTerminal o)]>
         (<[old := o <| child_pid := p |>]> m)) bm ff 0 pe cp |>).
Proof using All.
  intros Hw Hne Hpid. rewrite !not_elem_of_cons in Hw. destruct Hw as (W1 & W2 & W4 & _).
  set (A := PCB_ADDR p) in *. set (b1 := (b0 <| pid := p |>) <| child_pid := -1 |>).
  set (b2 := b1 <| parent_pid := pid o |>). set (b3 := b2 <| curTerminal := curTerminal o |>).
  set (s1 := s <| kscr ::= (λ c, c <| whichTerm := 0 |>) |>).
  unfold init_pcb. fold A.
  erewrite bind_ok by reflexivity.
  erewrite bind_ok by (by apply (cur_mod_run s A m bm ff 0 pe cp _ b0)). fold b1.
  erewrite bind_ok by (unfold kget; reflexivity). cbn [kscr upd Set_kproc].
  rewrite (bool_decide_eq_false_2 (whichTerm _ = 1)), (bool_decide_eq_false_2 (whichTerm _ = 2)),
    (bool_decide_eq_false_2 (whichTerm _ = 4)) by done. cbv iota.
  erewrite bind_ok.
  2:{ erewrite bind_ok by (apply pcb_get_run; by rewrite lookup_insert_ne).
      apply (cur_mod_run s A _ bm ff 0 pe cp _ b1). apply lookup_insert_eq. }
  rewrite insert_insert_eq. fold b2.
  rewrite (bind_ok _ _ _ tt (s1 <| kproc := Mk_proc_t A (<[A:=b2]> m) bm ff 0 pe cp |>)) by reflexivity.
  erewrite bind_ok by (unfold kget; reflexivity).
  cbn [kproc attemptExit upd Set_kproc]. bool_lits. cbv iota.
  erewrite bind_ok by reflexivity.
  erewrite bind_ok by (apply (cur_get_run s1 A); apply lookup_insert_eq).
  rewrite (bool_decide_eq_true_2 (parent_pid b2 ≠ -1)) by done. cbv iota.
  set (m3 := <[A := b3]> (<[old := o <| child_pid := p |>]> m)).
  rewrite (bind_ok _ _ _ tt (s1 <| kproc := Mk_proc_t A m3 bm ff 0 pe cp |>)).
  - refine (eq_trans (std_open s1 m3 bm ff 0 b3 (lookup_insert_eq _ _ _) Hfiles) _).
    unfold m3. fold A. by rewrite insert_insert_eq.
  - erewrite bind_ok by (apply (pcb_mod_run s1 A _ bm ff 0 pe cp old _ o); by rewrite lookup_insert_ne).
    erewrite bind_ok by (apply pcb_get_run; apply lookup_insert_eq).
    rewrite (cur_mod_run s1 A _ bm ff 0 pe cp _ b2)
      by (by rewrite lookup_insert_ne, lookup_insert_eq).
    unfold m3. do 4 f_equal. rewrite (insert_insert_ne _ old A) by done.
    by rewrite insert_insert_eq.
Qed.

(** The shell that replaces one that ended: [old] is the block of the latter,
    possibly the same. *)
Lemma init_pcb_respawn ae :
  whichTerm (kscr s) ∉ [1; 2; 4] → ae ≠ 0 →
  init_pcb p old (s <| kproc := Mk_proc_t old m bm ff ae pe cp |>) =
      Ok (tt, (s <| kscr ::= (λ c, c <| whichTerm := 0 |>) |>)
                <| kproc := Mk_proc_t (PCB_ADDR p)
       (<[PCB_ADDR p := new_block b0 p (-1) (curTerminal o)]> m) bm ff 0 pe cp |>).
Proof using All.
  intros Hw Hae. rewrite !not_elem_of_cons in Hw. destruct Hw as (W1 & W2 & W4 & _).
  set (A := PCB_ADDR p) in *. set (b1 := (b0 <| pid := p |>) <| child_pid := -1 |>).
  assert (∃ o1, <[A := b1]> m !! old = Some o1 ∧ curTerminal o1 = curTerminal o) as (o1 & Ho1 & Eo1).
  { destruct (decide (old = A)) as [E|E].
    - exists b1. split; [rewrite E; apply lookup_insert_eq|]. cbn. subst old. congruence.
    - exists o. by rewrite lookup_insert_ne. }
  set (b2 := b1 <| parent_pid := pid o1 |>). set (b3 := b2 <| parent_pid := -1 |>).
  set (b4 := b3 <| curTerminal := curTerminal o |>).
  set (s1 := s <| kscr ::= (λ c, c <| whichTerm := 0 |>) |>).
  unfold init_pcb. fold A.
  erewrite bind_ok by reflexivity.
  erewrite bind_ok by (by apply (cur_mod_run s A m bm ff ae pe cp _ b0)). fold b1.
  erewrite bind_ok by (unfold kget; reflexivity). cbn [kscr upd Set_kproc].
  rewrite (bool_decide_eq_false_2 (whichTerm _ = 1)), (bool_decide_eq_false_2 (whichTerm _ = 2)),
    (bool_decide_eq_false_2 (whichTerm _ = 4)) by done. cbv iota.
  erewrite bind_ok.
  2:{ erewrite bind_ok by (apply pcb_get_run; exact Ho1).
      apply (cur_mod_run s A _ bm ff ae pe cp _ b1). apply lookup_insert_eq. }
  rewrite insert_insert_eq. fold b2.
  rewrite (bind_ok _ _ _ tt (s1 <| kproc := Mk_proc_t A (<[A:=b2]> m) bm ff ae pe cp |>)) by reflexivity.
  erewrite bind_ok by (unfold kget; reflexivity).
  cbn [kproc attemptExit upd Set_kproc]. rewrite (bool_decide_eq_true_2 (ae ≠ 0)) by done.
  cbv iota.
  rewrite (bind_ok _ _ _ tt (s1 <| kproc := Mk_proc_t A (<[A:=b4]> m) bm ff 0 pe cp |>)).
  - erewrite bind_ok by (apply (cur_get_run s1 A); apply lookup_insert_eq).
    rewrite (bool_decide_eq_false_2 (parent_pid b4 ≠ -1)) by (intros Hx; by apply Hx). cbv iota.
    erewrite bind_ok by reflexivity.
    refine (eq_trans (std_open s1 _ bm ff 0 b4 (lookup_insert_eq _ _ _) Hfiles) _).
    fold A. by rewrite insert_insert_eq.
  - rewrite (bind_ok _ _ _ tt (s1 <| kproc := Mk_proc_t A (<[A:=b2]> m) bm ff 0 pe cp |>)) by reflexivity.
    erewrite bind_ok by (apply (cur_mod_run s1 A _ bm ff 0 pe cp _ b2); apply lookup_insert_eq).
    rewrite insert_insert_eq. fold b3.
    assert (∃ o3, <[A := b3]> m !! old = Some o3 ∧ curTerminal o3 = curTerminal o) as (o3 & Ho3 & Eo3).
    { destruct (decide (old = A)) as [E|E].
      - exists b3. split; [rewrite E; apply lookup_insert_eq|]. cbn. subst old. congruence.
      - exists o. by rewrite lookup_insert_ne. }
    erewrite bind_ok by (apply pcb_get_run; exact Ho3).
    rewrite (cur_mod_run s1 A _ bm ff 0 pe cp _ b3) by apply lookup_insert_eq.
    rewrite Eo3. fold b4. by rewrite insert_insert_eq.
Qed.
(** The first shell of a terminal. *)
Definition root_bit (w t : Z) : Prop := w = 1 ∧ t = 1 ∨ w = 2 ∧ t = 2 ∨ w = 4 ∧ t = 3.
Lemma init_pcb_root old' t :
  root_bit (whichTerm (kscr s)) t →
  init_pcb p old' (s <| kproc := Mk_proc_t old' m bm ff 0 pe cp |>) =
      Ok (tt, (s <| kscr ::= (λ c, c <| whichTerm := 0 |>) |>)
                <| kproc := Mk_proc_t (PCB_ADDR p) (<[PCB_ADDR p := new_block b0 p (-1) t]> m) bm ff 0 pe cp |>).
Proof using Hb0 Hfiles.
  intros Hw. set (A := PCB_ADDR p) in *. set (b1 := (b0 <| pid := p |>) <| child_pid := -1 |>).
  set (b2 := (b1 <| parent_pid := -1 |>) <| curTerminal := t |>).
  set (s1 := s <| kscr ::= (λ c, c <| whichTerm := 0 |>) |>).
  unfold init_pcb. fold A.
  erewrite bind_ok by reflexivity.
  erewrite bind_ok by (by apply (cur_mod_run s A m bm ff 0 pe cp _ b0)). fold b1.
  erewrite bind_ok by (unfold kget; reflexivity). cbn [kscr upd Set_kproc].
  rewrite (bind_ok _ _ _ tt (s <| kproc := Mk_proc_t A (<[A:=b2]> m) bm ff 0 pe cp |>)).
  2:{ rewrite <-(insert_insert_eq m A b2 b1). unfold b2.
      destruct Hw as [[-> ->]|[[-> ->]|[-> ->]]]; bool_lits; cbv iota;
        exact (cur_mod_run s A (<[A:=b1]> m) bm ff 0 pe cp
          (λ b, (b <| parent_pid := -1 |>) <| curTerminal := _ |>) b1 (lookup_insert_eq _ _ _)). }
  rewrite (bind_ok _ _ _ tt (s1 <| kproc := Mk_proc_t A (<[A:=b2]> m) bm ff 0 pe cp |>)) by reflexivity.
  erewrite bind_ok by (unfold kget; reflexivity).
  cbn [kproc attemptExit upd Set_kproc]. bool_lits. cbv iota.
  erewrite bind_ok by reflexivity.
  erewrite bind_ok by (apply (cur_get_run s1 A); apply lookup_insert_eq).
  rewrite (bool_decide_eq_false_2 (parent_pid b2 ≠ -1)) by (intros Hx; by apply Hx). cbv iota.
  erewrite bind_ok by reflexivity.
  refine (eq_trans (std_open s1 _ bm ff 0 b2 (lookup_insert_eq _ _ _) Hfiles) _).
  fold A. by rewrite insert_insert_eq.
Qed.
End init.

(** ** The jump *)
Section start.
Context `{Layout}.

(** The kernel as it enters the program [p]: its block complete, its bit
    set, the task state for its kernel stack. *)
Definition entered (s : kstate) (p entry args : Z) (m : gmap Z pcb_t) (nb : pcb_t) : kstate :=
  let c := kcpu s in
  (s <| kproc ::= (λ k, ((k <| pcb := PCB_ADDR p |>)
        <| pcbs := <[PCB_ADDR p := ((nb <| arguments := args |>) <| parent_esp := esp c |>)
                                    <| parent_ebp := ebp c |>]> m |>)
        <| pid_bitmap ::= (λ v, u8 (Z.lor v (Z.shiftl 1 p))) |>) |>)
    <| kcpu := ((c <| tss_eip := entry |>) <| tss_esp0 := KERNEL_STACK_BASE - p * TASK_STACK_SIZE |>)
                <| tss_ss0 := KERNEL_DS |> |>.

(** The first program of all sets up the screen. *)
Definition first_screen (s : kstate) : kstate :=
  if bool_decide (first_flag (kproc s) = 0) then
    (s <| kproc ::= (λ p, p <| first_flag := 1 |>) |>) <| kscr ::= (λ c,
      (c <| currentTerminal := 1 |>) <| numShells := Z.lor (numShells c) 0x01 |>) |>
  else s.
Lemma first_screen_id s : first_flag (kproc s) ≠ 0 → first_screen s = s.
Proof using Type. intros Hf. unfold first_screen. by rewrite bool_decide_eq_false_2. Qed.

Lemma start_program_screen s1 s2 old p args prog_img ep nb m bm ff ae pe cp :
  kproc s1 = Mk_proc_t old m bm ff ae pe cp →
  init_pcb p old s1 = Ok (tt, s2) →
  (∃ m2, kproc s2 = Mk_proc_t (PCB_ADDR p) m2 bm ff 0 pe cp ∧ m2 !! PCB_ADDR p = Some nb) →
  pid nb = p → is_u32 ep → bytes_at (kmem s2) (prog_img + 24) (le32 ep) →
  start_program p args prog_img s1 =
    Ok (Enter ep child_esp, entered (first_screen s2) p ep args (pcbs (kproc s2)) nb).
Proof using Type.
  intros Hk Hi (m2 & Hk2 & Hnb) Hpid Hep Hb.
  destruct s2 as [me io sc te kb rt pr pg cpu pgs bb iq]. cbn [kproc kmem] in *. subst pr.
  unfold start_program. erewrite bind_ok by (unfold kget; reflexivity). rewrite Hk.
  cbn [pcb]. erewrite bind_ok by exact Hi. erewrite bind_ok by reflexivity.
  erewrite bind_ok.
  2:{ apply on_mem_pure. apply load32_le32; [exact Hb|exact Hep]. }
  unfold mod_proc. erewrite bind_ok by (apply cur_pcb_ok; exact Hnb). rewrite Hpid.
  erewrite bind_ok by reflexivity. erewrite bind_ok.
  2:{ unfold mod_cur_pcb. erewrite bind_ok by (unfold kget; reflexivity).
      apply pcb_mod_ok. exact Hnb. }
  erewrite bind_ok by (unfold kget; reflexivity).
  cbn [kproc first_flag upd Set_kproc Set_kcpu Set_pcbs Set_pid_bitmap].
  set (cpu' := ((cpu <| tss_eip := ep |>) <| tss_esp0 := KERNEL_STACK_BASE - p * TASK_STACK_SIZE |>)
    <| tss_ss0 := KERNEL_DS |>).
  set (st := λ ff sc, Mk_kstate me io sc te kb rt (Mk_proc_t (PCB_ADDR p) (<[PCB_ADDR p := nb <| arguments := args |>]> m2)
    (u8 (Z.lor bm (Z.shiftl 1 p))) ff 0 pe cp) pg cpu' pgs bb iq).
  assert (∀ ff sc, (c ← kget kcpu;
    _ ← mod_cur_pcb (λ b, (b <| parent_esp := esp c |>) <| parent_ebp := ebp c |>);
    mret (Enter ep child_esp)) (st ff sc) = Ok (Enter ep child_esp,
    (st ff sc) <| kproc ::= (λ k, k <| pcbs := <[PCB_ADDR p := ((nb <| arguments := args |>)
      <| parent_esp := esp cpu |>) <| parent_ebp := ebp cpu |>]> m2 |>) |>)) as Hend.
  { intros ff' sc'. erewrite bind_ok by (unfold kget; reflexivity). erewrite bind_ok.
    2:{ unfold mod_cur_pcb. erewrite bind_ok by (unfold kget; reflexivity).
        apply pcb_mod_ok. apply lookup_insert_eq. }
    unfold mret, K_ret, st. upd_cbv. by rewrite insert_insert_eq. }
  unfold first_screen. cbn [kproc first_flag]. case_bool_decide as Hff.
  - rewrite (bind_ok _ _ _ tt (st 1 ((sc <| currentTerminal := 1 |>) <| numShells := Z.lor (numShells sc) 0x01 |>)))
      by reflexivity. rewrite Hend. reflexivity.
  - rewrite (bind_ok _ _ _ tt (st ff sc)) by reflexivity. rewrite Hend. reflexivity.
Qed.

Lemma start_program_ok s1 s2 old p args prog_img ep nb m bm ff ae pe cp :
  kproc s1 = Mk_proc_t old m bm ff ae pe cp →
  init_pcb p old s1 = Ok (tt, s2) →
  (∃ m2, kproc s2 = Mk_proc_t (PCB_ADDR p) m2 bm ff 0 pe cp ∧ m2 !! PCB_ADDR p = Some nb) →
  pid nb = p → ff ≠ 0 → is_u32 ep → bytes_at (kmem s2) (prog_img + 24) (le32 ep) →
  start_program p args prog_img s1 =
    Ok (Enter ep child_esp, entered s2 p ep args (pcbs (kproc s2)) nb).
Proof using Type.
  intros Hk Hi (m2 & Hk2 & Hnb) Hpid Hff Hep Hb.
  rewrite (start_program_screen s1 s2 old p args prog_img ep nb m bm ff ae pe cp); [|exact Hk|exact Hi|by exists m2|exact Hpid|exact Hep|exact Hb].
  rewrite first_screen_id; [done|]. by rewrite Hk2.
Qed.
End start.
