(* ===== verification/ProcTable.v ===== *)
(** * The process table

    The invariant of the control blocks, the bit map and the page
    directories: the numbers in use form a forest by parent and child. *)

From S2P Require Import Prelude CInt Memory CString State Screen Paging PagingInit.
From S2P Require Import Translate FS Process Views.

Lemma land_bit b n : 0 ≤ n → Z.land b (Z.shiftl 1 n) = 0 ↔ Z.testbit b n = false.
Proof.
  intros Hn. split.
  - intros E. assert (Z.testbit (Z.land b (Z.shiftl 1 n)) n = false) as H by (by rewrite E, Z.bits_0).
    rewrite Z.land_spec, testbit_one, bool_decide_eq_true_2 in H by done.
    by rewrite andb_true_r in H.
  - intros H. apply Z.bits_inj'. intros k Hk. rewrite Z.land_spec, testbit_one, Z.bits_0 by done.
    case_bool_decide; [subst; by rewrite H|apply andb_false_r].
Qed.

Lemma PCB_ADDR_inj i j : PCB_ADDR i = PCB_ADDR j → i = j.
Proof. unfold PCB_ADDR, TASK_STACK_SIZE. lia. Qed.

(** The bits of the map after one is set, and after one is cleared. *)
Lemma bitmap_set bm p : 0 ≤ p < 6 →
  ∀ j, 0 ≤ j < 8 → Z.testbit (u8 (Z.lor bm (Z.shiftl 1 p))) j = Z.testbit bm j || bool_decide (j = p).
Proof. intros Hp j Hj. apply set_bit; lia. Qed.

Lemma bitmap_clear bm i : is_u8 bm → 0 ≤ i < 6 → Z.testbit bm i = true →
  ∀ j, 0 ≤ j < 8 → Z.testbit (u8 (bm - Z.shiftl 1 i)) j = Z.testbit bm j && negb (bool_decide (j = i)).
Proof.
  intros Hb Hi Ht j Hj.
  assert (Forall (λ bm, Forall (λ i, Z.testbit bm i = true → Forall (λ j,
    Z.testbit (u8 (bm - Z.shiftl 1 i)) j = Z.testbit bm j && negb (bool_decide (j = i)))
    (seqZ 0 8)) (seqZ 0 6)) (seqZ 0 256)) as H.
  { apply (bool_decide_unpack _). by vm_compute. }
  rewrite Forall_forall in H. specialize (H bm ltac:(apply elem_of_seqZ; unfold is_u8 in Hb; lia)).
  rewrite Forall_forall in H. specialize (H i ltac:(apply elem_of_seqZ; lia) Ht).
  rewrite Forall_forall in H. apply H, elem_of_seqZ. lia.
Qed.

Section table.
Context `{Layout}.

(** Number [j] is in use, with the block [b]. *)
Definition used (k : proc_t) (j : Z) (b : pcb_t) : Prop :=
  0 ≤ j < 6 ∧ Z.testbit (pid_bitmap k) j = true ∧ pcbs k !! PCB_ADDR j = Some b.

Record table_ok (k : proc_t) (dirs : list (list Z)) : Prop := {
  tb_bits : is_u8 (pid_bitmap k);
  tb_blocks j : 0 ≤ j < 6 → ∃ b, pcbs k !! PCB_ADDR j = Some b ∧ length (file_array b) = 8%nat;
  tb_pid j b : used k j b → pid b = j;
  tb_dir j b : used k j b → ∃ v, zlookup dirs j = Some (proc_dir j v);
  tb_parent j b : used k j b →
    parent_pid b = -1 ∨ ∃ o, used k (parent_pid b) o ∧ child_pid o = j;
  tb_child j b : used k j b →
    child_pid b = -1 ∨ ∃ c, used k (child_pid b) c ∧ parent_pid c = j;
}.

(** No process is its own parent, and a parent is not a leaf. *)
Lemma parent_used k dirs j b :
  table_ok k dirs → used k j b → parent_pid b ≠ -1 → child_pid b = -1 →
  ∃ o, used k (parent_pid b) o ∧ child_pid o = j ∧ parent_pid b ≠ j.
Proof.
  intros Ht Hj Hp Hc. destruct (tb_parent _ _ Ht _ _ Hj) as [|(o & Ho & Eo)]; [done|].
  exists o. split; [done|]. split; [done|]. intros E. rewrite E in Ho.
  destruct Hj as (? & ? & Hb), Ho as (? & ? & Ho). rewrite Hb in Ho. simplify_eq. lia.
Qed.

(** A new process under a leaf. *)
Lemma table_add k dirs dirs' i o p nb k' :
  table_ok k dirs → used k i o → child_pid o = -1 →
  0 ≤ p < 6 → Z.testbit (pid_bitmap k) p = false →
  pid nb = p → parent_pid nb = i → child_pid nb = -1 → length (file_array nb) = 8%nat →
  (∀ j, 0 ≤ j → j ≠ p → zlookup dirs' j = zlookup dirs j) →
  (∃ v, zlookup dirs' p = Some (proc_dir p v)) →
  pcbs k' = <[PCB_ADDR p := nb]> (<[PCB_ADDR i := o <| child_pid := p |>]> (pcbs k)) →
  pid_bitmap k' = u8 (Z.lor (pid_bitmap k) (Z.shiftl 1 p)) →
  table_ok k' dirs'.
Proof.
  intros Ht Hi Hleaf Hp Hfree Hnp Hnpar Hnc Hnf Hd Hdp Hk' Hb'.
  destruct Hi as (Hir & Hib & Hio). assert (i ≠ p) as Hne by congruence.
  assert (PCB_ADDR i ≠ PCB_ADDR p) as Hnea by (intros E%PCB_ADDR_inj; done).
  assert (∀ j b, used k' j b ↔ (j = p ∧ b = nb) ∨ (j = i ∧ b = o <| child_pid := p |>) ∨
    (j ≠ p ∧ j ≠ i ∧ used k j b)) as Hused.
  { intros j b. unfold used. rewrite Hk', Hb'. split.
    - intros (Hj & Hbit & Hl). rewrite bitmap_set in Hbit by lia.
      destruct (decide (j = p)) as [->|Hjp].
      { left. rewrite lookup_insert_eq in Hl. by simplify_eq. }
      rewrite lookup_insert_ne in Hl by (intros E%PCB_ADDR_inj; done).
      destruct (decide (j = i)) as [->|Hji].
      { right; left. rewrite lookup_insert_eq in Hl. by simplify_eq. }
      rewrite lookup_insert_ne in Hl by (intros E%PCB_ADDR_inj; done).
      rewrite bool_decide_eq_false_2, orb_false_r in Hbit by done. by right; right.
    - intros [[-> ->]|[[-> ->]|(Hjp & Hji & Hj & Hbit & Hl)]].
      + split; [done|]. split; [|apply lookup_insert_eq].
        rewrite bitmap_set by lia. by rewrite bool_decide_eq_true_2, orb_true_r.
      + split; [done|]. split; [rewrite bitmap_set by lia; by rewrite Hib|].
        rewrite lookup_insert_ne by done. apply lookup_insert_eq.
      + split; [done|]. split; [rewrite bitmap_set by lia; by rewrite Hbit|].
        rewrite !lookup_insert_ne by (intros E%PCB_ADDR_inj; done). done. }
  assert (used k i o) as Hi by done.
  assert (used k' i (o <| child_pid := p |>)) as Hi' by (apply Hused; right; left; done).
  assert (used k' p nb) as Hp' by (apply Hused; left; done).
  assert (∀ j b, used k j b → j ≠ p) as Hnp'.
  { intros j b (_ & Hj & _) ->. congruence. }
  split.
  - rewrite Hb'. apply u8_range.
  - intros j Hj. rewrite Hk'. destruct (decide (j = p)) as [->|Hjp].
    { exists nb. split; [apply lookup_insert_eq|done]. }
    rewrite lookup_insert_ne by (intros E%PCB_ADDR_inj; done).
    destruct (decide (j = i)) as [->|Hji].
    { eexists. split; [apply lookup_insert_eq|]. cbn.
      destruct (tb_blocks _ _ Ht i Hj) as (b & Hb & Hl). rewrite Hio in Hb. by simplify_eq. }
    rewrite lookup_insert_ne by (intros E%PCB_ADDR_inj; done). by apply Ht.
  - intros j b [[-> ->]|[[-> ->]|(_ & _ & Hj)]]%Hused; [done|exact (tb_pid _ _ Ht i o Hi)|by apply Ht].
  - intros j b [[-> ->]|[[-> ->]|(Hjp & _ & Hj)]]%Hused; [done| |].
    + rewrite Hd by lia. by apply (tb_dir _ _ Ht i o).
    + destruct Hj as [Hjr Hj]. rewrite Hd by lia. by apply (tb_dir _ _ Ht j b).
  - intros j b [[-> ->]|[[-> ->]|(Hjp & Hji & Hj)]]%Hused.
    + right. rewrite Hnpar. by eexists.
    + destruct (tb_parent _ _ Ht _ _ Hi) as [|(q & Hq & Eq)]; [by left|]. right.
      exists q. split; [|done]. cbn. apply Hused. right; right. split; [by eapply Hnp'|]. split; [|done].
      intros E. rewrite E in Hq. destruct Hq as (_ & _ & Hq). rewrite Hio in Hq. simplify_eq. lia.
    + destruct (tb_parent _ _ Ht _ _ Hj) as [|(q & Hq & Eq)]; [by left|]. right.
      exists q. split; [|done]. apply Hused. right; right. split; [by eapply Hnp'|]. split; [|done].
      intros E. rewrite E in Hq. destruct Hq as (_ & _ & Hq), Hj as (? & _). rewrite Hio in Hq. simplify_eq. lia.
  - intros j b [[-> ->]|[[-> ->]|(Hjp & Hji & Hj)]]%Hused.
    + by left.
    + right. cbn. by exists nb.
    + destruct (tb_child _ _ Ht _ _ Hj) as [|(q & Hq & Eq)]; [by left|]. right.
      destruct (decide (child_pid b = i)) as [E|E].
      * rewrite E in Hq |- *. eexists. split; [exact Hi'|]. cbn.
        destruct Hq as (_ & _ & Hq). rewrite Hio in Hq. by simplify_eq.
      * exists q. split; [|done]. apply Hused. right; right. split; [by eapply Hnp'|done].
Qed.

(** A new process without a parent. *)
Lemma table_add_root k dirs dirs' p nb k' :
  table_ok k dirs → 0 ≤ p < 6 → Z.testbit (pid_bitmap k) p = false →
  pid nb = p → parent_pid nb = -1 → child_pid nb = -1 → length (file_array nb) = 8%nat →
  (∀ j, 0 ≤ j → j ≠ p → zlookup dirs' j = zlookup dirs j) →
  (∃ v, zlookup dirs' p = Some (proc_dir p v)) →
  pcbs k' = <[PCB_ADDR p := nb]> (pcbs k) →
  pid_bitmap k' = u8 (Z.lor (pid_bitmap k) (Z.shiftl 1 p)) →
  table_ok k' dirs'.
Proof.
  intros Ht Hp Hfree Hnp Hnpar Hnc Hnf Hd Hdp Hk' Hb'.
  assert (∀ j b, used k' j b ↔ (j = p ∧ b = nb) ∨ (j ≠ p ∧ used k j b)) as Hused.
  { intros j b. unfold used. rewrite Hk', Hb'. destruct (decide (j = p)) as [->|Hjp].
    - rewrite lookup_insert_eq, bitmap_set, bool_decide_eq_true_2, orb_true_r by (lia || done). naive_solver.
    - rewrite lookup_insert_ne by (intros E%PCB_ADDR_inj; done). split.
      + intros (Hj & Hbit & Hl). rewrite bitmap_set, bool_decide_eq_false_2, orb_false_r in Hbit by (lia || done).
        by right.
      + intros [[? _]|(_ & Hj & Hbit & Hl)]; [done|]. split; [done|]. split; [|done].
        rewrite bitmap_set by lia. by rewrite Hbit. }
  assert (∀ j b, used k j b → j ≠ p) as Hnp'.
  { intros j b (_ & Hj & _) ->. congruence. }
  split.
  - rewrite Hb'. apply u8_range.
  - intros j Hj. rewrite Hk'. destruct (decide (j = p)) as [->|Hjp].
    { exists nb. split; [apply lookup_insert_eq|done]. }
    rewrite lookup_insert_ne by (intros E%PCB_ADDR_inj; done). by apply Ht.
  - intros j b [[-> ->]|[_ Hj]]%Hused; [done|by apply Ht].
  - intros j b [[-> ->]|[Hjp Hj]]%Hused; [done|]. pose proof Hj as [Hjr _]. rewrite Hd by lia.
    by apply (tb_dir _ _ Ht j b).
  - intros j b [[-> ->]|[Hjp Hj]]%Hused; [by left|].
    destruct (tb_parent _ _ Ht _ _ Hj) as [|(q & Hq & Eq)]; [by left|right].
    exists q. split; [|done]. apply Hused. right. split; [by eapply Hnp'|done].
  - intros j b [[-> ->]|[Hjp Hj]]%Hused; [by left|].
    destruct (tb_child _ _ Ht _ _ Hj) as [|(q & Hq & Eq)]; [by left|right].
    exists q. split; [|done]. apply Hused. right. split; [by eapply Hnp'|done].
Qed.

(** A block that changes in other fields. *)
Lemma table_block k dirs i b b' k' :
  table_ok k dirs → used k i b →
  pid b' = pid b → parent_pid b' = parent_pid b → child_pid b' = child_pid b →
  length (file_array b') = length (file_array b) →
  pcbs k' = <[PCB_ADDR i := b']> (pcbs k) → pid_bitmap k' = pid_bitmap k →
  table_ok k' dirs.
Proof.
  intros Ht Hi E1 E2 E3 E4 Hk' Hb'. pose proof Hi as (Hir & Hib & Hio).
  assert (∀ j c, used k' j c ↔ (j = i ∧ c = b') ∨ (j ≠ i ∧ used k j c)) as Hused.
  { intros j c. unfold used. rewrite Hk', Hb'. destruct (decide (j = i)) as [->|Hji].
    - rewrite lookup_insert_eq. naive_solver.
    - rewrite lookup_insert_ne by (intros E%PCB_ADDR_inj; done). naive_solver. }
  assert (∀ j c, used k j c → ∃ c', used k' j c' ∧ pid c' = pid c ∧ parent_pid c' = parent_pid c ∧
    child_pid c' = child_pid c) as Hkeep.
  { intros j c Hj. destruct (decide (j = i)) as [->|Hji].
    - exists b'. split; [apply Hused; by left|]. destruct Hj as (_ & _ & Hj). rewrite Hio in Hj.
      by simplify_eq.
    - exists c. split; [apply Hused; by right|done]. }
  assert (∀ j c', used k' j c' → ∃ c, used k j c ∧ pid c' = pid c ∧ parent_pid c' = parent_pid c ∧
    child_pid c' = child_pid c) as Hfrom.
  { intros j c' [[-> ->]|[_ Hj]]%Hused; eauto. }
  split.
  - rewrite Hb'. apply Ht.
  - intros j Hj. rewrite Hk'. destruct (tb_blocks _ _ Ht j Hj) as (c & Hc & Hl).
    destruct (decide (j = i)) as [->|Hji].
    + exists b'. rewrite lookup_insert_eq. split; [done|]. rewrite Hio in Hc. simplify_eq. congruence.
    + exists c. by rewrite lookup_insert_ne by (intros E%PCB_ADDR_inj; done).
  - intros j c' (c & Hj & -> & _)%Hfrom. by apply Ht.
  - intros j c' (c & Hj & _)%Hfrom. by apply (tb_dir _ _ Ht j c).
  - intros j c' (c & Hj & _ & Ep & _)%Hfrom. rewrite Ep.
    destruct (tb_parent _ _ Ht _ _ Hj) as [|(q & Hq & Eq)]; [by left|right].
    destruct (Hkeep _ _ Hq) as (q' & Hq' & _ & _ & E). exists q'. by rewrite E.
  - intros j c' (c & Hj & _ & _ & Ec)%Hfrom. rewrite Ec.
    destruct (tb_child _ _ Ht _ _ Hj) as [|(q & Hq & Eq)]; [by left|right].
    destruct (Hkeep _ _ Hq) as (q' & Hq' & _ & E & _). exists q'. by rewrite E.
Qed.

(** A leaf that ends. *)
Lemma table_remove k dirs i b p o bc k' :
  table_ok k dirs → used k i b → child_pid b = -1 → parent_pid b = p →
  used k p o → p ≠ i → length (file_array bc) = 8%nat →
  pcbs k' = <[PCB_ADDR p := o <| child_pid := -1 |>]> (<[PCB_ADDR i := bc]> (pcbs k)) →
  pid_bitmap k' = u8 (pid_bitmap k - Z.shiftl 1 i) →
  table_ok k' dirs.
Proof.
  intros Ht Hi Hleaf Hpar Hp Hne Hfl Hk' Hb'.
  destruct Hi as (Hir & Hib & Hio). destruct Hp as (Hpr & Hpb & Hpo).
  assert (PCB_ADDR i ≠ PCB_ADDR p) as Hnea by (intros E%PCB_ADDR_inj; done).
  assert (child_pid o = i) as Hoc.
  { destruct (tb_parent _ _ Ht i b) as [E|(q & Hq & Eq)]; [done|lia|].
    destruct Hq as (_ & _ & Hq). rewrite Hpar, Hpo in Hq. by simplify_eq. }
  assert (∀ j c, used k' j c ↔ (j = p ∧ c = o <| child_pid := -1 |>) ∨
    (j ≠ p ∧ j ≠ i ∧ used k j c)) as Hused.
  { intros j c. unfold used. rewrite Hk', Hb'. split.
    - intros (Hj & Hbit & Hl). rewrite bitmap_clear in Hbit by (apply Ht || lia || done).
      apply andb_true_iff in Hbit as [Hbit Hji%negb_true_iff%bool_decide_eq_false].
      destruct (decide (j = p)) as [->|Hjp].
      { left. rewrite lookup_insert_eq in Hl. by simplify_eq. }
      rewrite !lookup_insert_ne in Hl by (intros E%PCB_ADDR_inj; done). by right.
    - intros [[-> ->]|(Hjp & Hji & Hj & Hbit & Hl)].
      + split; [done|]. split; [|apply lookup_insert_eq].
        rewrite bitmap_clear by (apply Ht || lia || done). by rewrite Hpb, bool_decide_eq_false_2.
      + split; [done|]. split.
        * rewrite bitmap_clear by (apply Ht || lia || done). by rewrite Hbit, bool_decide_eq_false_2.
        * rewrite !lookup_insert_ne by (intros E%PCB_ADDR_inj; done). done. }
  assert (used k i b ∧ used k p o) as [Hi Hp] by done.
  assert (used k' p (o <| child_pid := -1 |>)) as Hp' by (apply Hused; by left).
  (* nothing else refers to [i] *)
  assert (∀ j c, used k j c → j ≠ p → j ≠ i → parent_pid c ≠ i) as Hnopar.
  { intros j c Hj Hjp Hji E. destruct (tb_parent _ _ Ht _ _ Hj) as [|(q & Hq & Eq)]; [lia|].
    rewrite E in Hq. destruct Hq as (_ & _ & Hq), Hj as (? & _). rewrite Hio in Hq. simplify_eq. lia. }
  assert (∀ j c, used k j c → j ≠ p → j ≠ i → child_pid c ≠ i) as Hnochild.
  { intros j c Hj Hjp Hji E. destruct (tb_child _ _ Ht _ _ Hj) as [|(q & Hq & Eq)]; [lia|].
    rewrite E in Hq. destruct Hq as (_ & _ & Hq). rewrite Hio in Hq. simplify_eq. }
  split.
  - rewrite Hb'. apply u8_range.
  - intros j Hj. rewrite Hk'. destruct (decide (j = p)) as [->|Hjp].
    { eexists. split; [apply lookup_insert_eq|]. cbn.
      destruct (tb_blocks _ _ Ht p Hj) as (c & Hc & Hl). rewrite Hpo in Hc. by simplify_eq. }
    rewrite lookup_insert_ne by (intros E%PCB_ADDR_inj; done).
    destruct (decide (j = i)) as [->|Hji].
    { exists bc. split; [apply lookup_insert_eq|done]. }
    rewrite lookup_insert_ne by (intros E%PCB_ADDR_inj; done). by apply Ht.
  - intros j c [[-> ->]|(_ & _ & Hj)]%Hused; [exact (tb_pid _ _ Ht p o Hp)|by apply Ht].
  - intros j c [[-> ->]|(_ & _ & Hj)]%Hused; [by apply (tb_dir _ _ Ht p o)|by apply (tb_dir _ _ Ht j c)].
  - intros j c [[-> ->]|(Hjp & Hji & Hj)]%Hused.
    + destruct (tb_parent _ _ Ht _ _ Hp) as [|(q & Hq & Eq)]; [by left|]. right. cbn.
      assert (parent_pid o ≠ p).
      { intros E. rewrite E in Hq. destruct Hq as (_ & _ & Hq). rewrite Hpo in Hq. simplify_eq. }
      exists q. split; [|done]. apply Hused. right. split; [done|]. split; [|done].
      intros E. rewrite E in Hq. destruct Hq as (_ & _ & Hq). rewrite Hio in Hq. simplify_eq. lia.
    + destruct (tb_parent _ _ Ht _ _ Hj) as [|(q & Hq & Eq)]; [by left|]. right.
      destruct (decide (parent_pid c = p)) as [E|E].
      * exfalso. rewrite E in Hq. destruct Hq as (_ & _ & Hq). rewrite Hpo in Hq. simplify_eq.
      * exists q. split; [|done]. apply Hused. right. split; [done|]. split; [|done].
        by eapply Hnopar.
  - intros j c [[-> ->]|(Hjp & Hji & Hj)]%Hused; [by left|].
    destruct (tb_child _ _ Ht _ _ Hj) as [|(q & Hq & Eq)]; [by left|]. right.
    destruct (decide (child_pid c = p)) as [E|E].
    + rewrite E in Hq |- *. eexists. split; [exact Hp'|]. cbn.
      destruct Hq as (_ & _ & Hq). rewrite Hpo in Hq. by simplify_eq.
    + exists q. split; [|done]. apply Hused. right. split; [done|]. split; [|done].
      by eapply Hnochild.
Qed.
End table.
