(* ===== verification/ProcessSpec.v ===== *)
(** * What execute and halt promise *)

From S2P Require Import Prelude CInt Memory CString State Screen Printf Paging PagingInit.
From S2P Require Import Translate FS FSSpec ExecHelper Process ParseSpec SpaceSpec.
From S2P Require Import ExecSpec Views LoadSpec StartSpec ProcTable Example.

(** ** Free process numbers *)

Lemma find_free_pid_ok fuel b k :
  0 ≤ k < 6 → Z.of_nat fuel = 6 - k →
  match find_free_pid fuel b k with
  | Some p => k ≤ p < 6 ∧ Z.testbit b p = false ∧ ∀ j, k ≤ j < p → Z.testbit b j = true
  | None => ∀ j, k ≤ j < 6 → Z.testbit b j = true
  end.
Proof.
  revert k. induction fuel as [|fuel IH]; intros k Hk Hf; [lia|]. cbn [find_free_pid].
  rewrite bool_decide_eq_true_2 by lia. case_bool_decide as Hb.
  - apply land_bit in Hb; [|lia]. split; [lia|]. split; [done|]. lia.
  - rewrite land_bit in Hb by lia. apply not_false_iff_true in Hb. unfold NUM_PROCESS.
    case_bool_decide as H6.
    + intros j Hj. by replace j with k by lia.
    + specialize (IH (k + 1) ltac:(lia) ltac:(lia)). destruct (find_free_pid _ _ _) as [p|].
      * destruct IH as (H1 & H2 & H3). split; [lia|]. split; [done|]. intros j Hj.
        destruct (decide (j = k)) as [->|]; [done|]. apply H3. lia.
      * intros j Hj. destruct (decide (j = k)) as [->|]; [done|]. apply IH. lia.
Qed.

(** ** The running kernel *)
Section kernel.
Context `{Layout}.

(** Process [i], a leaf with the block [b], runs in its address space. *)
Record kernel_ok (s : kstate) (i : Z) (b : pcb_t) : Prop := {
  kk_cur : pcb (kproc s) = PCB_ADDR i;
  kk_used : used (kproc s) i b;
  kk_leaf : child_pid b = -1;
  kk_space : ∃ v, in_space (kpage s) i v;
  kk_paging : paging_ok (kpage s);
  kk_pages : pages_ok (kpages s);
  kk_table : table_ok (kproc s) (page_dir (kpage s));
  kk_started : first_flag (kproc s) ≠ 0;
  kk_term : whichTerm (kscr s) ∉ [1; 2; 4];
}.

Section facts.
Context (s : kstate) (i : Z) (b : pcb_t) (Hk : kernel_ok s i b).
Lemma kk_range : 0 ≤ i < 6.
Proof using Hk. by destruct (kk_used _ _ _ Hk). Qed.
Lemma kk_block : pcbs (kproc s) !! PCB_ADDR i = Some b.
Proof using Hk. apply Hk. Qed.
Lemma kk_pid : pid b = i.
Proof using Hk. by eapply (tb_pid _ _ (kk_table _ _ _ Hk)), Hk. Qed.
Lemma kk_blocks j : 0 ≤ j < 6 →
  ∃ b, pcbs (kproc s) !! PCB_ADDR j = Some b ∧ length (file_array b) = 8%nat.
Proof using Hk. apply (tb_blocks _ _ (kk_table _ _ _ Hk)). Qed.
Lemma kk_bitmap : is_u8 (pid_bitmap (kproc s)) ∧ Z.testbit (pid_bitmap (kproc s)) i = true.
Proof using Hk. split; [apply (kk_table _ _ _ Hk)|]. by destruct (kk_used _ _ _ Hk) as (_ & ? & _). Qed.
Lemma kk_files : length (file_array b) = 8%nat.
Proof using Hk.
  destruct (kk_blocks i kk_range) as (c & Hc & Hl). rewrite kk_block in Hc. by simplify_eq.
Qed.
End facts.

(** ** Rejected commands *)

(** C32: a command whose first word names no ELF program, or any command when
    six processes run, is refused: [sys_execute] gives -1, no process, page
    table, register or byte of a program changes, and the caller's terminal
    still works. (A file of fewer than 4 bytes is judged by what the buffer
    of the check held before.) *)
Theorem sys_execute_rejects s img command line t stale :
  exec_env s img command line t → bytes_at (kmem s) L_elf stale → length stale = 4%nat →
  program img stale (cmd_word line) = None ∨
    (∀ j, 0 ≤ j < 6 → Z.testbit (pid_bitmap (kproc s)) j = true) →
  ∃ s', sys_execute command s = Ok (Return (-1), s') ∧
    s' = (s <| kmem := kmem s' |>) <| kscr ::= (λ c, (c
      <| screen_x := screen_x (kscr s') |>) <| screen_y := screen_y (kscr s') |>) |> ∧
    (∃ v, tty_at s' t v) ∧ ∀ a, in_prog a → kmem s' !! a = kmem s !! a.
Proof.
  intros He Helf Hst Hrej. destruct (exec_front s img command line t He stale Helf Hst)
    as (m1 & Hs1 & _ & _ & Hx).
  assert (∃ s', sys_execute command s = Ok (Return (-1), s') ∧ printed_on (s <| kmem := m1 |>) t s')
    as (s' & E & Hv & Es & Hm).
  { destruct Hrej as [Hn|Hall]; [by rewrite Hn in Hx|]. destruct (program _ _ _); [|done].
    pose proof (find_free_pid_ok 6 (pid_bitmap (kproc s)) 0 ltac:(lia) ltac:(lia)) as Hf.
    destruct (find_free_pid _ _ _) as [p|]; [|done]. destruct Hf as (H1 & H2 & _).
    by rewrite Hall in H2 by lia. }
  exists s'. split; [done|]. split; [by rewrite Es at 1|]. split; [done|].
  intros a Ha. destruct Hm as [_ Hm], Hs1 as [_ Hs1].
  assert (¬ (term_base (kscr s) t ≤ a < term_base (kscr s) t + 4000)) as Hscr.
  { destruct (ee_writes _ _ _ _ _ He) as (_ & _ & _ & Ht). unfold in_prog, PROG_VIR_ADDR_START, FOUR_MB in Ha.
    unfold term_base, VIDEO, VIDEO_TERM, VIDEO_OFFSET. case_bool_decide; lia. }
  pose proof (low_range s img command line t He) as Hlow.
  unfold in_prog in Ha.
  rewrite Hm.
  - cbn [kmem upd Set_kmem]. apply Hs1. unfold front_ranges. each.
    + pose proof (Hlow 0%nat _ eq_refl) as Hl. cbn in Hl. lia.
    + pose proof (Hlow 1%nat _ eq_refl) as Hl. cbn in Hl. lia.
    + pose proof (Hlow 4%nat _ eq_refl) as Hl. cbn in Hl. lia.
    + pose proof (Hlow 5%nat _ eq_refl) as Hl. cbn in Hl. lia.
  - cbn [kscr upd Set_kmem]. each; [lia|]. pose proof (Hlow 6%nat _ eq_refl) as Hl. cbn in Hl. lia.
Qed.

(** ** Programs *)

Lemma program_found img stale w d e x :
  find_entry img w = Some (d, e) → zlookup (inodes img) (e_inode e) = Some x →
  take 4 (content img x) = elf_magic → length stale = 4%nat →
  program img stale w = Some (content img x).
Proof.
  intros Hf Hx Hm Hst. unfold program. rewrite Hf, Hx. cbv zeta. rewrite bool_decide_eq_true_2; [done|].
  unfold seen_magic. rewrite Hm. change (length elf_magic) with 4%nat.
  by rewrite drop_ge, app_nil_r by lia.
Qed.

Lemma set_kproc_eta s k : kproc s = k → s <| kproc := k |> = s.
Proof. intros <-. by destruct s. Qed.

(** What the loader needs besides [exec_env]: the program, and the pages of
    the stack buffer and of the new process for its bytes. *)
Record program_env (s : kstate) (img : image) (line : list Z) (stale : list Z) (e : entry)
    (x : inode_a) (ep : Z) (p : Z) : Prop := {
  pe_elf : bytes_at (kmem s) L_elf stale;
  pe_stale : length stale = 4%nat;
  pe_entry : ∃ d, find_entry img (cmd_word line) = Some (d, e);
  pe_inode : zlookup (inodes img) (e_inode e) = Some x;
  pe_magic : take 4 (content img x) = elf_magic;
  pe_entry_point : is_u32 ep ∧ take 4 (drop 24 (content img x)) = le32 ep;
  pe_img : mapped (kmem s) (L_prog_img (esp (kcpu s))) (Z.min IMG_SIZE (in_len x));
  pe_page : mapped (prog_view s p) LOAD_ADDR (Z.min IMG_SIZE (in_len x));
  pe_free : 0 ≤ p < 6 ∧ Z.testbit (pid_bitmap (kproc s)) p = false ∧
    ∀ j, 0 ≤ j < p → Z.testbit (pid_bitmap (kproc s)) j = true;
}.

Lemma free_pid_found bm p :
  0 ≤ p < 6 → Z.testbit bm p = false → (∀ j, 0 ≤ j < p → Z.testbit bm j = true) →
  find_free_pid 6 bm 0 = Some p.
Proof.
  intros Hp H0 H1. pose proof (find_free_pid_ok 6 bm 0 ltac:(lia) ltac:(lia)) as Hf.
  destruct (find_free_pid 6 bm 0) as [q|].
  - destruct Hf as (Hq & Hq0 & Hq1). f_equal.
    destruct (decide (q < p)); [by rewrite H1 in Hq0 by lia|].
    destruct (decide (p < q)); [by rewrite Hq1 in H0 by lia|]. lia.
  - by rewrite Hf in H0 by lia.
Qed.

(** The load environment from the one of the call. *)
Lemma load_env_front s img command line stale e x ep p m1 :
  loader_env s img command line → program_env s img line stale e x ep p →
  same_outside (front_ranges s) (kmem s) m1 → cstr_at m1 (L_cmd (esp (kcpu s))) (cmd_word line) →
  load_env (s <| kmem := m1 |>) img (L_cmd (esp (kcpu s))) (cmd_word line)
    (L_prog (esp (kcpu s))) (L_prog_img (esp (kcpu s))) e x p ∧
  ∀ j, prog_view (s <| kmem := m1 |>) j = prog_view s j.
Proof.
  intros He [Helf Hst Hent Hino Hmag Hep Himg Hpage Hfree] Hs1 Hc1.
  pose proof (ld_apart _ _ _ _ He) as Hap. pose proof (ld_word _ _ _ _ He) as Hw.
  pose proof (loader_low s img command line He) as Hlow.
  assert (∀ j, prog_view (s <| kmem := m1 |>) j = prog_view s j) as Hview.
  { intros j. apply view_kernel. intros a Ha. apply Hs1. unfold in_prog in Ha. each.
    - pose proof (Hlow 0%nat _ eq_refl) as Hl. cbn in Hl. lia.
    - pose proof (Hlow 1%nat _ eq_refl) as Hl. cbn in Hl. lia.
    - pose proof (Hlow 4%nat _ eq_refl) as Hl. cbn in Hl. lia.
    - pose proof (Hlow 5%nat _ eq_refl) as Hl. cbn in Hl. lia. }
  pose proof (ld_mapped _ _ _ _ He) as Hm. rewrite !Forall_cons in Hm.
  destruct Hm as (_ & _ & Hm2 & _).
  split; [|exact Hview]. split; cbn [kmem bblock upd Set_kmem].
  - eapply same_outside_image; [exact Hs1| |apply He].
    each; [pair Hap 0%nat 8%nat|pair Hap 1%nat 8%nat|pair Hap 4%nat 8%nat|pair Hap 5%nat 8%nat]; done.
  - destruct Hs1 as [_ Hs1]. rewrite Hs1; [apply He|].
    each; [use_pair Hap 0%nat 7%nat|use_pair Hap 1%nat 7%nat|use_pair Hap 4%nat 7%nat|use_pair Hap 5%nat 7%nat].
  - done.
  - done.
  - done.
  - unfold load_ranges. cbn [bblock upd Set_kmem]. cbn [apart]. split_and?; try done; each.
    + pair Hap 2%nat 3%nat; done.
    + pair Hap 2%nat 7%nat; done.
    + pair Hap 2%nat 8%nat; done.
    + use_pair Hap 2%nat 0%nat.
    + pair Hap 3%nat 7%nat; done.
    + pair Hap 3%nat 8%nat; done.
    + use_pair Hap 3%nat 0%nat.
    + pair Hap 7%nat 8%nat; done.
    + use_pair Hap 7%nat 0%nat.
    + use_pair Hap 8%nat 0%nat.
  - unfold load_ranges. cbn [bblock upd Set_kmem]. each.
    + apply (Hlow 2%nat _ eq_refl).
    + apply (Hlow 3%nat _ eq_refl).
    + apply (Hlow 7%nat _ eq_refl).
    + apply (Hlow 8%nat _ eq_refl).
    + pose proof (Hlow 0%nat _ eq_refl) as Hl. cbn in Hl. lia.
  - by eapply same_outside_mapped.
  - by eapply same_outside_mapped.
  - by rewrite Hview.
Qed.

Lemma kernel_enters s i b : kernel_ok s i b → paging_ready s.
Proof.
  intros Hk. split; [apply Hk|]. split; [apply Hk|]. destruct (kk_space _ _ _ Hk) as [v Hs]. by exists i, v.
Qed.

(** What the loader uses stays where it is when a process is entered. *)
Definition kept_ranges (keep : Z → Prop) (s : kstate) (img : image) (command : Z) (line : list Z) : Prop :=
  Forall (λ r, ∀ a, r.1 ≤ a < r.1 + r.2 → keep a) (take 9 (loader_ranges s img command line)).

(** Up to the control block, for any caller that can enter a process. *)
Lemma loader_loads keep s img command line stale e x ep p :
  layout_ok → can_enter keep s p → kept_ranges keep s img command line →
  loader_env s img command line → program_env s img line stale e x ep p → (28 ≤ length (content img x))%nat →
  ∃ s2 v, sys_execute command s =
      start_program p (L_args (esp (kcpu s))) (L_prog_img (esp (kcpu s))) s2 ∧
    s2 = ((s <| kpage := kpage s2 |>) <| kpages := kpages s2 |>) <| kmem := kmem s2 |> ∧
    in_space (kpage s2) p v ∧ paging_ok (kpage s2) ∧ pages_ok (kpages s2) ∧
    bytes_at (kmem s2) (L_prog_img (esp (kcpu s)) + 24) (le32 ep) ∧
    cstr_at (kmem s2) (L_args (esp (kcpu s))) (cmd_args line) ∧
    prog_view s2 p = put_bytes (prog_view s p) LOAD_ADDR (loaded img x) ∧
    (∀ j, 0 ≤ j < 6 → j ≠ p → prog_view s2 j = prog_view s j) ∧
    (∀ j, 0 ≤ j → j ≠ p → zlookup (page_dir (kpage s2)) j = zlookup (page_dir (kpage s)) j) ∧
    (∀ a, keep a → ¬ in_prog a → Forall (λ r, ¬ (r.1 ≤ a < r.1 + r.2)) (take 6 (loader_ranges s img command line)) →
      kmem s2 !! a = kmem s !! a).
Proof.
  intros Hlay Henter Hkeep He Hp Hlen.
  pose proof Hp as [Helf Hst (d & Hf) Hino Hmag [Hep Heb] Himg Hpage (Hpr & Hp0 & Hp1)].
  destruct (front_runs s img command line He stale Helf Hst) as (m1 & Hs1 & Hc1 & Ha1 & Hx).
  rewrite (program_found img stale _ d e x Hf Hino Hmag Hst), (free_pid_found _ p Hpr Hp0 Hp1) in Hx.
  destruct (load_env_front s img command line stale e x ep p m1 He Hp Hs1 Hc1) as [Hle Hview].
  destruct (Henter m1) as (sp & v & Esp & Hsp).
  pose proof Hkeep as Hkeep'. unfold kept_ranges, loader_ranges in Hkeep'. cbn [take] in Hkeep'.
  rewrite !Forall_cons in Hkeep'. cbn [fst snd] in Hkeep'. destruct Hkeep' as (G0 & G1 & G2 & G3 & G4 & G5 & _ & G7 & G8 & _).
  pose proof (ld_word _ _ _ _ He) as Hww.
  destruct (load_program_ok Hlay keep (s <| kmem := m1 |>) img _ _ (L_args (esp (kcpu s))) _ _ e x p sp v Hle Hpr)
    as (s2 & E2 & Hsp2 & Hpk2 & Hps2 & Es2 & Hb2 & Hvp & Hvj & Hm2 & Hdirs); [|exact Esp|exact Hsp|].
  { unfold load_ranges. each; try done. intros a Ha. apply G0. lia. }
  assert (∀ a, Forall (λ r, ¬ (r.1 ≤ a < r.1 + r.2)) (front_ranges s) → m1 !! a = kmem s !! a) as Hfront by apply Hs1.
  exists s2, v. split; [by rewrite Hx, E2|]. split; [exact Es2|]. split; [done|]. split; [done|]. split; [done|].
  split; [|split; [|split; [|split; [|split; [exact Hdirs|]]]]].
  - rewrite <-Heb. pose proof Hb2 as Hb.
    unfold loaded, IMG_SIZE in Hb. rewrite <-(take_drop 24 (take _ _)), bytes_at_app in Hb.
    destruct Hb as [_ Hb]. rewrite length_take, length_take, Nat.min_l in Hb by lia.
    rewrite <-(take_drop 4 (drop 24 _)), bytes_at_app in Hb. destruct Hb as [Hb _].
    rewrite skipn_firstn_comm in Hb. rewrite take_take in Hb. rewrite Nat.min_l in Hb by lia.
    exact Hb.
  - eapply cstr_at_agree; [|exact Ha1]. intros z Hz.
    assert (length (cmd_args line) ≤ 31)%nat as Hal by (unfold cmd_args; rewrite length_take; lia).
    pose proof (loader_low s img command line He 1%nat _ eq_refl) as Hl. cbn in Hl.
    pose proof (ld_apart _ _ _ _ He) as Hap. pair Hap 2%nat 1%nat. pair Hap 3%nat 1%nat.
    unfold disjoint_range in *. rewrite Hm2; [done|apply G1; lia|unfold in_prog; lia|lia|lia].
  - by rewrite Hvp, Hview.
  - intros j Hj Hjp. by rewrite Hvj, Hview.
  - intros a Hk Ha Hr. unfold loader_ranges in Hr. cbn [take] in Hr. rewrite !Forall_cons in Hr.
    cbn [fst snd] in Hr. destruct Hr as (R0 & R1 & R2 & R3 & R4 & R5 & _).
    rewrite Hm2 by done. apply Hfront. unfold front_ranges. by each.
Qed.

Lemma kept_no_prog s img command line t : exec_env s img command line t → kept_ranges no_prog s img command line.
Proof.
  intros He. unfold kept_ranges. eapply Forall_impl; [exact (ee_kernel _ _ _ _ _ He)|].
  intros r Hr a Ha Hin. cbv beta in Hr. unfold in_prog in Hin. lia.
Qed.
Lemma execute_loads s img command line t stale e x ep p :
  layout_ok → paging_ready s →
  exec_env s img command line t → program_env s img line stale e x ep p → (28 ≤ length (content img x))%nat →
  ∃ s2 v, sys_execute command s =
      start_program p (L_args (esp (kcpu s))) (L_prog_img (esp (kcpu s))) s2 ∧
    s2 = ((s <| kpage := kpage s2 |>) <| kpages := kpages s2 |>) <| kmem := kmem s2 |> ∧
    in_space (kpage s2) p v ∧ paging_ok (kpage s2) ∧ pages_ok (kpages s2) ∧
    bytes_at (kmem s2) (L_prog_img (esp (kcpu s)) + 24) (le32 ep) ∧
    cstr_at (kmem s2) (L_args (esp (kcpu s))) (cmd_args line) ∧
    prog_view s2 p = put_bytes (prog_view s p) LOAD_ADDR (loaded img x) ∧
    (∀ j, 0 ≤ j < 6 → j ≠ p → prog_view s2 j = prog_view s j) ∧
    (∀ j, 0 ≤ j → j ≠ p → zlookup (page_dir (kpage s2)) j = zlookup (page_dir (kpage s)) j).
Proof.
  intros Hlay Hr He Hp Hlen. pose proof (pe_free _ _ _ _ _ _ _ _ Hp) as (Hpr & _).
  destruct (loader_loads no_prog s img command line stale e x ep p Hlay (ready_enters Hlay s p Hr Hpr)
    (kept_no_prog _ _ _ _ _ He) (exec_loader _ _ _ _ _ He) Hp Hlen) as (s2 & v & E & H1 & H2 & H3 & H4 & H5 & H6 & H7 & H8 & H9 & _).
  by exists s2, v.
Qed.

(** The loader, run. *)
Lemma execute_run s i o img command line t stale e x ep p :
  layout_ok → kernel_ok s i o → attemptExit (kproc s) = 0 →
  exec_env s img command line t → program_env s img line stale e x ep p → (28 ≤ length (content img x))%nat →
  ∃ s2 b0 v, pcbs (kproc s) !! PCB_ADDR p = Some b0 ∧ length (file_array b0) = 8%nat ∧
    let nb := new_block b0 p i (curTerminal o) in
    let s' := entered (s2 <| kscr ::= (λ c, c <| whichTerm := 0 |>) |>) p ep (L_args (esp (kcpu s)))
      (<[PCB_ADDR p := nb]> (<[PCB_ADDR i := o <| child_pid := p |>]> (pcbs (kproc s)))) nb in
    sys_execute command s = Ok (Enter ep child_esp, s') ∧
    s2 = ((s <| kpage := kpage s2 |>) <| kpages := kpages s2 |>) <| kmem := kmem s2 |> ∧
    in_space (kpage s2) p v ∧ paging_ok (kpage s2) ∧ pages_ok (kpages s2) ∧
    cstr_at (kmem s2) (L_args (esp (kcpu s))) (cmd_args line) ∧
    prog_view s2 p = put_bytes (prog_view s p) LOAD_ADDR (loaded img x) ∧
    (∀ j, 0 ≤ j < 6 → j ≠ p → prog_view s2 j = prog_view s j) ∧
    (∀ j, 0 ≤ j → j ≠ p → zlookup (page_dir (kpage s2)) j = zlookup (page_dir (kpage s)) j).
Proof.
  intros Hlay Hk Hae He Hp Hlen. pose proof (kk_range _ _ _ Hk) as Hi.
  destruct (pe_free _ _ _ _ _ _ _ _ Hp) as (Hpr & Hp0 & _).
  destruct (pe_entry_point _ _ _ _ _ _ _ _ Hp) as [Hep _].
  destruct (execute_loads s img command line t stale e x ep p Hlay (kernel_enters _ _ _ Hk) He Hp Hlen) as (s2 & v & Ex & Es2 & Hsp2 & Hpk2 & Hps2 & Hentry & Hargs & Hvp & Hvj & Hdirs).
  destruct (kk_blocks _ _ _ Hk p Hpr) as (b0 & Hb0 & Hfl).
  assert (p ≠ i) as Hne.
  { intros ->. destruct (kk_bitmap _ _ _ Hk) as [_ Hb]. congruence. }
  assert (kproc s2 = Mk_proc_t (PCB_ADDR i) (pcbs (kproc s)) (pid_bitmap (kproc s))
    (first_flag (kproc s)) 0 (program_exception (kproc s)) (curProc (kproc s))) as Hk2.
  { rewrite Es2. cbn [kproc upd Set_kmem Set_kpage Set_kpages]. rewrite <-Hae, <-(kk_cur _ _ _ Hk).
    by destruct (kproc s). }
  assert (kscr s2 = kscr s ∧ kcpu s2 = kcpu s) as [Escr Ecpu] by (rewrite Es2; done).
  set (nb := new_block b0 p i (curTerminal o)).
  set (m2 := <[PCB_ADDR p := nb]> (<[PCB_ADDR i := o <| child_pid := p |>]> (pcbs (kproc s)))).
  set (s3 := (s2 <| kscr ::= (λ c, c <| whichTerm := 0 |>) |>) <| kproc := Mk_proc_t (PCB_ADDR p) m2
    (pid_bitmap (kproc s)) (first_flag (kproc s)) 0 (program_exception (kproc s)) (curProc (kproc s)) |>).
  assert (init_pcb p (PCB_ADDR i) s2 = Ok (tt, s3)) as Einit.
  { pose proof (init_pcb_child s2 (pcbs (kproc s)) (pid_bitmap (kproc s)) (first_flag (kproc s))
      (program_exception (kproc s)) (curProc (kproc s)) p b0 Hb0 Hfl (PCB_ADDR i) o (kk_block _ _ _ Hk)
      ltac:(rewrite Escr; apply Hk)) as H0.
    rewrite (set_kproc_eta s2 _ Hk2), (kk_pid _ _ _ Hk) in H0. apply H0; [|lia].
    intros E%PCB_ADDR_inj. by symmetry in E. }
  pose proof (start_program_ok s2 s3 (PCB_ADDR i) p (L_args (esp (kcpu s))) (L_prog_img (esp (kcpu s))) ep nb
    (pcbs (kproc s)) _ _ _ _ _ Hk2 Einit) as Estart.
  exists s2, b0, v. split; [done|]. split; [done|]. cbv zeta. fold nb m2.
  split; [|by split_and?].
  rewrite Ex, Estart; [| |done|apply Hk|done|exact Hentry].
  - unfold s3, entered. upd_cbv. rewrite Hk2. reflexivity.
  - exists m2. split; [done|apply lookup_insert_eq].
Qed.

Lemma entered_ok s2 p ep args m nb v :
  in_space (kpage s2) p v → paging_ok (kpage s2) → pages_ok (kpages s2) → child_pid nb = -1 →
  let s' := entered s2 p ep args m nb in
  table_ok (kproc s') (page_dir (kpage s2)) →
  first_flag (kproc s2) ≠ 0 → whichTerm (kscr s2) ∉ [1; 2; 4] →
  kernel_ok s' p
    (((nb <| arguments := args |>) <| parent_esp := esp (kcpu s2) |>) <| parent_ebp := ebp (kcpu s2) |>).
Proof.
  intros Hsp Hpk Hpg Hc s' Ht Hff Hw. pose proof (is_pid _ _ _ Hsp) as Hp.
  split; try done.
  - unfold used, s', entered. cbn [kproc pcbs pid_bitmap upd
      Set_kcpu Set_kproc Set_pcb Set_pcbs Set_pid_bitmap]. split; [done|].
    split; [|apply lookup_insert_eq]. rewrite bitmap_set by lia.
    by rewrite bool_decide_eq_true_2, orb_true_r.
  - by exists v.
Qed.

(** What a successful [sys_execute] of process [i] does. *)
Record executed (s : kstate) (i : Z) (o : pcb_t) (line : list Z) (img : image) (x : inode_a) (p : Z)
    (s' : kstate) (b : pcb_t) : Prop := {
  xc_block : parent_pid b = i ∧ child_pid b = -1 ∧ curTerminal b = curTerminal o ∧
    parent_esp b = esp (kcpu s) ∧ parent_ebp b = ebp (kcpu s) ∧
    cstr_at (kmem s') (arguments b) (cmd_args line);
  xc_files : ∀ fd, 0 ≤ fd < 2 → ∃ f, zlookup (file_array b) fd = Some f ∧
    fops_table f = Some fops_term ∧ flags f = Z.lor TYPE_TERM OPEN;
  xc_parent : pcbs (kproc s') !! PCB_ADDR i = Some (o <| child_pid := p |>);
  xc_others : ∀ a, a ≠ PCB_ADDR p → a ≠ PCB_ADDR i → pcbs (kproc s') !! a = pcbs (kproc s) !! a;
  xc_bitmap : ∀ j, 0 ≤ j < 8 → Z.testbit (pid_bitmap (kproc s')) j =
    Z.testbit (pid_bitmap (kproc s)) j || bool_decide (j = p);
  xc_tss : tss_esp0 (kcpu s') = KERNEL_STACK_BASE - p * TASK_STACK_SIZE;
  xc_own : prog_view s' p = put_bytes (prog_view s p) LOAD_ADDR (loaded img x);
  xc_views : ∀ j, 0 ≤ j < 6 → j ≠ p → prog_view s' j = prog_view s j;
}.

Lemma execute_runs s i o img command line t stale e x ep p :
  layout_ok → kernel_ok s i o → attemptExit (kproc s) = 0 →
  exec_env s img command line t → program_env s img line stale e x ep p → (28 ≤ length (content img x))%nat →
  ∃ s' b, sys_execute command s = Ok (Enter ep child_esp, s') ∧ kernel_ok s' p b ∧
    executed s i o line img x p s' b.
Proof.
  intros Hlay Hk Hae He Hp Hlen.
  destruct (execute_run s i o img command line t stale e x ep p Hlay Hk Hae He Hp Hlen)
    as (s2 & b0 & v & Hb0 & Hfl & Ex & Es2 & Hsp & Hpk & Hpg & Hargs & Hvp & Hvj & Hdirs).
  destruct (pe_free _ _ _ _ _ _ _ _ Hp) as (Hpr & Hp0 & _).
  assert (p ≠ i) as Hne.
  { intros ->. destruct (kk_bitmap _ _ _ Hk) as [_ Hb]. congruence. }
  assert (PCB_ADDR i ≠ PCB_ADDR p) as Hnea by (intros E%PCB_ADDR_inj; done).
  set (nb := new_block b0 p i (curTerminal o)) in *.
  set (m2 := <[PCB_ADDR p := nb]> (<[PCB_ADDR i := o <| child_pid := p |>]> (pcbs (kproc s)))) in *.
  assert (kproc s2 = kproc s ∧ kcpu s2 = kcpu s) as [Ekp Ecpu] by (rewrite Es2; done).
  assert (length (file_array nb) = 8%nat) as Hnl.
  { cbn. destruct (file_array b0) as [|? [|? l]]; done. }
  eexists _, _. split; [exact Ex|]. split.
  - apply (entered_ok _ p ep _ m2 nb v); try done.
    + set (nb' := ((nb <| arguments := L_args (esp (kcpu s)) |>) <| parent_esp := esp (kcpu s) |>)
        <| parent_ebp := ebp (kcpu s) |>).
      apply (table_add (kproc s) (page_dir (kpage s)) _ i o p nb'); try done; try apply Hk.
      * exists v. exact (is_dir _ _ _ Hsp).
      * unfold entered. cbn [kproc pcbs upd Set_kcpu Set_kproc Set_pcbs Set_pid_bitmap].
        change (kcpu (s2 <| kscr ::= _ |>)) with (kcpu s2). rewrite Ecpu. unfold m2.
        by rewrite insert_insert_eq.
      * unfold entered. cbn [kproc pid_bitmap upd Set_kcpu Set_kproc Set_pcbs Set_pid_bitmap Set_pcb Set_kscr].
        by rewrite Ekp.
    + cbn. rewrite Ekp. apply Hk.
    + cbn. rewrite !not_elem_of_cons. split_and!; [lia..|apply not_elem_of_nil].
  - split.
    + cbn. rewrite Ecpu. done.
    + intros fd Hfd. cbn. destruct (file_array b0) as [|f0 [|f1 l]]; [done|done|].
      assert (fd = 0 ∨ fd = 1) as [-> | ->] by lia; cbn; eexists; done.
    + unfold entered. cbn [kproc pcbs upd Set_kcpu Set_kproc Set_pcbs Set_pid_bitmap].
      unfold m2. rewrite !lookup_insert_ne, lookup_insert_eq by done. done.
    + intros a H1 H2. unfold entered. cbn [kproc pcbs upd Set_kcpu Set_kproc Set_pcbs Set_pid_bitmap].
      unfold m2. by rewrite !lookup_insert_ne by done.
    + intros j Hj. unfold entered. cbn [kproc pid_bitmap upd Set_kcpu Set_kproc Set_pcbs Set_pid_bitmap Set_pcb Set_kscr].
      rewrite Ekp. by apply bitmap_set.
    + done.
    + rewrite <-Hvp. by apply view_eq.
    + intros j Hj Hjp. rewrite <-(Hvj j Hj Hjp). by apply view_eq.
Qed.

(** C1: a command whose first word names an ELF program, run while a process
    number is free, enters that program: at the entry point in its header,
    as the lowest free number, in its own address space, whose page holds the
    file's bytes at [0x8048000] and whatever it held elsewhere. Its block
    names the caller as parent and the caller's stack, terminal and the
    argument string; no other process's block or program memory changes, and
    the kernel's invariant holds again. *)
Theorem sys_execute_runs_program s i o img command line t stale e x ep p :
  layout_ok → kernel_ok s i o → attemptExit (kproc s) = 0 →
  exec_env s img command line t → program_env s img line stale e x ep p → (28 ≤ length (content img x))%nat →
  ∃ s' b, sys_execute command s = Ok (Enter ep child_esp, s') ∧ kernel_ok s' p b ∧
    executed s i o line img x p s' b.
Proof. apply execute_runs. Qed.
End kernel.

(** ** Witnesses *)

(** The shell runs [line]; process 1 has a page with room for the program. *)
Definition ex_exec : kstate :=
  ex_paged <| kpages := {[ prog_base 1 := put_bytes ∅ LOAD_ADDR (replicate 40 0) ]} |>.

Lemma ex_exec_mem : kmem ex_exec = ex_mem.
Proof. reflexivity. Qed.
Lemma ex_env_tty : ∃ v, tty_at ex_exec 1 v.
Proof. exists (ex_shown 1). apply ex_mem_ttys; [reflexivity..|lia]. Qed.

Lemma ex_exec_env command line :
  cstr_at ex_mem command line → Z.of_nat (length (cmd_word line)) < 1024 →
  apart (exec_ranges ex_exec ex_image command line 1) → exec_env ex_exec ex_image command line 1.
Proof.
  intros Hc Hw Ha. split.
  - rewrite ex_exec_mem. exact ex_image_at.
  - rewrite ex_exec_mem. by vm_compute.
  - by rewrite ex_exec_mem.
  - exact Hw.
  - rewrite ex_exec_mem.
    change [ (L_cmd (esp (kcpu ex_exec)), 1024); (L_args (esp (kcpu ex_exec)), 32);
      (L_prog (esp (kcpu ex_exec)), 64); (L_exe_prog, 64); (L_elf, 4); (L_conv_buf, 64) ]
    with [ (0x7FEF00, 1024); (0x7FF400, 32); (0x7FF500, 64); (0x500200, 64); (0x500300, 4); (0x500000, 64) ].
    decide_it.
  - exact Ha.
  - unfold exec_ranges. cbn [take]. each; vm_compute; split; discriminate.
  - eexists. split; [vm_compute; reflexivity|]. split; [reflexivity|lia].
  - by left.
  - apply ex_env_tty.
Qed.

(** Only process 0 is in use, and it has neither parent nor child. *)
Lemma ex_used j b : used (kproc ex_exec) j b → j = 0 ∧ b = ex_pcb 1 0 (-1) (-1).
Proof.
  intros (Hj & Hb & Hl). change (pid_bitmap (kproc ex_exec)) with 1 in Hb.
  assert (j = 0) as ->.
  { assert (j = 0 ∨ j = 1 ∨ j = 2 ∨ j = 3 ∨ j = 4 ∨ j = 5) as [->|[->|[->|[->|[->| ->]]]]] by lia; done. }
  split; [done|]. change (ex_pcbs !! PCB_ADDR 0 = Some b) in Hl.
  assert (ex_pcbs !! PCB_ADDR 0 = Some (ex_pcb 1 0 (-1) (-1))) as E by (vm_compute; reflexivity).
  congruence.
Qed.
Lemma ex_table_ok : table_ok (kproc ex_exec) (page_dir (kpage ex_exec)).
Proof.
  split.
  - decide_it.
  - intros j Hj. assert (j = 0 ∨ j = 1 ∨ j = 2 ∨ j = 3 ∨ j = 4 ∨ j = 5)
      as [->|[->|[->|[->|[->| ->]]]]] by lia; eexists; (split; [vm_compute; reflexivity|done]).
  - by intros j b [-> ->]%ex_used.
  - intros j b [-> ->]%ex_used. exists false.
    apply (is_dir (ex_space 0 false) 0 false). apply ex_in_space. lia.
  - intros j b [-> ->]%ex_used. by left.
  - intros j b [-> ->]%ex_used. by left.
Qed.

Lemma ex_kernel_ok : kernel_ok ex_exec 0 (ex_pcb 1 0 (-1) (-1)).
Proof.
  split; try done.
  - exists false. apply ex_in_space. lia.
  - split; try done. intros i Hi. exists (proc_dir i false), false. split; [|split; [|]].
    + apply (is_dir (ex_space i false) i false). by apply ex_in_space.
    + unfold proc_dir, dir_init. dir_len.
    + unfold proc_dir. by rewrite list_insert_insert_eq.
  - intros b pg a Hb Ha.
    change (kpages ex_exec) with ({[ prog_base 1 := put_bytes ∅ LOAD_ADDR (replicate 40 0) ]} : gmap Z mem) in Hb.
    apply lookup_singleton_Some in Hb as [_ <-].
    destruct Ha as [v Hv]. rewrite put_bytes_lookup in Hv. case_decide as Hr; [|done].
    revert Hr. rewrite length_replicate.
    unfold in_prog, LOAD_ADDR, IMG_OFFSET, ENTRY_POINT_START, PROG_VIR_ADDR_START, FOUR_MB. lia.
  - exact ex_table_ok.
  - change (whichTerm (kscr ex_exec)) with 0. decide_it.
Qed.

Lemma ex_program_env :
  program_env ex_exec ex_image (chars "shell" ++ newline) [5; 5; 5; 5]
    (Mk_entry (ex_name (chars "shell")) 2 1) (ex_inode 40 1) 0x8048094 1.
Proof.
  split.
  - decide_it.
  - done.
  - exists 2%nat. vm_compute. reflexivity.
  - vm_compute. reflexivity.
  - vm_compute. reflexivity.
  - split; [decide_it|vm_compute; reflexivity].
  - change (mapped ex_mem 0x79FF00 40). decide_it.
  - assert (prog_view ex_exec 1 = put_bytes ∅ LOAD_ADDR (replicate 40 0)) as ->.
    { unfold prog_view. rewrite (prog_page_ok ex_layout_ok (kpage ex_exec) 0 false)
        by (apply ex_in_space; lia). reflexivity. }
    change (mapped (put_bytes ∅ 0x8048000 (replicate 40 0)) 0x8048000 40). decide_it.
  - split; [lia|]. split; [reflexivity|]. intros j Hj. by replace j with 0 by lia.
Qed.

Lemma sys_execute_rejects_witness :
  ∃ s', sys_execute 0x500410 ex_exec = Ok (Return (-1), s') ∧
    s' = (ex_exec <| kmem := kmem s' |>) <| kscr ::= (λ c, (c
      <| screen_x := screen_x (kscr s') |>) <| screen_y := screen_y (kscr s') |>) |> ∧
    (∃ v, tty_at s' 1 v) ∧ ∀ a, in_prog a → kmem s' !! a = kmem ex_exec !! a.
Proof.
  apply (sys_execute_rejects ex_exec ex_image 0x500410 (chars "terminal") 1 [5; 5; 5; 5]).
  - apply ex_exec_env; [decide_it|vm_compute; reflexivity|decide_it].
  - decide_it.
  - reflexivity.
  - left. vm_compute. reflexivity.
Defined.

Lemma sys_execute_runs_program_witness :
  ∃ s' b, sys_execute 0x500430 ex_exec = Ok (Enter 0x8048094 child_esp, s') ∧ kernel_ok s' 1 b ∧
    executed ex_exec 0 (ex_pcb 1 0 (-1) (-1)) (chars "shell" ++ newline) ex_image (ex_inode 40 1) 1 s' b.
Proof.
  apply (sys_execute_runs_program ex_exec 0 (ex_pcb 1 0 (-1) (-1)) ex_image 0x500430
    (chars "shell" ++ newline) 1 [5; 5; 5; 5] (Mk_entry (ex_name (chars "shell")) 2 1)
    (ex_inode 40 1) 0x8048094 1).
  - apply ex_layout_ok.
  - apply ex_kernel_ok.
  - reflexivity.
  - apply ex_exec_env; [decide_it|vm_compute; reflexivity|decide_it].
  - apply ex_program_env.
  - apply (bool_decide_unpack _). vm_compute. exact I.
Defined.
