(* ===== verification/HaltSpec.v ===== *)
(** * What halt promises

    The return to the parent, the shell that replaces one that ends, and the
    round trip of a program run from another. *)

From S2P Require Import Prelude CInt Memory CString State Screen Printf Paging PagingInit.
From S2P Require Import Translate FS FSSpec ExecHelper Process ParseSpec SpaceSpec.
From S2P Require Import ExecSpec Views LoadSpec StartSpec ProcTable ProcessSpec Example.

(** The block with its files closed. *)
Definition closed_block (b : pcb_t) : pcb_t :=
  b <| file_array ::= fmap (λ f, f <| flags := CLOSE |>) |>.

Lemma close_all s a m bm ff ae pe cp b :
  m !! a = Some b → length (file_array b) = 8%nat →
  for_loop (Z.to_nat MAX_OPEN_FILES) 0 (λ i, mod_file i (λ f, f <| flags := CLOSE |>))
    (s <| kproc := Mk_proc_t a m bm ff ae pe cp |>) =
  Ok (tt, s <| kproc := Mk_proc_t a (<[a := closed_block b]> m) bm ff ae pe cp |>).
Proof.
  intros Hb Hl. change (Z.to_nat MAX_OPEN_FILES) with 8%nat. cbn [for_loop].
  rewrite <-(insert_id m a b Hb). unfold closed_block.
  destruct b as [l t c p e1 e2 e3 e4 pp pe' pb rf ar]. cbn [file_array] in Hl.
  do 8 (destruct l as [|? l]; [done|]). destruct l; [|done].
  do 8 (erewrite bind_ok by (apply mod_file_run; [apply lookup_insert_eq|reflexivity]);
    rewrite insert_insert_eq; cbn [file_array upd Set_file_array]).
  rewrite insert_insert_eq. reflexivity.
Qed.

Lemma kernel_ok_as `{Layout} s s' i b : kernel_ok s i b → kproc s' = kproc s → kpage s' = kpage s →
  kpages s' = kpages s → kscr s' = kscr s → kernel_ok s' i b.
Proof. intros [] E1 E2 E3 E4. split; rewrite ?E1, ?E2, ?E3, ?E4; done. Qed.

Section halt.
Context `{Layout}.

(** The kernel after [i] returned to its parent [p]. *)
Record halted (s : kstate) (i : Z) (b : pcb_t) (p : Z) (o : pcb_t) (ebx : Z) (s' : kstate) : Prop := {
  ha_kernel : kernel_ok s' p (o <| child_pid := -1 |>);
  ha_proc : kproc s' = Mk_proc_t (PCB_ADDR p)
      (<[PCB_ADDR p := o <| child_pid := -1 |>]> (<[PCB_ADDR i := closed_block b]> (pcbs (kproc s))))
      (u8 (pid_bitmap (kproc s) - Z.shiftl 1 i)) (first_flag (kproc s)) (attemptExit (kproc s))
      (c_bool (bool_decide (ebx = 256))) (curProc (kproc s));
  ha_cpu : kcpu s' = ((((kcpu s) <| esp := parent_esp b |>) <| ebp := parent_ebp b |>)
      <| tss_esp0 := KERNEL_STACK_BASE - p * TASK_STACK_SIZE |>) <| tss_ss0 := KERNEL_DS |>;
  ha_scr : kscr s' = kscr s;
  ha_views j : 0 ≤ j < 6 → prog_view s' j = prog_view s j;
  ha_mem a : ¬ in_prog a → kmem s' !! a = kmem s !! a;
}.

Lemma sys_halt_run s i b p o ebx :
  layout_ok → kernel_ok s i b → parent_pid b = p → p ≠ -1 → used (kproc s) p o →
  ∃ s', sys_halt ebx s = Ok (Resume (u8 ebx), s') ∧ halted s i b p o ebx s'.
Proof.
  intros Hlay Hk Hpp Hp1 Hpu. pose proof Hpu as (Hp & Hbit & Ho).
  destruct (parent_used _ _ i b (kk_table _ _ _ Hk) (kk_used _ _ _ Hk) ltac:(congruence) (kk_leaf _ _ _ Hk))
    as (o' & (_ & _ & Ho') & Eo & Hne). rewrite Hpp in *. rewrite Ho in Ho'. simplify_eq Ho'. intros <-. clear Ho'.
  pose proof (tb_pid _ _ (kk_table _ _ _ Hk) _ _ Hpu) as Hpo.
  destruct (tb_dir _ _ (kk_table _ _ _ Hk) _ _ Hpu) as [v Hdir].
  destruct (kk_space _ _ _ Hk) as [vi Hsp]. pose proof (kk_files _ _ _ Hk) as Hfl.
  assert (PCB_ADDR i ≠ PCB_ADDR p) as Hnea by (intros E%PCB_ADDR_inj; congruence).
  set (m := pcbs (kproc s)). set (bm := pid_bitmap (kproc s)). set (ff := first_flag (kproc s)).
  set (ae := attemptExit (kproc s)). set (pe := c_bool (bool_decide (ebx = 256))).
  set (cp := curProc (kproc s)). set (bc := closed_block b).
  set (m1 := <[PCB_ADDR i := bc]> m).
  set (m2 := <[PCB_ADDR p := o <| child_pid := -1 |>]> m1).
  set (bm' := u8 (bm - Z.shiftl 1 i)).
  set (k' := Mk_proc_t (PCB_ADDR p) m2 bm' ff ae pe cp).
  set (c1 := ((kcpu s) <| esp := parent_esp b |>) <| ebp := parent_ebp b |>).
  set (s1 := (s <| kproc := k' |>) <| kcpu := c1 |>).
  destruct (update_paging_remapped Hlay s1 i vi p v Hsp Hp Hdir (kk_pages _ _ _ Hk))
    as (s2 & E2 & Kp2 & Hsp2 & Es2 & Hpg2 & Hv2 & Hm2).
  set (c2 := (c1 <| tss_esp0 := KERNEL_STACK_BASE - p * TASK_STACK_SIZE |>) <| tss_ss0 := KERNEL_DS |>).
  assert (kproc s2 = k' ∧ kcpu s2 = c1 ∧ kscr s2 = kscr s ∧ bblock s2 = bblock s) as (Ekp & Ecpu & Escr & Ebb).
  { rewrite Es2. done. }
  exists (s2 <| kcpu := c2 |>). split.
  - unfold sys_halt, mod_proc.
    rewrite (bind_ok _ _ _ tt (s <| kproc := Mk_proc_t (PCB_ADDR i) m bm ff ae pe cp |>)).
    2:{ unfold kmod. do 2 f_equal. rewrite <-(kk_cur _ _ _ Hk). by destruct s as [? ? ? ? ? ? [] ? ? ? ? ?]. }
    erewrite bind_ok by (apply close_all; [apply Hk|exact Hfl]). fold bc m1.
    erewrite bind_ok by (apply cur_get_run; apply lookup_insert_eq).
    change (parent_pid bc) with (parent_pid b). change (pid bc) with (pid b).
    rewrite Hpp, (kk_pid _ _ _ Hk).
    rewrite (bind_ok _ _ _ tt (s <| kproc := Mk_proc_t (PCB_ADDR i) m1 bm' ff ae pe cp |>)) by reflexivity.
    rewrite (bool_decide_eq_false_2 (p = -1)) by lia.
    rewrite (bind_ok _ _ _ tt (s <| kproc := Mk_proc_t (PCB_ADDR p) m1 bm' ff ae pe cp |>)) by reflexivity.
    erewrite bind_ok by (apply (cur_mod_run s (PCB_ADDR p) m1 bm' ff ae pe cp _ o);
      unfold m1; by rewrite lookup_insert_ne).
    fold m2. rewrite (bind_ok _ _ _ tt s1) by reflexivity.
    erewrite bind_ok.
    2:{ apply cur_pcb_ok. apply lookup_insert_eq. }
    change (pid (o <| child_pid := -1 |>)) with (pid o). rewrite Hpo.
    erewrite bind_ok by exact E2. rewrite (bind_ok _ _ _ tt (s2 <| kcpu := c2 |>)); [reflexivity|].
    unfold mod_cpu, kmod, c2. rewrite <-Ecpu. reflexivity.
  - split.
    + split; cbn [kproc kpage kpages kscr upd Set_kcpu]; rewrite ?Ekp, ?Escr; unfold k';
        cbn [pcb pcbs pid_bitmap first_flag]; try done; try apply Hk.
      * split; [done|]. split; [|apply lookup_insert_eq]. cbn [pid_bitmap]. unfold bm', bm.
        rewrite bitmap_clear by (apply (tb_bits _ _ (kk_table _ _ _ Hk)) || apply Hk || lia).
        by rewrite Hbit, bool_decide_eq_false_2.
      * by exists v.
      * rewrite Kp2. destruct (kk_paging _ _ _ Hk). by split.
      * rewrite Kp2. apply (table_remove (kproc s) _ i b p o bc); try done; try apply Hk.
        unfold bc, closed_block. cbn. by rewrite length_fmap.
    + exact Ekp.
    + cbn. unfold c2. done.
    + exact Escr.
    + intros j Hj. rewrite <-(view_eq s s1 j) by done. rewrite <-(Hv2 j Hj). by apply view_eq.
    + intros a Ha. by apply Hm2.
Qed.

(** C3: a process that ends with a parent resumes it with the status byte in
    [eax]: on the stack the parent left, in its address space, with its own
    kernel stack for traps, and a leaf again, so that the scheduler runs it.
    The number of the one that ended is free, its files are closed, and no
    other block, no program's memory and no kernel byte changes. *)
Theorem sys_halt_resumes_parent s i b ebx :
  layout_ok → kernel_ok s i b → parent_pid b ≠ -1 →
  ∃ o s', used (kproc s) (parent_pid b) o ∧ sys_halt ebx s = Ok (Resume (u8 ebx), s') ∧
    kernel_ok s' (parent_pid b) (o <| child_pid := -1 |>) ∧
    esp (kcpu s') = parent_esp b ∧ ebp (kcpu s') = parent_ebp b ∧
    tss_esp0 (kcpu s') = KERNEL_STACK_BASE - parent_pid b * TASK_STACK_SIZE ∧
    (program_exception (kproc s') ≠ 0 ↔ ebx = 256) ∧
    (∃ bc, pcbs (kproc s') !! PCB_ADDR i = Some bc ∧ Forall (λ f, flags f = CLOSE) (file_array bc)) ∧
    (∀ a, a ≠ PCB_ADDR i → a ≠ PCB_ADDR (parent_pid b) →
       pcbs (kproc s') !! a = pcbs (kproc s) !! a) ∧
    (∀ j, 0 ≤ j < 8 → Z.testbit (pid_bitmap (kproc s')) j =
       Z.testbit (pid_bitmap (kproc s)) j && negb (bool_decide (j = i))) ∧
    (∀ j, 0 ≤ j < 6 → prog_view s' j = prog_view s j) ∧
    (∀ a, ¬ in_prog a → kmem s' !! a = kmem s !! a).
Proof.
  intros Hlay Hk Hp1.
  destruct (parent_used _ _ i b (kk_table _ _ _ Hk) (kk_used _ _ _ Hk) Hp1 (kk_leaf _ _ _ Hk))
    as (o & Hpu & _ & Hne).
  destruct (sys_halt_run s i b _ o ebx Hlay Hk eq_refl Hp1 Hpu) as (s' & E & [Hk' Hproc Hcpu Hscr Hv Hm]).
  assert (PCB_ADDR i ≠ PCB_ADDR (parent_pid b)) as Hnea by (intros Ex%PCB_ADDR_inj; congruence).
  exists o, s'. split; [done|]. split; [done|]. split; [done|]. rewrite Hcpu, Hproc.
  cbn [pcbs pid_bitmap program_exception].
  split; [done|]. split; [done|]. split; [done|]. split; [|split; [|split; [|split; [|done]]]].
  - unfold c_bool. case_bool_decide; split; done.
  - exists (closed_block b). split; [by rewrite lookup_insert_ne, lookup_insert_eq|].
    unfold closed_block. cbn. apply Forall_fmap, Forall_true. done.
  - intros a H1 H2. by rewrite !lookup_insert_ne.
  - apply bitmap_clear; [apply (tb_bits _ _ (kk_table _ _ _ Hk))|apply (kk_range _ _ _ Hk)|].
    apply Hk.
Qed.

(** C2: a program run from another and ended, whatever both did in between
    that leaves the caller's block, the process numbers and the caller's
    memory as they were: the caller is the running leaf again, on the stack of
    its call, with its block, numbers and memory of before the call, and sees
    the status byte. *)
Theorem execute_halt_roundtrip s i o img command line t stale e x ep p :
  layout_ok → kernel_ok s i o → attemptExit (kproc s) = 0 →
  exec_env s img command line t → program_env s img line stale e x ep p → (28 ≤ length (content img x))%nat →
  ∃ s1 b1, sys_execute command s = Ok (Enter ep child_esp, s1) ∧ kernel_ok s1 p b1 ∧
    ∀ s2 b2 ebx, kernel_ok s2 p b2 →
      parent_pid b2 = parent_pid b1 → parent_esp b2 = parent_esp b1 → parent_ebp b2 = parent_ebp b1 →
      pcbs (kproc s2) !! PCB_ADDR i = pcbs (kproc s1) !! PCB_ADDR i →
      pid_bitmap (kproc s2) = pid_bitmap (kproc s1) → prog_view s2 i = prog_view s1 i →
      ∃ s3, sys_halt ebx s2 = Ok (Resume (u8 ebx), s3) ∧ kernel_ok s3 i o ∧
        esp (kcpu s3) = esp (kcpu s) ∧ ebp (kcpu s3) = ebp (kcpu s) ∧
        (∀ j, 0 ≤ j < 8 → Z.testbit (pid_bitmap (kproc s3)) j = Z.testbit (pid_bitmap (kproc s)) j) ∧
        prog_view s3 i = prog_view s i.
Proof.
  intros Hlay Hk Hae He Hp Hlen.
  destruct (execute_runs s i o img command line t stale e x ep p Hlay Hk Hae He Hp Hlen)
    as (s1 & b1 & E & Hk1 & Hx). exists s1, b1. split; [done|]. split; [done|].
  intros s2 b2 ebx Hk2 Hpp Hpe Hpb Hpar Hbm Hview.
  destruct (xc_block _ _ _ _ _ _ _ _ _ Hx) as (P1 & P2 & P3 & P4 & P5 & _).
  destruct (pe_free _ _ _ _ _ _ _ _ Hp) as (Hpr & Hp0 & _).
  pose proof (kk_range _ _ _ Hk) as Hi. destruct (kk_bitmap _ _ _ Hk) as [_ Hbi].
  assert (p ≠ i) as Hne by congruence.
  assert (used (kproc s2) i (o <| child_pid := p |>)) as Hu.
  { split; [done|]. rewrite Hbm, Hpar. split; [|apply Hx].
    rewrite (xc_bitmap _ _ _ _ _ _ _ _ _ Hx) by lia. by rewrite Hbi. }
  destruct (sys_halt_run s2 p b2 i _ ebx Hlay Hk2 ltac:(congruence) ltac:(lia) Hu)
    as (s3 & E3 & [Hk3 Hproc Hcpu Hscr Hv Hm]).
  exists s3. split; [done|]. split; [|split; [|split; [|split]]].
  - replace o with ((o <| child_pid := p |>) <| child_pid := -1 |>); [done|].
    pose proof (kk_leaf _ _ _ Hk) as Hl. destruct o. cbn in Hl |- *. by rewrite Hl.
  - rewrite Hcpu. cbn. congruence.
  - rewrite Hcpu. cbn. congruence.
  - intros j Hj. rewrite Hproc. cbn [pid_bitmap].
    rewrite bitmap_clear by (apply (tb_bits _ _ (kk_table _ _ _ Hk2)) || apply Hk2 || lia).
    rewrite Hbm, (xc_bitmap _ _ _ _ _ _ _ _ _ Hx) by lia.
    destruct (decide (j = p)) as [Ej|Ej].
    + by rewrite bool_decide_eq_true_2, Ej, Hp0, andb_false_r by done.
    + by rewrite bool_decide_eq_false_2, orb_false_r, andb_true_r by done.
  - rewrite Hv, Hview by done. apply (xc_views _ _ _ _ _ _ _ _ _ Hx); [done|congruence].
Qed.
End halt.

(** ** Witnesses *)

(** The state of [ex_exec] with process 1 the running child of process 0. *)
Definition ex_child : kstate :=
  ex_paged <| kproc := Mk_proc_t (PCB_ADDR 1)
    (<[PCB_ADDR 0 := ex_pcb 1 0 (-1) 1]> (<[PCB_ADDR 1 := ex_pcb 1 1 0 (-1)]> ex_pcbs)) 3 1 0 0 1 |>
    <| kpage := ex_space 1 false |>.

Lemma ex_child_used j b : used (kproc ex_child) j b →
  j = 0 ∧ b = ex_pcb 1 0 (-1) 1 ∨ j = 1 ∧ b = ex_pcb 1 1 0 (-1).
Proof.
  intros (Hj & Hb & Hl). change (pid_bitmap (kproc ex_child)) with 3 in Hb.
  assert (j = 0 ∨ j = 1) as [-> | ->].
  { assert (j = 0 ∨ j = 1 ∨ j = 2 ∨ j = 3 ∨ j = 4 ∨ j = 5) as [->|[->|[->|[->|[->| ->]]]]] by lia;
      done || (by left) || by right. }
  - left. split; [done|]. assert (pcbs (kproc ex_child) !! PCB_ADDR 0 = Some (ex_pcb 1 0 (-1) 1)) as E
      by (vm_compute; reflexivity). congruence.
  - right. split; [done|]. assert (pcbs (kproc ex_child) !! PCB_ADDR 1 = Some (ex_pcb 1 1 0 (-1))) as E
      by (vm_compute; reflexivity). congruence.
Qed.
Lemma ex_child_uses : used (kproc ex_child) 0 (ex_pcb 1 0 (-1) 1) ∧ used (kproc ex_child) 1 (ex_pcb 1 1 0 (-1)).
Proof. split; (split; [lia|]; split; [reflexivity|vm_compute; reflexivity]). Qed.

Lemma ex_child_kernel_ok : kernel_ok ex_child 1 (ex_pcb 1 1 0 (-1)).
Proof.
  destruct ex_child_uses as [U0 U1]. split; try done.
  - exists false. apply ex_in_space. lia.
  - destruct ex_kernel_ok as [_ _ _ _ [Hd H0 Hv Ht] _ _ _ _]. by split.
  - split.
    + decide_it.
    + intros j Hj. assert (j = 0 ∨ j = 1 ∨ j = 2 ∨ j = 3 ∨ j = 4 ∨ j = 5)
        as [->|[->|[->|[->|[->| ->]]]]] by lia; eexists; (split; [vm_compute; reflexivity|done]).
    + by intros j b [[-> ->]|[-> ->]]%ex_child_used.
    + intros j b Hj%ex_child_used. exists false.
      assert (0 ≤ j < 6) as Hr by (destruct Hj as [[-> _]|[-> _]]; lia).
      apply (is_dir (ex_space j false) j false). by apply ex_in_space.
    + intros j b [[-> ->]|[-> ->]]%ex_child_used; [by left|right; by eexists].
    + intros j b [[-> ->]|[-> ->]]%ex_child_used; [right; by eexists|by left].
  - change (whichTerm (kscr ex_child)) with 0. decide_it.
Qed.

Lemma sys_halt_resumes_parent_witness :
  ∃ o s', used (kproc ex_child) 0 o ∧ sys_halt 256 ex_child = Ok (Resume 0, s') ∧
    program_exception (kproc s') ≠ 0 ∧ Z.testbit (pid_bitmap (kproc s')) 1 = false.
Proof.
  destruct (sys_halt_resumes_parent ex_child 1 (ex_pcb 1 1 0 (-1)) 256 ex_layout_ok
    ex_child_kernel_ok ltac:(done)) as (o & s' & Hu & E & _ & _ & _ & _ & Hx & _ & _ & Hb & _).
  exists o, s'. split; [exact Hu|]. split; [exact E|]. split; [by apply Hx|].
  rewrite Hb by lia. reflexivity.
Defined.

Lemma execute_halt_roundtrip_witness :
  ∃ s1 b1, sys_execute 0x500430 ex_exec = Ok (Enter 0x8048094 child_esp, s1) ∧ kernel_ok s1 1 b1 ∧
    ∃ s3, sys_halt 7 s1 = Ok (Resume 7, s3) ∧ kernel_ok s3 0 (ex_pcb 1 0 (-1) (-1)) ∧
      esp (kcpu s3) = ex_esp.
Proof.
  destruct (execute_halt_roundtrip ex_exec 0 (ex_pcb 1 0 (-1) (-1)) ex_image 0x500430
    (chars "shell" ++ newline) 1 [5; 5; 5; 5] (Mk_entry (ex_name (chars "shell")) 2 1)
    (ex_inode 40 1) 0x8048094 1) as (s1 & b1 & E & Hk & Hrun).
  - apply ex_layout_ok.
  - apply ex_kernel_ok.
  - reflexivity.
  - apply ex_exec_env; [decide_it|vm_compute; reflexivity|decide_it].
  - apply ex_program_env.
  - apply (bool_decide_unpack _). vm_compute. exact I.
  - exists s1, b1. split; [exact E|]. split; [exact Hk|].
    destruct (Hrun s1 b1 7 Hk eq_refl eq_refl eq_refl eq_refl eq_refl eq_refl)
      as (s3 & E3 & Hk3 & Hesp & _).
    exists s3. split; [exact E3|]. split; [exact Hk3|exact Hesp].
Defined.
