(* ===== verification/ScheduleSpec.v ===== *)
(** * What the scheduler promises

    The timer's handler runs the ready processes in turn; one that is
    preempted continues where it was. *)

From S2P Require Import Prelude CInt Memory CString State I8259 Screen Paging PagingInit.
From S2P Require Import Translate FS Pit Process Views ProcTable ProcessSpec Schedule.
From S2P Require Import Example.

(** ** The next ready process *)

(** In use, and not waiting for a child. *)
Definition ready (k : proc_t) (j : Z) : bool :=
  Z.testbit (pid_bitmap k) j &&
  match pcbs k !! PCB_ADDR j with Some b => bool_decide (child_pid b = -1) | None => false end.
Definition wrap (c : Z) : Z := if bool_decide (c + 1 = 6) then 0 else c + 1.
Fixpoint first_ready (n : nat) (k : proc_t) (c : Z) : option Z :=
  match n with
  | O => None
  | S n' => if ready k c then Some c else first_ready n' k (wrap c)
  end.

(** [j] is the first ready process from [c] on, counting round. *)
Definition turn (k : proc_t) (c j : Z) : Prop :=
  ∃ d, 0 ≤ d < 6 ∧ j = (c + d) mod 6 ∧ ready k j = true ∧
    ∀ e, 0 ≤ e < d → ready k ((c + e) mod 6) = false.

Lemma wrap_mod c : 0 ≤ c < 6 → wrap c = (c + 1) mod 6.
Proof. intros. unfold wrap. case_bool_decide; [by replace (c + 1) with 6 by lia|]. symmetry. apply Z.mod_small. lia. Qed.
Lemma wrap_range c : 0 ≤ c < 6 → 0 ≤ wrap c < 6.
Proof. intros. unfold wrap. case_bool_decide; lia. Qed.

Lemma first_ready_spec n k c : 0 ≤ c < 6 →
  match first_ready n k c with
  | Some j => ∃ d, 0 ≤ d < Z.of_nat n ∧ j = (c + d) mod 6 ∧ ready k j = true ∧
      ∀ e, 0 ≤ e < d → ready k ((c + e) mod 6) = false
  | None => ∀ e, 0 ≤ e < Z.of_nat n → ready k ((c + e) mod 6) = false
  end.
Proof.
  revert c. induction n as [|n IH]; intros c Hc; [cbn; lia|]. cbn [first_ready].
  destruct (ready k c) eqn:Er.
  - exists 0. rewrite Z.add_0_r, Z.mod_small by done. split; [lia|]. split; [done|]. split; [done|lia].
  - specialize (IH (wrap c) (wrap_range c Hc)).
    assert (∀ e, (wrap c + e) mod 6 = (c + (e + 1)) mod 6) as Hw.
    { intros e. rewrite wrap_mod by done. rewrite Z.add_mod_idemp_l by done. f_equal. lia. }
    assert (∀ e, e = 0 → ready k ((c + e) mod 6) = false) as H0.
    { intros e ->. by rewrite Z.add_0_r, Z.mod_small. }
    destruct (first_ready n k (wrap c)) as [j|].
    + destruct IH as (d & Hd & Ej & Hr & Hlt). exists (d + 1). rewrite <-Hw. split; [lia|].
      split; [done|]. split; [done|]. intros e He. destruct (decide (e = 0)); [by apply H0|].
      replace e with (e - 1 + 1) by lia. rewrite <-Hw. apply Hlt. lia.
    + intros e He. destruct (decide (e = 0)); [by apply H0|].
      replace e with (e - 1 + 1) by lia. rewrite <-Hw. apply IH. lia.
Qed.

Lemma first_ready_more n k c j : first_ready n k c = Some j → first_ready (S n) k c = Some j.
Proof.
  revert c. induction n as [|n IH]; intros c; [done|]. intros H. cbn [first_ready] in H |- *.
  destruct (ready k c); [done|]. exact (IH _ H).
Qed.

Lemma turn_exists k c i : 0 ≤ c < 6 → 0 ≤ i < 6 → ready k i = true →
  ∃ j, first_ready 6 k c = Some j ∧ turn k c j.
Proof.
  intros Hc Hi Hr. pose proof (first_ready_spec 6 k c Hc) as H.
  destruct (first_ready 6 k c) as [j|]; [by exists j|].
  specialize (H ((i - c) mod 6) ltac:(apply Z.mod_pos_bound; lia)).
  rewrite Z.add_mod_idemp_r in H by done. replace (c + (i - c)) with i in H by lia.
  rewrite Z.mod_small in H by done. congruence.
Qed.

Lemma s8_bit bm j : is_u8 bm → 0 ≤ j < 6 → Z.testbit (s8 bm) j = Z.testbit bm j.
Proof.
  intros Hb Hj.
  assert (Forall (λ bm, Forall (λ j, Z.testbit (s8 bm) j = Z.testbit bm j) (seqZ 0 6)) (seqZ 0 256)) as H.
  { apply (bool_decide_unpack _). by vm_compute. }
  rewrite Forall_forall in H. specialize (H bm ltac:(apply elem_of_seqZ; unfold is_u8 in Hb; lia)).
  rewrite Forall_forall in H. apply H, elem_of_seqZ. lia.
Qed.

(** ** The loop *)

(** The scheduler looks at [j]. *)
Definition look (s : kstate) (j : Z) : kstate :=
  s <| kproc ::= (λ k, (k <| pcb := PCB_ADDR j |>) <| curProc := j |>) |>.

Lemma next_proc_ok s n c j :
  0 ≤ c < 6 → is_u8 (pid_bitmap (kproc s)) →
  (∀ j, 0 ≤ j < 6 → is_Some (pcbs (kproc s) !! PCB_ADDR j)) →
  first_ready n (kproc s) c = Some j →
  next_proc n (s8 (pid_bitmap (kproc s))) (look s c) = Ok (tt, look s j).
Proof.
  intros Hc Hbm Hblk. revert c Hc. induction n as [|n IH]; intros c Hc Hf; [done|].
  cbn [next_proc]. erewrite bind_ok by (unfold kget; reflexivity).
  change (curProc (kproc (look s c))) with c. cbn [first_ready] in Hf. unfold ready in Hf.
  assert (next_proc n (s8 (pid_bitmap (kproc s))) (look s (wrap c)) = Ok (tt, look s j) →
    (_ ← mod_proc (λ p, p <| curProc ::= (λ c, if bool_decide (c + 1 = 6) then 0 else c + 1) |>);
     _ ← mod_proc (λ p, p <| pcb := PCB_ADDR (curProc p) |>);
     next_proc n (s8 (pid_bitmap (kproc s)))) (look s c) = Ok (tt, look s j)) as Hstep.
  { intros <-. reflexivity. }
  destruct (Z.testbit (pid_bitmap (kproc s)) c) eqn:Eb.
  - rewrite bool_decide_eq_false_2 by (rewrite land_bit, s8_bit by (done || lia); congruence).
    destruct (Hblk c Hc) as [b Hb]. rewrite Hb in Hf.
    erewrite bind_ok by (erewrite bind_ok by (apply cur_pcb_ok; exact Hb); reflexivity).
    cbn [andb] in Hf. case_bool_decide as Ec.
    + simplify_eq. by rewrite (bool_decide_eq_false_2 (child_pid b ≠ -1)) by (intros Hx; by apply Hx).
    + rewrite (bool_decide_eq_true_2 (child_pid b ≠ -1)) by done. apply Hstep, IH; [|done].
      by apply wrap_range.
  - rewrite bool_decide_eq_true_2 by (apply land_bit; [lia|]; by rewrite s8_bit).
    erewrite bind_ok by reflexivity. apply Hstep, IH; [|done]. by apply wrap_range.
Qed.

(** ** One tick *)
Section tick.
Context `{Device} `{Layout} (Hlay : layout_ok).

(** The block of the preempted process keeps its stack. *)
Definition saved (s : kstate) (b : pcb_t) : pcb_t :=
  (b <| esp_schedule := esp (kcpu s) |>) <| ebp_schedule := ebp (kcpu s) |>.

Lemma kernel_ready s i b : kernel_ok s i b → ready (kproc s) i = true.
Proof using Type.
  intros Hk. unfold ready. destruct (kk_used _ _ _ Hk) as (_ & -> & ->).
  by rewrite bool_decide_eq_true_2 by apply Hk.
Qed.

Lemma kernel_ok_io s i b io : kernel_ok s i b → kernel_ok (s <| kio := io |>) i b.
Proof using Type. by intros []. Qed.

(** What a tick does, but for the ports. *)
Record ticked (s : kstate) (i : Z) (b : pcb_t) (j : Z) (bj : pcb_t) (s' : kstate) : Prop := {
  ti_used : used (kproc s) j bj;
  ti_kernel : kernel_ok s' j (if decide (j = i) then saved s b else bj);
  ti_proc : kproc s' = Mk_proc_t (PCB_ADDR j) (<[PCB_ADDR i := saved s b]> (pcbs (kproc s)))
    (pid_bitmap (kproc s)) (first_flag (kproc s)) (attemptExit (kproc s))
    (program_exception (kproc s)) (wrap j);
  ti_stay : j = i → kcpu s' = kcpu s;
  ti_switch : j ≠ i → kcpu s' = ((((kcpu s) <| esp := esp_schedule bj |>)
    <| ebp := ebp_schedule bj |>) <| tss_esp0 := KERNEL_STACK_BASE - j * TASK_STACK_SIZE |>)
    <| tss_ss0 := KERNEL_DS |>;
  ti_views q : 0 ≤ q < 6 → prog_view s' q = prog_view s q;
  ti_mem a : ¬ in_prog a → kmem s' !! a = kmem s !! a;
}.

(** The ticks' acknowledgements: one for the handler, one more by the
    scheduler when it switches. *)
Definition eoi_pit (io : io_t) : io_t := io <| io_trace ::= cons (Out MASTER_8259_PORT EOI) |>.

Lemma saved_kernel s i b k' :
  kernel_ok s i b →
  k' = Mk_proc_t (PCB_ADDR i) (<[PCB_ADDR i := saved s b]> (pcbs (kproc s)))
    (pid_bitmap (kproc s)) (first_flag (kproc s)) (attemptExit (kproc s))
    (program_exception (kproc s)) (wrap i) →
  kernel_ok (s <| kproc := k' |>) i (saved s b).
Proof using Type.
  intros Hk ->. pose proof (kk_used _ _ _ Hk) as (Hi & Hb & Hl).
  split; cbn [kproc kpage kpages kscr upd Set_kproc pcb first_flag]; try done; try apply Hk.
  - split; [done|]. split; [done|]. apply lookup_insert_eq.
  - eapply (table_block (kproc s) _ i b (saved s b)); try done; apply Hk.
Qed.

(** The part of [schedule] after the loop, staying and switching. *)
Lemma schedule_run s i b :
  kernel_ok s i b → 0 ≤ curProc (kproc s) < 6 →
  ∃ j bj s', turn (kproc s) (curProc (kproc s)) j ∧ schedule s = Ok (tt, s') ∧ ticked s i b j bj s' ∧
    kio s' = if decide (j = i) then kio s else eoi_pit (kio s).
Proof using Hlay.
  intros Hk Hc. set (c := curProc (kproc s)) in *.
  pose proof (kk_range _ _ _ Hk) as Hi. pose proof (kk_used _ _ _ Hk) as Hui.
  destruct (turn_exists (kproc s) c i Hc Hi (kernel_ready _ _ _ Hk)) as (j & Hf & Ht).
  pose proof (kk_table _ _ _ Hk) as Htab.
  assert (0 ≤ j < 6) as Hj by (destruct Ht as (d & _ & -> & _); apply Z.mod_pos_bound; lia).
  assert (∃ bj, used (kproc s) j bj ∧ child_pid bj = -1) as (bj & Huj & Hcj).
  { destruct Ht as (_ & _ & _ & Hr & _). unfold ready in Hr. apply andb_true_iff in Hr as [Hb Hr].
    destruct (pcbs (kproc s) !! PCB_ADDR j) as [bj|] eqn:E; [|done].
    apply bool_decide_eq_true in Hr. by exists bj. }
  pose proof Huj as (_ & Hbj & Hlj). pose proof (tb_pid _ _ Htab _ _ Huj) as Epj.
  destruct Hui as (_ & Hbi & Hli).
  pose proof (next_proc_ok s 7 c j Hc (tb_bits _ _ Htab)
    (λ j Hj, let '(ex_intro _ b (conj Hb _)) := tb_blocks _ _ Htab j Hj in ex_intro _ b Hb)) as Hnext.
  assert (first_ready 7 (kproc s) c = Some j) as Hf7.
  { by apply first_ready_more. }
  specialize (Hnext Hf7).
  assert (look s c = s <| kproc ::= (λ k, k <| pcb := PCB_ADDR (curProc k) |>) |>) as Elook.
  { unfold look, c. by destruct s as [? ? ? ? ? ? [] ? ? ? ? ?]. }
  set (sj := look s j) in *. set (s2 := sj <| kproc ::= (λ k, k <| curProc := wrap j |>) |>).
  assert (∀ X : K kstate unit, (
    _ ← mod_proc (λ p, p <| pcb := PCB_ADDR (curProc p) |>);
    _ ← next_proc 7 (s8 (pid_bitmap (kproc s)));
    _ ← mod_proc (λ p, p <| curProc ::= (λ c, if bool_decide (c = 5) then 0 else c + 1) |>); X) s =
    X s2) as Hfront.
  { intros X. rewrite (bind_ok _ _ _ tt (look s c)) by (rewrite Elook; reflexivity).
    erewrite bind_ok by exact Hnext. erewrite bind_ok by reflexivity. f_equal.
    assert ((if bool_decide (j = 5) then 0 else j + 1) = wrap j) as E.
    { unfold wrap. repeat case_bool_decide; lia. }
    unfold s2, sj, look. upd_cbv. by rewrite E. }
  set (b' := saved s b). set (m' := <[PCB_ADDR i := b']> (pcbs (kproc s))).
  set (k' := Mk_proc_t (PCB_ADDR j) m' (pid_bitmap (kproc s)) (first_flag (kproc s))
    (attemptExit (kproc s)) (program_exception (kproc s)) (wrap j)).
  assert (pcb_mod (PCB_ADDR i) (λ b, (b <| esp_schedule := esp (kcpu s) |>)
    <| ebp_schedule := ebp (kcpu s) |>) s2 = Ok (tt, s <| kproc := k' |>)) as Esave.
  { erewrite pcb_mod_ok by exact Hli. reflexivity. }
  exists j, bj. destruct (decide (j = i)) as [->|Hne].
  - exists (s <| kproc := k' |>). split; [done|]. split; [|split; [split|]].
    + unfold schedule, getBitMap. erewrite bind_ok by reflexivity.
      erewrite bind_ok by (unfold kget; reflexivity). rewrite Hfront, (kk_cur _ _ _ Hk).
      erewrite bind_ok by (unfold kget; reflexivity). erewrite bind_ok by (unfold kget; reflexivity).
      change (pcb (kproc s2)) with (PCB_ADDR i). rewrite bool_decide_eq_true_2 by done. exact Esave.
    + done.
    + rewrite decide_True by done. by apply saved_kernel.
    + done.
    + done.
    + done.
    + intros q Hq. by apply view_eq.
    + done.
    + done.
  - destruct (kk_space _ _ _ Hk) as [vi Hsp]. destruct (tb_dir _ _ Htab _ _ Huj) as [vj Hdir].
    set (c1 := ((kcpu s) <| esp := esp_schedule bj |>) <| ebp := ebp_schedule bj |>).
    set (s3 := (s <| kproc := k' |>) <| kcpu := c1 |>).
    destruct (update_paging_remapped Hlay s3 i vi j vj Hsp Hj Hdir (kk_pages _ _ _ Hk))
      as (s4 & E4 & Kp4 & Hsp4 & Es4 & Hpg4 & Hv4 & Hm4).
    set (c2 := (c1 <| tss_esp0 := KERNEL_STACK_BASE - j * TASK_STACK_SIZE |>) <| tss_ss0 := KERNEL_DS |>).
    assert (kproc s4 = k' ∧ kcpu s4 = c1 ∧ kscr s4 = kscr s ∧ kio s4 = kio s) as (Ekp & Ecpu & Escr & Eio).
    { rewrite Es4. done. }
    assert (PCB_ADDR i ≠ PCB_ADDR j) as Hnea by (intros E%PCB_ADDR_inj; congruence).
    exists ((s4 <| kcpu := c2 |>) <| kio := eoi_pit (kio s) |>).
    split; [done|]. split; [|split; [split|]].
    + unfold schedule, getBitMap. erewrite bind_ok by reflexivity.
      erewrite bind_ok by (unfold kget; reflexivity). rewrite Hfront, (kk_cur _ _ _ Hk).
      erewrite bind_ok by (unfold kget; reflexivity). erewrite bind_ok by (unfold kget; reflexivity).
      change (pcb (kproc s2)) with (PCB_ADDR j). rewrite bool_decide_eq_false_2 by done.
      erewrite bind_ok by (apply cur_pcb_ok; exact Hlj). erewrite bind_ok by exact Esave.
      rewrite (bind_ok _ _ _ tt s3) by reflexivity. rewrite Epj.
      erewrite bind_ok by exact E4.
      rewrite (bind_ok _ _ _ tt (s4 <| kcpu := c2 |>)).
      * rewrite <-Eio. reflexivity.
      * unfold mod_cpu, kmod, c2. rewrite <-Ecpu. reflexivity.
    + done.
    + rewrite decide_False by done. apply kernel_ok_io.
      split; cbn [kproc kpage kpages kscr upd Set_kcpu]; rewrite ?Ekp, ?Escr; unfold k';
        cbn [pcb pcbs pid_bitmap first_flag]; try done; try apply Hk.
      * split; [done|]. split; [done|]. unfold m'. cbn [pcbs]. by rewrite lookup_insert_ne.
      * by exists vj.
      * rewrite Kp4. destruct (kk_paging _ _ _ Hk). by split.
      * rewrite Kp4. eapply (table_block (kproc s) _ i b b'); try done; apply Hk.
    + exact Ekp.
    + done.
    + intros _. done.
    + intros q Hq. rewrite <-(view_eq s s3 q) by done. rewrite <-(Hv4 q Hq). by apply view_eq.
    + intros a Ha. by apply Hm4.
    + done.
Qed.
(** The handler of the timer, whole. *)
Lemma pit_handler_run s i b :
  kernel_ok s i b → 0 ≤ curProc (kproc s) < 6 →
  ∃ j bj s', turn (kproc s) (curProc (kproc s)) j ∧ pit_handler s = Ok (tt, s') ∧
    ticked s i b j bj s' ∧
    kio s' = if decide (j = i) then eoi_pit (kio s) else eoi_pit (eoi_pit (kio s)).
Proof using Hlay.
  intros Hk Hc. destruct (schedule_run s i b Hk Hc) as (j & bj & s1 & Ht & E & [T1 T2 T3 T4 T5 T6 T7] & Eio).
  exists j, bj, (s1 <| kio := eoi_pit (kio s1) |>). split; [done|]. split; [|split].
  - unfold pit_handler, getBitMap. erewrite bind_ok by reflexivity.
    rewrite bool_decide_eq_true_2.
    + erewrite bind_ok by exact E. reflexivity.
    + destruct (kk_bitmap _ _ _ Hk) as [Hu Hb]. intros E0.
      rewrite <-s8_bit, E0, Z.bits_0 in Hb; [done|done|apply (kk_range _ _ _ Hk)].
  - split; try done. by apply kernel_ok_io.
  - cbn [kio upd Set_kio]. rewrite Eio. by destruct (decide (j = i)).
Qed.

(** C12: a tick of the timer gives the processor to the first process from
    [curProc] on that is in use and not waiting for a child, which exists since
    the preempted one is, and the search starts behind it next time. The stack
    of the preempted process is kept in its block; another process continues
    on its own kept stack, in its address space and with its kernel stack for
    traps; no program's memory changes and the kernel's invariant holds. The
    interrupt is acknowledged, once more when the process changes. *)
Theorem pit_handler_switches s i b :
  kernel_ok s i b → 0 ≤ curProc (kproc s) < 6 →
  ∃ j bj s', turn (kproc s) (curProc (kproc s)) j ∧ pit_handler s = Ok (tt, s') ∧
    (∃ b', kernel_ok s' j b') ∧ curProc (kproc s') = (j + 1) mod 6 ∧
    pcbs (kproc s) !! PCB_ADDR j = Some bj ∧
    (j = i → esp (kcpu s') = esp (kcpu s) ∧ ebp (kcpu s') = ebp (kcpu s)) ∧
    (j ≠ i → esp (kcpu s') = esp_schedule bj ∧ ebp (kcpu s') = ebp_schedule bj ∧
       tss_esp0 (kcpu s') = KERNEL_STACK_BASE - j * TASK_STACK_SIZE) ∧
    pcbs (kproc s') !! PCB_ADDR i = Some (saved s b) ∧
    (∀ a, a ≠ PCB_ADDR i → pcbs (kproc s') !! a = pcbs (kproc s) !! a) ∧
    pid_bitmap (kproc s') = pid_bitmap (kproc s) ∧
    (∀ q, 0 ≤ q < 6 → prog_view s' q = prog_view s q) ∧
    outs (io_trace (kio s')) = outs (io_trace (kio s)) ++
      replicate (if decide (j = i) then 1 else 2) (MASTER_8259_PORT, EOI).
Proof using Hlay.
  intros Hk Hc. destruct (pit_handler_run s i b Hk Hc) as (j & bj & s' & Ht & E & T & Eio).
  destruct T as [(Hj & _ & Hl) T2 T3 T4 T5 T6 T7]. exists j, bj, s'. rewrite T3, Eio.
  cbn [curProc pcbs pid_bitmap].
  split; [done|]. split; [done|]. split; [by eexists|]. split; [by apply wrap_mod|].
  split; [done|]. split; [intros Hi; by rewrite (T4 Hi)|].
  split; [intros Hi; by rewrite (T5 Hi)|]. split; [apply lookup_insert_eq|].
  split; [intros a Ha; by rewrite lookup_insert_ne|]. split; [done|]. split; [done|].
  case_decide; unfold eoi_pit; cbn [io_trace upd Set_io_trace replicate]; rewrite !outs_cons;
    by rewrite <-?app_assoc.
Qed.

(** C11: round robin: however the processes run between the ticks, one that
    stays ready is given the processor within six of them. *)
Theorem ready_process_runs (run : nat → kstate) q :
  (∀ n, ∃ i b, kernel_ok (run n) i b) → 0 ≤ curProc (kproc (run 0%nat)) < 6 → 0 ≤ q < 6 →
  (∀ n, ready (kproc (run n)) q = true) →
  (∀ n s', pit_handler (run n) = Ok (tt, s') → curProc (kproc (run (S n))) = curProc (kproc s')) →
  ∃ n s', (n < 6)%nat ∧ pit_handler (run n) = Ok (tt, s') ∧ pcb (kproc s') = PCB_ADDR q.
Proof using Hlay.
  intros Hk Hstart Hq Hr Hnext.
  assert (∀ m n, 0 ≤ curProc (kproc (run n)) < 6 → (q - curProc (kproc (run n))) mod 6 = Z.of_nat m →
    ∃ k s', (n ≤ k ≤ n + m)%nat ∧ pit_handler (run k) = Ok (tt, s') ∧ pcb (kproc s') = PCB_ADDR q)
    as Hmain.
  { intros m. induction (lt_wf m) as [m _ IH]. intros n Hc Em. destruct (Hk n) as (i & b & Hki).
    destruct (pit_handler_run (run n) i b Hki Hc) as (j & bj & s' & Ht & E & T & _).
    set (c := curProc (kproc (run n))) in *. destruct Ht as (d & Hd & Ej & _ & Hbefore).
    assert (d ≤ Z.of_nat m) as Hdm.
    { destruct (decide (Z.of_nat m < d)) as [Hlt|]; [|lia]. specialize (Hbefore (Z.of_nat m) ltac:(lia)).
      rewrite <-Em, Z.add_mod_idemp_r in Hbefore by done.
      replace (c + (q - c)) with q in Hbefore by lia. rewrite Z.mod_small in Hbefore by lia.
      by rewrite Hr in Hbefore. }
    assert (Z.of_nat m < 6) as Hm6 by (rewrite <-Em; apply Z.mod_pos_bound; lia).
    pose proof (ti_proc _ _ _ _ _ _ T) as Hproc. destruct (decide (d = Z.of_nat m)) as [->|Hne].
    - exists n, s'. split; [lia|]. split; [done|]. rewrite Hproc. cbn [pcb]. f_equal.
      rewrite Ej, <-Em, Z.add_mod_idemp_r by done. replace (c + (q - c)) with q by lia.
      by apply Z.mod_small.
    - assert (curProc (kproc (run (S n))) = (c + d + 1) mod 6) as Ec.
      { rewrite (Hnext n s' E), Hproc. cbn [curProc]. rewrite wrap_mod.
        - by rewrite Ej, Z.add_mod_idemp_l by done.
        - rewrite Ej. apply Z.mod_pos_bound. lia. }
      destruct (IH (m - Z.to_nat d - 1)%nat ltac:(lia) (S n)) as (k & s2 & Hk2 & E2 & Hp).
      + rewrite Ec. apply Z.mod_pos_bound. lia.
      + rewrite Ec. rewrite Zminus_mod_idemp_r. replace (q - (c + d + 1)) with (q - c - (d + 1)) by lia.
        rewrite <-Zminus_mod_idemp_l, Em. rewrite Z.mod_small; lia.
      + exists k, s2. split; [lia|done]. }
  pose proof (Z.mod_pos_bound (q - curProc (kproc (run 0%nat))) 6 ltac:(lia)) as Hb.
  destruct (Hmain (Z.to_nat ((q - curProc (kproc (run 0%nat))) mod 6)) 0%nat Hstart ltac:(lia))
    as (k & s' & Hkr & E & Hp). exists k, s'. split; [lia|done].
Qed.

(** A process that is preempted and later given the processor again
    continues with the stack it had and the program memory it had, whatever ran
    in between and left its block and its memory alone. *)
Theorem preempted_process_continues s i b s1 s2 i2 b2 s3 :
  kernel_ok s i b → 0 ≤ curProc (kproc s) < 6 →
  pit_handler s = Ok (tt, s1) →
  kernel_ok s2 i2 b2 → i2 ≠ i → 0 ≤ curProc (kproc s2) < 6 →
  pcbs (kproc s2) !! PCB_ADDR i = pcbs (kproc s1) !! PCB_ADDR i →
  prog_view s2 i = prog_view s1 i →
  pit_handler s2 = Ok (tt, s3) → pcb (kproc s3) = PCB_ADDR i →
  esp (kcpu s3) = esp (kcpu s) ∧ ebp (kcpu s3) = ebp (kcpu s) ∧
  (∀ a, in_prog a → kmem s3 !! a = kmem s !! a) ∧ kernel_ok s3 i (saved s b).
Proof using Hlay.
  intros Hk Hc E Hk2 Hne Hc2 Hblk Hview E2 Hp. pose proof (kk_range _ _ _ Hk) as Hi.
  destruct (pit_handler_run s i b Hk Hc) as (j & bj & s1' & _ & E' & T & _). rewrite E in E'. simplify_eq E'. intros <-.
  destruct (pit_handler_run s2 i2 b2 Hk2 Hc2) as (j2 & bj2 & s3' & _ & E2' & T2 & _).
  rewrite E2 in E2'. simplify_eq E2'. intros <-.
  rewrite (ti_proc _ _ _ _ _ _ T2) in Hp. cbn [pcb] in Hp. apply PCB_ADDR_inj in Hp as ->.
  assert (bj2 = saved s b) as ->.
  { destruct (ti_used _ _ _ _ _ _ T2) as (_ & _ & Hl). rewrite Hblk, (ti_proc _ _ _ _ _ _ T) in Hl.
    cbn [pcbs] in Hl. rewrite lookup_insert_eq in Hl. by simplify_eq. }
  rewrite (ti_switch _ _ _ _ _ _ T2) by done. pose proof (ti_kernel _ _ _ _ _ _ T2) as Hk3.
  rewrite decide_False in Hk3 by done. split; [done|]. split; [done|]. split; [|done].
  intros a Ha. destruct (kk_space _ _ _ Hk) as [v Hs]. destruct (kk_space _ _ _ Hk3) as [v3 Hs3].
  rewrite (view_shown Hlay s3 i v3 a Hs3 Ha), (view_shown Hlay s i v a Hs Ha).
  by rewrite (ti_views _ _ _ _ _ _ T2) by done; rewrite Hview, (ti_views _ _ _ _ _ _ T) by done.
Qed.
End tick.

(** ** Witnesses *)

(** Two root shells, both ready: process 0 runs, process 1 was preempted with
    its stack at [0x7FDE00]. *)
Definition ex_second : pcb_t :=
  ((ex_pcb 2 1 (-1) (-1)) <| esp_schedule := 0x7FDE00 |>) <| ebp_schedule := 0x7FDE40 |>.
Definition ex_two : kstate :=
  ex_paged <| kproc := Mk_proc_t (PCB_ADDR 0) (<[PCB_ADDR 1 := ex_second]> ex_pcbs) 3 1 0 0 1 |>.

Lemma ex_two_used j b : used (kproc ex_two) j b →
  j = 0 ∧ b = ex_pcb 1 0 (-1) (-1) ∨ j = 1 ∧ b = ex_second.
Proof.
  intros (Hj & Hb & Hl). change (pid_bitmap (kproc ex_two)) with 3 in Hb.
  assert (j = 0 ∨ j = 1) as [-> | ->].
  { assert (j = 0 ∨ j = 1 ∨ j = 2 ∨ j = 3 ∨ j = 4 ∨ j = 5) as [->|[->|[->|[->|[->| ->]]]]] by lia;
      done || (by left) || by right. }
  - left. split; [done|]. assert (pcbs (kproc ex_two) !! PCB_ADDR 0 = Some (ex_pcb 1 0 (-1) (-1))) as E
      by (vm_compute; reflexivity). congruence.
  - right. split; [done|]. assert (pcbs (kproc ex_two) !! PCB_ADDR 1 = Some ex_second) as E
      by (vm_compute; reflexivity). congruence.
Qed.

Lemma ex_two_kernel_ok : kernel_ok ex_two 0 (ex_pcb 1 0 (-1) (-1)).
Proof.
  split; try done.
  - exists false. apply ex_in_space. lia.
  - destruct ex_kernel_ok as [_ _ _ _ [Hd H0 Hv Ht] _ _ _ _]. by split.
  - split.
    + decide_it.
    + intros j Hj. assert (j = 0 ∨ j = 1 ∨ j = 2 ∨ j = 3 ∨ j = 4 ∨ j = 5)
        as [->|[->|[->|[->|[->| ->]]]]] by lia; eexists; (split; [vm_compute; reflexivity|done]).
    + by intros j b [[-> ->]|[-> ->]]%ex_two_used.
    + intros j b Hj%ex_two_used. exists false.
      assert (0 ≤ j < 6) as Hr by (destruct Hj as [[-> _]|[-> _]]; lia).
      apply (is_dir (ex_space j false) j false). by apply ex_in_space.
    + intros j b [[-> ->]|[-> ->]]%ex_two_used; by left.
    + intros j b [[-> ->]|[-> ->]]%ex_two_used; by left.
  - change (whichTerm (kscr ex_two)) with 0. decide_it.
Qed.

#[local] Instance ex_dev : Device := ex_device 0.

Lemma pit_handler_switches_witness :
  ∃ j s', turn (kproc ex_two) 1 j ∧ pit_handler ex_two = Ok (tt, s') ∧ curProc (kproc s') = (j + 1) mod 6.
Proof.
  destruct (pit_handler_switches ex_layout_ok ex_two 0 (ex_pcb 1 0 (-1) (-1)) ex_two_kernel_ok
    ltac:(vm_compute; split; [discriminate|reflexivity])) as (j & bj & s' & Ht & E & _ & Ec & _).
  exists j, s'. split; [exact Ht|]. split; [exact E|exact Ec].
Defined.

(** With the single process of [ex_exec] the choice repeats. *)
Lemma ex_exec_tick s' : pit_handler ex_exec = Ok (tt, s') → curProc (kproc s') = 1.
Proof.
  intros E. assert (match pit_handler ex_exec with Ok (_, s) => curProc (kproc s) | _ => 0 end = 1) as H
    by (vm_compute; reflexivity).
  by rewrite E in H.
Qed.
Lemma ready_process_runs_witness :
  ∃ n s', (n < 6)%nat ∧ pit_handler ((λ _ : nat, ex_exec) n) = Ok (tt, s') ∧ pcb (kproc s') = PCB_ADDR 0.
Proof.
  apply (ready_process_runs ex_layout_ok (λ _, ex_exec) 0).
  - intros _. eexists _, _. exact ex_kernel_ok.
  - vm_compute. split; [discriminate|reflexivity].
  - lia.
  - intros _. vm_compute. reflexivity.
  - intros _ s' E. symmetry. exact (ex_exec_tick s' E).
Defined.

(** Process 0 is preempted for process 1, and the next tick returns. *)
