(* ===== verification/SyscallSpec.v ===== *)
(** * What the file system calls promise

    Descriptors: which one [sys_open] gives, what it then refers to, the
    errors, and the life of a descriptor from [sys_open] to [sys_close]. *)

From S2P Require Import Prelude CInt Memory CString State I8259 Screen Printf Rtc Paging.
From S2P Require Import FS FSSpec FileReads ExecSpec Process Terminal Syscalls Example.

(** The entry of a descriptor in the table of a process, and the first
    descriptor after the standard ones that is closed. *)
Definition file_at (b : pcb_t) (k : Z) : file_struct_t :=
  default (Mk_file_struct_t None 0 0 (-1)) (zlookup (file_array b) k).
Definition fd_closed (b : pcb_t) (k : Z) : Prop := flags (file_at b k) = CLOSE.
#[global] Instance fd_closed_dec b k : Decision (fd_closed b k).
Proof. unfold fd_closed. apply _. Defined.
Definition free_fd (b : pcb_t) : option Z := head (filter (fd_closed b) (seqZ 2 6)).

Lemma file_at_lookup b k : length (file_array b) = 8%nat → 0 ≤ k < 8 →
  zlookup (file_array b) k = Some (file_at b k).
Proof.
  intros Hl Hk. assert (is_Some (zlookup (file_array b) k)) as [f Hf]
    by (apply zlookup_is_Some; lia).
  unfold file_at. by rewrite Hf.
Qed.

Lemma head_filter_seqZ (P : Z → Prop) `{∀ k, Decision (P k)} i n j :
  head (filter P (seqZ i n)) = Some j → i ≤ j < i + n ∧ P j ∧ ∀ k, i ≤ k < j → ¬ P k.
Proof.
  destruct (decide (0 ≤ n)) as [Hn|Hn].
  2:{ rewrite seqZ_nil by lia. done. }
  revert i j. pattern n. apply natlike_ind; [|intros m Hm IH|done]; intros i j; [done|].
  rewrite seqZ_cons by lia. replace (Z.pred (Z.succ m)) with m by lia. rewrite filter_cons.
  destruct (decide (P i)) as [Hp|Hp].
  - intros E. injection E as <-. split; [lia|]. split; [done|]. lia.
  - intros (Hj & Hpj & Hlt)%IH. split; [lia|]. split; [done|]. intros k Hk.
    destruct (decide (k = i)) as [->|]; [done|]. apply Hlt. lia.
Qed.

Lemma free_fd_range b i : free_fd b = Some i →
  2 ≤ i < 8 ∧ fd_closed b i ∧ ∀ k, 2 ≤ k < i → ¬ fd_closed b k.
Proof. intros (H1 & H2 & H3)%head_filter_seqZ. split; [lia|done]. Qed.

(** The search for a descriptor. *)
Lemma find_fd_ok fuel s b i :
  running s b → length (file_array b) = 8%nat → 2 ≤ i < 8 → 8 - i ≤ Z.of_nat fuel →
  find_fd fuel i s = Ok (head (filter (fd_closed b) (seqZ i (8 - i))), s).
Proof.
  intros Hb Hl. revert i. induction fuel as [|fuel IH]; intros i Hi Hf; [lia|].
  cbn [find_fd]. erewrite bind_ok by (eapply cur_file_ok; [done|]; apply file_at_lookup; [done|lia]).
  rewrite seqZ_cons, filter_cons by lia. unfold fd_closed at 1.
  case_bool_decide as Hc; [rewrite decide_False by done|by rewrite decide_True].
  unfold MAX_OPEN_FILES. case_bool_decide as H7.
  - by replace i with 7 by lia.
  - replace (Z.succ i) with (i + 1) by lia. replace (Z.pred (8 - i)) with (8 - (i + 1)) by lia.
    apply IH; lia.
Qed.

Section open.
Context `{Device} `{Layout}.

(** What a name refers to: [sys_open] takes every name that begins with
    "terminal" for the terminal. *)
Definition kind_of (name : list Z) (e : entry) : Z :=
  if bool_decide (take 8 name = chars "terminal") then TYPE_TERM else e_type e.

(** The entry of an open file of a kind; [old] for an unknown kind. *)
Definition opened (kind : Z) (e : entry) (old : file_struct_t) : file_struct_t :=
  if bool_decide (kind = TYPE_DIR) then Mk_file_struct_t (Some fops_dir) 0 0 (Z.lor OPEN TYPE_DIR)
  else if bool_decide (kind = TYPE_FILE) then
    Mk_file_struct_t (Some fops_file) (s32 (e_inode e)) 0 (Z.lor OPEN TYPE_FILE)
  else if bool_decide (kind = TYPE_RTC) then Mk_file_struct_t (Some fops_rtc) 0 0 (Z.lor OPEN TYPE_RTC)
  else if bool_decide (kind = TYPE_TERM) then Mk_file_struct_t (Some fops_term) 0 0 (Z.lor OPEN TYPE_TERM)
  else old.

(** The process calls [sys_open] on a name. *)
Record open_env (s : kstate) (b : pcb_t) (img : image) (filename : Z) (name : list Z) : Prop := {
  oe_image : image_at (kmem s) (bblock s) img;
  oe_running : running s b;
  oe_files : length (file_array b) = 8%nat;
  oe_empty : kmem s !! L_empty = Some 0;
  oe_terminal : cstr_at (kmem s) L_terminal (chars "terminal");
  oe_name : cstr_at (kmem s) filename name;
  oe_buffer : mapped (kmem s) L_open_file 64;
  oe_apart : disjoint_range L_open_file 64 (bblock s) (image_size img) ∧
    disjoint_range L_open_file 64 filename (Z.of_nat (length name) + 1) ∧
    disjoint_range L_open_file 64 L_terminal 9;
}.

Lemma sys_open_ok s b img filename name :
  open_env s b img filename name →
  match free_fd b, find_entry img name with
  | Some i, Some (_, e) => ∃ m', sys_open filename s =
      Ok (i, with_file (s <| kmem := m' |>) b i (opened (kind_of name e) e (file_at b i))) ∧
      dom m' = dom (kmem s) ∧ ∀ a, ¬ (L_open_file ≤ a < L_open_file + 64) → m' !! a = kmem s !! a
  | _, _ => sys_open filename s = Ok (-1, s)
  end.
Proof.
  intros [Hi Hb Hl He Ht Hn Hm (Hd1 & Hd2 & Hd3)].
  pose proof (find_fd_ok (Z.to_nat MAX_OPEN_FILES) s b 2 Hb Hl ltac:(lia)
    ltac:(unfold MAX_OPEN_FILES; lia)) as Eo. change (8 - 2) with 6 in Eo.
  fold (free_fd b) in Eo. unfold sys_open. erewrite bind_ok by exact Eo.
  destruct (free_fd b) as [i|] eqn:Ei0; [|done].
  apply free_fd_range in Ei0 as (Hir & _). pose proof (file_at_lookup b i Hl ltac:(lia)) as Hf.
  set (f := file_at b i) in *.
  erewrite bind_ok by (unfold kget; reflexivity).
  pose proof (lookup_ok (kmem s) (bblock s) img filename name L_open_file Hi He Hn Hm Hd1) as Hlk.
  destruct (find_entry img name) as [[d e]|].
  2:{ by erewrite bind_ok by (apply on_mem_pure; exact Hlk). }
  destruct Hlk as (m1 & E1 & Et & Ei & (_ & _ & _ & _ & Hu) & Hdom & Hout).
  erewrite bind_ok by (apply on_mem_ok; exact E1). bool_lits. cbv iota.
  assert (cstr_at m1 filename name ∧ cstr_at m1 L_terminal (chars "terminal")) as [[Hn1 Hcn] [Ht1 Hct]].
  { split; (eapply cstr_at_agree; [|eassumption]); intros a Ha; apply Hout;
      unfold disjoint_range in *; [lia|]. change (Z.of_nat (length (chars "terminal"))) with 8 in Ha. lia. }
  destruct (ncmp_cstr (Z.to_nat 8) name (chars "terminal") Hcn Hct) as (c & Ec & Hiff).
  erewrite bind_ok by (apply on_mem_pure; exact (strncmp_ok _ _ _ _ _ _ _ Hn1 Ht1 Ec)).
  change (take (Z.to_nat 8) (chars "terminal")) with (chars "terminal") in Hiff.
  change (Z.to_nat 8) with 8%nat in Hiff.
  (* the type field, overwritten or not *)
  assert (∃ m2, ((if bool_decide (c = 0) then on_mem (store32 (d_file_type L_open_file) TYPE_TERM) else mret tt)
      : K kstate unit) (s <| kmem := m1 |>) = Ok (tt, s <| kmem := m2 |>) ∧
    load32 (d_file_type L_open_file) m2 = Ok (kind_of name e, m2) ∧
    load32 (d_inode_num L_open_file) m2 = Ok (e_inode e, m2) ∧ dom m2 = dom m1 ∧
    ∀ a, ¬ (L_open_file ≤ a < L_open_file + 64) → m2 !! a = m1 !! a)
    as (m2 & E2 & Et2 & Ei2 & Hdom2 & Hout2).
  { unfold kind_of. destruct (decide (c = 0)) as [Hz|Hz].
    2:{ exists m1. rewrite bool_decide_eq_false_2, (bool_decide_eq_false_2 (take _ _ = _)); [done|..|done].
        by rewrite <-Hiff. }
    rewrite !bool_decide_eq_true_2 by (done || by apply Hiff).
    assert (mapped m1 (d_file_type L_open_file) 4) as Hm4.
    { eapply mapped_dom; [exact Hdom|]. eapply mapped_sub; [exact Hm|unfold d_file_type; lia|unfold d_file_type; lia]. }
    pose proof (store32_ok m1 (d_file_type L_open_file) TYPE_TERM Hm4) as Est.
    eexists. split; [etrans; [apply on_mem_ok; exact Est|reflexivity]|].
    split; [|split; [|split]].
    - apply load32_le32; [apply put_bytes_at|by vm_compute].
    - eapply load32_agree; [exact Ei|]. intros x Hx. apply put_bytes_outside.
      unfold d_file_type, d_inode_num in *. cbn [length le32]. lia.
    - apply put_bytes_dom. exact Hm4.
    - intros a Ha. apply put_bytes_outside. unfold d_file_type. cbn [length le32]. lia. }
  erewrite bind_ok by exact E2. erewrite bind_ok by (apply on_mem_pure; exact Et2).
  exists m2. split.
  2:{ split; [congruence|]. intros a Ha. rewrite Hout2 by done. by apply Hout. }
  set (s2 := s <| kmem := m2 |>). assert (running s2 b) as Hb2 by done.
  assert (∀ x, (_ ← mod_file i (λ _, x); mret i : K kstate Z) s2 = Ok (i, with_file s2 b i x)) as Hmod.
  { intros x. by erewrite bind_ok by (apply (mod_file_ok s2 b i f); done). }
  unfold opened, MAX_OPEN_FILES, DIR_INODE, DIR_POS, FILE_POS in *.
  clear E2. repeat case_bool_decide; try apply Hmod.
  - unfold mbind at 1. unfold K_bind at 1. erewrite bind_ok by (apply on_mem_pure; exact Ei2). apply Hmod.
  - erewrite bind_ok by reflexivity. by rewrite with_file_id.
Qed.
End open.

(** C30: [sys_open] gives the lowest closed descriptor of the process, from 2
    on, when there is one and the directory has the name: the descriptor
    then refers to what the name is (a file at its start, the directory, the
    clock, or the terminal for every name that begins with "terminal").
    Otherwise it gives -1 and changes nothing. *)
Theorem sys_open_lowest_fd `{Layout} s b img filename name :
  open_env s b img filename name →
  match free_fd b, find_entry img name with
  | Some i, Some (_, e) =>
      (2 ≤ i < 8 ∧ fd_closed b i ∧ ∀ k, 2 ≤ k < i → ¬ fd_closed b k) ∧
      ∃ m', sys_open filename s =
        Ok (i, with_file (s <| kmem := m' |>) b i (opened (kind_of name e) e (file_at b i))) ∧
        ∀ a, ¬ (L_open_file ≤ a < L_open_file + 64) → m' !! a = kmem s !! a
  | _, _ => sys_open filename s = Ok (-1, s)
  end.
Proof.
  intros He. pose proof (sys_open_ok s b img filename name He) as E.
  pose proof (free_fd_range b) as Hr. destruct (free_fd b) as [i|]; [|done].
  destruct (find_entry img name) as [[d e]|]; [|done]. split; [by apply Hr|].
  destruct E as (m' & E & _ & Ho). by exists m'.
Qed.

(** The first process opens "frame0". *)
Definition ex_opener : kstate :=
  (ex_state 1) <| kmem ::= (λ m, put_bytes m 0x500460 (chars "frame0" ++ [0])) |>.
Lemma ex_open_env :
  open_env ex_opener (ex_pcb 1 0 (-1) (-1)) ex_image 0x500460 (chars "frame0").
Proof.
  split; [|vm_compute; reflexivity|reflexivity|vm_compute; reflexivity|decide_it..].
  apply ex_image_in. intros a Ha. apply (put_bytes_outside ex_mem 0x500460 (chars "frame0" ++ [0])).
  unfold ex_bblock in Ha. cbn [chars app length]. lia.
Qed.
Lemma sys_open_lowest_fd_witness :
  match free_fd (ex_pcb 1 0 (-1) (-1)), find_entry ex_image (chars "frame0") with
  | Some i, Some (_, e) =>
      (2 ≤ i < 8 ∧ fd_closed (ex_pcb 1 0 (-1) (-1)) i ∧
        ∀ k, 2 ≤ k < i → ¬ fd_closed (ex_pcb 1 0 (-1) (-1)) k) ∧
      ∃ m', sys_open 0x500460 ex_opener =
        Ok (i, with_file (ex_opener <| kmem := m' |>) (ex_pcb 1 0 (-1) (-1)) i
          (opened (kind_of (chars "frame0") e) e (file_at (ex_pcb 1 0 (-1) (-1)) i))) ∧
        ∀ a, ¬ (L_open_file ≤ a < L_open_file + 64) → m' !! a = kmem ex_opener !! a
  | _, _ => sys_open 0x500460 ex_opener = Ok (-1, ex_opener)
  end.
Proof. apply sys_open_lowest_fd. exact ex_open_env. Defined.

(** ** Descriptors that are refused *)

Definition fd_open (b : pcb_t) (k : Z) : Prop := Z.land (flags (file_at b k)) OPEN ≠ 0.
#[global] Instance fd_open_dec b k : Decision (fd_open b k).
Proof. unfold fd_open. apply _. Defined.

Section refused.
Context `{Device} `{Layout} (handler : irq → K kstate unit) (busy polls : nat) (scancode : Z).
Context (s : kstate) (b : pcb_t) (Hb : running s b) (Hl : length (file_array b) = 8%nat).

(** The shape of the three calls. *)
Lemma refused (range : bool) fd (k : file_struct_t → K kstate Z) :
  (range = true → 0 ≤ fd < 8) → ¬ (range = true ∧ fd_open b fd) →
  (if range then f ← cur_file fd; if bool_decide (Z.land (flags f) OPEN ≠ 0) then k f else mret (-1)
   else mret (-1)) s = Ok (-1, s).
Proof using Hb Hl.
  intros Hr Hn. destruct range; [|done].
  erewrite bind_ok by (eapply cur_file_ok; [done|]; apply file_at_lookup; auto).
  rewrite bool_decide_eq_false_2; [done|]. unfold fd_open in Hn. tauto.
Qed.

(** C31: a descriptor that is out of range, the wrong standard one, or not
    open is an error of [sys_read], [sys_write] and [sys_close]: the call
    gives -1 and changes nothing. [sys_close] refuses the standard ones. *)
Theorem bad_descriptors fd buf nbytes :
  (¬ ((fd = 0 ∨ 2 ≤ fd < 8) ∧ fd_open b fd) →
    sys_read handler busy polls scancode fd buf nbytes s = Ok (-1, s)) ∧
  (¬ (1 ≤ fd < 8 ∧ fd_open b fd) → sys_write fd buf nbytes s = Ok (-1, s)) ∧
  (¬ (2 ≤ fd < 8 ∧ fd_open b fd) → sys_close fd s = Ok (-1, s)).
Proof using Hb Hl.
  split; [|split]; intros Hn; unfold sys_read, sys_write, sys_close; apply refused;
    rewrite ?orb_true_iff, ?andb_true_iff, ?bool_decide_eq_true; intuition lia.
Qed.
End refused.

Lemma bad_descriptors_witness :
  let b := ex_pcb 1 0 (-1) (-1) in
  length (file_array b) = 8%nat ∧
  (¬ ((7 = 0 ∨ 2 ≤ 7 < 8) ∧ fd_open b 7) →
    @sys_read (ex_device 0) ex_layout (λ _, mret tt) 0 0 0 7 0 0 (ex_state 1) = Ok (-1, ex_state 1)) ∧
  (¬ (1 ≤ 7 < 8 ∧ fd_open b 7) →
    @sys_write (ex_device 0) ex_layout 7 0 0 (ex_state 1) = Ok (-1, ex_state 1)) ∧
  (¬ (2 ≤ 7 < 8 ∧ fd_open b 7) → sys_close 7 (ex_state 1) = Ok (-1, ex_state 1)).
Proof. intros b. split; [reflexivity|]. apply (bad_descriptors _ _ _ _ (ex_state 1)); vm_compute; reflexivity. Defined.

(** ** From open to close *)

Lemma file_at_insert b i k x : length (file_array b) = 8%nat → 0 ≤ i < 8 → 0 ≤ k →
  file_at (b <| file_array := <[Z.to_nat i := x]> (file_array b) |>) k =
  if decide (i = k) then x else file_at b k.
Proof.
  intros Hl Hi Hk. unfold file_at. upd_cbv. rewrite zlookup_insert by lia. by case_decide.
Qed.

Lemma filter_agree {A} (P Q : A → Prop) `{∀ x, Decision (P x), ∀ x, Decision (Q x)} (l : list A) :
  (∀ x, x ∈ l → P x ↔ Q x) → filter P l = filter Q l.
Proof.
  induction l as [|x l IH]; intros HPQ; [done|]. rewrite !filter_cons, IH by set_solver.
  assert (P x ↔ Q x) by set_solver. repeat case_decide; tauto.
Qed.

Lemma with_file_over s b i x y :
  with_file (with_file s b i x) (b <| file_array := <[Z.to_nat i := x]> (file_array b) |>) i y =
  with_file s b i y.
Proof. unfold with_file. upd_cbv. by rewrite insert_insert_eq, list_insert_insert_eq. Qed.

(** A closed descriptor stays the one to use next. *)
Lemma free_fd_insert b i x : length (file_array b) = 8%nat → free_fd b = Some i →
  flags x = CLOSE → free_fd (b <| file_array := <[Z.to_nat i := x]> (file_array b) |>) = Some i.
Proof.
  intros Hl Hi Hx. pose proof (free_fd_range b i Hi) as (Hr & Hc & _). rewrite <-Hi.
  unfold free_fd. f_equal. apply filter_agree. intros k Hk%elem_of_seqZ.
  unfold fd_closed. rewrite file_at_insert by (done || lia). case_decide; [|done]. by subst k.
Qed.

Section lifetime.
Context `{Device} `{Layout}.

Lemma opened_fields kind e old : 0 ≤ kind ≤ 2 ∨ kind = TYPE_TERM →
  (∃ t, fops_table (opened kind e old) = Some t) ∧
  Z.land (flags (opened kind e old)) OPEN ≠ 0 ∧ opened kind e old = opened kind e ex_file.
Proof.
  intros Hk. assert (kind = 0 ∨ kind = 1 ∨ kind = 2 ∨ kind = 4) as [-> |[-> |[-> | ->]]]
    by (unfold TYPE_TERM in *; lia);
    (split; [eexists; vm_compute; reflexivity|split; [by vm_compute|reflexivity]]).
Qed.

Lemma sys_close_ok s b i f t : running s b → length (file_array b) = 8%nat → 2 ≤ i < 8 →
  file_at b i = f → fops_table f = Some t → Z.land (flags f) OPEN ≠ 0 →
  sys_close i s = Ok (0, with_file s b i (f <| flags := CLOSE |>)).
Proof.
  intros Hb Hl Hi <- Ht Ho. unfold sys_close.
  rewrite (bool_decide_eq_true_2 (2 ≤ i)), (bool_decide_eq_true_2 (i < 8)) by lia. cbn [andb].
  pose proof (file_at_lookup b i Hl ltac:(lia)) as Hf.
  erewrite bind_ok by (by eapply cur_file_ok). rewrite bool_decide_eq_true_2 by done.
  erewrite bind_ok by (by eapply mod_file_ok). rewrite Ht. by destruct t.
Qed.

(** The process may open again, whatever [sys_open] left in its buffer. *)
Lemma open_env_again s b img filename name m' i x :
  open_env s b img filename name → free_fd b = Some i → dom m' = dom (kmem s) →
  (∀ a, ¬ (L_open_file ≤ a < L_open_file + 64) → m' !! a = kmem s !! a) →
  kmem s !! L_empty = m' !! L_empty →
  open_env (with_file (s <| kmem := m' |>) b i x)
    (b <| file_array := <[Z.to_nat i := x]> (file_array b) |>) img filename name.
Proof.
  intros [Hi Hb Hl He Ht Hn Hm (Hd1 & Hd2 & Hd3)] Hfree Hdom Ho Hempty. unfold disjoint_range in *.
  split; try done; unfold with_file; upd_cbv.
  - eapply image_agree; [exact Hi|]. intros a Ha. apply Ho. lia.
  - unfold running. upd_cbv. apply lookup_insert_eq.
  - by rewrite length_insert.
  - by rewrite <-Hempty.
  - eapply cstr_at_agree; [|exact Ht]. intros a Ha. apply Ho.
    change (Z.of_nat (length (chars "terminal"))) with 8 in Ha. lia.
  - eapply cstr_at_agree; [|exact Hn]. intros a Ha. apply Ho. lia.
  - eapply mapped_dom; done.
Qed.

(** A descriptor that [sys_open] gave is closed by [sys_close] with 0,
    which only marks it closed; opening the same name again gives the same
    descriptor, and it refers to the start of the same object as at first. *)
Theorem open_close_roundtrip s b img filename name i d e :
  open_env s b img filename name → free_fd b = Some i → find_entry img name = Some (d, e) →
  0 ≤ kind_of name e ≤ 2 ∨ kind_of name e = TYPE_TERM →
  ¬ (L_open_file ≤ L_empty < L_open_file + 64) →
  ∃ s1 s2 s3, sys_open filename s = Ok (i, s1) ∧ sys_close i s1 = Ok (0, s2) ∧
    sys_open filename s2 = Ok (i, s3) ∧ kproc s3 = kproc s1 ∧
    kproc s2 = kproc (with_file s b i ((opened (kind_of name e) e ex_file) <| flags := CLOSE |>)).
Proof.
  intros He Hfree Hent Hk Hemp. pose proof He as [_ Hb Hl _ _ _ _ _].
  pose proof (free_fd_range b i Hfree) as (Hir & _).
  pose proof (sys_open_ok s b img filename name He) as E1. rewrite Hfree, Hent in E1.
  destruct E1 as (m1 & E1 & Hdom1 & Ho1).
  destruct (opened_fields (kind_of name e) e (file_at b i) Hk) as ((t & Ht) & Hopen & Eold).
  set (f := opened _ e (file_at b i)) in *. set (s1 := with_file _ b i f) in *.
  set (b1 := b <| file_array := <[Z.to_nat i := f]> (file_array b) |>).
  assert (running s1 b1) as Hb1 by apply with_file_running.
  assert (length (file_array b1) = 8%nat) as Hl1 by (unfold b1; upd_cbv; by rewrite length_insert).
  pose proof (sys_close_ok s1 b1 i f t Hb1 Hl1 Hir) as E2.
  specialize (E2 ltac:(unfold b1; rewrite file_at_insert by (done || lia); by rewrite decide_True) Ht Hopen).
  set (x := f <| flags := CLOSE |>) in *.
  unfold s1 in E2 at 2. unfold b1 in E2. rewrite with_file_over in E2. set (s2 := with_file _ b i x) in *.
  set (b2 := b <| file_array := <[Z.to_nat i := x]> (file_array b) |>).
  pose proof (open_env_again s b img filename name m1 i x He Hfree Hdom1 Ho1
    ltac:(by rewrite Ho1)) as He2.
  pose proof (sys_open_ok _ _ img filename name He2) as E3.
  rewrite (free_fd_insert b i x Hl Hfree), Hent in E3 by done. destruct E3 as (m3 & E3 & _).
  exists s1, s2. eexists. split; [exact E1|]. split; [exact E2|]. split; [exact E3|].
  destruct (opened_fields (kind_of name e) e (file_at b2 i) Hk) as (_ & _ & Eold3). split.
  - change (b <| file_array := _ |>) with b2. rewrite Eold3, <-Eold. fold f.
    subst s2 s1. unfold b2. by rewrite with_file_twice.
  - subst s2 x. by rewrite Eold.
Qed.
End lifetime.

Lemma open_close_roundtrip_witness :
  ∃ s1 s2 s3, sys_open 0x500460 ex_opener = Ok (2, s1) ∧
    @sys_close 2 s1 = Ok (0, s2) ∧ sys_open 0x500460 s2 = Ok (2, s3) ∧ kproc s3 = kproc s1 ∧
    kproc s2 = kproc (with_file ex_opener (ex_pcb 1 0 (-1) (-1)) 2
      ((opened 2 (Mk_entry (ex_name (chars "frame0")) 2 2) ex_file) <| flags := CLOSE |>)).
Proof.
  apply (open_close_roundtrip ex_opener (ex_pcb 1 0 (-1) (-1)) ex_image 0x500460 (chars "frame0") 2
    3 (Mk_entry (ex_name (chars "frame0")) 2 2)); [exact ex_open_env|vm_compute; reflexivity..|decide_it|decide_it].
Defined.
