(* ===== verification/TerminalSpec.v ===== *)
(** * The line buffers of the terminals

    The row of [tbuf] and the entry of [idx] of a terminal hold a line;
    [insert], [backspacebuf] and [clearbuf] are edits of it. *)

From S2P Require Import Prelude CInt Memory CString State Screen Printf Rtc Terminal FS.

Section line.
Context `{Layout}.

(** Where the line of terminal [t] is. *)
Definition row_base (t : Z) : Z := tbuf_at (t - 1) 0.

Lemma tbuf_row t i : tbuf_at (t - 1) i = row_base t + i.
Proof. unfold row_base, tbuf_at. lia. Qed.

(** Terminal [t] holds the line [l]. *)
Definition line_at (s : kstate) (t : Z) (l : list Z) : Prop :=
  zlookup (idx (kterm s)) (t - 1) = Some (Z.of_nat (length l)) ∧ (length l ≤ 128)%nat ∧
  bytes_at (kmem s) (row_base t) l ∧ mapped (kmem s) (row_base t) 128.

Definition set_line (s : kstate) (t : Z) (m : mem) (n : nat) : kstate :=
  (s <| kmem := m |>) <| kterm ::=
    (λ k, k <| idx := <[Z.to_nat (t - 1) := Z.of_nat n]> (idx k) |>) |>.

(** What an edit of the line leaves. *)
Definition lined_to (s : kstate) (t : Z) (l : list Z) (s' : kstate) : Prop :=
  ∃ m', s' = set_line s t m' (length l) ∧ (length l ≤ 128)%nat ∧ bytes_at m' (row_base t) l ∧
    dom m' = dom (kmem s) ∧ ∀ a, ¬ (row_base t ≤ a < row_base t + 128) → m' !! a = kmem s !! a.

Lemma lined_line s t l l' s' : 1 ≤ t → line_at s t l → lined_to s t l' s' → line_at s' t l'.
Proof.
  intros Ht (Hi & _ & _ & Hm) (m' & -> & Hl & Hb & Hd & _). unfold set_line.
  assert (is_Some (zlookup (idx (kterm s)) (t - 1))) as Hr%zlookup_is_Some by (by rewrite Hi).
  split; [|split; [done|split; [done|by eapply mapped_dom]]]. upd_cbv.
  rewrite zlookup_insert by lia. by rewrite decide_True.
Qed.

(** The other lines. *)
Lemma lined_other s t l s' u k : t ≠ u → 1 ≤ t → 1 ≤ u →
  lined_to s t l s' → line_at s u k → line_at s' u k.
Proof.
  intros Hne Ht Hu (m' & -> & Hl & Hb & Hd & Ho) (Hi & Hk & Hbk & Hm). unfold set_line.
  split; [|split; [done|split; [|by eapply mapped_dom]]].
  - upd_cbv. unfold zlookup in *. rewrite bool_decide_eq_true_2 in * by lia.
    by rewrite list_lookup_insert_ne by lia.
  - eapply bytes_at_agree; [|exact Hbk]. intros x Hx. apply Ho.
    unfold row_base, tbuf_at, BUFSIZE in *. lia.
Qed.

(** The screens, when the lines are elsewhere. *)
Lemma lined_tty s t l s' u v :
  disjoint_range (row_base t) 128 (term_base (kscr s) u) 4000 →
  lined_to s t l s' → tty_at s u v → tty_at s' u v.
Proof.
  intros Hd (m' & -> & _ & _ & Hdom & Ho) (Hv & Hs & Hx & Hy). unfold disjoint_range in Hd.
  split; [done|]. split; [|done]. unfold set_line. upd_cbv.
  eapply screen_at_agree; [exact Hdom| |exact Hs]. intros a Ha. apply Ho. lia.
Qed.
Lemma drawn_line s u v s' t l :
  disjoint_range (row_base t) 128 (term_base (kscr s) u) 4000 →
  drawn_to s u v s' → line_at s t l → line_at s' t l.
Proof.
  intros Hd (m' & -> & _ & Hdom & Ho) (Hi & Hl & Hb & Hm). unfold disjoint_range in Hd.
  split; [done|]. split; [done|]. split; [|by eapply mapped_dom].
  eapply bytes_at_agree; [|exact Hb]. intros x Hx. apply Ho. lia.
Qed.

(** [idx] of a terminal. *)
Lemma idx_at_ok s t l : line_at s t l → idx_at (t - 1) s = Ok (Z.of_nat (length l), s).
Proof. intros (Hi & _). unfold idx_at, kget, mbind, K_bind, klift. by rewrite Hi. Qed.

Lemma set_idx_ok s t l m n : line_at s t l →
  set_idx (t - 1) (Z.of_nat n) (s <| kmem := m |>) = Ok (tt, set_line s t m n).
Proof.
  intros (Hi & _). unfold set_idx, kget. unfold mbind at 1, K_bind at 1.
  assert (is_Some (zlookup (idx (kterm s)) (t - 1))) as Hr%zlookup_is_Some by (by rewrite Hi).
  change (kterm (s <| kmem := m |>)) with (kterm s). by rewrite zupdate_in_range by done.
Qed.

(** A character is added to the line of the displayed terminal when there is
    room; the result is the new length. *)
Definition line_add (c : Z) (l : list Z) : list Z :=
  if decide (length l < 128)%nat then l ++ [u8 c] else l.

Lemma insert_ok s t l c : currentTerminal (kscr s) = t → line_at s t l →
  ∃ s', insert c s = Ok (Z.of_nat (length (line_add c l)), s') ∧ lined_to s t (line_add c l) s'.
Proof.
  intros Ht Hl. pose proof Hl as (Hi & Hlen & Hb & Hm). unfold insert, whatTerm.
  erewrite bind_ok by (unfold kget, mbind, K_bind, mret, K_ret; reflexivity). rewrite Ht.
  erewrite bind_ok by (by eapply idx_at_ok). unfold line_add. case_decide as Hn.
  - rewrite bool_decide_eq_false_2 by lia. rewrite tbuf_row.
    assert (is_Some (kmem s !! (row_base t + Z.of_nat (length l)))) as Hs.
    { rewrite mapped_spec in Hm. apply Hm. lia. }
    pose proof (store8_ok (kmem s) _ c Hs) as E. erewrite bind_ok by (apply on_mem_ok; exact E).
    replace (Z.of_nat (length l) + 1) with (Z.of_nat (length (l ++ [u8 c])))
      by (rewrite length_app; cbn; lia).
    erewrite bind_ok by (by eapply set_idx_ok). eexists. split; [done|].
    eexists. split; [done|]. rewrite length_app. cbn [length]. split; [lia|].
    split; [|split].
    + apply bytes_at_app. split.
      * eapply bytes_at_agree; [|exact Hb]. intros x Hx. apply lookup_insert_ne. lia.
      * cbn. by rewrite lookup_insert_eq.
    + by apply dom_insert_mapped.
    + intros a Ha. apply lookup_insert_ne. lia.
  - rewrite bool_decide_eq_true_2 by lia. exists s. split; [done|]. exists (kmem s).
    split; [|done]. unfold set_line. apply zlookup_Some in Hi as [_ Hi].
    destruct s as [? ? ? [] ? ? ? ? ? ? ? ?]. upd_cbv. cbn in Hi. by rewrite list_insert_id.
Qed.

(** The last character is erased; on an empty line the byte before the row is
    cleared, and the result is -1. *)
Lemma backspacebuf_ok s t l c : currentTerminal (kscr s) = t → line_at s t (l ++ [c]) →
  ∃ s', backspacebuf s = Ok (Z.of_nat (length l), s') ∧ lined_to s t l s'.
Proof.
  intros Ht Hl. pose proof Hl as (Hi & Hlen & Hb & Hm). rewrite length_app in *. cbn [length] in *.
  unfold backspacebuf, whatTerm.
  erewrite bind_ok by (unfold kget, mbind, K_bind, mret, K_ret; reflexivity). rewrite Ht.
  erewrite bind_ok by (by eapply idx_at_ok). rewrite length_app, tbuf_row. cbn [length].
  replace (Z.of_nat (length l + 1) - 1) with (Z.of_nat (length l)) by lia.
  assert (is_Some (kmem s !! (row_base t + Z.of_nat (length l)))) as Hs.
  { rewrite mapped_spec in Hm. apply Hm. lia. }
  pose proof (store8_ok (kmem s) _ 0 Hs) as E. erewrite bind_ok by (apply on_mem_ok; exact E).
  rewrite bool_decide_eq_true_2 by lia. erewrite bind_ok by (by eapply set_idx_ok).
  eexists. split; [done|]. eexists. split; [done|]. split; [lia|].
  apply bytes_at_app in Hb as [Hb _]. split; [|split].
  - eapply bytes_at_agree; [|exact Hb]. intros x Hx. apply lookup_insert_ne. lia.
  - by apply dom_insert_mapped.
  - intros a Ha. apply lookup_insert_ne. lia.
Qed.

Lemma backspacebuf_empty s t : currentTerminal (kscr s) = t → line_at s t [] →
  is_Some (kmem s !! (row_base t - 1)) →
  backspacebuf s = Ok (-1, s <| kmem ::= <[row_base t - 1 := 0]> |>).
Proof.
  intros Ht Hl Hs. unfold backspacebuf, whatTerm.
  erewrite bind_ok by (unfold kget, mbind, K_bind, mret, K_ret; reflexivity). rewrite Ht.
  erewrite bind_ok by (by eapply idx_at_ok). cbn [length]. rewrite tbuf_row.
  change (Z.of_nat 0 - 1) with (-1). replace (row_base t + -1) with (row_base t - 1) by lia.
  pose proof (store8_ok (kmem s) _ 0 Hs) as E. erewrite bind_ok by (apply on_mem_ok; exact E). done.
Qed.

Lemma for_loop_ext {S} (f g : Z → K S unit) n i :
  (∀ i, f i = g i) → for_loop n i f = for_loop n i g.
Proof. intros E. revert i. induction n as [|n IH]; intros i; [done|]. cbn [for_loop]. by rewrite E, IH. Qed.

(** [clearbuf] works on the terminal of the running process. *)
Lemma clear_row m a n : mapped m a (Z.of_nat n) →
  for_loop n 0 (λ i, store8 (a + i) 0) m = Ok (tt, put_bytes m a (replicate n 0)).
Proof.
  intros Hm. rewrite mapped_spec in Hm.
  pose proof (wp_for (λ i, store8 (a + i) 0)
    (λ i m', m' = put_bytes m a (replicate (Z.to_nat i) 0)) n 0 m) as W.
  apply wp_ok in W as ([] & m' & E & ->); [by rewrite E, Z.add_0_l, Nat2Z.id|done|].
  intros j m1 Hj ->. eapply wp_run.
  { pose proof (store8_snoc m a (replicate (Z.to_nat j) 0) 0) as E.
    rewrite length_replicate, Z2Nat.id in E by lia. apply E. apply Hm. lia. }
  f_equal. replace (Z.to_nat (j + 1)) with (S (Z.to_nat j)) by lia.
  rewrite replicate_S_end. done.
Qed.

Lemma clearbuf_ok s b l : running s b → line_at s (curTerminal b) l → 
  ∃ s', clearbuf s = Ok (tt, s') ∧ lined_to s (curTerminal b) [] s' ∧
    kmem s' = put_bytes (kmem s) (row_base (curTerminal b)) (replicate 128 0).
Proof.
  intros Hb Hl. pose proof Hl as (_ & _ & _ & Hm). unfold clearbuf.
  erewrite bind_ok by (by apply cur_pcb_ok). cbv zeta.
  pose proof (clear_row (kmem s) (row_base (curTerminal b)) 128 Hm) as E.
  rewrite <-(for_loop_ext (λ i, store8 (tbuf_at (curTerminal b - 1) i) 0)) in E
    by (intros i; by rewrite tbuf_row).
  erewrite bind_ok by (apply on_mem_ok; exact E).
  rewrite (set_idx_ok s _ l _ 0 Hl). eexists. split; [done|]. split; [|done].
  eexists. split; [done|]. split; [cbn; lia|]. split; [done|]. split.
  - by apply put_bytes_dom.
  - intros a Ha. by apply put_bytes_outside.
Qed.
End line.
