(* ===== verification/KeyboardSpec.v ===== *)
(** * What the keyboard promises

    A key typed into the displayed terminal edits its line and its screen;
    what else changes of the kernel. *)

From S2P Require Import Prelude CInt Memory CString State I8259 Screen Printf Rtc FS.
From S2P Require Import ScreenSpec Process Terminal Keyboard TerminalSpec Example.

(** The bytes taken from the keyboard so far. *)
Fixpoint kb_reads (tr : list io_event) : nat :=
  match tr with
  | [] => 0
  | In p _ :: tr' => if bool_decide (p = KB_PORT) then S (kb_reads tr') else kb_reads tr'
  | _ :: tr' => kb_reads tr'
  end.

Section console.
Context `{Device} `{Layout}.

(** Terminal [t] is displayed, with the line [l] and the screen [v]. *)
Record console (s : kstate) (t : Z) (l : list Z) (v : tty) : Prop := {
  con_shown : currentTerminal (kscr s) = t;
  con_t : 1 ≤ t ≤ 3;
  con_line : line_at s t l;
  con_tty : tty_at s t v;
  con_running : is_Some (pcbs (kproc s) !! pcb (kproc s));
  con_before : is_Some (kmem s !! (row_base t - 1));
  con_apart : ∀ u, 1 ≤ u ≤ 3 →
    disjoint_range (L_tbuf - 1) 385 (term_base (kscr s) u) 4000;
}.

(** What a call of the terminal leaves, beside the processes. *)
Definition beside (s s' : kstate) : Prop :=
  kpage s' = kpage s ∧ kpages s' = kpages s ∧ kcpu s' = kcpu s ∧ whichTerm (kscr s') = whichTerm (kscr s).
Lemma beside_trans s1 s2 s3 : beside s1 s2 → beside s2 s3 → beside s1 s3.
Proof. unfold beside. intuition congruence. Qed.

(** What typing into terminal [t] leaves, [n] bytes being taken from the
    keyboard. *)
Record keyed (t : Z) (n : nat) (s s' : kstate) : Prop := {
  ky_proc : kproc s' = kproc s;
  ky_page : kpage s' = kpage s;
  ky_pages : kpages s' = kpages s;
  ky_cpu : kcpu s' = kcpu s;
  ky_rtc : krtc s' = krtc s;
  ky_block : bblock s' = bblock s;
  ky_irqs : kirqs s' = kirqs s;
  ky_if : io_if (kio s') = io_if (kio s);
  ky_reads : kb_reads (io_trace (kio s')) = (n + kb_reads (io_trace (kio s)))%nat;
  ky_map : getChar (kkbd s') = getChar (kkbd s);
  ky_shown : currentTerminal (kscr s') = currentTerminal (kscr s);
  ky_which : whichTerm (kscr s') = whichTerm (kscr s);
  ky_dom : dom (kmem s') = dom (kmem s);
  ky_mem : ∀ a, ¬ (row_base t - 1 ≤ a < row_base t + 128) → ¬ (VIDEO ≤ a < VIDEO + 4000) →
    kmem s' !! a = kmem s !! a;
  ky_ttys : ∀ u w, u ≠ t → 1 ≤ u ≤ 3 → tty_at s u w → tty_at s' u w;
  ky_lines : ∀ u k, u ≠ t → 1 ≤ u ≤ 3 → (length k < 128)%nat → line_at s u k → line_at s' u k;
}.

Lemma keyed_trans t n k s1 s2 s3 :
  keyed t n s1 s2 → keyed t k s2 s3 → keyed t (n + k) s1 s3.
Proof.
  intros [] []. split; try congruence; try lia; [|naive_solver..].
  intros a H1 H2. etrans; [by apply ky_mem1|by apply ky_mem0].
Qed.

Lemma keyed_beside t n s s' : keyed t n s s' → beside s s'.
Proof. by intros []. Qed.

(** The rows of [tbuf] are apart from the screens. *)
Lemma row_apart s t l v u k : console s t l v → 1 ≤ u ≤ 3 → 1 ≤ k ≤ 3 →
  disjoint_range (row_base k - 1) 129 (term_base (kscr s) u) 4000.
Proof.
  intros Hc Hu Hk. pose proof (con_apart _ _ _ _ Hc u Hu) as Hd.
  unfold disjoint_range, row_base, tbuf_at, BUFSIZE in *. lia.
Qed.

(** A change of neither memory, lines, processes nor cursors. *)
Definition same_console (s s' : kstate) : Prop :=
  kmem s' = kmem s ∧ kterm s' = kterm s ∧ kproc s' = kproc s ∧
  screen_x (kscr s') = screen_x (kscr s) ∧ screen_y (kscr s') = screen_y (kscr s) ∧
  currentTerminal (kscr s') = currentTerminal (kscr s).

Lemma same_base s s' u : same_console s s' → term_base (kscr s') u = term_base (kscr s) u.
Proof. intros (_ & _ & _ & _ & _ & E). unfold term_base. by rewrite E. Qed.
Lemma same_tty s s' u w : same_console s s' → tty_at s u w → tty_at s' u w.
Proof.
  intros Hs. unfold tty_at. rewrite (same_base s s' u Hs). by destruct Hs as (-> & _ & _ & -> & -> & _).
Qed.
Lemma same_line s s' u k : same_console s s' → line_at s u k → line_at s' u k.
Proof. intros (Em & Et & _). unfold line_at. by rewrite Em, Et. Qed.

Lemma console_same s s' t l v : same_console s s' → console s t l v → console s' t l v.
Proof.
  intros Hs []. pose proof Hs as (Em & _ & Ep & _ & _ & Ec). split; rewrite ?Em, ?Ec, ?Ep; try done.
  - by eapply same_line.
  - by eapply same_tty.
  - intros u Hu. rewrite (same_base s s' u Hs). auto.
Qed.

Lemma keyed_same t n s s' : same_console s s' →
  kpage s' = kpage s → kpages s' = kpages s → kcpu s' = kcpu s → krtc s' = krtc s →
  bblock s' = bblock s → kirqs s' = kirqs s → io_if (kio s') = io_if (kio s) →
  kb_reads (io_trace (kio s')) = (n + kb_reads (io_trace (kio s)))%nat →
  getChar (kkbd s') = getChar (kkbd s) → whichTerm (kscr s') = whichTerm (kscr s) → keyed t n s s'.
Proof.
  intros Hs. pose proof Hs as (Em & _ & Ep & _ & _ & Ec). intros. split; rewrite ?Em; try done.
  - intros. by eapply same_tty.
  - intros. by eapply same_line.
Qed.

(** An edit of the line, and drawing on the displayed screen. *)
Lemma console_lined s t l v l' s' : console s t l v → lined_to s t l' s' →
  console s' t l' v ∧ keyed t 0 s s'.
Proof.
  intros Hcon Hs. pose proof (λ u, row_apart s t l v u t Hcon) as Hra.
  destruct Hcon as [Hc Ht Hl Hv Hr Hb Ha]. pose proof Hs as (m' & -> & Hlen & Hbt & Hd & Ho).
  assert (∀ u, 1 ≤ u ≤ 3 → disjoint_range (row_base t) 128 (term_base (kscr s) u) 4000) as Hdis.
  { intros u Hu. specialize (Hra u Hu Ht). unfold disjoint_range in *. lia. }
  split; split; try done.
  - eapply lined_line; [lia|exact Hl|exact Hs].
  - eapply lined_tty; [by apply Hdis|exact Hs|exact Hv].
  - unfold set_line. upd_cbv. rewrite Ho by lia. done.
  - intros a H1 _. unfold set_line. upd_cbv. apply Ho. lia.
  - intros u w Hne Hu Hw. eapply lined_tty; [by apply Hdis|exact Hs|exact Hw].
  - intros u k Hne Hu Hk Hlk. eapply lined_other; [| | |exact Hs|exact Hlk]; done || lia.
Qed.

Lemma console_drawn s t l v v' s' : console s t l v → drawn_to s t v' s' → tty_ok v' →
  console s' t l v' ∧ keyed t 0 s s'.
Proof.
  intros Hcon Hs Hv'. pose proof (λ k, row_apart s t l v t k Hcon) as Hra.
  destruct Hcon as [Hc Ht Hl Hv Hr Hb Ha]. pose proof Hs as (m' & -> & Hsc & Hd & Ho).
  assert (term_base (kscr s) t = VIDEO) as Ebase
    by (unfold term_base; by rewrite bool_decide_eq_true_2).
  assert (∀ k, 1 ≤ k ≤ 3 → disjoint_range (row_base k) 128 (term_base (kscr s) t) 4000) as Hdis.
  { intros k Hk. specialize (Hra k Ht Hk). unfold disjoint_range in *. lia. }
  split; split; try done.
  - eapply drawn_line; [by apply Hdis|exact Hs|exact Hl].
  - eapply drawn_tty; [lia|exact Hv|done|exact Hs].
  - unfold draw. upd_cbv. rewrite Ho; [done|]. specialize (Hra t Ht Ht). unfold disjoint_range in Hra. lia.
  - intros a _ H2. unfold draw. upd_cbv. apply Ho. by rewrite Ebase.
  - intros u w Hne Hu Hw. by eapply (drawn_other s t).
  - intros u k Hne Hu Hk Hlk. eapply drawn_line; [by apply Hdis|exact Hs|exact Hlk].
Qed.

(** The console and the frame together. *)
Definition to_console (s : kstate) (t : Z) (n : nat) (l : list Z) (v : tty) (s' : kstate) : Prop :=
  console s' t l v ∧ keyed t n s s'.

Lemma to_console_trans s1 t n l v s2 k l' v' s3 :
  to_console s1 t n l v s2 → to_console s2 t k l' v' s3 → to_console s1 t (n + k) l' v' s3.
Proof. intros [_ H1] [H2 H3]. split; [done|by eapply keyed_trans]. Qed.

End console.

(** A step that changes none of what [same_console] names. *)
Ltac same_state :=
  split; [eapply console_same; [|eassumption]; by repeat split
         |apply keyed_same; [by repeat split|done..]].

Section handler.
Context `{Device} `{Layout}.

Lemma whatTerm_ok s : whatTerm s = Ok (currentTerminal (kscr s), s).
Proof. done. Qed.

Lemma updatecursor_ok s t l v : console s t l v →
  ∃ s', updatecursor s = Ok (tt, s') ∧ to_console s t 0 l v s' ∧ keyInt (kscr s') = keyInt (kscr s).
Proof.
  intros Hcon. pose proof Hcon as [Hc _ _ (_ & _ & Ex & Ey) _ _ _].
  unfold updatecursor. erewrite bind_ok by apply whatTerm_ok. rewrite Hc.
  erewrite bind_ok by (unfold screen_y_at, kget, mbind, K_bind, klift; by rewrite Ey).
  erewrite bind_ok by (unfold screen_x_at, kget, mbind, K_bind, klift; by rewrite Ex).
  eexists. split; [reflexivity|]. split; [|done]. same_state.
Qed.

Lemma set_keyInt_ok s t l v x : console s t l v →
  ∃ s', set_keyInt x s = Ok (tt, s') ∧ to_console s t 0 l v s' ∧ keyInt (kscr s') = x.
Proof.
  intros Hcon. eexists. split; [reflexivity|]. split; [|done]. same_state.
Qed.

Lemma send_eoi_ok s t l v : console s t l v →
  ∃ s', on_io (send_eoi KB_IR_LINE) s = Ok (tt, s') ∧ to_console s t 0 l v s' ∧
    keyInt (kscr s') = keyInt (kscr s) ∧
    outs (io_trace (kio s')) = outs (io_trace (kio s)) ++ [(MASTER_8259_PORT, u8 (Z.lor EOI KB_IR_LINE))].
Proof.
  intros Hcon. eexists. split; [reflexivity|]. split; [|split; [done|]].
  - same_state.
  - cbn [kio upd Set_kio io_trace Set_io_trace]. by rewrite outs_cons.
Qed.

(** A typed character: it enters the line while there is room, and is shown
    while it leaves room for one more. *)
Definition typed (c : Z) (l : list Z) (v : tty) : tty :=
  if decide (length l < 127)%nat then tty_putc (u8 c) v else v.

(** Up to the echo, and after it. *)
Definition after_echo : K kstate unit :=
  _ ← set_keyInt 0;
  _ ← updatecursor;
  kmod (λ s, s <| kkbd ::= (λ k, k <| back ::= (λ b, s32 (b + 1)) |>) |>).
Lemma echo_starts s t l v c : console s t l v → (length l < 127)%nat →
  ∃ s2, type_letter c s = (_ ← putc (u8 c); after_echo) s2 ∧ to_console s t 0 (line_add c l) v s2 ∧
    keyInt (kscr s2) = 1.
Proof.
  intros Hcon Hn. pose proof Hcon as [Hc _ Hl _ _ _ _]. unfold type_letter.
  destruct (insert_ok s t l (u8 c) Hc Hl) as (s1 & E1 & Hs1).
  assert (line_add (u8 c) l = line_add c l) as Eadd by (unfold line_add; by rewrite u8_u8).
  rewrite Eadd in *. pose proof (console_lined s t l v _ s1 Hcon Hs1) as Hs1'.
  erewrite bind_ok by exact E1. unfold line_add in *. rewrite decide_True in * by lia.
  rewrite bool_decide_eq_true_2 by (rewrite length_app; cbn; lia).
  destruct (set_keyInt_ok s1 t _ v 1 (proj1 Hs1')) as (s2 & E2 & Hs2 & Hk2).
  exists s2. split; [|split; [|done]].
  - erewrite bind_ok by exact E2. change (chars "%c") with [37; 99]. unfold mbind, K_bind at 1. rewrite printf_char.
    unfold mbind, K_bind, mret, K_ret. rewrite ?u8_u8. by destruct (putc (u8 c) s2) as [[[] s3]| |].
  - change 0%nat with (0 + 0)%nat. eapply to_console_trans; [exact Hs1'|exact Hs2].
Qed.
Lemma after_echo_ok s t l v : console s t l v →
  ∃ s', after_echo s = Ok (tt, s') ∧ to_console s t 0 l v s' ∧ keyInt (kscr s') = 0.
Proof.
  intros Hcon. unfold after_echo.
  destruct (set_keyInt_ok s t _ _ 0 Hcon) as (s4 & E4 & Hs4 & Hk4).
  erewrite bind_ok by exact E4.
  destruct (updatecursor_ok s4 t _ _ (proj1 Hs4)) as (s5 & E5 & Hs5 & Hk5).
  erewrite bind_ok by exact E5. eexists. split; [reflexivity|]. split; [|by rewrite Hk4 in Hk5].
  change 0%nat with (0 + (0 + 0))%nat.
  eapply to_console_trans; [exact Hs4|]. eapply to_console_trans; [exact Hs5|].
  pose proof (proj1 Hs5) as Hcon5. same_state.
Qed.

Lemma type_letter_ok s t l v c : console s t l v → keyInt (kscr s) = 0 →
  ((length l < 127)%nat → scrolls (u8 c) v → writes_to s t) →
  ∃ s', type_letter c s = Ok (tt, s') ∧ to_console s t 0 (line_add c l) (typed c l v) s' ∧
    keyInt (kscr s') = 0.
Proof.
  intros Hcon Hk Hsc. unfold typed. destruct (decide (length l < 127)%nat) as [Hn|Hn].
  - destruct (echo_starts s t l v c Hcon Hn) as (s2 & -> & Hs2 & Hk2). pose proof (proj1 Hs2) as Hcon2.
    assert (wp (putc (u8 c)) (λ _ s', drawn_to s2 t (tty_putc (u8 c) v) s') s2) as Hput.
    { apply echo_ok; try apply Hcon2; [by rewrite Hk2| |apply u8_range].
      intros Hs. destruct (Hsc Hn Hs) as (b & Hb & Hbt). exists b. by rewrite (ky_proc _ _ _ _ (proj2 Hs2)). }
    apply wp_ok in Hput as ([] & s3 & E3 & Hs3). erewrite bind_ok by exact E3.
    pose proof (console_drawn s2 t _ v _ s3 Hcon2 Hs3) as Hs3'.
    specialize (Hs3' ltac:(apply tty_putc_ok; [apply u8_range|apply (con_tty _ _ _ _ Hcon)])).
    destruct (after_echo_ok s3 t _ _ (proj1 Hs3')) as (s' & E & Hs & Hk').
    exists s'. split; [exact E|]. split; [|done]. change 0%nat with (0 + (0 + 0))%nat.
    eapply to_console_trans; [exact Hs2|]. eapply to_console_trans; [exact Hs3'|exact Hs].
  - pose proof Hcon as [Hc _ Hl _ _ _ _]. destruct (insert_ok s t l (u8 c) Hc Hl) as (s1 & E1 & Hs1).
    assert (line_add (u8 c) l = line_add c l) as Eadd by (unfold line_add; by rewrite u8_u8).
    rewrite Eadd in *. pose proof (console_lined s t l v _ s1 Hcon Hs1) as Hs1'.
    unfold type_letter. erewrite bind_ok by exact E1. unfold line_add in *.
    rewrite bool_decide_eq_false_2; [|case_decide; rewrite ?length_app; cbn; lia].
    exists s1. split; [done|]. split; [done|]. by destruct Hs1 as (m1 & -> & _).
Qed.

(** The echo that scrolls another terminal, [p]. *)
Lemma console_scrolled s t l v p w : console s t l v → p ≠ t → 1 ≤ p ≤ 3 → tty_at s p w →
  let s' := scroll_hidden s p w in
  console s' t l v ∧ tty_at s' p (w <| cells ::= tty_scroll |>) ∧
  (∀ u w', u ≠ p → 1 ≤ u ≤ 3 → tty_at s u w' → tty_at s' u w') ∧
  (∀ u k, 1 ≤ u ≤ 3 → line_at s u k → line_at s' u k) ∧ dom (kmem s') = dom (kmem s) ∧
  ∀ a, ¬ (VIDEO_TERM + VIDEO_OFFSET * p ≤ a < VIDEO_TERM + VIDEO_OFFSET * p + 4000) → kmem s' !! a = kmem s !! a.
Proof.
  intros Hcon Hne Hp Hw s'. pose proof Hw as ((Hl & Hu & Hr & Hc) & Hs & Hx & Hy).
  assert (term_base (kscr s) p = VIDEO_TERM + VIDEO_OFFSET * p) as Eb.
  { unfold term_base. rewrite (con_shown _ _ _ _ Hcon). by rewrite bool_decide_eq_false_2. }
  rewrite Eb in Hs. pose proof (tty_scroll_length _ Hl) as Hsl.
  assert (dom (kmem s') = dom (kmem s)) as Hd.
  { apply put_bytes_dom. rewrite length_cell_bytes, Hsl. apply Hs. }
  assert (∀ a, ¬ (term_base (kscr s) p ≤ a < term_base (kscr s) p + 4000) → kmem s' !! a = kmem s !! a) as Ho.
  { intros a Ha. rewrite Eb in Ha. apply put_bytes_outside. rewrite length_cell_bytes, Hsl. lia. }
  assert (∀ u w', u ≠ p → 1 ≤ u ≤ 3 → tty_at s u w' → tty_at s' u w') as Htty.
  { intros u w' Hup Hur (Hok & Hs' & Hxy). split; [done|]. split; [|done].
    change (term_base (kscr s') u) with (term_base (kscr s) u).
    eapply screen_at_agree; [exact Hd| |exact Hs']. intros a Ha. apply Ho.
    pose proof (term_base_disjoint (kscr s) p u) as Hdis. unfold disjoint_range in Hdis. lia. }
  assert (∀ u k, 1 ≤ u ≤ 3 → line_at s u k → line_at s' u k) as Hline.
  { intros u k Hur (Hi & Hlen & Hb & Hm). split; [done|]. split; [done|]. split; [|by eapply mapped_dom].
    eapply bytes_at_agree; [|exact Hb]. intros x Hx'. apply Ho.
    pose proof (row_apart s t l v p u Hcon Hp Hur) as Hra. unfold disjoint_range in Hra. lia. }
  pose proof Hcon as [K1 K2 K3 K4 K5 K6 K7]. split; [|split; [|split; [done|split; [done|split; [done|by rewrite <-Eb]]]]].
  - split; try done; [by apply Hline|by apply Htty|]. rewrite Ho; [done|].
    pose proof (row_apart s t l v p t Hcon Hp K2) as Hra. unfold disjoint_range in Hra. lia.
  - split; [split; [exact Hsl|]; split; [by apply tty_scroll_u8|done]|]. split; [|done].
    change (term_base (kscr s') p) with (term_base (kscr s) p). rewrite Eb. apply put_cells_screen; [done|apply Hs].
Qed.

Lemma type_letter_scrolls s t l v c b p w : console s t l v → (length l < 127)%nat → scrolls (u8 c) v →
  pcbs (kproc s) !! pcb (kproc s) = Some b → curTerminal b = p → p ≠ t → 1 ≤ p ≤ 3 → tty_at s p w →
  ∃ sA s', type_letter c s = Ok (tt, s') ∧
    to_console s t 0 (line_add c l) (echo_unscrolled (u8 c) v) sA ∧
    to_console (scroll_hidden sA p w) t 0 (line_add c l) (echo_unscrolled (u8 c) v) s' ∧ keyInt (kscr s') = 0.
Proof.
  intros Hcon Hn Hsc Hb Hbt Hne Hp Hw.
  destruct (echo_starts s t l v c Hcon Hn) as (s2 & -> & Hs2 & Hk2). pose proof (proj1 Hs2) as Hcon2.
  assert (tty_at s2 p w) as Hw2 by (apply (ky_ttys _ _ _ _ (proj2 Hs2)); done).
  assert (pcbs (kproc s2) !! pcb (kproc s2) = Some b) as Hb2 by (by rewrite (ky_proc _ _ _ _ (proj2 Hs2))).
  destruct (echo_elsewhere s2 b t p w Hb2 Hbt Hp (con_shown _ _ _ _ Hcon2) (con_t _ _ _ _ Hcon2) Hne Hw2 v (u8 c))
    as (sA & HA & E3); [by rewrite Hk2|apply u8_range|done|apply Hcon2|]. erewrite bind_ok by exact E3.
  pose proof (console_drawn s2 t _ v _ sA Hcon2 HA) as HA'.
  assert (tty_ok (echo_unscrolled (u8 c) v)) as Hok.
  { destruct (con_tty _ _ _ _ Hcon) as ((Hl & Hu & _ & _) & _). unfold echo_unscrolled.
    pose proof (u8_range c) as Hu8. unfold tty_ok. cbn [cells row col].
    case_bool_decide; (split; [by rewrite ?length_insert|]); (split; [by (try apply Forall_insert)|lia]). }
  specialize (HA' Hok).
  destruct (console_scrolled sA t _ _ p w (proj1 HA') Hne Hp) as (HB & _).
  { apply (ky_ttys _ _ _ _ (proj2 HA')); done. }
  destruct (after_echo_ok _ t _ _ HB) as (s' & E & Hs & Hk').
  exists sA, s'. split; [exact E|]. split; [|done]. change 0%nat with (0 + 0)%nat.
  eapply to_console_trans; [exact Hs2|exact HA'].
Qed.

(** ** The handler *)

(** The byte the keyboard has. *)
Definition next_code (s : kstate) : Z := u8 (dev_in (io_trace (kio s)) KB_PORT).

(** The key map in use: a letter for each scan code below 128, and whether
    caps lock is on at the entry of its key. *)
Definition map_ok (tbl : list Z) : Prop :=
  length tbl = 128%nat ∧ Forall is_u8 tbl ∧ zlookup tbl BKSP ≠ Some 255.

(** The character of a key that is not special. *)
Definition plain (tbl : list Z) (code : Z) : option Z :=
  letter ← zlookup tbl code; caps ← zlookup tbl CAPS;
  if decide (letter = 255 ∨ letter = LSHFT ∨ letter = RSHFT ∨
             code = CAPS ∨ code = CNTRL ∨ code = ALT ∨ code = BKSP) then None
  else if decide (caps ≠ 0 ∧ LOWERLET < letter < UPPERLET) then Some (letter - CAPCHANGE)
  else Some letter.

(** What a key does to the line and the screen; keys that do something else
    have no result here. *)
Definition press (tbl : list Z) (code : Z) (c : list Z * tty) : option (list Z * tty) :=
  let '(l, v) := c in
  if decide (code = BKSP) then
    Some (match l with [] => (l, v) | _ => (removelast l, tty_backspace v) end)
  else ch ← plain tbl code; Some (line_add ch l, typed ch l v).

Lemma inb_ok s t l v : console s t l v →
  ∃ s', on_io (inb KB_PORT) s = Ok (next_code s, s') ∧ to_console s t 1 l v s' ∧
    keyInt (kscr s') = keyInt (kscr s) ∧ outs (io_trace (kio s')) = outs (io_trace (kio s)).
Proof.
  intros Hcon. eexists. split; [reflexivity|]. split; [same_state|]. split; [done|].
  cbn [kio upd Set_kio io_trace Set_io_trace]. by rewrite outs_cons, app_nil_r.
Qed.

Lemma scan2Let_ok s code letter : zlookup (getChar (kkbd s)) code = Some letter → is_u8 letter →
  scan2Let code s = Ok (letter, s).
Proof.
  intros E Hu. unfold scan2Let, kget, mbind, K_bind, mret, K_ret. rewrite E. cbn [default]. 
  by rewrite u8_id.
Qed.

(** Erasing. *)
Lemma erase_ok s t l v : console s t l v → keyInt (kscr s) = 0 →
  ∃ s', (i ← backspacebuf;
         if bool_decide (i > -1) then _ ← backspace; updatecursor else mret tt) s = Ok (tt, s') ∧
    to_console s t 0 (match l with [] => l | _ => removelast l end)
      (match l with [] => v | _ => tty_backspace v end) s' ∧ keyInt (kscr s') = 0.
Proof.
  intros Hcon Hk. pose proof Hcon as [Hc Ht Hl Hv Hr Hb Ha].
  destruct l as [|c l _] using rev_ind.
  - pose proof (backspacebuf_empty s t Hc Hl Hb) as E. erewrite bind_ok by exact E.
    rewrite bool_decide_eq_false_2 by lia. eexists. split; [reflexivity|]. split; [|done].
    set (s1 := s <| kmem ::= _ |>).
    assert (∀ a, a ≠ row_base t - 1 → kmem s1 !! a = kmem s !! a) as Hm
      by (intros a Ha1; unfold s1; upd_cbv; by rewrite lookup_insert_ne).
    assert (dom (kmem s1) = dom (kmem s)) as Hdom.
    { unfold s1. upd_cbv. by apply dom_insert_mapped. }
    assert (∀ u w, 1 ≤ u ≤ 3 → tty_at s u w → tty_at s1 u w) as Htty.
    { intros u w Hu (Hw & Hs & Hx & Hy). split; [done|]. split; [|done].
      eapply screen_at_agree; [exact Hdom| |exact Hs]. intros a Ha1. apply Hm.
      pose proof (row_apart s t _ _ u t Hcon Hu Ht) as Hd. unfold disjoint_range in Hd.
      change (term_base (kscr s1) u) with (term_base (kscr s) u) in Ha1. lia. }
    assert (∀ u k, (length k < 128)%nat ∨ u = t → line_at s u k → line_at s1 u k) as Hline.
    { intros u k Hk1 (Hi & Hlen & Hbt & Hmp). split; [done|]. split; [done|].
      split; [|by eapply mapped_dom]. eapply bytes_at_agree; [|exact Hbt]. intros x Hx. apply Hm.
      unfold row_base, tbuf_at, BUFSIZE in *. destruct Hk1 as [Hk1|Hk1]; [|subst u]; lia. }
    split; split; try done.
    + apply Hline; [by right|done].
    + by apply Htty.
    + unfold s1. upd_cbv. by rewrite lookup_insert_eq.
    + intros a H1 _. apply Hm. lia.
    + intros u w _ Hu. by apply Htty.
    + intros u k _ Hu Hlen. apply Hline. by left.
  - rewrite removelast_last. replace (match l ++ [c] with [] => l ++ [c] | _ => l end) with l
      by (by destruct l).
    replace (match l ++ [c] with [] => v | _ => tty_backspace v end) with (tty_backspace v)
      by (by destruct l).
    destruct (backspacebuf_ok s t l c Hc Hl) as (s1 & E1 & Hs1).
    pose proof (console_lined s t _ v l s1 Hcon Hs1) as Hs1'.
    assert (keyInt (kscr s1) = 0) as Hk1 by (destruct Hs1 as (m1 & -> & _); exact Hk).
    erewrite bind_ok by exact E1. rewrite bool_decide_eq_true_2 by lia.
    pose proof (backspace_ok s1 t ltac:(lia) (con_shown _ _ _ _ (proj1 Hs1')) v
      (con_tty _ _ _ _ (proj1 Hs1'))) as W.
    apply wp_ok in W as ([] & s2 & E2 & Hs2).
    pose proof (console_drawn s1 t l v _ s2 (proj1 Hs1') Hs2
      (tty_backspace_ok _ (proj1 Hv))) as Hs2'.
    assert (keyInt (kscr s2) = 0) as Hk2 by (destruct Hs2 as (m2 & -> & _); exact Hk1).
    destruct (updatecursor_ok s2 t _ _ (proj1 Hs2')) as (s3 & E3 & Hs3 & Hk3).
    exists s3. split.
    { erewrite bind_ok by exact E2. exact E3. }
    split; [|congruence]. change 0%nat with (0 + (0 + 0))%nat.
    eapply to_console_trans; [exact Hs1'|]. eapply to_console_trans; [exact Hs2'|exact Hs3].
Qed.

(** A key that is not special types its character. *)
Lemma plain_key_types busy polls s code letter c :
  map_ok (getChar (kkbd s)) → zlookup (getChar (kkbd s)) code = Some letter →
  plain (getChar (kkbd s)) code = Some c → plain_key busy polls code letter s = type_letter c s.
Proof.
  intros (Hlen & Hu & _) El Ep. unfold plain_key.
  assert (is_Some (zlookup (getChar (kkbd s)) CAPS)) as [caps Ecaps]
    by (apply zlookup_is_Some; unfold CAPS; lia).
  assert (∀ i x, zlookup (getChar (kkbd s)) i = Some x → is_u8 x) as Hux.
  { intros i x [_ Hx]%zlookup_Some. by eapply Forall_lookup_1 in Hx. }
  erewrite bind_ok by (apply scan2Let_ok; eauto).
  unfold plain in Ep. rewrite El, Ecaps in Ep. cbn [mbind option_bind] in Ep.
  destruct (decide (letter = 255 ∨ _)) as [|Hns]; [done|].
  rewrite (bool_decide_eq_false_2 (letter = LSHFT)), (bool_decide_eq_false_2 (letter = RSHFT)) by tauto.
  destruct (decide (caps = 0)) as [->|Hcaps].
  - rewrite decide_False in Ep by tauto. by injection Ep as <-.
  - rewrite bool_decide_eq_false_2 by done.
    destruct (decide (LOWERLET < letter < UPPERLET)) as [Hlow|Hlow].
    + rewrite decide_True in Ep by tauto. injection Ep as <-.
      by rewrite !bool_decide_eq_true_2 by lia.
    + rewrite decide_False in Ep by tauto. injection Ep as <-.
      replace (bool_decide (letter > LOWERLET) && bool_decide (letter < UPPERLET)) with false; [done|].
      symmetry. apply andb_false_iff. rewrite !bool_decide_eq_false. lia.
Qed.

(** The handler, after the byte is read, for a key that is not special and
    for backspace. *)
Lemma plain_special tbl code c : plain tbl code = Some c →
  ∃ letter, zlookup tbl code = Some letter ∧ letter ≠ 255 ∧ code ≠ CAPS ∧ code ≠ CNTRL ∧ code ≠ ALT ∧ code ≠ BKSP.
Proof.
  unfold plain. destruct (zlookup tbl code) as [x|]; [|done]. destruct (zlookup tbl CAPS); [|done].
  cbn [mbind option_bind]. case_decide as Hx; [done|]. intros _. exists x. tauto.
Qed.
Definition acknowledged (c : K kstate unit) : K kstate ctl :=
  _ ← c; _ ← on_io (send_eoi KB_IR_LINE); mret (Return 0).
Lemma handler_types busy polls s s1 t l v c : on_io (inb KB_PORT) s = Ok (next_code s, s1) →
  to_console s t 1 l v s1 → map_ok (getChar (kkbd s)) → plain (getChar (kkbd s)) (next_code s) = Some c →
  keyboard_handler busy polls s = acknowledged (type_letter c) s1.
Proof.
  intros E1 Hs1 Hmap Ep. pose proof Hmap as (Hlen & Hu & Hbk). pose proof (ky_map _ _ _ _ (proj2 Hs1)) as Emap.
  destruct (plain_special _ _ _ Ep) as (letter & El & Hl255 & Hcaps & Hcntrl & Halt & Hb).
  assert (0 ≤ next_code s < 128) as Hcode.
  { assert (is_Some (zlookup (getChar (kkbd s)) (next_code s))) as Hr%zlookup_is_Some by (by rewrite El). lia. }
  unfold keyboard_handler. erewrite bind_ok by exact E1.
  erewrite bind_ok.
  2:{ apply scan2Let_ok; [by rewrite Emap|]. apply zlookup_Some in El as [_ El]. by eapply Forall_lookup_1 in El. }
  rewrite (bool_decide_eq_false_2 (letter = 0xFF)), !(bool_decide_eq_false_2 (next_code s = CAPS)),
    (bool_decide_eq_false_2 (next_code s = CNTRL)), (bool_decide_eq_false_2 (next_code s = ALT)),
    (bool_decide_eq_false_2 (next_code s = BKSP)) by done.
  cbn [andb]. assert (Z.shiftr (next_code s) 7 = 0) as ->.
  { rewrite Z.shiftr_div_pow2 by lia. by apply Z.div_small. }
  change (bool_decide (Z.land 0 MAKE = 0)) with true. cbv iota. unfold acknowledged.
  unfold mbind, K_bind. rewrite (plain_key_types busy polls s1 _ letter c) by (by rewrite Emap).
  by destruct (type_letter c s1) as [[[] ?]| |].
Qed.

(** A key whose echo scrolls the screen scrolls that of the running process,
    so the process has to be the terminal's own. *)
Definition echo_safe (s : kstate) (t : Z) (l : list Z) (v : tty) : Prop :=
  ∀ c, plain (getChar (kkbd s)) (next_code s) = Some c → (length l < 127)%nat →
    scrolls (u8 c) v → writes_to s t.

Lemma acknowledged_ok s t n l v c s1 l' v' :
  to_console s t n l v s1 → (∃ s2, c s1 = Ok (tt, s2) ∧ to_console s1 t 0 l' v' s2 ∧ keyInt (kscr s2) = 0) →
  ∃ s', acknowledged c s1 = Ok (Return 0, s') ∧ to_console s t n l' v' s' ∧ keyInt (kscr s') = 0 ∧
    ∃ o, outs (io_trace (kio s')) = o ++ [(MASTER_8259_PORT, u8 (Z.lor EOI KB_IR_LINE))].
Proof.
  intros Hs1 (s2 & E2 & Hs2 & Hk2). unfold acknowledged. erewrite bind_ok by exact E2.
  destruct (send_eoi_ok s2 t l' v' (proj1 Hs2)) as (s3 & E3 & Hs3 & Hk3 & Ho).
  exists s3. erewrite bind_ok by exact E3. split; [done|]. split; [|split; [congruence|by eexists]].
  replace n with (n + (0 + 0))%nat by lia. eapply to_console_trans; [exact Hs1|].
  eapply to_console_trans; [exact Hs2|exact Hs3].
Qed.
Lemma handler_erases busy polls s s1 t l v : on_io (inb KB_PORT) s = Ok (next_code s, s1) →
  to_console s t 1 l v s1 → map_ok (getChar (kkbd s)) → next_code s = BKSP →
  ∃ c, keyboard_handler busy polls s = acknowledged c s1 ∧
    c s1 = (i ← backspacebuf; if bool_decide (i > -1) then _ ← backspace; updatecursor else mret tt) s1.
Proof.
  intros E1 Hs1 (Hlen & Hu & Hbk) Hb. pose proof (ky_map _ _ _ _ (proj2 Hs1)) as Emap.
  assert (is_Some (zlookup (getChar (kkbd s)) BKSP)) as [letter El] by (apply zlookup_is_Some; unfold BKSP; lia).
  eexists. split; [|reflexivity]. unfold keyboard_handler. erewrite bind_ok by exact E1. rewrite Hb.
  erewrite bind_ok.
  2:{ apply scan2Let_ok; [by rewrite Emap|]. apply zlookup_Some in El as [_ El']. by eapply Forall_lookup_1 in El'. }
  rewrite (bool_decide_eq_false_2 (letter = 0xFF)) by (intros ->; by apply Hbk).
  rewrite !(bool_decide_eq_false_2 (BKSP = CAPS)), (bool_decide_eq_false_2 (BKSP = CNTRL)),
    (bool_decide_eq_false_2 (BKSP = ALT)), (bool_decide_eq_true_2 (BKSP = BKSP)) by done.
  cbn [andb]. unfold acknowledged, mbind, K_bind. destruct (backspacebuf s1) as [[i s2]| |]; [|done..].
  destruct (bool_decide (i > -1)); [|done]. destruct (backspace s2) as [[[] s3]| |]; [|done..].
  by destruct (updatecursor s3) as [[[] s4]| |].
Qed.

Lemma keyboard_handler_ok busy polls s t l v l' v' :
  console s t l v → keyInt (kscr s) = 0 → map_ok (getChar (kkbd s)) →
  press (getChar (kkbd s)) (next_code s) (l, v) = Some (l', v') → echo_safe s t l v →
  ∃ s', keyboard_handler busy polls s = Ok (Return 0, s') ∧ to_console s t 1 l' v' s' ∧
    keyInt (kscr s') = 0 ∧
    ∃ o, outs (io_trace (kio s')) = o ++ [(MASTER_8259_PORT, u8 (Z.lor EOI KB_IR_LINE))].
Proof.
  intros Hcon Hk Hmap Hpress Hsafe. destruct (inb_ok s t l v Hcon) as (s1 & E1 & Hs1 & Hk1 & _).
  unfold press in Hpress. destruct (decide (next_code s = BKSP)) as [Hb|Hb].
  - destruct (handler_erases busy polls s s1 t l v E1 Hs1 Hmap Hb) as (c & -> & Ec).
    apply (acknowledged_ok s t 1 l v c s1); [exact Hs1|]. rewrite Ec.
    destruct (erase_ok s1 t l v (proj1 Hs1) ltac:(congruence)) as (s2 & E2 & Hs2 & Hk2).
    exists s2. split; [exact E2|]. split; [|done]. destruct l; by simplify_eq.
  - destruct (plain (getChar (kkbd s)) (next_code s)) as [c|] eqn:Ep; [|done]. injection Hpress as <- <-.
    rewrite (handler_types busy polls s s1 t l v c) by done.
    apply (acknowledged_ok s t 1 l v _ s1); [exact Hs1|].
    apply type_letter_ok; [apply Hs1|congruence|]. intros Hn Hsc. destruct (Hsafe c Ep Hn Hsc) as (b & Hbr & Hbt).
    exists b. by rewrite (ky_proc _ _ _ _ (proj2 Hs1)).
Qed.
End handler.

(** The same key while a process of another terminal [p] runs, if its echo
    scrolls. *)
Record echoed_elsewhere `{Layout} (s : kstate) (t p : Z) (w : tty) (s' : kstate) : Prop := {
  eo_other : tty_at s' p (w <| cells ::= tty_scroll |>);
  eo_third : ∀ u w', u ≠ t → u ≠ p → 1 ≤ u ≤ 3 → tty_at s u w' → tty_at s' u w';
  eo_lines : ∀ u k, u ≠ t → 1 ≤ u ≤ 3 → (length k < 128)%nat → line_at s u k → line_at s' u k;
  eo_proc : kproc s' = kproc s;
  eo_beside : beside s s';
  eo_shown : currentTerminal (kscr s') = currentTerminal (kscr s);
  eo_mem : ∀ a, ¬ (row_base t - 1 ≤ a < row_base t + 128) → ¬ (VIDEO ≤ a < VIDEO + 4000) →
    ¬ (VIDEO_TERM + VIDEO_OFFSET * p ≤ a < VIDEO_TERM + VIDEO_OFFSET * p + 4000) → kmem s' !! a = kmem s !! a;
}.
Lemma keyboard_scrolls_other `{Device} `{Layout} busy polls s t l v c b p w :
  console s t l v → keyInt (kscr s) = 0 → map_ok (getChar (kkbd s)) →
  plain (getChar (kkbd s)) (next_code s) = Some c → (length l < 127)%nat → scrolls (u8 c) v →
  pcbs (kproc s) !! pcb (kproc s) = Some b → curTerminal b = p → p ≠ t → 1 ≤ p ≤ 3 → tty_at s p w →
  ∃ s', keyboard_handler busy polls s = Ok (Return 0, s') ∧ line_at s' t (line_add c l) ∧
    tty_at s' t (echo_unscrolled (u8 c) v) ∧ echoed_elsewhere s t p w s' ∧
    ∃ o, outs (io_trace (kio s')) = o ++ [(MASTER_8259_PORT, u8 (Z.lor EOI KB_IR_LINE))].
Proof.
  intros Hcon Hk Hmap Ep Hn Hsc Hb Hbt Hne Hp Hw. destruct (inb_ok s t l v Hcon) as (s1 & E1 & Hs1 & Hk1 & _).
  rewrite (handler_types busy polls s s1 t l v c E1 Hs1 Hmap Ep). pose proof (proj2 Hs1) as Hky1.
  destruct (type_letter_scrolls s1 t l v c b p w (proj1 Hs1) Hn Hsc) as (sA & s2 & E2 & HA & HB & Hk2); try done.
  { by rewrite (ky_proc _ _ _ _ Hky1). }
  { by apply (ky_ttys _ _ _ _ Hky1). }
  assert (tty_at sA p w) as HwA by (apply (ky_ttys _ _ _ _ (proj2 HA)); try done; by apply (ky_ttys _ _ _ _ Hky1)).
  destruct (console_scrolled sA t _ _ p w (proj1 HA) Hne Hp HwA) as (HcB & HpB & HtB & HlB & _ & HmB).
  destruct (acknowledged_ok (scroll_hidden sA p w) t 0 (line_add c l) (echo_unscrolled (u8 c) v) (mret tt : K kstate unit) s2
    (line_add c l) (echo_unscrolled (u8 c) v) HB) as (s' & E3 & [Hc' Hk'] & _ & Ho).
  { exists s2. split; [done|]. split; [|done]. split; [apply HB|]. by apply keyed_same. }
  exists s'. unfold acknowledged in *. erewrite bind_ok by exact E2. erewrite bind_ok in E3 by reflexivity.
  split; [exact E3|]. split; [apply Hc'|]. split; [apply Hc'|]. split; [|exact Ho].
  pose proof (proj2 (to_console_trans _ _ _ _ _ _ _ _ _ _ Hs1 HA)) as HkA. cbn [Nat.add] in HkA.
  split.
  - apply (ky_ttys _ _ _ _ Hk'); done.
  - intros u w' H1 H2 H3 Hu. apply (ky_ttys _ _ _ _ Hk'); try done. apply HtB; try done. by apply (ky_ttys _ _ _ _ HkA).
  - intros u k H1 H2 H3 Hu. apply (ky_lines _ _ _ _ Hk'); try done. apply HlB; try done. by apply (ky_lines _ _ _ _ HkA).
  - rewrite (ky_proc _ _ _ _ Hk'). exact (ky_proc _ _ _ _ HkA).
  - eapply beside_trans; [exact (keyed_beside _ _ _ _ HkA)|exact (keyed_beside _ _ _ _ Hk')].
  - rewrite (ky_shown _ _ _ _ Hk'). exact (ky_shown _ _ _ _ HkA).
  - intros a H1 H2 H3. rewrite (ky_mem _ _ _ _ Hk'), HmB by done. by apply (ky_mem _ _ _ _ HkA).
Qed.

(** C13: a key pressed while terminal [t] is displayed edits the line of [t]
    as [press] says: an ordinary key adds its letter (in upper case under caps
    lock) if there is room, backspace erases the last character; and the
    interrupt is acknowledged. Unless the echo scrolls the screen while a
    process of another terminal runs, the screen of [t] follows: the letter is
    shown at the cursor, or the last one erased; the screens of the other
    terminals, their lines of fewer than 128 characters, the processes and
    memory stay as they were, but for the row of [t], the byte before it (which
    backspace on an empty line clears: the last of a full row of the terminal
    before) and the display. If it does, the letter is shown and the
    cursor goes to the start of the last line, and the screen of the process's
    terminal scrolls in place of the displayed one; the rest stays as well. *)
Theorem keyboard_edits_line `{Device} `{Layout} busy polls s t l v l' v' :
  console s t l v → keyInt (kscr s) = 0 → map_ok (getChar (kkbd s)) →
  press (getChar (kkbd s)) (next_code s) (l, v) = Some (l', v') →
  (echo_safe s t l v →
   ∃ s', keyboard_handler busy polls s = Ok (Return 0, s') ∧ line_at s' t l' ∧ tty_at s' t v' ∧
    keyed t 1 s s' ∧
    ∃ o, outs (io_trace (kio s')) = o ++ [(MASTER_8259_PORT, u8 (Z.lor EOI KB_IR_LINE))]) ∧
  (∀ c b w, plain (getChar (kkbd s)) (next_code s) = Some c → (length l < 127)%nat → scrolls (u8 c) v →
   pcbs (kproc s) !! pcb (kproc s) = Some b → curTerminal b ≠ t → 1 ≤ curTerminal b ≤ 3 →
   tty_at s (curTerminal b) w →
   ∃ s', keyboard_handler busy polls s = Ok (Return 0, s') ∧ line_at s' t l' ∧
    tty_at s' t (echo_unscrolled (u8 c) v) ∧ echoed_elsewhere s t (curTerminal b) w s' ∧
    ∃ o, outs (io_trace (kio s')) = o ++ [(MASTER_8259_PORT, u8 (Z.lor EOI KB_IR_LINE))]).
Proof.
  intros Hcon Hk Hmap Hp. split.
  - intros Hs. destruct (keyboard_handler_ok busy polls s t l v l' v' Hcon Hk Hmap Hp Hs)
      as (s' & E & [[] Hky] & _ & Ho). by exists s'.
  - intros c b w Ep Hn Hsc Hb Hne Hpr Hw. unfold press in Hp.
    destruct (plain_special _ _ _ Ep) as (_ & _ & _ & _ & _ & _ & Hnb).
    rewrite decide_False, Ep in Hp by done. injection Hp as <- _.
    by apply (keyboard_scrolls_other busy polls s t l v c b).
Qed.

(** The kernel after "l", "s" were typed; the key of "a" is pressed. *)
Definition ex_typed : kstate :=
  (((ex_state 1) <| kmem ::= (λ m, put_bytes m 0x500500 (chars "ls")) |>)
    <| kterm ::= (λ k, k <| idx := [2; 0; 0] |>) |>)
    <| kscr ::= (λ c, (c <| screen_x := [79; 0; 0] |>) <| screen_y := [24; 0; 0] |>) |>.
Definition ex_blank : tty := Mk_tty (replicate 2000 32) 24 79.
Lemma ex_console : console ex_typed 1 (chars "ls") ex_blank.
Proof.
  split; [reflexivity|lia| | |exists (ex_pcb 1 0 (-1) (-1)); vm_compute; reflexivity|
    exists 0; vm_compute; reflexivity|].
  - split; [reflexivity|]. split; [cbn; lia|]. split; [apply bytes_atb_spec; vm_compute; reflexivity|decide_it].
  - split; [decide_it|]. split; [|split; reflexivity]. apply (ex_screens ex_typed 1); [lia|reflexivity|].
    intros a Ha. apply (put_bytes_outside ex_mem 0x500500 (chars "ls")). unfold VIDEO, VIDEO_TERM in Ha.
    cbn [chars length]. lia.
  - intros u Hu. assert (u = 1 ∨ u = 2 ∨ u = 3) as [-> |[-> | ->]] by lia; decide_it.
Qed.
Lemma ex_map_ok : map_ok getChar_init.
Proof. split; [reflexivity|]. split; [decide_it|by vm_compute]. Qed.
(** The same kernel while the process belongs to the second terminal. *)
Definition ex_typed_elsewhere : kstate :=
  ex_typed <| kproc ::= λ k, k <| pcbs ::= <[PCB_ADDR 0 := ex_pcb 2 0 (-1) (-1)]> |> |>.
Lemma console_running `{Layout} s f t l v : console s t l v →
  is_Some (pcbs (f (kproc s)) !! pcb (f (kproc s))) → console (s <| kproc ::= f |>) t l v.
Proof. intros [] Hr. by split. Qed.
Lemma tty_running s f t v : tty_at s t v → tty_at (s <| kproc ::= f |>) t v.
Proof. done. Qed.
Lemma ex_console_elsewhere : console ex_typed_elsewhere 1 (chars "ls") ex_blank.
Proof. apply console_running; [exact ex_console|]. exists (ex_pcb 2 0 (-1) (-1)). vm_compute. reflexivity. Qed.
Lemma ex_second_shown : tty_at ex_typed_elsewhere 2 (ex_shown 2).
Proof.
  apply tty_running. split; [decide_it|]. split; [|split; reflexivity]. apply (ex_screens ex_typed 2); [lia|reflexivity|].
  intros a Ha. apply (put_bytes_outside ex_mem 0x500500 (chars "ls")). unfold VIDEO, VIDEO_TERM in Ha.
  cbn [chars length]. lia.
Qed.
Lemma keyboard_edits_line_witness :
  let d := ex_device 0x1E in
  (∃ s', @keyboard_handler d ex_layout 0 0 ex_typed = Ok (Return 0, s') ∧
    line_at s' 1 (chars "lsa") ∧ tty_at s' 1 (tty_putc 97 ex_blank) ∧ keyed 1 1 ex_typed s' ∧
    ∃ o, outs (io_trace (kio s')) = o ++ [(MASTER_8259_PORT, u8 (Z.lor EOI KB_IR_LINE))]) ∧
  ∃ s', @keyboard_handler d ex_layout 0 0 ex_typed_elsewhere = Ok (Return 0, s') ∧
    line_at s' 1 (chars "lsa") ∧ tty_at s' 1 (echo_unscrolled 97 ex_blank) ∧
    echoed_elsewhere ex_typed_elsewhere 1 2 (ex_shown 2) s'.
Proof.
  intros d. split.
  - destruct (@keyboard_edits_line d ex_layout 0 0 ex_typed 1 (chars "ls") ex_blank (chars "lsa") (tty_putc 97 ex_blank)
      ex_console eq_refl ex_map_ok ltac:(vm_compute; reflexivity)) as [Hs _].
    apply Hs. intros c _ _ _. exists (ex_pcb 1 0 (-1) (-1)). split; [vm_compute; reflexivity|]. split; [reflexivity|lia].
  - destruct (@keyboard_edits_line d ex_layout 0 0 ex_typed_elsewhere 1 (chars "ls") ex_blank (chars "lsa") (tty_putc 97 ex_blank)
      ex_console_elsewhere eq_refl ex_map_ok ltac:(vm_compute; reflexivity)) as [_ Hs].
    destruct (Hs 97 (ex_pcb 2 0 (-1) (-1)) (ex_shown 2)) as (s' & E & Hl & Ht & Ho & _).
    + vm_compute. reflexivity.
    + cbn. lia.
    + split; [reflexivity|right; right; reflexivity].
    + vm_compute. reflexivity.
    + done.
    + cbn. lia.
    + exact ex_second_shown.
    + exists s'. split; [exact E|]. split; [exact Hl|]. split; [exact Ht|exact Ho].
Defined.
