(* ===== verification/FrameSpec.v ===== *)
(** * What a system call leaves alone

    The calls of a running program change its files and nothing else of the
    process table, and neither the address spaces nor the kernel stack: the
    kernel's invariant is kept. *)

From S2P Require Import Prelude CInt Memory CString State Screen Paging PagingInit.
From S2P Require Import Translate FS Process Views ProcTable ProcessSpec KeyboardSpec.

(** Two blocks that differ in the files at most. *)
Definition same_block (b b' : pcb_t) : Prop :=
  length (file_array b') = length (file_array b) ∧ b' <| file_array := file_array b |> = b.
#[global] Instance same_block_equiv : Equivalence same_block.
Proof.
  split.
  - intros []. done.
  - intros b b' [Hl E]. split; [done|]. rewrite <-E. by destruct b'.
  - intros b1 b2 b3 [H1 E1] [H2 E2]. split; [congruence|]. rewrite <-E1, <-E2. by destruct b3.
Qed.

(** Two process tables with such blocks. *)
Definition same_procs (k k' : proc_t) : Prop :=
  k' <| pcbs := pcbs k |> = k ∧ ∀ a, option_Forall2 same_block (pcbs k !! a) (pcbs k' !! a).
#[global] Instance same_procs_equiv : Equivalence same_procs.
Proof.
  split.
  - intros k. split; [by destruct k|]. intros a. reflexivity.
  - intros k k' [E H]. split; [rewrite <-E; by destruct k'|]. intros a. symmetry. apply H.
  - intros k1 k2 k3 [E1 H1] [E2 H2]. split; [rewrite <-E1, <-E2; by destruct k3|].
    intros a. etrans; [apply H1|apply H2].
Qed.

Lemma same_procs_insert k a b b' : pcbs k !! a = Some b → same_block b b' →
  same_procs k (k <| pcbs ::= <[a := b']> |>).
Proof.
  intros Ha Hb. split; [by destruct k|]. intros x. change (pcbs (k <| pcbs ::= _ |>)) with (<[a := b']> (pcbs k)).
  destruct (decide (a = x)) as [<-|Hx]; [rewrite Ha, lookup_insert_eq; by constructor|by rewrite lookup_insert_ne].
Qed.

Record same_frame (s s' : kstate) : Prop := {
  sf_page : kpage s' = kpage s;
  sf_pages : kpages s' = kpages s;
  sf_which : whichTerm (kscr s') = whichTerm (kscr s);
  sf_esp0 : tss_esp0 (kcpu s') = tss_esp0 (kcpu s);
  sf_procs : same_procs (kproc s) (kproc s');
}.
#[global] Instance same_frame_equiv : Equivalence same_frame.
Proof.
  split.
  - intros s. by split.
  - intros s s' []. by split.
  - intros s1 s2 s3 [] []. split; (congruence || by etrans).
Qed.

Lemma beside_frame s s' : beside s s' → kproc s' = kproc s → same_frame s s'.
Proof. intros (E1 & E2 & E3 & E4) E5. split; [done|done|done|by rewrite E3|by rewrite E5]. Qed.

(** ** The invariant *)
Section frame.
Context `{Layout}.

Lemma same_block_fields b b' : same_block b b' → pid b' = pid b ∧ parent_pid b' = parent_pid b ∧
  child_pid b' = child_pid b ∧ parent_esp b' = parent_esp b ∧ parent_ebp b' = parent_ebp b ∧
  curTerminal b' = curTerminal b.
Proof using Type. intros [_ <-]. by destruct b'. Qed.

Lemma used_same k k' j b : same_procs k k' → used k j b → ∃ b', used k' j b' ∧ same_block b b'.
Proof using Type.
  intros [E Hb] (Hj & Hbit & Hl). specialize (Hb (PCB_ADDR j)). rewrite Hl in Hb.
  inversion Hb as [? b' Hs E1 E2|]; simplify_eq. exists b'. split; [|done]. split; [done|]. split; [|done].
  rewrite <-Hbit, <-E. by destruct k'.
Qed.

Lemma table_same k k' dirs : same_procs k k' → table_ok k dirs → table_ok k' dirs.
Proof using Type.
  intros Hs [Hbits Hblocks Hpid Hdir Hpar Hch]. assert (same_procs k' k) as Hs' by (by symmetry).
  assert (∀ j b', used k' j b' → ∃ b, used k j b ∧ same_block b b') as Hback.
  { intros j b' Hu. destruct (used_same _ _ _ _ Hs' Hu) as (b & Hu' & Hb). exists b. split; [done|by symmetry]. }
  split.
  - destruct Hs as [<- _] in Hbits. by destruct k'.
  - intros j Hj. destruct (Hblocks j Hj) as (b & Hb & Hl). destruct Hs as [_ Hs]. specialize (Hs (PCB_ADDR j)).
    rewrite Hb in Hs. inversion Hs as [? b' [Hl' _] E1 E2|]; simplify_eq. exists b'. split; [done|congruence].
  - intros j b' Hu. destruct (Hback _ _ Hu) as (b & Hu' & Hb). destruct (same_block_fields _ _ Hb) as (-> & _). by apply Hpid.
  - intros j b' Hu. destruct (Hback _ _ Hu) as (b & Hu' & Hb). by eapply Hdir.
  - intros j b' Hu. destruct (Hback _ _ Hu) as (b & Hu' & Hb). destruct (same_block_fields _ _ Hb) as (_ & -> & _).
    destruct (Hpar _ _ Hu') as [?|(o & Ho & Eo)]; [by left|right]. destruct (used_same _ _ _ _ Hs Ho) as (o' & Ho' & Hoo).
    exists o'. split; [done|]. destruct (same_block_fields _ _ Hoo) as (_ & _ & -> & _). done.
  - intros j b' Hu. destruct (Hback _ _ Hu) as (b & Hu' & Hb). destruct (same_block_fields _ _ Hb) as (_ & _ & -> & _).
    destruct (Hch _ _ Hu') as [?|(o & Ho & Eo)]; [by left|right]. destruct (used_same _ _ _ _ Hs Ho) as (o' & Ho' & Hoo).
    exists o'. split; [done|]. destruct (same_block_fields _ _ Hoo) as (_ & -> & _). done.
Qed.

Lemma kernel_ok_same s s' i b : same_frame s s' → kernel_ok s i b →
  ∃ b', kernel_ok s' i b' ∧ same_block b b'.
Proof using Type.
  intros [Ep Eps Ew _ Hs] [Hcur Hu Hl Hsp Hpg Hpgs Ht Hf Hw].
  destruct (used_same _ _ _ _ Hs Hu) as (b' & Hu' & Hb). exists b'. split; [|done].
  pose proof Hs as [E _]. split; rewrite ?Ep, ?Eps, ?Ew; try done.
  - rewrite <-Hcur, <-E. by destruct (kproc s').
  - destruct (same_block_fields _ _ Hb) as (_ & _ & -> & _). done.
  - by eapply table_same.
  - rewrite <-E in Hf. by destruct (kproc s').
Qed.
(** The programs that are not shown keep their memory. *)
Lemma hidden_view_same s s' j : same_frame s s' → prog_page (kpage s) ≠ Some (prog_base j) →
  prog_view s' j = prog_view s j.
Proof using Type.
  intros [Ep Eps _ _ _] Hj. unfold prog_view. by rewrite Ep, Eps, bool_decide_eq_false_2 by done.
Qed.
End frame.
