(* ===== verification/ReadLine.v ===== *)
(** * Reading a line from the terminal

    A process that reads waits while the keys come in, and gets the line they
    made. *)

From S2P Require Import Prelude CInt Memory CString State I8259 Screen Printf Rtc FS.
From S2P Require Import Process Terminal Keyboard TerminalSpec KeyboardSpec Example.

(** The keyboard gives these bytes, one after the other. *)
Class Typist (d : Device) (cs : list Z) : Prop :=
  typist : ∀ tr, dev_in tr KB_PORT = nth (kb_reads tr) cs 0.
(** The keyboard's interrupt runs its handler, which comes back. *)
Class KeyIrq `{Device} `{Layout} (busy polls : nat) (handler : irq → K kstate unit) : Prop :=
  key_irq : ∀ s s', keyboard_handler busy polls s = Ok (Return 0, s') →
    handler IRQ_keyboard s = Ok (tt, s').

(** The effect of keys on a line that ends with the first new line. *)
Fixpoint type_line (tbl cs : list Z) (c : list Z * tty) : option (list Z * tty) :=
  match cs with
  | [] => if decide (last (fst c) = Some 10) then Some c else None
  | k :: cs' =>
      if decide (last (fst c) ≠ Some 10 ∧ (length (fst c) < 128)%nat)
      then press tbl k c ≫= type_line tbl cs' else None
  end.

Section wait.
Context `{d : Device} `{Layout} (cs : list Z) `{!Typist d cs}.
Context (busy polls : nat) (handler : irq → K kstate unit) `{!KeyIrq busy polls handler}.

(** The state after a look at the line with interrupts off. *)
Definition peeked (s : kstate) : kstate :=
  s <| kio := Mk_io_t (Sti :: Cli :: io_trace (kio s)) true |>.

Lemma cur_idx_ok s t l : writes_to s t → line_at s t l →
  cur_idx s = Ok (Z.of_nat (length l), s).
Proof using Type.
  intros (b & Hb & Ht & _) Hl. unfold cur_idx. erewrite bind_ok by (by apply cur_pcb_ok).
  rewrite Ht. by apply idx_at_ok.
Qed.

Lemma cur_last_ok s t l c : writes_to s t → line_at s t l → last l = Some c →
  cur_last s = Ok (c, s).
Proof using Type.
  intros (b & Hb & Ht & _) Hl Hc. unfold cur_last. erewrite bind_ok by (by apply cur_pcb_ok).
  rewrite Ht. erewrite bind_ok by (by apply idx_at_ok).
  destruct Hl as (_ & _ & Hbt & _). apply last_Some in Hc as [l' ->].
  rewrite bytes_at_lookup in Hbt. specialize (Hbt (length l') c).
  rewrite lookup_app_r, Nat.sub_diag in Hbt by lia. apply on_mem_pure, load8_ok.
  rewrite tbuf_row, length_app. cbn [length]. rewrite <-Hbt by done. f_equal. lia.
Qed.

(** One look at the line. *)
Lemma wait_line_step fuel s t l : writes_to s t → line_at s t l → (length l < 128)%nat →
  wait_line handler (S fuel) s =
  if decide (last l = Some 10) then Ok (tt, peeked s)
  else (_ ← wait_irq handler; wait_line handler fuel) (peeked s).
Proof using Type.
  intros Hw Hl Hn. cbn [wait_line]. erewrite bind_ok by (by eapply cur_idx_ok).
  unfold BUFSIZE. rewrite bool_decide_eq_true_2 by lia.
  set (s1 := s <| kio := Mk_io_t (Cli :: io_trace (kio s)) false |>).
  rewrite (bind_ok _ _ s tt s1) by reflexivity.
  erewrite bind_ok by (by eapply (cur_idx_ok s1 t l)).
  assert ((if bool_decide (Z.of_nat (length l) = 0) then mret false
           else c ← cur_last; mret (bool_decide (c = 10))) s1 =
    Ok (bool_decide (last l = Some 10), s1)) as Ee.
  { destruct (last l) as [c|] eqn:Hc.
    - apply last_Some in Hc as Hc'. destruct Hc' as [l' ->].
      rewrite (bool_decide_eq_false_2 (Z.of_nat _ = 0)) by (rewrite length_app; cbn; lia).
      erewrite bind_ok by (by eapply (cur_last_ok s1 t)). unfold mret, K_ret. do 2 f_equal.
      apply bool_decide_ext. naive_solver.
    - apply last_None in Hc as ->. done. }
  erewrite bind_ok by exact Ee. rewrite (bind_ok _ _ s1 tt (peeked s)) by reflexivity.
  destruct (decide (last l = Some 10)) as [E|E];
    [by rewrite bool_decide_eq_true_2|by rewrite bool_decide_eq_false_2].
Qed.

Lemma next_typed s k ks : drop (kb_reads (io_trace (kio s))) cs = k :: ks → Forall is_u8 cs →
  next_code s = k.
Proof using Typist0.
  intros Hd Hu. unfold next_code. rewrite typist.
  assert (cs !! kb_reads (io_trace (kio s)) = Some k) as Hk.
  { pose proof (lookup_drop cs (kb_reads (io_trace (kio s))) 0) as E.
    rewrite Hd in E. cbn in E. by rewrite Nat.add_0_r in E. }
  rewrite (nth_lookup_Some _ _ 0 _ Hk). apply u8_id. by eapply Forall_lookup_1 in Hu.
Qed.

Lemma wait_line_ok fuel ks more rest s t l v l' v' :
  Forall is_u8 cs → console s t l v → writes_to s t → keyInt (kscr s) = 0 →
  map_ok (getChar (kkbd s)) → io_if (kio s) = true →
  kirqs s = replicate (length ks) IRQ_keyboard ++ rest →
  drop (kb_reads (io_trace (kio s))) cs = ks ++ more →
  type_line (getChar (kkbd s)) ks (l, v) = Some (l', v') → (length l' < 128)%nat →
  (length ks < fuel)%nat →
  ∃ s', wait_line handler fuel s = Ok (tt, s') ∧ console s' t l' v' ∧
    keyed t (length ks) (s <| kirqs := rest |>) s' ∧ keyInt (kscr s') = 0.
Proof using KeyIrq0 Typist0.
  intros Hu. revert s l v fuel. induction ks as [|k ks IH];
    intros s l v fuel Hcon Hw Hk Hmap Hif Hq Hd Hty Hl' Hf; (destruct fuel as [|fuel]; [lia|]).
  - cbn [type_line fst] in Hty. case_decide as E; [|done]. injection Hty as <- <-.
    rewrite (wait_line_step fuel s t l Hw (con_line _ _ _ _ Hcon) Hl'), decide_True by done.
    cbn in Hq. exists (peeked s). split; [done|]. split; [|split; [|done]].
    + eapply console_same; [|exact Hcon]. by repeat split.
    + apply keyed_same; [by repeat split|done..].
  - cbn [type_line fst] in Hty. case_decide as E; [|done]. destruct E as [E Hn].
    rewrite (wait_line_step fuel s t l Hw (con_line _ _ _ _ Hcon) Hn), decide_False by done.
    destruct (press (getChar (kkbd s)) k (l, v)) as [[l1 v1]|] eqn:Ep; [|done].
    cbn [mbind option_bind] in Hty.
    set (s1 := peeked s <| kirqs := replicate (length ks) IRQ_keyboard ++ rest |>).
    assert (console s1 t l v) as Hcon1 by (eapply console_same; [|exact Hcon]; by repeat split).
    destruct (keyboard_handler_ok busy polls s1 t l v l1 v1) as (s2 & E2 & Hs2 & Hk2 & _); try done.
    { replace (next_code s1) with k; [done|]. symmetry. by eapply next_typed. }
    { intros c _ _ _. exact Hw. }
    assert (wait_irq handler (peeked s) = Ok (tt, s2)) as Ew.
    { unfold wait_irq. change (kirqs (peeked s)) with (kirqs s). rewrite Hq.
      cbn [length replicate app]. cbn [kio peeked upd Set_kio io_if]. by apply key_irq. }
    erewrite bind_ok by exact Ew. pose proof Hs2 as [Hcon2 [Ep2 _ _ _ _ _ Eq2 Ei2 Er2 Em2 _ _ _ _ _]].
    destruct (IH s2 l1 v1 fuel) as (s3 & E3 & Hcon3 & Hs3 & Hk3); try done.
    + destruct Hw as (b & Hb & Hbt). exists b. by rewrite Ep2.
    + by rewrite Em2.
    + rewrite Er2. change (kb_reads (io_trace (kio s1))) with (kb_reads (io_trace (kio s))).
      assert (∀ n, drop (1 + n) cs = drop 1 (drop n cs)) as Hdd
        by (intros n; rewrite drop_drop; f_equal; lia).
      rewrite Hdd. by rewrite Hd.
    + by rewrite Em2.
    + cbn in Hf. lia.
    + exists s3. split; [done|]. split; [done|]. split; [|done].
      change (length (k :: ks)) with (1 + length ks)%nat. eapply keyed_trans; [|exact Hs3].
      destruct Hs2 as [_ []]. split; try done. by etrans; [exact Ei2|].
Qed.

(** A buffer apart from the lines and the displayed screen. *)
Definition buffer_ok (buf n : Z) : Prop :=
  disjoint_range buf n (L_tbuf - 1) 385 ∧ disjoint_range buf n VIDEO 4000.

Lemma console_mem s t l v m' buf n : console s t l v → buffer_ok buf n →
  dom m' = dom (kmem s) → (∀ a, ¬ (buf ≤ a < buf + n) → m' !! a = kmem s !! a) →
  console (s <| kmem := m' |>) t l v.
Proof using Type.
  intros [Hc Ht (Hi & Hlen & Hbt & Hm) (Hv & Hs & Hxy) Hr Hb Ha] [Hd1 Hd2] Hdom Ho.
  unfold disjoint_range in *.
  assert (row_base t = L_tbuf + 128 * (t - 1)) as Erow by (unfold row_base, tbuf_at, BUFSIZE; lia).
  assert (term_base (kscr s) t = VIDEO) as Ebase by (unfold term_base; by rewrite bool_decide_eq_true_2).
  split; try done.
  - split; [done|]. split; [done|]. split; [|by eapply mapped_dom].
    eapply bytes_at_agree; [|exact Hbt]. intros x Hx. apply Ho. lia.
  - split; [done|]. split; [|done]. eapply screen_at_agree; [exact Hdom| |exact Hs].
    intros a Ha1. apply Ho. change (term_base _ t) with (term_base (kscr s) t) in Ha1.
    rewrite Ebase in Ha1. lia.
  - upd_cbv. rewrite Ho; [done|]. lia.
Qed.

(** The part of [tRead] before it waits. *)
Lemma read_start s t l0 v buf nbytes : console s t l0 v → writes_to s t → keyInt (kscr s) = 0 →
  0 ≤ nbytes → mapped (kmem s) buf (nbytes + 1) → buffer_ok buf (nbytes + 1) →
  ∃ s', (_ ← on_mem (for_loop (Z.to_nat (nbytes + 1)) 0 (λ i, store8 (buf + i) 0));
         _ ← updatecursor; _ ← setback; clearbuf : K kstate unit) s = Ok (tt, s') ∧
    to_console (s <| kmem := put_bytes (kmem s) buf (replicate (Z.to_nat (nbytes + 1)) 0) |>) t 0 [] v s' ∧
    keyInt (kscr s') = 0.
Proof using Type.
  intros Hcon Hw Hk Hn Hm Hbuf.
  assert (mapped (kmem s) buf (Z.of_nat (Z.to_nat (nbytes + 1)))) as Hm' by (by rewrite Z2Nat.id by lia).
  erewrite bind_ok by (apply on_mem_ok; by apply clear_row).
  set (s1 := s <| kmem := _ |>).
  assert (console s1 t l0 v) as Hcon1.
  { eapply console_mem; [exact Hcon|exact Hbuf|..].
    - apply put_bytes_dom. by rewrite length_replicate.
    - intros a Ha. apply put_bytes_outside. rewrite length_replicate. lia. }
  destruct (updatecursor_ok s1 t l0 v Hcon1) as (s2 & E2 & Hs2 & Hk2).
  erewrite bind_ok by exact E2. pose proof (proj1 Hs2) as Hcon2.
  set (s3 := s2 <| kkbd ::= (λ k, k <| back := 0 |>) |>).
  rewrite (bind_ok _ _ s2 tt s3) by reflexivity.
  assert (to_console s2 t 0 l0 v s3) as Hs3 by same_state.
  assert (writes_to s3 t) as (b & Hb & Ht & _).
  { destruct Hw as (b & Hb & Hbt). exists b. change (kproc s3) with (kproc s2).
    by rewrite (ky_proc _ _ _ _ (proj2 Hs2)). }
  pose proof (con_line _ _ _ _ (proj1 Hs3)) as Hline. rewrite <-Ht in Hline.
  destruct (clearbuf_ok s3 b l0 Hb Hline) as (s4 & E4 & Hs4 & _). rewrite Ht in Hs4.
  pose proof (console_lined s3 t l0 v [] s4 (proj1 Hs3) Hs4) as Hs4'.
  exists s4. split; [exact E4|]. split.
  - change 0%nat with (0 + (0 + 0))%nat. eapply to_console_trans; [exact Hs2|].
    eapply to_console_trans; [exact Hs3|exact Hs4'].
  - destruct Hs4 as (m4 & -> & _). change (keyInt (kscr s2) = 0). by rewrite Hk2.
Qed.

(** The part after the line is complete. *)
Lemma read_copy s t l v bz pl scancode buf nbytes : console s t l v → writes_to s t →
  (length l < 128)%nat → Forall is_char l → is_u32 nbytes → mapped (kmem s) buf (nbytes + 1) →
  buffer_ok buf (nbytes + 1) →
  let n := Z.min nbytes (Z.of_nat (length l)) in
  ∃ s', (_ ← on_io cli;
    w ← whatTerm;
    i ← idx_at (w - 1);
    _ ← (if bool_decide (i = BUFSIZE) then
          _ ← full_line handler bz pl scancode;
          i ← cur_idx;
          if bool_decide (i = BUFSIZE) then
            b ← cur_pcb;
            _ ← on_mem (store8 (tbuf_at (curTerminal b - 1) (BUFSIZE - 1)) 10);
            _ ← printf newline []; mret tt
          else mret tt
        else mret tt);
    i ← cur_idx;
    b ← cur_pcb;
    let src := tbuf_at (curTerminal b - 1) 0 in
    if bool_decide (nbytes ≤ i) then
      _ ← on_mem (strncpy buf src (u32 nbytes)); _ ← on_io sti; mret nbytes
    else
      _ ← on_mem (strncpy buf src (u32 i)); _ ← on_io sti; cur_idx) s = Ok (n, s') ∧
    s' = (s <| kmem := put_bytes (kmem s) buf (take (Z.to_nat n) l) |>)
           <| kio := Mk_io_t (Sti :: Cli :: io_trace (kio s)) true |> ∧ console s' t l v.
Proof using Type.
  intros Hcon Hw Hl Hc Hn Hm Hbuf n. unfold is_u32 in Hn.
  assert (n = Z.min nbytes (Z.of_nat (length l))) as En by done. clearbody n.
  pose proof Hcon as [Ht Ht3 Hline _ _ _ _].
  set (s1 := s <| kio := Mk_io_t (Cli :: io_trace (kio s)) false |>).
  rewrite (bind_ok _ _ s tt s1) by reflexivity. erewrite bind_ok by apply whatTerm_ok.
  change (currentTerminal (kscr s1)) with (currentTerminal (kscr s)). rewrite Ht.
  assert (line_at s1 t l) as Hline1 by done.
  erewrite bind_ok by (by eapply idx_at_ok). unfold BUFSIZE at 1.
  rewrite bool_decide_eq_false_2 by lia. rewrite (bind_ok _ _ s1 tt s1) by reflexivity.
  assert (writes_to s1 t) as Hw1 by done. pose proof Hw1 as (b & Hb & Hbt & _).
  erewrite bind_ok by (by eapply cur_idx_ok). erewrite bind_ok by (by apply cur_pcb_ok).
  cbv zeta. rewrite Hbt. fold (row_base t).
  assert (strncpy buf (row_base t) n (kmem s1) =
    Ok (buf, put_bytes (kmem s1) buf (take (Z.to_nat n) l))) as Ecpy.
  { destruct Hline as (_ & _ & Hbt1 & Hmr). rewrite mapped_spec in Hmr.
    assert (row_base t <= row_base t + n < row_base t + 128) as Hz by lia. destruct (Hmr _ Hz) as [c Hcn].
    assert (length (take (Z.to_nat n) l) = Z.to_nat n) as Hlen by (rewrite length_take; lia).
    rewrite (strncpy_ok (kmem s1) buf (row_base t) n (take (Z.to_nat n) l) c).
    - rewrite Hlen, Z2Nat.id, Z.sub_diag by lia. cbn [Z.to_nat replicate]. by rewrite app_nil_r.
    - apply bytes_at_app. rewrite Hlen, Z2Nat.id by lia. split; [|done].
      rewrite <-(take_drop (Z.to_nat n) l) in Hbt1. by apply bytes_at_app in Hbt1 as [? _].
    - by apply Forall_take.
    - right. lia.
    - eapply mapped_sub; [exact Hm|lia|lia].
    - rewrite Hlen. unfold buffer_ok, disjoint_range, row_base, tbuf_at, BUFSIZE in *. lia. }
  set (s2 := (s1 <| kmem := put_bytes (kmem s1) buf (take (Z.to_nat n) l) |>)
    <| kio := Mk_io_t (Sti :: Cli :: io_trace (kio s)) true |>).
  assert (console s2 t l v) as Hcon2.
  { eapply console_same; [|eapply (console_mem s t l v (kmem s2)); [exact Hcon|exact Hbuf|..]].
    - by repeat split.
    - apply put_bytes_dom. eapply mapped_sub; [exact Hm|lia|rewrite length_take; lia].
    - intros a Ha. apply put_bytes_outside. rewrite length_take. lia. }
  exists s2. split; [|split; [reflexivity|exact Hcon2]].
  case_bool_decide as Hle.
  - rewrite u32_id by (unfold is_u32; lia). replace nbytes with n at 1 by lia.
    erewrite bind_ok by (apply on_mem_ok; exact Ecpy). rewrite (bind_ok _ _ _ tt s2) by reflexivity.
    by replace nbytes with n by lia.
  - rewrite u32_id by (unfold is_u32; lia). replace (Z.of_nat (length l)) with n at 1 by lia.
    erewrite bind_ok by (apply on_mem_ok; exact Ecpy). rewrite (bind_ok _ _ _ tt s2) by reflexivity.
    rewrite (cur_idx_ok s2 t l); [|done|apply Hcon2]. do 2 f_equal. lia.
Qed.

Lemma seq_ok {A B C D} (a : K kstate A) (b : K kstate B) (c : K kstate C) (e : K kstate unit)
    (k : K kstate D) s s' :
  (_ ← a; _ ← b; _ ← c; e) s = Ok (tt, s') → (_ ← a; _ ← b; _ ← c; _ ← e; k) s = k s'.
Proof using Type.
  unfold mbind, K_bind. destruct (a s) as [[? s1]| |]; [|done..].
  destruct (b s1) as [[? s2]| |]; [|done..]. destruct (c s2) as [[? s3]| |]; [|done..].
  by intros ->.
Qed.

(** The whole call. *)
Lemma tRead_ok bz pl scancode fd buf nbytes ks more rest s t l0 v l v' :
  Forall is_u8 cs → console s t l0 v → writes_to s t → keyInt (kscr s) = 0 →
  map_ok (getChar (kkbd s)) → io_if (kio s) = true →
  kirqs s = replicate (length ks) IRQ_keyboard ++ rest →
  drop (kb_reads (io_trace (kio s))) cs = ks ++ more →
  type_line (getChar (kkbd s)) ks ([], v) = Some (l, v') → (length l < 128)%nat → Forall is_char l →
  is_u32 nbytes → mapped (kmem s) buf (nbytes + 1) → buffer_ok buf (nbytes + 1) →
  let n := Z.min nbytes (Z.of_nat (length l)) in
  let bs := take (Z.to_nat n) l ++ replicate (Z.to_nat (nbytes + 1 - n)) 0 in
  ∃ s', tRead handler bz pl scancode fd buf nbytes s = Ok (n, s') ∧
    bytes_at (kmem s') buf bs ∧ console s' t l v' ∧ kproc s' = kproc s ∧ kirqs s' = rest ∧
    io_if (kio s') = true ∧ keyInt (kscr s') = 0 ∧ bblock s' = bblock s ∧
    getChar (kkbd s') = getChar (kkbd s) ∧
    drop (kb_reads (io_trace (kio s'))) cs = more ∧ dom (kmem s') = dom (kmem s) ∧ beside s s' ∧
    ∀ a, ¬ (buf ≤ a < buf + (nbytes + 1)) → ¬ (L_tbuf - 1 ≤ a < L_tbuf + 384) →
      ¬ (VIDEO ≤ a < VIDEO + 4000) → kmem s' !! a = kmem s !! a.
Proof using KeyIrq0 Typist0.
  intros Hu Hcon Hw Hk Hmap Hif Hq Hd Hty Hl Hch Hn Hm Hbuf n bs.
  pose proof Hn as Hn'. unfold is_u32 in Hn'.
  destruct (read_start s t l0 v buf nbytes Hcon Hw Hk ltac:(lia) Hm Hbuf) as (s1 & E1 & [Hcon1 Hky1] & Hk1).
  set (z := replicate (Z.to_nat (nbytes + 1)) 0) in *. set (s0 := s <| kmem := _ |>) in Hky1.
  assert (writes_to s1 t) as Hw1.
  { destruct Hw as (b & Hb & Hbt). exists b. by rewrite (ky_proc _ _ _ _ Hky1). }
  unfold tRead. rewrite (seq_ok _ _ _ _ _ _ _ E1).
  rewrite (bind_ok _ _ s1 (length (kirqs s1)) s1) by reflexivity.
  pose proof (ky_irqs _ _ _ _ Hky1) as Eq1. change (kirqs s0) with (kirqs s) in Eq1.
  pose proof (ky_map _ _ _ _ Hky1) as Em1. change (getChar (kkbd s0)) with (getChar (kkbd s)) in Em1.
  pose proof (ky_reads _ _ _ _ Hky1) as Er1. cbn [Nat.add] in Er1.
  change (io_trace (kio s0)) with (io_trace (kio s)) in Er1.
  destruct (wait_line_ok (S (length (kirqs s1))) ks more rest s1 t [] v l v')
    as (s2 & E2 & Hcon2 & Hky2 & Hk2); try done.
  { by rewrite Em1. }
  { by rewrite (ky_if _ _ _ _ Hky1). }
  { by rewrite Eq1. }
  { by rewrite Er1. }
  { by rewrite Em1. }
  { rewrite Eq1, Hq, length_app, length_replicate. lia. }
  erewrite bind_ok by exact E2.
  assert (writes_to s2 t) as Hw2.
  { destruct Hw1 as (b & Hb & Hbt). exists b. by rewrite (ky_proc _ _ _ _ Hky2). }
  assert (dom (kmem s2) = dom (kmem s)) as Hdom2.
  { etrans; [exact (ky_dom _ _ _ _ Hky2)|]. etrans; [exact (ky_dom _ _ _ _ Hky1)|]. apply put_bytes_dom.
    unfold z. rewrite length_replicate, Z2Nat.id by lia. exact Hm. }
  destruct (read_copy s2 t l v' bz pl scancode buf nbytes Hcon2 Hw2 Hl Hch Hn
    (mapped_dom _ _ _ _ Hdom2 Hm) Hbuf) as (s3 & E3 & -> & Hcon3).
  fold n in E3, Hcon3. eexists. split; [exact E3|]. fold n.
  assert (n = Z.min nbytes (Z.of_nat (length l))) as En by done. clearbody n.
  assert (length (take (Z.to_nat n) l) = Z.to_nat n) as Hlen by (rewrite length_take; lia).
  pose proof (con_t _ _ _ _ Hcon) as Ht3.
  assert (row_base t = L_tbuf + 128 * (t - 1)) as Erow by (unfold row_base, tbuf_at, BUFSIZE; lia).
  assert (∀ a, ¬ (L_tbuf - 1 ≤ a < L_tbuf + 384) → ¬ (VIDEO ≤ a < VIDEO + 4000) →
    kmem s2 !! a = kmem s0 !! a) as Hout.
  { intros a Ha1 Ha2. etrans; [apply (ky_mem _ _ _ _ Hky2); lia|]. apply (ky_mem _ _ _ _ Hky1); lia. }
  split; [|split; [exact Hcon3|]].
  - upd_cbv. unfold bs. assert (bytes_at (kmem s0) (buf + n) (replicate (Z.to_nat (nbytes + 1 - n)) 0)) as Hz.
    { pose proof (put_bytes_at (kmem s) buf z) as Hz. unfold z in Hz at 2.
      replace (Z.to_nat (nbytes + 1)) with (Z.to_nat n + Z.to_nat (nbytes + 1 - n))%nat in Hz by lia.
      rewrite replicate_add in Hz. apply bytes_at_app in Hz as [_ Hz].
      rewrite length_replicate, Z2Nat.id in Hz by lia. exact Hz. }
    apply bytes_at_app. rewrite Hlen, Z2Nat.id by lia. split.
    { pose proof (put_bytes_at (kmem s2) buf (take (Z.to_nat n) l)) as Hp. exact Hp. }
    eapply bytes_at_agree; [|exact Hz]. rewrite length_replicate. intros x Hx.
    unfold buffer_ok, disjoint_range in Hbuf.
    rewrite put_bytes_outside by (rewrite Hlen; lia). apply Hout; lia.
  - split; [exact (eq_trans (ky_proc _ _ _ _ Hky2) (ky_proc _ _ _ _ Hky1))|].
    split; [exact (ky_irqs _ _ _ _ Hky2)|]. split; [done|]. split; [exact Hk2|].
    split; [exact (eq_trans (ky_block _ _ _ _ Hky2) (ky_block _ _ _ _ Hky1))|].
    split; [exact (eq_trans (ky_map _ _ _ _ Hky2) Em1)|]. split; [|split; [|split]].
    + pose proof (ky_reads _ _ _ _ Hky2) as Er2.
      change (io_trace (kio (s1 <| kirqs := rest |>))) with (io_trace (kio s1)) in Er2.
      cbn [kio upd Set_kio io_trace kb_reads]. change (kb_reads _) with (kb_reads (io_trace (kio s2))).
      rewrite Er2, Er1, Nat.add_comm, <-drop_drop, Hd. by rewrite drop_app_length.
    + etrans; [|exact Hdom2]. apply put_bytes_dom. rewrite Hlen.
      eapply mapped_sub; [exact (mapped_dom _ _ _ _ Hdom2 Hm)|lia|lia].
    + pose proof (keyed_beside _ _ _ _ Hky1) as B1. pose proof (keyed_beside _ _ _ _ Hky2) as B2.
      exact (beside_trans s0 _ _ B1 B2).
    + intros a Ha1 Ha2 Ha3. etrans; [apply put_bytes_outside; rewrite Hlen; lia|].
      rewrite Hout by done. unfold s0. upd_cbv. apply put_bytes_outside. unfold z. rewrite length_replicate. lia.
Qed.
End wait.

(** C14: a process that reads its terminal, the displayed one, gets the line
    that is typed: the keys edit an empty line until the first new line, and
    the call gives the number of characters it copied (all that fit), with
    the rest of the buffer zero. The screen shows the echo of the keys; the
    interrupts after the new line are not waited for. *)
Theorem tRead_reads_line `{d : Device} `{Layout} cs `{!Typist d cs} busy polls handler
    `{!KeyIrq busy polls handler} bz pl scancode fd buf nbytes ks more rest s t l0 v l v' :
  Forall is_u8 cs → console s t l0 v → writes_to s t → keyInt (kscr s) = 0 →
  map_ok (getChar (kkbd s)) → io_if (kio s) = true →
  kirqs s = replicate (length ks) IRQ_keyboard ++ rest →
  drop (kb_reads (io_trace (kio s))) cs = ks ++ more →
  type_line (getChar (kkbd s)) ks ([], v) = Some (l, v') → (length l < 128)%nat → Forall is_char l →
  is_u32 nbytes → mapped (kmem s) buf (nbytes + 1) → buffer_ok buf (nbytes + 1) →
  let n := Z.min nbytes (Z.of_nat (length l)) in
  ∃ s', tRead handler bz pl scancode fd buf nbytes s = Ok (n, s') ∧
    bytes_at (kmem s') buf (take (Z.to_nat n) l ++ replicate (Z.to_nat (nbytes + 1 - n)) 0) ∧
    line_at s' t l ∧ tty_at s' t v' ∧ kproc s' = kproc s ∧ kirqs s' = rest ∧
    io_if (kio s') = true.
Proof.
  intros Hu Hcon Hw Hk Hmap Hif Hq Hd Hty Hl Hch Hn Hm Hbuf n.
  destruct (tRead_ok cs busy polls handler bz pl scancode fd buf nbytes ks more rest s t l0 v l v'
    Hu Hcon Hw Hk Hmap Hif Hq Hd Hty Hl Hch Hn Hm Hbuf) as (s' & E & Hb & [] & Hp & Hr & Hi & _).
  by exists s'.
Qed.

(** A keyboard on which "lx", backspace, "s" and enter are typed. *)
Definition ex_codes : list Z := [0x26; 0x2D; 0x0E; 0x1F; 0x1C].
Definition ex_keys : Device := λ tr p,
  if bool_decide (p = KB_PORT) then nth (kb_reads tr) ex_codes 0 else 0.
Lemma ex_typist : Typist ex_keys ex_codes.
Proof. intros tr. reflexivity. Qed.
Definition ex_key_handler `{Device} (i : irq) : K kstate unit :=
  match i with IRQ_keyboard => _ ← keyboard_handler 0 0; mret tt | _ => mret tt end.
Lemma ex_key_irq `{Device} : KeyIrq 0 0 ex_key_handler.
Proof. intros s s' E. unfold ex_key_handler. by erewrite bind_ok by exact E. Qed.

Definition ex_reader : kstate :=
  ex_typed <| kirqs := replicate 5 IRQ_keyboard ++ [IRQ_pit] |>.
Definition ex_echo_tty : tty :=
  tty_putc 10 (tty_putc 115 (tty_backspace (tty_putc 120 (tty_putc 108 ex_blank)))).
Lemma tRead_reads_line_witness :
  let l := chars "ls" ++ newline in
  ∃ s', @tRead ex_keys ex_layout (@ex_key_handler ex_keys) 0 0 0 0 0x500100 31 ex_reader = Ok (3, s') ∧
    bytes_at (kmem s') 0x500100 (take (Z.to_nat 3) l ++ replicate (Z.to_nat (31 + 1 - 3)) 0) ∧
    line_at s' 1 l ∧ tty_at s' 1 ex_echo_tty ∧ kproc s' = kproc ex_reader ∧
    kirqs s' = [IRQ_pit] ∧ io_if (kio s') = true.
Proof.
  pose proof ex_typist as Ht. pose proof (@ex_key_irq ex_keys) as Hk.
  apply (tRead_reads_line (d := ex_keys) ex_codes 0 0 (@ex_key_handler ex_keys) 0 0 0 0 0x500100 31
    ex_codes [] [IRQ_pit] ex_reader 1 (chars "ls") ex_blank (chars "ls" ++ newline) ex_echo_tty).
  - decide_it.
  - eapply console_same; [|exact ex_console]. by repeat split.
  - exists (ex_pcb 1 0 (-1) (-1)). split; [vm_compute; reflexivity|]. split; [reflexivity|lia].
  - reflexivity.
  - exact ex_map_ok.
  - reflexivity.
  - reflexivity.
  - reflexivity.
  - vm_compute. reflexivity.
  - cbn. lia.
  - decide_it.
  - unfold is_u32. lia.
  - decide_it.
  - split; decide_it.
Defined.
