(* ===== verification/RtcRead.v ===== *)
(** * Reading the clock

    A process that reads the clock waits, its interrupts on, until the clock
    has ticked; keys that are pressed meanwhile are handled. *)

From S2P Require Import Prelude CInt Memory CString State I8259 Screen Printf Rtc FS.
From S2P Require Import Process Terminal Keyboard TerminalSpec KeyboardSpec ReadLine.
From S2P Require Import Example.

(** The clock's interrupt runs its handler. *)
Class ClockIrq `{Device} (handler : irq → K kstate unit) : Prop :=
  clock_irq : ∀ s, handler IRQ_rtc s = rtc_handler s.

(** The effect of keys on a line. *)
Fixpoint type_keys (tbl ks : list Z) (c : list Z * tty) : option (list Z * tty) :=
  match ks with
  | [] => Some c
  | k :: ks => press tbl k c ≫= type_keys tbl ks
  end.

Section wait.
Context `{d : Device} `{Layout} (cs : list Z) `{!Typist d cs}.
Context (busy polls : nat) (handler : irq → K kstate unit).
Context `{!KeyIrq busy polls handler} `{!ClockIrq handler}.

(** The tick. *)
Lemma tick_ok s t l v rest : console s t l v → keyInt (kscr s) = 0 → io_if (kio s) = true →
  kirqs s = IRQ_rtc :: rest →
  ∃ s', wait_irq handler s = Ok (tt, s') ∧ console s' t l v ∧ kirqs s' = rest ∧ kproc s' = kproc s ∧
    krtc s' = Mk_rtc_t 1 (u32 (rtc_interrupt_count (krtc s) + 1)) (rtc_cur_freq (krtc s)) ∧
    getChar (kkbd s') = getChar (kkbd s) ∧ keyInt (kscr s') = 0 ∧ io_if (kio s') = true.
Proof using ClockIrq0.
  intros Hcon Hk Hif Hq. eexists. split.
  - unfold wait_irq. rewrite Hif, Hq, clock_irq. reflexivity.
  - split; [eapply console_same; [|exact Hcon]; by repeat split|]. split_and!; try done.
Qed.

(** A key. *)
Lemma key_ok k ks more rest s t l v l1 v1 : Forall is_u8 cs → console s t l v → writes_to s t →
  keyInt (kscr s) = 0 → map_ok (getChar (kkbd s)) → io_if (kio s) = true →
  kirqs s = IRQ_keyboard :: rest → drop (kb_reads (io_trace (kio s))) cs = (k :: ks) ++ more →
  press (getChar (kkbd s)) k (l, v) = Some (l1, v1) →
  ∃ s', wait_irq handler s = Ok (tt, s') ∧ console s' t l1 v1 ∧ keyed t 1 (s <| kirqs := rest |>) s' ∧
    keyInt (kscr s') = 0 ∧ drop (kb_reads (io_trace (kio s'))) cs = ks ++ more.
Proof using KeyIrq0 Typist0.
  intros Hu Hcon Hw Hk Hmap Hif Hq Hd Hp. set (s1 := s <| kirqs := rest |>).
  assert (console s1 t l v) as Hcon1 by (eapply console_same; [|exact Hcon]; by repeat split).
  destruct (keyboard_handler_ok busy polls s1 t l v l1 v1) as (s2 & E2 & Hs2 & Hk2 & _); try done.
  { replace (next_code s1) with k; [done|]. symmetry. eapply (next_typed cs s1); [exact Hd|done]. }
  { intros c _ _ _. exact Hw. }
  exists s2. split; [unfold wait_irq; rewrite Hif, Hq; by apply key_irq|]. destruct Hs2 as [Hcon2 Hky].
  split; [done|]. split; [done|]. split; [done|]. rewrite (ky_reads _ _ _ _ Hky).
  change (kb_reads (io_trace (kio s1))) with (kb_reads (io_trace (kio s))).
  rewrite Nat.add_comm, <-drop_drop, Hd. done.
Qed.

Lemma read_loop_ok fuel ks more rest s t l v l' v' : Forall is_u8 cs → console s t l v → writes_to s t →
  keyInt (kscr s) = 0 → map_ok (getChar (kkbd s)) → io_if (kio s) = true →
  rtc_interrupt_happened (krtc s) = 0 → kirqs s = replicate (length ks) IRQ_keyboard ++ IRQ_rtc :: rest →
  drop (kb_reads (io_trace (kio s))) cs = ks ++ more →
  type_keys (getChar (kkbd s)) ks (l, v) = Some (l', v') → (length ks + 1 < fuel)%nat →
  ∃ s', rtc_read_loop handler fuel s = Ok (tt, s') ∧ line_at s' t l' ∧ tty_at s' t v' ∧ kirqs s' = rest ∧
    kproc s' = kproc s ∧ io_if (kio s') = true ∧
    krtc s' = Mk_rtc_t 1 (u32 (rtc_interrupt_count (krtc s) + 1)) (rtc_cur_freq (krtc s)).
Proof using ClockIrq0 KeyIrq0 Typist0.
  intros Hu. revert s l v fuel. induction ks as [|k ks IH]; intros s l v fuel Hcon Hw Hk Hmap Hif H0 Hq Hd Hty Hf;
    (destruct fuel as [|fuel]; [lia|]); cbn [rtc_read_loop];
    rewrite (bind_ok _ _ s (krtc s) s) by reflexivity; rewrite H0; bool_lits; cbv iota.
  - injection Hty as <- <-. destruct (tick_ok s t l v rest Hcon Hk Hif Hq) as (s1 & E1 & [] & Eq & Ep & Er & _ & _ & Ei).
    rewrite (bind_ok _ _ _ _ _ E1). cbn in Hf. destruct fuel as [|fuel]; [lia|]. cbn [rtc_read_loop].
    rewrite (bind_ok _ _ s1 (krtc s1) s1) by reflexivity. rewrite Er. bool_lits. exists s1. by split_and!.
  - cbn [type_keys] in Hty. destruct (press (getChar (kkbd s)) k (l, v)) as [[l1 v1]|] eqn:Ep; [|done].
    cbn [length replicate app] in Hq. destruct (key_ok k ks more _ s t l v l1 v1 Hu Hcon Hw Hk Hmap Hif Hq Hd Ep)
      as (s1 & E1 & Hcon1 & Hky & Hk1 & Hd1).
    rewrite (bind_ok _ _ _ _ _ E1). destruct Hky as [Kp _ _ _ Kr _ Kq Ki _ Km _ _ _ _ _ _].
    change (krtc (s <| kirqs := _ |>)) with (krtc s) in Kr. change (kproc (s <| kirqs := _ |>)) with (kproc s) in Kp.
    change (getChar (kkbd (s <| kirqs := _ |>))) with (getChar (kkbd s)) in Km.
    rewrite <-Kr, <-Kp. apply (IH s1 l1 v1); rewrite ?Km, ?Kr; try done.
    + destruct Hw as (b & Hb & Hbt). exists b. by rewrite Kp.
    + by rewrite Ki.
    + cbn in Hf. lia.
Qed.
End wait.

(** C39: a process of the displayed terminal that calls [rtc_read] while keys
    and then a tick of the clock are pending gets 0 as soon as the clock has
    ticked: the keys before that, letters or backspace, edit the line and the
    screen, the tick is counted, and the interrupts after it stay pending.
    Ticks of the timer
    are not in this: they run other processes, which may read the clock too
    and take the tick, for all share one flag. *)
Theorem rtc_read_returns_after_tick `{d : Device} `{Layout} cs `{!Typist d cs} busy polls handler
    `{!KeyIrq busy polls handler} `{!ClockIrq handler} fd buf n ks more rest s t l v l' v' :
  Forall is_u8 cs → console s t l v → writes_to s t → keyInt (kscr s) = 0 → map_ok (getChar (kkbd s)) →
  io_if (kio s) = true → kirqs s = replicate (length ks) IRQ_keyboard ++ IRQ_rtc :: rest →
  drop (kb_reads (io_trace (kio s))) cs = ks ++ more →
  type_keys (getChar (kkbd s)) ks (l, v) = Some (l', v') →
  ∃ s', rtc_read handler fd buf n s = Ok (0, s') ∧ kirqs s' = rest ∧ kproc s' = kproc s ∧ io_if (kio s') = true ∧
    line_at s' t l' ∧ tty_at s' t v' ∧
    krtc s' = Mk_rtc_t 1 (u32 (rtc_interrupt_count (krtc s) + 1)) (rtc_cur_freq (krtc s)).
Proof.
  intros Hu Hcon Hw Hk Hmap Hif Hq Hd Hty. unfold rtc_read.
  set (s1 := s <| krtc ::= (λ r, r <| rtc_interrupt_happened := 0 |>) |>).
  rewrite (bind_ok _ _ s tt s1) by reflexivity. rewrite (bind_ok _ _ s1 (length (kirqs s1)) s1) by reflexivity.
  assert (console s1 t l v) as Hcon1 by (eapply console_same; [|exact Hcon]; by repeat split).
  destruct (read_loop_ok cs busy polls handler (S (length (kirqs s1))) ks more rest s1 t l v l' v')
    as (s2 & E & Hl & Ht & Eq & Ep & Ei & Er); try done.
  - change (kirqs s1) with (kirqs s). rewrite Hq, length_app, length_replicate. cbn. lia.
  - exists s2. rewrite (bind_ok _ _ _ _ _ E). by split_and!.
Qed.

(** "a" is pressed, then the clock ticks. *)
Definition ex_clock_handler `{Device} (i : irq) : K kstate unit :=
  match i with IRQ_keyboard => _ ← keyboard_handler 0 0; mret tt | IRQ_rtc => rtc_handler | IRQ_pit => mret tt end.
Lemma ex_clock_keys `{Device} : KeyIrq 0 0 ex_clock_handler.
Proof. intros s s' E. unfold ex_clock_handler. by erewrite bind_ok by exact E. Qed.
Lemma ex_clock_irq `{Device} : ClockIrq ex_clock_handler.
Proof. by intros s. Qed.
Definition ex_a : Device := λ tr p, if bool_decide (p = KB_PORT) then nth (kb_reads tr) [0x1E] 0 else 0.
Lemma ex_a_typist : Typist ex_a [0x1E].
Proof. intros tr. reflexivity. Qed.
Definition ex_waiting : kstate := ex_typed <| kirqs := [IRQ_keyboard; IRQ_rtc; IRQ_pit] |>.
Lemma rtc_read_returns_after_tick_witness :
  ∃ s', @rtc_read (@ex_clock_handler ex_a) 2 0 4 ex_waiting = Ok (0, s') ∧ kirqs s' = [IRQ_pit] ∧
    kproc s' = kproc ex_waiting ∧ io_if (kio s') = true ∧ line_at s' 1 (chars "lsa") ∧
    tty_at s' 1 (tty_putc 97 ex_blank) ∧
    krtc s' = Mk_rtc_t 1 (u32 (rtc_interrupt_count (krtc ex_waiting) + 1)) (rtc_cur_freq (krtc ex_waiting)).
Proof.
  pose proof ex_a_typist as Ht. pose proof (@ex_clock_keys ex_a) as Hk. pose proof (@ex_clock_irq ex_a) as Hr.
  apply (rtc_read_returns_after_tick (d := ex_a) [0x1E] 0 0 (@ex_clock_handler ex_a) 2 0 4 [0x1E] [] [IRQ_pit]
    ex_waiting 1 (chars "ls") ex_blank).
  - decide_it.
  - eapply console_same; [|exact ex_console]. by repeat split.
  - exists (ex_pcb 1 0 (-1) (-1)). split; [vm_compute; reflexivity|]. split; [reflexivity|lia].
  - reflexivity.
  - exact ex_map_ok.
  - reflexivity.
  - reflexivity.
  - reflexivity.
  - vm_compute. reflexivity.
Defined.
