(* ===== verification/SwitchSpec.v ===== *)
(** * Switching between the terminals

    The screen shows one terminal; the others are kept in memory. A switch
    exchanges them and loses nothing. *)

From S2P Require Import Prelude CInt Memory CString State I8259 Screen Printf FS Process.
From S2P Require Import Terminal Keyboard Example.

(** Where a terminal is kept while it is not displayed. *)
Definition kept_at (t : Z) : Z := VIDEO_TERM + VIDEO_OFFSET * t.

(** The characters are copied one by one. *)
Lemma save_screen_ok m t cs : 1 ≤ t → length cs = 2000%nat → Forall is_u8 cs →
  screen_at m VIDEO cs → mapped m (kept_at t) 4000 →
  ∃ m', save_screen t m = Ok (tt, m') ∧ screen_at m' (kept_at t) cs ∧ dom m' = dom m ∧
    ∀ a, ¬ (kept_at t ≤ a < kept_at t + 4000) → m' !! a = m !! a.
Proof.
  intros Ht Hl Hu [Hmv Hs]%screen_at_spec Hm; [|done].
  assert (VIDEO + 4000 ≤ kept_at t) as Hdis by (unfold kept_at, VIDEO, VIDEO_TERM, VIDEO_OFFSET; lia).
  set (I := λ (i : Z) (m' : mem), dom m' = dom m ∧
    (∀ (k : nat) c, Z.of_nat k < i → cs !! k = Some c → m' !! (kept_at t + 2 * Z.of_nat k) = Some c) ∧
    ∀ a, ¬ (kept_at t ≤ a < kept_at t + 4000) → m' !! a = m !! a).
  pose proof (wp_for (λ i, c ← load8 (VIDEO + Z.shiftl i 1);
    store8 (VIDEO_TERM + VIDEO_OFFSET * t + Z.shiftl i 1) c) I 2000 0 m) as W. unfold save_screen. change (Z.to_nat (NUM_ROWS * NUM_COLS)) with 2000%nat.
  fold (kept_at t) in W. rewrite mapped_spec in Hm.
  apply wp_ok in W as ([] & m' & E & Hd & Hc & Ho).
  - exists m'. split; [exact E|]. split; [|done]. apply screen_at_spec; [done|]. split.
    + eapply mapped_dom; [exact Hd|]. by apply mapped_spec.
    + intros i c Hi. apply Hc; [|done]. apply lookup_lt_Some in Hi. lia.
  - split; [done|]. split; [lia|done].
  - intros j m1 Hj (Hd & Hc & Ho). rewrite wp_bind, shiftl_1.
    destruct (lookup_lt_is_Some_2 cs (Z.to_nat j)) as [c Hcj]; [lia|].
    eapply wp_run.
    { apply load8_ok. rewrite Ho by (unfold VIDEO in *; lia). rewrite <-(Hs _ _ Hcj). f_equal. lia. }
    assert (is_Some (m1 !! (kept_at t + 2 * j))) as Hsm.
    { apply elem_of_dom. rewrite Hd. apply elem_of_dom, Hm. lia. }
    change (VIDEO_TERM + VIDEO_OFFSET * t) with (kept_at t).
    pose proof (store8_ok m1 _ c Hsm) as Est. eapply wp_run; [exact Est|]. rewrite u8_id by (by eapply Forall_lookup_1).
    split; [|split].
    + by rewrite dom_insert_mapped.
    + intros k d Hk Hd'. destruct (decide (Z.of_nat k = j)) as [Ek|Nk].
      * rewrite Ek, lookup_insert_eq. rewrite <-Hcj, <-Hd'. f_equal. lia.
      * rewrite lookup_insert_ne by lia. apply Hc; [lia|done].
    + intros a Ha. rewrite lookup_insert_ne by lia. by apply Ho.
Qed.

Lemma show_screen_ok m n cs : 1 ≤ n → length cs = 2000%nat → Forall is_u8 cs →
  mapped m VIDEO 4000 → screen_at m (kept_at n) cs →
  show_screen n m = Ok (tt, put_bytes m VIDEO (cell_bytes cs)).
Proof.
  intros Hn Hl Hu Hm [_ Hs]%screen_at_spec; [|done].
  assert (VIDEO + 4000 ≤ kept_at n) as Hdis by (unfold kept_at, VIDEO, VIDEO_TERM, VIDEO_OFFSET; lia).
  unfold show_screen. fold (kept_at n).
  change m with (put_bytes m VIDEO (cell_bytes (take (Z.to_nat 0) cs))) at 1.
  rewrite (draw_loop m VIDEO cs); [| |lia|rewrite Hl; done].
  - by rewrite take_ge by (rewrite Hl; done).
  - intros j c Hj Hc. erewrite bind_ok.
    2:{ apply load8_ok. rewrite put_bytes_outside.
        - rewrite shiftl_1, <-(Hs _ _ Hc). f_equal. lia.
        - rewrite length_cell_bytes, length_take, shiftl_1. lia. }
    apply draw_cell_at; [done|done|lia|done|by eapply Forall_lookup_1].
Qed.

Section switch.
Context `{Layout}.

(** [updatecursor] and nothing else reaches the display controller. *)
Lemma cursor_ok s t v : currentTerminal (kscr s) = t → tty_at s t v →
  ∃ io lo hi, updatecursor s = Ok (tt, s <| kio := io |>) ∧
    outs (io_trace io) = outs (io_trace (kio s)) ++
      [(0x3D4, 0x0F); (0x3D5, lo); (0x3D4, 0x0E); (0x3D5, hi)] ∧
    lo + 256 * hi = 80 * row v + col v ∧ io_if io = io_if (kio s).
Proof.
  intros Htc ((_ & _ & Hr & Hc) & _ & Ex & Ey).
  assert (whatTerm s = Ok (t, s)) as Ew by (by rewrite <-Htc).
  unfold updatecursor. erewrite bind_ok by exact Ew.
  erewrite bind_ok by (unfold screen_y_at, kget, mbind, K_bind, klift; by rewrite Ey).
  erewrite bind_ok by (unfold screen_x_at, kget, mbind, K_bind, klift; by rewrite Ex).
  set (p := 80 * row v + col v). rewrite u16_id by (fold p; unfold p; lia).
  replace (row v * 80 + col v) with p by (unfold p; lia).
  do 3 eexists. split; [reflexivity|].
  cbn [kio io_trace upd Set_kio Set_io_trace]. rewrite !outs_cons, <-!app_assoc. cbn [app].
  split; [reflexivity|]. split; [|done]. rewrite !u8_u8.
  rewrite Z.shiftr_div_pow2 by lia. unfold u8. change (2 ^ 8) with 256.
  rewrite (Z.mod_small (p / 256)).
  - pose proof (Z.div_mod p 256 ltac:(lia)). lia.
  - split; [apply Z.div_pos|apply Z.div_lt_upper_bound]; unfold p; lia.
Qed.

(** The bit of a terminal in [numShells]. *)
Definition shell_bit (n : Z) : Z := if bool_decide (n = 1) then 1 else if bool_decide (n = 2) then 2 else 4.

(** The memory after the exchange shows every terminal where it now is. *)
Lemma exchange_tty s t n m1 (view : Z → tty) io u :
  currentTerminal (kscr s) = t → 1 ≤ t ≤ 3 → 1 ≤ n ≤ 3 → 1 ≤ u ≤ 3 → t ≠ n →
  (∀ u, 1 ≤ u ≤ 3 → tty_at s u (view u)) →
  screen_at m1 (kept_at t) (cells (view t)) → dom m1 = dom (kmem s) →
  (∀ a, ¬ (kept_at t ≤ a < kept_at t + 4000) → m1 !! a = kmem s !! a) →
  tty_at (((s <| kmem := put_bytes m1 VIDEO (cell_bytes (cells (view n))) |>)
    <| kscr ::= (λ c, c <| currentTerminal := n |>) |>) <| kio := io |>) u (view u).
Proof.
  intros Hc Ht Hn Hu Hne Hv Hs1 Hd Ho. pose proof (Hv t Ht) as ((_ & _) & Hsv & _).
  pose proof (Hv n Hn) as ((Hl & _) & _). destruct (Hv u Hu) as (Hwok & Hsw & Exw & Eyw).
  split; [done|]. split; [|done].
  assert (mapped m1 VIDEO 4000) as Hm.
  { eapply mapped_dom; [exact Hd|]. unfold term_base in Hsv.
    rewrite bool_decide_eq_true_2 in Hsv by done. apply Hsv. }
  assert (dom (put_bytes m1 VIDEO (cell_bytes (cells (view n)))) = dom m1) as Hdp.
  { apply put_bytes_dom. by rewrite length_cell_bytes, Hl. }
  assert (∀ a, ¬ (VIDEO ≤ a < VIDEO + 4000) →
    put_bytes m1 VIDEO (cell_bytes (cells (view n))) !! a = m1 !! a) as Hop.
  { intros a Ha. apply put_bytes_outside. by rewrite length_cell_bytes, Hl. }
  upd_cbv. unfold term_base in *. cbn [currentTerminal] in *. destruct (decide (u = n)) as [->|Eun].
  - rewrite (bool_decide_eq_true_2 (n = n)) by done. by apply put_cells_screen.
  - rewrite (bool_decide_eq_false_2 (u = n)) by done. fold (kept_at u). destruct (decide (u = t)) as [->|Nut].
    + eapply screen_at_agree; [exact Hdp| |exact Hs1]. intros a Ha. apply Hop.
      unfold kept_at, VIDEO, VIDEO_TERM, VIDEO_OFFSET in *. lia.
    + rewrite bool_decide_eq_false_2 in Hsw by congruence. fold (kept_at u) in Hsw.
      eapply screen_at_agree; [by rewrite Hdp| |exact Hsw]. intros a Ha.
      rewrite Hop, Ho; [done|unfold kept_at, VIDEO, VIDEO_TERM, VIDEO_OFFSET in *; lia..].
Qed.

Lemma switch_ok s t n view :
  currentTerminal (kscr s) = t → 1 ≤ t ≤ 3 → 1 ≤ n ≤ 3 → t ≠ n →
  Z.land (numShells (kscr s)) (shell_bit n) ≠ 0 → mapped (kmem s) (kept_at t) 4000 →
  (∀ u, 1 ≤ u ≤ 3 → tty_at s u (view u)) →
  ∃ m io lo hi, let s' := ((s <| kmem := m |>) <| kscr ::= (λ c, c <| currentTerminal := n |>) |>)
      <| kio := io |> in
    screenChange n s = Ok (Return 0, s') ∧ (∀ u, 1 ≤ u ≤ 3 → tty_at s' u (view u)) ∧
    dom m = dom (kmem s) ∧
    (∀ a, ¬ (VIDEO ≤ a < VIDEO + 4000) → ¬ (kept_at t ≤ a < kept_at t + 4000) → m !! a = kmem s !! a) ∧
    outs (io_trace io) = outs (io_trace (kio s)) ++
      [(0x3D4, 0x0F); (0x3D5, lo); (0x3D4, 0x0E); (0x3D5, hi)] ∧
    lo + 256 * hi = 80 * row (view n) + col (view n) ∧ io_if io = io_if (kio s).
Proof.
  intros Hc Ht Hn Hne Hsh Hm Hv.
  pose proof (Hv t Ht) as Hvt. destruct Hvt as ((Hlt & Hut & _) & Hst & _).
  pose proof (Hv n Hn) as Hvn. destruct Hvn as ((Hln & Hun & _) & Hsn & _).
  unfold term_base in Hst, Hsn. rewrite bool_decide_eq_true_2 in Hst by done.
  rewrite bool_decide_eq_false_2 in Hsn by congruence. fold (kept_at n) in Hsn.
  destruct (save_screen_ok (kmem s) t (cells (view t)) ltac:(lia) Hlt Hut Hst Hm)
    as (m1 & E1 & Hs1 & Hd1 & Ho1).
  assert (screen_at m1 (kept_at n) (cells (view n))) as Hsn1.
  { eapply screen_at_agree; [exact Hd1| |exact Hsn]. intros a Ha. apply Ho1.
    unfold kept_at, VIDEO_TERM, VIDEO_OFFSET in *. lia. }
  assert (mapped m1 VIDEO 4000) as Hmv by (eapply mapped_dom; [exact Hd1|apply Hst]).
  pose proof (show_screen_ok m1 n _ ltac:(lia) Hln Hun Hmv Hsn1) as E2.
  set (m2 := put_bytes m1 VIDEO _) in E2.
  set (s2 := (s <| kmem := m2 |>) <| kscr ::= (λ c, c <| currentTerminal := n |>) |>).
  pose proof (λ io u Hu, exchange_tty s t n m1 view io u Hc Ht Hn Hu Hne Hv Hs1 Hd1 Ho1) as Htty.
  fold m2 in Htty. fold s2 in Htty.
  assert (tty_at s2 n (view n)) as Htn by (specialize (Htty (kio s) n Hn); exact Htty).
  destruct (cursor_ok s2 n (view n) eq_refl Htn) as (io & lo & hi & E3 & Hout & Hpos & Hif).
  exists m2, io, lo, hi. cbv zeta. split; [|split; [intros u Hu; by apply Htty|split; [|split; [|done]]]].
  - unfold screenChange. erewrite bind_ok by (unfold whatTerm, kget, mbind, K_bind, mret, K_ret; reflexivity).
    rewrite Hc, (bool_decide_eq_false_2 (n = t)) by congruence.
    rewrite (bool_decide_eq_true_2 (1 ≤ t ≤ 3)) by lia.
    erewrite bind_ok by (apply on_mem_ok; exact E1).
    assert (∀ k, show_terminal n (shell_bit n) (s <| kmem := m1 |>) = k →
      (if bool_decide (n = 1) then show_terminal 1 1
       else if bool_decide (n = 2) then show_terminal 2 2
       else if bool_decide (n = 3) then show_terminal 3 4
       else _ ← printf msg_higher []; mret (Return 0)) (s <| kmem := m1 |>) = k) as Hsel.
    { intros k <-. assert (n = 1 ∨ n = 2 ∨ n = 3) as [-> |[-> | ->]] by lia; done. }
    apply Hsel. unfold show_terminal.
    erewrite bind_ok by (unfold getBitMap, kget, mbind, K_bind, mret, K_ret; reflexivity).
    erewrite bind_ok by (unfold kget; reflexivity). cbv zeta.
    change (numShells (kscr (s <| kmem := m1 |>))) with (numShells (kscr s)).
    rewrite (bool_decide_eq_true_2 (Z.land _ _ ≠ 0)) by done. cbn [negb]. rewrite andb_false_r.
    erewrite bind_ok by reflexivity. cbv iota.
    rewrite (bind_ok _ _ _ tt (s <| kmem := m2 |>)) by (etrans; [apply on_mem_ok; exact E2|reflexivity]).
    rewrite (bind_ok _ _ _ tt s2) by reflexivity. by erewrite bind_ok by exact E3.
  - unfold m2. rewrite put_bytes_dom; [done|]. rewrite length_cell_bytes, Hln. exact Hmv.
  - intros a H1 H2. unfold m2. rewrite put_bytes_outside by (rewrite length_cell_bytes, Hln; exact H1).
    by apply Ho1.
Qed.
End switch.

(** C15: switching to a terminal [n] that has its shell shows it on the
    screen, cursor included, and keeps what every terminal shows, the one
    that leaves the screen too; the lines, the processes and the rest of
    memory do not change, so switching back gives the same screen again. *)
Theorem screenChange_switches `{Layout} s t n view :
  currentTerminal (kscr s) = t → 1 ≤ t ≤ 3 → 1 ≤ n ≤ 3 → t ≠ n →
  Z.land (numShells (kscr s)) (shell_bit n) ≠ 0 → mapped (kmem s) (kept_at t) 4000 →
  (∀ u, 1 ≤ u ≤ 3 → tty_at s u (view u)) →
  ∃ s' lo hi, screenChange n s = Ok (Return 0, s') ∧ currentTerminal (kscr s') = n ∧
    (∀ u, 1 ≤ u ≤ 3 → tty_at s' u (view u)) ∧ kproc s' = kproc s ∧ kterm s' = kterm s ∧
    (∀ a, ¬ (VIDEO ≤ a < VIDEO + 4000) → ¬ (kept_at t ≤ a < kept_at t + 4000) →
      kmem s' !! a = kmem s !! a) ∧
    outs (io_trace (kio s')) = outs (io_trace (kio s)) ++
      [(0x3D4, 0x0F); (0x3D5, lo); (0x3D4, 0x0E); (0x3D5, hi)] ∧
    lo + 256 * hi = 80 * row (view n) + col (view n).
Proof.
  intros Hc Ht Hn Hne Hsh Hm Hv.
  destruct (switch_ok s t n view Hc Ht Hn Hne Hsh Hm Hv)
    as (m & io & lo & hi & E & Htty & _ & Ho & Hout & Hpos & _).
  do 3 eexists. split; [exact E|]. split; [done|]. split; [exact Htty|]. by repeat split.
Qed.

Lemma screenChange_switches_witness :
  let s := (ex_state 1) <| kscr ::= (λ c, c <| numShells := 3 |>) |> in
  let view u := if decide (u = 1) then ex_tty 32 else ex_tty (96 + u) in
  ∃ s' lo hi, screenChange 2 s = Ok (Return 0, s') ∧
    currentTerminal (kscr s') = 2 ∧
    (∀ u, 1 ≤ u ≤ 3 → tty_at s' u (view u)) ∧ kproc s' = kproc s ∧ kterm s' = kterm s ∧
    (∀ a, ¬ (VIDEO ≤ a < VIDEO + 4000) → ¬ (kept_at 1 ≤ a < kept_at 1 + 4000) →
      kmem s' !! a = kmem s !! a) ∧
    outs (io_trace (kio s')) = outs (io_trace (kio s)) ++
      [(0x3D4, 0x0F); (0x3D5, lo); (0x3D4, 0x0E); (0x3D5, hi)] ∧
    lo + 256 * hi = 80 * row (view 2) + col (view 2).
Proof.
  intros s view. apply (screenChange_switches s 1 2 view); [reflexivity|lia..|vm_compute; discriminate|exact (proj1 ex_kept)|].
  apply ex_mem_ttys; reflexivity.
Defined.
