(* ===== verification/NewTerm.v ===== *)
(** * Opening a terminal

    The first shell of a terminal, which [sys_execute] starts without a
    parent, and the switch to a terminal that has no shell yet. *)

From S2P Require Import Prelude CInt Memory CString State I8259 Screen Printf Paging.
From S2P Require Import PagingInit Translate FS FSSpec ExecHelper Process Terminal.
From S2P Require Import Keyboard ParseSpec SpaceSpec ExecSpec Views LoadSpec StartSpec.
From S2P Require Import ProcTable ProcessSpec SwitchSpec Example.

(** ** A shell of a terminal *)
Section root.
Context `{Layout} (Hlay : layout_ok).

(** What a successful [sys_execute] does that opens terminal [n]. *)
Record rooted (keep : Z → Prop) (s : kstate) (n : Z) (img : image) (command : Z) (line : list Z) (x : inode_a) (p : Z)
    (s' : kstate) (b : pcb_t) : Prop := {
  rt_block : parent_pid b = -1 ∧ child_pid b = -1 ∧ curTerminal b = n ∧
    cstr_at (kmem s') (arguments b) (cmd_args line);
  rt_files : ∀ fd, 0 ≤ fd < 2 → ∃ f, zlookup (file_array b) fd = Some f ∧
    fops_table f = Some fops_term ∧ flags f = Z.lor TYPE_TERM OPEN;
  rt_others : ∀ a, a ≠ PCB_ADDR p → pcbs (kproc s') !! a = pcbs (kproc s) !! a;
  rt_bitmap : ∀ j, 0 ≤ j < 8 → Z.testbit (pid_bitmap (kproc s')) j =
    Z.testbit (pid_bitmap (kproc s)) j || bool_decide (j = p);
  rt_tss : tss_esp0 (kcpu s') = KERNEL_STACK_BASE - p * TASK_STACK_SIZE;
  rt_own : prog_view s' p = put_bytes (prog_view s p) LOAD_ADDR (loaded img x);
  rt_views : ∀ j, 0 ≤ j < 6 → j ≠ p → prog_view s' j = prog_view s j;
  rt_scr : kscr s' = kscr (first_screen (s <| kscr ::= (λ c, c <| whichTerm := 0 |>) |>));
  rt_rest : kio s' = kio s ∧ kterm s' = kterm s ∧ kkbd s' = kkbd s;
  rt_mem : ∀ a, keep a → ¬ in_prog a →
    Forall (λ r, ¬ (r.1 ≤ a < r.1 + r.2)) (take 6 (loader_ranges s img command line)) → kmem s' !! a = kmem s !! a;
}.

Lemma execute_root keep s n img command line stale e x ep p :
  can_enter keep s p → kept_ranges keep s img command line → table_ok (kproc s) (page_dir (kpage s)) →
  attemptExit (kproc s) = 0 → root_bit (whichTerm (kscr s)) n →
  loader_env s img command line → program_env s img line stale e x ep p → (28 ≤ length (content img x))%nat →
  ∃ s' b, sys_execute command s = Ok (Enter ep child_esp, s') ∧ kernel_ok s' p b ∧
    rooted keep s n img command line x p s' b.
Proof using Hlay.
  intros Henter Hkeep Ht Hae Hw He Hp Hlen.
  destruct (pe_free _ _ _ _ _ _ _ _ Hp) as (Hpr & Hp0 & _).
  destruct (pe_entry_point _ _ _ _ _ _ _ _ Hp) as [Hep _].
  destruct (loader_loads keep s img command line stale e x ep p Hlay Henter Hkeep He Hp Hlen)
    as (s2 & v & Ex & Es2 & Hsp2 & Hpk2 & Hps2 & Hentry & Hargs & Hvp & Hvj & Hdirs & Hmem).
  destruct (tb_blocks _ _ Ht p Hpr) as (b0 & Hb0 & Hfl).
  set (old := pcb (kproc s)). set (nb := new_block b0 p (-1) n).
  assert (kproc s2 = Mk_proc_t old (pcbs (kproc s)) (pid_bitmap (kproc s)) (first_flag (kproc s)) 0
    (program_exception (kproc s)) (curProc (kproc s))) as Hk2.
  { rewrite Es2. unfold old. cbn [kproc upd Set_kmem Set_kpage Set_kpages]. rewrite <-Hae. by destruct (kproc s). }
  assert (kscr s2 = kscr s ∧ kcpu s2 = kcpu s ∧ kio s2 = kio s ∧ kterm s2 = kterm s ∧ kkbd s2 = kkbd s)
    as (Escr & Ecpu & Eio & Eterm & Ekbd) by (rewrite Es2; done).
  set (s3 := (s2 <| kscr ::= (λ c, c <| whichTerm := 0 |>) |>) <| kproc := Mk_proc_t (PCB_ADDR p)
    (<[PCB_ADDR p := nb]> (pcbs (kproc s))) (pid_bitmap (kproc s)) (first_flag (kproc s)) 0
    (program_exception (kproc s)) (curProc (kproc s)) |>).
  assert (init_pcb p old s2 = Ok (tt, s3)) as Einit.
  { pose proof (init_pcb_root s2 (pcbs (kproc s)) (pid_bitmap (kproc s)) (first_flag (kproc s))
      (program_exception (kproc s)) (curProc (kproc s)) p b0 Hb0 Hfl old n ltac:(by rewrite Escr)) as Hi.
    by rewrite (set_kproc_eta s2 _ Hk2) in Hi. }
  set (s4 := first_screen s3).
  assert (kproc s4 = (kproc s3) <| first_flag := first_flag (kproc s4) |> ∧ first_flag (kproc s4) ≠ 0 ∧
    kcpu s4 = kcpu s ∧ kpage s4 = kpage s2 ∧ kpages s4 = kpages s2 ∧ kmem s4 = kmem s2 ∧
    whichTerm (kscr s4) = 0 ∧ kio s4 = kio s ∧ kterm s4 = kterm s ∧ kkbd s4 = kkbd s ∧
    kscr s4 = kscr (first_screen (s <| kscr ::= (λ c, c <| whichTerm := 0 |>) |>)))
    as (Ek4 & Hff & Ec4 & Eg4 & Es4 & Em4 & Ew4 & Ei4 & Et4 & Ey4 & Er4).
  { rewrite <-Ecpu, <-Eio, <-Eterm, <-Ekbd. unfold s4, first_screen. change (first_flag (kproc s3)) with (first_flag (kproc s)).
    change (first_flag (kproc (s <| kscr ::= _ |>))) with (first_flag (kproc s)).
    case_bool_decide as Hf; split_and?; try done; unfold s3; cbn; by rewrite Escr. }
  pose proof (start_program_screen s2 s3 old p (L_args (esp (kcpu s))) (L_prog_img (esp (kcpu s))) ep nb
    (pcbs (kproc s)) _ _ _ _ _ Hk2 Einit) as Estart. fold s4 in Estart.
  assert (length (file_array nb) = 8%nat) as Hnl by (cbn; by destruct (file_array b0) as [|? [|? l]]).
  set (s' := entered s4 p ep (L_args (esp (kcpu s))) (pcbs (kproc s3)) nb) in *.
  set (b := ((nb <| arguments := L_args (esp (kcpu s)) |>) <| parent_esp := esp (kcpu s) |>) <| parent_ebp := ebp (kcpu s) |>).
  assert (pcbs (kproc s') = <[PCB_ADDR p := b]> (pcbs (kproc s))) as Epcbs.
  { unfold s', entered. rewrite Ec4. cbn [kproc pcbs upd Set_kcpu Set_kproc Set_pcb Set_pcbs Set_pid_bitmap].
    unfold s3. cbn [kproc pcbs upd Set_kproc]. by rewrite insert_insert_eq. }
  assert (pid_bitmap (kproc s') = u8 (Z.lor (pid_bitmap (kproc s)) (Z.shiftl 1 p))) as Ebm.
  { change (u8 (Z.lor (pid_bitmap (kproc s4)) (Z.shiftl 1 p)) = u8 (Z.lor (pid_bitmap (kproc s)) (Z.shiftl 1 p))).
    by rewrite Ek4. }
  exists s', b. split; [|split].
  - rewrite Ex. apply Estart; [|done|done|exact Hentry]. eexists. split; [reflexivity|apply lookup_insert_eq].
  - pose proof (entered_ok s4 p ep (L_args (esp (kcpu s))) (pcbs (kproc s3)) nb v) as Hk.
    rewrite Eg4, Es4, Ec4 in Hk. apply Hk; [done|done|done|done| |done|].
    + apply (table_add_root (kproc s) (page_dir (kpage s)) _ p b); try done.
      exists v. exact (is_dir _ _ _ Hsp2).
    + rewrite Ew4, !not_elem_of_cons. split_and!; [lia..|apply not_elem_of_nil].
  - split; try done.
    + split; [done|]. split; [done|]. split; [done|]. change (kmem s') with (kmem s4). by rewrite Em4.
    + intros fd Hfd. cbn. destruct (file_array b0) as [|f0 [|f1 l]]; [done|done|].
      assert (fd = 0 ∨ fd = 1) as [-> | ->] by lia; cbn; eexists; done.
    + intros a Ha. rewrite Epcbs. by rewrite lookup_insert_ne by done.
    + intros j Hj. rewrite Ebm. by apply bitmap_set.
    + rewrite <-Hvp. apply view_eq; [change (kpage s') with (kpage s4); by rewrite Eg4|exact Em4|exact Es4].
    + intros j Hj Hjp. rewrite <-(Hvj j Hj Hjp). apply view_eq; [change (kpage s') with (kpage s4); by rewrite Eg4|exact Em4|exact Es4].
    + intros a Hka Ha Hr. change (kmem s') with (kmem s4). rewrite Em4. by apply Hmem.
Qed.
End root.

(** ** Redrawing the screens *)
Section redraw.
Context `{Layout}.

Definition screen_ranges : list (Z * Z) := [(VIDEO, 4000); (kept_at 1, 4000); (kept_at 2, 4000); (kept_at 3, 4000)].
(** What the loader uses lies off the screens. *)
Definition off_screens (s : kstate) (img : image) (command : Z) (line : list Z) (t : Z) : Prop :=
  Forall (λ r, Forall (λ q, disjoint_range q.1 q.2 r.1 r.2) screen_ranges) (take 10 (exec_ranges s img command line t)).
Definition print_ranges : list (Z * Z) := screen_ranges ++ [(L_conv_buf, 64)].
Record redrawn (s s' : kstate) : Prop := {
  rd_mem : same_outside print_ranges (kmem s) (kmem s');
  rd_proc : kproc s' = kproc s; rd_cpu : kcpu s' = kcpu s; rd_page : kpage s' = kpage s;
  rd_pages : kpages s' = kpages s; rd_bblock : bblock s' = bblock s;
  rd_key : keyInt (kscr s') = keyInt (kscr s);
}.

Lemma screens_no_prog a : in_prog a → Forall (λ r, ¬ (r.1 ≤ a < r.1 + r.2)) screen_ranges.
Proof using Type.
  unfold in_prog, screen_ranges, kept_at, VIDEO, VIDEO_TERM, VIDEO_OFFSET, PROG_VIR_ADDR_START, FOUR_MB.
  intros Ha. each; lia.
Qed.
Lemma term_base_screen c t : 1 ≤ t ≤ 3 → (term_base c t, 4000) ∈ screen_ranges.
Proof using Type.
  intros Ht. assert (t = 1 ∨ t = 2 ∨ t = 3) as [-> |[-> | ->]] by lia; unfold term_base, screen_ranges, kept_at;
    case_bool_decide; rewrite !elem_of_cons; auto.
Qed.
Lemma redrawn_view s s' j : L_conv_buf + 64 ≤ PROG_VIR_ADDR_START → redrawn s s' → prog_view s' j = prog_view s j.
Proof using Type.
  intros Hl [[_ Hm] _ _ Hp Hps _ _]. rewrite <-(view_kernel s (kmem s') j).
  - apply view_eq; by rewrite ?Hp, ?Hps.
  - intros a Ha. apply Hm, Forall_app. split; [by apply screens_no_prog|]. each. unfold in_prog in Ha. lia.
Qed.
Lemma apart_snoc l r : apart l → Forall (λ q, disjoint_range r.1 r.2 q.1 q.2) l → apart (l ++ [r]).
Proof using Type.
  induction l as [|q l IH]; cbn; [done|]. intros [Hq Hl] [Hr Hrs]%Forall_cons. split; [|by apply IH].
  apply Forall_app. split; [done|]. each. unfold disjoint_range in *. lia.
Qed.
Section redrawn.
Context (s s' : kstate) (img : image) (command : Z) (line : list Z) (t : Z).
Context (Hr : redrawn s s') (Hoff : off_screens s img command line t) (He : exec_env s img command line t).

Lemma redrawn_ranges : exec_ranges s' img command line t =
  take 10 (exec_ranges s img command line t) ++ [(term_base (kscr s') t, 4000)].
Proof using Hr. destruct Hr as [_ _ Ec _ _ Eb _]. unfold exec_ranges. by rewrite Ec, Eb. Qed.
Lemma redrawn_low : L_conv_buf + 64 ≤ PROG_VIR_ADDR_START.
Proof using He. pose proof (low_range s img command line t He 6%nat _ eq_refl) as Hl. cbn in Hl. lia. Qed.
Lemma off_range i r : i ≠ 6%nat → take 10 (exec_ranges s img command line t) !! i = Some r →
  Forall (λ q, disjoint_range q.1 q.2 r.1 r.2) print_ranges.
Proof using Hoff He.
  intros Hi Hr'. apply Forall_app. split.
  - unfold off_screens in Hoff. rewrite Forall_lookup in Hoff. exact (Hoff i _ Hr').
  - each. apply (apart_pair _ 6 i (L_conv_buf, 64) r (ee_apart _ _ _ _ _ He)); [done| |done].
    rewrite lookup_take in Hr'. by case_decide.
Qed.
Lemma redrawn_at i a l n : i ≠ 6%nat → take 10 (exec_ranges s img command line t) !! i = Some (a, n) →
  Z.of_nat (length l) = n → bytes_at (kmem s) a l → bytes_at (kmem s') a l.
Proof using Hr Hoff He.
  intros Hi Hri <- Hb. eapply same_outside_at; [apply Hr| |exact Hb]. by apply (off_range i _ Hi Hri).
Qed.

Lemma exec_env_redrawn : keyInt (kscr s) = 0 → (∃ v, tty_at s' t v) → exec_env s' img command line t.
Proof using Hr Hoff He.
  intros Hk Hv. pose proof redrawn_ranges as Er.
  pose proof Hr as [Hm Ep Ec _ _ Eb Ek]. pose proof He as [Hi Hem Hc Hw Hma Hap Hke Hwr _ _].
  split.
  - rewrite Eb. eapply same_outside_image; [exact Hm| |exact Hi]. by apply (off_range 8 (bblock s, _)).
  - destruct (redrawn_at 7 L_empty [0] 1 ltac:(done) eq_refl eq_refl) as [Hx _]; [by split|exact Hx].
  - destruct Hc as [Hc Hch]. split; [|done]. eapply (redrawn_at 9); [done|reflexivity| |exact Hc].
    rewrite length_app. cbn [length]. lia.
  - done.
  - rewrite Ec. eapply Forall_impl; [exact Hma|]. intros r. by apply (same_outside_mapped print_ranges).
  - rewrite Er. apply apart_snoc; [by apply apart_take|]. unfold off_screens in Hoff.
    pose proof Hwr as (_ & _ & _ & Ht). eapply Forall_impl; [exact Hoff|]. intros r Hf. rewrite Forall_forall in Hf.
    exact (Hf _ (term_base_screen _ _ Ht)).
  - rewrite Er. rewrite take_app_le by (cbn; lia). rewrite take_take. exact Hke.
  - destruct Hwr as (b & Hb & Hx). exists b. by rewrite Ep.
  - left. by rewrite Ek.
  - done.
Qed.
Lemma program_env_redrawn stale e x ep p : program_env s img line stale e x ep p → program_env s' img line stale e x ep p.
Proof using Hr Hoff He.
  intros [Helf Hst Hent Hino Hmag Hep Himg Hpage Hfree]. pose proof Hr as [Hm Ep Ec _ _ _ _]. split; try done.
  - eapply (redrawn_at 5); [done|reflexivity|by rewrite Hst|exact Helf].
  - rewrite Ec. by eapply (same_outside_mapped print_ranges).
  - by rewrite (redrawn_view s) by (apply redrawn_low || done).
  - by rewrite Ep.
Qed.
Lemma off_screens_redrawn : off_screens s' img command line t.
Proof using Hr Hoff.
  unfold off_screens. rewrite redrawn_ranges. rewrite take_app_le by (cbn; lia). by rewrite take_take.
Qed.
End redrawn.
End redraw.

(** ** The switch *)
Section opening.
Context `{Layout}.

Lemma off_screen_ranges a t : 1 ≤ t ≤ 3 → Forall (λ r, ¬ (r.1 ≤ a < r.1 + r.2)) screen_ranges →
  ¬ (VIDEO ≤ a < VIDEO + 4000) ∧ ¬ (kept_at t ≤ a < kept_at t + 4000).
Proof using Type.
  unfold screen_ranges. rewrite !Forall_cons. cbn [fst snd]. intros Ht (H0 & H1 & H2 & H3 & _). split; [done|].
  assert (t = 1 ∨ t = 2 ∨ t = 3) as [-> |[-> | ->]] by lia; done.
Qed.

(** The kernel at the end of the preparations for a terminal [n] that is not
    open yet. *)
Record prepared (s : kstate) (t n : Z) (view : Z → tty) (s3 : kstate) : Prop := {
  pr_redrawn : redrawn s s3;
  pr_rest : kterm s3 = kterm s ∧ kkbd s3 = kkbd s;
  pr_scr : whichTerm (kscr s3) = shell_bit n ∧ currentTerminal (kscr s3) = n ∧
    numShells (kscr s3) = s8 (Z.lor (numShells (kscr s)) (shell_bit n));
  pr_new : tty_at s3 n tty_blank;
  pr_old : ∀ u, 1 ≤ u ≤ 3 → u ≠ n → tty_at s3 u (view u);
  pr_eoi : outs (io_trace (kio s3)) = outs (io_trace (kio s)) ++ [(MASTER_8259_PORT, u8 (Z.lor EOI KB_IR_LINE))];
}.

Lemma open_prepares s t n view :
  currentTerminal (kscr s) = t → 1 ≤ t ≤ 3 → 1 ≤ n ≤ 3 → t ≠ n →
  Z.land (numShells (kscr s)) (shell_bit n) = 0 → s8 (pid_bitmap (kproc s)) ≠ 0x3F →
  mapped (kmem s) (kept_at t) 4000 → (∀ u, 1 ≤ u ≤ 3 → tty_at s u (view u)) →
  ∃ s3, prepared s t n view s3 ∧
    ∀ ep sp s', sys_execute L_shell_nl s3 = Ok (Enter ep sp, s') → screenChange n s = Ok (Enter ep sp, s').
Proof using Type.
  intros Hc Ht Hn Hne Hsh Hbm Hm Hv.
  pose proof (Hv t Ht) as ((Hlt & Hut & Hrt) & Hst & _). pose proof (Hv n Hn) as ((_ & _ & Hrn) & _ & Exn & Eyn).
  unfold term_base in Hst. rewrite bool_decide_eq_true_2 in Hst by done.
  destruct (save_screen_ok (kmem s) t (cells (view t)) ltac:(lia) Hlt Hut Hst Hm) as (m1 & E1 & Hs1 & Hd1 & Ho1).
  assert (VIDEO + 4000 ≤ kept_at t) as Hvt by (unfold kept_at, VIDEO, VIDEO_TERM, VIDEO_OFFSET; lia).
  set (s1 := s <| kmem := m1 |>).
  set (s1' := s1 <| kscr ::= (λ c, c <| numShells ::= (λ v, s8 (Z.lor v (shell_bit n))) |>) |>).
  assert (∃ io, on_io (send_eoi KB_IR_LINE) s1' = Ok (tt, s1' <| kio := io |>) ∧
    outs (io_trace io) = outs (io_trace (kio s)) ++ [(MASTER_8259_PORT, u8 (Z.lor EOI KB_IR_LINE))]) as (io & E2 & Eio).
  { eexists. split; [reflexivity|]. cbn [io_trace upd Set_io_trace]. rewrite outs_cons. by rewrite u8_u8. }
  set (sc := (s1' <| kio := io |>) <| kscr ::= (λ c, c <| currentTerminal := n |>) |>).
  assert (screen_at m1 VIDEO (cells (view t))) as Hvid.
  { eapply screen_at_agree; [exact Hd1| |exact Hst]. intros a Ha. apply Ho1. lia. }
  assert (∀ u, 1 ≤ u ≤ 3 → u ≠ n → tty_at sc u (view u)) as Hold.
  { intros u Hu Hun. destruct (Hv u Hu) as (Hok & Hs & Hx & Hy). split; [done|]. split; [|done].
    unfold sc, term_base. upd_cbv. rewrite bool_decide_eq_false_2 by done. fold (kept_at u).
    destruct (decide (u = t)) as [->|Hut']; [done|]. unfold term_base in Hs.
    rewrite bool_decide_eq_false_2 in Hs by congruence. fold (kept_at u) in Hs.
    eapply screen_at_agree; [exact Hd1| |exact Hs]. intros a Ha. apply Ho1.
    unfold kept_at, VIDEO_TERM, VIDEO_OFFSET in *. lia. }
  set (w := Mk_tty (cells (view t)) (row (view n)) (col (view n))).
  assert (tty_at sc n w) as Hw.
  { split; [done|]. split; [|done]. unfold sc, term_base. upd_cbv. by rewrite bool_decide_eq_true_2. }
  pose proof (clear_ok sc n (col (view n)) (row (view n)) ltac:(lia) eq_refl (proj1 Hvid) Exn Eyn) as Hcl.
  apply wp_ok in Hcl as ([] & sd & E3 & Hd).
  set (s3 := sd <| kscr ::= (λ c, c <| whichTerm := shell_bit n |>) |>).
  exists s3. split.
  - assert (∀ u v, tty_at sd u v → tty_at s3 u v) as Hkeep by done.
    pose proof Hd as (m' & Ed & _ & Hd' & Ho').
    unfold term_base in Ho'. rewrite bool_decide_eq_true_2 in Ho' by done.
    split.
    + split; try (unfold s3; by rewrite Ed). unfold s3. rewrite Ed. split; [by etrans; [exact Hd'|exact Hd1]|].
      intros a [Ha _]%Forall_app. destruct (off_screen_ranges a t Ht Ha) as [Ha1 Ha2].
      change (m' !! a = kmem s !! a). rewrite Ho' by done. by apply Ho1.
    + unfold s3. by rewrite Ed.
    + unfold s3. by rewrite Ed.
    + apply Hkeep. eapply drawn_tty; [lia|exact Hw|by decide_it|exact Hd].
    + intros u Hu Hun. apply Hkeep. eapply (drawn_other sc n); [done|lia|lia|exact Hd|by apply Hold].
    + unfold s3. rewrite Ed. exact Eio.
  - intros ep sp s' Ex. unfold screenChange.
    erewrite bind_ok by (unfold whatTerm, kget, mbind, K_bind, mret, K_ret; reflexivity).
    rewrite Hc, (bool_decide_eq_false_2 (n = t)) by congruence.
    rewrite (bool_decide_eq_true_2 (1 ≤ t ≤ 3)) by lia.
    erewrite bind_ok by (apply on_mem_ok; exact E1). fold s1.
    assert (show_terminal n (shell_bit n) s1 = Ok (Enter ep sp, s')) as Hsel.
    { unfold show_terminal.
      erewrite bind_ok by (unfold getBitMap, kget, mbind, K_bind, mret, K_ret; reflexivity).
      erewrite bind_ok by (unfold kget; reflexivity). cbv zeta.
      change (numShells (kscr s1)) with (numShells (kscr s)). change (pid_bitmap (kproc s1)) with (pid_bitmap (kproc s)).
      rewrite (bool_decide_eq_false_2 (s8 _ = 0x3F)) by done.
      rewrite (bool_decide_eq_false_2 (Z.land _ _ ≠ 0)) by (intros Hx; by apply Hx). cbn [andb negb]. cbv iota.
      rewrite (bind_ok _ _ s1 (Enter ep sp) s'); [reflexivity|].
      rewrite (bind_ok _ _ s1 tt s1') by reflexivity. erewrite bind_ok by exact E2.
      rewrite (bind_ok _ _ _ tt sc) by reflexivity. erewrite bind_ok by exact E3.
      rewrite (bind_ok _ _ sd tt s3) by reflexivity. exact Ex. }
    assert (n = 1 ∨ n = 2 ∨ n = 3) as [-> |[-> | ->]] by lia; exact Hsel.
Qed.
End opening.

Lemma s8_not_full v p : is_u8 v → 0 ≤ p < 6 → Z.testbit v p = false → s8 v ≠ 0x3F.
Proof.
  intros Hv Hp Hb E. assert (v = 0x3F) as ->.
  { apply s8_inj; [done|done|by rewrite E]. }
  assert (p = 0 ∨ p = 1 ∨ p = 2 ∨ p = 3 ∨ p = 4 ∨ p = 5) as [->|[->|[->|[->|[->| ->]]]]] by lia; done.
Qed.

Section opens.
Context `{Layout}.
Definition shell_line : list Z := chars "shell" ++ newline.

(** The loader leaves every screen. *)
Lemma loader_keeps_screens s img command line t m' c u v : exec_env s img command line t →
  off_screens s img command line t → 1 ≤ u ≤ 3 →
  (∀ a, ¬ in_prog a → Forall (λ r, ¬ (r.1 ≤ a < r.1 + r.2)) (take 6 (exec_ranges s img command line t)) →
    m' !! a = kmem s !! a) →
  currentTerminal c = currentTerminal (kscr s) → screen_x c = screen_x (kscr s) → screen_y c = screen_y (kscr s) →
  tty_at s u v → tty_ok v ∧ screen_at m' (term_base c u) (cells v) ∧
    zlookup (screen_x c) (u - 1) = Some (col v) ∧ zlookup (screen_y c) (u - 1) = Some (row v).
Proof.
  intros He Hoff Hu Hmem Hc Ex Ey (Hok & Hs & Hx & Hy). rewrite Ex, Ey. split; [done|]. split; [|done].
  assert (term_base c u = term_base (kscr s) u) as -> by (unfold term_base; by rewrite Hc).
  eapply screen_at_same; [apply Hok| |exact Hs]. intros a Ha.
  pose proof (term_base_screen (kscr s) u Hu) as Hin. apply Hmem.
  - intros Hpa%screens_no_prog. rewrite Forall_forall in Hpa. by apply (Hpa _ Hin).
  - unfold off_screens in Hoff. rewrite <-(take_drop 6 (take 10 _)), take_take in Hoff.
    apply Forall_app in Hoff as [Hoff _]. eapply Forall_impl; [exact Hoff|]. intros r Hf.
    rewrite Forall_forall in Hf. specialize (Hf _ Hin). unfold disjoint_range in Hf. cbn [fst snd] in Hf. lia.
Qed.

(** C10: the key for a terminal that is not open yet opens it: its first shell,
    a process without a parent, starts at its entry point with no arguments on
    an empty screen, cursor at the top left; what the other terminals show is
    kept, the one that leaves the screen too. The interrupt is acknowledged,
    as the handler does not come back. The block of the interrupted process is
    left as it was: the stack pointers for the scheduler in it are those of
    its last preemption. *)
Theorem opening_terminal_starts_shell s t n view i o img stale e x ep p :
  layout_ok → kernel_ok s i o → attemptExit (kproc s) = 0 → keyInt (kscr s) = 0 →
  currentTerminal (kscr s) = t → 1 ≤ t ≤ 3 → 1 ≤ n ≤ 3 → t ≠ n →
  Z.land (numShells (kscr s)) (shell_bit n) = 0 →
  mapped (kmem s) (kept_at t) 4000 → (∀ u, 1 ≤ u ≤ 3 → tty_at s u (view u)) →
  exec_env s img L_shell_nl shell_line (curTerminal o) → off_screens s img L_shell_nl shell_line (curTerminal o) →
  program_env s img shell_line stale e x ep p → (28 ≤ length (content img x))%nat →
  ∃ s' b, screenChange n s = Ok (Enter ep child_esp, s') ∧ kernel_ok s' p b ∧
    parent_pid b = -1 ∧ curTerminal b = n ∧ cstr_at (kmem s') (arguments b) [] ∧
    (∀ a, a ≠ PCB_ADDR p → pcbs (kproc s') !! a = pcbs (kproc s) !! a) ∧
    prog_view s' p = put_bytes (prog_view s p) LOAD_ADDR (loaded img x) ∧
    (∀ j, 0 ≤ j < 6 → j ≠ p → prog_view s' j = prog_view s j) ∧
    currentTerminal (kscr s') = n ∧ numShells (kscr s') = s8 (Z.lor (numShells (kscr s)) (shell_bit n)) ∧
    tty_at s' n tty_blank ∧ (∀ u, 1 ≤ u ≤ 3 → u ≠ n → tty_at s' u (view u)) ∧ kterm s' = kterm s ∧
    outs (io_trace (kio s')) = outs (io_trace (kio s)) ++ [(MASTER_8259_PORT, u8 (Z.lor EOI KB_IR_LINE))].
Proof.
  intros Hlay Hk Hae Hkey Hc Ht Hn Hne Hsh Hm Hv He Hoff Hp Hlen.
  destruct (pe_free _ _ _ _ _ _ _ _ Hp) as (Hpr & Hp0 & _).
  destruct (open_prepares s t n view Hc Ht Hn Hne Hsh
    (s8_not_full _ p (tb_bits _ _ (kk_table _ _ _ Hk)) Hpr Hp0) Hm Hv) as (s3 & [Hr [Hter _] (W & C & N) Hnew Hold Heoi] & Hrun).
  pose proof Hr as [_ Kp Kc Kg Ks Kb Ky]. destruct (ee_writes _ _ _ _ _ He) as (_ & _ & _ & Hto).
  assert (∃ v, tty_at s3 (curTerminal o) v) as Hv3.
  { destruct (decide (curTerminal o = n)) as [->|Ho]; [by eexists|]. eexists. by apply Hold. }
  pose proof (exec_env_redrawn s s3 img _ _ _ Hr Hoff He Hkey Hv3) as He3.
  pose proof (program_env_redrawn s s3 img _ _ _ Hr Hoff He _ _ _ _ _ Hp) as Hp3.
  assert (paging_ready s3) as Hready by (unfold paging_ready; rewrite Kg, Ks; exact (kernel_enters _ _ _ Hk)).
  destruct (execute_root Hlay no_prog s3 n img L_shell_nl shell_line stale e x ep p (ready_enters Hlay s3 p Hready Hpr)
    (kept_no_prog _ _ _ _ _ He3))
    as (s' & b & Ex & Hk' & [(B1 & _ & B3 & B4) _ Hoth _ _ Hown Hviews Hscr (Hio & Hkt & _) Hmem]);
    rewrite ?Kg, ?Ks, ?Kp; try done; try apply Hk.
  2: { exact (exec_loader _ _ _ _ _ He3). }
  { rewrite W. unfold root_bit, shell_bit. repeat case_bool_decide; lia. }
  rewrite first_screen_id in Hscr by (change (first_flag (kproc s3) ≠ 0); rewrite Kp; apply Hk).
  pose proof (redrawn_low s img _ _ _ He) as Hlow.
  assert (∀ u v, 1 ≤ u ≤ 3 → tty_at s3 u v → tty_at s' u v) as Hkeep.
  { intros u v Hu Huv. unfold tty_at. rewrite Hscr.
    apply (loader_keeps_screens s3 img _ _ _ _ _ _ _ He3 (off_screens_redrawn s s3 img _ _ _ Hr Hoff)); try done.
    exact (λ a Ha Hq, Hmem a Ha Ha Hq). }
  exists s', b. rewrite <-Kp, <-Hter, <-Heoi, <-N.
  split; [by apply Hrun|]. split; [done|]. split; [done|]. split; [done|]. split; [exact B4|].
  split; [done|]. split; [by rewrite Hown, (redrawn_view s s3)|].
  split; [intros j Hj Hjp; by rewrite Hviews, (redrawn_view s s3)|].
  split; [by rewrite Hscr|]. split; [by rewrite Hscr|]. split; [by apply Hkeep|].
  split; [intros u Hu Hun; apply Hkeep; [done|by apply Hold]|]. split; [done|by rewrite Hio].
Qed.
End opens.

(** The second terminal, opened from the shell of the first. *)
Lemma opening_terminal_starts_shell_witness :
  ∃ s' b, screenChange 2 ex_exec = Ok (Enter 0x8048094 child_esp, s') ∧ kernel_ok s' 1 b ∧ parent_pid b = -1 ∧
    curTerminal b = 2 ∧ tty_at s' 2 tty_blank ∧ tty_at s' 3 (ex_tty 99) ∧
    pcbs (kproc s') !! PCB_ADDR 0 = Some (ex_pcb 1 0 (-1) (-1)).
Proof.
  destruct (opening_terminal_starts_shell ex_exec 1 2 (λ u, if decide (u = 1) then ex_tty 32 else ex_tty (96 + u))
    0 (ex_pcb 1 0 (-1) (-1)) ex_image [5; 5; 5; 5] (Mk_entry (ex_name (chars "shell")) 2 1)
    (ex_inode 40 1) 0x8048094 1)
    as (s' & b & E & Hk & B1 & B3 & _ & Ho & _ & _ & _ & _ & Hn & Hv & _); try reflexivity.
  - apply ex_layout_ok.
  - apply ex_kernel_ok.
  - lia.
  - lia.
  - done.
  - rewrite ex_exec_mem. exact (proj1 ex_kept).
  - apply ex_mem_ttys; reflexivity.
  - apply ex_exec_env; [decide_it|vm_compute; reflexivity|decide_it].
  - apply (bool_decide_unpack _). unfold off_screens. by vm_compute.
  - apply ex_program_env.
  - apply (bool_decide_unpack _). vm_compute. exact I.
  - exists s', b. split; [exact E|]. split; [exact Hk|]. split; [exact B1|]. split; [exact B3|].
    split; [exact Hn|]. split; [exact (Hv 3 ltac:(lia) ltac:(done))|]. rewrite Ho by done. vm_compute. reflexivity.
Defined.
