(* ===== verification/UserLib.v ===== *)
(** * What user programs are linked with ([ece391syscall.S], [ece391support.c])

    A user program sees its own memory and the system calls: the class [Sys].
    Its code runs over any state that has them; the kernel is one, Linux with
    the emulation of [ece391emulate.c] another. *)

From S2P Require Import Prelude CInt CString.

(** The machine under a user program: loads and stores in its page, and the
    calls of [ece391syscall.h], with [call_sys], the interrupt with a number
    and nothing else. *)
Class UserMem (S : Type) : Type := {
  u_load8 : Z → K S Z;
  u_store8 : Z → Z → K S unit;
}.
Class Sys (S : Type) : Type := {
  sys_mem :: UserMem S;
  ece391_execute : Z → K S Z;
  ece391_read : Z → Z → Z → K S Z;
  ece391_write : Z → Z → Z → K S Z;
  ece391_open : Z → K S Z;
  ece391_close : Z → K S Z;
  ece391_getargs : Z → Z → K S Z;
  ece391_vidmap : Z → K S Z;
  ece391_set_handler : Z → Z → K S Z;
  call_sys : Z → K S Z;
}.

(** Where the linker puts the string literals of a program. *)
Class Literals : Type := lit : list Z → Z.

Section support.
Context {S : Type} `{UserMem S}.
(** The bound of every loop. *)
Context (fuel : nat).

Fixpoint strlen_from (fuel : nat) (s len : Z) : K S Z :=
  match fuel with
  | O => kspin
  | Datatypes.S fuel' =>
      c ← u_load8 s;
      if bool_decide (c ≠ 0) then strlen_from fuel' (s + 1) (u32 (len + 1)) else mret len
  end.
Definition ece391_strlen (s : Z) : K S Z := strlen_from fuel s 0.

Fixpoint strcpy_from (fuel : nat) (dst src : Z) : K S unit :=
  match fuel with
  | O => kspin
  | Datatypes.S fuel' =>
      c ← u_load8 src;
      _ ← u_store8 dst c;
      if bool_decide (c ≠ 0) then strcpy_from fuel' (dst + 1) (src + 1) else mret tt
  end.
Definition ece391_strcpy (dst src : Z) : K S unit := strcpy_from fuel dst src.

Fixpoint strcmp_from (fuel : nat) (s1 s2 : Z) : K S Z :=
  match fuel with
  | O => kspin
  | Datatypes.S fuel' =>
      a ← u_load8 s1;
      b ← u_load8 s2;
      if bool_decide (a = b) then
        if bool_decide (a = 0) then mret 0 else strcmp_from fuel' (s1 + 1) (s2 + 1)
      else mret (a - b)
  end.
Definition ece391_strcmp (s1 s2 : Z) : K S Z := strcmp_from fuel s1 s2.

Fixpoint strncmp_from (fuel : nat) (s1 s2 n : Z) : K S Z :=
  match fuel with
  | O => kspin
  | Datatypes.S fuel' =>
      a ← u_load8 s1;
      b ← u_load8 s2;
      if bool_decide (a = b) then
        if bool_decide (a = 0) || bool_decide (u32 (n - 1) = 0) then mret 0
        else strncmp_from fuel' (s1 + 1) (s2 + 1) (u32 (n - 1))
      else mret (a - b)
  end.
Definition ece391_strncmp (s1 s2 n : Z) : K S Z :=
  if bool_decide (0 = n) then mret 0 else strncmp_from fuel s1 s2 n.

(** [while (beg < end) { tmp = s[end]; s[end] = s[beg]; s[beg] = tmp; beg++; end--; }] *)
Fixpoint reverse_from (fuel : nat) (s beg end_ : Z) : K S unit :=
  match fuel with
  | O => kspin
  | Datatypes.S fuel' =>
      if bool_decide (beg < end_) then
        tmp ← u_load8 (s + end_);
        c ← u_load8 (s + beg);
        _ ← u_store8 (s + end_) c;
        _ ← u_store8 (s + beg) tmp;
        reverse_from fuel' s (beg + 1) (end_ - 1)
      else mret tt
  end.
Definition ece391_strrev (s : Z) : K S Z :=
  n ← ece391_strlen s;
  let end_ := s32 (n - 1) in
  if bool_decide (end_ <= 0) then mret s
  else _ ← reverse_from fuel s 0 end_; mret s.

(** [while (newval > 0) { i = newval % radix; *newbuf = lookup[i]; newbuf++; newval /= radix; }];
    a division by zero faults. *)
Fixpoint digits_from (fuel : nat) (newval newbuf radix : Z) : K S Z :=
  match fuel with
  | O => kspin
  | Datatypes.S fuel' =>
      if bool_decide (newval > 0) then
        if bool_decide (radix = 0) then kfault else
        c ← klift (zlookup lookup_digits (newval mod radix));
        _ ← u_store8 newbuf c;
        digits_from fuel' (newval / radix) (newbuf + 1) radix
      else mret newbuf
  end.
Definition ece391_itoa (value buf radix : Z) : K S Z :=
  if bool_decide (value = 0) then
    _ ← u_store8 buf 48; _ ← u_store8 (buf + 1) 0; mret buf
  else
    newbuf ← digits_from fuel value buf (u32 radix);
    _ ← u_store8 newbuf 0;
    ece391_strrev buf.

(** A word of user memory. *)
Definition u_store32 (a v : Z) : K S unit :=
  _ ← u_store8 a v; _ ← u_store8 (a + 1) (v / 2 ^ 8);
  _ ← u_store8 (a + 2) (v / 2 ^ 16); u_store8 (a + 3) (v / 2 ^ 24).
Definition u_load32 (a : Z) : K S Z :=
  b0 ← u_load8 a; b1 ← u_load8 (a + 1); b2 ← u_load8 (a + 2); b3 ← u_load8 (a + 3);
  mret (of_le32 b0 b1 b2 b3).
End support.

Definition ece391_fdputs {S : Type} `{Sys S} (fuel : nat) (fd s : Z) : K S unit :=
  n ← ece391_strlen fuel s; _ ← ece391_write fd s (s32 n); mret tt.
