(* ===== verification/SupportSpec.v ===== *)
(** * The support library and the library of the kernel

    [ece391support.c] has its own string functions. Over any user memory they
    do what they do on a plain memory ([follows]), and there what [lib.c] of
    the kernel does. *)

From S2P Require Import Prelude CInt Memory CString UserLib.

(** A plain memory is a user memory. *)
Definition plain_mem : UserMem mem := {| u_load8 := load8; u_store8 := store8 |}.

(** ** Code over a state that shows a memory *)

(** Whatever [cm] does to the memory, [c] does to the state that shows it. *)
Definition follows {S A} (R : S → mem → Prop) (c : K S A) (cm : K mem A) : Prop :=
  ∀ s m a m', R s m → cm m = Ok (a, m') → wp c (λ r s', r = a ∧ R s' m') s.

Class MemView (S : Type) `{UserMem S} (R : S → mem → Prop) : Prop := {
  mv_load a : follows R (u_load8 a) (load8 a);
  mv_store a v : follows R (u_store8 a v) (store8 a v);
}.

Section follows.
Context {S : Type} (R : S → mem → Prop).

Lemma follows_ret {A} (a : A) : follows R (mret a) (mret a).
Proof. intros s m b m' HR [= <- <-]. by split. Qed.
Lemma follows_bind {A B} (c : K S A) cm (f : A → K S B) fm :
  follows R c cm → (∀ a, follows R (f a) (fm a)) → follows R (c ≫= f) (cm ≫= fm).
Proof.
  intros Hc Hf s m b m' HR E. unfold mbind, K_bind in E. destruct (cm m) as [[a m1]| |] eqn:E1; [|done..].
  rewrite wp_bind. eapply wp_mono; [by eapply Hc|]. cbv beta. intros ? s1 [-> HR1]. by eapply Hf.
Qed.
Lemma follows_if {A} (b : bool) (c d : K S A) cm dm :
  follows R c cm → follows R d dm → follows R (if b then c else d) (if b then cm else dm).
Proof. by destruct b. Qed.
Lemma follows_stop {A} (c : K S A) : follows R c kspin.
Proof. done. Qed.
Lemma follows_fault {A} (c : K S A) : follows R c kfault.
Proof. done. Qed.
Lemma follows_lift {A} (o : option A) : follows R (klift o) (klift o).
Proof. destruct o; [apply follows_ret|apply follows_fault]. Qed.
End follows.

Create HintDb follow discriminated.
#[export] Hint Resolve follows_ret follows_if follows_stop follows_fault follows_lift mv_load mv_store : follow.
Ltac follow := repeat first [ solve [auto with follow] | apply follows_bind; [|intros ?] | apply follows_if ].

(** ** The library follows itself on the memory it sees *)
Section library.
Context {S : Type} `{UserMem S} {R : S → mem → Prop} `{!MemView S R}.
#[local] Existing Instance plain_mem | 100.

Lemma strlen_from_follows f a n : follows R (strlen_from f a n) (@strlen_from mem plain_mem f a n).
Proof using MemView0. revert a n. induction f; intros; cbn [strlen_from]; follow; apply IHf. Qed.
Lemma strlen_follows f a : follows R (ece391_strlen f a) (@ece391_strlen mem plain_mem f a).
Proof using MemView0. apply strlen_from_follows. Qed.
Lemma strcpy_follows f d a : follows R (ece391_strcpy f d a) (@ece391_strcpy mem plain_mem f d a).
Proof using MemView0.
  unfold ece391_strcpy. revert d a. induction f; intros; cbn [strcpy_from]; follow; apply IHf.
Qed.
Lemma strcmp_follows f a b : follows R (ece391_strcmp f a b) (@ece391_strcmp mem plain_mem f a b).
Proof using MemView0.
  unfold ece391_strcmp. revert a b. induction f; intros; cbn [strcmp_from]; follow; apply IHf.
Qed.
Lemma strncmp_follows f a b n : follows R (ece391_strncmp f a b n) (@ece391_strncmp mem plain_mem f a b n).
Proof using MemView0.
  unfold ece391_strncmp. follow. revert a b n. induction f; intros; cbn [strncmp_from]; follow; apply IHf.
Qed.
Lemma strrev_follows f a : follows R (ece391_strrev f a) (@ece391_strrev mem plain_mem f a).
Proof using MemView0.
  unfold ece391_strrev. apply follows_bind; [apply strlen_follows|]. intros n. follow.
  generalize 0. generalize (s32 (n - 1)).
  induction f; intros; cbn [reverse_from]; follow; apply IHf.
Qed.
Lemma itoa_follows f v a r : follows R (ece391_itoa f v a r) (@ece391_itoa mem plain_mem f v a r).
Proof using MemView0.
  pose proof strrev_follows. unfold ece391_itoa. follow.
  generalize v a. generalize (u32 r). induction f; intros; cbn [digits_from]; follow; apply IHf.
Qed.
Lemma store32_follows a v : follows R (u_store32 a v) (store32 a v).
Proof using MemView0. unfold u_store32, store32. follow. Qed.
Lemma load32_follows a : follows R (u_load32 a) (load32 a).
Proof using MemView0. unfold u_load32, load32. follow. Qed.
End library.

(** ** On a plain memory *)
Section plain.
#[local] Existing Instance plain_mem.

Lemma strlen_plain m a str f : cstr_at m a str → Z.of_nat (length str) < 2 ^ 32 → (length str < f)%nat →
  ece391_strlen f a m = Ok (Z.of_nat (length str), m).
Proof.
  intros Hs Hl. unfold ece391_strlen. assert (∀ k, (k ≤ length str)%nat → (length str - k < f)%nat →
    strlen_from f (a + Z.of_nat k) (Z.of_nat k) m = Ok (Z.of_nat (length str), m)) as Hk.
  2:{ intros Hf. specialize (Hk 0%nat). rewrite Z.add_0_r in Hk. apply Hk; lia. }
  induction f as [|f IH]; intros k Hk Hf; [lia|]. cbn [strlen_from].
  destruct (decide (k = length str)) as [->|Hne].
  { erewrite bind_ok by (by apply cstr_at_end). done. }
  destruct (lookup_lt_is_Some_2 str k) as [c Hc]; [lia|].
  destruct (cstr_at_char _ _ _ _ _ Hs Hc) as [E Hch]. erewrite bind_ok by exact E.
  unfold is_char in Hch. rewrite bool_decide_eq_true_2, u32_id by (unfold is_u32; lia).
  replace (a + Z.of_nat k + 1) with (a + Z.of_nat (S k)) by lia.
  replace (Z.of_nat k + 1) with (Z.of_nat (S k)) by lia. apply IH; lia.
Qed.

Lemma strcpy_plain m dst src str f :
  cstr_at m src str → mapped m dst (Z.of_nat (length str) + 1) →
  disjoint_range dst (Z.of_nat (length str) + 1) src (Z.of_nat (length str) + 1) → (length str < f)%nat →
  ece391_strcpy f dst src m = Ok (tt, put_bytes m dst (str ++ [0])).
Proof.
  intros Hs Hm Hd. unfold ece391_strcpy. assert (∀ done rest, str = done ++ rest → (length rest < f)%nat →
    strcpy_from f (dst + Z.of_nat (length done)) (src + Z.of_nat (length done)) (put_bytes m dst done) =
    Ok (tt, put_bytes m dst (str ++ [0]))) as Hk.
  2:{ intros Hf. specialize (Hk [] str eq_refl Hf). by rewrite !Z.add_0_r in Hk. }
  induction f as [|f IH]; intros dn rest E Hf; [lia|]. cbn [strcpy_from].
  assert (length dn ≤ length str)%nat by (rewrite E, length_app; lia).
  assert (∀ c, (str ++ [0]) !! length dn = Some c →
    load8 (src + Z.of_nat (length dn)) (put_bytes m dst dn) = Ok (c, put_bytes m dst dn)) as Hload.
  { intros c Hc. eapply copy_load; [apply Hs|exact Hc|]. rewrite length_app. cbn [length].
    unfold disjoint_range in *. lia. }
  assert (∀ c, store8 (dst + Z.of_nat (length dn)) c (put_bytes m dst dn) =
    Ok (tt, put_bytes m dst (dn ++ [u8 c]))) as Hstore.
  { intros c. apply copy_store. eapply mapped_sub; [exact Hm|lia|lia]. }
  cbn [u_load8 u_store8 plain_mem]. destruct rest as [|c rest].
  - rewrite app_nil_r in E. subst dn. erewrite bind_ok by (apply Hload; by apply list_lookup_middle).
    erewrite bind_ok by apply Hstore. done.
  - assert (is_char c) as Hc.
    { destruct Hs as [_ Hs]. rewrite E in Hs. apply Forall_app in Hs as [_ Hs]. by inversion Hs. }
    unfold is_char in Hc.
    erewrite bind_ok by (apply Hload; rewrite E, <-app_assoc; by apply list_lookup_middle).
    erewrite bind_ok by apply Hstore. rewrite u8_id, bool_decide_eq_true_2 by (unfold is_u8; lia).
    replace (dst + Z.of_nat (length dn) + 1) with (dst + Z.of_nat (length (dn ++ [c]))) by (rewrite length_app; cbn; lia).
    replace (src + Z.of_nat (length dn) + 1) with (src + Z.of_nat (length (dn ++ [c]))) by (rewrite length_app; cbn; lia).
    apply (IH (dn ++ [c]) rest); [by rewrite <-app_assoc|cbn in Hf; lia].
Qed.

Lemma strrev_plain m a str f : cstr_at m a str → Z.of_nat (length str) < 2 ^ 31 → (length str < f)%nat →
  ece391_strrev f a m = Ok (a, put_bytes m a (reverse str)).
Proof.
  intros Hs Hl Hf. unfold ece391_strrev. erewrite bind_ok by (apply strlen_plain; [exact Hs|lia|done]).
  rewrite s32_id by (unfold is_s32; lia). pose proof (cstr_at_u8 _ _ _ Hs) as Hu.
  destruct Hs as [Hb _]. apply bytes_at_app in Hb as [Hb _]. case_bool_decide as Hle.
  { assert (reverse str = str) as -> by (destruct str as [|c [|d str]]; [done|done|cbn in Hle; lia]).
    by rewrite put_bytes_id. }
  erewrite bind_ok; [done|]. rewrite <-(put_bytes_id m a str) at 1 by done.
  replace (Z.of_nat (length str) - 1) with (Z.of_nat (length str) - 1 - 0) by lia.
  apply (strrev_loop_ok m a str str 0 f); [|lia|done|by apply bytes_at_mapped|lia].
  split; [done|]. intros i Hi. rewrite decide_False by lia. done.
Qed.

Lemma itoa_plain m v buf radix f : 2 ≤ radix ≤ 36 → is_u32 v →
  mapped m buf (Z.of_nat (length (digits v radix)) + 1) → (32 < f)%nat →
  ece391_itoa f v buf radix m = Ok (buf, put_bytes m buf (digits v radix ++ [0])).
Proof.
  intros Hr Hv Hm Hf. pose proof (pow32_bound radix Hr v Hv) as Hp. unfold ece391_itoa, digits in *.
  rewrite mapped_spec in Hm. case_bool_decide as Hz.
  { cbn [length] in Hm. erewrite bind_ok by (apply store8_ok, Hm; lia).
    erewrite bind_ok.
    2:{ apply store8_ok. rewrite lookup_insert_is_Some. right. split; [lia|]. apply Hm. lia. }
    change (u8 48) with 48. change (u8 0) with 0. cbn [app put_bytes]. by rewrite insert_insert_ne by lia. }
  rewrite <-mapped_spec, length_reverse in Hm. set (ds := digits_rev 32 v radix) in *.
  rewrite (u32_id radix) by (unfold is_u32; lia).
  assert (Forall is_char (reverse ds)) as Hch by (apply Forall_reverse, digits_rev_chars; done).
  pose proof (digits_rev_length radix 32 v) as Hlen. fold ds in Hlen.
  pose proof (itoa_loop_ok radix Hr m buf 32 v f [] Hp) as Hloop.
  cbn [length app put_bytes] in Hloop. fold ds in Hloop. rewrite Z.add_0_r in Hloop.
  erewrite bind_ok by (apply Hloop; [lia|eapply mapped_sub; [done|lia|lia]]).
  erewrite bind_ok by (apply copy_store; eapply mapped_sub; [done|lia|lia]).
  change (u8 0) with 0. rewrite strrev_plain with (str := ds); [| |lia|lia].
  - by rewrite put_bytes_app, put_bytes_app, length_reverse, put_bytes_put by (by rewrite length_reverse).
  - split; [apply put_bytes_at|]. apply Forall_reverse in Hch. by rewrite reverse_involutive in Hch.
Qed.

(** Two strings are walked while they agree. *)
Lemma strncmp_walk m f a b x y n : cstr_at m a x → cstr_at m b y → 0 < n < 2 ^ 32 →
  (length x < f)%nat → ∃ r, strncmp_from f a b n m = Ok (r, m) ∧
    (r = 0 ↔ take (Z.to_nat n) x = take (Z.to_nat n) y).
Proof.
  revert a b x y n. induction f as [|f IH]; intros a b x y n [Hx Cx] [Hy Cy] Hn Hf; [lia|].
  cbn [strncmp_from u_load8 plain_mem]. replace (Z.to_nat n) with (S (Z.to_nat (n - 1))) by lia.
  destruct x as [|c x], y as [|d y]; cbn [app bytes_at length] in *; destruct_and?;
    rewrite ?Forall_cons in *; unfold is_char in *; destruct_and?;
    (erewrite bind_ok by (by apply load8_ok)); (erewrite bind_ok by (by apply load8_ok)); cbn [take].
  - bool_lits. by exists 0.
  - rewrite bool_decide_eq_false_2 by lia. exists (0 - d). split; [done|]. split; [lia|done].
  - rewrite bool_decide_eq_false_2 by lia. exists (c - 0). split; [done|]. split; [lia|done].
  - case_bool_decide as E; [|exists (c - d); split; [done|]; split; [lia|]; intros [=]; lia].
    rewrite (bool_decide_eq_false_2 (c = 0)), u32_id by (unfold is_u32; lia). cbn [orb].
    case_bool_decide as En; [exists 0; rewrite E, En; done|].
    destruct (IH (a + 1) (b + 1) x y (n - 1)) as (r & Er & Hr); [done|done|lia|lia|].
    exists r. split; [done|]. rewrite Hr, E. split; [by intros ->|by intros [= ->]].
Qed.
Lemma strncmp_plain m f a b x y n : cstr_at m a x → cstr_at m b y → 0 ≤ n < 2 ^ 32 →
  (length x < f)%nat → ∃ r, ece391_strncmp f a b n m = Ok (r, m) ∧
    (r = 0 ↔ take (Z.to_nat n) x = take (Z.to_nat n) y).
Proof.
  intros Hx Hy Hn Hf. unfold ece391_strncmp. case_bool_decide as E; [by subst; exists 0|].
  apply strncmp_walk; [done|done|lia|done].
Qed.
Lemma strcmp_plain m f a b x y : cstr_at m a x → cstr_at m b y → (length x < f)%nat →
  ∃ r, ece391_strcmp f a b m = Ok (r, m) ∧ (r = 0 ↔ x = y).
Proof.
  unfold ece391_strcmp.
  revert a b x y. induction f as [|f IH]; intros a b x y [Hx Cx] [Hy Cy] Hf; [lia|].
  cbn [strcmp_from u_load8 plain_mem].
  destruct x as [|c x], y as [|d y]; cbn [app bytes_at length] in *; destruct_and?;
    rewrite ?Forall_cons in *; unfold is_char in *; destruct_and?;
    (erewrite bind_ok by (by apply load8_ok)); (erewrite bind_ok by (by apply load8_ok)).
  - bool_lits. by exists 0.
  - rewrite bool_decide_eq_false_2 by lia. exists (0 - d). split; [done|]. split; [lia|done].
  - rewrite bool_decide_eq_false_2 by lia. exists (c - 0). split; [done|]. split; [lia|done].
  - case_bool_decide as E; [|exists (c - d); split; [done|]; split; [lia|]; intros [=]; lia].
    rewrite (bool_decide_eq_false_2 (c = 0)) by lia.
    destruct (IH (a + 1) (b + 1) x y) as (r & Er & Hr); [done|done|lia|].
    exists r. split; [done|]. rewrite Hr, E. split; [by intros ->|by intros [= ->]].
Qed.
End plain.

(** ** Over any user memory *)
Section library_ok.
Context {S : Type} `{UserMem S} {R : S → mem → Prop} `{!MemView S R} (fuel : nat).
Implicit Types (s : S) (m : mem).

Lemma strlen_wp s m a str : R s m → cstr_at m a str → Z.of_nat (length str) < 2 ^ 32 →
  (length str < fuel)%nat →
  wp (ece391_strlen fuel a) (λ r s', r = Z.of_nat (length str) ∧ R s' m) s.
Proof using MemView0. intros HR Hs Hl Hf. eapply strlen_follows; [exact HR|by apply strlen_plain]. Qed.
Lemma strcpy_wp s m dst src str : R s m → cstr_at m src str → mapped m dst (Z.of_nat (length str) + 1) →
  disjoint_range dst (Z.of_nat (length str) + 1) src (Z.of_nat (length str) + 1) → (length str < fuel)%nat →
  wp (ece391_strcpy fuel dst src) (λ _ s', R s' (put_bytes m dst (str ++ [0]))) s.
Proof using MemView0.
  intros HR Hs Hm Hd Hf. eapply wp_mono; [eapply strcpy_follows; [exact HR|by apply strcpy_plain]|]. naive_solver.
Qed.
Lemma strcmp_wp s m a b x y : R s m → cstr_at m a x → cstr_at m b y → (length x < fuel)%nat →
  wp (ece391_strcmp fuel a b) (λ r s', (r = 0 ↔ x = y) ∧ R s' m) s.
Proof using MemView0.
  intros HR Hx Hy Hf. destruct (strcmp_plain m fuel a b x y) as (r & E & Hr); [done..|].
  eapply wp_mono; [by eapply strcmp_follows|]. naive_solver.
Qed.
Lemma itoa_wp s m v buf radix : R s m → 2 ≤ radix ≤ 36 → is_u32 v →
  mapped m buf (Z.of_nat (length (digits v radix)) + 1) → (32 < fuel)%nat →
  wp (ece391_itoa fuel v buf radix) (λ r s', r = buf ∧ R s' (put_bytes m buf (digits v radix ++ [0]))) s.
Proof using MemView0. intros HR ????. eapply itoa_follows; [exact HR|by apply itoa_plain]. Qed.

(** [c] gives what [cm], a function of the kernel, gives on the memory, and
    leaves the memory [cm] leaves. *)
Definition agrees {A} (c : K S A) (cm : K mem A) s m : Prop :=
  ∃ r m', cm m = Ok (r, m') ∧ wp c (λ r' s', r' = r ∧ R s' m') s.

(** C34: the support library of the user programs computes what the library of
    the kernel computes: on strings shorter than the fuel [strlen], [strcpy],
    [strrev] and [itoa] of both give the same and leave the same memory, and
    [strncmp] of both is zero for the same strings. *)
Theorem support_agrees_with_lib s m a b x y n v radix :
  R s m → cstr_at m a x → cstr_at m b y → (length x < fuel)%nat → (32 < fuel)%nat →
  Z.of_nat (length x) < 2 ^ 31 → mapped m b 33 → mapped m b (Z.of_nat (length x) + 1) →
  disjoint_range b (Z.of_nat (length x) + 1) a (Z.of_nat (length x) + 1) → 0 ≤ n < 2 ^ 32 →
  is_u32 v → 2 ≤ radix ≤ 36 →
  agrees (ece391_strlen fuel a) (strlen a) s m ∧
  agrees (_ ← ece391_strcpy fuel b a; mret b) (strcpy b a) s m ∧
  agrees (ece391_strrev fuel a) (strrev a) s m ∧
  agrees (ece391_itoa fuel v b radix) (itoa v b radix) s m ∧
  agrees (r ← ece391_strncmp fuel a b n; mret (bool_decide (r = 0)))
    (r ← strncmp a b n; mret (bool_decide (r = 0))) s m.
Proof using MemView0.
  intros HR Hx Hy Hf H32 Hl Hb Hbx Hd Hn Hv Hr.
  destruct (digits_length radix Hr v) as [Hdl|]; [|unfold is_u32 in *; lia].
  assert (mapped m b (Z.of_nat (length (digits v radix)) + 1)) as Hbd by (eapply mapped_sub; [exact Hb|lia|lia]).
  split; [|split; [|split; [|split]]].
  - exists (Z.of_nat (length x)), m. split; [apply strlen_ok; [done|lia]|]. apply strlen_wp; [done|done|lia|done].
  - exists b, (put_bytes m b (x ++ [0])). split; [by apply strcpy_ok|].
    rewrite wp_bind. eapply wp_mono; [by apply (strcpy_wp s m b a x)|]. done.
  - exists a, (put_bytes m a (reverse x)). split; [by apply strrev_ok|].
    eapply strrev_follows; [exact HR|]. by apply strrev_plain.
  - exists b, (put_bytes m b (digits v radix ++ [0])). split; [by apply itoa_ok|]. by apply itoa_wp.
  - destruct (strncmp_plain m fuel a b x y n) as (r & E & Er); [done..|].
    destruct Hx as [Hbx' Cx], Hy as [Hby Cy].
    destruct (ncmp_cstr (Z.to_nat n) x y Cx Cy) as (r' & Hr' & Er').
    pose proof (strncmp_ok m a b n _ _ r' Hbx' Hby) as E'.
    exists (bool_decide (r' = 0)), m. split; [erewrite bind_ok by exact (E' Hr'); done|].
    rewrite wp_bind. eapply wp_mono; [eapply strncmp_follows; [exact HR|exact E]|]. cbv beta.
    intros ? s' [-> HR']. split; [|done]. apply bool_decide_ext. rewrite Er, Er'. done.
Qed.
End library_ok.

#[global] Instance plain_view : @MemView mem plain_mem eq.
Proof. split; intros x; [|intros y]; intros s m r m' -> E; unfold wp; cbn; rewrite E; done. Qed.

Definition ex_strings : mem := mem_of [(100, chars "stop" ++ [0]); (200, chars "stones" ++ replicate 60 0)].
Lemma support_agrees_with_lib_witness :
  agrees (R := eq) (@ece391_strlen mem plain_mem 50 100) (strlen 100) ex_strings ex_strings ∧
  agrees (R := eq) (_ ← @ece391_strcpy mem plain_mem 50 200 100; mret 200) (strcpy 200 100) ex_strings ex_strings ∧
  agrees (R := eq) (@ece391_strrev mem plain_mem 50 100) (strrev 100) ex_strings ex_strings ∧
  agrees (R := eq) (@ece391_itoa mem plain_mem 50 4096 200 16) (itoa 4096 200 16) ex_strings ex_strings ∧
  agrees (R := eq) (r ← @ece391_strncmp mem plain_mem 50 100 200 3; mret (bool_decide (r = 0)))
    (r ← strncmp 100 200 3; mret (bool_decide (r = 0))) ex_strings ex_strings.
Proof.
  apply (@support_agrees_with_lib mem plain_mem eq plain_view 50 ex_strings ex_strings 100 200
    (chars "stop") (chars "stones")).
  - reflexivity.
  - apply (bool_decide_unpack _). by vm_compute.
  - apply (bool_decide_unpack _). by vm_compute.
  - cbn. lia.
  - lia.
  - cbn. lia.
  - apply (bool_decide_unpack _). by vm_compute.
  - apply (bool_decide_unpack _). by vm_compute.
  - apply (bool_decide_unpack _). by vm_compute.
  - lia.
  - unfold is_u32. lia.
  - lia.
Defined.
