(* ===== verification/UserProgs.v ===== *)
(** * The user programs ([src/syscalls])

    [main] of each program; its local arrays are at the addresses given, and
    its loops run within the fuel given. The value is what [main] returns. *)

From S2P Require Import Prelude CInt CString UserLib.

Section programs.
Context {S : Type} `{Sys S} `{Literals} (fuel : nat).

Definition fdputs (s : list Z) : K S unit := ece391_fdputs fuel 1 (lit s).

(** ** [ece391cat.c] *)
Fixpoint cat_loop (fuel' : nat) (fd buf : Z) : K S Z :=
  match fuel' with
  | O => kspin
  | Datatypes.S fuel' =>
      cnt ← ece391_read fd buf 1024;
      if bool_decide (0 ≠ cnt) then
        if bool_decide (-1 = cnt) then
          _ ← fdputs (chars "file read failed" ++ newline); mret 3
        else
          w ← ece391_write 1 buf cnt;
          if bool_decide (-1 = w) then mret 3 else cat_loop fuel' fd buf
      else mret 0
  end.
Definition cat_main (buf : Z) : K S Z :=
  r ← ece391_getargs buf 1024;
  if bool_decide (0 ≠ r) then
    _ ← fdputs (chars "could not read arguments" ++ newline); mret 3
  else
    fd ← ece391_open buf;
    if bool_decide (-1 = fd) then
      _ ← fdputs (chars "file not found" ++ newline); mret 2
    else cat_loop fuel fd buf.

(** ** [ece391ls.c] *)
Definition SBUFSIZE := 33.
Fixpoint ls_loop (fuel' : nat) (fd buf : Z) : K S Z :=
  match fuel' with
  | O => kspin
  | Datatypes.S fuel' =>
      cnt ← ece391_read fd buf (SBUFSIZE - 1);
      if bool_decide (0 ≠ cnt) then
        if bool_decide (-1 = cnt) then
          _ ← fdputs (chars "directory entry read failed" ++ newline); mret 3
        else
          _ ← u_store8 (buf + cnt) 10;
          w ← ece391_write 1 buf (cnt + 1);
          if bool_decide (-1 = w) then mret 3 else ls_loop fuel' fd buf
      else mret 0
  end.
Definition ls_main (buf : Z) : K S Z :=
  fd ← ece391_open (lit (chars "."));
  if bool_decide (-1 = fd) then
    _ ← fdputs (chars "directory open failed" ++ newline); mret 2
  else ls_loop fuel fd buf.

(** ** [ece391hello.c] *)
Definition hello_main (buf : Z) : K S Z :=
  _ ← fdputs (chars "Hi, what's your name? ");
  cnt ← ece391_read 0 buf (1024 - 1);
  if bool_decide (-1 = cnt) then
    _ ← fdputs (chars "Can't read name from keyboard." ++ newline); mret 3
  else
    _ ← u_store8 (buf + cnt) 0;
    _ ← fdputs (chars "Hello, ");
    _ ← ece391_fdputs fuel 1 buf;
    mret 0.

(** ** [ece391testprint.c] *)
Definition testprint_main : K S Z :=
  _ ← fdputs (chars "Hello, if this ran, the program was correct. Yay!" ++ newline); mret 0.

(** ** [ece391counter.c]; [cnt] is unsigned, and only compared with -1. *)
Fixpoint counter_loop (fuel' : nat) (i max buf : Z) : K S unit :=
  match fuel' with
  | O => kspin
  | Datatypes.S fuel' =>
      if bool_decide (i < max) then
        _ ← ece391_itoa fuel (u32 (i + 1)) buf 10;
        _ ← ece391_fdputs fuel 1 buf;
        _ ← fdputs newline;
        counter_loop fuel' (u32 (i + 1)) max buf
      else mret tt
  end.
Definition counter_main (buf : Z) : K S Z :=
  _ ← fdputs (chars "Enter the Test Number: (0): 100, (1): 10000, (2): 100000" ++ newline);
  r ← ece391_read 0 buf (1024 - 1);
  let cnt := u32 r in
  if bool_decide (u32 (-1) = cnt) then
    _ ← fdputs (chars "Can't read the number from keyboard." ++ newline); mret 3
  else
    _ ← u_store8 (buf + cnt) 0;
    n ← ece391_strlen fuel buf;
    wrong ← (if bool_decide (n > 2) then mret true
            else
              n ← ece391_strlen fuel buf;
              if bool_decide (n = 2) then
                c ← u_load8 buf;
                if bool_decide (c < 48) then mret true
                else c ← u_load8 buf; mret (bool_decide (c > 50))
              else mret false);
    if (wrong : bool) then _ ← fdputs (chars "Wrong Choice!" ++ newline); mret 0
    else
      c ← u_load8 buf;
      let max := if bool_decide (c = 48) then 100
                 else if bool_decide (c = 49) then 10000
                 else if bool_decide (c = 50) then 100000 else 0 in
      _ ← counter_loop fuel 0 max buf;
      mret 0.

(** ** [ece391shell.c] *)
Fixpoint shell_loop (fuel' : nat) (buf : Z) : K S Z :=
  match fuel' with
  | O => kspin
  | Datatypes.S fuel' =>
      _ ← fdputs (chars "391OS> ");
      cnt ← ece391_read 0 buf (1024 - 1);
      if bool_decide (-1 = cnt) then
        _ ← fdputs (chars "read from keyboard failed" ++ newline); mret 3
      else
        cnt ← (if bool_decide (cnt > 0) then
                c ← u_load8 (buf + (cnt - 1)); mret (if bool_decide (10 = c) then cnt - 1 else cnt)
              else mret cnt);
        _ ← u_store8 (buf + cnt) 0;
        e ← ece391_strcmp fuel buf (lit (chars "exit"));
        if bool_decide (0 = e) then mret 0
        else
          c ← u_load8 buf;
          if bool_decide (0 = c) then shell_loop fuel' buf
          else
            rval ← ece391_execute buf;
            _ ← (if bool_decide (-1 = rval) then fdputs (chars "no such command" ++ newline)
                else if bool_decide (256 = rval) then
                  fdputs (chars "program terminated by exception" ++ newline)
                else if bool_decide (0 ≠ rval) then
                  fdputs (chars "program terminated abnormally" ++ newline)
                else mret tt);
            shell_loop fuel' buf
  end.
Definition shell_main (buf : Z) : K S Z :=
  _ ← fdputs (chars "Starting 391 Shell" ++ newline); shell_loop fuel buf.

(** ** [ece391grep.c] *)
Definition GREP_BUFSIZE := 1024.

(** [while (line_end < last && '\n' != data[line_end]) line_end++;] *)
Fixpoint find_line_end (fuel' : nat) (data line_end last : Z) : K S Z :=
  match fuel' with
  | O => kspin
  | Datatypes.S fuel' =>
      if bool_decide (line_end < last) then
        c ← u_load8 (data + line_end);
        if bool_decide (10 ≠ c) then find_line_end fuel' data (line_end + 1) last
        else mret line_end
      else mret line_end
  end.
(** The search of one line, from [check] on. *)
Fixpoint search_line (fuel' : nat) (s fname s_len data line_start line_end check : Z) : K S unit :=
  match fuel' with
  | O => kspin
  | Datatypes.S fuel' =>
      if bool_decide (check < line_end) then
        s0 ← u_load8 s;
        c ← u_load8 (data + check);
        found ← (if bool_decide (s0 = c) then
                  r ← ece391_strncmp fuel (data + check) s (u32 s_len); mret (bool_decide (0 = r))
                else mret false);
        if (found : bool) then
          _ ← ece391_fdputs fuel 1 fname;
          _ ← fdputs (chars ":");
          _ ← ece391_fdputs fuel 1 (data + line_start);
          fdputs newline
        else search_line fuel' s fname s_len data line_start line_end (check + 1)
      else mret tt
  end.
(** The lines of the buffer; gives the new [last]. *)
Fixpoint grep_lines (fuel' : nat) (s fname s_len data cnt last line_start : Z) : K S Z :=
  match fuel' with
  | O => kspin
  | Datatypes.S fuel' =>
      line_end ← find_line_end fuel data line_start last;
      c ← u_load8 (data + line_end);
      if bool_decide (10 ≠ c) && bool_decide (0 ≠ cnt) && bool_decide (line_start ≠ 0) then
        _ ← u_store8 (data + line_end) 0;
        _ ← ece391_strcpy fuel data (data + line_start);
        mret (last - line_start)
      else
        _ ← u_store8 (data + line_end) 0;
        _ ← search_line fuel s fname s_len data line_start line_end line_start;
        let line_start := line_end + 1 in
        if bool_decide (line_start >= last) then mret 0
        else grep_lines fuel' s fname s_len data cnt last line_start
  end.
(** The loop over the file: 0 at its end, -1 when a read fails. *)
Fixpoint grep_file (fuel' : nat) (s fname s_len data fd last : Z) : K S Z :=
  match fuel' with
  | O => kspin
  | Datatypes.S fuel' =>
      cnt ← ece391_read fd (data + last) (GREP_BUFSIZE - last);
      if bool_decide (-1 = cnt) then
        _ ← fdputs (chars "file read failed" ++ newline); mret (-1)
      else
        last ← grep_lines fuel s fname s_len data cnt (last + cnt) 0;
        if bool_decide (0 = cnt) then mret 0
        else grep_file fuel' s fname s_len data fd last
  end.
Definition do_one_file (s fname data : Z) : K S Z :=
  n ← ece391_strlen fuel s;
  let s_len := s32 n in
  fd ← ece391_open fname;
  if bool_decide (-1 = fd) then
    _ ← fdputs (chars "file open failed" ++ newline); mret (-1)
  else
    r ← grep_file fuel s fname s_len data fd 0;
    if bool_decide (r = -1) then mret (-1)
    else
      c ← ece391_close fd;
      if bool_decide (-1 = c) then
        _ ← fdputs (chars "file close failed" ++ newline); mret (-1)
      else mret 0.
Fixpoint grep_loop (fuel' : nat) (fd buf search data : Z) : K S Z :=
  match fuel' with
  | O => kspin
  | Datatypes.S fuel' =>
      cnt ← ece391_read fd buf (SBUFSIZE - 1);
      if bool_decide (0 ≠ cnt) then
        if bool_decide (-1 = cnt) then
          _ ← fdputs (chars "directory entry read failed" ++ newline); mret 3
        else
          c ← u_load8 buf;
          if bool_decide (46 = c) then grep_loop fuel' fd buf search data
          else
            _ ← u_store8 (buf + cnt) 0;
            r ← do_one_file search buf data;
            if bool_decide (0 ≠ r) then mret 3 else grep_loop fuel' fd buf search data
      else mret 0
  end.
Definition grep_main (buf search data : Z) : K S Z :=
  r ← ece391_getargs search GREP_BUFSIZE;
  if bool_decide (0 ≠ r) then
    _ ← fdputs (chars "could not read argument" ++ newline); mret 3
  else
    fd ← ece391_open (lit (chars "."));
    if bool_decide (-1 = fd) then
      _ ← fdputs (chars "directory open failed" ++ newline); mret 2
    else grep_loop fuel fd buf search data.

(** ** [ece391pingpong.c]; the macros are sums without parentheses. *)
Definition SCREENWIDTH := 79.
Definition ENDING := 2.
Definition BUFMAX := SCREENWIDTH + ENDING.
Definition START := 1.
Definition STARTLOOP := START + 1.
Definition LOOPMAX := BUFMAX - ENDING - 1.
Definition STARTCHAR := 65.
Definition ENDCHAR := 90.

(** One picture: the character at column [j], then a wait for the clock. *)
Definition pingpong_frame (rtc_fd buf garbage curchar j : Z) : K S unit :=
  _ ← for_loop (Z.to_nat (LOOPMAX - STARTLOOP)) STARTLOOP (λ i, u_store8 (buf + i) 32);
  _ ← u_store8 (buf + j) curchar;
  _ ← ece391_fdputs fuel 1 buf;
  _ ← ece391_read rtc_fd garbage 4;
  mret tt.
(** The body of [while(1)]: out and back; gives the next character. *)
Definition pingpong_round (rtc_fd buf garbage curchar : Z) : K S Z :=
  let n := Z.to_nat (LOOPMAX - STARTLOOP) in
  _ ← for_loop n STARTLOOP (pingpong_frame rtc_fd buf garbage curchar);
  _ ← for_loop n 0 (λ k, pingpong_frame rtc_fd buf garbage curchar (LOOPMAX - 1 - k));
  mret (if bool_decide (curchar = ENDCHAR) then STARTCHAR else u8 (curchar + 1)).
Fixpoint pingpong_loop (rounds : nat) (rtc_fd buf garbage curchar : Z) : K S Z :=
  match rounds with
  | O => kspin
  | Datatypes.S rounds' =>
      curchar ← pingpong_round rtc_fd buf garbage curchar;
      pingpong_loop rounds' rtc_fd buf garbage curchar
  end.
Definition pingpong_start (buf ret_val : Z) : K S Z :=
  _ ← for_loop (Z.to_nat BUFMAX) 0 (λ i, u_store8 (buf + i) 32);
  _ ← u_store8 (buf + (BUFMAX - 1)) 0;
  _ ← u_store8 (buf + (BUFMAX - 2)) 10;
  _ ← u_store8 (buf + (BUFMAX - 3)) 124;
  _ ← u_store8 (buf + START) 124;
  rtc_fd ← ece391_open (lit (chars "rtc"));
  _ ← u_store32 ret_val 32;
  r ← ece391_write rtc_fd ret_val 4;
  _ ← u_store32 ret_val r;
  mret rtc_fd.
Definition pingpong_main (buf ret_val garbage : Z) : K S Z :=
  rtc_fd ← pingpong_start buf ret_val; pingpong_loop fuel rtc_fd buf garbage STARTCHAR.

(** ** [ece391sigtest.c]: the statics [charbuf] and [badbuf] and the two
    handlers are at the addresses given. *)
Definition SEGFAULT := 1.
Definition ALARM := 3.
Definition print_signum (signum : Z) : K S unit :=
  if bool_decide (signum = 0) then fdputs (chars "0" ++ newline)
  else if bool_decide (signum = 1) then fdputs (chars "1" ++ newline)
  else if bool_decide (signum = 2) then fdputs (chars "2" ++ newline)
  else if bool_decide (signum = 3) then fdputs (chars "3" ++ newline)
  else fdputs (chars "invalid" ++ newline).
(** [&signum + 7] is 28 bytes above the parameter. *)
Definition segfault_sighandler (charbuf badbuf buf signum_at signum : Z) : K S unit :=
  _ ← fdputs (chars "Segfault signal handler called, signum: ");
  _ ← print_signum signum;
  _ ← fdputs (chars "Press enter to continue..." ++ newline);
  _ ← ece391_read 0 buf 1;
  _ ← u_store32 badbuf charbuf;
  _ ← u_store32 (signum_at + 28) charbuf;
  fdputs (chars "Signal handler returning" ++ newline).
Definition alarm_sighandler (signum : Z) : K S unit :=
  _ ← fdputs (chars "Alarm signal handler called, signum: ");
  print_signum signum.
Definition sigtest_main (charbuf badbuf on_segfault on_alarm buf : Z) : K S Z :=
  r ← ece391_getargs buf 1024;
  if bool_decide (0 ≠ r) then
    _ ← fdputs (chars "could not read argument" ++ newline); mret 3
  else
    c ← u_load8 buf;
    _ ← (if bool_decide (c = 49) then
          _ ← fdputs (chars "Installing signal handlers" ++ newline);
          _ ← ece391_set_handler SEGFAULT on_segfault;
          _ ← ece391_set_handler ALARM on_alarm; mret tt
        else mret tt);
    _ ← fdputs (chars "Hi, what's your name? ");
    cnt ← ece391_read 0 buf (1024 - 1);
    if bool_decide (-1 = cnt) then
      _ ← fdputs (chars "Can't read name from keyboard." ++ newline); mret 3
    else
      p ← u_load32 badbuf;
      _ ← u_store8 p 1;
      _ ← u_store8 (buf + cnt) 0;
      _ ← fdputs (chars "Hello, ");
      _ ← ece391_fdputs fuel 1 buf;
      c ← u_load8 charbuf;
      _ ← (if bool_decide (c = 1) then fdputs (chars "success" ++ newline)
          else fdputs (chars "failure" ++ newline));
      mret 0.
End programs.
