(* ===== verification/UserTests.v ===== *)
(** * The test program of the system calls ([ece391syserr.c]) *)

From S2P Require Import Prelude CInt CString UserLib UserProgs.

Definition NEG_FD := -1073741823.
Definition BIG_FD := 1073741823.
Definition BIG_NUM := 1073741823.
Definition NEG_NUM := -1073741823.

Section tests.
Context {S : Type} `{Sys S} `{Literals} (fuel : nat).
Notation fdputs := (fdputs fuel).

(** [if (-1 != r) { fail = 2; ece391_fdputs (1, msg); }] *)
Definition expect_error (r fail : Z) (msg : list Z) : K S Z :=
  if bool_decide (-1 ≠ r) then _ ← fdputs msg; mret 2 else mret fail.
(** [if (fail) ... FAIL ... else ... PASS ...; return fail;] *)
Definition report (name : list Z) (fail : Z) : K S Z :=
  _ ← (if bool_decide (fail ≠ 0) then fdputs (name ++ chars ": FAIL" ++ newline)
      else fdputs (name ++ chars ": PASS" ++ newline));
  mret fail.

Definition err_neg_fd (buf : Z) : K S Z :=
  r ← ece391_read NEG_FD buf 31;
  fail ← expect_error r 0 (chars "read fail" ++ newline);
  r ← ece391_write NEG_FD buf 31;
  fail ← expect_error r fail (chars "write fail" ++ newline);
  r ← ece391_close NEG_FD;
  fail ← expect_error r fail (chars "close fail" ++ newline);
  report (chars "err_neg_fd") fail.

Definition err_big_fd (buf : Z) : K S Z :=
  r ← ece391_read BIG_FD buf 31;
  fail ← expect_error r 0 (chars "read fail" ++ newline);
  r ← ece391_write BIG_FD buf 31;
  fail ← expect_error r fail (chars "write fail" ++ newline);
  r ← ece391_close BIG_FD;
  fail ← expect_error r fail (chars "close fail" ++ newline);
  report (chars "err_big_fd") fail.

(** The loop that opens; counts the failures. *)
Fixpoint open_lots (n : nat) (cnt : Z) : K S Z :=
  match n with
  | O => mret cnt
  | Datatypes.S n' =>
      r ← ece391_open (lit (chars "."));
      open_lots n' (if bool_decide (-1 = r) then cnt + 1 else cnt)
  end.
Definition err_open_lots : K S Z :=
  cnt ← open_lots 7 0;
  _ ← for_loop 6 2 (λ i, _ ← ece391_close i; mret tt);
  if bool_decide (cnt = 1) then
    _ ← fdputs (chars "err_open_lots: PASS" ++ newline); mret 0
  else
    _ ← fdputs (chars "err_open_lots: FAIL" ++ newline); mret 2.

Definition err_open : K S Z :=
  r ← ece391_open (lit (chars "helloo"));
  fail ← expect_error r 0 (chars "'helloo' fail" ++ newline);
  r ← ece391_open (lit (chars "shel"));
  fail ← expect_error r fail (chars "'shel' fail" ++ newline);
  r ← ece391_open (lit []);
  fail ← expect_error r fail (chars "empty string fail" ++ newline);
  report (chars "err_open") fail.

(** [for (i = first; i < first + n; i++) if (-1 != call(i)) ...] *)
Fixpoint expect_errors (n : nat) (i : Z) (call : Z → K S Z) (fail : Z) (msg : list Z) : K S Z :=
  match n with
  | O => mret fail
  | Datatypes.S n' =>
      r ← call i; fail ← expect_error r fail msg; expect_errors n' (i + 1) call fail msg
  end.
Definition err_unopened (buf : Z) : K S Z :=
  fail ← expect_errors 8 0 ece391_close 0 (chars "close unopened or invalid fd fail" ++ newline);
  fail ← expect_errors 6 2 (λ i, ece391_read i buf 31) fail (chars "read from unopened fd fail" ++ newline);
  fail ← expect_errors 6 2 (λ i, ece391_write i buf 31) fail (chars "write to unopened fd fail" ++ newline);
  report (chars "err_unopened") fail.

Definition err_vidmap : K S Z :=
  r ← ece391_vidmap 0;
  fail ← expect_error r 0 (chars "Null pointer fail" ++ newline);
  r ← ece391_vidmap 0x400000;
  fail ← expect_error r fail (chars "Kernel pointer fail fail" ++ newline);
  report (chars "err_vidmap") fail.

Definition err_stdin_out (buf : Z) : K S Z :=
  r ← ece391_write 0 buf 31;
  fail ← expect_error r 0 (chars "write to stdin fail" ++ newline);
  r ← ece391_read 1 buf 31;
  fail ← expect_error r fail (chars "read from stdout fail" ++ newline);
  report (chars "err_stdin_out") fail.

Definition err_syscall_num : K S Z :=
  r ← call_sys BIG_NUM;
  fail ← expect_error r 0 (chars "syscall 0 fail" ++ newline);
  r ← call_sys NEG_NUM;
  fail ← expect_error r fail (chars "big num syscall fail" ++ newline);
  r ← call_sys 0;
  fail ← expect_error r fail (chars "neg num syscall fail" ++ newline);
  report (chars "err_syscall_num") fail.

(** The arrays of the tests at [b], that of [main] at [buf]. *)
Definition all_tests (b : Z) : K S Z :=
  f1 ← err_neg_fd b; f2 ← err_big_fd b; f3 ← err_open_lots; f4 ← err_open;
  f5 ← err_unopened b; f6 ← err_vidmap; f7 ← err_stdin_out b; f8 ← err_syscall_num;
  let fail := f1 + f2 + f3 + f4 + f5 + f6 + f7 + f8 in
  _ ← (if bool_decide (fail ≠ 0) then fdputs (newline ++ chars "Overall Tests: FAIL" ++ newline)
      else fdputs (newline ++ chars "Overall Tests: PASS" ++ newline));
  mret fail.
Definition syserr_main (b buf : Z) : K S Z :=
  _ ← fdputs (chars "Choose from tests 1-8. 0 to run all: ");
  cnt ← ece391_read 0 buf 127;
  if bool_decide (-1 = cnt) then
    _ ← fdputs (chars "Can't read test #" ++ newline); mret 2
  else
    c ← u_load8 buf;
    let select := c - 48 in
    if bool_decide (select = 0) then all_tests b
    else if bool_decide (select = 1) then err_neg_fd b
    else if bool_decide (select = 2) then err_big_fd b
    else if bool_decide (select = 3) then err_open_lots
    else if bool_decide (select = 4) then err_open
    else if bool_decide (select = 5) then err_unopened b
    else if bool_decide (select = 6) then err_vidmap
    else if bool_decide (select = 7) then err_stdin_out b
    else if bool_decide (select = 8) then err_syscall_num
    else _ ← fdputs (chars "Invalid test number. Choose from tests 1-8 or 0"); mret 0.
End tests.
