(* ===== verification/UserSpec.v ===== *)
(** * What the system calls promise a user program

    A process as its program sees it: its memory, its descriptors, the
    terminal it writes to, its arguments, the lines that will be typed. The
    class [ProcSys] states how the calls change that view. *)

From S2P Require Import Prelude CInt Memory CString Screen UserLib SupportSpec.

(** What a descriptor refers to: a file and the bytes left of it, a directory
    and the names left to read, the clock, the terminal. *)
Inductive obj : Type :=
  | OFile (rest : list Z)
  | ODir (names : list (list Z))
  | ORtc
  | OTerm.

Record view : Type := Mk_view {
  vm : mem;
  vfds : gmap Z obj;
  vtty : tty;
  vargs : list Z;
  vin : list (list Z);
}.
#[global] Instance Set_vm : Setter vm := λ g v, Mk_view (g (vm v)) (vfds v) (vtty v) (vargs v) (vin v).
#[global] Instance Set_vfds : Setter vfds := λ g v, Mk_view (vm v) (g (vfds v)) (vtty v) (vargs v) (vin v).
#[global] Instance Set_vtty : Setter vtty := λ g v, Mk_view (vm v) (vfds v) (g (vtty v)) (vargs v) (vin v).
#[global] Instance Set_vin : Setter vin := λ g v, Mk_view (vm v) (vfds v) (vtty v) (vargs v) (g (vin v)).

(** The descriptor [open] gives. *)
Definition lowest_fd (v : view) : option Z :=
  head (filter (λ i, vfds v !! i = None) (seqZ 2 6)).
(** What a write of these bytes to the terminal shows: a zero byte is not
    shown, except that one at the end starts a new line. *)
Definition shown (l : list Z) : list Z :=
  filter (λ c, c ≠ 0) l ++ (if decide (last l = Some 0) then newline else []).

Lemma filter_nonzero (l : list Z) : Forall (λ c, c ≠ 0) l → filter (λ c, c ≠ 0) l = l.
Proof. induction 1 as [|c l Hc _ IH]; [done|]. by rewrite filter_cons, decide_True, IH. Qed.
Lemma shown_text l : Forall (λ c, c ≠ 0) l → shown l = l.
Proof.
  intros Hl. unfold shown. rewrite filter_nonzero by done. rewrite decide_False; [by rewrite app_nil_r|].
  intros E. apply last_Some in E as [k ->]. apply Forall_app in Hl as [_ Hl]. by inversion Hl.
Qed.

(** Programs rely on this: [dir] gives what a name opens, [keys] what typed
    keys make of the terminal and the line. *)
Class ProcSys (S : Type) `{Sys S} (dir : list Z → option obj)
    (keys : list Z → tty → option (list Z * tty)) (rep : S → view → Prop) : Prop := {
  law_load s v a x : rep s v → vm v !! a = Some x → u_load8 a s = Ok (x, s);
  law_store s v a x : rep s v → is_Some (vm v !! a) →
    wp (u_store8 a x) (λ _ s', rep s' (v <| vm ::= <[a := u8 x]> |>)) s;
  law_open s v p name : rep s v → cstr_at (vm v) p name →
    wp (ece391_open p) (λ r s',
      match lowest_fd v, dir name with
      | Some i, Some o => r = i ∧ rep s' (v <| vfds ::= <[i := o]> |>)
      | _, _ => r = -1 ∧ rep s' v
      end) s;
  law_close s v fd : rep s v → - 2 ^ 31 ≤ fd < 2 ^ 31 →
    wp (ece391_close fd) (λ r s',
      if decide (2 ≤ fd < 8 ∧ is_Some (vfds v !! fd))
      then r = 0 ∧ rep s' (v <| vfds ::= delete fd |>) else r = -1 ∧ rep s' v) s;
  law_read_file s v fd rest buf n : rep s v → vfds v !! fd = Some (OFile rest) →
    0 < n < 2 ^ 31 → mapped (vm v) buf n →
    wp (ece391_read fd buf n) (λ r s', ∃ bs rest', rest = bs ++ rest' ∧
      r = Z.of_nat (length bs) ∧ r ≤ n ∧ (rest ≠ [] → bs ≠ []) ∧
      rep s' ((v <| vm ::= λ m, put_bytes m buf bs |>) <| vfds ::= <[fd := OFile rest']> |>)) s;
  law_read_dir s v fd names buf n : rep s v → vfds v !! fd = Some (ODir names) →
    0 < n < 2 ^ 31 → mapped (vm v) buf n →
    wp (ece391_read fd buf n) (λ r s',
      match names with
      | [] => r = 0 ∧ rep s' v
      | name :: names' => r = n ∧
          let bs := take (Z.to_nat n) name in
          rep s' ((v <| vm ::= λ m, put_bytes m buf
            (bs ++ replicate (Z.to_nat n - length bs) 0) |>) <| vfds ::= <[fd := ODir names']> |>)
      end) s;
  law_read_term s v ks ins l t buf n : rep s v → vin v = ks :: ins →
    keys ks (vtty v) = Some (l, t) → 0 ≤ n < 2 ^ 31 → mapped (vm v) buf (n + 1) →
    wp (ece391_read 0 buf n) (λ r s', r = Z.min n (Z.of_nat (length l)) ∧
      rep s' (((v <| vm ::= λ m, put_bytes m buf
        (take (Z.to_nat r) l ++ replicate (Z.to_nat (n + 1 - r)) 0) |>)
        <| vtty := t |>) <| vin := ins |>)) s;
  law_read_bad s v fd buf n : rep s v → ¬ (fd = 0 ∨ 2 ≤ fd < 8 ∧ is_Some (vfds v !! fd)) →
    - 2 ^ 31 ≤ fd < 2 ^ 31 → wp (ece391_read fd buf n) (λ r s', r = -1 ∧ rep s' v) s;
  law_write s v buf l : rep s v → bytes_at (vm v) buf l → Forall is_u8 l →
    Z.of_nat (length l) < 2 ^ 31 →
    wp (ece391_write 1 buf (Z.of_nat (length l))) (λ r s', 0 ≤ r ∧
      rep s' (v <| vtty ::= tty_puts (shown l) |>)) s;
  law_write_bad s v fd buf n : rep s v → ¬ (fd = 1 ∨ 2 ≤ fd < 8 ∧ is_Some (vfds v !! fd)) →
    - 2 ^ 31 ≤ fd < 2 ^ 31 → wp (ece391_write fd buf n) (λ r s', r = -1 ∧ rep s' v) s;
  (* the string that is in the buffer is cleared first; the arguments are
     copied without their end *)
  law_getargs s v buf n g : rep s v → cstr_at (vm v) buf g → Z.of_nat (length g) < 2 ^ 31 →
    mapped (vm v) buf n → 0 ≤ n < 2 ^ 31 →
    wp (ece391_getargs buf n) (λ r s',
      let v := v <| vm ::= λ m, put_bytes m buf (replicate (length g) 0) |> in
      if decide (vargs v = [] ∨ n < Z.of_nat (length (vargs v))) then r = -1 ∧ rep s' v
      else r = 0 ∧ rep s' (v <| vm ::= λ m, put_bytes m buf (vargs v) |>)) s;
  law_vidmap_bad s v a : rep s v → 0 ≤ a < 2 ^ 27 →
    wp (ece391_vidmap a) (λ r s', r = -1 ∧ rep s' v) s;
  law_call_bad s v n : rep s v → - 2 ^ 31 ≤ n < 2 ^ 31 → ¬ (1 ≤ n ≤ 10) →
    wp (call_sys n) (λ r s', r = -1 ∧ rep s' v) s;
}.

(** ** The support library *)
Section support.
Context {St : Type} `{Sys St} `{Literals} {dir : list Z → option obj}.
Context {keys : list Z → tty → option (list Z * tty)} {rep : St → view → Prop}.
Context `{!ProcSys St dir keys rep} (fuel : nat).

(** The memory of the process is a user memory. *)
#[global] Instance proc_mem v : MemView St (λ s m, rep s (v <| vm := m |>)).
Proof using ProcSys0.
  split.
  - intros a s m x m' Hr E. unfold load8 in E. destruct (m !! a) as [y|] eqn:Ea; [|done]. simplify_eq.
    eapply wp_run; [by eapply law_load|]. done.
  - intros a x s m y m' Hr E. unfold store8 in E. destruct (m !! a) as [z|] eqn:Ea; [|done]. simplify_eq.
    eapply wp_mono; [eapply law_store; [exact Hr|by exists z]|]. intros [] s' Hr'. by split.
Qed.

(** Writing a string shows it. *)
Lemma ece391_fdputs_ok s v a str : rep s v → cstr_at (vm v) a str →
  Z.of_nat (length str) < 2 ^ 31 → (length str < fuel)%nat →
  wp (ece391_fdputs fuel 1 a) (λ _ s', rep s' (v <| vtty ::= tty_puts str |>)) s.
Proof using ProcSys0.
  intros Hr Hs Hl Hf. unfold ece391_fdputs. rewrite wp_bind.
  eapply wp_mono; [apply (strlen_wp (R := λ s m, rep s (v <| vm := m |>)) fuel s (vm v) a str); [by destruct v|done|lia|done]|].
  cbv beta. intros ? s1 [-> Hr1]. replace (v <| vm := vm v |>) with v in Hr1 by (by destruct v).
  rewrite wp_bind, s32_id by (unfold is_s32; lia).
  pose proof (cstr_at_u8 _ _ _ Hs) as Hu. destruct Hs as [Hb Hc].
  apply bytes_at_app in Hb as [Hb _].
  eapply wp_mono; [by apply (law_write s1 v a str)|]. cbv beta. intros r s' [_ Hr'].
  rewrite shown_text in Hr'; [exact Hr'|]. eapply Forall_impl; [exact Hc|]. unfold is_char. lia.
Qed.
End support.
