(* ===== verification/ProgSpec.v ===== *)
(** * What the user programs do

    [cat], [ls], [hello] and the tests, over any system that keeps the
    promises of [ProcSys]. *)

From S2P Require Import Prelude CInt Memory CString Screen Printf UserLib UserProgs.
From S2P Require Import UserTests UserSpec.

Section programs.
Context {St : Type} `{Sys St} `{Literals} {dir : list Z → option obj}.
Context {keys : list Z → tty → option (list Z * tty)} {rep : St → view → Prop}.
Context `{!ProcSys St dir keys rep} (fuel : nat).

(** A literal of the program, whatever its buffers hold. *)
Lemma fdputs_ok s v str : rep s v → cstr_at (vm v) (lit str) str →
  Z.of_nat (length str) < 2 ^ 31 → (length str < fuel)%nat →
  wp (fdputs fuel str) (λ _ s', rep s' (v <| vtty ::= tty_puts str |>)) s.
Proof using ProcSys0. apply ece391_fdputs_ok. Qed.

Lemma lowest_fd_range v i : lowest_fd v = Some i → 2 ≤ i < 8.
Proof using Type.
  unfold lowest_fd. destruct (filter _ _) as [|j l] eqn:Ef; [done|]. cbn. intros E.
  injection E as ->. assert (i ∈ filter (λ i, vfds v !! i = None) (seqZ 2 6)) as Hin
    by (rewrite Ef; left).
  apply list_elem_of_filter in Hin as [_ Hin%elem_of_seqZ]. lia.
Qed.

(** ** cat *)

(** The file comes in pieces, each of which is shown. *)
Lemma cat_loop_ok f s v fd buf rest : rep s v → vfds v !! fd = Some (OFile rest) →
  mapped (vm v) buf 1024 → Forall is_u8 rest → (length rest < f)%nat →
  wp (cat_loop fuel f fd buf) (λ r s', r = 0 ∧ ∃ v' pieces, rep s' v' ∧ mjoin pieces = rest ∧
    vtty v' = tty_puts (pieces ≫= shown) (vtty v)) s.
Proof using ProcSys0.
  revert s v rest. induction f as [|f IH]; intros s v rest Hr Hfd Hm Hc Hf; [lia|].
  cbn [cat_loop]. rewrite wp_bind. eapply wp_mono; [by apply (law_read_file s v fd rest)|].
  cbv beta. intros r s1 (bs & rest' & -> & -> & Hle & Hne & Hr1).
  apply Forall_app in Hc as [Hcb Hcr]. destruct bs as [|c bs].
  { destruct rest' as [|x rest']; [|by destruct (Hne ltac:(done))]. cbn. split; [done|].
    eexists _, []. split; [exact Hr1|]. done. }
  rewrite bool_decide_eq_true_2, bool_decide_eq_false_2 by (cbn; lia).
  set (v1 := (v <| vm ::= _ |>) <| vfds ::= _ |>) in Hr1.
  rewrite wp_bind. eapply wp_mono.
  { apply (law_write s1 v1 buf (c :: bs) Hr1); [apply put_bytes_at|exact Hcb|lia]. }
  cbv beta. intros w s2 [Hw Hr2]. rewrite bool_decide_eq_false_2 by lia.
  eapply wp_mono; [apply (IH s2 _ rest' Hr2)|].
  - unfold v1. cbn [vfds upd Set_vtty Set_vfds Set_vm]. by rewrite lookup_insert_eq.
  - cbn [vm v1 upd Set_vtty Set_vfds Set_vm]. eapply mapped_dom; [|exact Hm]. apply put_bytes_dom.
    eapply mapped_sub; [exact Hm|lia|lia].
  - done.
  - rewrite length_app in Hf. cbn in Hf. lia.
  - cbv beta. intros r s3 (-> & v' & ps & Hr3 & Ep & Ev). split; [done|]. exists v', ((c :: bs) :: ps). split; [done|].
    split; [by rewrite <-Ep|].
    rewrite Ev, bind_cons. cbn [vtty v1 upd Set_vtty Set_vfds Set_vm]. by rewrite <-tty_puts_app.
Qed.
Lemma shown_pieces pieces : Forall (λ c, c ≠ 0) (mjoin pieces) → pieces ≫= shown = mjoin pieces.
Proof using Type.
  induction pieces as [|p ps IH]; [done|]. cbn [mjoin list_join]. rewrite bind_cons. intros [Hp Hps]%Forall_app.
  by rewrite shown_text, IH.
Qed.

(** The message for a missing file is not in the buffer. *)
Definition msg_missing : list Z := chars "file not found" ++ newline.

(** The buffer for the name holds anything, but is zero where the name ends
    once the string in it is cleared: [getargs] gives the name no end. *)
Definition name_buffer (m : mem) (buf : Z) (name : list Z) : Prop := mapped m buf 1024 ∧
  ∃ g, cstr_at m buf g ∧ (length g < 1024)%nat ∧
    ((length name ≤ length g)%nat ∨ m !! (buf + Z.of_nat (length name)) = Some 0).
Lemma zero_buffer m buf name : bytes_at m buf (replicate (Z.to_nat 1024) 0) → (length name < 1024)%nat →
  name_buffer m buf name.
Proof using Type.
  intros Hz Hl. split.
  { apply bytes_at_mapped in Hz. by rewrite length_replicate, Z2Nat.id in Hz by lia. }
  exists []. split; [|split; [cbn; lia|right]].
  - split; [|done]. change (replicate (Z.to_nat 1024) 0) with (0 :: replicate 1023 0) in Hz.
    destruct Hz as [Hz _]. by split.
  - rewrite bytes_at_lookup in Hz. apply Hz. apply lookup_replicate. split; [done|]. lia.
Qed.
Lemma name_ended m buf name g : cstr_at m buf g → Forall is_char name →
  (length name ≤ length g)%nat ∨ m !! (buf + Z.of_nat (length name)) = Some 0 →
  cstr_at (put_bytes (put_bytes m buf (replicate (length g) 0)) buf name) buf name.
Proof using Type.
  intros [Hg _] Hn He. split; [|done]. apply bytes_at_app. split; [apply put_bytes_at|]. split; [|done].
  rewrite put_bytes_outside by lia. rewrite put_bytes_lookup, length_replicate. case_decide as Hin.
  - apply lookup_replicate. lia.
  - destruct He as [He|He]; [|done]. assert (length name = length g) as -> by lia.
    apply bytes_at_app in Hg as [_ [Hg _]]. exact Hg.
Qed.

Lemma cat_main_ok s v buf i : rep s v → name_buffer (vm v) buf (vargs v) →
  lowest_fd v = Some i → Forall is_char (vargs v) → vargs v ≠ [] → Z.of_nat (length (vargs v)) < 1024 →
  cstr_at (vm v) (lit msg_missing) msg_missing → disjoint_range buf 1024 (lit msg_missing) 16 →
  match dir (vargs v) with
  | Some (OFile c) => Forall is_u8 c ∧ (length c < fuel)%nat
  | None => (15 < fuel)%nat
  | _ => False
  end →
  wp (cat_main fuel buf) (λ r s', ∃ v', rep s' v' ∧
    match dir (vargs v) with
    | Some (OFile c) => r = 0 ∧ ∃ pieces, mjoin pieces = c ∧ vtty v' = tty_puts (pieces ≫= shown) (vtty v)
    | _ => r = 2 ∧ vtty v' = tty_puts msg_missing (vtty v)
    end) s.
Proof using ProcSys0.
  intros Hr (Hm & g & Hg & Hgl & Hend) Hi Hch Hne Hlen Hlit Hdis Hdir. unfold cat_main.
  rewrite wp_bind. eapply wp_mono; [apply (law_getargs s v buf 1024 g); (done || lia)|]. cbv beta zeta.
  intros r s1 Hr1. rewrite decide_False in Hr1 by (intros [?|?]; [done|cbn [vargs upd Set_vm] in *; lia]).
  destruct Hr1 as [-> Hr1]. rewrite bool_decide_eq_false_2 by tauto.
  pose proof (name_ended (vm v) buf (vargs v) g Hg Hch Hend) as Hname.
  set (v1 := (v <| vm ::= _ |>) <| vm ::= _ |>) in Hr1.
  change (cstr_at (vm v1) buf (vargs v)) in Hname.
  assert (dom (vm v1) = dom (vm v) ∧ ∀ a, ¬ (buf ≤ a < buf + 1024) → vm v1 !! a = vm v !! a) as [Hd1 Ho1].
  { assert (mapped (put_bytes (vm v) buf (replicate (length g) 0)) buf 1024 ∧
      dom (put_bytes (vm v) buf (replicate (length g) 0)) = dom (vm v)) as [Hm0 Hd0].
    { assert (dom (put_bytes (vm v) buf (replicate (length g) 0)) = dom (vm v)) as E.
      { apply put_bytes_dom. rewrite length_replicate. eapply mapped_sub; [exact Hm|lia|lia]. }
      split; [by eapply mapped_dom|done]. }
    split.
    - etrans; [|exact Hd0]. apply put_bytes_dom. eapply mapped_sub; [exact Hm0|lia|cbn; lia].
    - intros a Ha. etrans; [apply put_bytes_outside; cbn; lia|]. apply put_bytes_outside. rewrite length_replicate. lia. }
  rewrite wp_bind. eapply wp_mono; [by apply (law_open s1 v1 buf (vargs v))|]. cbv beta.
  intros fd s2 Hr2. change (lowest_fd v1) with (lowest_fd v) in Hr2. rewrite Hi in Hr2.
  assert (vtty v1 = vtty v) as Et by done. clearbody v1.
  destruct (dir (vargs v)) as [[c|names| |]|] eqn:Ed; try done.
  - destruct Hr2 as [-> Hr2]. destruct Hdir as [Hc Hf].
    rewrite bool_decide_eq_false_2 by (apply lowest_fd_range in Hi; lia).
    eapply wp_mono; [apply (cat_loop_ok fuel s2 _ i buf c Hr2)|].
    + cbn [vfds upd Set_vfds]. by rewrite lookup_insert_eq.
    + by apply (mapped_dom (vm v)).
    + done.
    + done.
    + cbv beta. intros r s3 (-> & v' & ps & Hr3 & Ep & Ev). exists v'. split; [done|]. split; [done|]. exists ps.
      split; [done|]. by rewrite Ev, <-Et.
  - destruct Hr2 as [-> Hr2]. rewrite bool_decide_eq_true_2, wp_bind by done.
    eapply wp_mono; [apply (fdputs_ok s2 v1 msg_missing Hr2)|].
    + eapply cstr_at_agree; [|exact Hlit]. intros a Ha. apply Ho1.
      change (Z.of_nat (length msg_missing)) with 15 in Ha. unfold disjoint_range in Hdis. lia.
    + cbn. lia.
    + exact Hdir.
    + cbv beta. intros _ s3 Hr3. eexists. split; [exact Hr3|]. rewrite <-Et. done.
Qed.

(** ** ls *)

(** What [ls] shows of a name. *)
Definition ls_line (name : list Z) : list Z := take 32 name ++ newline.

Lemma shown_padded bs n : Forall (λ c, c ≠ 0) bs → shown (bs ++ replicate n 0 ++ newline) = bs ++ newline.
Proof using Type.
  intros Hb. unfold shown. rewrite decide_False.
  2:{ rewrite app_assoc, last_app. cbn. done. }
  rewrite app_nil_r, !filter_app, filter_nonzero by done. f_equal.
  replace (filter (λ c, c ≠ 0) (replicate n 0)) with ([] : list Z); [done|].
  induction n as [|n IH]; [done|]. cbn [replicate]. by rewrite filter_cons, decide_False by tauto.
Qed.

Lemma ls_loop_ok f s v fd buf names : rep s v → vfds v !! fd = Some (ODir names) →
  mapped (vm v) buf 33 → Forall (Forall (λ c, is_u8 c ∧ c ≠ 0)) names → (length names < f)%nat →
  wp (ls_loop fuel f fd buf) (λ r s', r = 0 ∧ ∃ v', rep s' v' ∧
    vtty v' = tty_puts (names ≫= ls_line) (vtty v)) s.
Proof using ProcSys0.
  revert s v names. induction f as [|f IH]; intros s v names Hr Hfd Hm Hc Hf; [lia|].
  cbn [ls_loop]. change (SBUFSIZE - 1) with 32. rewrite wp_bind. eapply wp_mono.
  { apply (law_read_dir s v fd names buf 32 Hr Hfd); [lia|]. eapply mapped_sub; [exact Hm|lia|lia]. }
  cbv beta. intros r s1. destruct names as [|name names].
  { intros [-> Hr1]. cbn. split; [done|]. by eexists. }
  intros [-> Hr1]. cbv zeta in Hr1. change (Z.to_nat 32) with 32%nat in Hr1.
  apply Forall_cons in Hc as [Hcn Hcs]. set (bs := take 32 name) in Hr1.
  assert (Forall (λ c, is_u8 c ∧ c ≠ 0) bs) as Hbs by (by apply Forall_take).
  assert (length bs ≤ 32)%nat as Hlb by (unfold bs; rewrite length_take; lia).
  set (l := bs ++ replicate (32 - length bs) 0) in Hr1.
  assert (length l = 32%nat) as Hl by (unfold l; rewrite length_app, length_replicate; lia).
  set (v1 := (v <| vm ::= _ |>) <| vfds ::= _ |>) in Hr1.
  change (bool_decide (0 ≠ 32)) with true. change (bool_decide (-1 = 32)) with false. cbv iota.
  assert (dom (vm v1) = dom (vm v)) as Hd1.
  { cbn [vm v1 upd Set_vfds Set_vm]. apply put_bytes_dom. eapply mapped_sub; [exact Hm|lia|lia]. }
  rewrite wp_bind. eapply wp_mono.
  { apply (law_store s1 v1 (buf + 32) 10 Hr1). apply elem_of_dom. rewrite Hd1. apply elem_of_dom.
    rewrite mapped_spec in Hm. apply Hm. lia. }
  cbv beta. intros _ s2 Hr2. set (v2 := v1 <| vm ::= _ |>) in Hr2.
  assert (vm v2 = put_bytes (vm v) buf (l ++ newline)) as Ev2.
  { cbn [vm v2 v1 upd Set_vfds Set_vm]. change newline with [10]. rewrite <-put_bytes_snoc, Hl. done. }
  rewrite wp_bind. change (32 + 1) with (Z.of_nat 33). eapply wp_mono.
  { replace 33%nat with (length (l ++ newline)) by (rewrite length_app, Hl; done).
    apply (law_write s2 v2 buf (l ++ newline) Hr2).
    - rewrite Ev2. apply put_bytes_at.
    - apply Forall_app. split; [apply Forall_app; split|by repeat constructor].
      + eapply Forall_impl; [exact Hbs|]. naive_solver.
      + apply Forall_replicate. by vm_compute.
    - rewrite length_app, Hl. cbn. lia. }
  cbv beta. intros w s3 [Hw Hr3]. rewrite bool_decide_eq_false_2 by lia.
  unfold l in Hr3. rewrite <-app_assoc, shown_padded in Hr3 by (eapply Forall_impl; [exact Hbs|]; naive_solver).
  eapply wp_mono; [apply (IH s3 _ names Hr3)|].
  - cbn [vfds v2 v1 upd Set_vtty Set_vfds Set_vm]. by rewrite lookup_insert_eq.
  - change (mapped (vm v2) buf 33). rewrite Ev2. eapply mapped_dom; [|exact Hm]. apply put_bytes_dom.
    by rewrite length_app, Hl.
  - done.
  - cbn in Hf. lia.
  - cbv beta. intros r s4 (-> & v' & Hr4 & Ev). split; [done|]. exists v'. split; [done|].
    rewrite Ev, bind_cons, tty_puts_app. done.
Qed.

Lemma ls_main_ok s v buf i names : rep s v → mapped (vm v) buf 33 →
  lowest_fd v = Some i → cstr_at (vm v) (lit (chars ".")) (chars ".") →
  dir (chars ".") = Some (ODir names) →
  Forall (Forall (λ c, is_u8 c ∧ c ≠ 0)) names → (length names < fuel)%nat →
  wp (ls_main fuel buf) (λ r s', r = 0 ∧ ∃ v', rep s' v' ∧
    vtty v' = tty_puts (names ≫= ls_line) (vtty v)) s.
Proof using ProcSys0.
  intros Hr Hm Hi Hlit Hdir Hc Hf. unfold ls_main. rewrite wp_bind.
  eapply wp_mono; [by apply (law_open s v _ (chars "."))|]. cbv beta. intros fd s1 Hr1.
  rewrite Hi, Hdir in Hr1. destruct Hr1 as [-> Hr1]. pose proof (lowest_fd_range v i Hi).
  rewrite bool_decide_eq_false_2 by lia.
  eapply wp_mono; [apply (ls_loop_ok fuel s1 _ i buf names Hr1); try done|done].
  cbn [vfds upd Set_vfds]. by rewrite lookup_insert_eq.
Qed.

(** Storing what is there. *)
Lemma store_same v a x : vm v !! a = Some x → v <| vm ::= <[a := x]> |> = v.
Proof using Type. intros E. destruct v as [m f t as_ ins]. unfold upd, Set_vm. cbn in *. by rewrite insert_id. Qed.

Lemma vm_shown v f : vm (v <| vtty ::= f |>) = vm v.
Proof using Type. done. Qed.

(** ** Lines *)

(** What a read of up to [n] bytes, with room for one more, makes of a typed
    line [l] that fits. *)
Definition line_read (v : view) (buf n : Z) (l : list Z) (t : tty) (ins : list (list Z)) : view :=
  ((v <| vm ::= λ m, put_bytes m buf (l ++ replicate (Z.to_nat (n + 1) - length l) 0) |>)
    <| vtty := t |>) <| vin := ins |>.

Lemma line_read_ok s v ks ins l t buf n : rep s v → vin v = ks :: ins → keys ks (vtty v) = Some (l, t) →
  Z.of_nat (length l) ≤ n → n < 2 ^ 31 → mapped (vm v) buf (n + 1) →
  wp (ece391_read 0 buf n) (λ r s', r = Z.of_nat (length l) ∧ rep s' (line_read v buf n l t ins)) s.
Proof using ProcSys0.
  intros Hr Hin Hk Hl Hn Hm.
  eapply wp_mono; [apply (law_read_term s v ks ins l t buf n Hr Hin Hk ltac:(lia) Hm)|]. cbv beta.
  intros r s' [-> Hr']. replace (Z.min n (Z.of_nat (length l))) with (Z.of_nat (length l)) in * by lia.
  split; [done|]. rewrite Nat2Z.id, take_ge in Hr' by lia. unfold line_read.
  by replace (Z.to_nat (n + 1) - length l)%nat with (Z.to_nat (n + 1 - Z.of_nat (length l))) by lia.
Qed.

(** Its end is zero already, and it is a string. *)
Lemma line_read_end v buf n l t ins : Z.of_nat (length l) ≤ n → Forall is_char l →
  vm (line_read v buf n l t ins) !! (buf + Z.of_nat (length l)) = Some 0 ∧
  cstr_at (vm (line_read v buf n l t ins)) buf l.
Proof using Type.
  intros Hl Hc. change (vm _) with (put_bytes (vm v) buf (l ++ replicate (Z.to_nat (n + 1) - length l) 0)).
  replace (Z.to_nat (n + 1) - length l)%nat with (S (Z.to_nat n - length l)) by lia. cbn [replicate].
  pose proof (put_bytes_at (vm v) buf (l ++ 0 :: replicate (Z.to_nat n - length l) 0)) as Hb.
  rewrite bytes_at_app in Hb. destruct Hb as [H1 [H2 _]]. split; [done|]. split; [|done].
  apply bytes_at_app. split; [done|]. by split.
Qed.
Lemma line_read_outside v buf n l t ins a : Z.of_nat (length l) ≤ n → ¬ (buf ≤ a < buf + (n + 1)) →
  vm (line_read v buf n l t ins) !! a = vm v !! a.
Proof using Type.
  intros Hl Ha. apply put_bytes_outside. rewrite length_app, length_replicate. lia.
Qed.
Lemma line_read_mapped v buf n l t ins a k : Z.of_nat (length l) ≤ n → mapped (vm v) buf (n + 1) →
  mapped (vm v) a k → mapped (vm (line_read v buf n l t ins)) a k.
Proof using Type.
  intros Hl Hm. apply mapped_dom. apply put_bytes_dom. rewrite length_app, length_replicate.
  by replace (Z.of_nat (length l + (Z.to_nat (n + 1) - length l))) with (n + 1) by lia.
Qed.

(** ** hello *)
Definition msg_hello : list Z := chars "Hello, ".
Definition msg_name : list Z := chars "Hi, what's your name? ".

Lemma hello_main_ok s v buf ks ins l t : rep s v → mapped (vm v) buf 1024 →
  vin v = ks :: ins → keys ks (tty_puts msg_name (vtty v)) = Some (l, t) → Forall is_char l →
  (length l < 1024)%nat → (length l < fuel)%nat → (22 < fuel)%nat →
  cstr_at (vm v) (lit msg_name) msg_name → cstr_at (vm v) (lit msg_hello) msg_hello →
  disjoint_range buf 1024 (lit msg_hello) 8 →
  wp (hello_main fuel buf) (λ r s', r = 0 ∧ ∃ v', rep s' v' ∧
    vtty v' = tty_puts (msg_hello ++ l) t) s.
Proof using ProcSys0.
  intros Hr Hm Hin Hk Hch Hl Hlf Hf Hlit1 Hlit2 Hdis. unfold hello_main. rewrite wp_bind.
  eapply wp_mono; [by apply (fdputs_ok s v msg_name Hr Hlit1)|]. cbv beta. intros _ s1 Hr1.
  set (v1 := v <| vtty ::= _ |>) in Hr1. change (1024 - 1) with 1023. rewrite wp_bind.
  eapply wp_mono; [apply (line_read_ok s1 v1 ks ins l t buf 1023 Hr1 Hin Hk); [lia|lia|exact Hm]|]. cbv beta.
  intros r s2 [-> Hr2]. rewrite bool_decide_eq_false_2, wp_bind by lia.
  destruct (line_read_end v1 buf 1023 l t ins ltac:(lia) Hch) as [Hz Hbuf].
  assert (cstr_at (vm (line_read v1 buf 1023 l t ins)) (lit msg_hello) msg_hello) as Hlit.
  { eapply cstr_at_agree; [|exact Hlit2]. intros a Ha. rewrite line_read_outside; [done|lia|].
    change (Z.of_nat (length msg_hello)) with 7 in Ha. unfold disjoint_range in Hdis. lia. }
  assert (vtty (line_read v1 buf 1023 l t ins) = t) as Ht by done.
  revert Hr2 Hz Hbuf Hlit Ht. generalize (line_read v1 buf 1023 l t ins). intros v2 Hr2 Hz Hbuf Hlit Ht.
  eapply wp_mono; [by apply (law_store s2 v2 _ 0 Hr2); eexists|].
  cbv beta. intros _ s3 Hr3. rewrite (store_same v2 _ (u8 0) Hz) in Hr3. rewrite wp_bind.
  eapply wp_mono; [apply (fdputs_ok s3 v2 msg_hello Hr3 Hlit); cbn; lia|].
  cbv beta. intros _ s4 Hr4. rewrite wp_bind. set (v3 := v2 <| vtty ::= _ |>) in Hr4.
  assert (cstr_at (vm v3) buf l) as Hbuf3 by (unfold v3; rewrite vm_shown; exact Hbuf).
  eapply wp_mono; [apply (ece391_fdputs_ok fuel s4 v3 buf l Hr4 Hbuf3); lia|].
  cbv beta. intros _ s5 Hr5. rewrite wp_ret. split; [done|]. eexists. split; [exact Hr5|].
  cbn [vtty v3 upd Set_vtty]. by rewrite Ht, <-tty_puts_app.
Qed.
End programs.
