(* ===== verification/CountSpec.v ===== *)
(** * What [counter] does

    The program counts on the terminal: its numbers are the numerals that the
    support library writes. *)

From S2P Require Import Prelude CInt Memory CString Screen Printf UserLib SupportSpec.
From S2P Require Import UserProgs UserSpec ProgSpec.

Definition msg_choose : list Z := chars "Enter the Test Number: (0): 100, (1): 10000, (2): 100000" ++ newline.
Definition msg_wrong : list Z := chars "Wrong Choice!" ++ newline.

(** How far it counts; [None]: the line is refused. *)
Definition counter_max (c : Z) : Z :=
  if bool_decide (c = 48) then 100 else if bool_decide (c = 49) then 10000
  else if bool_decide (c = 50) then 100000 else 0.
Definition counter_choice (l : list Z) : option Z :=
  match l with
  | [] => Some 0
  | [c] => Some (counter_max c)
  | [c; _] => if bool_decide (48 ≤ c ≤ 50) then Some (counter_max c) else None
  | _ => None
  end.
(** The numbers up to [n], one to a line. *)
Definition count_line (k : Z) : list Z := digits k 10 ++ newline.
Definition counted (n : Z) : list Z := seqZ 1 n ≫= count_line.

Lemma counter_max_range c : 0 ≤ counter_max c ≤ 100000.
Proof. unfold counter_max. repeat case_bool_decide; lia. Qed.

Section counter.
Context {St : Type} `{Sys St} `{Literals} {dir : list Z → option obj}.
Context {keys : list Z → tty → option (list Z * tty)} {rep : St → view → Prop}.
Context `{!ProcSys St dir keys rep} (fuel : nat).

(** [itoa] into the buffer of a process. *)
Lemma itoa_shown s v n buf : rep s v → is_u32 n → mapped (vm v) buf 11 → (32 < fuel)%nat →
  wp (_ ← ece391_itoa fuel n buf 10; ece391_fdputs fuel 1 buf) (λ _ s', ∃ m',
    (∀ a, ¬ (buf ≤ a < buf + 11) → m' !! a = vm v !! a) ∧ dom m' = dom (vm v) ∧
    rep s' ((v <| vm := m' |>) <| vtty ::= tty_puts (digits n 10) |>)) s.
Proof using ProcSys0.
  intros Hr Hn Hm Hf. pose proof (dec_short n Hn) as Hd. rewrite wp_bind.
  assert (mapped (vm v) buf (Z.of_nat (length (digits n 10)) + 1)) as Hmd
    by (eapply mapped_sub; [exact Hm|lia|lia]).
  eapply wp_mono; [apply (itoa_wp (R := λ s m, rep s (v <| vm := m |>)) fuel s (vm v) n buf 10);
    [by destruct v|lia|exact Hn|exact Hmd|exact Hf]|].
  cbv beta. intros _ s1 [_ Hr1]. set (m' := put_bytes _ _ _) in Hr1.
  eapply wp_mono; [apply (ece391_fdputs_ok fuel s1 _ buf (digits n 10) Hr1); [|lia|lia]|].
  - split; [apply put_bytes_at|by apply digits_chars].
  - cbv beta. intros _ s2 Hr2. exists m'. split; [|split; [|exact Hr2]].
    + intros a Ha. apply put_bytes_outside. rewrite length_app. cbn [length]. lia.
    + apply put_bytes_dom. rewrite length_app. cbn [length].
      by replace (Z.of_nat (length (digits n 10) + 1)) with (Z.of_nat (length (digits n 10)) + 1) by lia.
Qed.

Lemma counter_loop_ok f s v i max buf : rep s v → mapped (vm v) buf 11 →
  cstr_at (vm v) (lit newline) newline → disjoint_range buf 11 (lit newline) 2 →
  0 ≤ i ≤ max → max ≤ 100000 → max - i < Z.of_nat f → (32 < fuel)%nat →
  wp (counter_loop fuel f i max buf) (λ _ s', ∃ v', rep s' v' ∧
    vtty v' = tty_puts (seqZ (i + 1) (max - i) ≫= count_line) (vtty v)) s.
Proof using ProcSys0.
  revert s v i. induction f as [|f IH]; intros s v i Hr Hm Hl Hd Hi Hmax Hf Hfu; [lia|].
  cbn [counter_loop]. case_bool_decide as Hlt.
  2:{ replace (max - i) with 0 by lia. by exists v. }
  rewrite u32_id by (unfold is_u32; lia). rewrite seqZ_cons, bind_cons by lia.
  apply wp_seq. eapply wp_mono; [by apply (itoa_shown s v (i + 1) buf Hr); [unfold is_u32; lia|..]|].
  cbv beta. intros _ s1 (m' & Hout & Hdom & Hr1). rewrite wp_bind.
  set (v1 := (v <| vm := m' |>) <| vtty ::= _ |>) in Hr1.
  assert (cstr_at m' (lit newline) newline) as Hl1.
  { eapply cstr_at_agree; [|exact Hl]. intros a Ha. apply Hout.
    change (Z.of_nat (length newline)) with 1 in Ha. unfold disjoint_range in Hd. lia. }
  eapply wp_mono; [apply (fdputs_ok fuel s1 v1 newline Hr1 Hl1); cbn; lia|]. cbv beta. intros _ s2 Hr2.
  eapply wp_mono; [apply (IH s2 _ (i + 1) Hr2); try done; try lia|].
  - eapply mapped_dom; [exact Hdom|exact Hm].
  - cbv beta. intros _ s3 (v' & Hr3 & Ev). exists v'. split; [exact Hr3|].
    rewrite Ev. replace (Z.pred (max - i)) with (max - (i + 1)) by lia. rewrite <-Z.add_1_r.
    cbn [vtty v1 upd Set_vtty Set_vm]. unfold count_line at 2. by rewrite <-!tty_puts_app, <-app_assoc.
Qed.

(** The test of the line. *)
Lemma counter_choice_ok s v buf l : rep s v → cstr_at (vm v) buf l → (length l < fuel)%nat →
  Z.of_nat (length l) < 2 ^ 31 →
  wp (n ← ece391_strlen fuel buf;
      if bool_decide (n > 2) then mret true
      else
        n ← ece391_strlen fuel buf;
        if bool_decide (n = 2) then
          c ← u_load8 buf;
          if bool_decide (c < 48) then mret true
          else c ← u_load8 buf; mret (bool_decide (c > 50))
        else mret false)
    (λ r s', r = bool_decide (counter_choice l = None) ∧ rep s' v) s.
Proof using ProcSys0.
  intros Hr Hs Hf Hl.
  assert (∀ s1, rep s1 v → wp (ece391_strlen fuel buf) (λ r s', r = Z.of_nat (length l) ∧ rep s' v) s1) as Hlen.
  { intros s1 Hr1. eapply wp_mono; [apply (strlen_wp (R := λ s m, rep s (v <| vm := m |>)) fuel s1 (vm v) buf l);
      [by destruct v|done|lia|done]|]. cbv beta. intros r s2 [-> Hr2]. split; [done|]. by destruct v. }
  assert (∀ s1 c l', l = c :: l' → rep s1 v → u_load8 buf s1 = Ok (c, s1)) as Hc.
  { intros s1 c l' -> Hr1. eapply law_load; [exact Hr1|]. apply Hs. }
  rewrite wp_bind. eapply wp_mono; [by apply Hlen|]. cbv beta. intros n s1 [-> Hr1].
  destruct l as [|c [|c2 [|c3 l]]]; cbn [length].
  - rewrite bool_decide_eq_false_2, wp_bind by lia. eapply wp_mono; [by apply Hlen|]. cbv beta.
    intros n s2 [-> Hr2]. by rewrite bool_decide_eq_false_2 by done.
  - rewrite bool_decide_eq_false_2, wp_bind by lia. eapply wp_mono; [by apply Hlen|]. cbv beta.
    intros n s2 [-> Hr2]. by rewrite bool_decide_eq_false_2 by done.
  - rewrite bool_decide_eq_false_2, wp_bind by lia. eapply wp_mono; [by apply Hlen|]. cbv beta.
    intros n s2 [-> Hr2]. rewrite bool_decide_eq_true_2, wp_bind by done.
    eapply wp_run; [by eapply Hc|]. cbn [counter_choice]. case_bool_decide as H1.
    { rewrite wp_ret. split; [|done]. symmetry. apply bool_decide_eq_true. by rewrite bool_decide_eq_false_2 by lia. }
    rewrite wp_bind. eapply wp_run; [by eapply Hc|]. rewrite wp_ret. split; [|done]. apply bool_decide_ext.
    case_bool_decide; split; intros; try done; lia.
  - rewrite bool_decide_eq_true_2 by lia. rewrite wp_ret. by split.
Qed.

Lemma counter_main_ok s v buf ks ins l t : rep s v → mapped (vm v) buf 1024 →
  vin v = ks :: ins → keys ks (tty_puts msg_choose (vtty v)) = Some (l, t) → Forall is_char l →
  (length l < 1024)%nat → (length l < fuel)%nat → (58 < fuel)%nat →
  match counter_choice l with Some n => n < Z.of_nat fuel | None => True end →
  Forall (λ k, cstr_at (vm v) (lit k) k ∧ disjoint_range buf 1024 (lit k) (Z.of_nat (length k) + 1))
    [msg_choose; msg_wrong; newline] →
  wp (counter_main fuel buf) (λ r s', r = 0 ∧ ∃ v', rep s' v' ∧
    vtty v' = match counter_choice l with
              | Some n => tty_puts (counted n) t
              | None => tty_puts msg_wrong t
              end) s.
Proof using ProcSys0.
  intros Hr Hm Hin Hk Hch Hl Hlf Hf Hn Hlits. rewrite !Forall_cons in Hlits.
  destruct Hlits as ([Hc1 _] & [Hc2 Hd2] & [Hc3 Hd3] & _). unfold counter_main. rewrite wp_bind.
  eapply wp_mono; [apply (fdputs_ok fuel s v msg_choose Hr Hc1); cbn; lia|]. cbv beta. intros _ s1 Hr1.
  set (v1 := v <| vtty ::= _ |>) in Hr1. change (1024 - 1) with 1023. rewrite wp_bind.
  eapply wp_mono; [apply (line_read_ok s1 v1 ks ins l t buf 1023 Hr1 Hin Hk); [lia|lia|exact Hm]|]. cbv beta zeta.
  intros r s2 [-> Hr2]. rewrite (u32_id (Z.of_nat (length l))) by (unfold is_u32; lia). rewrite bool_decide_eq_false_2, wp_bind by (change (u32 (-1)) with 4294967295; lia).
  destruct (line_read_end v1 buf 1023 l t ins ltac:(lia) Hch) as [Hz Hbuf].
  assert (∀ k, cstr_at (vm v) (lit k) k → disjoint_range buf 1024 (lit k) (Z.of_nat (length k) + 1) →
    cstr_at (vm (line_read v1 buf 1023 l t ins)) (lit k) k) as Hkeep.
  { intros k Hk1 Hk2. eapply cstr_at_agree; [|exact Hk1]. intros a Ha. rewrite line_read_outside; [done|lia|].
    unfold disjoint_range in Hk2. lia. }
  assert (mapped (vm (line_read v1 buf 1023 l t ins)) buf 11) as Hm2.
  { apply line_read_mapped; [lia|exact Hm|]. eapply mapped_sub; [exact Hm|lia|lia]. }
  pose proof (Hkeep _ Hc2 Hd2) as L2. pose proof (Hkeep _ Hc3 Hd3) as L3.
  assert (vtty (line_read v1 buf 1023 l t ins) = t) as Ht by done. clear Hkeep.
  revert Hr2 Hz Hbuf Hm2 L2 L3 Ht. generalize (line_read v1 buf 1023 l t ins). intros v2 Hr2 Hz Hbuf Hm2 L2 L3 <-.
  eapply wp_mono; [by apply (law_store s2 v2 _ 0 Hr2); eexists|].
  cbv beta. intros _ s3 Hr3. rewrite (store_same v2 _ (u8 0) Hz) in Hr3.
  apply wp_assoc. rewrite wp_bind.
  eapply wp_mono; [apply (counter_choice_ok s3 v2 buf l Hr3 Hbuf Hlf); lia|]. cbv beta. intros wrong s4 [-> Hr4].
  destruct (counter_choice l) as [n|] eqn:Ech.
  2:{ rewrite bool_decide_eq_true_2, wp_bind by done.
      eapply wp_mono; [apply (fdputs_ok fuel s4 v2 msg_wrong Hr4 L2); cbn; lia|]. cbv beta. intros _ s5 Hr5.
      rewrite wp_ret. split; [done|]. by eexists. }
  rewrite bool_decide_eq_false_2, wp_bind by done.
  assert (∃ c, vm v2 !! buf = Some c ∧ counter_max c = n) as (c & Hc & Hcn).
  { destruct l as [|c [|c2 [|c3 l]]]; cbn [counter_choice] in Ech; [| |case_bool_decide; [|done]|done]; simplify_eq.
    - exists 0. split; [apply Hbuf|done].
    - exists c. split; [apply Hbuf|done].
    - exists c. split; [apply Hbuf|done]. }
  eapply wp_run; [by eapply law_load|]. fold (counter_max c). rewrite Hcn, wp_bind.
  pose proof (counter_max_range c) as Hmax.
  eapply wp_mono; [apply (counter_loop_ok fuel s4 v2 0 n buf Hr4 Hm2 L3); [|lia|lia|lia|lia]|].
  - change (Z.of_nat (length newline)) with 1 in Hd3. unfold disjoint_range in *. lia.
  - cbv beta. intros _ s5 (v' & Hr5 & Ev). rewrite wp_ret. split; [done|]. exists v'. split; [exact Hr5|].
    rewrite Ev. by replace (n - 0) with n by lia.
Qed.
End counter.
