(* ===== verification/TestSpec.v ===== *)
(** * The system passes its own tests

    The tests of [ece391syserr.c] all succeed over any system that keeps the
    promises of [ProcSys]. *)

From S2P Require Import Prelude CInt Memory CString Screen Printf UserLib UserProgs.
From S2P Require Import UserTests UserSpec ProgSpec.

Definition pass_msg (name : list Z) : list Z := name ++ chars ": PASS" ++ newline.
Definition all_pass : list Z := newline ++ chars "Overall Tests: PASS" ++ newline.
Definition test_names : list (list Z) :=
  [chars "err_neg_fd"; chars "err_big_fd"; chars "err_open_lots"; chars "err_open";
   chars "err_unopened"; chars "err_vidmap"; chars "err_stdin_out"; chars "err_syscall_num"].
(** The literals the tests use when they succeed. *)
Definition test_literals : list (list Z) :=
  (pass_msg <$> test_names) ++ [all_pass; chars "."; chars "helloo"; chars "shel"; []].

Section tests.
Context {St : Type} `{Sys St} `{Literals} {dir : list Z → option obj}.
Context {keys : list Z → tty → option (list Z * tty)} {rep : St → view → Prop}.
Context `{!ProcSys St dir keys rep} (fuel : nat) (Hfuel : (64 < fuel)%nat).

(** The program has its literals, and no file open. *)
Definition test_env (v : view) : Prop :=
  Forall (λ l, cstr_at (vm v) (lit l) l) test_literals ∧ vfds v = ∅.

(** What the tests promise: success, its message, and nothing else. *)
Definition passes (c : K St Z) (msg : list Z) : Prop := ∀ s v, rep s v → test_env v →
  wp c (λ r s', r = 0 ∧ rep s' (v <| vtty ::= tty_puts msg |>)) s.

Lemma test_lit v l : test_env v → l ∈ test_literals → cstr_at (vm v) (lit l) l.
Proof using Type. intros [Hl _] Hin. rewrite Forall_forall in Hl. by apply Hl. Qed.

Lemma test_put s v l : rep s v → test_env v → l ∈ test_literals → (length l ≤ 64)%nat →
  wp (fdputs fuel l) (λ _ s', rep s' (v <| vtty ::= tty_puts l |>)) s.
Proof using ProcSys0 Hfuel.
  intros Hr He Hin Hlen. apply (fdputs_ok fuel s v l Hr); [by apply test_lit|lia|lia].
Qed.

(** A call that fails as it should. *)
Lemma wp_expect {A} (c : K St Z) fail msg (k : Z → K St A) Q s v :
  wp c (λ r s', r = -1 ∧ rep s' v) s → (∀ s', rep s' v → wp (k fail) Q s') →
  wp (r ← c; f ← expect_error fuel r fail msg; k f) Q s.
Proof using Type.
  intros Hc Hk. rewrite wp_bind. eapply wp_mono; [exact Hc|]. cbv beta. intros r s' [-> Hr].
  unfold expect_error. rewrite bool_decide_eq_false_2, wp_bind, wp_ret by tauto. by apply Hk.
Qed.

Lemma report_ok s v name : rep s v → test_env v → name ∈ test_names →
  wp (report fuel name 0) (λ r s', r = 0 ∧ rep s' (v <| vtty ::= tty_puts (pass_msg name) |>)) s.
Proof using ProcSys0 Hfuel.
  intros Hr He Hin. unfold report. rewrite bool_decide_eq_false_2, wp_bind by tauto.
  eapply wp_mono; [apply (test_put s v (pass_msg name) Hr He)|done].
  - apply elem_of_app. left. apply list_elem_of_fmap. by exists name.
  - assert (Forall (λ n, (length (pass_msg n) ≤ 64)%nat) test_names) as Hl
      by (apply (bool_decide_unpack _); by vm_compute).
    rewrite Forall_forall in Hl. by apply Hl.
Qed.

Ltac pick := apply (bool_decide_unpack _); by vm_compute.

Lemma fd_none v fd : test_env v → ¬ is_Some (vfds v !! fd).
Proof using Type. intros [_ ->]. rewrite lookup_empty. by intros []. Qed.

(** The three calls on a descriptor that is not open. *)
Lemma read_refused s v fd b : rep s v → test_env v → fd ≠ 0 → - 2 ^ 31 ≤ fd < 2 ^ 31 →
  wp (ece391_read fd b 31) (λ r s', r = -1 ∧ rep s' v) s.
Proof using ProcSys0.
  intros Hr He Hfd Hn. apply law_read_bad; [done| |done]. intros [?|[_ Hs]]; [done|].
  by apply (fd_none v fd).
Qed.
Lemma write_refused s v fd b : rep s v → test_env v → fd ≠ 1 → - 2 ^ 31 ≤ fd < 2 ^ 31 →
  wp (ece391_write fd b 31) (λ r s', r = -1 ∧ rep s' v) s.
Proof using ProcSys0.
  intros Hr He Hfd Hn. apply law_write_bad; [done| |done]. intros [?|[_ Hs]]; [done|].
  by apply (fd_none v fd).
Qed.
Lemma close_refused s v fd : rep s v → test_env v → - 2 ^ 31 ≤ fd < 2 ^ 31 →
  wp (ece391_close fd) (λ r s', r = -1 ∧ rep s' v) s.
Proof using ProcSys0.
  intros Hr He Hn. eapply wp_mono; [by apply law_close|]. cbv beta. intros r s'.
  rewrite decide_False; [done|]. intros [_ Hs]. by apply (fd_none v fd).
Qed.

Lemma err_neg_fd_ok b : passes (err_neg_fd fuel b) (pass_msg (chars "err_neg_fd")).
Proof using ProcSys0 Hfuel.
  intros s v Hr He. unfold err_neg_fd, NEG_FD.
  eapply wp_expect; [by apply read_refused|]. intros s1 Hr1.
  eapply wp_expect; [by apply write_refused|]. intros s2 Hr2.
  eapply wp_expect; [by apply close_refused|]. intros s3 Hr3.
  apply report_ok; [done|done|pick].
Qed.

Lemma err_big_fd_ok b : passes (err_big_fd fuel b) (pass_msg (chars "err_big_fd")).
Proof using ProcSys0 Hfuel.
  intros s v Hr He. unfold err_big_fd, BIG_FD.
  eapply wp_expect; [by apply read_refused|]. intros s1 Hr1.
  eapply wp_expect; [by apply write_refused|]. intros s2 Hr2.
  eapply wp_expect; [by apply close_refused|]. intros s3 Hr3.
  apply report_ok; [done|done|pick].
Qed.

Lemma err_stdin_out_ok b : passes (err_stdin_out fuel b) (pass_msg (chars "err_stdin_out")).
Proof using ProcSys0 Hfuel.
  intros s v Hr He. unfold err_stdin_out.
  eapply wp_expect; [by apply write_refused|]. intros s1 Hr1.
  eapply wp_expect; [by apply read_refused|]. intros s2 Hr2.
  apply report_ok; [done|done|pick].
Qed.

Lemma err_vidmap_ok : passes (err_vidmap fuel) (pass_msg (chars "err_vidmap")).
Proof using ProcSys0 Hfuel.
  intros s v Hr He. unfold err_vidmap.
  eapply wp_expect; [by apply law_vidmap_bad|]. intros s1 Hr1.
  eapply wp_expect; [by apply law_vidmap_bad|]. intros s2 Hr2.
  apply report_ok; [done|done|pick].
Qed.

Lemma err_syscall_num_ok : passes (err_syscall_num fuel) (pass_msg (chars "err_syscall_num")).
Proof using ProcSys0 Hfuel.
  intros s v Hr He. unfold err_syscall_num, BIG_NUM, NEG_NUM.
  eapply wp_expect; [apply law_call_bad; [done|lia|lia]|]. intros s1 Hr1.
  eapply wp_expect; [apply law_call_bad; [done|lia|lia]|]. intros s2 Hr2.
  eapply wp_expect; [apply law_call_bad; [done|lia|lia]|]. intros s3 Hr3.
  apply report_ok; [done|done|pick].
Qed.

(** Names that are not in the directory. *)
Lemma open_refused s v name : rep s v → test_env v → name ∈ test_literals → dir name = None →
  wp (ece391_open (lit name)) (λ r s', r = -1 ∧ rep s' v) s.
Proof using ProcSys0.
  intros Hr He Hin Hd. eapply wp_mono; [apply (law_open s v _ name Hr); by apply test_lit|].
  cbv beta. intros r s'. rewrite Hd. by destruct (lowest_fd v).
Qed.

Lemma err_open_ok : dir (chars "helloo") = None → dir (chars "shel") = None → dir [] = None →
  passes (err_open fuel) (pass_msg (chars "err_open")).
Proof using ProcSys0 Hfuel.
  intros H1 H2 H3 s v Hr He. unfold err_open.
  eapply wp_expect; [apply open_refused; [done|done|pick|done]|]. intros s1 Hr1.
  eapply wp_expect; [apply open_refused; [done|done|pick|done]|]. intros s2 Hr2.
  eapply wp_expect; [apply open_refused; [done|done|pick|done]|]. intros s3 Hr3.
  apply report_ok; [done|done|pick].
Qed.

Lemma expect_errors_ok (call : Z → K St Z) n i msg s v : rep s v →
  (∀ j s, i ≤ j < i + Z.of_nat n → rep s v → wp (call j) (λ r s', r = -1 ∧ rep s' v) s) →
  wp (expect_errors fuel n i call 0 msg) (λ r s', r = 0 ∧ rep s' v) s.
Proof using Type.
  clear Hfuel. revert i s. induction n as [|n IH]; intros i s Hr Hc; cbn [expect_errors]; [done|].
  eapply wp_expect; [apply Hc; [lia|done]|]. intros s' Hr'. apply IH; [done|].
  intros j s2 Hj. apply Hc. lia.
Qed.

Lemma err_unopened_ok b : passes (err_unopened fuel b) (pass_msg (chars "err_unopened")).
Proof using ProcSys0 Hfuel.
  intros s v Hr He. unfold err_unopened. rewrite wp_bind. eapply wp_mono.
  { apply expect_errors_ok; [exact Hr|]. intros j s1 Hj Hr1. apply close_refused; [done|done|lia]. }
  cbv beta. intros f s1 [-> Hr1]. rewrite wp_bind. eapply wp_mono.
  { apply expect_errors_ok; [exact Hr1|]. intros j s2 Hj Hr2. apply read_refused; [done|done|lia|lia]. }
  cbv beta. intros f s2 [-> Hr2]. rewrite wp_bind. eapply wp_mono.
  { apply expect_errors_ok; [exact Hr2|]. intros j s3 Hj Hr3. apply write_refused; [done|done|lia|lia]. }
  cbv beta. intros f s3 [-> Hr3]. apply report_ok; [done|done|pick].
Qed.

(** ** Opening too often *)

(** The descriptors while they are opened one by one, and while they are
    closed again. *)
Fixpoint opened_to (names : list (list Z)) (n : nat) : gmap Z obj :=
  match n with O => ∅ | S n' => <[2 + Z.of_nat n' := ODir names]> (opened_to names n') end.
Fixpoint closed_from (names : list (list Z)) (n : nat) : gmap Z obj :=
  match n with O => opened_to names 6 | S n' => delete (2 + Z.of_nat n') (closed_from names n') end.

Lemma lowest_opened names v n : vfds v = opened_to names n → (n ≤ 6)%nat →
  lowest_fd v = if decide (n < 6)%nat then Some (2 + Z.of_nat n) else None.
Proof using Type.
  clear Hfuel. intros E Hn. unfold lowest_fd. rewrite E. clear E. do 7 (destruct n as [|n]; [by vm_compute|]). lia.
Qed.

Lemma open_lots_ok names k j s v : dir (chars ".") = Some (ODir names) → rep s v →
  cstr_at (vm v) (lit (chars ".")) (chars ".") → vfds v = opened_to names j →
  (j + k = 7)%nat → (j ≤ 6)%nat →
  wp (open_lots k 0) (λ r s', r = 1 ∧ rep s' (v <| vfds := opened_to names 6 |>)) s.
Proof using ProcSys0.
  clear Hfuel. intros Hd. revert j s v. induction k as [|k IH]; intros j s v Hr Hl Hv Hjk Hj; [lia|].
  cbn [open_lots]. rewrite wp_bind.
  eapply wp_mono; [by apply (law_open s v _ (chars "."))|]. cbv beta. intros r s1 Hr1.
  rewrite Hd, (lowest_opened names v j Hv Hj) in Hr1. case_decide as Hlt.
  - destruct Hr1 as [-> Hr1]. rewrite bool_decide_eq_false_2 by lia.
    eapply wp_mono; [apply (IH (S j) s1 _ Hr1); [exact Hl| |lia|lia]|done].
    cbn [vfds upd Set_vfds]. by rewrite Hv.
  - destruct Hr1 as [-> Hr1]. rewrite bool_decide_eq_true_2 by done. 
    assert (k = 0%nat) as -> by lia. cbn [open_lots]. rewrite wp_ret. split; [done|].
    replace 6%nat with j by lia. rewrite <-Hv. by destruct v.
Qed.

Lemma closed_some names n : (n < 6)%nat → is_Some (closed_from names n !! (2 + Z.of_nat n)).
Proof using Type. clear Hfuel. intros Hn. do 6 (destruct n as [|n]; [by vm_compute; eexists|]). lia. Qed.

Lemma err_open_lots_ok names : dir (chars ".") = Some (ODir names) →
  passes (err_open_lots fuel) (pass_msg (chars "err_open_lots")).
Proof using ProcSys0 Hfuel.
  intros Hd s v Hr He. unfold err_open_lots. rewrite wp_bind. eapply wp_mono.
  { apply (open_lots_ok names 7 0 s v Hd Hr); [apply test_lit; [done|pick]|apply He|done|lia]. }
  cbv beta. intros cnt s1 [-> Hr1]. rewrite wp_bind. eapply wp_mono.
  { apply (wp_for (λ i, _ ← ece391_close i; mret tt)
      (λ i s, rep s (v <| vfds := closed_from names (Z.to_nat (i - 2)) |>)) 6 2 s1); [exact Hr1|].
    intros j s2 Hj Hr2. rewrite wp_bind. eapply wp_mono; [apply law_close; [exact Hr2|lia]|]. cbv beta.
    intros r s3 Hr3. rewrite wp_ret. rewrite decide_True in Hr3.
    - destruct Hr3 as [_ Hr3]. replace (Z.to_nat (j + 1 - 2)) with (S (Z.to_nat (j - 2))) by lia.
      cbn [closed_from]. by replace (2 + Z.of_nat (Z.to_nat (j - 2))) with j by lia.
    - split; [lia|]. pose proof (closed_some names (Z.to_nat (j - 2)) ltac:(lia)) as Hs.
      by replace (2 + Z.of_nat (Z.to_nat (j - 2))) with j in Hs by lia. }
  cbv beta. intros _ s2 Hr2. change (Z.to_nat (2 + Z.of_nat 6 - 2)) with 6%nat in Hr2.
  assert (closed_from names 6 = ∅) as Ec by (by vm_compute). rewrite Ec in Hr2.
  destruct He as [Hl Hv]. rewrite <-Hv in Hr2.
  assert (v <| vfds := vfds v |> = v) as Ev by (by destruct v). rewrite Ev in Hr2.
  rewrite bool_decide_eq_true_2, wp_bind by done.
  eapply wp_mono; [apply (test_put s2 v _ Hr2); [done|pick|cbn; lia]|done].
Qed.

(** ** All of them *)

Lemma passes_env v l : test_env v → test_env (v <| vtty ::= tty_puts l |>).
Proof using Type. done. Qed.

Lemma wp_test {A} (c : K St Z) msg s v (k : Z → K St A) Q : passes c msg → rep s v → test_env v →
  (∀ s', rep s' (v <| vtty ::= tty_puts msg |>) → test_env (v <| vtty ::= tty_puts msg |>) →
    wp (k 0) Q s') → wp (c ≫= k) Q s.
Proof using Type.
  intros Hp Hr He Hk. rewrite wp_bind. eapply wp_mono; [by apply Hp|]. cbv beta.
  intros r s' [-> Hr']. by apply Hk.
Qed.

Lemma puts_puts v l1 l2 :
  (v <| vtty ::= tty_puts l1 |>) <| vtty ::= tty_puts l2 |> = v <| vtty ::= tty_puts (l1 ++ l2) |>.
Proof using Type. unfold upd, Set_vtty. cbn. by rewrite tty_puts_app. Qed.

(** What [syserr] prints when it runs all tests. *)
Definition test_output : list Z := (test_names ≫= pass_msg) ++ all_pass.

Lemma all_tests_ok names b : dir (chars ".") = Some (ODir names) →
  dir (chars "helloo") = None → dir (chars "shel") = None → dir [] = None →
  passes (all_tests fuel b) test_output.
Proof using ProcSys0 Hfuel.
  intros Hd H1 H2 H3 s v Hr He. unfold all_tests.
  eapply wp_test; [apply err_neg_fd_ok|exact Hr|exact He|]. clear s Hr He. intros s Hr He.
  eapply wp_test; [apply err_big_fd_ok|exact Hr|exact He|]. clear s Hr He. intros s Hr He.
  eapply wp_test; [by eapply err_open_lots_ok|exact Hr|exact He|]. clear s Hr He. intros s Hr He.
  eapply wp_test; [by apply err_open_ok|exact Hr|exact He|]. clear s Hr He. intros s Hr He.
  eapply wp_test; [apply err_unopened_ok|exact Hr|exact He|]. clear s Hr He. intros s Hr He.
  eapply wp_test; [apply err_vidmap_ok|exact Hr|exact He|]. clear s Hr He. intros s Hr He.
  eapply wp_test; [apply err_stdin_out_ok|exact Hr|exact He|]. clear s Hr He. intros s Hr He.
  eapply wp_test; [apply err_syscall_num_ok|exact Hr|exact He|]. clear s Hr He. intros s Hr He.
  cbv zeta. change (bool_decide (0 + 0 + 0 + 0 + 0 + 0 + 0 + 0 ≠ 0)) with false. cbv iota.
  rewrite wp_bind. eapply wp_mono; [apply (test_put s _ all_pass Hr He); [pick|cbn; lia]|].
  cbv beta. intros _ s' Hr'. rewrite wp_ret. split; [done|].
  rewrite !puts_puts in Hr'.
  match type of Hr' with rep _ (_ <| vtty ::= tty_puts ?l |>) => change l with test_output in Hr' end.
  exact Hr'.
Qed.

(** ** The choice of a test *)

Definition test_prompt : list Z := chars "Choose from tests 1-8. 0 to run all: ".
(** What the program shows after the digit [i]. *)
Definition chosen (i : Z) : list Z :=
  if decide (i = 0) then test_output else pass_msg (nth (Z.to_nat (i - 1)) test_names []).

Lemma syserr_main_ok names s v b buf ks ins l w i : rep s v → test_env v →
  dir (chars ".") = Some (ODir names) →
  dir (chars "helloo") = None → dir (chars "shel") = None → dir [] = None →
  cstr_at (vm v) (lit test_prompt) test_prompt → mapped (vm v) buf 128 →
  Forall (λ k, disjoint_range buf 128 (lit k) (Z.of_nat (length k) + 1)) test_literals →
  vin v = ks :: ins → keys ks (tty_puts test_prompt (vtty v)) = Some (l, w) →
  head l = Some (48 + i) → 0 ≤ i ≤ 8 → Forall is_char l →
  wp (syserr_main fuel b buf) (λ r s', r = 0 ∧ ∃ v', rep s' v' ∧ vtty v' = tty_puts (chosen i) w) s.
Proof using ProcSys0 Hfuel.
  intros Hr [Hlits Hfds] Hd H1 H2 H3 Hprompt Hm Hdis Hin Hk Hhead Hi Hch. unfold syserr_main. fold test_prompt.
  rewrite wp_bind. eapply wp_mono; [apply (fdputs_ok fuel s v test_prompt Hr Hprompt); cbn; lia|].
  cbv beta. intros _ s1 Hr1. set (v1 := v <| vtty ::= _ |>) in Hr1. rewrite wp_bind.
  assert (mapped (vm v1) buf (127 + 1)) as Hm1 by exact Hm.
  eapply wp_mono; [apply (law_read_term s1 v1 ks ins l w buf 127 Hr1 Hin Hk ltac:(lia) Hm1)|]. cbv beta.
  intros r s2 [Er Hr2]. destruct l as [|c l]; [done|]. injection Hhead as ->.
  assert (1 ≤ r ≤ 127) as Hr127 by (rewrite Er; cbn [length]; lia). clear Er.
  rewrite bool_decide_eq_false_2 by lia.
  set (bs := take _ _ ++ _) in Hr2. set (v2 := _ <| vin := ins |>) in Hr2.
  assert (length bs ≤ 128)%nat as Hbs.
  { unfold bs. rewrite length_app, length_take, length_replicate. lia. }
  assert (vm v2 !! buf = Some (48 + i)) as Hc.
  { pose proof (put_bytes_at (vm v) buf bs) as Hb. rewrite bytes_at_lookup in Hb.
    specialize (Hb 0%nat (48 + i)). rewrite Z.add_0_r in Hb. apply Hb. unfold bs.
    destruct (Z.to_nat r) as [|n] eqn:En; [lia|]. done. }
  assert (test_env v2) as He2.
  { split; [|exact Hfds]. rewrite Forall_forall in Hlits, Hdis |- *. intros k Hkin.
    eapply cstr_at_agree; [|by apply Hlits]. intros a Ha. cbn [vm v2 v1 upd Set_vin Set_vtty Set_vm].
    apply put_bytes_outside. specialize (Hdis k Hkin). unfold disjoint_range in Hdis. lia. }
  assert (vtty v2 = w) as Ew by done. clearbody v2. subst w. clear Hr1.
  rewrite wp_bind. eapply wp_run; [exact (law_load s2 v2 buf _ Hr2 Hc)|]. cbv zeta.
  replace (48 + i - 48) with i by lia.
  assert (∀ (c : K St Z), passes c (chosen i) →
    wp c (λ r s', r = 0 ∧ ∃ v', rep s' v' ∧ vtty v' = tty_puts (chosen i) (vtty v2)) s2) as Hdone.
  { intros k Hpass. eapply wp_mono; [apply (Hpass s2 v2 Hr2 He2)|]. cbv beta. intros x s3 [-> Hr3].
    split; [done|]. by eexists. }
  assert (i = 0 ∨ i = 1 ∨ i = 2 ∨ i = 3 ∨ i = 4 ∨ i = 5 ∨ i = 6 ∨ i = 7 ∨ i = 8) as Hcases by lia.
  destruct Hcases as [-> |[-> |[-> |[-> |[-> |[-> |[-> |[-> | ->]]]]]]]]; bool_lits; cbv iota; apply Hdone.
  - by eapply all_tests_ok.
  - apply err_neg_fd_ok.
  - apply err_big_fd_ok.
  - by eapply err_open_lots_ok.
  - by apply err_open_ok.
  - apply err_unopened_ok.
  - apply err_vidmap_ok.
  - apply err_stdin_out_ok.
  - apply err_syscall_num_ok.
Qed.
End tests.
