(* ===== verification/UserKernel.v ===== *)
(** * The kernel under a user program

    The interrupt [int $0x80] of [ece391syscall.S] enters the dispatcher of
    the kernel; loads and stores go to the program page. This makes the
    kernel a system in the sense of [Sys]. *)

From S2P Require Import Prelude CInt Memory CString State I8259 Screen Printf Rtc Paging.
From S2P Require Import FS Process Terminal Syscalls UserLib.

(** The page of the running program; the page that [vidmap] adds is left out. *)
Definition in_page (a : Z) : Prop := PROG_VIR_ADDR_START ≤ a < PROG_VIR_ADDR_START + PROG_PAGE_SIZE.
#[global] Instance in_page_dec a : Decision (in_page a).
Proof. unfold in_page. apply _. Defined.

Section kernel.
Context `{Device} `{Layout} (handler : irq → K kstate unit) (busy polls : nat) (scancode : Z).
(** What the registers hold that [call_sys] does not set. *)
Context (ebx ecx edx : Z).

(** [DO_CALL]: the number in [eax], the arguments in [ebx], [ecx] and [edx];
    the return to the program restores its stack. A call that does not come
    back here (a program starts or ends) has no result in this run. *)
Definition do_call (number a b c : Z) : K kstate Z :=
  user_esp ← kget (λ s, esp (kcpu s));
  r ← syscall_handler handler busy polls scancode (u32 number) (u32 a) (u32 b) (u32 c);
  match r with
  | Return v => _ ← mod_cpu (λ c, c <| esp := user_esp |>); mret v
  | _ => kspin
  end.

(** [_start]: [main], and the call that ends the program with its value. *)
Definition user_start (main : K kstate Z) : K kstate ctl :=
  r ← main; syscall_handler handler busy polls scancode 1 (u32 r) 0 0.

(** Accesses outside the page fault. *)
Definition user_load8 (a : Z) : K kstate Z :=
  if decide (in_page a) then on_mem (load8 a) else kfault.
Definition user_store8 (a v : Z) : K kstate unit :=
  if decide (in_page a) then on_mem (store8 a v) else kfault.

#[local] Instance kernel_sys : Sys kstate := {|
  sys_mem := {| u_load8 := user_load8; u_store8 := user_store8 |};
  ece391_execute := λ command, do_call 2 command 0 0;
  ece391_read := λ fd buf nbytes, do_call 3 fd buf nbytes;
  ece391_write := λ fd buf nbytes, do_call 4 fd buf nbytes;
  ece391_open := λ filename, do_call 5 filename 0 0;
  ece391_close := λ fd, do_call 6 fd 0 0;
  ece391_getargs := λ buf nbytes, do_call 7 buf nbytes 0;
  ece391_vidmap := λ screen_start, do_call 8 screen_start 0 0;
  ece391_set_handler := λ signum h, do_call 9 signum h 0;
  call_sys := λ number, do_call number ebx ecx edx;
|}.
End kernel.
