(* ===== verification/WriteSpec.v ===== *)
(** * What a write to the terminal shows *)

From S2P Require Import Prelude CInt Memory CString State Screen Printf Rtc Terminal.
From S2P Require Import UserSpec.

Lemma shown_cons c l : l ≠ [] → shown (c :: l) = (if decide (c = 0) then [] else [c]) ++ shown l.
Proof.
  intros Hl. unfold shown. destruct l as [|x l]; [done|]. rewrite filter_cons.
  change (last (c :: x :: l)) with (last (x :: l)). by repeat case_decide.
Qed.
Lemma shown_one c : shown [c] = if decide (c = 0) then newline else [c].
Proof.
  unfold shown. rewrite filter_cons, filter_nil. cbn [last].
  repeat case_decide; simplify_eq; done.
Qed.

Lemma shown_u8 l : Forall is_u8 l → Forall is_u8 (shown l).
Proof.
  rewrite !Forall_forall. unfold shown. intros Hl x [Hx|Hx]%elem_of_app.
  - apply list_elem_of_filter in Hx as [_ Hx]. by apply Hl.
  - case_decide; [|by apply elem_of_nil in Hx]. apply list_elem_of_singleton in Hx as ->. by vm_compute.
Qed.

Section write.
Context `{Device} `{Layout}.

(** The memory of a drawn state, at what is apart from the screen. *)
Lemma drawn_bytes s t v s' a l : drawn_to s t v s' → bytes_at (kmem s) a l →
  disjoint_range a (Z.of_nat (length l)) (term_base (kscr s) t) 4000 → bytes_at (kmem s') a l.
Proof.
  intros (m' & -> & _ & _ & Ho) Hb Hd. eapply bytes_at_agree; [|exact Hb].
  intros x Hx. apply Ho. unfold disjoint_range in Hd. lia.
Qed.

Lemma drawn_key s t v s' : drawn_to s t v s' → keyInt (kscr s') = keyInt (kscr s).
Proof. by intros (m' & -> & _). Qed.

Lemma tWrite_loop_ok buf l t l2 : ∀ s v l1 w, l = l1 ++ l2 →
  writes_to s t → keyInt (kscr s) = 0 → tty_at s t v →
  bytes_at (kmem s) buf l → Forall is_u8 l →
  disjoint_range buf (Z.of_nat (length l)) (term_base (kscr s) t) 4000 →
  wp (tWrite_loop (length l2) buf (Z.of_nat (length l)) (Z.of_nat (length l1)) w)
    (λ r s', w ≤ r ∧ drawn_to s t (tty_puts (shown l2) v) s') s.
Proof.
  induction l2 as [|c l2 IH]; intros s v l1 w El Hw Hk Hv Hb Hu Hd.
  { cbn [length tWrite_loop]. split; [lia|]. destruct Hw as (_ & _ & _ & Ht). apply (drawn_id s t v); [lia|done]. }
  pose proof Hw as (_ & _ & _ & Ht). cbn [length tWrite_loop].
  assert (load8 (buf + Z.of_nat (length l1)) (kmem s) = Ok (c, kmem s)) as Ec.
  { apply load8_ok. rewrite bytes_at_lookup in Hb. apply Hb. by rewrite El, list_lookup_middle. }
  assert (is_u8 c) as Hc by (rewrite El in Hu; apply Forall_app in Hu as [_ Hu]; by inversion Hu).
  rewrite wp_bind. eapply wp_run; [apply on_mem_pure; exact Ec|].
  (* the rest, once something is shown *)
  assert (∀ out s1, drawn_to s t (tty_puts out v) s1 → shown (c :: l2) = out ++ shown l2 → tty_ok (tty_puts out v) →
    ∀ w', w ≤ w' → wp (tWrite_loop (length l2) buf (Z.of_nat (length l)) (Z.of_nat (length l1) + 1) w')
    (λ r s', w ≤ r ∧ drawn_to s t (tty_puts (shown (c :: l2)) v) s') s1) as Hrest.
  { intros out s1 Hs1 -> Hok w' Hw'.
    replace (Z.of_nat (length l1) + 1) with (Z.of_nat (length (l1 ++ [c]))) by (rewrite length_app; cbn; lia).
    eapply wp_mono.
    - eapply (IH s1 (tty_puts out v) (l1 ++ [c]) w').
      + by rewrite <-app_assoc.
      + by eapply drawn_writes_to.
      + by rewrite (drawn_key _ _ _ _ Hs1).
      + by eapply drawn_tty; [lia|exact Hv|exact Hok|exact Hs1].
      + by eapply drawn_bytes.
      + done.
      + by rewrite (term_base_drawn _ _ _ _ _ Hs1).
    - cbv beta. intros r s2 [Hr Hs2]. split; [lia|]. rewrite tty_puts_app. by eapply drawn_trans. }
  case_bool_decide as Hz.
  - rewrite wp_bind. change (chars "%c") with [37; 99].
    assert (wp (printf [37; 99] [c]) (λ _ s1, drawn_to s t (tty_puts [c] v) s1) s) as Hp.
    { unfold wp at 1. rewrite printf_char, u8_id by done.
      change (wp (_ ← putc c; mret 2) (λ _ s1, drawn_to s t (tty_putc c v) s1) s).
      rewrite wp_bind. eapply wp_mono; [apply putc_ok; [done|by left|done|done]|done]. }
    eapply wp_mono; [exact Hp|]. cbv beta. intros _ s1 Hs1.
    apply (Hrest [c] s1 Hs1); [|apply tty_putc_ok; [done|apply Hv]|lia].
    destruct l2 as [|x l2]; [|by rewrite shown_cons, decide_False]. by rewrite shown_one, decide_False.
  - assert (c = 0) as -> by lia. rewrite wp_bind.
    assert (Z.of_nat (length l1) = Z.of_nat (length l) - 1 ↔ l2 = []) as Hend.
    { rewrite El, length_app. cbn [length]. destruct l2; cbn [length]; split; (done || lia). }
    case_bool_decide as Hi.
    + apply Hend in Hi as Hl2. rewrite wp_bind. rewrite Hi in Ec.
      eapply wp_run; [apply on_mem_pure; exact Ec|]. bool_lits. cbv iota. rewrite wp_bind.
      eapply wp_mono; [apply (printf_plain s t v newline); [done|by left|done|by repeat constructor]|].
      cbv beta. intros _ s1 [_ Hs1]. rewrite wp_ret.
      apply (Hrest newline s1 Hs1); [by rewrite Hl2, shown_one| |lia].
      apply tty_puts_ok; [by repeat constructor|apply Hv].
    + rewrite wp_ret. apply (Hrest [] s); [apply (drawn_id s t v); [lia|done]| |apply Hv|lia].
      rewrite shown_cons, decide_True; [done|done|]. intros E. by apply Hi, Hend.
Qed.

(** [tWrite] of bytes shows them. *)
Lemma tWrite_ok s t v fd buf l :
  writes_to s t → keyInt (kscr s) = 0 → tty_at s t v → bytes_at (kmem s) buf l → Forall is_u8 l →
  disjoint_range buf (Z.of_nat (length l)) (term_base (kscr s) t) 4000 →
  wp (tWrite fd buf (Z.of_nat (length l))) (λ r s', 0 ≤ r ∧ drawn_to s t (tty_puts (shown l) v) s') s.
Proof.
  intros. unfold tWrite. rewrite Nat2Z.id. by apply (tWrite_loop_ok buf l t l s v [] 0).
Qed.
End write.
