(* ===== verification/KernelSys.v ===== *)
(** * The kernel keeps the promises of [ProcSys]

    [process_at] relates the kernel to the view of the process that runs;
    each system call changes both alike. *)

From S2P Require Import Prelude CInt Memory CString State I8259 Screen Printf Rtc Paging.
From S2P Require Import FS FSSpec FileReads ExecSpec Process Terminal Keyboard Syscalls.
From S2P Require Import SyscallSpec TerminalSpec KeyboardSpec FrameSpec ReadLine UserLib.
From S2P Require Import UserSpec ProgSpec UserKernel.

Section process.
Context `{Layout} (img : image) (t : Z).
(** The key map, what the keyboard will give, what comes after the lines that
    the program reads, and the interrupts after them. *)
Context (tbl cs more : list Z) (rest : list irq).
(** The kernel that the program started in. *)
Context (s0 : kstate).

(** What an entry of the file table stands for. *)
Definition obj_ok (f : file_struct_t) (o : option obj) : Prop :=
  match o with
  | None => flags f = CLOSE
  | Some (OFile r) => ∃ x ino pos, zlookup (inodes img) ino = Some x ∧
      f = Mk_file_struct_t (Some fops_file) ino pos (Z.lor TYPE_FILE OPEN) ∧
      0 ≤ pos ≤ in_len x ∧ r = drop (Z.to_nat pos) (content img x)
  | Some (ODir names) => ∃ d, (d ≤ length (entries img))%nat ∧
      f = Mk_file_struct_t (Some fops_dir) 0 (Z.of_nat d) (Z.lor TYPE_DIR OPEN) ∧
      names = e_str <$> drop d (entries img)
  | Some ORtc => f = Mk_file_struct_t (Some fops_rtc) 0 0 (Z.lor TYPE_RTC OPEN)
  | Some OTerm => f = Mk_file_struct_t (Some fops_term) 0 0 (Z.lor TYPE_TERM OPEN)
  end.

(** The memory the calls work on: the program's page, the screen of the
    terminal, the buffer of [open], the lines; the image, the literals, the
    arguments. *)
Definition regions (s : kstate) (b : pcb_t) (args : list Z) : list (Z * Z) :=
  [ (PROG_VIR_ADDR_START, PROG_PAGE_SIZE); (term_base (kscr s) t, 4000); (L_open_file, 64);
    (L_tbuf - 1, 385); (bblock s, image_size img); (L_empty, 1); (L_terminal, 9);
    (arguments b, Z.of_nat (length args) + 1) ].
(** The first four may change. *)
Definition volatile (s : kstate) (a : Z) : Prop :=
  in_page a ∨ term_base (kscr s) t ≤ a < term_base (kscr s) t + 4000 ∨
  L_open_file ≤ a < L_open_file + 64 ∨ L_tbuf - 1 ≤ a < L_tbuf + 384.

(** The lines to come are on the keyboard. *)
Definition lines_coming (s : kstate) (ins : list (list Z)) : Prop :=
  ins ≠ [] → currentTerminal (kscr s) = t ∧ getChar (kkbd s) = tbl ∧ io_if (kio s) = true ∧
    kirqs s = replicate (length (mjoin ins)) IRQ_keyboard ++ rest ∧
    drop (kb_reads (io_trace (kio s))) cs = mjoin ins ++ more.

Record process_with (s : kstate) (v : view) (b : pcb_t) : Prop := {
  pw_running : running s b;
  pw_files : length (file_array b) = 8%nat;
  pw_term : curTerminal b = t;
  pw_t : 1 ≤ t ≤ 3;
  pw_std fd : fd = 0 ∨ fd = 1 → fops_table (file_at b fd) = Some fops_term ∧ fd_open b fd;
  pw_fds fd : 2 ≤ fd < 8 → obj_ok (file_at b fd) (vfds v !! fd);
  pw_dom fd o : vfds v !! fd = Some o → 2 ≤ fd < 8;
  pw_args : cstr_at (kmem s) (arguments b) (vargs v);
  pw_short : Z.of_nat (length (vargs v)) < 2 ^ 32;
  pw_image : image_at (kmem s) (bblock s) img;
  pw_empty : kmem s !! L_empty = Some 0;
  pw_terminal : cstr_at (kmem s) L_terminal (chars "terminal");
  pw_open : mapped (kmem s) L_open_file 64;
  pw_apart : apart (regions s b (vargs v));
  pw_vm a x : vm v !! a = Some x → in_page a ∧ kmem s !! a = Some x;
  pw_tty : tty_at s t (vtty v);
  pw_line : ∃ l, line_at s t l;
  pw_before : is_Some (kmem s !! (row_base t - 1));
  pw_tbuf u : 1 ≤ u ≤ 3 → disjoint_range (L_tbuf - 1) 385 (term_base (kscr s) u) 4000;
  pw_key : keyInt (kscr s) = 0;
  pw_in : lines_coming s (vin v);
  pw_frame : same_frame s0 s;
}.
Definition process_at (s : kstate) (v : view) : Prop := ∃ b, process_with s v b.

(** Two of the regions are apart. *)
Lemma regions_apart s v b i j r q : process_with s v b →
  regions s b (vargs v) !! i = Some r → regions s b (vargs v) !! j = Some q → i ≠ j →
  disjoint_range r.1 r.2 q.1 q.2.
Proof using Type. intros Hp Hi Hj Hne. eapply apart_pair; [apply (pw_apart _ _ _ Hp)|done..]. Qed.

Lemma writes_terminal s v b : process_with s v b → writes_to s t.
Proof using Type. intros Hp. exists b. split; [apply Hp|]. split; apply Hp. Qed.

(** Memory that changes at volatile addresses only. *)
Definition kept (s s' : kstate) : Prop :=
  dom (kmem s') = dom (kmem s) ∧ ∀ a, ¬ volatile s a → kmem s' !! a = kmem s !! a.

Lemma fixed_range s s' v b k r : process_with s v b → kept s s' → (4 ≤ k)%nat →
  regions s b (vargs v) !! k = Some r → ∀ a, r.1 ≤ a < r.1 + r.2 → kmem s' !! a = kmem s !! a.
Proof using Type.
  intros Hp [_ Hk] Hge Hr a Ha. apply Hk. intros Hv.
  pose proof (regions_apart s v b k 0 r _ Hp Hr eq_refl ltac:(lia)) as H0.
  pose proof (regions_apart s v b k 1 r _ Hp Hr eq_refl ltac:(lia)) as H1.
  pose proof (regions_apart s v b k 2 r _ Hp Hr eq_refl ltac:(lia)) as H2.
  pose proof (regions_apart s v b k 3 r _ Hp Hr eq_refl ltac:(lia)) as H3.
  unfold disjoint_range, volatile, in_page in *. cbn [fst snd] in *. lia.
Qed.

(** A step of the kernel and of the view. *)
Lemma process_step s v b s' v' b' : process_with s v b → kept s s' → same_frame s s' →
  running s' b' → curTerminal b' = t → length (file_array b') = 8%nat → arguments b' = arguments b →
  (∀ fd, fd = 0 ∨ fd = 1 → file_at b' fd = file_at b fd) →
  (∀ fd, 2 ≤ fd < 8 → obj_ok (file_at b' fd) (vfds v' !! fd)) →
  (∀ fd o, vfds v' !! fd = Some o → 2 ≤ fd < 8) →
  vargs v' = vargs v → bblock s' = bblock s →
  currentTerminal (kscr s') = currentTerminal (kscr s) → keyInt (kscr s') = 0 →
  (∀ a x, vm v' !! a = Some x → in_page a ∧ kmem s' !! a = Some x) →
  tty_at s' t (vtty v') → (∃ l, line_at s' t l) → lines_coming s' (vin v') →
  process_with s' v' b'.
Proof using Type.
  intros Hp Hk Hfr Hrun Ht Hl Ha Hstd Hfds Hdom Hargs Hbb Hc Hkey Hvm Htty Hline Hin.
  pose proof (fixed_range s s' v b 4 _ Hp Hk ltac:(lia) eq_refl) as F4.
  pose proof (fixed_range s s' v b 5 _ Hp Hk ltac:(lia) eq_refl) as F5.
  pose proof (fixed_range s s' v b 6 _ Hp Hk ltac:(lia) eq_refl) as F6.
  pose proof (fixed_range s s' v b 7 _ Hp Hk ltac:(lia) eq_refl) as F7. cbn [fst snd] in *.
  assert (∀ u, term_base (kscr s') u = term_base (kscr s) u) as Ebase
    by (intros u; unfold term_base; by rewrite Hc).
  destruct Hk as [Hd _]. split; try done; try apply Hp.
  - intros fd Hfd. unfold fd_open. rewrite (Hstd fd Hfd). by apply (pw_std _ _ _ Hp).
  - rewrite Hargs, Ha. eapply cstr_at_agree; [|apply Hp]. intros x Hx. apply F7. lia.
  - rewrite Hargs. apply Hp.
  - rewrite Hbb. apply (image_agree _ _ _ (pw_image _ _ _ Hp)). exact F4.
  - rewrite F5 by lia. apply Hp.
  - eapply cstr_at_agree; [|apply Hp]. intros x Hx.
    change (Z.of_nat (length (chars "terminal"))) with 8 in Hx. apply F6. lia.
  - eapply mapped_dom; [exact Hd|apply Hp].
  - pose proof (pw_apart _ _ _ Hp) as Hap. unfold regions in *. by rewrite Ebase, Hbb, Ha, Hargs.
  - apply elem_of_dom. rewrite Hd. apply elem_of_dom. apply Hp.
  - intros u Hu. rewrite Ebase. by apply (pw_tbuf _ _ _ Hp).
  - etrans; [apply (pw_frame _ _ _ Hp)|exact Hfr].
Qed.

(** The stack pointer is not part of the view. *)
Lemma process_cpu s v b f : (∀ c, tss_esp0 (f c) = tss_esp0 c) → process_with s v b →
  process_with (s <| kcpu ::= f |>) v b.
Proof using Type.
  intros Hf []. split; try done. etrans; [eassumption|]. split; [done|done|done|apply Hf|reflexivity].
Qed.

(** Memory changes in the page and the buffer of [open]; the files may too. *)
Lemma process_mem s v b k v' b' m' : process_with s v b →
  let s' := (s <| kmem := m' |>) <| kproc := k |> in
  same_procs (kproc s) k → running s' b' → curTerminal b' = t → length (file_array b') = 8%nat → arguments b' = arguments b →
  (∀ fd, fd = 0 ∨ fd = 1 → file_at b' fd = file_at b fd) →
  (∀ fd, 2 ≤ fd < 8 → obj_ok (file_at b' fd) (vfds v' !! fd)) →
  (∀ fd o, vfds v' !! fd = Some o → 2 ≤ fd < 8) →
  vargs v' = vargs v → vtty v' = vtty v → vin v' = vin v →
  dom m' = dom (kmem s) →
  (∀ a, ¬ in_page a → ¬ (L_open_file ≤ a < L_open_file + 64) → m' !! a = kmem s !! a) →
  (∀ a x, vm v' !! a = Some x → in_page a ∧ m' !! a = Some x) →
  process_with s' v' b'.
Proof using Type.
  intros Hp s' Hsp Hrun Ht Hl Ha Hstd Hfds Hdom Hargs Htty Hin Hd Ho Hvm.
  assert (∀ i r, (i = 1 ∨ i = 3)%nat → regions s b (vargs v) !! i = Some r →
    ∀ a, r.1 ≤ a < r.1 + r.2 → m' !! a = kmem s !! a) as Hfix.
  { intros i r Hi Hr a Hr'.
    pose proof (regions_apart s v b i 0 r _ Hp Hr eq_refl ltac:(lia)) as H0.
    pose proof (regions_apart s v b i 2 r _ Hp Hr eq_refl ltac:(lia)) as H2.
    unfold disjoint_range in H0, H2. cbn [fst snd] in H0, H2.
    apply Ho; unfold in_page; lia. }
  pose proof (Hfix 1%nat _ ltac:(lia) eq_refl) as F1. pose proof (Hfix 3%nat _ ltac:(lia) eq_refl) as F3.
  cbn [fst snd] in F1, F3. clear Hfix.
  assert (kept s s') as Hk.
  { split; [exact Hd|]. intros a Hv. unfold volatile in Hv. apply Ho; tauto. }
  assert (same_frame s s') as Hfr by (by split).
  apply (process_step s v b s' v' b' Hp Hk Hfr Hrun Ht Hl Ha Hstd Hfds Hdom Hargs eq_refl eq_refl
    (pw_key _ _ _ Hp) Hvm).
  - rewrite Htty. pose proof (pw_tty _ _ _ Hp) as (Hv & Hs & Hxy). split; [exact Hv|]. split; [|exact Hxy].
    eapply screen_at_agree; [exact Hd| |exact Hs]. exact F1.
  - pose proof (pw_line _ _ _ Hp) as (l & Hi & Hlen & Hb & Hm). exists l. split; [exact Hi|]. split; [exact Hlen|].
    split; [|eapply mapped_dom; [exact Hd|exact Hm]]. eapply bytes_at_agree; [|exact Hb]. intros x Hx. apply F3.
    pose proof (pw_t _ _ _ Hp). unfold row_base, tbuf_at, BUFSIZE in Hx. lia.
  - rewrite Hin. exact (pw_in _ _ _ Hp).
Qed.

(** A store of the program. *)
Lemma process_stores s v b m' v' : process_with s v b →
  vfds v' = vfds v → vargs v' = vargs v → vtty v' = vtty v → vin v' = vin v →
  dom m' = dom (kmem s) → (∀ a, ¬ in_page a → m' !! a = kmem s !! a) →
  (∀ a x, vm v' !! a = Some x → in_page a ∧ m' !! a = Some x) →
  process_with (s <| kmem := m' |>) v' b.
Proof using Type.
  intros Hp Ef Ea Et Ei Hd Ho Hvm.
  refine (process_mem s v b (kproc s) v' b m' Hp (reflexivity _) (pw_running _ _ _ Hp) (pw_term _ _ _ Hp)
    (pw_files _ _ _ Hp) eq_refl (λ _ _, eq_refl) _ _ Ea Et Ei Hd (λ a Ha _, Ho a Ha) Hvm);
    rewrite Ef; apply Hp.
Qed.

(** An entry of the file table changes, and the page. *)
Lemma process_file s v b m' fd x v' : process_with s v b → 2 ≤ fd < 8 →
  obj_ok x (vfds v' !! fd) → (∀ k, k ≠ fd → vfds v' !! k = vfds v !! k) →
  vargs v' = vargs v → vtty v' = vtty v → vin v' = vin v →
  dom m' = dom (kmem s) →
  (∀ a, ¬ in_page a → ¬ (L_open_file ≤ a < L_open_file + 64) → m' !! a = kmem s !! a) →
  (∀ a x, vm v' !! a = Some x → in_page a ∧ m' !! a = Some x) →
  process_at (with_file (s <| kmem := m' |>) b fd x) v'.
Proof using Type.
  intros Hp Hfd Hx Hk Ea Et Ei Hd Ho Hvm. pose proof (pw_files _ _ _ Hp) as Hl.
  set (b' := b <| file_array := <[Z.to_nat fd := x]> (file_array b) |>). exists b'.
  assert (∀ k, 0 ≤ k → file_at b' k = if decide (fd = k) then x else file_at b k) as Hfa
    by (intros k Hk0; apply file_at_insert; [done|lia|done]).
  assert (same_block b b') as Hbb by (split; [by apply length_insert|by destruct b]).
  refine (process_mem s v b _ v' b' m' Hp (same_procs_insert _ _ _ _ (pw_running _ _ _ Hp) Hbb) _ (pw_term _ _ _ Hp) _ eq_refl _ _ _ Ea Et Ei Hd Ho Hvm).
  - unfold running. apply lookup_insert_eq.
  - unfold b'. upd_cbv. by rewrite length_insert.
  - intros k Hk01. rewrite Hfa by lia. by rewrite decide_False by lia.
  - intros k Hk8. rewrite Hfa by lia. case_decide as E; [by subst k|].
    rewrite Hk by done. by apply (pw_fds _ _ _ Hp).
  - intros k o Hko. destruct (decide (k = fd)) as [->|Hne]; [done|]. rewrite Hk in Hko by done.
    by eapply (pw_dom _ _ _ Hp).
Qed.

(** The program draws. *)
Lemma process_drawn s v b f s' : process_with s v b → drawn_to s t (f (vtty v)) s' → tty_ok (f (vtty v)) →
  process_with s' (v <| vtty ::= f |>) b.
Proof using Type.
  intros Hp Hs Hok. pose proof Hs as (m' & Es & _ & Hd & Ho).
  assert (disjoint_range PROG_VIR_ADDR_START PROG_PAGE_SIZE (term_base (kscr s) t) 4000) as H01
    by (exact (regions_apart s v b 0 1 _ _ Hp eq_refl eq_refl ltac:(lia))).
  assert (∀ a, ¬ (term_base (kscr s) t ≤ a < term_base (kscr s) t + 4000) → kmem s' !! a = kmem s !! a) as Ho'
    by (rewrite Es; exact Ho).
  assert (kept s s') as Hk.
  { split; [by rewrite Es|]. intros a Hv. apply Ho'. unfold volatile in Hv. tauto. }
  assert (kproc s' = kproc s ∧ bblock s' = bblock s ∧ currentTerminal (kscr s') = currentTerminal (kscr s) ∧
    keyInt (kscr s') = keyInt (kscr s)) as (E1 & E2 & E3 & E4) by (by rewrite Es).
  pose proof (pw_running _ _ _ Hp) as Hrun.
  apply (process_step s v b s' (v <| vtty ::= f |>) b Hp Hk); try done.
  - apply beside_frame; rewrite Es; by repeat split.
  - unfold running. by rewrite E1.
  - apply Hp.
  - apply Hp.
  - apply Hp.
  - apply Hp.
  - rewrite E4. apply Hp.
  - intros a x Hx. rewrite vm_shown in Hx. apply (pw_vm _ _ _ Hp) in Hx as [Hin Hx]. split; [done|].
    rewrite Ho'; [done|]. unfold in_page, disjoint_range in *. lia.
  - eapply drawn_tty; [apply (pw_t _ _ _ Hp)|apply (pw_tty _ _ _ Hp)|exact Hok|exact Hs].
  - destruct (pw_line _ _ _ Hp) as [l Hl]. exists l. eapply drawn_line; [|exact Hs|exact Hl].
    pose proof (regions_apart s v b 3 1 _ _ Hp eq_refl eq_refl ltac:(lia)) as H31.
    pose proof (pw_t _ _ _ Hp).
    unfold disjoint_range, row_base, tbuf_at, BUFSIZE in *. cbn [fst snd] in H31. lia.
  - pose proof (pw_in _ _ _ Hp) as Hin. unfold lines_coming in *. rewrite Es. exact Hin.
Qed.
End process.
