(* ===== verification/KernelLaws.v ===== *)
(** * The system calls keep the promises of [ProcSys] *)

From S2P Require Import Prelude CInt Memory CString State I8259 Screen Printf Rtc Paging.
From S2P Require Import FS FSSpec FileReads ParseSpec ExecSpec Process Terminal Keyboard.
From S2P Require Import Syscalls SyscallSpec TerminalSpec KeyboardSpec FrameSpec ReadLine.
From S2P Require Import UserLib UserSpec ProgSpec UserKernel WriteSpec KernelSys.

Lemma s32_u32 z : is_s32 z → s32 (u32 z) = z.
Proof. unfold is_s32, s32, u32. intros. rewrite Zplus_mod_idemp_l, Z.mod_small; lia. Qed.

(** ** Names *)

(** Every entry is of a known kind, and every file has an inode. *)
Definition image_known (img : image) : Prop := Forall (λ e, 0 ≤ e_type e ≤ 2 ∧
  (e_type e = TYPE_FILE → is_Some (zlookup (inodes img) (e_inode e)))) (entries img).
#[global] Instance image_known_dec img : Decision (image_known img).
Proof. unfold image_known. apply _. Defined.

(** What opening a name gives. *)
Definition dir_of (img : image) (name : list Z) : option obj :=
  match find_entry img name with
  | Some (_, e) =>
      let kind := kind_of name e in
      if bool_decide (kind = TYPE_DIR) then Some (ODir (e_str <$> entries img))
      else if bool_decide (kind = TYPE_FILE) then
        x ← zlookup (inodes img) (e_inode e); Some (OFile (content img x))
      else if bool_decide (kind = TYPE_RTC) then Some ORtc else Some OTerm
  | None => None
  end.
(** What a typed line gives, when it fits the line buffer. *)
Definition keys_of (tbl ks : list Z) (v : tty) : option (list Z * tty) :=
  match type_line tbl ks ([], v) with
  | Some (l, v') => if decide ((length l < 128)%nat ∧ Forall is_char l) then Some (l, v') else None
  | None => None
  end.

Lemma find_entry_in img name k e : find_entry img name = Some (k, e) → e ∈ entries img.
Proof.
  unfold find_entry. case_bool_decide; [done|]. intros (He & _ & _)%list_find_Some.
  by eapply list_elem_of_lookup_2.
Qed.

(** The entry that [sys_open] makes stands for what the name is. *)
Lemma opened_obj img name k e old : image_ok img → n_inodes img < 2 ^ 31 → image_known img →
  find_entry img name = Some (k, e) →
  ∃ o, dir_of img name = Some o ∧ obj_ok img (opened (kind_of name e) e old) (Some o).
Proof.
  intros Hok Hn Hk He. unfold dir_of. rewrite He. apply find_entry_in in He.
  unfold image_known in Hk. rewrite Forall_forall in Hk. destruct (Hk e He) as [Ht Hi].
  assert (kind_of name e = TYPE_TERM ∨ kind_of name e = e_type e) as [E|E]
    by (unfold kind_of; case_bool_decide; auto).
  { rewrite E. by eexists. }
  rewrite E. assert (e_type e = 0 ∨ e_type e = 1 ∨ e_type e = 2) as [E0|[E0|E0]] by lia; rewrite E0.
  - by eexists.
  - eexists. split; [reflexivity|]. exists 0%nat. split; [lia|]. split; [reflexivity|]. by rewrite drop_0.
  - destruct (Hi E0) as [x Hx]. bool_lits. cbv iota zeta. rewrite Hx. eexists. split; [reflexivity|].
    assert (is_Some (zlookup (inodes img) (e_inode e))) as Hr%zlookup_is_Some by (by rewrite Hx).
    exists x, (e_inode e), 0. split; [exact Hx|]. split; [|split; [|by rewrite drop_0]].
    + unfold opened. bool_lits. cbv iota. rewrite s32_id; [reflexivity|]. unfold is_s32, n_inodes in *. lia.
    + apply zlookup_Some in Hx as [_ Hx]. pose proof (io_inodes _ Hok) as Hall.
      destruct (Forall_lookup_1 _ _ _ _ Hall Hx) as [Hlen _]. lia.
Qed.

Section laws.
Context `{d : Device} `{Layout} (img : image) (t : Z).
Context (tbl cs more : list Z) (rest : list irq) (s0 : kstate) `{!Typist d cs}.
Context (busy polls : nat) (handler : irq → K kstate unit) `{!KeyIrq busy polls handler}.
Context (bz pl : nat) (scancode ebx ecx edx : Z).
Context (Hknown : image_known img) (Hmap : map_ok tbl) (Hcodes : Forall is_u8 cs).
Let rep : kstate → view → Prop := process_at img t tbl cs more rest s0.
Let rep_with := process_with img t tbl cs more rest s0.
Let call := do_call handler bz pl scancode.

(** ** The interrupt *)

(** A call whose number selects [body]. *)
Lemma law_call number a b c (body : K kstate Z) Q s v :
  syscall_handler handler bz pl scancode (u32 number) (u32 a) (u32 b) (u32 c) =
    (_ ← mod_cpu (λ c, c <| esp := tss_esp0 c |>); r ← body; mret (Return r)) →
  rep s v →
  (∀ s1 k, rep_with s1 v k → wp body (λ r s', ∀ g, Q r (s' <| kcpu ::= (λ c, c <| esp := g |>) |>)) s1) →
  wp (call number a b c) Q s.
Proof using Type.
  intros E [k Hp] Hb. unfold call, do_call. rewrite wp_bind, wp_get, E, !wp_bind.
  set (s1 := s <| kcpu ::= (λ c, c <| esp := tss_esp0 c |>) |>).
  eapply (wp_run _ _ _ tt s1); [reflexivity|]. rewrite wp_bind.
  eapply wp_mono; [apply (Hb s1 k); by apply process_cpu|]. cbv beta.
  intros r s' Hq. rewrite wp_ret, wp_bind. eapply wp_run; [reflexivity|]. apply Hq.
Qed.

Lemma rep_cpu s v b g : rep_with s v b → rep (s <| kcpu ::= (λ c, c <| esp := g |>) |>) v.
Proof using Type. intros Hp. exists b. by apply process_cpu. Qed.
Lemma rep_at_cpu s v g : rep s v → rep (s <| kcpu ::= (λ c, c <| esp := g |>) |>) v.
Proof using Type. intros [b Hp]. by eapply rep_cpu. Qed.

(** A call that fails. *)
Lemma law_fails number a b c (body : K kstate Z) s v :
  syscall_handler handler bz pl scancode (u32 number) (u32 a) (u32 b) (u32 c) =
    (_ ← mod_cpu (λ c, c <| esp := tss_esp0 c |>); r ← body; mret (Return r)) →
  rep s v → (∀ s1 k, rep_with s1 v k → body s1 = Ok (-1, s1)) →
  wp (call number a b c) (λ r s', r = -1 ∧ rep s' v) s.
Proof using Type.
  intros E Hr Hb. eapply law_call; [exact E|exact Hr|]. intros s1 k Hp.
  eapply wp_run; [by apply (Hb s1 k)|]. intros g. split; [done|]. by eapply rep_cpu.
Qed.

(** ** The page *)

Lemma page_range s v k a n : rep_with s v k → 0 < n → mapped (vm v) a n →
  PROG_VIR_ADDR_START ≤ a ∧ a + n ≤ PROG_VIR_ADDR_START + PROG_PAGE_SIZE ∧ mapped (kmem s) a n.
Proof using Type.
  intros Hp Hn Hm. rewrite mapped_spec in Hm.
  assert (∀ x, a ≤ x < a + n → in_page x ∧ is_Some (kmem s !! x)) as Hx.
  { intros x Hx. destruct (Hm x Hx) as [y Hy]. apply (pw_vm _ _ _ _ _ _ _ _ _ _ Hp) in Hy as [? Hy].
    split; [done|by eexists]. }
  destruct (Hx a ltac:(lia)) as [H1 _]. destruct (Hx (a + n - 1) ltac:(lia)) as [H2 _].
  unfold in_page in *. split; [lia|]. split; [lia|]. rewrite mapped_spec. intros x Hxr. by apply Hx.
Qed.
Lemma page_u32 s v k a n : rep_with s v k → 0 < n → mapped (vm v) a n → u32 a = a.
Proof using Type.
  intros Hp Hn Hm. destruct (page_range s v k a n Hp Hn Hm) as (H1 & H2 & _).
  apply u32_id. unfold is_u32, PROG_VIR_ADDR_START, PROG_PAGE_SIZE in *. lia.
Qed.
Lemma page_bytes s v k a l : rep_with s v k → bytes_at (vm v) a l → bytes_at (kmem s) a l.
Proof using Type.
  intros Hp Hb. rewrite bytes_at_lookup in Hb |- *. intros i x Hi.
  by apply (pw_vm _ _ _ _ _ _ _ _ _ _ Hp), Hb.
Qed.
(** The page and another of the regions. *)
Lemma page_apart s v k a n i r : rep_with s v k → 0 < n → mapped (vm v) a n → (0 < i)%nat →
  regions img t s k (vargs v) !! i = Some r → disjoint_range a n r.1 r.2.
Proof using Type.
  intros Hp Hn Hm Hi Hr. destruct (page_range s v k a n Hp Hn Hm) as (H1 & H2 & _).
  pose proof (regions_apart img t tbl cs more rest s0 s v k 0 i _ r Hp eq_refl Hr ltac:(lia)) as Hd.
  unfold disjoint_range in *. cbn [fst snd] in Hd. lia.
Qed.
(** Bytes written for the program. *)
Lemma put_view s v k m' a l : rep_with s v k → mapped (vm v) a (Z.of_nat (length l)) →
  bytes_at m' a l → (∀ x, in_page x → ¬ (a ≤ x < a + Z.of_nat (length l)) → m' !! x = kmem s !! x) →
  ∀ x y, put_bytes (vm v) a l !! x = Some y → in_page x ∧ m' !! x = Some y.
Proof using Type.
  intros Hp Hm Hb Ho x y. rewrite put_bytes_lookup. destruct (decide _) as [Hx|Hx]; intros Hy.
  - rewrite mapped_spec in Hm. destruct (Hm x Hx) as [z Hz].
    apply (pw_vm _ _ _ _ _ _ _ _ _ _ Hp) in Hz as [? _]. split; [done|].
    rewrite bytes_at_lookup in Hb. specialize (Hb _ _ Hy). rewrite <-Hb. f_equal. lia.
  - apply (pw_vm _ _ _ _ _ _ _ _ _ _ Hp) in Hy as [Hin Hy]. split; [done|]. by rewrite Ho.
Qed.

Lemma kernel_load s v a x : rep s v → vm v !! a = Some x → user_load8 a s = Ok (x, s).
Proof using Type.
  intros [k Hp] Hx. apply (pw_vm _ _ _ _ _ _ _ _ _ _ Hp) in Hx as [Hin Hx]. unfold user_load8.
  rewrite decide_True by done. by apply on_mem_pure, load8_ok.
Qed.

Lemma kernel_store s v a x : rep s v → is_Some (vm v !! a) →
  wp (user_store8 a x) (λ _ s', rep s' (v <| vm ::= <[a := u8 x]> |>)) s.
Proof using Type.
  intros [k Hp] [y Hy]. apply (pw_vm _ _ _ _ _ _ _ _ _ _ Hp) in Hy as [Hin Hy]. unfold user_store8.
  rewrite decide_True by done. eapply wp_run; [by apply on_mem_ok, store8_ok; eexists|].
  exists k. eapply process_stores; [exact Hp|done..| | |].
  - apply dom_insert_mapped. by eexists.
  - intros b Hb. rewrite lookup_insert_ne; [done|]. intros ->. done.
  - intros b z. change (vm (v <| vm ::= _ |>)) with (<[a := u8 x]> (vm v)).
    destruct (decide (a = b)) as [->|Hne]; [by rewrite !lookup_insert_eq|].
    rewrite !lookup_insert_ne by done. apply (pw_vm _ _ _ _ _ _ _ _ _ _ Hp).
Qed.

(** ** Descriptors *)

Lemma fd_is_open s v k fd : rep_with s v k → 2 ≤ fd < 8 →
  (is_Some (vfds v !! fd) ↔ fd_open k fd) ∧ (vfds v !! fd = None ↔ fd_closed k fd) ∧
  (is_Some (vfds v !! fd) → is_Some (fops_table (file_at k fd))).
Proof using Type.
  intros Hp Hfd. pose proof (pw_fds _ _ _ _ _ _ _ _ _ _ Hp fd Hfd) as Ho. unfold fd_open, fd_closed.
  destruct (vfds v !! fd) as [[r|names| |]|]; cbn [obj_ok] in Ho.
  - destruct Ho as (x & ino & pos & _ & -> & _). split; [|split]; by try (split; by eauto).
  - destruct Ho as (n & _ & -> & _). split; [|split]; by try (split; by eauto).
  - rewrite Ho. split; [|split]; by try (split; by eauto).
  - rewrite Ho. split; [|split]; by try (split; by eauto).
  - rewrite Ho. split; [|split]; [split; [by intros [??]|done]|done|by intros [??]].
Qed.

Lemma lowest_free s v k : rep_with s v k → lowest_fd v = free_fd k.
Proof using Type.
  intros Hp. unfold lowest_fd, free_fd. f_equal. apply filter_agree. intros fd Hfd%elem_of_seqZ.
  apply (fd_is_open s v k fd Hp). lia.
Qed.

Lemma kernel_open s v p name : rep s v → cstr_at (vm v) p name →
  wp (call 5 p 0 0) (λ r s', match lowest_fd v, dir_of img name with
    | Some i, Some o => r = i ∧ rep s' (v <| vfds ::= <[i := o]> |>)
    | _, _ => r = -1 ∧ rep s' v
    end) s.
Proof using Hknown.
  intros Hr Hs. eapply (law_call _ _ _ _ (sys_open (u32 p))); [reflexivity|exact Hr|]. intros s1 k Hp.
  assert (mapped (vm v) p (Z.of_nat (length name) + 1)) as Hm.
  { destruct Hs as [Hs _]. apply bytes_at_mapped in Hs. rewrite length_app in Hs. cbn [length] in Hs.
    by replace (Z.of_nat (length name) + 1) with (Z.of_nat (length name + 1)) by lia. }
  rewrite (page_u32 s1 v k p (Z.of_nat (length name) + 1) Hp ltac:(lia) Hm).
  assert (open_env s1 k img p name) as He.
  { pose proof (regions_apart img t tbl cs more rest s0 s1 v k) as Hap. split; try by apply Hp.
    - destruct Hs as [Hb Hc]. split; [by eapply page_bytes|done].
    - split; [exact (Hap 2%nat 4%nat _ _ Hp eq_refl eq_refl ltac:(lia))|]. split.
      + pose proof (page_apart s1 v k p (Z.of_nat (length name) + 1) 2 _ Hp ltac:(lia) Hm ltac:(lia) eq_refl) as Hd.
        unfold disjoint_range in *. cbn [fst snd] in Hd. lia.
      + exact (Hap 2%nat 6%nat _ _ Hp eq_refl eq_refl ltac:(lia)). }
  pose proof (sys_open_ok s1 k img p name He) as E. rewrite (lowest_free s1 v k Hp).
  destruct (free_fd k) as [i|] eqn:Ei; [|unfold dir_of; eapply wp_run; [exact E|]; intros g; split; [done|by eapply rep_cpu]].
  destruct (find_entry img name) as [[n e]|] eqn:Ef.
  2:{ unfold dir_of. rewrite Ef. eapply wp_run; [exact E|]. intros g. split; [done|]. by eapply rep_cpu. }
  destruct E as (m' & E & Hd & Ho). pose proof (pw_image _ _ _ _ _ _ _ _ _ _ Hp) as Hi.
  pose proof (ia_range _ _ _ Hi) as Hrange.
  destruct (opened_obj img name n e (file_at k i) (ia_ok _ _ _ Hi)) as (o & Eo & Hobj); [|done..|].
  { unfold image_size, n_inodes in *. lia. }
  rewrite Eo. eapply wp_run; [exact E|]. intros g. split; [done|]. apply rep_at_cpu.
  apply free_fd_range in Ei as (Hir & _ & _). eapply process_file; [exact Hp|exact Hir|..]; try done.
  - change (vfds (v <| vfds ::= _ |>)) with (<[i := o]> (vfds v)). by rewrite lookup_insert_eq.
  - intros j Hj. change (vfds (v <| vfds ::= _ |>)) with (<[i := o]> (vfds v)). by rewrite lookup_insert_ne.
  - intros a _ Ha. by apply Ho.
  - intros a x Hx. apply (pw_vm _ _ _ _ _ _ _ _ _ _ Hp) in Hx as [Hin Hx]. split; [done|].
    rewrite Ho; [done|]. pose proof (regions_apart img t tbl cs more rest s0 s1 v k 0 2 _ _ Hp eq_refl eq_refl ltac:(lia)) as Hap.
    unfold disjoint_range, in_page in *. cbn [fst snd] in Hap. lia.
Qed.

Lemma kernel_close s v fd : rep s v → is_s32 fd →
  wp (call 6 fd 0 0) (λ r s', if decide (2 ≤ fd < 8 ∧ is_Some (vfds v !! fd))
    then r = 0 ∧ rep s' (v <| vfds ::= delete fd |>) else r = -1 ∧ rep s' v) s.
Proof using Type.
  intros Hr Hfd. eapply (law_call _ _ _ _ (sys_close (s32 (u32 fd)))); [reflexivity|exact Hr|].
  intros s1 k Hp. rewrite s32_u32 by done. pose proof (pw_running _ _ _ _ _ _ _ _ _ _ Hp) as Hrun.
  pose proof (pw_files _ _ _ _ _ _ _ _ _ _ Hp) as Hl.
  destruct (decide _) as [[Hr8 Ho]|Hno].
  - pose proof (fd_is_open s1 v k fd Hp Hr8) as (Hop & _ & Htab). destruct (Htab Ho) as [tab Ht].
    apply Hop in Ho.
    eapply wp_run; [by eapply sys_close_ok|]. intros g. split; [done|]. apply rep_at_cpu.
    assert (s1 = s1 <| kmem := kmem s1 |>) as Es by (by destruct s1). rewrite Es.
    eapply process_file; [exact Hp|exact Hr8|..]; try done.
    + change (vfds (v <| vfds ::= _ |>)) with (delete fd (vfds v)). by rewrite lookup_delete_eq.
    + intros j Hj. change (vfds (v <| vfds ::= _ |>)) with (delete fd (vfds v)). by rewrite lookup_delete_ne.
    + exact (pw_vm _ _ _ _ _ _ _ _ _ _ Hp).
  - unfold sys_close. eapply wp_run; [apply (refused s1 k Hrun Hl)|intros g; split; [done|by eapply rep_cpu]];
      rewrite andb_true_iff, !bool_decide_eq_true; [lia|].
    intros [Hr8 Ho]. apply Hno. split; [lia|]. by apply (fd_is_open s1 v k fd Hp).
Qed.

(** ** Reading *)

Lemma read_open s v k fd tab buf n : rep_with s v k → fd = 0 ∨ 2 ≤ fd < 8 → fd_open k fd →
  fops_table (file_at k fd) = Some tab →
  sys_read handler bz pl scancode fd buf n s = fops_read handler bz pl scancode tab fd buf n s.
Proof using Type.
  intros Hp Hfd Ho Ht. unfold sys_read. pose proof (pw_files _ _ _ _ _ _ _ _ _ _ Hp) as Hl.
  replace (bool_decide (fd = 0) || _) with true
    by (symmetry; rewrite orb_true_iff, andb_true_iff, !bool_decide_eq_true; lia).
  erewrite bind_ok by (eapply cur_file_ok; [apply Hp|]; apply file_at_lookup; [done|lia]).
  rewrite bool_decide_eq_true_2, Ht by done. done.
Qed.

Lemma kernel_read_file s v fd r buf n : rep s v → vfds v !! fd = Some (OFile r) →
  0 < n < 2 ^ 31 → mapped (vm v) buf n →
  wp (call 3 fd buf n) (λ c s', ∃ bs r', r = bs ++ r' ∧ c = Z.of_nat (length bs) ∧ c ≤ n ∧
    (r ≠ [] → bs ≠ []) ∧
    rep s' ((v <| vm ::= λ m, put_bytes m buf bs |>) <| vfds ::= <[fd := OFile r']> |>)) s.
Proof using Type.
  intros Hr Hfd Hn Hm.
  eapply (law_call _ _ _ _ (sys_read handler bz pl scancode (s32 (u32 fd)) (u32 buf) (s32 (u32 n))));
    [reflexivity|exact Hr|]. intros s1 k Hp.
  pose proof (pw_dom _ _ _ _ _ _ _ _ _ _ Hp fd _ Hfd) as Hr8.
  rewrite !s32_u32, (page_u32 s1 v k buf n Hp ltac:(lia) Hm) by (unfold is_s32; lia).
  pose proof (fd_is_open s1 v k fd Hp Hr8) as (Hop & _ & _).
  pose proof (pw_fds _ _ _ _ _ _ _ _ _ _ Hp fd Hr8) as Ho. rewrite Hfd in Ho.
  destruct Ho as (x & ino & pos & Hx & Ef & Hpos & ->).
  assert (sys_read handler bz pl scancode fd buf n s1 = reg_file_read fd buf n s1) as E.
  { rewrite (read_open s1 v k fd fops_file buf n Hp); [done|by right| |by rewrite Ef].
    apply Hop. by eexists. }
  destruct (page_range s1 v k buf n Hp ltac:(lia) Hm) as (H1 & H2 & Hmk).
  pose proof (page_apart s1 v k buf n 4 _ Hp ltac:(lia) Hm ltac:(lia) eq_refl) as Hdi. cbn [fst snd] in Hdi.
  assert (reading (bblock s1) img ino x fd buf n s1 k (file_at k fd) pos) as Hrd.
  { split; try (by apply Hp); try (by rewrite Ef); try done. apply file_at_lookup; [apply Hp|lia]. }
  destruct (reg_file_read_ok (bblock s1) img ino x fd buf n Hx Hn Hdi s1 k _ pos Hrd)
    as (c & m' & Ec & _ & Hc0 & Hprog & Hb & Ho & Hle & Hcn & Hd).
  set (bs := take (Z.to_nat c) (drop (Z.to_nat pos) (content img x))) in *.
  pose proof (pw_image _ _ _ _ _ _ _ _ _ _ Hp) as Hi.
  pose proof (length_content img (ia_ok _ _ _ Hi) x (inode_is_ok _ _ _ Hi _ _ Hx)) as Hlc.
  assert (length bs = Z.to_nat c) as Hbs by (unfold bs; rewrite length_take, length_drop, Hlc; lia).
  assert (mapped (vm v) buf (Z.of_nat (length bs))) as Hmb by (eapply mapped_sub; [exact Hm|lia|lia]).
  unfold wp. rewrite E, Ec. intros g.
  exists bs, (drop (Z.to_nat (pos + c)) (content img x)). split; [|split; [lia|split; [lia|split]]].
  - unfold bs. rewrite Z2Nat.inj_add, <-drop_drop by lia. by rewrite take_drop.
  - intros Hne Hnil. apply Hne. apply nil_length_inv. rewrite length_drop, Hlc.
    rewrite Hnil in Hbs. cbn in Hbs. destruct (decide (pos < in_len x)); [|lia]. specialize (Hprog ltac:(done)). lia.
  - apply rep_at_cpu. unfold read_to. set (r' := drop (Z.to_nat (pos + c)) (content img x)).
    set (v' := _ <| vfds ::= _ |>). assert (vfds v' = <[fd := OFile r']> (vfds v)) as Ev by done.
    eapply (process_file _ _ _ _ _ _ _ _ _ _ _ fd _ v' Hp Hr8); try done; rewrite ?Ev.
    + rewrite lookup_insert_eq. exists x, ino, (pos + c). split; [done|]. rewrite Ef. split; [done|]. split; [lia|done].
    + intros j Hj. by rewrite lookup_insert_ne.
    + intros a Ha _. apply Ho. unfold in_page in Ha. lia.
    + change (vm v') with (put_bytes (vm v) buf bs).
      eapply put_view; [exact Hp|exact Hmb|exact Hb|]. intros a _ Ha. apply Ho. lia.
Qed.

Lemma kernel_read_dir s v fd names buf n : rep s v → vfds v !! fd = Some (ODir names) →
  0 < n < 2 ^ 31 → mapped (vm v) buf n →
  wp (call 3 fd buf n) (λ c s', match names with
    | [] => c = 0 ∧ rep s' v
    | name :: names' => c = n ∧ let bs := take (Z.to_nat n) name in
        rep s' ((v <| vm ::= λ m, put_bytes m buf
          (bs ++ replicate (Z.to_nat n - length bs) 0) |>) <| vfds ::= <[fd := ODir names']> |>)
    end) s.
Proof using Type.
  intros Hr Hfd Hn Hm.
  eapply (law_call _ _ _ _ (sys_read handler bz pl scancode (s32 (u32 fd)) (u32 buf) (s32 (u32 n))));
    [reflexivity|exact Hr|]. intros s1 k Hp.
  pose proof (pw_dom _ _ _ _ _ _ _ _ _ _ Hp fd _ Hfd) as Hr8.
  rewrite !s32_u32, (page_u32 s1 v k buf n Hp ltac:(lia) Hm) by (unfold is_s32; lia).
  pose proof (fd_is_open s1 v k fd Hp Hr8) as (Hop & _ & _).
  pose proof (pw_fds _ _ _ _ _ _ _ _ _ _ Hp fd Hr8) as Ho. rewrite Hfd in Ho.
  destruct Ho as (e & He & Ef & ->).
  assert (sys_read handler bz pl scancode fd buf n s1 = dir_read fd buf n s1) as E.
  { rewrite (read_open s1 v k fd fops_dir buf n Hp); [done|by right| |by rewrite Ef].
    apply Hop. by eexists. }
  destruct (page_range s1 v k buf n Hp ltac:(lia) Hm) as (H1 & H2 & Hmk).
  pose proof (page_apart s1 v k buf n 4 _ Hp ltac:(lia) Hm ltac:(lia) eq_refl) as Hdi. cbn [fst snd] in Hdi.
  pose proof (dir_read_ok (bblock s1) img s1 k (file_at k fd) fd buf n e (pw_image _ _ _ _ _ _ _ _ _ _ Hp)
    eq_refl (pw_empty _ _ _ _ _ _ _ _ _ _ Hp) (pw_running _ _ _ _ _ _ _ _ _ _ Hp)
    (file_at_lookup k fd (pw_files _ _ _ _ _ _ _ _ _ _ Hp) ltac:(lia)) ltac:(by rewrite Ef)
    ltac:(by rewrite Ef) Hn Hmk Hdi) as Ed.
  destruct (entries img !! e) as [y|] eqn:Ee.
  - rewrite (drop_S _ _ _ Ee), fmap_cons. cbv zeta in *. set (bs := take (Z.to_nat n) (e_str y)) in *.
    set (l := bs ++ replicate (Z.to_nat n - length bs) 0) in *.
    assert (Z.of_nat (length l) = n) as Hl.
    { unfold l. rewrite length_app, length_replicate. unfold bs. rewrite length_take. lia. }
    unfold wp. rewrite E, Ed. intros g. split; [done|]. apply rep_at_cpu.
    set (v' := _ <| vfds ::= _ |>). set (names' := e_str <$> drop (S e) (entries img)).
    assert (vfds v' = <[fd := ODir names']> (vfds v)) as Ev by done.
    eapply (process_file _ _ _ _ _ _ _ _ _ _ _ fd _ v' Hp Hr8); try done; rewrite ?Ev.
    + rewrite lookup_insert_eq. exists (S e). apply lookup_lt_Some in Ee.
      split; [lia|]. by rewrite Ef.
    + intros j Hj. by rewrite lookup_insert_ne.
    + apply put_bytes_dom. by rewrite Hl.
    + intros a Ha _. apply put_bytes_outside. unfold in_page in Ha. lia.
    + change (vm v') with (put_bytes (vm v) buf l).
      eapply put_view; [exact Hp|by rewrite Hl|apply put_bytes_at|].
      intros a _ Ha. by apply put_bytes_outside.
  - apply lookup_ge_None in Ee. rewrite drop_ge by lia. cbn [fmap list_fmap].
    unfold wp. rewrite E, Ed by lia. intros g. split; [done|]. by eapply rep_cpu.
Qed.

Lemma kernel_read_bad s v fd buf n : rep s v → ¬ (fd = 0 ∨ 2 ≤ fd < 8 ∧ is_Some (vfds v !! fd)) →
  - 2 ^ 31 ≤ fd < 2 ^ 31 → wp (call 3 fd buf n) (λ r s', r = -1 ∧ rep s' v) s.
Proof using Type.
  intros Hr Hno Hfd. eapply law_fails; [|exact Hr|].
  { instantiate (1 := sys_read handler bz pl scancode (s32 (u32 fd)) (u32 buf) (s32 (u32 n))). reflexivity. }
  intros s1 k Hp. rewrite (s32_u32 fd) by done.
  unfold sys_read. apply (refused s1 k (pw_running _ _ _ _ _ _ _ _ _ _ Hp) (pw_files _ _ _ _ _ _ _ _ _ _ Hp));
    rewrite orb_true_iff, andb_true_iff, !bool_decide_eq_true; [lia|].
  intros [Hr8 Ho]. apply Hno. destruct Hr8 as [?|?]; [by left|]. right. split; [lia|].
  apply (fd_is_open s1 v k fd Hp ltac:(lia)). done.
Qed.

(** The standard input: a line is typed. *)
Lemma kernel_read_term s v ks ins l w buf n : rep s v → vin v = ks :: ins →
  keys_of tbl ks (vtty v) = Some (l, w) → 0 ≤ n < 2 ^ 31 → mapped (vm v) buf (n + 1) →
  wp (call 3 0 buf n) (λ r s', r = Z.min n (Z.of_nat (length l)) ∧
    rep s' (((v <| vm ::= λ m, put_bytes m buf
      (take (Z.to_nat r) l ++ replicate (Z.to_nat (n + 1 - r)) 0) |>)
      <| vtty := w |>) <| vin := ins |>)) s.
Proof using Hmap Hcodes Typist0 KeyIrq0.
  intros Hr Hin Hk Hn Hm.
  eapply (law_call _ _ _ _ (sys_read handler bz pl scancode (s32 (u32 0)) (u32 buf) (s32 (u32 n))));
    [reflexivity|exact Hr|]. intros s1 k Hp.
  rewrite !s32_u32, (page_u32 s1 v k buf (n + 1) Hp ltac:(lia) Hm) by (unfold is_s32; lia).
  unfold keys_of in Hk. destruct (type_line tbl ks ([], vtty v)) as [[l1 w1]|] eqn:Ety; [|done].
  destruct (decide _) as [[Hl Hch]|]; [|done]. injection Hk as -> ->.
  pose proof (pw_std _ _ _ _ _ _ _ _ _ _ Hp 0 ltac:(by left)) as [Ht0 Ho0].
  pose proof (pw_in _ _ _ _ _ _ _ _ _ _ Hp) as Hcoming. rewrite Hin in Hcoming.
  destruct (Hcoming ltac:(done)) as (Hcur & Htbl & Hif & Hq & Hd). clear Hcoming.
  cbn [mjoin list_join] in Hq, Hd.
  rewrite length_app, replicate_add, <-app_assoc in Hq. rewrite <-app_assoc in Hd.
  destruct (pw_line _ _ _ _ _ _ _ _ _ _ Hp) as [l0 Hl0]. pose proof (pw_t _ _ _ _ _ _ _ _ _ _ Hp) as Ht3.
  destruct (page_range s1 v k buf (n + 1) Hp ltac:(lia) Hm) as (H1 & H2 & Hmk).
  assert (console s1 t l0 (vtty v)) as Hcon.
  { split; [exact Hcur|exact Ht3|exact Hl0|apply Hp|eexists; apply Hp|apply Hp|].
    exact (pw_tbuf _ _ _ _ _ _ _ _ _ _ Hp). }
  assert (term_base (kscr s1) t = VIDEO) as Ebase by (unfold term_base; by rewrite bool_decide_eq_true_2).
  pose proof (page_apart s1 v k buf (n + 1) 1 _ Hp ltac:(lia) Hm ltac:(lia) eq_refl) as Hd1.
  pose proof (page_apart s1 v k buf (n + 1) 3 _ Hp ltac:(lia) Hm ltac:(lia) eq_refl) as Hd3.
  cbn [fst snd] in Hd1, Hd3. rewrite Ebase in Hd1.
  rewrite <-Htbl in Ety.
  destruct (tRead_ok cs busy polls handler bz pl scancode 0 buf n ks (mjoin ins ++ more)
    (replicate (length (mjoin ins)) IRQ_keyboard ++ rest) s1 t l0 (vtty v) l w
    Hcodes Hcon (writes_terminal _ _ _ _ _ _ _ _ _ _ Hp) (pw_key _ _ _ _ _ _ _ _ _ _ Hp)
    ltac:(by rewrite Htbl) Hif Hq Hd Ety Hl Hch ltac:(unfold is_u32; lia) Hmk (conj Hd3 Hd1))
    as (s2 & E2 & Hb2 & Hcon2 & Ep2 & Eq2 & Ei2 & Ek2 & Eb2 & Em2 & Er2 & Hdom2 & Hbes & Ho2).
  set (c := Z.min n (Z.of_nat (length l))) in *.
  unfold wp. rewrite (read_open s1 v k 0 fops_term buf n Hp (or_introl eq_refl) Ho0 Ht0).
  cbn [fops_read]. rewrite E2. intros g. split; [done|]. apply rep_at_cpu. exists k.
  set (bs := take (Z.to_nat c) l ++ replicate (Z.to_nat (n + 1 - c)) 0) in *.
  assert (Z.of_nat (length bs) = n + 1) as Hbs.
  { unfold bs. rewrite length_app, length_take, length_replicate. lia. }
  set (v' := _ <| vin := ins |>).
  apply (process_step _ _ _ _ _ _ _ s1 v k s2 v' k Hp); try done; try by apply Hp.
  - split; [exact Hdom2|]. intros a Hv. unfold volatile in Hv. rewrite Ebase in Hv.
    apply Ho2; [|tauto|tauto]. intros Ha. apply Hv. left. unfold in_page. lia.
  - by apply beside_frame.
  - unfold running. rewrite Ep2. apply Hp.
  - by rewrite (con_shown _ _ _ _ Hcon2).
  - change (vm v') with (put_bytes (vm v) buf bs).
    eapply put_view; [exact Hp|by rewrite Hbs|exact Hb2|]. intros a Hin' Ha. rewrite Hbs in Ha.
    pose proof (regions_apart img t tbl cs more rest s0 s1 v k 0 1 _ _ Hp eq_refl eq_refl ltac:(lia)) as A1.
    pose proof (regions_apart img t tbl cs more rest s0 s1 v k 0 3 _ _ Hp eq_refl eq_refl ltac:(lia)) as A3.
    rewrite Ebase in A1. unfold disjoint_range, in_page in *. cbn [fst snd] in A1, A3. apply Ho2; lia.
  - exact (con_tty _ _ _ _ Hcon2).
  - exists l. exact (con_line _ _ _ _ Hcon2).
  - intros _. split; [by rewrite (con_shown _ _ _ _ Hcon2)|]. split; [by rewrite Em2|]. done.
Qed.

(** ** Writing *)

Lemma write_term s v k buf n : rep_with s v k → sys_write 1 buf n s = tWrite 1 buf n s.
Proof using Type.
  intros Hp. unfold sys_write. bool_lits. cbn [andb].
  pose proof (pw_std _ _ _ _ _ _ _ _ _ _ Hp 1 ltac:(by right)) as [Ht Ho].
  erewrite bind_ok by (eapply cur_file_ok; [apply Hp|]; apply file_at_lookup; [apply Hp|lia]).
  rewrite bool_decide_eq_true_2, Ht by exact Ho. done.
Qed.

Lemma kernel_write s v buf l : rep s v → bytes_at (vm v) buf l → Forall is_u8 l →
  Z.of_nat (length l) < 2 ^ 31 →
  wp (call 4 1 buf (Z.of_nat (length l))) (λ r s', 0 ≤ r ∧
    rep s' (v <| vtty ::= tty_puts (shown l) |>)) s.
Proof using Type.
  intros Hr Hb Hu Hl.
  eapply (law_call _ _ _ _ (sys_write (s32 (u32 1)) (u32 buf) (s32 (u32 (Z.of_nat (length l))))));
    [reflexivity|exact Hr|]. intros s1 k Hp.
  rewrite !s32_u32 by (unfold is_s32; lia). unfold wp. rewrite (write_term s1 v k _ _ Hp).
  fold (wp (tWrite 1 (u32 buf) (Z.of_nat (length l))) (λ r s', ∀ g, 0 ≤ r ∧
    rep (s' <| kcpu ::= (λ c, c <| esp := g |>) |>) (v <| vtty ::= tty_puts (shown l) |>)) s1).
  destruct l as [|c l].
  { eapply wp_run; [reflexivity|]. intros g. split; [done|]. apply rep_at_cpu. exists k.
    replace (v <| vtty ::= _ |>) with v by (by destruct v). exact Hp. }
  apply bytes_at_mapped in Hb as Hm.
  rewrite (page_u32 s1 v k buf (Z.of_nat (length (c :: l))) Hp ltac:(cbn; lia) Hm).
  pose proof (page_apart s1 v k buf (Z.of_nat (length (c :: l))) 1 _ Hp ltac:(cbn; lia) Hm ltac:(lia) eq_refl) as Hd. cbn [fst snd] in Hd.
  pose proof (pw_tty _ _ _ _ _ _ _ _ _ _ Hp) as Hv.
  eapply wp_mono; [apply (tWrite_ok s1 t (vtty v)); try done|].
  - exact (writes_terminal _ _ _ _ _ _ _ _ _ _ Hp).
  - exact (pw_key _ _ _ _ _ _ _ _ _ _ Hp).
  - by eapply page_bytes.
  - cbv beta. intros r s2 [Hr0 Hs2] g. split; [done|]. apply rep_at_cpu. exists k.
    eapply process_drawn; [exact Hp|exact Hs2|]. apply tty_puts_ok; [by apply shown_u8|apply Hv].
Qed.

Lemma kernel_write_bad s v fd buf n : rep s v → ¬ (fd = 1 ∨ 2 ≤ fd < 8 ∧ is_Some (vfds v !! fd)) →
  - 2 ^ 31 ≤ fd < 2 ^ 31 → wp (call 4 fd buf n) (λ r s', r = -1 ∧ rep s' v) s.
Proof using Type.
  intros Hr Hno Hfd. eapply law_fails; [|exact Hr|].
  { instantiate (1 := sys_write (s32 (u32 fd)) (u32 buf) (s32 (u32 n))). reflexivity. }
  intros s1 k Hp. rewrite (s32_u32 fd) by done.
  unfold sys_write. apply (refused s1 k (pw_running _ _ _ _ _ _ _ _ _ _ Hp) (pw_files _ _ _ _ _ _ _ _ _ _ Hp));
    rewrite andb_true_iff, !bool_decide_eq_true; [lia|].
  intros [Hr8 Ho]. apply Hno. destruct (decide (fd = 1)) as [?|?]; [by left|]. right. split; [lia|].
  apply (fd_is_open s1 v k fd Hp ltac:(lia)). done.
Qed.

(** ** The other calls *)

(** A store of the kernel to the program's page. *)
Lemma rep_put s v k buf bs : rep_with s v k → (0 < length bs)%nat → mapped (vm v) buf (Z.of_nat (length bs)) →
  rep_with (s <| kmem := put_bytes (kmem s) buf bs |>) (v <| vm ::= λ m, put_bytes m buf bs |>) k.
Proof using Type.
  intros Hp Hl Hm. destruct (page_range s v k buf (Z.of_nat (length bs)) Hp ltac:(lia) Hm) as (H1 & H2 & Hmk).
  eapply process_stores; [exact Hp|done..| | |].
  - by apply put_bytes_dom.
  - intros a Hin. apply put_bytes_outside. unfold in_page in Hin. lia.
  - change (vm _) with (put_bytes (vm v) buf bs). eapply put_view; [exact Hp|exact Hm|apply put_bytes_at|].
    intros a _ Hout. by apply put_bytes_outside.
Qed.
Lemma put_nothing s v k buf : rep_with s v k →
  rep_with (s <| kmem := put_bytes (kmem s) buf [] |>) (v <| vm ::= λ m, put_bytes m buf [] |>) k.
Proof using Type.
  intros Hp. replace (s <| kmem := _ |>) with s by (by destruct s).
  by replace (v <| vm ::= _ |>) with v by (by destruct v).
Qed.

(** The string that was in the buffer is cleared. *)
Lemma clear_string s v k buf g : rep_with s v k → cstr_at (vm v) buf g →
  let z := replicate (length g) 0 in
  wp (n ← on_mem (strlen buf); on_mem (zero_array buf (s32 n)))
    (λ _ s', s' = s <| kmem := put_bytes (kmem s) buf z |> ∧ rep_with s' (v <| vm ::= λ m, put_bytes m buf z |>) k) s.
Proof using Type.
  intros Hp Hs z. pose proof Hs as [Hb Hc]. apply bytes_at_mapped in Hb as Hm.
  assert (Z.of_nat (length g) + 1 = Z.of_nat (length (g ++ [0]))) as El by (rewrite length_app; cbn; lia).
  rewrite <-El in Hm. destruct (page_range s v k buf (Z.of_nat (length g) + 1) Hp ltac:(lia) Hm) as (H1 & H2 & Hmk).
  assert (cstr_at (kmem s) buf g) as Hk by (split; [by eapply page_bytes|done]).
  assert (0 ≤ Z.of_nat (length g) < 2 ^ 31) as Hl by (unfold PROG_VIR_ADDR_START, PROG_PAGE_SIZE, FOUR_MB in *; lia).
  rewrite wp_bind. eapply wp_run; [apply on_mem_pure; apply strlen_ok; [exact Hk|lia]|].
  rewrite s32_id by (unfold is_s32; lia).
  eapply wp_run; [apply on_mem_ok; apply zero_array_ok; eapply mapped_sub; [exact Hmk|lia|lia]|].
  rewrite Nat2Z.id. split; [done|].
  destruct g as [|c g]; [by apply put_nothing|]. apply rep_put; [exact Hp|unfold z; cbn; lia|].
  unfold z. rewrite length_replicate. eapply mapped_sub; [exact Hm|lia|lia].
Qed.

Lemma kernel_getargs s v buf n g : rep s v → cstr_at (vm v) buf g → Z.of_nat (length g) < 2 ^ 31 →
  mapped (vm v) buf n → 0 ≤ n < 2 ^ 31 →
  wp (call 7 buf n 0) (λ r s',
    let v := v <| vm ::= λ m, put_bytes m buf (replicate (length g) 0) |> in
    if decide (vargs v = [] ∨ n < Z.of_nat (length (vargs v))) then r = -1 ∧ rep s' v
    else r = 0 ∧ rep s' (v <| vm ::= λ m, put_bytes m buf (vargs v) |>)) s.
Proof using Type.
  intros Hr Hs _ Hm Hn. cbv zeta. set (z := replicate (length g) 0).
  eapply (law_call _ _ _ _ (sys_getargs (u32 buf) (s32 (u32 n)))); [reflexivity|exact Hr|]. intros s1 k Hp.
  assert (mapped (vm v) buf 1) as Hm1.
  { destruct Hs as [Hs _]. apply bytes_at_mapped in Hs. eapply mapped_sub; [exact Hs|lia|].
    rewrite length_app. cbn. lia. }
  rewrite s32_u32, (page_u32 s1 v k buf 1 Hp ltac:(lia) Hm1) by (unfold is_s32; lia).
  destruct (page_range s1 v k buf 1 Hp ltac:(lia) Hm1) as (H1 & H2 & _).
  unfold sys_getargs. rewrite bool_decide_eq_false_2 by (unfold PROG_VIR_ADDR_START in *; lia).
  apply wp_assoc. rewrite wp_bind. eapply wp_mono; [by apply (clear_string s1 v k buf g)|]. fold z.
  set (v0 := v <| vm ::= _ |>). cbv beta. intros _ s2 [_ Hp2].
  assert (mapped (vm v0) buf n) as Hm0.
  { eapply mapped_dom; [|exact Hm]. apply put_bytes_dom. unfold z. rewrite length_replicate. destruct Hs as [Hs _].
    apply bytes_at_mapped in Hs. eapply mapped_sub; [exact Hs|lia|rewrite length_app; cbn; lia]. }
  change (vargs v) with (vargs v0). clearbody v0. clear dependent v. clear dependent g. clear s1.
  pose proof (pw_args _ _ _ _ _ _ _ _ _ _ Hp2) as Ha. pose proof (pw_short _ _ _ _ _ _ _ _ _ _ Hp2) as Hlen.
  set (al := Z.of_nat (length (vargs v0))) in *.
  rewrite wp_bind. eapply wp_run; [apply cur_pcb_ok; apply Hp2|]. cbv zeta.
  rewrite wp_bind. eapply wp_run; [apply on_mem_pure; by apply strlen_ok|]. fold al.
  rewrite u32_id by (unfold is_u32; lia).
  assert (vargs v0 = [] ↔ al = 0) as Hnil by (unfold al; destruct (vargs v0); cbn [length]; split; (done || lia)).
  case_bool_decide as Hgt.
  { rewrite wp_ret. intros g. rewrite decide_True by (right; lia). split; [done|]. by eapply rep_cpu. }
  case_bool_decide as Hz.
  { rewrite wp_ret. intros g. rewrite decide_True by (left; by apply Hnil). split; [done|]. by eapply rep_cpu. }
  assert (mapped (vm v0) buf al) as Hma by (eapply mapped_sub; [exact Hm0|lia|lia]).
  destruct (page_range s2 v0 k buf al Hp2 ltac:(lia) Hma) as (H3 & H4 & Hmk).
  pose proof (page_apart s2 v0 k buf al 7 _ Hp2 ltac:(lia) Hma ltac:(lia) eq_refl) as Hd. cbn [fst snd] in Hd.
  fold al in Hd.
  rewrite wp_bind. eapply wp_run.
  { apply on_mem_ok. destruct Ha as [Hab Hac]. apply (strncpy_ok _ _ _ _ (vargs v0) 0); [exact Hab|done| |exact Hmk|].
    - left. fold al. lia.
    - fold al. unfold disjoint_range in *. lia. }
  fold al. rewrite Z.sub_diag. cbn [Z.to_nat replicate]. rewrite app_nil_r, wp_ret.
  intros g. rewrite decide_False by (rewrite Hnil; lia). split; [done|]. apply rep_at_cpu. exists k.
  apply rep_put; [exact Hp2|unfold al in *; lia|exact Hma].
Qed.

Lemma kernel_vidmap_bad s v a : rep s v → 0 ≤ a < 2 ^ 27 →
  wp (call 8 a 0 0) (λ r s', r = -1 ∧ rep s' v) s.
Proof using Type.
  intros Hr Ha. eapply law_fails; [|exact Hr|].
  { instantiate (1 := vidmap (u32 a)). reflexivity. }
  intros s1 k _. rewrite u32_id by (unfold is_u32; lia). unfold vidmap.
  by rewrite u32_id, bool_decide_eq_true_2 by (unfold is_u32, PROG_VIR_ADDR_START; lia).
Qed.

Lemma kernel_call_bad s v n : rep s v → - 2 ^ 31 ≤ n < 2 ^ 31 → ¬ (1 ≤ n ≤ 10) →
  wp (call n ebx ecx edx) (λ r s', r = -1 ∧ rep s' v) s.
Proof using Type.
  intros Hr Hn Hno. eapply (law_fails _ _ _ _ (mret (-1))); [|exact Hr|done].
  unfold syscall_handler, syscall_dispatch. rewrite (s32_u32 n) by done.
  replace (bool_decide (n < 1) || bool_decide (n > 10)) with true; [done|].
  symmetry. rewrite orb_true_iff, !bool_decide_eq_true. lia.
Qed.

(** The calls are those of the class. *)
#[export] Instance kernel_proc_sys :
  @ProcSys kstate (kernel_sys handler bz pl scancode ebx ecx edx) (dir_of img) (keys_of tbl) rep.
Proof using Hknown Hmap Hcodes Typist0 KeyIrq0.
  split.
  - exact kernel_load.
  - exact kernel_store.
  - exact kernel_open.
  - exact kernel_close.
  - exact kernel_read_file.
  - exact kernel_read_dir.
  - exact kernel_read_term.
  - exact kernel_read_bad.
  - exact kernel_write.
  - exact kernel_write_bad.
  - exact kernel_getargs.
  - exact kernel_vidmap_bad.
  - exact kernel_call_bad.
Qed.
End laws.
