(* ===== verification/UserExample.v ===== *)
(** * A concrete user program

    The first process with a program page: a buffer, the literals, the
    arguments "frame0", and lines to be typed; the hypotheses of the theorems
    on user programs hold for it. *)

From S2P Require Import Prelude CInt Memory CString State I8259 Screen Printf Rtc Paging.
From S2P Require Import FS FSSpec ExecSpec Process Terminal Keyboard Syscalls Example.
From S2P Require Import SyscallSpec TerminalSpec KeyboardSpec FrameSpec ReadLine UserLib.
From S2P Require Import UserSpec ProgSpec CountSpec TestSpec UserKernel KernelSys.
From S2P Require Import KernelLaws.

(** A keyboard that gives these codes. *)
Definition ex_types (codes : list Z) : Device := λ tr p,
  if bool_decide (p = KB_PORT) then nth (kb_reads tr) codes 0 else 0.
Lemma ex_types_typist codes : Typist (ex_types codes) codes.
Proof. intros tr. reflexivity. Qed.

(** The literals, 64 bytes apart. *)
Definition ex_lits : list (list Z) :=
  test_literals ++ [msg_missing; msg_hello; msg_name; test_prompt; msg_choose; msg_wrong; newline].
Definition ex_lit (l : list Z) : Z :=
  match list_find (λ k, k = l) ex_lits with Some (i, _) => 0x8048000 + 64 * Z.of_nat i | None => 0 end.
#[local] Instance ex_literals : Literals := ex_lit.
Definition ex_buf := 0x8050000.
Definition ex_tests_buf := 0x8050400.

(** The page, and the kernel's memory with it. *)
Definition ex_page_bytes : list (Z * list Z) :=
  (ex_buf, replicate 1056 0) :: ((λ l, (ex_lit l, l ++ [0])) <$> ex_lits).
Definition ex_view (codes : list (list Z)) : view :=
  Mk_view (mem_of ex_page_bytes) ∅ (ex_tty 32) (chars "frame0") codes.
Definition ex_user_mem : mem :=
  put_bytes (foldr (λ '(a, bs) m, put_bytes m a bs) ex_mem ex_page_bytes)
    (L_args ex_esp) (chars "frame0" ++ [0]).
Definition ex_user (codes : list (list Z)) : kstate :=
  ((ex_state 1) <| kmem := ex_user_mem |>) <| kirqs := replicate (length (mjoin codes)) IRQ_keyboard |>.

Definition view_shown (m k : mem) : Prop := map_Forall (λ a x, in_page a ∧ k !! a = Some x) m.
#[global] Instance view_shown_dec m k : Decision (view_shown m k).
Proof. unfold view_shown. apply _. Defined.

Lemma ex_user_outside a : a < 0x700000 ∨ 0x8060000 ≤ a → ex_user_mem !! a = ex_mem !! a.
Proof.
  intros Ha. unfold ex_user_mem. rewrite put_bytes_outside by (change (L_args ex_esp) with 0x7FF400; change (Z.of_nat (length (chars "frame0" ++ [0]))) with 7; lia).
  apply put_blocks_outside.
  assert (Forall (λ p, 0x700000 ≤ p.1 ∧ p.1 + Z.of_nat (length p.2) ≤ 0x8060000) ex_page_bytes) as Hp by decide_it.
  eapply Forall_impl; [exact Hp|]. intros p. cbn. lia.
Qed.
Lemma ex_process codes : process_with ex_image 1 getChar_init (mjoin codes) [] [] (ex_user codes) (ex_user codes)
  (ex_view codes) (ex_pcb 1 0 (-1) (-1)).
Proof.
  split.
  - vm_compute. reflexivity.
  - reflexivity.
  - reflexivity.
  - lia.
  - intros fd [-> | ->]; split; [reflexivity|decide_it|reflexivity|decide_it].
  - intros fd Hfd. cbn [vfds ex_view]. rewrite lookup_empty.
    assert (fd = 2 ∨ fd = 3 ∨ fd = 4 ∨ fd = 5 ∨ fd = 6 ∨ fd = 7) as [-> |[-> |[-> |[-> |[-> | ->]]]]] by lia;
      reflexivity.
  - intros fd o. cbn [vfds ex_view]. by rewrite lookup_empty.
  - split; [apply bytes_atb_spec; vm_compute; reflexivity|decide_it].
  - cbn. lia.
  - apply (ex_image_in ex_user_mem). intros a Ha. apply ex_user_outside. unfold ex_bblock in Ha. lia.
  - vm_compute. reflexivity.
  - split; [apply bytes_atb_spec; vm_compute; reflexivity|decide_it].
  - cbn [kmem ex_user upd Set_kmem Set_kirqs]. decide_it.
  - unfold regions. cbn [kscr ex_user upd Set_kmem Set_kirqs bblock ex_state vargs ex_view]. decide_it.
  - assert (view_shown (mem_of ex_page_bytes) ex_user_mem) as Hv by decide_it.
    intros a x Hx. by apply Hv.
  - split; [decide_it|]. split; [|split; reflexivity].
    apply (ex_screens (ex_user codes) 1); [lia|reflexivity|]. intros a Ha. apply ex_user_outside.
    unfold VIDEO, VIDEO_TERM in Ha. lia.
  - exists []. split; [reflexivity|]. split; [cbn; lia|]. split; [done|].
    cbn [kmem ex_user upd Set_kmem Set_kirqs]. decide_it.
  - exists 0. vm_compute. reflexivity.
  - intros u Hu. cbn [kscr ex_user upd Set_kmem Set_kirqs ex_state].
    assert (u = 1 ∨ u = 2 ∨ u = 3) as [-> |[-> | ->]] by lia; decide_it.
  - reflexivity.
  - intros _. split; [reflexivity|]. split; [reflexivity|]. split; [reflexivity|]. cbn [kirqs ex_user upd Set_kirqs].
    rewrite app_nil_r. split; [done|]. cbn [vin ex_view]. by rewrite app_nil_r.
  - reflexivity.
Qed.
Lemma ex_process_at codes : process_at ex_image 1 getChar_init (mjoin codes) [] [] (ex_user codes) (ex_user codes) (ex_view codes).
Proof. eexists. apply ex_process. Qed.

Lemma ex_known : image_known ex_image.
Proof. decide_it. Qed.
Lemma ex_lit_at codes l : bytes_atb (mem_of ex_page_bytes) (ex_lit l) (l ++ [0]) = true → Forall is_char l →
  cstr_at (vm (ex_view codes)) (ex_lit l) l.
Proof. intros Hb Hc. split; [by apply bytes_atb_spec|done]. Qed.
