(* ===== verification/ProgRuns.v ===== *)
(** * The user programs on the kernel

    Runs of the programs of [src/syscalls] in a process of the kernel: what
    they show on its terminal and what they return. *)

From S2P Require Import Prelude CInt Memory CString State I8259 Screen Printf Rtc Paging.
From S2P Require Import FS FSSpec Process Terminal Keyboard Syscalls Example KeyboardSpec.
From S2P Require Import ReadLine UserLib UserProgs UserTests UserSpec ProgSpec CountSpec.
From S2P Require Import TestSpec UserKernel WriteSpec KernelSys KernelLaws UserExample.

Section runs.
Context `{d : Device} `{Layout} `{Literals} (img : image) (t : Z).
Context (tbl cs more : list Z) (rest : list irq) (s0 : kstate) `{!Typist d cs}.
Context (busy polls : nat) (handler : irq → K kstate unit) `{!KeyIrq busy polls handler}.
Context (bz pl : nat) (scancode ebx ecx edx : Z).
Context (Hknown : image_known img) (Hmap : map_ok tbl) (Hcodes : Forall is_u8 cs).
#[local] Instance the_kernel : Sys kstate := kernel_sys handler bz pl scancode ebx ecx edx.
#[local] Instance the_kernel_keeps :
  ProcSys kstate (dir_of img) (keys_of tbl) (process_at img t tbl cs more rest s0) :=
  kernel_proc_sys img t tbl cs more rest s0 busy polls handler bz pl scancode ebx ecx edx Hknown Hmap Hcodes.

(** C16: the system calls implement their specification [ProcSys]: through the
    dispatcher of the kernel, in every state that shows a process
    ([process_at]), each call and each access of the program to its page
    changes the kernel and the view that the program has of it (its memory,
    its descriptors and what is left to read of them, its terminal, the lines
    to come) in the same way, and gives the result the view tells. *)
Theorem kernel_implements_calls :
  ProcSys kstate (dir_of img) (keys_of tbl) (process_at img t tbl cs more rest s0).
Proof using Hknown Hmap Hcodes Typist0 KeyIrq0. apply the_kernel_keeps. Qed.

(** C18: [cat] shows the file that its argument names, to the last byte, and
    returns 0; for a name that is not in the directory it shows the message
    and returns 2. The file is read and written in pieces, each shown as the
    terminal shows it: without zero bytes, and with a new line for a zero at
    its end; a file without zero bytes is shown as it is. The buffer, a local
    that holds anything, must be zero where the name ends once [getargs] has
    cleared the string in it: nothing else ends the name. *)
Theorem cat_shows_file fuel s v buf i :
  process_at img t tbl cs more rest s0 s v → name_buffer (vm v) buf (vargs v) →
  lowest_fd v = Some i → Forall is_char (vargs v) → vargs v ≠ [] → Z.of_nat (length (vargs v)) < 1024 →
  cstr_at (vm v) (lit msg_missing) msg_missing → disjoint_range buf 1024 (lit msg_missing) 16 →
  match dir_of img (vargs v) with
  | Some (OFile c) => Forall is_u8 c ∧ (length c < fuel)%nat
  | None => (15 < fuel)%nat
  | _ => False
  end →
  wp (cat_main fuel buf) (λ r s', ∃ v', process_at img t tbl cs more rest s0 s' v' ∧
    match dir_of img (vargs v) with
    | Some (OFile c) => r = 0 ∧
        (∃ pieces, mjoin pieces = c ∧ vtty v' = tty_puts (pieces ≫= shown) (vtty v)) ∧
        (Forall (λ b, b ≠ 0) c → vtty v' = tty_puts c (vtty v))
    | _ => r = 2 ∧ vtty v' = tty_puts msg_missing (vtty v)
    end) s.
Proof using Hknown Hmap Hcodes Typist0 KeyIrq0.
  intros Hr Hb Hi Hc Hne Hl Hlit Hdis Hdir. eapply wp_mono; [by apply (cat_main_ok fuel s v buf i)|].
  cbv beta. intros r s' (v' & Hr' & Hv). exists v'. split; [done|].
  destruct (dir_of img (vargs v)) as [[c|names| |]|]; try done. destruct Hv as [-> (ps & <- & Ev)].
  split; [done|]. split; [by exists ps|]. intros Hn. by rewrite Ev, shown_pieces.
Qed.

(** [ls] shows the names of the directory, 32 characters of each, one to
    a line, and returns 0. *)
Theorem ls_lists_directory fuel s v buf i :
  process_at img t tbl cs more rest s0 s v → mapped (vm v) buf 33 →
  lowest_fd v = Some i → cstr_at (vm v) (lit (chars ".")) (chars ".") →
  dir_of img (chars ".") = Some (ODir (e_str <$> entries img)) →
  Forall (Forall (λ c, is_u8 c ∧ c ≠ 0)) (e_str <$> entries img) → (length (entries img) < fuel)%nat →
  wp (ls_main fuel buf) (λ r s', r = 0 ∧ ∃ v', process_at img t tbl cs more rest s0 s' v' ∧
    vtty v' = tty_puts ((e_str <$> entries img) ≫= ls_line) (vtty v)) s.
Proof using Hknown Hmap Hcodes Typist0 KeyIrq0.
  intros Hr Hm Hi Hl Hd Hc Hf. eapply ls_main_ok; try done. by rewrite length_fmap.
Qed.

(** [hello] asks for a name, waits for the line that is typed, and greets
    with it; the screen shows the question, the echo of the keys and the
    greeting. *)
Theorem hello_greets fuel s v buf ks ins l w :
  process_at img t tbl cs more rest s0 s v → mapped (vm v) buf 1024 →
  vin v = ks :: ins → keys_of tbl ks (tty_puts msg_name (vtty v)) = Some (l, w) →
  Forall is_char l → (length l < 1024)%nat → (length l < fuel)%nat → (22 < fuel)%nat →
  cstr_at (vm v) (lit msg_name) msg_name → cstr_at (vm v) (lit msg_hello) msg_hello →
  disjoint_range buf 1024 (lit msg_hello) 8 →
  wp (hello_main fuel buf) (λ r s', r = 0 ∧ ∃ v', process_at img t tbl cs more rest s0 s' v' ∧
    vtty v' = tty_puts (msg_hello ++ l) w) s.
Proof using Hknown Hmap Hcodes Typist0 KeyIrq0. apply hello_main_ok. Qed.

(** C20: [counter] asks how far to count, waits for the line that is typed, and
    shows the numbers from 1 to 100, to 10000 or to 100000 in order, one to a
    line, for "0", "1" or "2"; it refuses any other digit and longer lines,
    and returns 0. *)
Theorem counter_counts fuel s v buf ks ins l w :
  process_at img t tbl cs more rest s0 s v → mapped (vm v) buf 1024 →
  vin v = ks :: ins → keys_of tbl ks (tty_puts msg_choose (vtty v)) = Some (l, w) → Forall is_char l →
  (length l < 1024)%nat → (length l < fuel)%nat → (58 < fuel)%nat →
  match counter_choice l with Some n => n < Z.of_nat fuel | None => True end →
  Forall (λ k, cstr_at (vm v) (lit k) k ∧ disjoint_range buf 1024 (lit k) (Z.of_nat (length k) + 1))
    [msg_choose; msg_wrong; newline] →
  wp (counter_main fuel buf) (λ r s', r = 0 ∧ ∃ v', process_at img t tbl cs more rest s0 s' v' ∧
    vtty v' = match counter_choice l with
              | Some n => tty_puts (counted n) w
              | None => tty_puts msg_wrong w
              end) s.
Proof using Hknown Hmap Hcodes Typist0 KeyIrq0. apply counter_main_ok. Qed.

(** C23: the kernel passes the tests of [syserr]: for each choice of a test (1
    to 8) and for all of them (0), typed as a digit, the program shows that
    the tests pass and returns 0. *)
Theorem kernel_passes_syserr fuel s v b buf ks ins l w i : (64 < fuel)%nat →
  process_at img t tbl cs more rest s0 s v → test_env v →
  dir_of img (chars ".") = Some (ODir (e_str <$> entries img)) →
  dir_of img (chars "helloo") = None → dir_of img (chars "shel") = None → dir_of img [] = None →
  cstr_at (vm v) (lit test_prompt) test_prompt → mapped (vm v) buf 128 →
  Forall (λ k, disjoint_range buf 128 (lit k) (Z.of_nat (length k) + 1)) test_literals →
  vin v = ks :: ins → keys_of tbl ks (tty_puts test_prompt (vtty v)) = Some (l, w) →
  head l = Some (48 + i) → 0 ≤ i ≤ 8 → Forall is_char l →
  wp (syserr_main fuel b buf) (λ r s', r = 0 ∧ ∃ v', process_at img t tbl cs more rest s0 s' v' ∧
    vtty v' = tty_puts (chosen i) w) s.
Proof using Hknown Hmap Hcodes Typist0 KeyIrq0. intros Hf. by apply syserr_main_ok. Qed.
End runs.

(** ** On the concrete process *)
#[local] Existing Instance ex_literals.
Definition ex_sys (codes : list (list Z)) : Sys kstate :=
  @kernel_sys (ex_types (mjoin codes)) ex_layout (@ex_key_handler (ex_types (mjoin codes))) 0 0 0 0 0 0.
Definition ex_rep (codes : list (list Z)) : kstate → view → Prop :=
  process_at ex_image 1 getChar_init (mjoin codes) [] [] (ex_user codes).

Lemma kernel_implements_calls_witness :
  @ProcSys kstate (ex_sys []) (dir_of ex_image) (keys_of getChar_init) (ex_rep []) ∧
  ex_rep [] (ex_user []) (ex_view []).
Proof.
  split; [|apply ex_process_at].
  pose proof (ex_types_typist []) as Ht. pose proof (@ex_key_irq (ex_types [])) as Hk.
  exact (kernel_implements_calls (d := ex_types []) ex_image 1 getChar_init [] [] [] (ex_user []) 0 0
    (@ex_key_handler (ex_types [])) 0 0 0 0 0 0 ex_known ex_map_ok (List.Forall_nil _)).
Defined.

Lemma cat_shows_file_witness :
  wp (@cat_main kstate (ex_sys []) ex_literals 20 ex_buf) (λ r s', ∃ v', ex_rep [] s' v' ∧
    match dir_of ex_image (chars "frame0") with
    | Some (OFile c) => r = 0 ∧
        (∃ pieces, mjoin pieces = c ∧ vtty v' = tty_puts (pieces ≫= shown) (ex_tty 32)) ∧
        (Forall (λ b, b ≠ 0) c → vtty v' = tty_puts c (ex_tty 32))
    | _ => r = 2 ∧ vtty v' = tty_puts msg_missing (ex_tty 32)
    end) (ex_user []).
Proof.
  pose proof (ex_types_typist []) as Ht. pose proof (@ex_key_irq (ex_types [])) as Hk.
  assert (bytes_at (vm (ex_view [])) ex_buf (replicate (Z.to_nat 1024) 0)) as Hb
    by (apply bytes_atb_spec; vm_compute; reflexivity).
  assert (cstr_at (vm (ex_view [])) (ex_lit msg_missing) msg_missing) as Hl
    by (apply ex_lit_at; [vm_compute; reflexivity|decide_it]).
  assert (dir_of ex_image (chars "frame0") = Some (OFile (chars "fish frame text"))) as Hd
    by (vm_compute; reflexivity).
  apply (cat_shows_file (d := ex_types []) ex_image 1 getChar_init [] [] [] (ex_user []) 0 0
    (@ex_key_handler (ex_types [])) 0 0 0 0 0 0 ex_known ex_map_ok (List.Forall_nil _) 20 (ex_user []) (ex_view []) ex_buf 2).
  - exact (ex_process_at []).
  - apply zero_buffer; [exact Hb|cbn; lia].
  - vm_compute. reflexivity.
  - decide_it.
  - done.
  - cbn. lia.
  - exact Hl.
  - decide_it.
  - cbn [vargs ex_view]. rewrite Hd. split; [decide_it|cbn; lia].
Defined.

Lemma ls_lists_directory_witness :
  wp (@ls_main kstate (ex_sys []) ex_literals 20 ex_buf) (λ r s', r = 0 ∧ ∃ v', ex_rep [] s' v' ∧
    vtty v' = tty_puts ((e_str <$> entries ex_image) ≫= ls_line) (ex_tty 32)) (ex_user []).
Proof.
  pose proof (ex_types_typist []) as Ht. pose proof (@ex_key_irq (ex_types [])) as Hk.
  apply (ls_lists_directory (d := ex_types []) ex_image 1 getChar_init [] [] [] (ex_user []) 0 0
    (@ex_key_handler (ex_types [])) 0 0 0 0 0 0 ex_known ex_map_ok (List.Forall_nil _) 20 (ex_user []) (ex_view []) ex_buf 2).
  - exact (ex_process_at []).
  - decide_it.
  - vm_compute. reflexivity.
  - apply ex_lit_at; [vm_compute; reflexivity|decide_it].
  - vm_compute. reflexivity.
  - decide_it.
  - cbn. lia.
Defined.

(** "bo" and "0" are typed. *)
Definition ex_bo : list Z := [0x30; 0x18; 0x1C].
Definition ex_zero : list Z := [0x0B; 0x1C].
Definition ex_asked (msg l : list Z) : tty := tty_puts l (tty_puts msg (ex_tty 32)).

Lemma hello_greets_witness :
  wp (@hello_main kstate (ex_sys [ex_bo]) ex_literals 30 ex_buf) (λ r s', r = 0 ∧ ∃ v', ex_rep [ex_bo] s' v' ∧
    vtty v' = tty_puts (msg_hello ++ chars "bo" ++ newline) (ex_asked msg_name (chars "bo" ++ newline)))
    (ex_user [ex_bo]).
Proof.
  pose proof (ex_types_typist ex_bo) as Ht. pose proof (@ex_key_irq (ex_types ex_bo)) as Hk.
  apply (hello_greets (d := ex_types ex_bo) ex_image 1 getChar_init ex_bo [] [] (ex_user [ex_bo]) 0 0
    (@ex_key_handler (ex_types ex_bo)) 0 0 0 0 0 0 ex_known ex_map_ok ltac:(decide_it) 30 (ex_user [ex_bo])
    (ex_view [ex_bo]) ex_buf ex_bo [] (chars "bo" ++ newline)).
  - exact (ex_process_at [ex_bo]).
  - decide_it.
  - reflexivity.
  - vm_compute. reflexivity.
  - decide_it.
  - cbn. lia.
  - cbn. lia.
  - lia.
  - apply ex_lit_at; [vm_compute; reflexivity|decide_it].
  - apply ex_lit_at; [vm_compute; reflexivity|decide_it].
  - decide_it.
Defined.

Lemma counter_counts_witness :
  wp (@counter_main kstate (ex_sys [ex_zero]) ex_literals 110 ex_buf) (λ r s', r = 0 ∧ ∃ v', ex_rep [ex_zero] s' v' ∧
    vtty v' = tty_puts (counted 100) (ex_asked msg_choose (chars "0" ++ newline))) (ex_user [ex_zero]).
Proof.
  pose proof (ex_types_typist ex_zero) as Ht. pose proof (@ex_key_irq (ex_types ex_zero)) as Hk.
  assert (counter_choice (chars "0" ++ newline) = Some 100) as Hc by (vm_compute; reflexivity).
  eapply wp_mono; [apply (counter_counts (d := ex_types ex_zero) ex_image 1 getChar_init ex_zero [] [] (ex_user [ex_zero]) 0 0
    (@ex_key_handler (ex_types ex_zero)) 0 0 0 0 0 0 ex_known ex_map_ok ltac:(decide_it) 110 (ex_user [ex_zero])
    (ex_view [ex_zero]) ex_buf ex_zero [] (chars "0" ++ newline)
    (ex_asked msg_choose (chars "0" ++ newline)))|].
  - exact (ex_process_at [ex_zero]).
  - decide_it.
  - reflexivity.
  - vm_compute. reflexivity.
  - decide_it.
  - cbn. lia.
  - cbn. lia.
  - lia.
  - rewrite Hc. vm_compute. reflexivity.
  - repeat constructor; try (apply ex_lit_at; [vm_compute; reflexivity|decide_it]); decide_it.
  - intros r s' [-> (v' & Hp & Ev)]. rewrite Hc in Ev. split; [reflexivity|]. exists v'. split; [exact Hp|exact Ev].
Defined.

Lemma ex_test_env codes : @test_env ex_literals (ex_view codes).
Proof.
  split; [|reflexivity].
  assert (Forall (λ l, bytes_atb (mem_of ex_page_bytes) (ex_lit l) (l ++ [0]) = true ∧ Forall is_char l)
    test_literals) as Hall by decide_it.
  eapply Forall_impl; [exact Hall|]. intros l [H1 H2]. by apply ex_lit_at.
Qed.

Lemma kernel_passes_syserr_witness :
  wp (@syserr_main kstate (ex_sys [ex_zero]) ex_literals 70 ex_tests_buf ex_buf) (λ r s', r = 0 ∧
    ∃ v', ex_rep [ex_zero] s' v' ∧
    vtty v' = tty_puts (chosen 0) (ex_asked test_prompt (chars "0" ++ newline))) (ex_user [ex_zero]).
Proof.
  pose proof (ex_types_typist ex_zero) as Ht. pose proof (@ex_key_irq (ex_types ex_zero)) as Hk.
  apply (kernel_passes_syserr (d := ex_types ex_zero) ex_image 1 getChar_init ex_zero [] [] (ex_user [ex_zero]) 0 0
    (@ex_key_handler (ex_types ex_zero)) 0 0 0 0 0 0 ex_known ex_map_ok ltac:(decide_it) 70 (ex_user [ex_zero])
    (ex_view [ex_zero]) ex_tests_buf ex_buf ex_zero [] (chars "0" ++ newline)).
  - lia.
  - exact (ex_process_at [ex_zero]).
  - apply ex_test_env.
  - vm_compute. reflexivity.
  - vm_compute. reflexivity.
  - vm_compute. reflexivity.
  - vm_compute. reflexivity.
  - apply ex_lit_at; [vm_compute; reflexivity|decide_it].
  - decide_it.
  - decide_it.
  - reflexivity.
  - vm_compute. reflexivity.
  - reflexivity.
  - lia.
  - decide_it.
Defined.
