(* ===== verification/ProgEnd.v ===== *)
(** * A program from its first instruction to its parent

    The start code of a program runs [main] and halts with its value; the
    kernel gives that value to the parent. *)

From S2P Require Import Prelude CInt Memory CString State I8259 Screen Printf Rtc Paging.
From S2P Require Import Translate FS FSSpec Process Terminal Keyboard Syscalls Views.
From S2P Require Import ProcTable ProcessSpec HaltSpec Example KeyboardSpec FrameSpec.
From S2P Require Import SyscallSpec TerminalSpec ReadLine UserLib UserProgs UserSpec.
From S2P Require Import ProgSpec UserKernel WriteSpec KernelSys KernelLaws UserExample.
From S2P Require Import ProgRuns.

Lemma u8_u32 z : u8 (u32 z) = u8 z.
Proof. unfold u8, u32. apply Z.mod_mod_divide. by exists (2 ^ 24). Qed.

Section ends.
Context `{d : Device} `{Layout} (img : image) (t : Z).
Context (tbl cs more : list Z) (rest : list irq).
Context (handler : irq → K kstate unit) (bz pl : nat) (scancode : Z).

(** The kernel at the end of the program is the kernel at its start, but for
    the files. *)
Lemma end_kernel s i b s1 v1 : kernel_ok s i b → process_at img t tbl cs more rest s s1 v1 →
  ∃ b1, kernel_ok s1 i b1 ∧ same_block b b1.
Proof using Type. intros Hk [k Hp]. eapply kernel_ok_same; [exact (pw_frame _ _ _ _ _ _ _ _ _ _ Hp)|exact Hk]. Qed.

(** The call that ends it. *)
Lemma halt_call z s : syscall_handler handler bz pl scancode 1 z 0 0 s =
  sys_halt z (s <| kcpu ::= (λ c, c <| esp := tss_esp0 c |>) |>).
Proof using Type. reflexivity. Qed.

(** C17: a program from [_start] to its parent: whatever [main] does in its
    process, reads, writes and files included, the start code then halts with
    its value, and the parent runs again in its own address space, on the
    stack of its call, as a leaf of the process table, with the low byte of
    that value in [eax]. What the program showed stays on the terminal, no
    memory of another process has changed, and no process number but its own
    is free that was not. *)
Theorem program_ends_in_parent main Q s i b (Hlay : layout_ok) :
  kernel_ok s i b → parent_pid b ≠ -1 →
  wp main (λ r s', ∃ v', process_at img t tbl cs more rest s s' v' ∧ Q r v') s →
  wp (user_start handler bz pl scancode main) (λ c s', ∃ r v' o, c = Resume (u8 r) ∧ Q r v' ∧
    kernel_ok s' (parent_pid b) o ∧ child_pid o = -1 ∧
    esp (kcpu s') = parent_esp b ∧ ebp (kcpu s') = parent_ebp b ∧ tty_at s' t (vtty v') ∧
    (program_exception (kproc s') ≠ 0 ↔ u32 r = 256) ∧
    (∀ j, 0 ≤ j < 8 → Z.testbit (pid_bitmap (kproc s')) j =
       Z.testbit (pid_bitmap (kproc s)) j && negb (bool_decide (j = i))) ∧
    (∀ j, 0 ≤ j < 6 → j ≠ i → prog_view s' j = prog_view s j)) s.
Proof using Type.
  intros Hk Hp1 Hmain. unfold user_start. rewrite wp_bind. eapply wp_mono; [exact Hmain|]. cbv beta.
  intros r s1 (v1 & Hp & HQ). destruct (end_kernel s i b s1 v1 Hk Hp) as (b1 & Hk1 & Hb).
  destruct Hp as [k Hp]. pose proof (pw_frame _ _ _ _ _ _ _ _ _ _ Hp) as Hfr.
  unfold wp. rewrite halt_call. set (s2 := s1 <| kcpu ::= _ |>).
  assert (kernel_ok s2 i b1) as Hk2 by (destruct Hk1; by split).
  destruct (same_block_fields _ _ Hb) as (_ & Epp & _ & Epe & Epb & _). rewrite <-Epp in Hp1.
  destruct (parent_used _ _ i b1 (kk_table _ _ _ Hk2) (kk_used _ _ _ Hk2) Hp1 (kk_leaf _ _ _ Hk2))
    as (o & Hpu & _ & Hne).
  destruct (sys_halt_run s2 i b1 _ o (u32 r) Hlay Hk2 eq_refl Hp1 Hpu) as (s3 & -> & [Hk3 Hproc Hcpu Hscr Hv Hm]).
  exists r, v1, (o <| child_pid := -1 |>). rewrite u8_u32, <-Epp, Hcpu, Hproc, <-Epe, <-Epb.
  split; [done|]. split; [done|]. split; [done|]. split; [by destruct o|]. split; [done|]. split; [done|].
  split; [|split; [|split]].
  - pose proof (pw_tty _ _ _ _ _ _ _ _ _ _ Hp) as (Htok & Hs & Hxy). unfold tty_at. rewrite Hscr.
    split; [exact Htok|]. split; [|exact Hxy]. eapply screen_at_same; [apply Htok| |exact Hs].
    intros a Ha. apply Hm. pose proof (regions_apart _ _ _ _ _ _ _ s1 v1 k 0 1 _ _ Hp eq_refl eq_refl ltac:(lia)) as Hd.
    unfold disjoint_range, in_prog, FOUR_MB, PROG_PAGE_SIZE in *. cbn [fst snd] in Hd.
    change (kscr s2) with (kscr s1) in Ha. lia.
  - cbn [program_exception]. unfold c_bool. case_bool_decide; split; done.
  - cbn [pid_bitmap]. change (kproc s2) with (kproc s1).
    replace (pid_bitmap (kproc s1)) with (pid_bitmap (kproc s))
      by (destruct (sf_procs _ _ Hfr) as [<- _]; by destruct (kproc s1)).
    apply bitmap_clear; [apply (tb_bits _ _ (kk_table _ _ _ Hk))|apply (kk_range _ _ _ Hk)|].
    apply Hk.
  - intros j Hj Hji. rewrite Hv by done. destruct (kk_space _ _ _ Hk) as [vi Hsp].
    etrans; [apply (view_eq s1 s2); reflexivity|]. apply (hidden_view_same s s1 j Hfr).
    rewrite (prog_page_ok Hlay _ _ _ Hsp). intros [= E]. apply Hji. by apply prog_base_inj.
Qed.
End ends.

(** ** Witness *)

(** The table and the address spaces of another kernel around a process. *)
Lemma process_other `{Layout} img t tbl cs more rest s0 s v b k p b' :
  process_with img t tbl cs more rest s0 s v b → let s' := (s <| kproc := k |>) <| kpage := p |> in
  running s' b' → file_array b' = file_array b → curTerminal b' = curTerminal b → arguments b' = arguments b →
  process_with img t tbl cs more rest s' s' v b'.
Proof.
  intros [] s' Hrun Hf Ht Ha.
  assert (∀ fd, file_at b' fd = file_at b fd) as Efile by (intros fd; unfold file_at; by rewrite Hf).
  split; rewrite ?Ht, ?Ha, ?Hf; try done.
  - intros fd Hfd. unfold fd_open. rewrite Efile. by apply pw_std.
  - intros fd Hfd. rewrite Efile. by apply pw_fds.
  - unfold regions. rewrite Ha. exact pw_apart.
Qed.

(** [cat] as process 1, run by the first shell. *)
Definition ex_running : kstate := ((ex_user []) <| kproc := kproc ex_child |>) <| kpage := kpage ex_child |>.
Lemma kproc_moved s k p : kproc ((s <| kproc := k |>) <| kpage := p |>) = k.
Proof. by destruct s. Qed.
Lemma kpage_moved s k p : kpage ((s <| kproc := k |>) <| kpage := p |>) = p.
Proof. by destruct s. Qed.
Lemma ex_running_kernel : kernel_ok ex_running 1 (ex_pcb 1 1 0 (-1)).
Proof.
  assert (kpages ex_child = ∅) as E1 by reflexivity. assert (kpages ex_running = ∅) as E2 by reflexivity.
  assert (kscr ex_child = Mk_screen_t [0; 0; 0] [0; 0; 0] 1 1 0 0) as E3 by reflexivity.
  assert (kscr ex_running = Mk_screen_t [0; 0; 0] [0; 0; 0] 1 1 0 0) as E4 by reflexivity.
  exact (kernel_ok_as ex_child ex_running _ _ ex_child_kernel_ok (kproc_moved _ _ _) (kpage_moved _ _ _)
    (eq_trans E2 (eq_sym E1)) (eq_trans E4 (eq_sym E3))).
Qed.
Lemma ex_running_process : process_at ex_image 1 getChar_init [] [] [] ex_running ex_running (ex_view []).
Proof.
  exists (ex_pcb 1 1 0 (-1)). apply (process_other _ _ _ _ _ _ _ _ _ _ (kproc ex_child) (kpage ex_child) _ (ex_process []));
    [|reflexivity..].
  unfold running. rewrite kproc_moved. exact (proj2 (proj2 (proj2 ex_child_uses))).
Qed.
Lemma ex_cat_runs :
  wp (@cat_main kstate (ex_sys []) ex_literals 20 ex_buf) (λ r s', ∃ v',
    process_at ex_image 1 getChar_init [] [] [] ex_running s' v' ∧
    (r = 0 ∧ vtty v' = tty_puts (chars "fish frame text") (ex_tty 32))) ex_running.
Proof.
  pose proof (ex_types_typist []) as Ht. pose proof (@ex_key_irq (ex_types [])) as Hk.
  assert (dir_of ex_image (chars "frame0") = Some (OFile (chars "fish frame text"))) as Hd
    by (vm_compute; reflexivity).
  eapply wp_mono; [apply (cat_main_ok (ProcSys0 := kernel_proc_sys (d := ex_types []) ex_image 1 getChar_init [] [] []
    ex_running 0 0 (@ex_key_handler (ex_types [])) 0 0 0 0 0 0 ex_known ex_map_ok (List.Forall_nil _))
    20 ex_running (ex_view []) ex_buf 2)|].
  - exact ex_running_process.
  - apply zero_buffer; [apply bytes_atb_spec; vm_compute; reflexivity|cbn; lia].
  - vm_compute. reflexivity.
  - decide_it.
  - done.
  - cbn. lia.
  - apply ex_lit_at; [vm_compute; reflexivity|decide_it].
  - decide_it.
  - cbn [vargs ex_view]. rewrite Hd. split; [decide_it|cbn; lia].
  - cbn [vargs ex_view]. rewrite Hd. intros r s' (v' & Hp & -> & ps & Ep & Ev).
    exists v'. split; [exact Hp|]. split; [done|]. by rewrite Ev, shown_pieces, Ep by (rewrite Ep; decide_it).
Qed.
Lemma program_ends_in_parent_witness :
  wp (@user_start (ex_types []) ex_layout (@ex_key_handler (ex_types [])) 0 0 0 (@cat_main kstate (ex_sys []) ex_literals 20 ex_buf))
    (λ c s', c = Resume 0 ∧ ∃ o, kernel_ok s' 0 o ∧ child_pid o = -1 ∧
      tty_at s' 1 (tty_puts (chars "fish frame text") (ex_tty 32)) ∧
      Z.testbit (pid_bitmap (kproc s')) 1 = false) ex_running.
Proof.
  eapply wp_mono; [apply (program_ends_in_parent (d := ex_types []) ex_image 1 getChar_init [] [] []
    (@ex_key_handler (ex_types [])) 0 0 0 _ _ ex_running 1 (ex_pcb 1 1 0 (-1)) ex_layout_ok
    ex_running_kernel ltac:(done) ex_cat_runs)|].
  cbv beta. intros c s' (r & v' & o & -> & [-> Hv] & Hk & Hc & _ & _ & Ht & _ & Hb & _). split; [reflexivity|].
  exists o. split; [exact Hk|]. split; [exact Hc|]. rewrite <-Hv. split; [exact Ht|].
  rewrite Hb by lia. apply andb_false_r.
Defined.
