(* ===== verification/Emulate.v ===== *)
(** * The programs on Linux ([ece391emulate.c])

    The calls of [ece391syscall.h] on another system: descriptors are those of
    Linux, through its [INT 0x80]; a program is run by [fork] and [execv]; a
    directory is read through its C library. Linux and its library are the
    parameter [Linux]. *)

From S2P Require Import Prelude CInt Memory CString UserLib.

(** A process on a Linux in state [W]: its memory and the statics of the file.
    [NULL] is the [DIR *] 0. *)
Record emu (W : Type) : Type := Mk_emu {
  e_mem : mem;
  e_world : W;
  start_esp : Z;
  dir_fd : Z;
  dir : Z;
  mem_fd : Z;
}.
Arguments Mk_emu {W}.
Arguments e_mem {W}.
Arguments e_world {W}.
Arguments start_esp {W}.
Arguments dir_fd {W}.
Arguments dir {W}.
Arguments mem_fd {W}.
#[global] Instance Set_start_esp {W} : Setter (@start_esp W) :=
  λ g s, Mk_emu (e_mem s) (e_world s) (g (start_esp s)) (dir_fd s) (dir s) (mem_fd s).
#[global] Instance Set_dir_fd {W} : Setter (@dir_fd W) :=
  λ g s, Mk_emu (e_mem s) (e_world s) (start_esp s) (g (dir_fd s)) (dir s) (mem_fd s).
#[global] Instance Set_dir {W} : Setter (@dir W) :=
  λ g s, Mk_emu (e_mem s) (e_world s) (start_esp s) (dir_fd s) (g (dir s)) (mem_fd s).
#[global] Instance Set_mem_fd {W} : Setter (@mem_fd W) :=
  λ g s, Mk_emu (e_mem s) (e_world s) (start_esp s) (dir_fd s) (dir s) (g (mem_fd s)).
#[global] Instance Set_e_mem {W} : Setter (@e_mem W) :=
  λ g s, Mk_emu (g (e_mem s)) (e_world s) (start_esp s) (dir_fd s) (dir s) (mem_fd s).
#[global] Instance Set_e_world {W} : Setter (@e_world W) :=
  λ g s, Mk_emu (e_mem s) (g (e_world s)) (start_esp s) (dir_fd s) (dir s) (mem_fd s).

(** What the file calls, on the state of Linux, and on the memory of the
    process where the call reads or writes it. A string argument is given by
    its characters. [c_execv] runs the program to its end: the status [wait]
    tells of it, or none when it came back. [c_fork] tells whether there is a
    child; [c_readdir] the address of the name read, if any; [c_mmap] the
    address of the image, if any. *)
Class Linux (W : Type) : Type := {
  int80 : Z → Z → Z → Z → K (mem * W) Z;
  c_fork : K W bool;
  c_execv : list Z → list (list Z) → K W (option Z);
  c_open : list Z → Z → K W Z;
  c_close : Z → K W Z;
  c_opendir : list Z → K W Z;
  c_readdir : Z → K (mem * W) (option Z);
  c_closedir : Z → K W Z;
  c_mmap : Z → Z → K (mem * W) (option Z);
  c_perror : list Z → K W unit;
}.

Definition O_RDONLY := 0.
Definition O_RDWR := 2.
(** The status of [wait]: what [exit] was given, or the signal that killed. *)
Definition WIFEXITED (status : Z) : bool := bool_decide (Z.land status 0x7f = 0).
Definition WEXITSTATUS (status : Z) : Z := Z.shiftr (Z.land status 0xff00) 8.
Definition WTERMSIG (status : Z) : Z := Z.land status 0x7f.

(** ** The loops over memory *)
Section memory.
Context {S : Type} `{UserMem S}.
(** The bound of every loop. *)
Context (fuel : nat).

(** [for (...; '\0' != *scan && ' ' != *scan && '\n' != *scan; scan++)] *)
Fixpoint skip_word (fuel : nat) (scan : Z) : K S Z :=
  match fuel with
  | O => kspin
  | Datatypes.S fuel' =>
      c ← u_load8 scan;
      if bool_decide (0 ≠ c) && bool_decide (32 ≠ c) && bool_decide (10 ≠ c)
      then skip_word fuel' (scan + 1) else mret scan
  end.
Fixpoint skip_spaces (fuel : nat) (scan : Z) : K S Z :=
  match fuel with
  | O => kspin
  | Datatypes.S fuel' =>
      c ← u_load8 scan;
      if bool_decide (32 = c) then skip_spaces fuel' (scan + 1) else mret scan
  end.
(** The loop over the arguments: the final [n_arg]. *)
Fixpoint parse_arguments (fuel' : nat) (args n_arg scan : Z) : K S Z :=
  match fuel' with
  | O => kspin
  | Datatypes.S fuel' =>
      scan ← skip_spaces fuel scan;
      c ← u_load8 scan;
      if bool_decide (0 = c) || bool_decide (10 = c) then
        _ ← u_store8 scan 0; mret n_arg
      else
        _ ← u_store32 (args + 4 * n_arg) scan;
        scan ← skip_word fuel scan;
        c ← u_load8 scan;
        if bool_decide (0 ≠ c) then
          _ ← u_store8 scan 0; parse_arguments fuel' args (n_arg + 1) (scan + 1)
        else parse_arguments fuel' args (n_arg + 1) scan
  end.
(** The buffers [buf] and [args] as [execv] takes them. *)
Definition build_args (buf args command : Z) : K S unit :=
  _ ← u_store8 buf 46;
  _ ← u_store8 (buf + 1) 47;
  _ ← ece391_strcpy fuel (buf + 2) command;
  scan ← skip_word fuel (buf + 2);
  _ ← u_store32 args buf;
  c ← u_load8 scan;
  n_arg ← (if bool_decide (0 ≠ c) then
             _ ← u_store8 scan 0; parse_arguments fuel args 1 (scan + 1)
           else mret 1);
  u_store32 (args + 4 * n_arg) 0.

(** A string, and a vector of strings up to [NULL], as the library reads its
    arguments. *)
Fixpoint string_from (fuel : nat) (a : Z) : K S (list Z) :=
  match fuel with
  | O => kspin
  | Datatypes.S fuel' =>
      c ← u_load8 a;
      if bool_decide (c = 0) then mret [] else l ← string_from fuel' (a + 1); mret (c :: l)
  end.
Fixpoint vector_from (fuel' : nat) (a : Z) : K S (list (list Z)) :=
  match fuel' with
  | O => kspin
  | Datatypes.S fuel' =>
      p ← u_load32 a;
      if bool_decide (p = 0) then mret []
      else l ← string_from fuel p; v ← vector_from fuel' (a + 4); mret (l :: v)
  end.
(** The copy of a name: how many bytes, and whether the call returns them at
    once ([nbytes] or 32 of them). *)
Fixpoint copy_name (fuel : nat) (from to copied nbytes : Z) : K S (bool * Z) :=
  match fuel with
  | O => kspin
  | Datatypes.S fuel' =>
      c ← u_load8 from;
      if bool_decide (0 ≠ c) then
        _ ← u_store8 to c;
        let copied := copied + 1 in
        if bool_decide (copied = nbytes) then mret (true, nbytes)
        else if bool_decide (32 = copied) then mret (true, 32)
        else copy_name fuel' (from + 1) (to + 1) copied nbytes
      else mret (false, copied)
  end.
Fixpoint pad_name (fuel : nat) (to copied nbytes : Z) : K S Z :=
  match fuel with
  | O => kspin
  | Datatypes.S fuel' =>
      if bool_decide (nbytes > copied) && bool_decide (32 > copied) then
        _ ← u_store8 to 0; pad_name fuel' (to + 1) (copied + 1) nbytes
      else mret copied
  end.
(** [while (idx < argc)]: [None] when the arguments do not fit, otherwise the
    end of what was written and the room left. *)
Fixpoint copy_arguments (fuel' : nat) (argc argv idx buf nbytes : Z) : K S (option (Z * Z)) :=
  match fuel' with
  | O => kspin
  | Datatypes.S fuel' =>
      if bool_decide (idx < argc) then
        arg ← u_load32 (argv + 4 * idx);
        n ← ece391_strlen fuel arg;
        let len := s32 n in
        if bool_decide (len > nbytes) then mret None
        else
          arg ← u_load32 (argv + 4 * idx);
          _ ← ece391_strcpy fuel buf arg;
          let buf := buf + len in
          let nbytes := nbytes - len in
          let idx := idx + 1 in
          if bool_decide (idx >= argc) then mret (Some (buf, nbytes))
          else if bool_decide (nbytes < 1) then mret None
          else
            _ ← u_store8 buf 32;
            copy_arguments fuel' argc argv idx (buf + 1) (nbytes - 1)
      else mret (Some (buf, nbytes))
  end.
End memory.

Section emulate.
Context {W : Type} `{Linux W} `{Literals}.
(** The bound of every loop. *)
Context (fuel : nat).

Definition on_emem {A} (c : K mem A) : K (emu W) A := zoom e_mem c.
Definition on_world {A} (c : K W A) : K (emu W) A := zoom e_world c.
Definition on_both {A} (c : K (mem * W) A) : K (emu W) A := λ s,
  match c (e_mem s, e_world s) with
  | Ok (a, (m, w)) => Ok (a, (s <| e_mem := m |>) <| e_world := w |>)
  | Fault => Fault
  | Spin => Spin
  end.
#[local] Instance emu_mem : UserMem (emu W) := {|
  u_load8 := λ a, on_emem (load8 a);
  u_store8 := λ a v, on_emem (store8 a v);
|}.

(** ** System calls: [DO_CALL], and the four it is used for *)
Definition linux_call (number a b c : Z) : K (emu W) Z :=
  eax ← on_both (int80 number a b c);
  mret (s32 (if bool_decide (u32 eax <= 0xFFFFC000) then eax else -1)).
Definition ece391_halt (status : Z) : K (emu W) Z := linux_call 1 status 0 0.
Definition __ece391_read (fd buf nbytes : Z) : K (emu W) Z := linux_call 3 fd buf nbytes.
Definition __ece391_write (fd buf nbytes : Z) : K (emu W) Z := linux_call 4 fd buf nbytes.
Definition __ece391_close (fd : Z) : K (emu W) Z := linux_call 6 fd 0 0.

Definition _start (esp : Z) (main : K (emu W) Z) : K (emu W) Z :=
  _ ← put start_esp esp;
  r ← main;
  ece391_halt r.

(** ** [ece391_execute] *)
Definition execv (path argv : Z) : K (emu W) (option Z) :=
  p ← string_from fuel path;
  v ← vector_from fuel fuel argv;
  on_world (c_execv p v).

(** The child: the status it ends with. [kill] by signal 9 is not survived. *)
Definition child (buf args : Z) : K (emu W) Z :=
  r ← execv buf args;
  mret (match r with Some status => status | None => 9 end).
Definition on_a_copy {A} (c : K (emu W) A) : K (emu W) A := λ s,
  match c s with
  | Ok (a, s') => Ok (a, s <| e_world := e_world s' |>)
  | Fault => Fault
  | Spin => Spin
  end.
(** The child runs on a copy of the memory while the parent waits; without a
    child [wait] leaves its variable as it was. *)
Definition fork_and_wait (status : Z) (child : K (emu W) Z) : K (emu W) Z :=
  ok ← on_world c_fork;
  if (ok : bool) then on_a_copy child else mret status.

(** The locals [buf] (1026 bytes) and [args] (1024 pointers), and what
    [status] holds before it is set. *)
Definition emu_execute (buf args status command : Z) : K (emu W) Z :=
  n ← ece391_strlen fuel command;
  if bool_decide (1023 < n) then mret (-1)
  else
    _ ← build_args fuel buf args command;
    status ← fork_and_wait status (child buf args);
    if WIFEXITED status then mret (WEXITSTATUS status)
    else if bool_decide (9 = WTERMSIG status) then mret (-1)
    else mret 256.

(** ** Files *)
Definition emu_open (filename : Z) : K (emu W) Z :=
  r ← ece391_strcmp fuel filename (lit (chars "."));
  if bool_decide (0 = r) then
    d ← on_world (c_opendir (chars "."));
    _ ← put dir d;
    fd ← on_world (c_open (chars "/dev/null") O_RDONLY);
    _ ← put dir_fd fd;
    kget dir_fd
  else
    rval ← on_both (int80 5 filename O_RDONLY 0);
    mret (if bool_decide (u32 rval > 0xFFFFC000) then -1 else s32 rval).

Definition emu_read (fd buf nbytes : Z) : K (emu W) Z :=
  d ← kget dir;
  dfd ← kget dir_fd;
  if bool_decide (0 = d) || bool_decide (dfd ≠ fd) then __ece391_read fd buf nbytes
  else
    de ← on_both (c_readdir d);
    match de with
    | None => mret 0
    | Some name =>
        '(stop, copied) ← copy_name 33 name buf 0 nbytes;
        if (stop : bool) then mret copied
        else pad_name 33 (buf + copied) copied nbytes
    end.
Definition emu_write (fd buf nbytes : Z) : K (emu W) Z :=
  d ← kget dir;
  dfd ← kget dir_fd;
  if bool_decide (0 = d) || bool_decide (dfd ≠ fd) then __ece391_write fd buf nbytes
  else mret (-1).
Definition emu_close (fd : Z) : K (emu W) Z :=
  d ← kget dir;
  dfd ← kget dir_fd;
  if bool_decide (0 = d) || bool_decide (dfd ≠ fd) then __ece391_close fd
  else
    _ ← on_world (c_closedir d);
    _ ← put dir 0;
    _ ← on_world (c_close dfd);
    _ ← put dir_fd (-1);
    mret 0.

(** ** Arguments and video memory *)

Definition emu_getargs (buf nbytes : Z) : K (emu W) Z :=
  esp ← kget start_esp;
  n ← u_load32 esp;
  let argc := s32 n in
  r ← copy_arguments fuel fuel argc (esp + 4) 1 buf nbytes;
  match r with
  | None => mret (-1)
  | Some (buf, nbytes) =>
      if bool_decide (nbytes < 1) then mret (-1)
      else _ ← u_store8 buf 0; mret 0
  end.

Definition emu_vidmap (screen_start : Z) : K (emu W) Z :=
  fd ← kget mem_fd;
  _ ← (if bool_decide (fd = -1) then
         fd ← on_world (c_open (chars "/dev/mem") O_RDWR); put mem_fd fd
       else mret tt);
  fd ← kget mem_fd;
  image ← on_both (c_mmap (1024 * 1024) fd);
  match image with
  | None => _ ← on_world (c_perror (chars "mmap low memory")); mret (-1)
  | Some mem_image => _ ← u_store32 screen_start (u32 (mem_image + 0xb8000)); mret 0
  end.

(** ** The system of a program that is linked with this file

    The locals of [ece391_execute] are at the addresses given. There is no
    [ece391_set_handler]: a program that uses it is not linked. *)
Context (buf args status ebx ecx edx : Z).
Definition emu_sys : Sys (emu W) := {|
  sys_mem := emu_mem;
  ece391_execute := emu_execute buf args status;
  ece391_read := emu_read;
  ece391_write := emu_write;
  ece391_open := emu_open;
  ece391_close := emu_close;
  ece391_getargs := emu_getargs;
  ece391_vidmap := emu_vidmap;
  ece391_set_handler := λ _ _, kfault;
  call_sys := λ number, linux_call number ebx ecx edx;
|}.
End emulate.
