(* ===== verification/EmulateSpec.v ===== *)
(** * What the emulation on Linux promises

    A command becomes the arguments of [execv]; a program gets them back with
    [ece391_getargs], as the kernel would give them; a directory is read as
    the kernel's. *)

From S2P Require Import Prelude CInt Memory CString Screen ParseSpec ExecSpec UserLib.
From S2P Require Import SupportSpec UserProgs Emulate.

(** ** Words *)

(** The words of the rest of a command: they end at a space or a new line; a
    new line where a word could start ends them all. *)
Fixpoint words (cur l : list Z) : list (list Z) :=
  let flush := match cur with [] => [] | _ => [cur] end in
  match l with
  | [] => flush
  | c :: l =>
      if bool_decide (c = 32) then flush ++ words [] l
      else if bool_decide (c = 10) then match cur with [] => [] | _ => cur :: words [] l end
      else words (cur ++ [c]) l
  end.
(** The arguments that [ece391_execute] passes: the program in the current
    directory, and the words behind it. *)
Definition host_argv (s : list Z) : list (list Z) :=
  ([46; 47] ++ cmd_word s) :: words [] (drop (S (length (cmd_word s))) s).
(** Words with a space between each and the next. *)
Fixpoint spaced (ws : list (list Z)) : list Z :=
  match ws with
  | [] => []
  | [w] => w
  | w :: ws => w ++ 32 :: spaced ws
  end.

Definition is_word (w : list Z) : Prop := w ≠ [] ∧ Forall (λ c, is_char c ∧ ends_word c = false) w.

Lemma words_letters cur w l : Forall (λ c, ends_word c = false) w → words cur (w ++ l) = words (cur ++ w) l.
Proof.
  revert cur. induction w as [|c w IH]; intros cur Hw; cbn [app words]; [by rewrite app_nil_r|].
  apply Forall_cons in Hw as [Hc Hw]. unfold ends_word in Hc. apply orb_false_iff in Hc as [-> ->].
  rewrite IH by done. by rewrite <-app_assoc.
Qed.
Lemma words_spaces k l : words [] (replicate k 32 ++ l) = words [] l.
Proof. induction k as [|k IH]; [done|]. cbn [replicate app words]. bool_lits. exact IH. Qed.
Lemma words_end w c l : w ≠ [] → ends_word c = true → words w (c :: l) = w :: words [] l.
Proof.
  intros Hw Hc. apply orb_true_iff in Hc as [->%bool_decide_eq_true| ->%bool_decide_eq_true];
    cbn [words]; bool_lits; by destruct w.
Qed.
Lemma words_spaced ws : Forall is_word ws → words [] (spaced ws) = ws.
Proof.
  intros H. assert (∀ w, is_word w → Forall (λ c, ends_word c = false) w) as Hl.
  { intros w [_ Hw]. eapply Forall_impl; [exact Hw|]. naive_solver. }
  induction H as [|w ws Hw H IH]; [done|]. destruct ws as [|w' ws].
  - cbn [spaced]. rewrite <-(app_nil_r w) at 1. rewrite words_letters by (by apply Hl).
    cbn [app words]. destruct Hw as [Hw _]. by destruct w.
  - change (spaced (w :: w' :: ws)) with (w ++ 32 :: spaced (w' :: ws)).
    rewrite words_letters by (by apply Hl). cbn [app]. rewrite words_end by (done || apply Hw). by rewrite IH.
Qed.
(** For words with single spaces between them the kernel's arguments, when
    they fit its buffer, are those of the program on Linux. *)
Lemma upto_letters p w l : Forall (λ c, p c = false) w → match l with [] => True | c :: _ => p c = true end →
  upto p (w ++ l) = w.
Proof.
  induction 1 as [|c w Hc Hw IH]; intros Hl; cbn [app upto]; [by destruct l as [|c l]; [|cbn; rewrite Hl]|].
  by rewrite Hc, IH.
Qed.
Lemma spaced_cons w ws : spaced (w :: ws) = w ++ match ws with [] => [] | _ => 32 :: spaced ws end.
Proof. destruct ws; [by rewrite app_nil_r|done]. Qed.
Lemma spaced_line ws : Forall is_word ws → Forall (λ c, ends_line c = false) (spaced ws).
Proof.
  induction 1 as [|w ws Hw H IH]; [constructor|]. rewrite spaced_cons. apply Forall_app. split.
  - destruct Hw as [_ Hw]. eapply Forall_impl; [exact Hw|]. cbv beta. intros c [_ Hc].
    by apply orb_false_iff in Hc as [_ Hc].
  - destruct ws; [constructor|]. by constructor.
Qed.
Lemma host_argv_spaced w ws : is_word w → Forall is_word ws → (length (spaced ws) ≤ 31)%nat →
  host_argv (spaced (w :: ws)) = ([46; 47] ++ w) :: ws ∧ cmd_word (spaced (w :: ws)) = w ∧
  cmd_args (spaced (w :: ws)) = spaced ws.
Proof.
  intros Hw Hws Hlen. assert (cmd_word (spaced (w :: ws)) = w) as Ew.
  { unfold cmd_word. rewrite spaced_cons. apply upto_letters; [|by destruct ws].
    destruct Hw as [_ Hw]. eapply Forall_impl; [exact Hw|]. naive_solver. }
  unfold host_argv, cmd_args, after_word. rewrite Ew. split; [|split; [done|]]; rewrite spaced_cons.
  - f_equal. rewrite drop_app_ge by lia. replace (S (length w) - length w)%nat with 1%nat by lia.
    destruct ws as [|w' ws]; [done|]. cbn [drop]. rewrite drop_0. by apply words_spaced.
  - rewrite drop_app_length. destruct ws as [|w' ws]; [done|]. bool_lits. cbn iota.
    rewrite <-(app_nil_r (spaced (w' :: ws))) at 1. rewrite upto_letters by (done || by apply spaced_line).
    by rewrite take_ge.
Qed.

(** ** The loops follow themselves on the memory *)
Section loops.
Context {S : Type} `{UserMem S} {R : S → mem → Prop} `{!MemView S R}.
#[local] Existing Instance plain_mem | 100.

Lemma skip_word_follows f a : follows R (skip_word f a) (@skip_word mem plain_mem f a).
Proof using MemView0. revert a. induction f; intros; cbn [skip_word]; follow; apply IHf. Qed.
Lemma skip_spaces_follows f a : follows R (skip_spaces f a) (@skip_spaces mem plain_mem f a).
Proof using MemView0. revert a. induction f; intros; cbn [skip_spaces]; follow; apply IHf. Qed.
#[local] Hint Resolve skip_word_follows skip_spaces_follows strcpy_follows strlen_follows
  store32_follows load32_follows : follow.
Lemma parse_arguments_follows fuel f args n a :
  follows R (parse_arguments fuel f args n a) (@parse_arguments mem plain_mem fuel f args n a).
Proof using MemView0. revert n a. induction f; intros; cbn [parse_arguments]; follow; apply IHf. Qed.
#[local] Hint Resolve parse_arguments_follows : follow.
Lemma build_args_follows fuel buf args command :
  follows R (build_args fuel buf args command) (@build_args mem plain_mem fuel buf args command).
Proof using MemView0. unfold build_args. follow. Qed.
Lemma string_from_follows f a : follows R (string_from f a) (@string_from mem plain_mem f a).
Proof using MemView0. revert a. induction f; intros; cbn [string_from]; follow; apply IHf. Qed.
#[local] Hint Resolve string_from_follows : follow.
Lemma vector_from_follows fuel f a : follows R (vector_from fuel f a) (@vector_from mem plain_mem fuel f a).
Proof using MemView0. revert a. induction f; intros; cbn [vector_from]; follow; apply IHf. Qed.
Lemma copy_name_follows f from to k n : follows R (copy_name f from to k n) (@copy_name mem plain_mem f from to k n).
Proof using MemView0. revert from to k. induction f; intros; cbn [copy_name]; follow; apply IHf. Qed.
Lemma pad_name_follows f to k n : follows R (pad_name f to k n) (@pad_name mem plain_mem f to k n).
Proof using MemView0. revert to k. induction f; intros; cbn [pad_name]; follow; apply IHf. Qed.
Lemma copy_arguments_follows fuel f argc argv i b n :
  follows R (copy_arguments fuel f argc argv i b n) (@copy_arguments mem plain_mem fuel f argc argv i b n).
Proof using MemView0. revert i b n. induction f; intros; cbn [copy_arguments]; follow; apply IHf. Qed.
End loops.

(** ** The parser, on a plain memory *)

(** Pointers to strings that lie between [lo] and [hi]. *)
Fixpoint vector_at (m : mem) (a lo hi : Z) (ws : list (list Z)) : Prop :=
  match ws with
  | [] => True
  | w :: ws => (∃ p, bytes_at m a (le32 p) ∧ lo ≤ p ∧ p + Z.of_nat (length w) < hi ∧ cstr_at m p w) ∧
      vector_at m (a + 4) lo hi ws
  end.
Lemma vector_at_agree m m' a lo hi ws : vector_at m a lo hi ws →
  (∀ x, a ≤ x < a + 4 * Z.of_nat (length ws) ∨ lo ≤ x < hi → m' !! x = m !! x) → vector_at m' a lo hi ws.
Proof.
  revert a. induction ws as [|w ws IH]; intros a; [done|]. cbn [vector_at length].
  intros [(p & Hp & Hlo & Hhi & Hw) Hv] Hag. split.
  - exists p. split; [|split; [done|split; [done|]]].
    + eapply bytes_at_agree; [|exact Hp]. intros x Hx. cbn in Hx. apply Hag. lia.
    + eapply cstr_at_agree; [|exact Hw]. intros x Hx. apply Hag. lia.
  - apply IH; [done|]. intros x Hx. apply Hag. lia.
Qed.
Lemma vector_at_widen m a lo lo' hi hi' ws :
  vector_at m a lo hi ws → lo' ≤ lo → hi ≤ hi' → vector_at m a lo' hi' ws.
Proof.
  revert a. induction ws as [|w ws IH]; intros a; [done|]. cbn [vector_at].
  intros [(p & Hp & Hlo & Hhi & Hw) Hv] Hle ?. split; [|by apply IH]. exists p. split_and!; [done|lia|lia|done].
Qed.

(** Bytes written behind bytes. *)
Lemma put_next m a l k : put_bytes (put_bytes m a l) (a + Z.of_nat (length l)) k = put_bytes m a (l ++ k).
Proof. rewrite put_comm, put_bytes_app by (unfold disjoint_range; lia). done. Qed.

Lemma same_put m a n l : mapped m a n → Z.of_nat (length l) ≤ n → same_outside [(a, n)] m (put_bytes m a l).
Proof.
  intros Hm Hl. split; [apply put_bytes_dom; eapply mapped_sub; [exact Hm|lia|lia]|].
  intros x Hx. rewrite Forall_singleton in Hx. cbn in Hx. apply put_bytes_outside. lia.
Qed.

Section plain.
#[local] Existing Instance plain_mem.

Definition stops (c : Z) : Prop := c = 0 ∨ c = 32 ∨ c = 10.
Lemma skip_word_plain m a w c rest f : bytes_at m a (w ++ c :: rest) → stops c →
  Forall (λ c, ¬ stops c) w → (length w < f)%nat → skip_word f a m = Ok (a + Z.of_nat (length w), m).
Proof.
  intros Hb Hc Hw. revert a f Hb. induction Hw as [|d w Hd Hw IH]; intros a f [Hx Hb] Hf;
    (destruct f as [|f]; [cbn in Hf; lia|]); cbn [skip_word u_load8 plain_mem];
    (erewrite bind_ok by (by apply load8_ok)).
  - rewrite Z.add_0_r. by destruct Hc as [-> |[-> | ->]].
  - unfold stops in Hd. rewrite !bool_decide_eq_true_2 by (intros <-; tauto). cbn [andb length] in *.
    rewrite (IH (a + 1) f) by (done || lia). do 2 f_equal. lia.
Qed.
Lemma skip_spaces_plain m a k c rest f : bytes_at m a (replicate k 32 ++ c :: rest) → c ≠ 32 →
  (k < f)%nat → skip_spaces f a m = Ok (a + Z.of_nat k, m).
Proof.
  intros Hb Hc. revert a f Hb. induction k as [|k IH]; intros a f [Hx Hb] Hf;
    (destruct f as [|f]; [lia|]); cbn [skip_spaces u_load8 plain_mem];
    (erewrite bind_ok by (by apply load8_ok)).
  - rewrite bool_decide_eq_false_2 by (intros <-; done). by rewrite Z.add_0_r.
  - bool_lits. cbn iota. rewrite (IH (a + 1) f) by (done || lia). do 2 f_equal. lia.
Qed.

(** What the rest of a command can start with. *)
Inductive rest_of : list Z → Prop :=
  | rest_end k : rest_of (replicate k 32)
  | rest_line k l : rest_of (replicate k 32 ++ 10 :: l)
  | rest_word k w : is_word w → rest_of (replicate k 32 ++ w)
  | rest_more k w c l : is_word w → ends_word c = true → rest_of (replicate k 32 ++ w ++ c :: l).
Lemma rest_cases l : Forall is_char l → rest_of l.
Proof.
  induction l as [|c l IH]; intros Hl; [apply (rest_end 0)|]. apply Forall_cons in Hl as [Hc Hl].
  destruct (decide (c = 32)) as [->|H32].
  { destruct (IH Hl); [apply (rest_end (S k))|apply (rest_line (S k))|
      by apply (rest_word (S k))|by apply (rest_more (S k))]. }
  destruct (decide (c = 10)) as [->|H10]; [apply (rest_line 0)|].
  destruct (upto_split ends_word (c :: l)) as (r & E & Hf & Hr).
  assert (ends_word c = false) as Hcw by (unfold ends_word; rewrite !bool_decide_eq_false_2 by done; done).
  set (w := upto ends_word (c :: l)) in *. rewrite E.
  assert (is_word w) as Hw.
  { split; [unfold w; cbn [upto]; by rewrite Hcw|]. apply Forall_and. split; [|done].
    assert (Forall is_char (c :: l)) as Hcl by by constructor. rewrite E in Hcl. by apply Forall_app in Hcl as [? _]. }
  destruct r as [|d r]; [rewrite app_nil_r; by apply (rest_word 0)|by apply (rest_more 0)].
Qed.
Lemma word_letters w : is_word w → Forall (λ c, ¬ stops c) w.
Proof.
  intros [_ Hw]. eapply Forall_impl; [exact Hw|]. cbv beta. intros c [Hc He].
  apply orb_false_iff in He as [H1%bool_decide_eq_false H2%bool_decide_eq_false].
  unfold stops, is_char in *. lia.
Qed.
Lemma word_ends w : is_word w → Forall (λ c, ends_word c = false) w.
Proof. intros [_ Hw]. eapply Forall_impl; [exact Hw|]. naive_solver. Qed.
Lemma ends_stops c : ends_word c = true → stops c ∧ c ≠ 0.
Proof. intros [->%bool_decide_eq_true| ->%bool_decide_eq_true]%orb_true_iff; unfold stops; lia. Qed.
Lemma host_words_length cur l : (length (words cur l) ≤ length l + match cur with [] => 0 | _ => 1 end)%nat.
Proof.
  revert cur. induction l as [|c l IH]; intros cur; cbn [words length]; [by destruct cur|].
  specialize (IH []) as H0. cbn iota in H0. destruct cur as [|d cur].
  - repeat case_bool_decide; cbn [app length]; [lia|lia|]. specialize (IH [c]). cbn in IH |- *. lia.
  - repeat case_bool_decide; cbn [app length]; [lia|lia|]. specialize (IH (d :: cur ++ [c])). cbn in IH |- *. lia.
Qed.

Lemma words_one w : is_word w → words [] w = [w].
Proof.
  intros Hw. rewrite <-(app_nil_r w) at 1. rewrite words_letters by (by apply word_ends).
  destruct Hw as [Hw _]. cbn [app words]. by destruct w.
Qed.
Lemma words_more w c l : is_word w → ends_word c = true → words [] (w ++ c :: l) = w :: words [] l.
Proof.
  intros Hw Hc. rewrite words_letters by (by apply word_ends). cbn [app]. apply words_end; [apply Hw|done].
Qed.
Lemma words_count l : (length (words [] l) ≤ length l)%nat.
Proof. pose proof (host_words_length [] l) as Hl. cbn iota in Hl. lia. Qed.

Section parse.
Context (fuel : nat).

(** One word: its pointer is stored, and it is skipped. *)
Lemma parse_word m f args n scan k w c rest :
  bytes_at m scan (replicate k 32 ++ w ++ c :: rest) → is_word w → stops c →
  (k < fuel)%nat → (length w < fuel)%nat → mapped m (args + 4 * n) 4 →
  disjoint_range (args + 4 * n) 4 scan (Z.of_nat (k + length w) + 1) →
  let p := scan + Z.of_nat k in
  parse_arguments fuel (S f) args n scan m =
    (if bool_decide (0 ≠ c) then
       _ ← store8 (p + Z.of_nat (length w)) 0; parse_arguments fuel f args (n + 1) (p + Z.of_nat (length w) + 1)
     else parse_arguments fuel f args (n + 1) (p + Z.of_nat (length w))) (put_bytes m (args + 4 * n) (le32 p)).
Proof.
  intros Hb Hw Hc Hk Hl Hm Hd p. pose proof (word_letters w Hw) as Hws.
  destruct w as [|d w]; [by destruct Hw|]. apply Forall_cons in Hws as Hd0. destruct Hd0 as [Hd0 _].
  cbn [parse_arguments]. erewrite bind_ok.
  2:{ eapply (skip_spaces_plain m scan k d); [exact Hb| |done]. intros ->. apply Hd0. by right; left. }
  fold p. apply bytes_at_app in Hb as [_ Hb]. rewrite length_replicate in Hb. fold p in Hb.
  cbn [u_load8 u_store8 plain_mem]. erewrite bind_ok by (apply load8_ok, Hb).
  unfold stops in Hd0. rewrite (bool_decide_eq_false_2 (0 = d)), (bool_decide_eq_false_2 (10 = d)) by (intros <-; tauto).
  cbn [orb]. change (@u_store32 mem plain_mem) with store32. erewrite bind_ok by (by apply store32_ok).
  set (m1 := put_bytes m (args + 4 * n) (le32 p)).
  assert (bytes_at m1 p ((d :: w) ++ c :: [])) as Hb1.
  { rewrite cons_middle, app_assoc in Hb. apply bytes_at_app in Hb as [Hb _].
    apply bytes_at_put_disjoint; [|exact Hb].
    unfold disjoint_range in *. rewrite length_app. cbn [length le32] in *. lia. }
  erewrite bind_ok by (by eapply skip_word_plain).
  apply bytes_at_app in Hb1 as [_ [Hc1 _]]. erewrite bind_ok by (by apply load8_ok). done.
Qed.

(** No word is left. *)
Lemma parse_end m f args n scan k c rest :
  bytes_at m scan (replicate k 32 ++ c :: rest) → c = 0 ∨ c = 10 → (k < fuel)%nat →
  parse_arguments fuel (S f) args n scan m = Ok (n, <[scan + Z.of_nat k := 0]> m).
Proof.
  intros Hc Hc0 Hk. cbn [parse_arguments].
  erewrite bind_ok by (eapply (skip_spaces_plain m scan k c); [exact Hc|lia|done]).
  apply bytes_at_app in Hc as [_ [Hc _]]. rewrite length_replicate in Hc. cbn [u_load8 u_store8 plain_mem].
  erewrite bind_ok by (by apply load8_ok). rewrite (proj2 (orb_true_iff _ _)).
  2:{ destruct Hc0 as [-> | ->]; [by left|by right]. }
  erewrite bind_ok by (apply store8_ok; by exists c). done.
Qed.

(** A word that is parsed stays so while the words behind it are. *)
Lemma word_stays m m2 m' A p w scan lo N ws L : same_outside [(A, 4); (p + Z.of_nat (length w), 1)] m m2 →
  bytes_at m2 A (le32 p) → cstr_at m2 p w →
  same_outside [(A + 4, 4 * Z.of_nat (length ws)); (scan, L)] m2 m' → vector_at m' (A + 4) scan (lo + N) ws →
  lo ≤ p → p + Z.of_nat (length w) < scan → p + Z.of_nat (length w) < lo + N → 0 ≤ L → scan + L ≤ lo + N →
  disjoint_range A (4 * Z.of_nat (S (length ws))) lo N →
  same_outside [(A, 4 * Z.of_nat (S (length ws))); (lo, N)] m m' ∧ vector_at m' A lo (lo + N) (w :: ws).
Proof.
  intros [D1 S1] Hp Hw [D2 S2] Hv ??????. assert (∀ x, ¬ (A + 4 ≤ x < A + 4 + 4 * Z.of_nat (length ws)) →
    ¬ (scan ≤ x < scan + L) → m' !! x = m2 !! x) as S2'.
  { intros x Hx Hy. apply S2. by repeat constructor. }
  unfold disjoint_range in *. split; [split; [congruence|]|split].
  - intros x Hx. rewrite !Forall_cons in Hx. cbn in Hx. rewrite S2' by lia. apply S1.
    repeat constructor; cbn; lia.
  - exists p. split; [|split; [done|split; [done|]]].
    + eapply bytes_at_agree; [|exact Hp]. intros x Hx. cbn in Hx. apply S2'; lia.
    + eapply cstr_at_agree; [|exact Hw]. intros x Hx. apply S2'; lia.
  - eapply vector_at_widen; [exact Hv|lia|lia].
Qed.

(** The loop over the arguments writes nothing but their pointers and the
    terminators of the words. *)
Lemma parse_plain f m args n scan l :
  bytes_at m scan (l ++ [0]) → Forall is_char l → (length l < f)%nat → (length l < fuel)%nat →
  mapped m (args + 4 * n) (4 * Z.of_nat (length (words [] l))) →
  disjoint_range (args + 4 * n) (4 * Z.of_nat (length (words [] l))) scan (Z.of_nat (length l) + 1) →
  ∃ m', parse_arguments fuel f args n scan m = Ok (n + Z.of_nat (length (words [] l)), m') ∧
    same_outside [(args + 4 * n, 4 * Z.of_nat (length (words [] l))); (scan, Z.of_nat (length l) + 1)] m m' ∧
    vector_at m' (args + 4 * n) scan (scan + (Z.of_nat (length l) + 1)) (words [] l).
Proof.
  revert m n scan l. induction f as [|f IH]; intros m n scan l Hb Hch Hf Hfl Hm Hd; [lia|].
  assert (∀ c k rest, bytes_at m scan (replicate k 32 ++ c :: rest) → c = 0 ∨ c = 10 →
    Z.of_nat k < Z.of_nat (length l) + 1 →
    ∃ m', parse_arguments fuel (S f) args n scan m = Ok (n + 0, m') ∧
      same_outside [(args + 4 * n, 0); (scan, Z.of_nat (length l) + 1)] m m') as Hend.
  { intros c k rest Hc Hc0 Hkl. exists (<[scan + Z.of_nat k := 0]> m).
    split; [rewrite Z.add_0_r; eapply parse_end; [done|done|lia]|].
    apply bytes_at_app in Hc as [_ [Hc _]]. rewrite length_replicate in Hc.
    split; [apply dom_insert_mapped; by exists c|]. intros a Ha. apply lookup_insert_ne. intros <-.
    rewrite !Forall_cons in Ha. cbn in Ha. lia. }
  destruct (rest_cases l Hch) as [k|k l|k w Hw|k w c l Hw Hc].
  - rewrite <-(app_nil_r (replicate k 32)), words_spaces. rewrite app_nil_r in *.
    rewrite length_replicate in *. destruct (Hend 0 k []) as (m' & E & Hs); [done|by left|lia|]. by exists m'.
  - rewrite words_spaces. cbn [words]. bool_lits. cbn iota. rewrite <-app_assoc in Hb. rewrite length_app, length_replicate in *.
    cbn [length] in *. destruct (Hend 10 k (l ++ [0])) as (m' & E & Hs); [done|by right|lia|]. by exists m'.
  - rewrite words_spaces, (words_one w Hw) in *. rewrite length_app, length_replicate in *. cbn [length] in *.
    rewrite <-app_assoc in Hb. set (p := scan + Z.of_nat k).
    erewrite parse_word; [|exact Hb|done|by left|lia|lia|eapply mapped_sub; [exact Hm|lia|lia]|unfold disjoint_range in *; lia].
    fold p. bool_lits. cbn iota. set (m1 := put_bytes m (args + 4 * n) (le32 p)).
    apply bytes_at_app in Hb as [_ Hb]. rewrite length_replicate in Hb.
    assert (bytes_at m1 p (w ++ [0])) as Hw1.
    { apply bytes_at_put_disjoint; [|exact Hb]. unfold disjoint_range in *. rewrite length_app. cbn [length le32]. lia. }
    destruct f as [|f]; [destruct Hw as [Hw _], w; [done|cbn in Hf; lia]|].
    pose proof (proj1 (bytes_at_app _ _ _ _) Hw1) as [_ Hz]. exists m1. split.
    { rewrite (parse_end m1 f args (n + 1) _ 0 0 []) by (done || lia || by left).
      rewrite Z.add_0_r, insert_id by apply Hz. done. }
    apply (word_stays m m1 m1 (args + 4 * n) p w (p + Z.of_nat (length w) + 1) scan
      (Z.of_nat (k + length w) + 1) [] 0); try (cbn [length]; lia); [|apply put_bytes_at| |done|done|done].
    + split; [apply put_bytes_dom; eapply mapped_sub; [exact Hm|lia|cbn; lia]|]. intros x Hx.
      rewrite !Forall_cons in Hx. cbn in Hx. apply put_bytes_outside. cbn. lia.
    + split; [exact Hw1|]. destruct Hw as [_ Hw]. eapply Forall_impl; [exact Hw|]. naive_solver.
  - rewrite words_spaces, (words_more w c l Hw Hc) in *. rewrite !length_app, length_replicate in *. cbn [length] in *.
    rewrite <-!app_assoc in Hb. destruct (ends_stops c Hc) as [Hcs Hc0]. set (p := scan + Z.of_nat k).
    erewrite parse_word; [|exact Hb|done|done|lia|lia|eapply mapped_sub; [exact Hm|lia|lia]|unfold disjoint_range in *; lia].
    fold p. rewrite bool_decide_eq_true_2 by lia. set (m1 := put_bytes m (args + 4 * n) (le32 p)).
    apply bytes_at_app in Hb as [_ Hb]. rewrite length_replicate in Hb. fold p in Hb.
    assert (bytes_at m1 p (w ++ c :: l ++ [0])) as Hb1.
    { apply bytes_at_put_disjoint; [|exact Hb]. unfold disjoint_range in *. rewrite length_app. cbn [length le32 app].
      rewrite length_app. cbn. lia. }
    apply bytes_at_app in Hb1 as [Hw1 [Hc1 Hl1]]. cbn [u_store8 plain_mem].
    erewrite bind_ok by (apply store8_ok; by exists c). change (u8 0) with 0.
    set (q := p + Z.of_nat (length w)) in *. set (m2 := <[q := 0]> m1).
    assert (dom m1 = dom m) as D1 by (apply put_bytes_dom; eapply mapped_sub; [exact Hm|lia|cbn; lia]).
    assert (dom m2 = dom m1) as D2 by (apply dom_insert_mapped; by exists c).
    destruct (IH m2 (n + 1) (q + 1) l) as (m' & E & Hs & Hv).
    { eapply bytes_at_agree; [|exact Hl1]. intros x Hx. apply lookup_insert_ne. lia. }
    { apply Forall_app in Hch as [_ Hch]. apply Forall_app in Hch as [_ Hch]. by inversion Hch. }
    { lia. } { lia. }
    { apply (mapped_dom m); [by rewrite D2, D1|]. eapply mapped_sub; [exact Hm|lia|lia]. }
    { unfold disjoint_range in *. lia. }
    exists m'. split; [rewrite E; do 2 f_equal; lia|].
    replace (args + 4 * (n + 1)) with (args + 4 * n + 4) in Hs, Hv by lia.
    replace (q + 1 + (Z.of_nat (length l) + 1)) with (scan + (Z.of_nat (k + (length w + S (length l))) + 1)) in Hv by lia.
    apply (word_stays m m2 m' (args + 4 * n) p w (q + 1) scan (Z.of_nat (k + (length w + S (length l))) + 1)
      (words [] l) (Z.of_nat (length l) + 1)); try lia; [| | |done| |unfold disjoint_range in *; lia].
    + split; [by rewrite D2, D1|]. intros x Hx. rewrite !Forall_cons in Hx. cbn in Hx. unfold m2.
      rewrite lookup_insert_ne by lia. apply put_bytes_outside. cbn. lia.
    + eapply bytes_at_agree; [|apply put_bytes_at]. intros x Hx. cbn in Hx. apply lookup_insert_ne.
      unfold disjoint_range in *. lia.
    + split; [|destruct Hw as [_ Hw]; eapply Forall_impl; [exact Hw|]; naive_solver].
      apply bytes_at_app. split; [|split; [apply lookup_insert_eq|done]].
      eapply bytes_at_agree; [|exact Hw1]. intros x Hx. apply lookup_insert_ne. lia.
    + exact Hv.
Qed.

Lemma same_outside_widen rs rs' m m' : same_outside rs m m' →
  (∀ x, Forall (λ r, ¬ (r.1 ≤ x < r.1 + r.2)) rs' → Forall (λ r, ¬ (r.1 ≤ x < r.1 + r.2)) rs) → same_outside rs' m m'.
Proof. intros [Hd Hs] Hr. split; [done|]. auto. Qed.

(** The command copied behind "./", with its first word. *)
Lemma build_start m buf args command s :
  cstr_at m command s → (length s ≤ 1023)%nat → (length s < fuel)%nat → mapped m buf 1026 → mapped m args 4 →
  disjoint_range buf 1026 args 4 → disjoint_range buf 1026 command (Z.of_nat (length s) + 1) →
  let w := cmd_word s in let scan := buf + 2 + Z.of_nat (length w) in
  let m1 := put_bytes (put_bytes m buf ([46; 47] ++ s ++ [0])) args (le32 buf) in
  build_args fuel buf args command m =
    (n_arg ← (if bool_decide (0 ≠ default 0 (s !! length w)) then
                _ ← store8 scan 0; parse_arguments fuel fuel args 1 (scan + 1)
              else mret 1);
     store32 (args + 4 * n_arg) 0) m1.
Proof.
  intros Hs Hl Hf Hmb Hma Hd1 Hd2 w scan m1. unfold build_args. cbn [u_store8 u_load8 plain_mem].
  rewrite mapped_spec in Hmb. erewrite bind_ok by (apply store8_ok, Hmb; lia).
  erewrite bind_ok.
  2:{ apply store8_ok, lookup_insert_is_Some. right. split; [lia|]. apply Hmb. lia. }
  change (u8 46) with 46. change (u8 47) with 47. set (m0 := <[buf + 1 := 47]> (<[buf := 46]> m)).
  assert (m0 = put_bytes m buf [46; 47]) as Em0.
  { unfold m0. cbn [put_bytes]. by rewrite insert_insert_ne by lia. }
  rewrite <-mapped_spec in Hmb. erewrite bind_ok.
  2:{ apply (strcpy_plain m0 (buf + 2) command s).
      - rewrite Em0. apply cstr_at_put_disjoint; [|done]. unfold disjoint_range in *. cbn. lia.
      - rewrite Em0. apply (mapped_dom m); [apply put_bytes_dom|]; eapply mapped_sub; [exact Hmb|lia|cbn; lia|exact Hmb|lia|lia].
      - unfold disjoint_range in *. lia.
      - done. }
  assert (put_bytes m0 (buf + 2) (s ++ [0]) = put_bytes m buf ([46; 47] ++ s ++ [0])) as ->.
  { rewrite Em0. apply (put_next m buf [46; 47]). }
  assert (bytes_at (put_bytes m buf ([46; 47] ++ s ++ [0])) (buf + 2) (s ++ [0])) as Hb.
  { pose proof (put_bytes_at m buf ([46; 47] ++ s ++ [0])) as Hb. by apply bytes_at_app in Hb as [_ Hb]. }
  destruct (upto_split ends_word s) as (rest & E & Hw & Hr). change (upto ends_word s) with w in E, Hw.
  assert (∃ c rest', s ++ [0] = w ++ c :: rest' ∧ stops c ∧ default 0 (s !! length w) = c) as (c & rest' & Ec & Hc & Hdef).
  { rewrite E. destruct rest as [|c rest].
    - exists 0, []. rewrite app_nil_r. split; [done|]. split; [by left|]. by rewrite (lookup_ge_None_2 w).
    - exists c, (rest ++ [0]). rewrite <-app_assoc. split; [done|]. split; [by apply ends_stops|].
      by rewrite list_lookup_middle. }
  rewrite Hdef. set (mb := put_bytes m buf _) in *. assert (bytes_at mb (buf + 2) (w ++ c :: rest')) as Hbw
    by (rewrite <-Ec; exact Hb).
  erewrite bind_ok.
  2:{ eapply (skip_word_plain _ (buf + 2) w c rest'); [exact Hbw|exact Hc| |].
      - destruct Hs as [_ Hch]. rewrite E in Hch. apply Forall_app in Hch as [Hch _].
        eapply Forall_impl; [apply Forall_and; split; [exact Hch|exact Hw]|]. cbv beta. intros d [Hd0 Hd3]. apply orb_false_iff in Hd3 as
          [H1%bool_decide_eq_false H2%bool_decide_eq_false]. unfold stops, is_char in *. lia.
      - assert (length w ≤ length s)%nat by (rewrite E, length_app; lia). lia. }
  change (@u_store32 mem plain_mem) with store32. erewrite bind_ok.
  2:{ apply store32_ok. apply (mapped_dom m); [|exact Hma]. apply put_bytes_dom. eapply mapped_sub; [exact Hmb|lia|].
      rewrite !length_app. cbn [length]. lia. }
  fold m1 scan. apply bytes_at_app in Hbw as [_ [Hc1 _]]. fold scan in Hc1. erewrite bind_ok; [done|]. apply load8_ok.
  unfold m1. rewrite put_bytes_outside; [done|]. assert (length w ≤ length s)%nat by (rewrite E, length_app; lia).
  unfold disjoint_range in *. unfold scan. cbn. lia.
Qed.

(** The vector is closed with [NULL]. *)
Definition argv_at (m : mem) (a lo hi : Z) (ws : list (list Z)) : Prop :=
  vector_at m a lo hi ws ∧ bytes_at m (a + 4 * Z.of_nat (length ws)) (le32 0).

Lemma close_vector m m1 m' a lo N k ws p w : mapped m a k → 4 * Z.of_nat (S (length ws)) + 4 ≤ k →
  same_outside [(a, k); (lo, N)] m m1 → same_outside [(a, 4 * Z.of_nat (S (length ws))); (lo, N)] m1 m' →
  vector_at m' a lo (lo + N) (w :: ws) → cstr_at m' p w → lo ≤ p → p + Z.of_nat (length w) < lo + N →
  disjoint_range a k lo N →
  ∃ m2, store32 (a + 4 * Z.of_nat (S (length ws))) 0 m' = Ok (tt, m2) ∧ same_outside [(a, k); (lo, N)] m m2 ∧
    argv_at m2 a lo (lo + N) (w :: ws) ∧ cstr_at m2 p w.
Proof.
  intros Hm Hk [D1 S1] [D2 S2] Hv Hw Hlo Hhi Hd. unfold disjoint_range in Hd.
  assert (mapped m' (a + 4 * Z.of_nat (S (length ws))) 4) as Hm'.
  { apply (mapped_dom m); [by rewrite D2|]. eapply mapped_sub; [exact Hm|lia|lia]. }
  eexists. split; [by apply store32_ok|]. split; [split|split; [split|]].
  - by rewrite put_bytes_dom, D2.
  - intros x Hx. rewrite !Forall_cons in Hx. cbn in Hx. rewrite put_bytes_outside by (cbn; lia).
    rewrite S2 by (repeat constructor; cbn; lia). apply S1. repeat constructor; cbn; lia.
  - eapply vector_at_agree; [exact Hv|]. intros x Hx. apply put_bytes_outside. cbn [length le32] in *. lia.
  - apply put_bytes_at.
  - apply cstr_at_put_disjoint; [|exact Hw]. unfold disjoint_range. cbn [length le32]. lia.
Qed.

Lemma build_plain m buf args command s :
  cstr_at m command s → (length s ≤ 1023)%nat → (length s < fuel)%nat → mapped m buf 1026 → mapped m args 4096 →
  disjoint_range buf 1026 args 4096 → disjoint_range buf 1026 command (Z.of_nat (length s) + 1) →
  ∃ m', build_args fuel buf args command m = Ok (tt, m') ∧ same_outside [(args, 4096); (buf, 1026)] m m' ∧
    argv_at m' args buf (buf + 1026) (host_argv s) ∧ cstr_at m' buf ([46; 47] ++ cmd_word s).
Proof.
  intros Hs Hl Hf Hmb Hma Hd1 Hd2.
  rewrite (build_start m buf args command s) by (done || (eapply mapped_sub; [exact Hma|lia|lia]) || (unfold disjoint_range in *; lia)).
  set (w := cmd_word s). set (mb := put_bytes m buf ([46; 47] ++ s ++ [0])). set (m1 := put_bytes mb args (le32 buf)).
  destruct (upto_split ends_word s) as (rest & E & Hw & Hr). change (upto ends_word s) with w in E, Hw.
  assert (dom mb = dom m) as Db.
  { apply put_bytes_dom. eapply mapped_sub; [exact Hmb|lia|]. rewrite !length_app. cbn [length]. lia. }
  assert (dom m1 = dom mb) as D1.
  { apply put_bytes_dom. apply (mapped_dom m); [done|]. eapply mapped_sub; [exact Hma|lia|cbn; lia]. }
  assert (same_outside [(args, 4096); (buf, 1026)] m m1) as Hs1.
  { split; [by rewrite D1, Db|]. intros x Hx. rewrite !Forall_cons in Hx. cbn in Hx. unfold m1, mb.
    rewrite !put_bytes_outside; [done|rewrite !length_app; cbn; lia|cbn; lia]. }
  assert (bytes_at m1 buf (([46; 47] ++ w) ++ rest ++ [0])) as Hb1.
  { apply bytes_at_put_disjoint; [unfold disjoint_range in *; rewrite !length_app; cbn; rewrite E, !length_app in Hl; lia|].
    pose proof (put_bytes_at m buf ([46; 47] ++ s ++ [0])) as Hb. fold mb in Hb. rewrite E in Hb.
    by rewrite <-!app_assoc in Hb |- *. }
  assert (Forall is_char ([46; 47] ++ w)) as Hpath.
  { destruct Hs as [_ Hs]. rewrite E in Hs. apply Forall_app in Hs as [Hs _]. repeat constructor; done. }
  assert (Z.of_nat (length w) + Z.of_nat (length rest) ≤ 1023) as Hlen by (rewrite E, length_app in Hl; lia).
  set (path := [46; 47] ++ w) in *. assert (Z.of_nat (length path) = 2 + Z.of_nat (length w)) as Epath by (unfold path; rewrite length_app; cbn; lia).
  assert (host_argv s = path :: words [] (drop 1 rest)) as ->.
  { unfold host_argv. fold w path. f_equal. rewrite E, drop_app_ge by lia. f_equal. f_equal. lia. }
  assert (default 0 (s !! length w) = match rest with [] => 0 | c :: _ => c end) as ->.
  { rewrite E, lookup_app_r, Nat.sub_diag by done. by destruct rest. }
  assert (∀ m2, same_outside [(buf + Z.of_nat (length path), 1)] m1 m2 →
    same_outside [(args, 4); (buf + Z.of_nat (length path), 1)] mb m2) as Hfirst.
  { intros m2 [D2 S2]. split; [by rewrite D2|]. intros x Hx. rewrite !Forall_cons in Hx. cbn in Hx.
    rewrite S2 by (repeat constructor; cbn; lia). apply put_bytes_outside. cbn. lia. }
  destruct rest as [|c l].
  - bool_lits. cbn [drop words length] in *.
    destruct (word_stays mb m1 m1 args buf path (buf + Z.of_nat (length path) + 1) buf 1026 [] 0) as [Ho Hv];
      try (cbn [length]; unfold disjoint_range in *; lia); [by apply Hfirst|apply put_bytes_at|by split|done|done|].
    destruct (close_vector m m1 m1 args buf 1026 4096 [] buf path) as (m' & Es & Hs' & Hv' & Hc');
      [exact Hma|cbn; lia|exact Hs1|done|exact Hv|by split|lia|lia|unfold disjoint_range in *; lia|].
    exists m'. done.
  - assert (ends_word c = true) as Hc by exact Hr. destruct (ends_stops c Hc) as [Hcs Hc0].
    rewrite bool_decide_eq_true_2 by lia. cbn [drop length] in *. rewrite drop_0. cbn [u_store8 plain_mem].
    replace (buf + 2 + Z.of_nat (length w)) with (buf + Z.of_nat (length path)) by lia.
    set (q := buf + Z.of_nat (length path)) in *.
    apply bytes_at_app in Hb1 as [Hp1 [Hc1 Hl1]]. fold q in Hc1, Hl1.
    set (m2 := <[q := 0]> m1).
    assert (dom m2 = dom m1) as D2 by (apply dom_insert_mapped; by exists c).
    destruct (parse_plain fuel m2 args 1 (q + 1) l) as (m3 & E3 & Hs3 & Hv3).
    { eapply bytes_at_agree; [|exact Hl1]. intros x Hx. apply lookup_insert_ne. lia. }
    { destruct Hs as [_ Hs]. rewrite E in Hs. apply Forall_app in Hs as [_ Hs]. by inversion Hs. }
    { rewrite E, length_app in Hf. cbn in Hf. lia. } { rewrite E, length_app in Hf. cbn in Hf. lia. }
    { pose proof (words_count l). apply (mapped_dom m); [by rewrite D2, D1, Db|]. eapply mapped_sub; [exact Hma|lia|lia]. }
    { pose proof (words_count l). unfold disjoint_range in *. lia. }
    pose proof (words_count l) as Hwl.
    assert (cstr_at m2 buf path) as Hp2.
    { split; [|done]. apply bytes_at_app. split; [|split; [apply lookup_insert_eq|done]].
      eapply bytes_at_agree; [|exact Hp1]. intros x Hx. apply lookup_insert_ne. lia. }
    destruct (word_stays mb m2 m3 args buf path (q + 1) buf 1026 (words [] l) (Z.of_nat (length l) + 1)) as [Ho Hv];
      try (unfold disjoint_range in *; lia); [| |exact Hp2|exact Hs3|eapply vector_at_widen; [exact Hv3|lia|lia]|].
    { apply Hfirst. split; [done|]. intros x Hx. rewrite !Forall_cons in Hx. cbn in Hx. apply lookup_insert_ne. lia. }
    { eapply bytes_at_agree; [|apply put_bytes_at]. intros x Hx. cbn in Hx. apply lookup_insert_ne.
      unfold disjoint_range in *. lia. }
    destruct (close_vector m mb m3 args buf 1026 4096 (words [] l) buf path) as (m' & Es & Hs' & Hv' & Hc');
      [exact Hma|lia| |exact Ho|exact Hv| |lia|lia|unfold disjoint_range in *; lia|].
    { split; [done|]. intros x Hx. rewrite !Forall_cons in Hx. cbn in Hx. apply put_bytes_outside.
      rewrite !length_app. cbn. lia. }
    { eapply cstr_at_agree; [|exact Hp2]. intros x Hx. apply Hs3. unfold disjoint_range in *. repeat constructor; cbn; lia. }
    exists m'. split; [|done].
    erewrite bind_ok; [exact Es|]. erewrite bind_ok by (apply store8_ok; by exists c).
    change (u8 0) with 0. fold m2. rewrite E3. do 2 f_equal. lia.
Qed.

(** What [execv] reads of it. *)
Lemma string_plain m a str f : cstr_at m a str → (length str < f)%nat → string_from f a m = Ok (str, m).
Proof.
  revert a f. induction str as [|c str IH]; intros a f [Hb Hc] Hf; (destruct f as [|f]; [cbn in Hf; lia|]);
    cbn [string_from u_load8 plain_mem]; destruct Hb as [Hx Hb]; (erewrite bind_ok by (by apply load8_ok)).
  - done.
  - apply Forall_cons in Hc as [Hc0 Hc]. unfold is_char in Hc0. rewrite bool_decide_eq_false_2 by lia.
    erewrite bind_ok by (apply IH; [by split|cbn in Hf; lia]). done.
Qed.
Lemma vector_plain m a lo hi ws f : argv_at m a lo hi ws → 0 < lo → hi ≤ 2 ^ 32 → (length ws < f)%nat →
  Forall (λ w, (length w < fuel)%nat) ws → vector_from fuel f a m = Ok (ws, m).
Proof.
  intros [Hv Hz] Hlo Hhi. revert a f Hv Hz. induction ws as [|w ws IH]; intros a f Hv Hz Hf Hl;
    (destruct f as [|f]; [cbn in Hf; lia|]); cbn [vector_from]; change (@u_load32 mem plain_mem) with load32.
  - cbn [length] in Hz. rewrite Z.add_0_r in Hz. erewrite bind_ok by (by apply load32_le32). done.
  - destruct Hv as [(p & Hp & Hpl & Hph & Hw) Hv]. apply Forall_cons in Hl as [Hlw Hl].
    erewrite bind_ok by (apply load32_le32; [done|unfold is_u32; lia]).
    rewrite bool_decide_eq_false_2 by lia. erewrite bind_ok by (by apply string_plain).
    erewrite bind_ok; [done|]. apply IH; [done| |cbn in Hf; lia|done].
    cbn [length] in Hz. by replace (a + 4 + 4 * Z.of_nat (length ws)) with (a + 4 * Z.of_nat (S (length ws))) by lia.
Qed.

(** ** The arguments, given back *)

(** They are copied while there is room, a space behind each but the last. An
    argument that exactly fills the room has its terminator behind it. *)
Lemma copy_arguments_plain f m argc argv idx buf n lo N ws :
  vector_at m (argv + 4 * idx) lo (lo + N) ws → idx + Z.of_nat (length ws) = argc → 0 ≤ lo → lo + N ≤ 2 ^ 32 →
  0 ≤ n < 2 ^ 31 → mapped m buf (n + 1) →
  Forall (λ w, (length w < fuel)%nat ∧ Z.of_nat (length w) < 2 ^ 31) ws → (length ws < f)%nat →
  disjoint_range buf (n + 1) (argv + 4 * idx) (4 * Z.of_nat (length ws)) → disjoint_range buf (n + 1) lo N →
  ∃ o m', copy_arguments fuel f argc argv idx buf n m = Ok (o, m') ∧ same_outside [(buf, n + 1)] m m' ∧
    if decide (ws = []) then o = Some (buf, n) ∧ m' = m
    else if decide (Z.of_nat (length (spaced ws)) ≤ n)
      then o = Some (buf + Z.of_nat (length (spaced ws)), n - Z.of_nat (length (spaced ws))) ∧
        m' = put_bytes m buf (spaced ws ++ [0])
      else o = None.
Proof.
  revert m idx buf n ws. induction f as [|f IH]; intros m idx buf n ws Hv Hi Hlo Hhi Hn Hm Hws Hf Hd1 Hd2; [lia|].
  cbn [copy_arguments]. destruct ws as [|w ws].
  { cbn [length] in Hi. rewrite bool_decide_eq_false_2 by lia. exists (Some (buf, n)), m. done. }
  cbn [length] in *. rewrite bool_decide_eq_true_2 by lia. change (@u_load32 mem plain_mem) with load32.
  destruct Hv as [(p & Hp & Hpl & Hph & Hw) Hv]. apply Forall_cons in Hws as [[Hwf Hw31] Hws].
  assert (load32 (argv + 4 * idx) m = Ok (p, m)) as Ep by (apply load32_le32; [done|unfold is_u32; lia]).
  erewrite bind_ok by exact Ep. erewrite bind_ok by (apply strlen_plain; [exact Hw|lia|done]).
  rewrite s32_id by (unfold is_s32; lia).
  assert (length w ≤ length (spaced (w :: ws)))%nat as Hle by (rewrite spaced_cons, length_app; lia).
  case_bool_decide as Hbig.
  { exists None, m. split; [done|]. split; [done|]. rewrite decide_False by done. by rewrite decide_False by lia. }
  erewrite bind_ok by exact Ep. erewrite bind_ok.
  2:{ apply strcpy_plain; [exact Hw|eapply mapped_sub; [exact Hm|lia|lia]|unfold disjoint_range in *; lia|done]. }
  set (m1 := put_bytes m buf (w ++ [0])).
  assert (same_outside [(buf, n + 1)] m m1) as Hs1 by (apply same_put; [done|rewrite length_app; cbn; lia]).
  destruct ws as [|w' ws].
  { cbn [length] in *. rewrite bool_decide_eq_true_2 by lia. eexists _, m1. split; [done|]. split; [done|].
    rewrite decide_False by done. change (spaced [w]) with w. rewrite decide_True by lia. done. }
  rewrite bool_decide_eq_false_2 by (cbn [length] in *; lia).
  assert (Z.of_nat (length (spaced (w :: w' :: ws))) = Z.of_nat (length w) + 1 + Z.of_nat (length (spaced (w' :: ws)))) as El.
  { rewrite spaced_cons, length_app. cbn [length]. lia. }
  case_bool_decide as Hroom.
  { exists None, m1. split; [done|]. split; [done|]. rewrite decide_False by done. by rewrite decide_False by lia. }
  cbn [u_store8 plain_mem]. set (k := Z.of_nat (length w)) in *.
  assert (m1 !! (buf + k) = Some 0) as Hz.
  { pose proof (put_bytes_at m buf (w ++ [0])) as Hb. apply bytes_at_app in Hb as [_ [Hb _]]. exact Hb. }
  erewrite bind_ok by (apply store8_ok; by exists 0). change (u8 32) with 32.
  assert (<[buf + k := 32]> m1 = put_bytes m buf (w ++ [32])) as ->.
  { unfold m1, k. rewrite <-(put_bytes_snoc m buf w 0), <-(put_bytes_snoc m buf w 32). by rewrite insert_insert_eq. }
  set (m2 := put_bytes m buf (w ++ [32])). replace (argv + 4 * idx + 4) with (argv + 4 * (idx + 1)) in Hv by lia.
  assert (same_outside [(buf, n + 1)] m m2) as [D2 S2] by (apply same_put; [done|rewrite length_app; cbn; lia]).
  destruct (IH m2 (idx + 1) (buf + k + 1) (n - k - 1) (w' :: ws)) as (o & m' & E & [D3 S3] & Hres);
    [|cbn [length] in *; lia|lia|lia|lia| |exact Hws|cbn [length] in *; lia|
     cbn [length] in *; unfold disjoint_range in *; lia|unfold disjoint_range in *; lia|].
  { eapply vector_at_agree; [exact Hv|]. intros x Hx. apply S2. constructor; [|constructor].
    cbn [length fst snd] in *. unfold disjoint_range in *. lia. }
  { apply (mapped_dom m); [done|]. eapply mapped_sub; [exact Hm|lia|lia]. }
  exists o, m'. split; [exact E|]. split.
  { split; [congruence|]. intros x Hx. rewrite Forall_singleton in Hx. cbn in Hx. rewrite S3.
    - apply S2. by rewrite Forall_singleton.
    - rewrite Forall_singleton. cbn. lia. }
  rewrite decide_False by done. rewrite decide_False in Hres by done.
  destruct (decide (Z.of_nat (length (spaced (w' :: ws))) ≤ n - k - 1)) as [Hfit|Hfit].
  2:{ by rewrite decide_False by lia. }
  destruct Hres as [-> ->]. rewrite decide_True by lia. split; [do 2 f_equal; lia|].
  unfold m2. replace (buf + k + 1) with (buf + Z.of_nat (length (w ++ [32]))) by (rewrite length_app; cbn; lia).
  rewrite put_next, <-app_assoc. by rewrite (spaced_cons w), <-(app_assoc w).
Qed.
End parse.
End plain.

(** ** A process on Linux is a user memory *)
Section emulate.
Context {W : Type} `{Linux W} `{Literals} (fuel : nat).
#[local] Existing Instance emu_mem.

Definition shows (s0 : emu W) (s : emu W) (m : mem) : Prop := s = s0 <| e_mem := m |>.
#[global] Instance emu_view s0 : MemView (emu W) (shows s0).
Proof using Type.
  split.
  - intros a s m x m' -> E. unfold wp, u_load8, emu_mem, on_emem, zoom.
    cbn [e_mem upd Set_e_mem]. rewrite E. done.
  - intros a v s m x m' -> E. unfold wp, u_store8, emu_mem, on_emem, zoom.
    cbn [e_mem upd Set_e_mem]. rewrite E. done.
Qed.

(** How a program ends: by [exit], by a signal, perhaps with a dump, or not at
    all because it could not be run. *)
Inductive ended : Type := Exited (code : Z) | Killed (signal : Z) (core : bool).
Definition wait_status (e : ended) : Z :=
  match e with Exited code => 256 * code | Killed n core => n + if core then 128 else 0 end.
Definition valid_end (e : ended) : Prop :=
  match e with Exited code => 0 ≤ code < 256 | Killed n _ => 0 < n < 127 end.
(** What the caller of [ece391_execute] is told. *)
Definition told (o : option ended) : Z :=
  match o with
  | None => -1
  | Some (Exited code) => code
  | Some (Killed n _) => if decide (n = 9) then -1 else 256
  end.
Lemma told_status st : match st with Some e => valid_end e | None => True end →
  let status := match st with Some e => wait_status e | None => 9 end in
  (if WIFEXITED status then WEXITSTATUS status else if bool_decide (9 = WTERMSIG status) then -1 else 256) = told st.
Proof.
  assert (∀ x, WTERMSIG x = x mod 128) as Ht by (intros x; apply (Z.land_ones x 7); lia).
  assert (∀ x, WEXITSTATUS x = x / 256 mod 256) as He.
  { intros x. unfold WEXITSTATUS. rewrite Z.shiftr_land. change (Z.shiftr 0xff00 8) with (Z.ones 8).
    by rewrite Z.land_ones, Z.shiftr_div_pow2 by lia. }
  intros Hv status. unfold WIFEXITED. change (Z.land status 0x7f) with (WTERMSIG status). rewrite Ht, He.
  destruct st as [[code|n core]|]; unfold status; cbn [wait_status told valid_end] in *; [| |done].
  - assert ((256 * code) mod 128 = 0) as -> by (Z.to_euclidean_division_equations; lia). bool_lits. cbn iota.
    by rewrite (Z.mul_comm 256), Z.div_mul, Z.mod_small by lia.
  - assert ((n + (if core then 128 else 0)) mod 128 = n) as ->.
    { destruct core; [|rewrite Z.add_0_r; apply Z.mod_small; lia].
      symmetry. apply Z.mod_unique with 1; lia. }
    rewrite bool_decide_eq_false_2 by lia. case_bool_decide; case_decide; lia.
Qed.

Lemma execute_long s buf args status command c : cstr_at (e_mem s) command c →
  (1023 < length c)%nat → Z.of_nat (length c) < 2 ^ 32 → (length c < fuel)%nat →
  wp (emu_execute fuel buf args status command) (λ r s', r = -1 ∧ s' = s) s.
Proof using Type.
  intros Hc Hl H32 Hf. unfold emu_execute. rewrite wp_bind.
  eapply wp_mono; [by apply (strlen_wp (R := shows s) fuel s (e_mem s) command c); [destruct s|..]|].
  cbv beta. intros ? s' [-> Hs']. rewrite bool_decide_eq_true_2 by lia. split; [done|]. rewrite Hs'. by destruct s.
Qed.

Lemma upto_length p l : (length (upto p l) ≤ length l)%nat.
Proof using Type. induction l as [|c l IH]; [done|]. cbn. destruct (p c); cbn; lia. Qed.
Lemma words_lengths cur l : Forall (λ w, (length w ≤ length cur + length l)%nat) (words cur l).
Proof using Type.
  revert cur. induction l as [|c l IH]; intros cur; cbn [words].
  - destruct cur as [|d cur]; [constructor|]. constructor; [cbn; lia|constructor].
  - assert (Forall (λ w, (length w ≤ length cur + length (c :: l))%nat) (words [] l)) as Hnil.
    { eapply Forall_impl; [apply IH|]. intros w. cbn. lia. }
    destruct cur as [|d cur]; repeat case_bool_decide; try done;
      try (eapply Forall_impl; [apply IH|]; intros w; cbn; rewrite ?length_app; cbn; lia); constructor; (done || (cbn; lia)).
Qed.
Lemma argv_lengths c : (length c + 2 < fuel)%nat → Forall (λ w, (length w < fuel)%nat) (host_argv c).
Proof using Type.
  intros Hf. unfold host_argv. constructor.
  - pose proof (upto_length ends_word c). unfold cmd_word. cbn. lia.
  - eapply Forall_impl; [apply words_lengths|]. cbv beta. intros w. rewrite length_drop. cbn. lia.
Qed.

(** What the child does: [execv] reads the buffers. *)
Lemma child_ok s buf args path ws w1 st w2 : argv_at (e_mem s) args buf (buf + 1026) ws →
  cstr_at (e_mem s) buf path → 0 < buf → buf + 1026 ≤ 2 ^ 32 → (length path < fuel)%nat → (length ws < fuel)%nat →
  Forall (λ w, (length w < fuel)%nat) ws → e_world s = w1 → c_execv path ws w1 = Ok (st, w2) →
  wp (child fuel buf args) (λ r s', r = match st with Some n => n | None => 9 end ∧ e_world s' = w2) s.
Proof using Type.
  intros Hv Hp Hb0 Hb Hlp Hlw Hws Hw1 Hx. unfold child, execv. rewrite !wp_bind.
  eapply wp_mono; [apply (string_from_follows (R := shows s) fuel buf s (e_mem s)); [by destruct s|by apply string_plain]|].
  cbv beta. intros ? s1 [-> Hs1]. rewrite wp_bind.
  eapply wp_mono; [apply (vector_from_follows (R := shows s) fuel fuel args s1 (e_mem s)); [exact Hs1|by eapply vector_plain]|].
  cbv beta. intros ? s2 [-> Hs2]. unfold on_world. rewrite wp_zoom. rewrite Hs2. cbn [e_world upd Set_e_mem].
  rewrite Hw1. eapply wp_run; [exact Hx|]. by rewrite wp_ret.
Qed.

(** C21: on Linux [ece391_execute] runs a command of at most 1023 characters as
    the program of its first word in the current directory, with that path and
    the words behind it as arguments, in a child; it waits for it, gives the
    status it exited with, 256 if it was killed by an exception, and -1 if it
    was not run (or killed by signal 9). Of the memory only the two buffers
    change. *)
Theorem emulated_execute_runs s buf args status command c w1 st w2 :
  cstr_at (e_mem s) command c → (length c ≤ 1023)%nat → (1025 < fuel)%nat →
  mapped (e_mem s) buf 1026 → mapped (e_mem s) args 4096 → 0 < buf → buf + 1026 ≤ 2 ^ 32 →
  disjoint_range buf 1026 args 4096 → disjoint_range buf 1026 command (Z.of_nat (length c) + 1) →
  c_fork (e_world s) = Ok (true, w1) →
  c_execv ([46; 47] ++ cmd_word c) (host_argv c) w1 = Ok (wait_status <$> st, w2) →
  match st with Some e => valid_end e | None => True end →
  wp (emu_execute fuel buf args status command) (λ r s', r = told st ∧
    ∃ m', same_outside [(args, 4096); (buf, 1026)] (e_mem s) m' ∧
      s' = (s <| e_mem := m' |>) <| e_world := w2 |>) s.
Proof using Type.
  intros Hc Hl Hf Hmb Hma Hb0 Hb Hd1 Hd2 Hfork Hx Hst. unfold emu_execute. rewrite wp_bind.
  eapply wp_mono; [apply (strlen_wp (R := shows s) fuel s (e_mem s) command c); [by destruct s|done|lia|lia]|].
  cbv beta. intros ? s1 [-> Hs1]. rewrite bool_decide_eq_false_2 by lia. rewrite wp_bind.
  destruct (build_plain fuel (e_mem s) buf args command c) as (m' & E & Ho & Hv & Hp); try (done || lia).
  eapply wp_mono; [by apply (build_args_follows (R := shows s) fuel buf args command s1 (e_mem s))|].
  cbv beta. intros ? s2 [-> ->]. unfold fork_and_wait, on_world. rewrite !wp_bind, wp_zoom.
  eapply wp_run; [exact Hfork|]. cbv beta iota.
  set (s3 := _ <| e_world := w1 |>).
  assert (wp (child fuel buf args) (λ r s', r = match wait_status <$> st with Some n => n | None => 9 end ∧ e_world s' = w2) s3) as Hch.
  { eapply (child_ok s3 buf args _ (host_argv c) w1); [exact Hv|exact Hp|done|done| | | |done|exact Hx].
    - rewrite length_app. pose proof (upto_length ends_word c). unfold cmd_word. cbn. lia.
    - unfold host_argv. cbn [length]. pose proof (words_count (drop (S (length (cmd_word c))) c)) as Hn.
      rewrite length_drop in Hn. lia.
    - apply argv_lengths. lia. }
  apply wp_ok in Hch as (r & s4 & Ech & -> & Hw4).
  eapply wp_run; [unfold on_a_copy; rewrite Ech; done|]. pose proof (told_status st Hst) as Htold. cbv zeta in Htold.
  set (n := match wait_status <$> st with Some n => n | None => 9 end) in *.
  replace (match st with Some e => wait_status e | None => 9 end) with n in Htold by (by destruct st).
  enough (wp (if WIFEXITED n then mret (WEXITSTATUS n) else if bool_decide (9 = WTERMSIG n) then mret (-1) else mret 256)
    (λ r s', r = told st ∧ s' = s3 <| e_world := w2 |>) (s3 <| e_world := e_world s4 |>)) as Hend.
  { eapply wp_mono; [exact Hend|]. cbv beta. intros r s' [-> ->]. split; [done|]. by exists m'. }
  rewrite Hw4, <-Htold. by destruct (WIFEXITED n), (bool_decide (9 = WTERMSIG n)).
Qed.

(** The stack a program is started with: the number of its arguments, and
    pointers to them, which lie in [lo, lo + N). *)
Record args_at (s : emu W) (lo N : Z) (argv : list (list Z)) : Prop := {
  aa_argc : bytes_at (e_mem s) (start_esp s) (le32 (Z.of_nat (length argv)));
  aa_argv : vector_at (e_mem s) (start_esp s + 4) lo (lo + N) argv;
  aa_range : 0 ≤ lo ∧ lo + N ≤ 2 ^ 32;
  aa_short : Z.of_nat (length argv) < 2 ^ 31;
}.

(** The arguments are copied when they fit with their terminator. Those that
    fit without it are copied all the same: the terminator is behind the buffer. *)
Lemma getargs_ok s lo N path ws buf n :
  args_at s lo N (path :: ws) → 0 ≤ n < 2 ^ 31 → mapped (e_mem s) buf (n + 1) →
  Forall (λ w, (length w < fuel)%nat ∧ Z.of_nat (length w) < 2 ^ 31) ws → (length ws < fuel)%nat →
  disjoint_range buf (n + 1) (start_esp s) (4 + 4 * Z.of_nat (length (path :: ws))) → disjoint_range buf (n + 1) lo N →
  wp (emu_getargs fuel buf n) (λ r s', ∃ m', same_outside [(buf, n + 1)] (e_mem s) m' ∧ s' = s <| e_mem := m' |> ∧
    if decide (Z.of_nat (length (spaced ws)) < n)
    then r = 0 ∧ m' = put_bytes (e_mem s) buf (spaced ws ++ [0])
    else r = -1 ∧ (ws ≠ [] → Z.of_nat (length (spaced ws)) = n → m' !! (buf + n) = Some 0)) s.
Proof using Type.
  intros [Hc Hv [Hlo Hhi] Hsh] Hn Hm Hws Hf Hd1 Hd2. unfold emu_getargs. rewrite wp_bind, wp_get, wp_bind.
  cbn [length] in *. eapply wp_mono.
  { eapply (load32_follows (R := shows s) (start_esp s) s (e_mem s)); [by destruct s|].
    apply load32_le32; [exact Hc|unfold is_u32; lia]. }
  cbv beta. intros ? s1 [-> Hs1]. rewrite s32_id by (unfold is_s32; lia). destruct Hv as [_ Hv].
  destruct (copy_arguments_plain fuel fuel (e_mem s) (Z.of_nat (S (length ws))) (start_esp s + 4) 1 buf n lo N ws)
    as (o & m' & E & Ho & Hres); [exact Hv|lia|done|done|done|done|done|done| |done|].
  { unfold disjoint_range in *. lia. }
  rewrite wp_bind. eapply wp_mono; [by eapply (copy_arguments_follows (R := shows s))|].
  cbv beta. intros ? s2 [-> Hs2]. set (l := spaced ws) in *. set (L := Z.of_nat (length l)) in *.
  assert (ws ≠ [] → L ≤ n → m' !! (buf + L) = Some 0) as Hpast.
  { intros Hne Hle. rewrite decide_False, decide_True in Hres by done. destruct Hres as [_ ->].
    pose proof (put_bytes_at (e_mem s) buf (l ++ [0])) as Hb. apply bytes_at_app in Hb as [_ [Hb _]]. exact Hb. }
  assert (if decide (L ≤ n) then o = Some (buf + L, n - L) ∧
    (L < n → store8 (buf + L) 0 m' = Ok (tt, put_bytes (e_mem s) buf (l ++ [0]))) else o = None) as Ho'.
  { rewrite mapped_spec in Hm. destruct (decide (ws = [])) as [->|].
    - destruct Hres as [-> ->]. change L with 0. rewrite decide_True, Z.add_0_r, Z.sub_0_r by lia.
      split; [done|]. intros ?. apply store8_ok, Hm. lia.
    - destruct (decide (L ≤ n)); [|done]. destruct Hres as [-> ->]. split; [done|]. intros ?.
      specialize (Hpast ltac:(done) ltac:(done)). rewrite store8_ok by (by exists 0). by rewrite insert_id. }
  destruct (decide (L ≤ n)) as [Hle|Hgt].
  2:{ subst o. rewrite wp_ret. exists m'. split; [done|]. split; [done|]. rewrite decide_False by lia. split; [done|lia]. }
  destruct Ho' as [-> Hst]. case_bool_decide as Hfull.
  { rewrite wp_ret. exists m'. split; [done|]. split; [done|]. rewrite decide_False by lia. split; [done|].
    intros Hne E0. rewrite <-E0. apply Hpast; [done|lia]. }
  rewrite wp_bind. eapply wp_mono; [eapply (mv_store (R := shows s)); [exact Hs2|apply Hst; lia]|].
  cbv beta. intros _ s3 [_ ->]. rewrite wp_ret. eexists. split; [|split; [done|]].
  - apply same_put; [done|]. rewrite length_app. cbn. lia.
  - by rewrite decide_True by lia.
Qed.

(** C22: a program on Linux gets with [ece391_getargs] the words its command
    had behind the program, with one space between them, and where the kernel
    gives the program the same command has such words (31 characters of them
    at most) it gets the same. When they and their terminator do not fit the
    buffer it gets -1. *)
Theorem emulated_getargs_matches s lo N c buf n : let ws := words [] (drop (S (length (cmd_word c))) c) in
  args_at s lo N (host_argv c) → 0 ≤ n < 2 ^ 31 → mapped (e_mem s) buf (n + 1) → (length c < fuel)%nat → (length c ≤ 1023)%nat →
  disjoint_range buf (n + 1) (start_esp s) (4 + 4 * Z.of_nat (length (host_argv c))) → disjoint_range buf (n + 1) lo N →
  wp (emu_getargs fuel buf n) (λ r s', ∃ m', same_outside [(buf, n + 1)] (e_mem s) m' ∧ s' = s <| e_mem := m' |> ∧
    if decide (Z.of_nat (length (spaced ws)) < n)
    then r = 0 ∧ m' = put_bytes (e_mem s) buf (spaced ws ++ [0])
    else r = -1 ∧ (ws ≠ [] → Z.of_nat (length (spaced ws)) = n → m' !! (buf + n) = Some 0)) s ∧
  (∀ w args, c = spaced (w :: args) → is_word w → Forall is_word args → (length (spaced args) ≤ 31)%nat →
    spaced ws = cmd_args c).
Proof using Type.
  intros ws Ha Hn Hm Hf Hl Hd1 Hd2. split.
  - apply (getargs_ok s lo N ([46; 47] ++ cmd_word c) ws); try done.
    + eapply Forall_impl; [apply words_lengths|]. cbv beta. intros w. rewrite length_drop. cbn [length]. lia.
    + pose proof (words_count (drop (S (length (cmd_word c))) c)) as Hc. fold ws in Hc. rewrite length_drop in Hc. lia.
  - intros w args E Hw Hargs H31. destruct (host_argv_spaced w args Hw Hargs H31) as (Eh & _ & Ec).
    rewrite <-E in Eh, Ec. rewrite Ec. unfold host_argv in Eh. injection Eh as _ Ew. unfold ws. by rewrite Ew.
Qed.
End emulate.
