(* ===== verification/EmulateFiles.v ===== *)
(** * Directories on Linux

    [ece391_open], [ece391_read] and [ece391_write] of [ece391emulate.c] on the
    directory, and [ls] with them. What is relied on of Linux and its library
    is the class [LinuxFiles]. *)

From S2P Require Import Prelude CInt Memory CString Screen ParseSpec ExecSpec UserLib.
From S2P Require Import SupportSpec UserProgs UserSpec ProgSpec Emulate EmulateSpec.

(** ** A name, cut or padded to the size that is asked for *)
Section plain.
#[local] Existing Instance plain_mem.

(** [k] characters at most are copied; with [k] of them the call returns. *)
Lemma copy_name_plain m from to name n f i :
  cstr_at m from name → 0 < n → let k := Z.min n 32 in mapped m to k →
  disjoint_range to k from (Z.of_nat (length name) + 1) →
  (i < Z.to_nat k)%nat → (i ≤ length name)%nat → (Z.to_nat k - i < f)%nat →
  copy_name f (from + Z.of_nat i) (to + Z.of_nat i) (Z.of_nat i) n (put_bytes m to (take i name)) =
    Ok (if decide (k ≤ Z.of_nat (length name)) then (true, k) else (false, Z.of_nat (length name)),
        put_bytes m to (take (Z.to_nat k) name)).
Proof.
  intros Hs Hn k Hm Hd. revert i. induction f as [|f IH]; intros i Hi Hil Hf; [lia|].
  cbn [copy_name u_load8 u_store8 plain_mem].
  assert (length (take i name) = i) as Elen by (rewrite length_take; lia).
  assert (∀ c, (name ++ [0]) !! i = Some c → load8 (from + Z.of_nat i) (put_bytes m to (take i name)) =
    Ok (c, put_bytes m to (take i name))) as Hload.
  { intros c Hc. eapply copy_load; [apply Hs|exact Hc|]. rewrite Elen, length_app. cbn [length].
    unfold disjoint_range in *. lia. }
  destruct (decide (i = length name)) as [->|Hne].
  { erewrite bind_ok by (apply Hload; by apply list_lookup_middle). bool_lits. cbn iota.
    rewrite decide_False by lia. by rewrite !take_ge by lia. }
  destruct (lookup_lt_is_Some_2 name i) as [c Hc]; [lia|].
  erewrite bind_ok by (apply Hload; by rewrite lookup_app_l by lia).
  assert (is_char c) as Hch by (destruct Hs as [_ Hs]; by eapply Forall_lookup_1 in Hs).
  unfold is_char in Hch. rewrite bool_decide_eq_true_2 by lia. erewrite bind_ok.
  2:{ rewrite <-Elen at 1. apply copy_store. rewrite Elen. eapply mapped_sub; [exact Hm|lia|lia]. }
  rewrite u8_id by (unfold is_u8; lia). rewrite <-(take_S_r _ _ _ Hc).
  replace (from + Z.of_nat i + 1) with (from + Z.of_nat (S i)) by lia.
  replace (to + Z.of_nat i + 1) with (to + Z.of_nat (S i)) by lia.
  replace (Z.of_nat i + 1) with (Z.of_nat (S i)) by lia. unfold k in *.
  case_bool_decide as E1; [|case_bool_decide as E2].
  - rewrite decide_True by lia. rewrite <-E1. replace (Z.min (Z.of_nat (S i)) 32) with (Z.of_nat (S i)) by lia.
    by rewrite Nat2Z.id.
  - rewrite decide_True by lia. replace (Z.min n 32) with 32 by lia. by replace (Z.to_nat 32) with (S i) by lia.
  - apply IH; lia.
Qed.

Lemma pad_name_plain m to l n f : 0 < n → let k := Z.min n 32 in mapped m to k → (length l ≤ Z.to_nat k)%nat →
  (Z.to_nat k - length l < f)%nat →
  pad_name f (to + Z.of_nat (length l)) (Z.of_nat (length l)) n (put_bytes m to l) =
    Ok (k, put_bytes m to (pad (Z.to_nat k) l)).
Proof.
  intros Hn k Hm. revert l. induction f as [|f IH]; intros l Hl Hf; [lia|].
  cbn [pad_name u_store8 plain_mem]. unfold k in *. destruct (decide (length l = Z.to_nat (Z.min n 32))) as [E|E].
  { rewrite (proj2 (andb_false_iff _ _)).
    2:{ destruct (decide (n ≤ 32)); [left|right]; apply bool_decide_eq_false_2; lia. }
    assert (Z.of_nat (length l) = Z.min n 32) as E0 by lia.
    unfold pad. replace (Z.to_nat (Z.min n 32) - length l)%nat with 0%nat by lia. cbn [replicate].
    rewrite app_nil_r, <-E0. done. }
  rewrite !bool_decide_eq_true_2 by lia. cbn [andb].
  erewrite bind_ok by (apply copy_store; eapply mapped_sub; [exact Hm|lia|lia]). change (u8 0) with 0.
  replace (to + Z.of_nat (length l) + 1) with (to + Z.of_nat (length (l ++ [0]))) by (rewrite length_app; cbn; lia).
  replace (Z.of_nat (length l) + 1) with (Z.of_nat (length (l ++ [0]))) by (rewrite length_app; cbn; lia).
  rewrite IH by (rewrite length_app; cbn; lia). do 3 f_equal. unfold pad. rewrite <-app_assoc. f_equal.
  rewrite length_app. cbn [length app].
  replace (Z.to_nat (Z.min n 32) - length l)%nat with (S (Z.to_nat (Z.min n 32) - (length l + 1))) by lia. done.
Qed.
End plain.

(** ** What is relied on

    [listing] is what the directory holds, [left w d] what is still to be read
    of the stream [d], [printed w] what was written to descriptor 1; [entry] is
    the memory of the library in which it gives a name. Any of these calls can
    fail, and a write can be short: [room n w] says that for the next [n] of
    them there are descriptors, memory and space enough, and then they do what
    their manual pages say of success. *)
Class LinuxFiles (W : Type) `{Linux W} (listing : list (list Z)) (entry : Z * Z)
    (printed : W → list Z) (left : W → Z → list (list Z)) (room : nat → W → Prop) : Prop := {
  opendir_ok n w : room (S n) w →
    ∃ d w', c_opendir (chars ".") w = Ok (d, w') ∧ d ≠ 0 ∧ left w' d = listing ∧ printed w' = printed w ∧ room n w';
  open_null n w : room (S n) w →
    ∃ fd w', c_open (chars "/dev/null") O_RDONLY w = Ok (fd, w') ∧ 3 ≤ fd < 2 ^ 31 ∧
      printed w' = printed w ∧ (∀ d, left w' d = left w d) ∧ room n w';
  readdir_ok n m w d : room n w → mapped m entry.1 entry.2 →
    match left w d with
    | [] => ∃ w', c_readdir d (m, w) = Ok (None, (m, w')) ∧ printed w' = printed w
    | name :: names => ∃ a m' w', c_readdir d (m, w) = Ok (Some a, (m', w')) ∧
        same_outside [entry] m m' ∧ cstr_at m' a name ∧ entry.1 ≤ a ∧ a + Z.of_nat (length name) < entry.1 + entry.2 ∧
        printed w' = printed w ∧ left w' d = names ∧ room n w'
    end;
  write_ok n m w buf l : room (S n) w → bytes_at m buf l → Z.of_nat (length l) < 2 ^ 31 →
    ∃ w', int80 4 1 buf (Z.of_nat (length l)) (m, w) = Ok (Z.of_nat (length l), (m, w')) ∧
      printed w' = printed w ++ l ∧ (∀ d, left w' d = left w d) ∧ room n w';
}.

Section files.
Context {W : Type} `{Linux W} `{Literals} (fuel : nat).
#[local] Existing Instance emu_mem.

Lemma on_both_ok {A} (c : K (mem * W) A) s a m w : c (e_mem s, e_world s) = Ok (a, (m, w)) →
  on_both c s = Ok (a, (s <| e_mem := m |>) <| e_world := w |>).
Proof using Type. unfold on_both. by intros ->. Qed.

(** A descriptor that is not the directory's is one of Linux: the call gives
    what the interrupt gives, and -1 for each of its error numbers. *)
Lemma other_descriptor s fd buf n : dir s = 0 ∨ dir_fd s ≠ fd →
  emu_read fd buf n s = __ece391_read fd buf n s ∧ emu_write fd buf n s = __ece391_write fd buf n s ∧
  emu_close fd s = __ece391_close fd s.
Proof using Type.
  intros Hd. assert (bool_decide (0 = dir s) || bool_decide (dir_fd s ≠ fd) = true) as E.
  { apply orb_true_iff. destruct Hd; [left|right]; apply bool_decide_eq_true_2; congruence. }
  unfold emu_read, emu_write, emu_close. split_and!; unfold mbind, K_bind, kget; by rewrite E.
Qed.
Lemma linux_call_ok s number a b c r m w : int80 number a b c (e_mem s, e_world s) = Ok (r, (m, w)) → is_u32 r →
  linux_call number a b c s =
    Ok (if decide (r ≤ 0xFFFFC000) then s32 r else -1, (s <| e_mem := m |>) <| e_world := w |>).
Proof using Type.
  intros E Hr. unfold linux_call. erewrite bind_ok by exact (on_both_ok _ _ _ _ _ E). rewrite u32_id by done.
  case_decide; [by rewrite bool_decide_eq_true_2|by rewrite bool_decide_eq_false_2].
Qed.

(** The next name of the directory, cut or padded to the size asked for, 32 at
    most. *)
Lemma emu_read_name s fd buf n a m w name : dir s ≠ 0 → dir_fd s = fd → 0 < n →
  c_readdir (dir s) (e_mem s, e_world s) = Ok (Some a, (m, w)) → cstr_at m a name →
  let k := Z.min n 32 in mapped m buf k → disjoint_range buf k a (Z.of_nat (length name) + 1) →
  wp (emu_read fd buf n) (λ r s', r = k ∧
    s' = (s <| e_mem := put_bytes m buf (pad (Z.to_nat k) (take (Z.to_nat k) name)) |>) <| e_world := w |>) s.
Proof using Type.
  intros Hd Hfd Hn E Hs k Hm Hdis. unfold emu_read. rewrite !wp_bind, !wp_get, wp_bind, wp_get.
  rewrite bool_decide_eq_false_2, bool_decide_eq_false_2 by (done || auto). cbn [orb]. rewrite wp_bind.
  eapply wp_run; [by apply on_both_ok|]. set (s1 := (s <| e_mem := m |>) <| e_world := w |>). cbv beta iota. rewrite wp_bind.
  pose proof (copy_name_plain m a buf name n 33 0 Hs Hn Hm Hdis) as Ec. fold k in Ec. cbn [take put_bytes Z.of_nat] in Ec.
  rewrite !Z.add_0_r in Ec. eapply wp_mono.
  { eapply (copy_name_follows (R := shows s1)); [|apply Ec; lia]. unfold s1. by destruct s. }
  cbv beta. intros ? s2 [-> Hs2]. assert (length (take (Z.to_nat k) name) = Z.to_nat (Z.min k (Z.of_nat (length name)))) as El
    by (rewrite length_take; lia).
  case_decide as Hk.
  - rewrite wp_ret. split; [done|]. rewrite Hs2. unfold pad. rewrite El.
    replace (Z.to_nat k - Z.to_nat (Z.min k (Z.of_nat (length name))))%nat with 0%nat by lia. cbn [replicate].
    rewrite app_nil_r. unfold s1. by destruct s.
  - pose proof (pad_name_plain m buf (take (Z.to_nat k) name) n 33 Hn Hm) as Ep. fold k in Ep.
    replace (Z.of_nat (length (take (Z.to_nat k) name))) with (Z.of_nat (length name)) in Ep by lia.
    eapply wp_mono; [eapply (pad_name_follows (R := shows s1)); [exact Hs2|apply Ep; lia]|].
    cbv beta. intros ? s3 [-> ->]. split; [done|]. unfold s1. by destruct s.
Qed.

(** ** [ls] *)
Context {listing : list (list Z)} {entry : Z * Z} {printed : W → list Z} {left : W → Z → list (list Z)}.
Context {room : nat → W → Prop} `{!LinuxFiles W listing entry printed left room}.
Context (xbuf xargs status ebx ecx edx : Z).
#[local] Instance linux_sys : Sys (emu W) := emu_sys fuel xbuf xargs status ebx ecx edx.

(** What [ls] writes of a name: 32 characters, zeros behind a shorter one. *)
Definition ls_bytes (name : list Z) : list Z := pad 32 (take 32 name) ++ newline.
(** A terminal that does not show zeros shows what the kernel's shows. *)
Lemma ls_bytes_shown names : Forall (Forall is_char) names →
  filter (λ c, c ≠ 0) (names ≫= ls_bytes) = names ≫= ls_line.
Proof using Type.
  induction 1 as [|name names Hn _ IH]; [done|]. cbn [mbind list_bind]. rewrite filter_app. f_equal; [|exact IH].
  assert (Forall (λ c, c ≠ 0) (take 32 name)) as Ht.
  { apply Forall_take. eapply Forall_impl; [exact Hn|]. unfold is_char. lia. }
  unfold ls_bytes, ls_line, pad. rewrite !filter_app, filter_nonzero by done. change (filter _ newline) with newline.
  rewrite <-app_assoc. f_equal. generalize (32 - length (take 32 name))%nat. intros k.
  induction k as [|k IHk]; [done|]. cbn [replicate]. by rewrite filter_cons, decide_False by tauto.
Qed.

Lemma write_out n s fd buf l : room (S n) (e_world s) → fd = 1 → dir_fd s ≠ 1 → bytes_at (e_mem s) buf l → Z.of_nat (length l) < 2 ^ 31 →
  wp (emu_write fd buf (Z.of_nat (length l))) (λ r s', r = Z.of_nat (length l) ∧ ∃ w', s' = s <| e_world := w' |> ∧
    printed w' = printed (e_world s) ++ l ∧ (∀ d, left w' d = left (e_world s) d) ∧ room n w') s.
Proof using LinuxFiles0.
  intros Hro -> Hd Hb Hl. destruct (write_ok n (e_mem s) (e_world s) buf l Hro Hb Hl) as (w' & E & Hp & Hleft & Hro').
  destruct (other_descriptor s 1 buf (Z.of_nat (length l)) (or_intror Hd)) as (_ & Ew & _).
  unfold wp. rewrite Ew. unfold __ece391_write. rewrite (linux_call_ok _ _ _ _ _ _ _ _ E) by (unfold is_u32; lia).
  rewrite decide_True, s32_id by (unfold is_s32; lia). split; [done|]. exists w'. split; [by destruct s|done].
Qed.

Lemma linux_ls_loop f s fd buf names : room (length names) (e_world s) → dir s ≠ 0 → dir_fd s = fd → 3 ≤ fd → left (e_world s) (dir s) = names →
  Forall (Forall is_char) names → mapped (e_mem s) buf 33 → mapped (e_mem s) entry.1 entry.2 →
  disjoint_range buf 33 entry.1 entry.2 → (length names < f)%nat →
  wp (ls_loop fuel f fd buf) (λ r s', r = 0 ∧
    printed (e_world s') = printed (e_world s) ++ (names ≫= ls_bytes)) s.
Proof using LinuxFiles0.
  revert s names. induction f as [|f IH]; intros s names Hro Hd Hfd H3 Hleft Hc Hm Hme Hdis Hf; [lia|].
  cbn [ls_loop]. change (SBUFSIZE - 1) with 32. change (ece391_read fd buf 32) with (emu_read fd buf 32). rewrite wp_bind.
  pose proof (readdir_ok _ (e_mem s) (e_world s) (dir s) Hro Hme) as Hr. rewrite Hleft in Hr. destruct names as [|name names].
  { destruct Hr as (w' & E & Hp).
    assert (emu_read fd buf 32 s = Ok (0, (s <| e_mem := e_mem s |>) <| e_world := w' |>)) as Er.
    { unfold emu_read, mbind, K_bind, kget. rewrite bool_decide_eq_false_2, bool_decide_eq_false_2 by (done || auto).
      cbn [orb]. by rewrite (on_both_ok _ _ _ _ _ E). }
    eapply wp_run; [exact Er|]. cbn [app mbind list_bind]. rewrite app_nil_r. bool_lits. by split. }
  destruct Hr as (a & m' & w' & E & [Dm Sm] & Hname & Ha & Hb & Hp & Hl & Hro1).
  apply Forall_cons in Hc as [Hcn Hc]. eapply wp_mono.
  { apply (emu_read_name s fd buf 32 a m' w' name Hd Hfd ltac:(lia) E Hname).
    - apply (mapped_dom (e_mem s)); [done|]. eapply mapped_sub; [exact Hm|lia|lia].
    - unfold disjoint_range in *. lia. }
  cbv beta zeta. change (Z.min 32 32) with 32. change (Z.to_nat 32) with 32%nat. intros ? s1 [-> Hs1]. bool_lits. cbn iota.
  set (bs := pad 32 (take 32 name)) in *.
  assert (length bs = 32%nat) as Hbs by (apply length_pad; rewrite length_take; lia).
  assert (∀ x, mapped (e_mem s) x 1 → mapped m' x 1) as Hm1 by (intros x; by apply mapped_dom).
  rewrite wp_bind. eapply wp_mono.
  { eapply (mv_store (R := shows s1) (buf + 32) 10 s1 (put_bytes m' buf bs)); [rewrite Hs1; by destruct s|].
    replace (buf + 32) with (buf + Z.of_nat (length bs)) by lia. apply copy_store, Hm1. eapply mapped_sub; [exact Hm|lia|lia]. }
  cbv beta. intros ? s2 [_ Hs2]. change (u8 10) with 10 in Hs2. change (bs ++ [10]) with (ls_bytes name) in Hs2.
  assert (Z.of_nat (length (ls_bytes name)) = 33) as Hlen by (unfold ls_bytes; fold bs; rewrite length_app, Hbs; done).
  assert (dir s2 = dir s ∧ dir_fd s2 = fd ∧ e_world s2 = w' ∧ e_mem s2 = put_bytes m' buf (ls_bytes name)) as (Ed & Efd & Ew & Em)
    by (rewrite Hs2, Hs1; by destruct s).
  rewrite wp_bind. change (32 + 1) with 33. rewrite <-Hlen.
  change (ece391_write 1 buf (Z.of_nat (length (ls_bytes name)))) with (emu_write 1 buf (Z.of_nat (length (ls_bytes name)))).
  eapply wp_mono; [apply (write_out (length names)); [by rewrite Ew|done|lia|rewrite Em; apply put_bytes_at|lia]|].
  cbv beta. intros ? s3 (-> & w3 & -> & Hp3 & Hl3 & Hro3). rewrite bool_decide_eq_false_2 by lia.
  assert (dom (put_bytes m' buf (ls_bytes name)) = dom (e_mem s)) as D2.
  { rewrite put_bytes_dom; [done|]. rewrite Hlen. by apply (mapped_dom (e_mem s)). }
  eapply wp_mono; [apply (IH _ names)|]; cbn [dir dir_fd e_world e_mem upd Set_e_world]; rewrite ?Ed, ?Efd, ?Em; try done.
  - by rewrite Hl3, Ew.
  - by apply (mapped_dom (e_mem s)).
  - by apply (mapped_dom (e_mem s)).
  - cbn in Hf. lia.
  - cbv beta. intros r s4 [-> Hp4]. split; [done|]. cbn [mbind list_bind].
    rewrite Hp4, Hp3, Ew, Hp, <-app_assoc. done.
Qed.

(** C19: [ls], linked with the emulation, lists the directory of Linux as it
    lists that of the kernel: it writes 32 characters of each name, shorter
    names padded with zeros, and a new line; without the zeros, which the
    terminal does not show, that is what it shows on the kernel. It returns 0.
    So it is where Linux has room ([room]) for the two descriptors and for a
    line for each name: that these calls do not fail and the writes are whole. *)
Theorem emulated_ls_lists s buf : room (length listing + 2) (e_world s) → mapped (e_mem s) buf 33 → mapped (e_mem s) entry.1 entry.2 →
  disjoint_range buf 33 entry.1 entry.2 → cstr_at (e_mem s) (lit (chars ".")) (chars ".") → (1 < fuel)%nat →
  Forall (Forall is_char) listing → (length listing < fuel)%nat →
  wp (ls_main fuel buf) (λ r s', r = 0 ∧ ∃ out, printed (e_world s') = printed (e_world s) ++ out ∧
    out = listing ≫= ls_bytes ∧ filter (λ c, c ≠ 0) out = listing ≫= ls_line) s.
Proof using LinuxFiles0.
  intros Hro Hm Hme Hd Hlit Hf Hc Hl. unfold ls_main. rewrite Nat.add_comm in Hro.
  change (ece391_open (lit (chars "."))) with (emu_open fuel (lit (chars "."))). unfold emu_open. rewrite !wp_bind.
  eapply wp_mono; [by apply (strcmp_wp (R := shows s) fuel s (e_mem s) _ _ (chars ".") (chars ".")); [by destruct s|..]|].
  cbv beta. intros r s1 [Hr Hs1]. rewrite bool_decide_eq_true_2 by (symmetry; by apply Hr).
  assert (s1 = s) as -> by (rewrite Hs1; by destruct s). clear Hs1 Hr.
  destruct (opendir_ok _ (e_world s) Hro) as (d & w1 & E1 & Hd0 & Hleft1 & Hp1 & Hro1).
  destruct (open_null _ w1 Hro1) as (fd & w2 & E2 & Hfd & Hp2 & Hleft2 & Hro2).
  unfold on_world. rewrite wp_bind, wp_zoom. eapply wp_run; [exact E1|]. cbv beta. rewrite wp_bind, wp_mod, wp_bind, wp_zoom.
  eapply wp_run; [exact E2|]. cbv beta. rewrite wp_bind, wp_mod, wp_get. cbn [dir_fd upd Set_dir_fd Set_e_world Set_dir].
  rewrite bool_decide_eq_false_2 by lia. eapply wp_mono; [apply (linux_ls_loop fuel _ fd buf listing); cbn; try done; try lia|].
  - by rewrite Hleft2.
  - cbv beta. intros q s' [-> Hp]. split; [done|]. eexists. split; [|split; [reflexivity|by apply ls_bytes_shown]].
    rewrite Hp. cbn. by rewrite Hp2, Hp1.
Qed.
End files.
