(* ===== verification/EmulateExample.v ===== *)
(** * A concrete Linux

    A directory of three names, a program that always exits with 3: what the
    theorems on the emulation rely on holds for it. *)

From S2P Require Import Prelude CInt Memory CString Screen ParseSpec ExecSpec Example.
From S2P Require Import UserLib SupportSpec UserProgs ProgSpec Emulate EmulateSpec.
From S2P Require Import EmulateFiles.

Definition ex_listing : list (list Z) := [chars "."; chars "frame0"; chars "a_name_of_more_than_32_characters.txt"].
Definition ex_entry : Z * Z := (0x6000, 64).

(** The position in the directory, what was written, what was run, and how
    many more calls have the descriptors and the space they need. *)
Record tux : Type := Mk_tux { t_pos : nat; t_out : list Z; t_run : list (list (list Z)); t_room : nat }.
Definition bytes_of (m : mem) (a n : Z) : list Z := (λ i, default 0 (m !! (a + i))) <$> seqZ 0 n.
Definition spend (w : tux) : option tux :=
  match t_room w with O => None | S n => Some (Mk_tux (t_pos w) (t_out w) (t_run w) n) end.
#[global] Instance ex_linux : Linux tux := {|
  int80 := λ number a b c '(m, w),
    if bool_decide (number = 4 ∧ a = 1) then
      match spend w with
      | Some w => Ok (c, (m, Mk_tux (t_pos w) (t_out w ++ bytes_of m b c) (t_run w) (t_room w)))
      | None => Ok (2 ^ 32 - 28, (m, w))
      end
    else Ok (2 ^ 32 - 9, (m, w));
  c_fork := λ w, Ok (true, w);
  c_execv := λ path argv w, Ok (Some (256 * 3), Mk_tux (t_pos w) (t_out w) (argv :: t_run w) (t_room w));
  c_open := λ path flags w, match spend w with Some w => Ok (3, w) | None => Ok (-1, w) end;
  c_close := λ fd w, Ok (0, w);
  c_opendir := λ path w,
    match spend w with Some w => Ok (0x7000, Mk_tux 0 (t_out w) (t_run w) (t_room w)) | None => Ok (0, w) end;
  c_readdir := λ d '(m, w),
    match ex_listing !! t_pos w with
    | None => Ok (None, (m, w))
    | Some name => Ok (Some ex_entry.1,
        (put_bytes m ex_entry.1 (name ++ [0]), Mk_tux (S (t_pos w)) (t_out w) (t_run w) (t_room w)))
    end;
  c_closedir := λ d w, Ok (0, w);
  c_mmap := λ n fd s, Ok (None, s);
  c_perror := λ l w, Ok (tt, w);
|}.
Definition ex_room (n : nat) (w : tux) : Prop := (n ≤ t_room w)%nat.
Lemma spend_room n w : ex_room (S n) w →
  ∃ w', spend w = Some w' ∧ t_pos w' = t_pos w ∧ t_out w' = t_out w ∧ ex_room n w'.
Proof.
  unfold ex_room, spend. destruct (t_room w) as [|k]; intros Hn; [lia|]. eexists. split; [reflexivity|]. cbn. split_and!; (done || lia).
Qed.
Definition ex_left (w : tux) (d : Z) : list (list Z) := drop (t_pos w) ex_listing.

Lemma bytes_of_at m a l : bytes_at m a l → bytes_of m a (Z.of_nat (length l)) = l.
Proof.
  rewrite bytes_at_lookup. intros Hb. apply list_eq. intros i. unfold bytes_of. rewrite list_lookup_fmap.
  destruct (l !! i) as [c|] eqn:E.
  - pose proof (lookup_lt_Some _ _ _ E). rewrite lookup_seqZ_lt, Z.add_0_l by lia. cbn. by rewrite (Hb _ _ E).
  - apply lookup_ge_None in E. by rewrite lookup_seqZ_ge by lia.
Qed.
#[global] Instance ex_linux_files : LinuxFiles tux ex_listing ex_entry t_out ex_left ex_room.
Proof.
  split.
  - intros n w (w' & E & _ & Eo & Hr)%spend_room. exists 0x7000. eexists. cbn [c_opendir ex_linux]. rewrite E.
    split; [reflexivity|]. by split_and!.
  - intros n w (w' & E & Ep & Eo & Hr)%spend_room. exists 3, w'. cbn [c_open ex_linux]. rewrite E.
    split; [reflexivity|]. split; [lia|]. split; [done|]. split; [|done]. intros d. unfold ex_left. by rewrite Ep.
  - intros n m w d Hr Hm. unfold ex_left. destruct (ex_listing !! t_pos w) as [name|] eqn:E.
    + rewrite (drop_S _ _ _ E). eexists ex_entry.1, _, _. cbn [c_readdir ex_linux]. rewrite E. split; [reflexivity|].
      assert (Forall (λ l, (length l < 64)%nat ∧ Forall is_char l) ex_listing) as Hall by decide_it.
      eapply Forall_lookup_1 in Hall as [Hlen Hch]; [|exact E].
      split; [apply same_put; [exact Hm|rewrite length_app; cbn [ex_entry snd length]; lia]|].
      split; [split; [apply put_bytes_at|done]|]. cbn [ex_entry fst snd]. split; [lia|]. split; [lia|]. done.
    + rewrite drop_ge by (by apply lookup_ge_None). exists w. cbn [c_readdir ex_linux]. by rewrite E.
  - intros n m w buf l (w' & E & Ep & Eo & Hr)%spend_room Hb Hl. eexists. cbn [int80 ex_linux].
    rewrite bool_decide_eq_true_2 by done. rewrite E.
    split; [reflexivity|]. split; [cbn; by rewrite bytes_of_at, Eo|]. split; [|exact Hr].
    intros d. unfold ex_left. cbn. by rewrite Ep.
Qed.

(** A process started with "cat frame0". *)
Definition ex_command : list Z := chars "cat frame0".
Definition ex_argv : list (list Z) := [chars "./cat"; chars "frame0"].
Definition ex_dot (l : list Z) : Z := 0x5000.
Definition ex_tux_mem : mem := mem_of
  [ (0x1000, replicate 1026 7); (0x2000, replicate (Z.to_nat 4096) 7); (0x4000, ex_command ++ [0]);
    (0x5000, chars "." ++ [0]); (0x6000, replicate 64 0); (0x7000, replicate 64 0);
    (0x8000, le32 2 ++ le32 0x8010 ++ le32 0x8018); (0x8010, chars "./cat" ++ [0; 0; 0] ++ chars "frame0" ++ [0; 0]) ].
Definition ex_emu : emu tux := Mk_emu ex_tux_mem (Mk_tux 0 [] [] 5) 0x8000 (-1) 0 (-1).

Lemma ex_host_argv : host_argv ex_command = ex_argv.
Proof. by vm_compute. Qed.
Lemma ex_spaced : spaced (words [] (drop (S (length (cmd_word ex_command))) ex_command)) = chars "frame0".
Proof. by vm_compute. Qed.

Lemma emulated_execute_runs_witness :
  wp (emu_execute 1100 0x1000 0x2000 0 0x4000) (λ r s', r = 3 ∧
    ∃ m', same_outside [(0x2000, 4096); (0x1000, 1026)] (e_mem ex_emu) m' ∧
      s' = (ex_emu <| e_mem := m' |>) <| e_world := Mk_tux 0 [] [ex_argv] 5 |>) ex_emu.
Proof.
  eapply wp_mono; [apply (emulated_execute_runs 1100 ex_emu 0x1000 0x2000 0 0x4000 ex_command
    (Mk_tux 0 [] [] 5) (Some (Exited 3)) (Mk_tux 0 [] [ex_argv] 5))|].
  - decide_it.
  - cbn. lia.
  - lia.
  - decide_it.
  - decide_it.
  - lia.
  - lia.
  - decide_it.
  - decide_it.
  - reflexivity.
  - rewrite ex_host_argv. vm_compute. reflexivity.
  - cbn. lia.
  - intros r s' [-> Hm]. split; [reflexivity|exact Hm].
Defined.

Lemma emulated_getargs_matches_witness :
  wp (emu_getargs 1100 0x7000 32) (λ r s', ∃ m', same_outside [(0x7000, 33)] (e_mem ex_emu) m' ∧ s' = ex_emu <| e_mem := m' |> ∧

    r = 0 ∧ m' = put_bytes (e_mem ex_emu) 0x7000 (chars "frame0" ++ [0])) ex_emu.
Proof.
  assert (args_at ex_emu 0x8010 0x10 (host_argv ex_command)) as Ha.
  { split; [decide_it| |lia|vm_compute; reflexivity].
    split; [exists 0x8010|split; [exists 0x8018|exact I]].
    - split; [decide_it|split; [lia|split; [vm_compute; reflexivity|decide_it]]].
    - split; [decide_it|split; [lia|split; [vm_compute; reflexivity|decide_it]]]. }
  destruct (emulated_getargs_matches 1100 ex_emu 0x8010 0x10 ex_command 0x7000 32) as [Hw _];
    [exact Ha|lia|decide_it|cbn; lia|cbn; lia|decide_it|decide_it|].
  eapply wp_mono; [exact Hw|]. intros r s' (m' & Hs & -> & Hd). exists m'. split; [exact Hs|]. split; [done|].
  by rewrite decide_True, ex_spaced in Hd by (rewrite ex_spaced; cbn; lia).
Defined.

Lemma emulated_ls_lists_witness :
  wp (@ls_main (emu tux) (@emu_sys tux ex_linux ex_dot 40 0x1000 0x2000 0 0 0 0) ex_dot 40 0x7000)
    (λ r s', r = 0 ∧ ∃ out, t_out (e_world s') = t_out (e_world ex_emu) ++ out ∧
      out = ex_listing ≫= ls_bytes ∧ filter (λ c, c ≠ 0) out = ex_listing ≫= ls_line) ex_emu.
Proof.
  apply (@emulated_ls_lists tux ex_linux ex_dot 40 ex_listing ex_entry t_out ex_left ex_room ex_linux_files).
  - unfold ex_room. cbn. lia.
  - decide_it.
  - decide_it.
  - decide_it.
  - decide_it.
  - lia.
  - decide_it.
  - cbn. lia.
Defined.
