(* ===== verification/Typed.v ===== *)
(** * Invariants of code, whatever its arguments

    [safe P c Q]: when [c] runs from a state with [P] and gives a result, the
    state has [P] again and the result [Q]. The rules follow the code, so that
    a proof for a function is one step per call. *)

From S2P Require Import Prelude.

Definition safe {S A} (P : S → Prop) (c : K S A) (Q : A → Prop) : Prop :=
  ∀ s a s', P s → c s = Ok (a, s') → P s' ∧ Q a.
Abbreviation keeps P c := (safe P c (λ _, True)).

Section rules.
Context {S : Type} (P : S → Prop).

Lemma safe_mono {A} (c : K S A) (Q R : A → Prop) : safe P c Q → (∀ a, Q a → R a) → safe P c R.
Proof. intros Hc Hq s a s' Hs E. destruct (Hc s a s' Hs E). auto. Qed.
Lemma safe_keeps {A} (c : K S A) (Q : A → Prop) : safe P c Q → keeps P c.
Proof. intros Hc. by eapply safe_mono. Qed.
Lemma safe_ret {A} (a : A) (Q : A → Prop) : Q a → safe P (mret a) Q.
Proof. intros Hq s ? ? Hs [= <- <-]. done. Qed.
Lemma safe_ret_eq {A} (a : A) : safe P (mret a) (λ x, x = a).
Proof. by apply safe_ret. Qed.
Lemma safe_bind {A B} (c : K S A) (f : A → K S B) (Q : A → Prop) (R : B → Prop) :
  safe P c Q → (∀ a, Q a → safe P (f a) R) → safe P (c ≫= f) R.
Proof.
  intros Hc Hf s b s' Hs. unfold mbind, K_bind. destruct (c s) as [[a s1]| |] eqn:E; [|done..].
  destruct (Hc s a s1 Hs E) as [Hs1 Ha]. by apply Hf.
Qed.
Lemma safe_fault {A} (Q : A → Prop) : safe P kfault Q.
Proof. done. Qed.
Lemma safe_spin {A} (Q : A → Prop) : safe P kspin Q.
Proof. done. Qed.
Lemma safe_get {T} (f : S → T) (Q : T → Prop) : (∀ s, P s → Q (f s)) → safe P (kget f) Q.
Proof. intros Hq s ? ? Hs [= <- <-]. auto. Qed.
Lemma safe_mod (f : S → S) : (∀ s, P s → P (f s)) → keeps P (kmod f).
Proof. intros Hf s ? ? Hs [= <- <-]. auto. Qed.
Lemma safe_lift {A} (o : option A) (Q : A → Prop) : (∀ a, o = Some a → Q a) → safe P (klift o) Q.
Proof. intros Hq. destruct o as [a|]; [apply safe_ret; auto|apply safe_fault]. Qed.
(** Code that looks at the state it starts from. *)
Lemma safe_state {A} (f : S → K S A) (Q : A → Prop) : (∀ s, P s → safe P (f s) Q) → safe P (λ s, f s s) Q.
Proof. intros Hf s a s' Hs E. by eapply Hf. Qed.
Lemma safe_for n i (body : Z → K S unit) :
  (∀ j, i ≤ j < i + Z.of_nat n → keeps P (body j)) → keeps P (for_loop n i body).
Proof.
  revert i. induction n as [|n IH]; intros i Hb; cbn [for_loop]; [by apply safe_ret|].
  eapply safe_bind; [apply Hb; lia|]. intros _ _. apply IH. intros j Hj. apply Hb. lia.
Qed.
End rules.

(** A run of a sequence. *)
Lemma bind_run {S A B} (c : K S A) (f : A → K S B) s b s' :
  (c ≫= f) s = Ok (b, s') → ∃ a s1, c s = Ok (a, s1) ∧ f a s1 = Ok (b, s').
Proof. unfold mbind, K_bind. destruct (c s) as [[a s1]| |]; [|done..]. by exists a, s1. Qed.

(** Code on a part of the state. *)
Lemma safe_zoom {S T A} (p : S → T) `{!Setter p} (P : S → Prop) (P' : T → Prop) (c : K T A) Q :
  (∀ s, P s → P' (p s)) → (∀ s t, P s → P' t → P (s <| p := t |>)) →
  safe P' c Q → safe P (zoom p c) Q.
Proof.
  intros Hg Hp Hc s a s' Hs. unfold zoom. destruct (c (p s)) as [[x t]| |] eqn:E; [|done..].
  intros [= <- <-]. destruct (Hc (p s) x t (Hg s Hs) E). auto.
Qed.

(** Lemmas about functions, by the calls they are found under. *)
Create HintDb safe discriminated.
#[export] Hint Constants Opaque : safe.

(** One step of a function. The result of a test or of a [match] in front is
    forgotten; that of a call is what its lemma says. *)
Ltac safe_call := first
  [ solve [typeclasses eauto with safe nocore]
  | solve [eapply safe_mono; [solve [typeclasses eauto with safe nocore]|intros; cbv beta in *; done]] ].
Ltac safe_step :=
  cbv beta zeta;
  lazymatch goal with
  | |- safe _ (mret _) (λ _, True) => apply safe_ret; exact I
  | |- safe _ kfault _ => apply safe_fault
  | |- safe _ kspin _ => apply safe_spin
  | |- safe _ (mbind _ (mret _)) _ => eapply safe_bind; [apply safe_ret_eq|intros ? ->]
  | |- safe _ (mbind _ (match ?x with _ => _ end)) _ =>
      apply (safe_bind _ _ _ (λ _, True)); [|intros ? _]
  | |- safe _ (mbind _ (mbind _ _)) _ => apply (safe_bind _ _ _ (λ _, True)); [|intros ? _]
  | |- safe _ (mbind _ _) _ =>
      first [ eapply safe_bind; [safe_call|intros ? ?] | apply (safe_bind _ _ _ (λ _, True)); [|intros ? _] ]
  | |- safe _ (match ?x with _ => _ end) _ =>
      lazymatch type of x with
      | bool => let E := fresh "E" in destruct x eqn:E;
          rewrite ?andb_true_iff, ?orb_false_iff, ?bool_decide_eq_true, ?bool_decide_eq_false in E
      | _ => destruct x
      end
  | |- safe _ (klift _) (λ _, True) => by apply safe_lift
  | |- safe _ (kget _) (λ _, True) => by apply safe_get
  | |- safe _ (for_loop _ _ _) _ => apply safe_for; intros ? ?
  | |- safe _ _ _ => safe_call
  end.
Ltac safe_auto := repeat safe_step.
(** A loop, by induction on its bound. *)
Tactic Notation "safe_loop" ident(n) reference(f) := induction n; intros; cbn [f]; safe_auto.
(** Code that is not a call, as an argument of a call. *)
#[export] Hint Extern 9 (safe _ ?c (λ _, True)) =>
  lazymatch c with
  | mbind _ _ => idtac
  | for_loop _ _ _ => idtac
  | mret _ => idtac
  | match _ with _ => _ end => idtac
  end; solve [safe_auto] : safe.
