(* ===== verification/TypedMem.v ===== *)
(** * Memory holds bytes

    Every function on memory keeps its contents bytes; what it gives is what
    its type says where a caller relies on it. *)

From S2P Require Import Prelude CInt Memory CString State Screen Printf FS ExecHelper.
From S2P Require Import Process Keyboard Typed.

Definition mem_ok (m : mem) : Prop := ∀ a b, m !! a = Some b → is_u8 b.

Lemma load8_safe a : safe mem_ok (load8 a) is_u8.
Proof.
  intros m b m' Hm E. unfold load8 in E. destruct (m !! a) as [c|] eqn:Ec; [|done].
  injection E as <- <-. split; [done|]. by eapply Hm.
Qed.
Lemma store8_safe a v : keeps mem_ok (store8 a v).
Proof.
  intros m u m' Hm E. unfold store8 in E. destruct (m !! a) as [c|] eqn:Ec; [|done].
  injection E as _ <-. split; [|done]. intros x b [[<- <-]|[_ Hx]]%lookup_insert_Some; [apply u8_range|].
  by eapply Hm.
Qed.
#[export] Hint Resolve load8_safe store8_safe : safe.

Lemma load32_safe a : safe mem_ok (load32 a) is_u32.
Proof.
  unfold load32. eapply safe_bind; [apply load8_safe|]. intros b0 H0.
  eapply safe_bind; [apply load8_safe|]. intros b1 H1. eapply safe_bind; [apply load8_safe|]. intros b2 H2.
  eapply safe_bind; [apply load8_safe|]. intros b3 H3. apply safe_ret. by apply of_le32_range.
Qed.
Lemma store32_safe a v : keeps mem_ok (store32 a v).
Proof. unfold store32. safe_auto. Qed.
#[export] Hint Resolve load32_safe store32_safe : safe.

Lemma mem_fuel_safe {A} (f : nat → K mem A) (Q : A → Prop) :
  (∀ n, safe mem_ok (f n) Q) → safe mem_ok (mem_fuel f) Q.
Proof. intros Hf. apply (safe_state _ (λ m, f (S (size m)))). auto. Qed.

#[export] Hint Resolve mem_fuel_safe : safe.

(** ** [lib.c] *)
Lemma strlen_loop_safe n s l : keeps mem_ok (strlen_loop n s l).
Proof. revert s l. safe_loop n strlen_loop. Qed.
Lemma strncmp_loop_safe n a b i k : keeps mem_ok (strncmp_loop n a b i k).
Proof. revert a b i k. safe_loop n strncmp_loop. Qed.
Lemma strcpy_loop_safe n d a i : keeps mem_ok (strcpy_loop n d a i).
Proof. revert d a i. safe_loop n strcpy_loop. Qed.
Lemma strncpy_copy_safe n d a i k : keeps mem_ok (strncpy_copy n d a i k).
Proof. revert d a i k. safe_loop n strncpy_copy. Qed.
Lemma strncpy_pad_safe n d i k : keeps mem_ok (strncpy_pad n d i k).
Proof. revert d i k. safe_loop n strncpy_pad. Qed.
Lemma strrev_loop_safe n a b e : keeps mem_ok (strrev_loop n a b e).
Proof. revert a b e. safe_loop n strrev_loop. Qed.
Lemma itoa_loop_safe n v b r : keeps mem_ok (itoa_loop n v b r).
Proof. revert v b r. safe_loop n itoa_loop. Qed.
Lemma memcpy_top_safe n d a : keeps mem_ok (memcpy_top n d a).
Proof. revert d a. safe_loop n memcpy_top. Qed.
Lemma rep_movsl_safe n d a : keeps mem_ok (rep_movsl n d a).
Proof. revert d a. safe_loop n rep_movsl. Qed.
Lemma memcpy_bottom_safe n d a : keeps mem_ok (memcpy_bottom n d a).
Proof. revert d a. safe_loop n memcpy_bottom. Qed.
#[export] Hint Resolve strlen_loop_safe strncmp_loop_safe strcpy_loop_safe strncpy_copy_safe strncpy_pad_safe strrev_loop_safe itoa_loop_safe memcpy_top_safe rep_movsl_safe memcpy_bottom_safe : safe.
Lemma strlen_safe a : keeps mem_ok (strlen a).
Proof. unfold strlen. safe_auto. Qed.
#[export] Hint Resolve strlen_safe : safe.
Lemma strncmp_safe a b k : keeps mem_ok (strncmp a b k).
Proof. unfold strncmp. safe_auto. Qed.
Lemma strcpy_safe d a : keeps mem_ok (strcpy d a).
Proof. unfold strcpy. safe_auto. Qed.
Lemma strncpy_safe d a k : keeps mem_ok (strncpy d a k).
Proof. unfold strncpy. safe_auto. Qed.
Lemma strrev_safe a : keeps mem_ok (strrev a).
Proof. unfold strrev. safe_auto. Qed.
#[export] Hint Resolve strncmp_safe strcpy_safe strncpy_safe strrev_safe : safe.
Lemma itoa_safe v b r : keeps mem_ok (itoa v b r).
Proof. unfold itoa. safe_auto. Qed.
Lemma memcpy_safe d a k : keeps mem_ok (memcpy d a k).
Proof. unfold memcpy. safe_auto. Qed.
#[export] Hint Resolve itoa_safe memcpy_safe : safe.

(** ** The screens *)
Lemma blank_cell_safe b i : keeps mem_ok (blank_cell b i).
Proof. unfold blank_cell. safe_auto. Qed.
Lemma scroll_cell_safe b i : keeps mem_ok (scroll_cell b i).
Proof. unfold scroll_cell. safe_auto. Qed.
#[export] Hint Resolve blank_cell_safe scroll_cell_safe : safe.
Lemma scroll_at_safe b : keeps mem_ok (scroll_at b).
Proof. unfold scroll_at. safe_auto. Qed.
#[export] Hint Resolve scroll_at_safe : safe.
Lemma save_screen_safe t : keeps mem_ok (save_screen t).
Proof. unfold save_screen. safe_auto. Qed.
Lemma show_screen_safe t : keeps mem_ok (show_screen t).
Proof. unfold show_screen. safe_auto. Qed.
#[export] Hint Resolve save_screen_safe show_screen_safe : safe.

(** ** Commands and files *)
Lemma zero_array_safe a k : keeps mem_ok (zero_array a k).
Proof. unfold zero_array. safe_auto. Qed.
Lemma parse_cmd_safe n c d i : keeps mem_ok (parse_cmd n c d i).
Proof. revert c d i. safe_loop n parse_cmd. Qed.
Lemma parse_args_safe n c d t i : keeps mem_ok (parse_args n c d t i).
Proof. revert c d t i. safe_loop n parse_args. Qed.
#[export] Hint Resolve zero_array_safe parse_cmd_safe parse_args_safe : safe.
Lemma parser_safe c d e : keeps mem_ok (parser c d e).
Proof. unfold parser. safe_auto. Qed.
#[export] Hint Resolve parser_safe : safe.
Lemma copy_block_safe n inp b p j l k : keeps mem_ok (copy_block n inp b p j l k).
Proof. revert inp b p j l k. safe_loop n copy_block. Qed.
#[export] Hint Resolve copy_block_safe : safe.
Lemma GET_DATABLOCK_ADRS_safe bb i : keeps mem_ok (GET_DATABLOCK_ADRS bb i).
Proof. unfold GET_DATABLOCK_ADRS. safe_auto. Qed.
#[export] Hint Resolve GET_DATABLOCK_ADRS_safe : safe.
Lemma copy_blocks_safe n bb inp b i st o l k : keeps mem_ok (copy_blocks n bb inp b i st o l k).
Proof. revert bb inp b i st o l k. safe_loop n copy_blocks. Qed.
#[export] Hint Resolve copy_blocks_safe : safe.
Lemma read_data_safe bb i o b l : keeps mem_ok (read_data bb i o b l).
Proof. unfold read_data. safe_auto. Qed.
Lemma copy_dentry_safe d a : keeps mem_ok (copy_dentry d a).
Proof. unfold copy_dentry. safe_auto. Qed.
#[export] Hint Resolve read_data_safe copy_dentry_safe : safe.

Section layout.
Context `{Layout}.
Lemma find_name_safe n bb f d : keeps mem_ok (find_name n bb f d).
Proof. revert bb f d. safe_loop n find_name. Qed.
Lemma pad_zeros_safe n i : keeps mem_ok (pad_zeros n i).
Proof. revert i. safe_loop n pad_zeros. Qed.
#[local] Hint Resolve find_name_safe : safe.
Lemma read_dentry_by_name_safe bb f d : keeps mem_ok (read_dentry_by_name bb f d).
Proof. unfold read_dentry_by_name. safe_auto. Qed.
End layout.
#[export] Hint Resolve find_name_safe pad_zeros_safe read_dentry_by_name_safe : safe.
