(* ===== verification/TypedState.v ===== *)
(** * The kernel's data have their types

    What holds of the variables of the kernel in every state it can be in:
    the sizes of the arrays, the ranges of the numbers, and that an open
    descriptor has its operations. *)

From S2P Require Import Prelude CInt Memory State I8259 Screen Paging FS Process Typed.
From S2P Require Import TypedMem.

Definition is_flag (z : Z) : Prop := z = 0 ∨ z = 1.

(** The cursors of the three terminals are on the screen. *)
Record screen_ok (c : screen_t) : Prop := {
  so_x : length (screen_x c) = 3%nat ∧ Forall (λ x, 0 ≤ x < 80) (screen_x c);
  so_y : length (screen_y c) = 3%nat ∧ Forall (λ y, 0 ≤ y < 25) (screen_y c);
  so_current : 0 ≤ currentTerminal c ≤ 3;
  so_key : is_flag (keyInt c);
}.
(** A line fits its buffer. *)
Definition lines_ok (k : term_t) : Prop :=
  length (idx k) = 3%nat ∧ Forall (λ i, 0 ≤ i ≤ 128) (idx k).
Definition kbd_ok (k : kbd_t) : Prop := length (getChar k) = 128%nat ∧ Forall is_u8 (getChar k).
Record rtc_ok (r : rtc_t) : Prop := {
  ro_happened : is_flag (rtc_interrupt_happened r);
  ro_count : is_u32 (rtc_interrupt_count r);
  ro_freq : 0 ≤ rtc_cur_freq r ≤ 1024;
}.
Definition file_ok (f : file_struct_t) : Prop := Z.land (flags f) OPEN ≠ 0 → is_Some (fops_table f).
Record pcb_ok (b : pcb_t) : Prop := {
  bo_files : length (file_array b) = 8%nat ∧ Forall file_ok (file_array b);
  bo_term : 0 ≤ curTerminal b ≤ 3;
}.
Record proc_ok (p : proc_t) : Prop := {
  po_pcbs : map_Forall (λ _, pcb_ok) (pcbs p);
  po_bitmap : is_u8 (pid_bitmap p);
  po_first : is_flag (first_flag p);
  po_exit : is_flag (attemptExit p);
  po_exception : is_flag (program_exception p);
  po_cur : 0 ≤ curProc p < 6;
}.
Definition page_table_ok (l : list Z) : Prop := length l = 1024%nat ∧ Forall is_u32 l.
Record page_ok (p : page_t) : Prop := {
  go_dir : length (page_dir p) = 6%nat ∧ Forall page_table_ok (page_dir p);
  go_table_0 : page_table_ok (page_table_0 p);
  go_vidmap : page_table_ok (page_table_vidmap p);
  go_term : page_table_ok (page_table_term p);
}.
Record state_ok (s : kstate) : Prop := {
  st_mem : mem_ok (kmem s);
  st_pages : map_Forall (λ _, mem_ok) (kpages s);
  st_io : trace_ok (kio s);
  st_scr : screen_ok (kscr s);
  st_term : lines_ok (kterm s);
  st_kbd : kbd_ok (kkbd s);
  st_rtc : rtc_ok (krtc s);
  st_proc : proc_ok (kproc s);
  st_page : page_ok (kpage s);
}.

(** ** Parts of the state *)
Lemma safe_on_mem {A} (c : K mem A) Q : safe mem_ok c Q → safe state_ok (on_mem c) Q.
Proof. apply (safe_zoom kmem); [apply st_mem|]. intros s m [] Hm. by split. Qed.
Lemma safe_on_io {A} (c : K io_t A) Q : safe trace_ok c Q → safe state_ok (on_io c) Q.
Proof. apply (safe_zoom kio); [apply st_io|]. intros s m [] Hm. by split. Qed.
Lemma safe_on_page {A} (c : K page_t A) Q : safe page_ok c Q → safe state_ok (zoom kpage c) Q.
Proof. apply (safe_zoom kpage); [apply st_page|]. intros s m [] Hm. by split. Qed.
#[export] Hint Resolve safe_on_mem safe_on_io safe_on_page : safe.

(** Reading a component. *)
Lemma get_scr : safe state_ok (kget kscr) screen_ok.
Proof. apply safe_get. by intros s []. Qed.
Lemma get_term : safe state_ok (kget kterm) lines_ok.
Proof. apply safe_get. by intros s []. Qed.
Lemma get_kbd : safe state_ok (kget kkbd) kbd_ok.
Proof. apply safe_get. by intros s []. Qed.
Lemma get_rtc : safe state_ok (kget krtc) rtc_ok.
Proof. apply safe_get. by intros s []. Qed.
Lemma get_proc : safe state_ok (kget kproc) proc_ok.
Proof. apply safe_get. by intros s []. Qed.
#[export] Hint Resolve get_scr get_term get_kbd get_rtc get_proc : safe.

(** Changing one. *)
Lemma mod_scr f : (∀ c, screen_ok c → screen_ok (f c)) → keeps state_ok (kmod (upd kscr f)).
Proof. intros Hf. apply safe_mod. intros s []. split; try done. by apply Hf. Qed.
Lemma mod_term f : (∀ c, lines_ok c → lines_ok (f c)) → keeps state_ok (kmod (upd kterm f)).
Proof. intros Hf. apply safe_mod. intros s []. split; try done. by apply Hf. Qed.
Lemma mod_kbd f : (∀ c, kbd_ok c → kbd_ok (f c)) → keeps state_ok (kmod (upd kkbd f)).
Proof. intros Hf. apply safe_mod. intros s []. split; try done. by apply Hf. Qed.
Lemma mod_rtc f : (∀ c, rtc_ok c → rtc_ok (f c)) → keeps state_ok (kmod (upd krtc f)).
Proof. intros Hf. apply safe_mod. intros s []. split; try done. by apply Hf. Qed.
Lemma mod_proc_safe f : (∀ c, proc_ok c → proc_ok (f c)) → keeps state_ok (mod_proc f).
Proof. intros Hf. apply safe_mod. intros s []. split; try done. by apply Hf. Qed.
Lemma mod_cpu_safe f : keeps state_ok (mod_cpu f).
Proof. apply safe_mod. intros s []. by split. Qed.
#[export] Hint Resolve mod_cpu_safe : safe.

(** ** Arrays *)
Lemma zupdate_ok {A} (P : A → Prop) l i x l' n :
  length l = n ∧ Forall P l → P x → zupdate l i x = Some l' → length l' = n ∧ Forall P l'.
Proof.
  intros [Hl Hf] Hx [_ ->]%zupdate_Some. split; [by rewrite length_insert|].
  by apply Forall_insert.
Qed.
Lemma zlookup_ok {A} (P : A → Prop) l i x : Forall P l → zlookup l i = Some x → P x.
Proof. intros Hf [_ Hx]%zlookup_Some. by eapply Forall_lookup_1. Qed.

(** ** Control blocks *)
Lemma pcb_get_safe p : safe state_ok (pcb_get p) pcb_ok.
Proof.
  unfold pcb_get. eapply safe_bind; [apply get_proc|]. intros k Hk. apply safe_lift.
  intros b Hb. by eapply (po_pcbs _ Hk).
Qed.
Lemma pcb_mod_safe p f : (∀ b, pcb_ok b → pcb_ok (f b)) → keeps state_ok (pcb_mod p f).
Proof.
  intros Hf. unfold pcb_mod. eapply safe_bind; [apply pcb_get_safe|]. intros b Hb.
  apply mod_proc_safe. intros c []. split; try done. upd_cbv.
  apply map_Forall_insert_2; [by apply Hf|done].
Qed.
Lemma cur_pcb_safe : safe state_ok cur_pcb pcb_ok.
Proof. unfold cur_pcb. eapply safe_bind; [apply get_proc|]. intros k _. apply pcb_get_safe. Qed.
#[export] Hint Resolve pcb_get_safe cur_pcb_safe : safe.
Lemma mod_cur_pcb_safe f : (∀ b, pcb_ok b → pcb_ok (f b)) → keeps state_ok (mod_cur_pcb f).
Proof. intros Hf. unfold mod_cur_pcb. eapply safe_bind; [apply get_proc|]. intros k _. by apply pcb_mod_safe. Qed.
Lemma cur_file_safe fd : safe state_ok (cur_file fd) file_ok.
Proof.
  unfold cur_file. eapply safe_bind; [apply cur_pcb_safe|]. intros b [[_ Hf] _]. apply safe_lift.
  intros x Hx. by eapply zlookup_ok.
Qed.
Lemma mod_file_safe fd f : (∀ x, file_ok x → file_ok (f x)) → keeps state_ok (mod_file fd f).
Proof.
  intros Hf. unfold mod_file. eapply safe_bind; [apply get_proc|]. intros k _.
  eapply safe_bind; [apply cur_pcb_safe|]. intros b [Hb _].
  eapply safe_bind; [apply safe_lift; intros x Hx; eapply (zlookup_ok file_ok); [apply Hb|exact Hx]|].
  intros x Hx. eapply safe_bind; [apply (safe_lift _ _ (λ l, length l = 8%nat ∧ Forall file_ok l))|].
  { intros l Hl. eapply zupdate_ok; [exact Hb|by apply Hf|exact Hl]. }
  intros l Hl. apply pcb_mod_safe. by intros c [].
Qed.
#[export] Hint Resolve cur_file_safe : safe.
