(* ===== verification/TypedIO.v ===== *)
(** * Devices, screen, printing and paging keep the types *)

From S2P Require Import Prelude CInt Memory CString State I8259 Screen Printf Rtc Pit.
From S2P Require Import Paging Process Typed TypedMem TypedState.

(** ** Ports *)
Section ports.
Context `{Device}.
Lemma inb_safe p : safe trace_ok (inb p) is_u8.
Proof.
  intros io v io' Hio E. unfold inb in E. injection E as <- <-. split; [|apply u8_range].
  apply Forall_cons. split; [apply u8_range|exact Hio].
Qed.
Lemma outb_safe d p : keeps trace_ok (outb d p).
Proof. apply safe_mod. intros io Hio. apply Forall_cons. split; [apply u8_range|exact Hio]. Qed.
Lemma cli_safe : keeps trace_ok cli.
Proof. apply safe_mod. intros io Hio. apply Forall_cons. by split. Qed.
Lemma sti_safe : keeps trace_ok sti.
Proof. apply safe_mod. intros io Hio. apply Forall_cons. by split. Qed.
Lemma restore_flags_safe f : keeps trace_ok (restore_flags f).
Proof. by apply safe_mod. Qed.
#[local] Hint Resolve inb_safe outb_safe cli_safe sti_safe restore_flags_safe : safe.
Lemma cli_and_save_safe : keeps trace_ok cli_and_save.
Proof. unfold cli_and_save. safe_auto. Qed.
Lemma enable_irq_safe n : keeps trace_ok (enable_irq n).
Proof. unfold enable_irq. safe_auto. Qed.
Lemma send_eoi_safe n : keeps trace_ok (send_eoi n).
Proof. unfold send_eoi. safe_auto. Qed.
#[local] Hint Resolve cli_and_save_safe enable_irq_safe : safe.
Lemma i8259_init_safe : keeps trace_ok i8259_init.
Proof. unfold i8259_init. safe_auto. Qed.
Lemma pit_init_safe : keeps trace_ok pit_init.
Proof. unfold pit_init. safe_auto. Qed.
Lemma pit_set_freq_safe c f : keeps trace_ok (pit_set_freq c f).
Proof. unfold pit_set_freq. safe_auto. Qed.
End ports.
#[export] Hint Resolve inb_safe outb_safe cli_safe sti_safe restore_flags_safe cli_and_save_safe
  enable_irq_safe send_eoi_safe i8259_init_safe pit_init_safe pit_set_freq_safe : safe.

(** ** The screen *)
Lemma screen_x_at_safe i : safe state_ok (screen_x_at i) (λ x, 0 ≤ x < 80).
Proof.
  unfold screen_x_at. eapply safe_bind; [apply get_scr|]. intros c Hc. apply safe_lift.
  intros x Hx. eapply (zlookup_ok (λ x, 0 ≤ x < 80)); [apply Hc|exact Hx].
Qed.
Lemma screen_y_at_safe i : safe state_ok (screen_y_at i) (λ y, 0 ≤ y < 25).
Proof.
  unfold screen_y_at. eapply safe_bind; [apply get_scr|]. intros c Hc. apply safe_lift.
  intros x Hx. eapply (zlookup_ok (λ x, 0 ≤ x < 25)); [apply Hc|exact Hx].
Qed.
Lemma set_screen_x_safe i v : 0 ≤ v < 80 → keeps state_ok (set_screen_x i v).
Proof.
  intros Hv. unfold set_screen_x. eapply safe_bind; [apply get_scr|]. intros c Hc.
  eapply safe_bind; [apply (safe_lift _ _ (λ l, length l = 3%nat ∧ Forall (λ x, 0 ≤ x < 80) l))|].
  { intros l Hl. eapply zupdate_ok; [apply Hc|exact Hv|exact Hl]. }
  intros l Hl. apply mod_scr. intros d []. by split.
Qed.
Lemma set_screen_y_safe i v : 0 ≤ v < 25 → keeps state_ok (set_screen_y i v).
Proof.
  intros Hv. unfold set_screen_y. eapply safe_bind; [apply get_scr|]. intros c Hc.
  eapply safe_bind; [apply (safe_lift _ _ (λ l, length l = 3%nat ∧ Forall (λ x, 0 ≤ x < 25) l))|].
  { intros l Hl. eapply zupdate_ok; [apply Hc|exact Hv|exact Hl]. }
  intros l Hl. apply mod_scr. intros d []. by split.
Qed.
Lemma whatTerm_safe : safe state_ok whatTerm (λ t, 0 ≤ t ≤ 3).
Proof. unfold whatTerm. eapply safe_bind; [apply get_scr|]. intros c []. by apply safe_ret. Qed.
#[export] Hint Resolve screen_x_at_safe screen_y_at_safe whatTerm_safe : safe.
(** A cursor that is set is in range by its tests. *)
#[export] Hint Extern 1 (safe _ (set_screen_x _ _) _) => apply set_screen_x_safe; lia : safe.
#[export] Hint Extern 1 (safe _ (set_screen_y _ _) _) => apply set_screen_y_safe; lia : safe.

Lemma screenInit_safe : keeps state_ok screenInit.
Proof. apply mod_scr. intros c []. by split. Qed.
Lemma set_whichTerm_safe v : keeps state_ok (set_whichTerm v).
Proof. apply mod_scr. intros c []. by split. Qed.
Lemma clear_safe : keeps state_ok clear.
Proof. unfold clear. safe_auto. Qed.
#[export] Hint Resolve screenInit_safe set_whichTerm_safe clear_safe : safe.

(** Values in range. *)
Lemma quot_small x : 0 ≤ x < 80 → Z.quot x 80 = 0.
Proof. intros. by apply Z.quot_small. Qed.
Lemma backspace_safe : keeps state_ok backspace.
Proof.
  unfold backspace. do 3 safe_step. cbv beta in *.
  apply (safe_bind _ _ _ (λ _, True)); [|intros _ _; safe_auto].
  case_bool_decide; [case_bool_decide|]; [safe_auto| |safe_auto].
  unfold NUM_COLS, NUM_ROWS. rewrite (Z.rem_small (_ - 1)), quot_small, Z.rem_small by lia. safe_auto.
Qed.
Lemma tScroll_safe z : keeps state_ok (tScroll z).
Proof. unfold tScroll. safe_auto. Qed.
#[export] Hint Resolve backspace_safe tScroll_safe : safe.

(** At the end of a line the column of a terminal is 80 for a moment. *)
Definition edge (i : Z) (s : kstate) : Prop :=
  state_ok (s <| kscr ::= (λ c, c <| screen_x ::= <[Z.to_nat i := 0]> |>) |>).
Lemma edge_read {A} i (c : K kstate A) : (∀ s a s', c s = Ok (a, s') → s' = s) → keeps (edge i) c.
Proof. intros Hc s a s' Hs E. by rewrite (Hc _ _ _ E). Qed.
Lemma edge_mem {A} i (c : K mem A) : keeps mem_ok c → keeps (edge i) (on_mem c).
Proof. apply (safe_zoom kmem); [intros s He; apply (st_mem _ He)|]. intros s m [] Hm. by split. Qed.
Lemma set_screen_run i v s u s' : set_screen_x i v s = Ok (u, s') →
  0 ≤ i < Z.of_nat (length (screen_x (kscr s))) ∧
  s' = s <| kscr ::= (λ c, c <| screen_x := <[Z.to_nat i := v]> (screen_x (kscr s)) |>) |>.
Proof.
  unfold set_screen_x, mbind, K_bind, kget, klift. destruct (zupdate _ i v) as [l|] eqn:E; [|done].
  intros [= _ <-]. apply zupdate_Some in E as [Hi ->]. by split.
Qed.
Lemma edge_enter i v s u s' : state_ok s → set_screen_x i v s = Ok (u, s') → edge i s'.
Proof.
  intros Hs [Hi ->]%set_screen_run. pose proof (st_scr _ Hs) as [[Hl Hf] Hy Hc Hk].
  destruct Hs. unfold edge. split; try done. upd_cbv.
  split; try done. upd_cbv. rewrite list_insert_insert_eq, length_insert. split; [done|]. by apply Forall_insert.
Qed.
Lemma edge_leave i v s u s' : 0 ≤ v < 80 → edge i s → set_screen_x i v s = Ok (u, s') → state_ok s'.
Proof.
  intros Hv He [Hi ->]%set_screen_run. pose proof (st_scr _ He) as Hs. destruct He. split; try done.
  revert Hs. upd_cbv. intros [[Hl Hf] Hy Hc Hk].
  revert Hl Hf Hy Hc Hk. upd_cbv. intros Hl Hf Hy Hc Hk. split; try done. upd_cbv.
  rewrite length_insert in Hl |- *. split; [done|].
  rewrite <-(list_insert_insert_eq (screen_x (kscr s)) (Z.to_nat i) v 0). by apply Forall_insert.
Qed.
Lemma edge_scroll i z : keeps (edge i) (tScroll z).
Proof.
  unfold tScroll. eapply safe_bind; [apply edge_read|].
  { intros s a s'. unfold cur_pcb, pcb_get, mbind, K_bind, kget, klift. by destruct (pcbs _ !! _) as [b|]; intros [=]. }
  intros b _. eapply safe_bind; [apply edge_read; by intros s a s' [=]|]. intros t _.
  destruct (bool_decide _); apply edge_mem; safe_auto.
Qed.
Lemma edge_row i j v : 0 ≤ v < 25 → keeps (edge i) (set_screen_y j v).
Proof.
  intros Hv s u s' He E. unfold set_screen_y, mbind, K_bind, kget, klift in E.
  destruct (zupdate _ j v) as [l|] eqn:El; [|done]. injection E as _ <-. split; [|done].
  pose proof (st_scr _ He) as Hs. destruct He. split; try done. revert Hs. upd_cbv. intros [Hx Hy Hc Hk]. split; try done.
  revert Hy. upd_cbv. intros Hy. by eapply zupdate_ok.
Qed.

Lemma putc_at_safe c t base k : keeps state_ok (putc_at c t base k).
Proof.
  unfold putc_at. destruct (_ || _).
  { eapply safe_bind; [apply screen_y_at_safe|]. intros y Hy. cbv beta in Hy.
    safe_step; [|safe_auto]. unfold NUM_ROWS. case_bool_decide; safe_auto. }
  eapply safe_bind; [apply screen_y_at_safe|]. intros y Hy. cbv beta in Hy.
  eapply safe_bind; [apply screen_x_at_safe|]. intros x Hx. cbv beta in Hx.
  eapply (safe_bind _ _ _ (λ _, True)); [safe_auto|]. intros _ _ s u s' Hs E.
  apply bind_run in E as (? & s1 & E1 & E). apply bind_run in E as (? & s2 & E2 & E3).
  pose proof (edge_enter _ _ _ _ _ Hs E1) as H1. split; [|done].
  assert (0 ≤ Z.quot (x + 1) NUM_COLS) by (unfold NUM_COLS; apply Z.quot_pos; lia).
  match type of E2 with ?m _ = _ => assert (keeps (edge (t - 1)) m) as H2 end.
  { destruct (_ && _); [apply edge_scroll|apply edge_row]. unfold NUM_ROWS.
    pose proof (Z.rem_bound_pos (y + Z.quot (x + 1) NUM_COLS) 25). lia. }
  eapply edge_leave; [|apply (H2 s1 _ s2 H1 E2)|exact E3].
  unfold NUM_COLS. pose proof (Z.rem_bound_pos (x + 1) 80). lia.
Qed.
#[export] Hint Resolve putc_at_safe : safe.
Lemma putc_safe c : keeps state_ok (putc c).
Proof. unfold putc. safe_auto. Qed.
#[export] Hint Resolve putc_safe : safe.
Lemma puts_loop_safe n a i : keeps state_ok (puts_loop n a i).
Proof. revert a i. safe_loop n puts_loop. Qed.
Lemma puts_safe a : keeps state_ok (puts a).
Proof. apply (safe_state _ (λ k, puts_loop (S (size (kmem k))) a 0)). intros. apply puts_loop_safe. Qed.
#[export] Hint Resolve puts_safe : safe.

(** ** [printf] *)
Section layout.
Context `{Device} `{Layout}.
Lemma next_arg_safe args : keeps state_ok (next_arg args).
Proof. unfold next_arg. safe_auto. Qed.
#[local] Hint Resolve next_arg_safe : safe.
Lemma conversion_safe c alt args : keeps state_ok (conversion c alt args).
Proof. unfold conversion. safe_auto. Qed.
#[local] Hint Resolve conversion_safe : safe.
Lemma format_char_switch_safe fmt alt args : keeps state_ok (format_char_switch fmt alt args).
Proof. revert alt. induction fmt; intros; cbn [format_char_switch]; safe_auto. Qed.
#[local] Hint Resolve format_char_switch_safe : safe.
Lemma printf_loop_safe n fmt args : keeps state_ok (printf_loop n fmt args).
Proof. revert fmt args. induction n; intros fmt args; destruct fmt; cbn [printf_loop]; safe_auto. Qed.
#[local] Hint Resolve printf_loop_safe : safe.
Lemma printf_safe fmt args : keeps state_ok (printf fmt args).
Proof. unfold printf. safe_auto. Qed.
Lemma updatecursor_safe : keeps state_ok updatecursor.
Proof. unfold updatecursor. safe_auto. Qed.
End layout.
#[export] Hint Resolve printf_safe updatecursor_safe : safe.
