(* ===== verification/TypedKernel.v ===== *)
(** * Clock, paging, files and the terminal driver keep the types *)

From S2P Require Import Prelude CInt Memory CString State I8259 Screen Printf Paging FS.
From S2P Require Import Rtc Pit ExecHelper Process Terminal Typed TypedMem TypedState.
From S2P Require Import TypedIO PagingInit Translate.

(** ** Interrupts that come while a function waits *)
Definition quiet (handler : irq → K kstate unit) : Prop := ∀ i, keeps state_ok (handler i).
Lemma wait_irq_safe handler : quiet handler → keeps state_ok (wait_irq handler).
Proof.
  intros Hq s u s' Hs. unfold wait_irq. destruct (io_if _); [|done]. destruct (kirqs s) as [|i l]; [done|].
  intros E. eapply Hq; [|exact E]. by destruct Hs.
Qed.
#[export] Hint Resolve wait_irq_safe : safe.

(** ** The clock *)
Section rtc.
Context `{Device} `{Layout}.
Lemma rtc_init_safe : keeps state_ok rtc_init.
Proof. unfold rtc_init. safe_auto. Qed.
Lemma happened_safe v : is_flag v →
  keeps state_ok (kmod (λ s, s <| krtc ::= (λ r, r <| rtc_interrupt_happened := v |>) |>)).
Proof. intros Hv. apply mod_rtc. intros c []. by split. Qed.
Lemma count_safe f : (∀ c, is_u32 (f c)) →
  keeps state_ok (kmod (λ s, s <| krtc ::= (λ r, r <| rtc_interrupt_count ::= f |>) |>)).
Proof. intros Hv. apply mod_rtc. intros c []. split; try done. apply Hv. Qed.
Lemma rtc_handler_safe : keeps state_ok rtc_handler.
Proof.
  unfold rtc_handler. eapply safe_bind; [apply count_safe; intros; apply u32_range|]. intros _ _.
  safe_step; [safe_auto|]. apply happened_safe. by right.
Qed.
Lemma rtc_read_loop_safe handler n : quiet handler → keeps state_ok (rtc_read_loop handler n).
Proof. intros Hq. pose proof (wait_irq_safe _ Hq). safe_loop n rtc_read_loop. Qed.
#[local] Hint Resolve rtc_read_loop_safe : safe.
Lemma rtc_read_safe handler fd buf n : quiet handler → keeps state_ok (rtc_read handler fd buf n).
Proof.
  intros Hq. unfold rtc_read. eapply safe_bind; [apply happened_safe; by left|]. intros _ _. safe_auto.
Qed.
Lemma rtc_write_safe fd buf n : keeps state_ok (rtc_write fd buf n).
Proof.
  unfold rtc_write. safe_step. cbv beta zeta.
  case_bool_decide; [safe_auto|]. safe_step; [safe_auto|].
  eapply safe_bind; [instantiate (1 := λ _, True); destruct (find_rate _ _ _); safe_auto|]. intros r _.
  safe_step; [safe_auto|].
  eapply safe_bind; [apply mod_rtc; intros c []; split; try done; upd_cbv; unfold RTC_PRGM_MAX_FREQ in *; lia|]. intros _ _.
  safe_step; [safe_auto|]. eapply safe_bind; [apply (count_safe (λ _, 0)); done|]. intros _ _. safe_auto.
Qed.
#[local] Hint Resolve rtc_write_safe : safe.
Lemma rtc_open_safe f : keeps state_ok (rtc_open f).
Proof. unfold rtc_open. safe_auto. Qed.
End rtc.
#[export] Hint Resolve rtc_init_safe rtc_handler_safe rtc_read_safe rtc_write_safe rtc_open_safe : safe.

(** ** Paging *)
Section paging.
Context `{Layout}.
Lemma set_dir_safe i j v : keeps page_ok (set_dir i j v).
Proof.
  unfold set_dir. eapply safe_bind; [apply (safe_get _ _ (λ d, length d = 6%nat ∧ Forall page_table_ok d)); by intros p []|].
  intros d Hd. eapply safe_bind; [apply safe_lift; intros x Hx; eapply (zlookup_ok page_table_ok); [apply Hd|exact Hx]|].
  intros row Hr. eapply safe_bind; [apply (safe_lift _ _ page_table_ok)|].
  { intros l Hl. eapply zupdate_ok; [exact Hr|apply u32_range|exact Hl]. }
  intros l Hl. eapply safe_bind; [apply (safe_lift _ _ (λ d, length d = 6%nat ∧ Forall page_table_ok d))|].
  { intros l' Hl'. eapply zupdate_ok; [exact Hd|exact Hl|exact Hl']. }
  intros d' Hd'. apply safe_mod. intros p []. by split.
Qed.
Lemma set_table_safe (t : page_t → list Z) `{!Setter t} i v :
  (∀ p, page_ok p → page_table_ok (t p)) → (∀ p l, page_ok p → page_table_ok l → page_ok (p <| t := l |>)) →
  keeps page_ok (set_table t i v).
Proof.
  intros Hg Hp. unfold set_table. eapply safe_bind; [apply (safe_get _ _ page_table_ok); apply Hg|].
  intros l Hl. eapply safe_bind; [apply (safe_lift _ _ page_table_ok)|].
  { intros l' Hl'. eapply zupdate_ok; [exact Hl|apply u32_range|exact Hl']. }
  intros l' Hl'. apply safe_mod. intros p Hok. by apply Hp.
Qed.
Lemma set_table_0_safe i v : keeps page_ok (set_table page_table_0 i v).
Proof. apply set_table_safe; [by intros p []|]. intros p l [] Hl. by split. Qed.
Lemma set_table_vidmap_safe i v : keeps page_ok (set_table page_table_vidmap i v).
Proof. apply set_table_safe; [by intros p []|]. intros p l [] Hl. by split. Qed.
Lemma set_table_term_safe i v : keeps page_ok (set_table page_table_term i v).
Proof. apply set_table_safe; [by intros p []|]. intros p l [] Hl. by split. Qed.
Lemma set_pse_safe : keeps page_ok set_pse.
Proof. apply safe_mod. intros p []. by split. Qed.
#[local] Hint Resolve set_dir_safe set_table_0_safe set_table_vidmap_safe set_table_term_safe set_pse_safe : safe.
Lemma initilize_paging_safe : keeps page_ok initilize_paging.
Proof. unfold initilize_paging. safe_auto. Qed.

(** The bytes of a page are those shown. *)
Lemma remap_safe f : (∀ p, page_ok p → page_ok (f p)) → keeps state_ok (remap f).
Proof.
  intros Hf. apply safe_mod. intros s Hs. cbv zeta.
  assert (∀ P : Z * Z → Prop, ∀ `{!∀ x, Decision (P x)}, mem_ok (filter P (kmem s))) as Hm.
  { intros P ? a v [Hv _]%map_lookup_filter_Some. by eapply (st_mem _ Hs). }
  assert (map_Forall (λ _, mem_ok) (hide_page (prog_page (kpage s)) (kpages s) (kmem s))) as Hh.
  { unfold hide_page. destruct (prog_page _); [|apply Hs]. apply map_Forall_insert_2; [apply Hm|apply Hs]. }
  case_bool_decide; [destruct Hs; split; try done; upd_cbv; by apply Hf|].
  destruct Hs. split; upd_cbv; try done; [|by apply Hf].
  unfold show_page. intros a v Ha. apply lookup_union_Some_raw in Ha as [Ha|[_ Ha]]; [|by eapply Hm].
  destruct (prog_page (f (kpage s))) as [q|] eqn:Eq; [|done]. revert Ha. cbn.
  destruct (hide_page _ _ _ !! q) as [l|] eqn:El; [|done]. intros Ha. by eapply (Hh q l El).
Qed.
Lemma load_CR3_safe q : keeps state_ok (load_CR3 q).
Proof. apply remap_safe. intros p []. by split. Qed.
Lemma set_cr0_safe : keeps state_ok set_cr0.
Proof.
  unfold set_cr0. eapply safe_bind.
  - apply safe_mod. intros s Hs. case_match; [done|]. destruct Hs. split; try done. upd_cbv. intros a v Ha.
    apply paged_value in Ha as [pa Ha]. by eapply st_mem.
  - intros _ _. apply remap_safe. intros p []. by split.
Qed.
#[local] Hint Resolve load_CR3_safe set_cr0_safe : safe.
Lemma setup_paging_safe q : keeps state_ok (setup_paging q).
Proof. unfold setup_paging. safe_auto. Qed.
Lemma update_paging_safe q : keeps state_ok (update_paging q).
Proof. unfold update_paging. safe_auto. Qed.
Lemma add_vidmap_safe v : keeps state_ok (add_vidmap v).
Proof. unfold add_vidmap. safe_auto. Qed.
End paging.
#[export] Hint Resolve initilize_paging_safe setup_paging_safe update_paging_safe add_vidmap_safe : safe.
