(* ===== verification/TypedProc.v ===== *)
(** * Files, terminals, processes, the keyboard and the scheduler keep the types *)

From S2P Require Import Prelude CInt Memory CString State I8259 Screen Printf Paging FS.
From S2P Require Import Rtc Pit ExecHelper Process Terminal Keyboard Schedule Syscalls.
From S2P Require Import Boot Typed TypedMem TypedState TypedIO TypedKernel.

(** ** Files *)
Lemma bblock_safe : keeps state_ok (kget bblock).
Proof. by apply safe_get. Qed.
#[export] Hint Resolve bblock_safe : safe.
Lemma position_safe fd f : keeps state_ok (mod_file fd (λ x, x <| file_position ::= f |>)).
Proof. by apply mod_file_safe. Qed.
Lemma opened_safe fd t i p v : keeps state_ok (mod_file fd (λ _, Mk_file_struct_t (Some t) i p v)).
Proof. apply mod_file_safe. intros x Hx Hf. by eexists. Qed.
Lemma closed_safe fd : keeps state_ok (mod_file fd (λ f, f <| flags := CLOSE |>)).
Proof. apply mod_file_safe. by intros x Hx Hf. Qed.
#[export] Hint Resolve position_safe opened_safe closed_safe : safe.
Lemma reg_file_read_safe fd b n : keeps state_ok (reg_file_read fd b n).
Proof. unfold reg_file_read. safe_auto. Qed.
Lemma dir_read_safe `{Layout} fd b n : keeps state_ok (dir_read fd b n).
Proof. unfold dir_read. safe_auto. Qed.
#[export] Hint Resolve reg_file_read_safe dir_read_safe : safe.

(** ** The terminal driver *)
Section terminal.
Context `{Device} `{Layout}.
Lemma idx_at_safe i : safe state_ok (idx_at i) (λ n, 0 ≤ n ≤ 128).
Proof.
  unfold idx_at. eapply safe_bind; [apply get_term|]. intros k [_ Hf]. apply safe_lift.
  intros x Hx. by eapply (zlookup_ok (λ n, 0 ≤ n ≤ 128)).
Qed.
Lemma set_idx_safe i v : 0 ≤ v ≤ 128 → keeps state_ok (set_idx i v).
Proof.
  intros Hv. unfold set_idx. eapply safe_bind; [apply get_term|]. intros k Hk.
  eapply safe_bind; [apply (safe_lift _ _ (λ l, length l = 3%nat ∧ Forall (λ n, 0 ≤ n ≤ 128) l))|].
  { intros l Hl. eapply zupdate_ok; [exact Hk|exact Hv|exact Hl]. }
  intros l Hl. by apply mod_term.
Qed.
Lemma set_flag_safe v : keeps state_ok (kmod (λ s, s <| kterm ::= (λ t, t <| set_flag := v |>) |>)).
Proof. by apply mod_term. Qed.
Lemma setback_safe : keeps state_ok setback.
Proof. by apply mod_kbd. Qed.
#[local] Hint Resolve idx_at_safe set_flag_safe setback_safe : safe.
Lemma insert_safe c : safe state_ok (insert c) (λ n, 0 ≤ n ≤ 128).
Proof.
  unfold insert. eapply safe_bind; [apply whatTerm_safe|]. intros t _.
  eapply safe_bind; [apply idx_at_safe|]. intros i Hi. cbv beta in Hi.
  case_bool_decide; [apply safe_ret; lia|]. eapply safe_bind; [apply safe_on_mem, store8_safe|]. intros _ _.
  eapply safe_bind; [apply set_idx_safe; lia|]. intros _ _. apply safe_ret. lia.
Qed.
Lemma clearbuf_safe : keeps state_ok clearbuf.
Proof. unfold clearbuf. do 2 safe_step; [safe_auto|]. by apply set_idx_safe. Qed.
Lemma backspacebuf_safe : keeps state_ok backspacebuf.
Proof.
  unfold backspacebuf. eapply safe_bind; [apply whatTerm_safe|]. intros t _.
  eapply safe_bind; [apply idx_at_safe|]. intros i Hi. cbv beta in Hi.
  do 2 safe_step; [|safe_auto]. eapply safe_bind; [apply set_idx_safe; lia|]. intros _ _. safe_auto.
Qed.
Lemma cur_idx_safe : safe state_ok cur_idx (λ n, 0 ≤ n ≤ 128).
Proof. unfold cur_idx. eapply safe_bind; [apply cur_pcb_safe|]. intros b _. apply idx_at_safe. Qed.
#[local] Hint Resolve insert_safe clearbuf_safe backspacebuf_safe cur_idx_safe : safe.
Lemma cur_last_safe : keeps state_ok cur_last.
Proof. unfold cur_last. safe_auto. Qed.
Lemma poll_make_safe n : keeps state_ok (poll_make n).
Proof. safe_loop n poll_make. Qed.
#[local] Hint Resolve cur_last_safe poll_make_safe : safe.
Section read.
Context (handler : irq → K kstate unit) (Hq : quiet handler).
Lemma wait_line_safe n : keeps state_ok (wait_line handler n).
Proof using Hq. pose proof (wait_irq_safe _ Hq). safe_loop n wait_line. Qed.
Lemma full_line_safe n p v : keeps state_ok (full_line handler n p v).
Proof using Hq.
  pose proof (wait_irq_safe _ Hq). revert v. safe_loop n full_line.
Qed.
#[local] Hint Resolve wait_line_safe full_line_safe : safe.
Lemma tRead_safe busy p v fd b n : keeps state_ok (tRead handler busy p v fd b n).
Proof using Hq. unfold tRead. safe_auto. Qed.
End read.
Lemma tWrite_loop_safe n b k i w : keeps state_ok (tWrite_loop n b k i w).
Proof. revert i w. safe_loop n tWrite_loop. Qed.
#[local] Hint Resolve tWrite_loop_safe : safe.
Lemma tWrite_safe fd b n : keeps state_ok (tWrite fd b n).
Proof. unfold tWrite. safe_auto. Qed.
Lemma tOpen_safe f : keeps state_ok (tOpen f).
Proof. unfold tOpen. safe_auto. Qed.
End terminal.
#[export] Hint Resolve insert_safe clearbuf_safe backspacebuf_safe poll_make_safe tRead_safe tWrite_safe : safe.

(** ** Processes *)
Lemma getBitMap_safe : keeps state_ok getBitMap.
Proof. unfold getBitMap. safe_auto. Qed.
#[export] Hint Resolve getBitMap_safe : safe.

Lemma mod_field_safe f : (∀ b, file_array (f b) = file_array b) →
  (∀ b, pcb_ok b → 0 ≤ curTerminal (f b) ≤ 3) → ∀ b, pcb_ok b → pcb_ok (f b).
Proof. intros Hf Ht b Hb. split; [rewrite Hf; apply Hb|by apply Ht]. Qed.
Lemma c_bool_flag b : is_flag (c_bool b).
Proof. destruct b; [by right|by left]. Qed.
(** An assignment to another field of a control block, or of the numbers. *)
#[export] Hint Extern 2 (safe _ (mod_cur_pcb _) _) =>
  apply mod_cur_pcb_safe; intros ? []; split; upd_cbv; first [assumption | lia | by apply bo_term] : safe.
#[export] Hint Extern 2 (safe _ (pcb_mod _ _) _) =>
  apply pcb_mod_safe; intros ? []; split; upd_cbv; first [assumption | lia] : safe.
#[export] Hint Extern 2 (safe _ (mod_proc _) _) =>
  apply mod_proc_safe; intros ? []; split; upd_cbv;
  first [assumption | apply u8_range | apply c_bool_flag | by left | by right] : safe.

Section process.
Context `{Device} `{Layout}.
Lemma init_pcb_safe q old : keeps state_ok (init_pcb q old).
Proof. unfold init_pcb. safe_auto; (apply mod_file_safe; intros x _ _; by eexists). Qed.
#[local] Hint Resolve init_pcb_safe : safe.
Lemma start_program_safe q a i : keeps state_ok (start_program q a i).
Proof. unfold start_program. safe_auto. Qed.
#[local] Hint Resolve start_program_safe : safe.
Lemma load_program_safe q c a p i : keeps state_ok (load_program q c a p i).
Proof. unfold load_program. safe_auto. Qed.
Lemma checkExe_safe c : keeps state_ok (checkExe c).
Proof. unfold checkExe. safe_auto. Qed.
#[local] Hint Resolve load_program_safe checkExe_safe : safe.
Lemma sys_execute_safe c : keeps state_ok (sys_execute c).
Proof. unfold sys_execute. safe_auto. Qed.
#[local] Hint Resolve sys_execute_safe : safe.
Lemma sys_halt_safe v : keeps state_ok (sys_halt v).
Proof. unfold sys_halt. safe_auto. Qed.
End process.
#[export] Hint Resolve sys_execute_safe sys_halt_safe : safe.

(** ** The scheduler *)
Section schedule.
Context `{Device} `{Layout}.
Lemma next_proc_safe n a : keeps state_ok (next_proc n a).
Proof.
  safe_loop n next_proc. apply mod_proc_safe. intros c []. split; try done. upd_cbv.
  case_bool_decide; lia.
Qed.
#[local] Hint Resolve next_proc_safe : safe.
Lemma schedule_safe : keeps state_ok schedule.
Proof.
  unfold schedule. safe_auto. apply mod_proc_safe. intros c []. split; try done. upd_cbv.
  case_bool_decide; lia.
Qed.
#[local] Hint Resolve schedule_safe : safe.
Lemma pit_handler_safe : keeps state_ok pit_handler.
Proof. unfold pit_handler. safe_auto. Qed.
End schedule.
#[export] Hint Resolve pit_handler_safe : safe.

(** ** The keyboard *)
Section keyboard.
Context `{Device} `{Layout}.
Lemma scan2Let_safe c : safe state_ok (scan2Let c) is_u8.
Proof. unfold scan2Let. safe_step. apply safe_ret, u8_range. Qed.
Lemma setCaps_safe v : is_u8 v → keeps state_ok (setCaps v).
Proof.
  intros Hv. unfold setCaps. eapply safe_bind; [apply get_kbd|]. intros k Hk.
  eapply safe_bind; [apply (safe_lift _ _ (λ l, length l = 128%nat ∧ Forall is_u8 l))|].
  { intros l Hl. eapply zupdate_ok; [exact Hk|exact Hv|exact Hl]. }
  intros l Hl. by apply mod_kbd.
Qed.
Lemma caps_on_safe : keeps state_ok (setCaps 0x01).
Proof. by apply setCaps_safe. Qed.
Lemma caps_off_safe : keeps state_ok (setCaps 0x00).
Proof. by apply setCaps_safe. Qed.
Lemma key_on_safe : keeps state_ok (set_keyInt 1).
Proof. apply mod_scr. intros c []. split; try done. by right. Qed.
Lemma key_off_safe : keeps state_ok (set_keyInt 0).
Proof. apply mod_scr. intros c []. split; try done. by left. Qed.
Lemma back_safe f : keeps state_ok (kmod (λ s, s <| kkbd ::= (λ k, k <| back ::= f |>) |>)).
Proof. by apply mod_kbd. Qed.
Lemma shells_safe f : keeps state_ok (kmod (λ s, s <| kscr ::= (λ c, c <| numShells ::= f |>) |>)).
Proof. apply mod_scr. by intros c []. Qed.
Lemma current_safe t : 0 ≤ t ≤ 3 → keeps state_ok (set_currentTerminal t).
Proof. intros Ht. apply mod_scr. by intros c []. Qed.
#[local] Hint Resolve scan2Let_safe caps_on_safe caps_off_safe key_on_safe key_off_safe back_safe shells_safe : safe.
#[local] Hint Extern 1 (safe _ (set_currentTerminal _) _) => apply current_safe; lia : safe.
Lemma keyboard_init_safe : keeps state_ok keyboard_init.
Proof. unfold keyboard_init. safe_auto. Qed.
Lemma type_letter_safe c : keeps state_ok (type_letter c).
Proof. unfold type_letter. safe_auto. Qed.
#[local] Hint Resolve type_letter_safe : safe.
Lemma show_terminal_safe n bit : 0 ≤ n ≤ 3 → keeps state_ok (show_terminal n bit).
Proof. intros Hn. unfold show_terminal. safe_auto. Qed.
#[local] Hint Extern 1 (safe _ (show_terminal _ _) _) => apply show_terminal_safe; lia : safe.
Lemma screenChange_safe n : keeps state_ok (screenChange n).
Proof. unfold screenChange. safe_auto. Qed.
#[local] Hint Resolve screenChange_safe : safe.
Section handler.
Context (busy polls : nat).
Lemma wait_port_safe n v : keeps state_ok (wait_port n v).
Proof. safe_loop n wait_port. Qed.
Lemma shift_loop_safe n v : keeps state_ok (shift_loop polls n v).
Proof. safe_loop n shift_loop. Qed.
Lemma shift_caps_loop_safe n v : keeps state_ok (shift_caps_loop polls n v).
Proof. safe_loop n shift_caps_loop. Qed.
#[local] Hint Resolve wait_port_safe shift_loop_safe shift_caps_loop_safe : safe.
Lemma plain_key_safe c l : keeps state_ok (plain_key busy polls c l).
Proof. unfold plain_key. safe_auto. Qed.
#[local] Hint Resolve plain_key_safe : safe.
Lemma keyboard_handler_safe : keeps state_ok (keyboard_handler busy polls).
Proof. unfold keyboard_handler. safe_auto. Qed.
End handler.
End keyboard.
#[export] Hint Resolve keyboard_init_safe keyboard_handler_safe : safe.
