(* ===== verification/Stubs.v ===== *)
(** * The entry points of [idt.S]

    The text of the file as a list of instructions per label, and a machine
    with the eight registers that runs it. The instructions are those the
    file uses. A [call] runs the C function on the kernel's state. *)

From S2P Require Import Prelude CInt Memory State I8259 Screen Rtc Process Keyboard.
From S2P Require Import Schedule Syscalls Boot.

(** ** Registers *)
Inductive reg : Type := EAX | ECX | EDX | EBX | ESP | EBP | ESI | EDI.
#[global] Instance reg_eq_dec : EqDecision reg.
Proof. solve_decision. Defined.
Record regs : Type := Mk_regs {
  r_eax : Z; r_ecx : Z; r_edx : Z; r_ebx : Z; r_esp : Z; r_ebp : Z; r_esi : Z; r_edi : Z;
}.
Definition rget (r : reg) (x : regs) : Z :=
  match r with
  | EAX => r_eax x | ECX => r_ecx x | EDX => r_edx x | EBX => r_ebx x
  | ESP => r_esp x | EBP => r_ebp x | ESI => r_esi x | EDI => r_edi x
  end.
Definition rset (r : reg) (v : Z) (x : regs) : regs :=
  let 'Mk_regs a c d b sp bp si di := x in
  match r with
  | EAX => Mk_regs v c d b sp bp si di | ECX => Mk_regs a v d b sp bp si di
  | EDX => Mk_regs a c v b sp bp si di | EBX => Mk_regs a c d v sp bp si di
  | ESP => Mk_regs a c d b v bp si di | EBP => Mk_regs a c d b sp v si di
  | ESI => Mk_regs a c d b sp bp v di | EDI => Mk_regs a c d b sp bp si v
  end.

(** ** Text *)

(** The C functions it calls. *)
Inductive cfun : Type :=
  | F_sys_halt | F_sys_execute | F_sys_read | F_sys_write | F_sys_open | F_sys_close
  | F_sys_getargs | F_vidmap | F_set_handler | F_sigreturn
  | F_rtc_handler | F_pit_handler | F_keyboard_handler | F_print_exceptions.
Inductive label : Type :=
  | at_exception_print (n : Z) | at_exception_print_general | at_exception_print_handler
  | at_exception_user_program | at_spin
  | at_rtc_handler_wrapper | at_pit_handler_wrapper | at_keyboard_handler_wrapper
  | at_syscall_handler | at_syscall_invalid_number | at_syscall_exit.
#[global] Instance label_eq_dec : EqDecision label.
Proof. solve_decision. Defined.
Inductive instr : Type :=
  | i_cli | i_sti | i_hlt | i_pusha | i_popa | i_iret
  | i_pushl (r : reg) | i_popl (r : reg) | i_movl (imm : Z) (r : reg) | i_decl (r : reg)
  | i_cmpl (imm : Z) (r : reg) | i_jmp (l : label) | i_jl (l : label) | i_jg (l : label)
  | i_jmp_to (f : cfun) | i_call (f : cfun)
  | i_call_at (base index : reg). (* [call *(base, index, 4)] *)

(** What the compiler and the linker chose: the address of [syscall_table];
    how far below the stack of its caller the [asm] of a C function finds
    [esp] and [ebp]; the registers a function leaves, which are not relied on
    but for [eax] and [esp]; and the register compared at [halt_ret_label]. *)
Class Linked := {
  syscall_table_at : Z;
  esp_below : cfun → Z;
  ebp_below : cfun → Z;
  scratch : regs → kstate → regs;
  label_reg : kstate → Z;
}.
Definition syscall_table : list cfun :=
  [F_sys_halt; F_sys_execute; F_sys_read; F_sys_write; F_sys_open; F_sys_close;
   F_sys_getargs; F_vidmap; F_set_handler; F_sigreturn].

Section text.
Context `{Linked}.

(** The labels in the order of the file: without a jump, control goes on at
    the next. *)
Definition wrapper (f : cfun) : list instr := [i_cli; i_pusha; i_call f; i_popa; i_sti; i_iret].
Definition idt_text : list (label * list instr) :=
  ((λ n, (at_exception_print n, [i_movl n EAX; i_jmp at_exception_print_handler])) <$> own_vectors) ++
  [ (at_exception_print_general, [i_movl 20 EAX; i_jmp at_exception_print_handler]);
    (at_exception_print_handler, [i_pushl EAX; i_call F_print_exceptions]);
    (at_exception_user_program, [i_movl 256 EBX; i_jmp_to F_sys_halt]);
    (at_spin, [i_hlt; i_jmp at_spin]);
    (at_rtc_handler_wrapper, wrapper F_rtc_handler);
    (at_pit_handler_wrapper, wrapper F_pit_handler);
    (at_keyboard_handler_wrapper, wrapper F_keyboard_handler);
    (at_syscall_handler,
      [i_pushl ESP; i_pushl EBP; i_pushl ESI; i_pushl EDI; i_pushl EDX; i_pushl ECX; i_pushl EBX;
       i_cmpl 1 EAX; i_jl at_syscall_invalid_number; i_cmpl 10 EAX; i_jg at_syscall_invalid_number;
       i_decl EAX; i_movl syscall_table_at EDI; i_call_at EDI EAX; i_jmp at_syscall_exit]);
    (at_syscall_invalid_number, [i_movl (-1) EAX]);
    (at_syscall_exit,
      [i_popl EBX; i_popl ECX; i_popl EDX; i_popl EDI; i_popl ESI; i_popl EBP; i_popl ESP; i_iret]) ].
Fixpoint from (l : label) (t : list (label * list instr)) : list instr :=
  match t with
  | [] => []
  | (l', c) :: t' => if bool_decide (l' = l) then mjoin (c :: t'.*2) else from l t'
  end.
Definition text_at (l : label) : list instr := from l idt_text.
End text.

(** ** Machine *)

(** [m_cmp]: what [cmpl] and [decl] compared, as signed numbers. *)
Record machine : Type := Mk_machine { m_regs : regs; m_cmp : Z * Z; m_k : kstate }.
#[global] Instance Set_m_regs : Setter m_regs := λ g m, Mk_machine (g (m_regs m)) (m_cmp m) (m_k m).
#[global] Instance Set_m_cmp : Setter m_cmp := λ g m, Mk_machine (m_regs m) (g (m_cmp m)) (m_k m).
#[global] Instance Set_m_k : Setter m_k := λ g m, Mk_machine (m_regs m) (m_cmp m) (g (m_k m)).

Definition mget (r : reg) : K machine Z := kget (λ m, rget r (m_regs m)).
Definition mset (r : reg) (v : Z) : K machine unit := kmod (λ m, m <| m_regs ::= rset r v |>).
Definition on_k {A} (c : K kstate A) : K machine A := zoom m_k c.
Definition push (v : Z) : K machine unit :=
  sp ← mget ESP;
  let sp := u32 (sp - 4) in
  _ ← on_k (on_mem (store32 sp v));
  mset ESP sp.
Definition pop : K machine Z :=
  sp ← mget ESP;
  v ← on_k (on_mem (load32 sp));
  _ ← mset ESP (u32 (sp + 4));
  mret v.
(** The registers in the order [pusha] stores them; [popa] skips [esp]. *)
Definition pusha : K machine unit :=
  x ← kget m_regs;
  _ ← push (r_eax x); _ ← push (r_ecx x); _ ← push (r_edx x); _ ← push (r_ebx x);
  _ ← push (r_esp x); _ ← push (r_ebp x); _ ← push (r_esi x); push (r_edi x).
Definition popa : K machine unit :=
  edi ← pop; _ ← mset EDI edi; esi ← pop; _ ← mset ESI esi; ebp ← pop; _ ← mset EBP ebp;
  _ ← pop; ebx ← pop; _ ← mset EBX ebx; edx ← pop; _ ← mset EDX edx;
  ecx ← pop; _ ← mset ECX ecx; eax ← pop; mset EAX eax.

(** How a stub ends: [iret] to the interrupted code, [iret] of [sys_execute]
    to a new program, or [hlt]. *)
Inductive outcome : Type := Iret | Enter_user (eip esp : Z) | Halted.

Section machine.
Context `{Device} `{Layout} `{Linked}.
Context (handler : irq → K kstate unit) (busy polls : nat) (scancode : Z).

(** A word of the arguments of a call, [esp] being the stack before it. *)
Definition arg (esp n : Z) : K kstate Z := on_mem (load32 (u32 (esp + 4 * n))).
(** The functions on their arguments; [sys_halt] takes its status from [ebx]. *)
Definition c_body (f : cfun) (x : regs) : K kstate ctl :=
  let arg := arg (r_esp x) in
  let ret := λ c : K kstate Z, r ← c; mret (Return r) in
  let void := λ c : K kstate unit, _ ← c; mret (Return 0) in
  match f with
  | F_sys_halt => sys_halt (r_ebx x)
  | F_sys_execute => a ← arg 0; sys_execute a
  | F_sys_read =>
      a ← arg 0; b ← arg 1; c ← arg 2;
      ret (sys_read handler busy polls scancode (s32 a) b (s32 c))
  | F_sys_write => a ← arg 0; b ← arg 1; c ← arg 2; ret (sys_write (s32 a) b (s32 c))
  | F_sys_open => a ← arg 0; ret (sys_open a)
  | F_sys_close => a ← arg 0; ret (sys_close (s32 a))
  | F_sys_getargs => a ← arg 0; b ← arg 1; ret (sys_getargs a (s32 b))
  | F_vidmap => a ← arg 0; ret (vidmap a)
  | F_set_handler => a ← arg 0; b ← arg 1; ret (set_handler (s32 a) b)
  | F_sigreturn => ret sigreturn
  | F_rtc_handler => void rtc_handler
  | F_pit_handler => void pit_handler
  | F_keyboard_handler => keyboard_handler busy polls
  | F_print_exceptions => a ← arg 0; void (print_exceptions a)
  end.

(** A call: the function runs below the stack of the caller. It comes back
    with [leave; ret] on the frame pointer it ends with: that of its caller,
    or of the process it switched to. *)
Definition c_back (f : cfun) (v : Z) : K machine unit :=
  k ← kget m_k;
  kmod (λ m, m <| m_regs ::= λ x,
    rset EAX (u32 v) (rset ESP (u32 (ebp (kcpu k) + ebp_below f)) (scratch x k)) |>).
Definition c_run (f : cfun) : K machine ctl :=
  x ← kget m_regs;
  on_k (
    _ ← mod_cpu (λ c, (c <| esp := r_esp x - esp_below f |>) <| ebp := r_esp x - ebp_below f |>);
    c_body f x).

(** One instruction, [code] being the text behind it: how the stub ends, or
    the text that follows. After a call that is behind the [call], or behind
    that of the parent which executed, or a program. *)
Definition go (code : list instr) : K machine (outcome + list instr) := mret (inr code).
Definition after_call (f : cfun) (r : ctl) (code : list instr) : K machine (outcome + list instr) :=
  match r with
  | Return v => _ ← c_back f v; go code
  | Enter eip esp => mret (inl (Enter_user eip esp))
  | Resume v =>
      k ← kget m_k;
      _ ← c_back F_sys_execute (halt_return (label_reg k) v); go (text_at at_syscall_exit)
  end.
Definition step (i : instr) (code : list instr) : K machine (outcome + list instr) :=
  match i with
  | i_cli => _ ← on_k (on_io cli); go code
  | i_sti => _ ← on_k (on_io sti); go code
  | i_hlt => mret (inl Halted)
  | i_iret => mret (inl Iret)
  | i_pusha => _ ← pusha; go code
  | i_popa => _ ← popa; go code
  | i_pushl r => v ← mget r; _ ← push v; go code
  | i_popl r => v ← pop; _ ← mset r v; go code
  | i_movl imm r => _ ← mset r (u32 imm); go code
  | i_decl r =>
      v ← mget r;
      _ ← mset r (u32 (v - 1));
      _ ← kmod (λ m, m <| m_cmp := (s32 v - 1, 0) |>);
      go code
  | i_cmpl imm r => v ← mget r; _ ← kmod (λ m, m <| m_cmp := (s32 v, imm) |>); go code
  | i_jmp l => go (text_at l)
  | i_jl l => c ← kget m_cmp; go (if bool_decide (c.1 < c.2) then text_at l else code)
  | i_jg l => c ← kget m_cmp; go (if bool_decide (c.1 > c.2) then text_at l else code)
  | i_call f => r ← c_run f; after_call f r code
  | i_call_at base index =>
      b ← mget base; i ← mget index;
      let off := u32 (b + 4 * i) - syscall_table_at in
      f ← klift (if bool_decide (off mod 4 = 0) then zlookup syscall_table (off / 4) else None);
      r ← c_run f; after_call f r code
  | i_jmp_to f =>
      (* coming back it would take the word on the stack for its caller *)
      r ← c_run f;
      match r with Return _ => kfault | _ => after_call f r [] end
  end.
(** [fuel] bounds the instructions: a stub is shorter than 64. *)
Fixpoint run (fuel : nat) (code : list instr) : K machine outcome :=
  match fuel, code with
  | S n, i :: code =>
      r ← step i code;
      match r with inl o => mret o | inr code => run n code end
  | _, _ => kspin
  end.
Definition stub (l : label) : K machine outcome := run 64 (text_at l).
End machine.
