(* ===== verification/StubSpec.v ===== *)
(** * What the entry points keep: the registers of the interrupted code

    The stack of a stub as words in memory, the stubs as one step of a call,
    and what becomes of the registers over an interrupt, a preemption and a
    child program. *)

From S2P Require Import Prelude CInt Memory CString State I8259 Screen Paging PagingInit.
From S2P Require Import Translate FS Pit Process Schedule Rtc Keyboard Syscalls Boot.
From S2P Require Import Views ProcTable ProcessSpec HaltSpec ScheduleSpec Example Typed.
From S2P Require Import Stubs.

(** ** Words on the stack, the lowest address first *)
Definition words (ws : list Z) : list Z := ws ≫= le32.
Definition words_at (m : mem) (a : Z) (ws : list Z) : Prop := bytes_at m a (words ws).
Lemma words_length ws : length (words ws) = (4 * length ws)%nat.
Proof. induction ws as [|w ws IH]; [done|]. unfold words in *. cbn [mbind list_bind]. rewrite length_app, IH. cbn. lia. Qed.
Lemma words_cons m a w ws : words_at m a (w :: ws) ↔ bytes_at m a (le32 w) ∧ words_at m (a + 4) ws.
Proof. apply (bytes_at_app m a (le32 w) (words ws)). Qed.

Definition regs_ok (x : regs) : Prop := ∀ r, is_u32 (rget r x).
Lemma rget_rset r r' v x : rget r (rset r' v x) = if decide (r = r') then v else rget r x.
Proof. by destruct x, r, r'. Qed.

(** The machine with words pushed below its stack pointer. *)
Definition stacked (m : machine) (ws : list Z) : machine :=
  let sp := r_esp (m_regs m) - 4 * Z.of_nat (length ws) in
  Mk_machine (rset ESP sp (m_regs m)) (m_cmp m) ((m_k m) <| kmem := put_bytes (kmem (m_k m)) sp (words ws) |>).
Lemma stacked_nil m : stacked m [] = m.
Proof. destruct m as [[] ? []]. unfold stacked. cbn. by rewrite Z.sub_0_r. Qed.

(** Room for [n] words. *)
Definition room (m : machine) (n : nat) : Prop :=
  4 * Z.of_nat n ≤ r_esp (m_regs m) < 2 ^ 32 ∧
  mapped (kmem (m_k m)) (r_esp (m_regs m) - 4 * Z.of_nat n) (4 * Z.of_nat n).

Lemma push_stacked m n v ws : room m n → (length ws < n)%nat → push v (stacked m ws) = Ok (tt, stacked m (v :: ws)).
Proof.
  intros [Hr Hm] Hl. unfold push, mget. erewrite bind_ok by (unfold kget; reflexivity). cbv zeta.
  set (sp := r_esp (m_regs m) - 4 * Z.of_nat (length ws)).
  assert (rget ESP (m_regs (stacked m ws)) = sp) as -> by (unfold stacked; cbn [m_regs]; by rewrite rget_rset).
  rewrite (u32_id (sp - 4)) by (unfold is_u32; lia).
  rewrite (bind_ok _ _ _ tt ((stacked m ws) <| m_k := (m_k m)
    <| kmem := put_bytes (kmem (m_k m)) (sp - 4) (words (v :: ws)) |> |>)).
  - unfold mset, kmod, stacked. cbn [length].
    replace (r_esp (m_regs m) - 4 * Z.of_nat (S (length ws))) with (sp - 4) by lia.
    do 2 f_equal. cbn. by destruct m as [[] ? ?].
  - apply zoom_ok. erewrite on_mem_ok.
    + reflexivity.
    + cbn [stacked m_k kmem upd Set_kmem]. rewrite store32_ok.
      * change (words (v :: ws)) with (le32 v ++ words ws). rewrite put_bytes_app.
        change (Z.of_nat (length (le32 v))) with 4. replace (sp - 4 + 4) with sp by lia. reflexivity.
      * eapply mapped_dom; [|eapply mapped_sub; [exact Hm|lia..]].
        apply put_bytes_dom. rewrite words_length.
        eapply mapped_sub; [exact Hm|lia..].
Qed.

Lemma pop_word m v ws :
  words_at (kmem (m_k m)) (r_esp (m_regs m)) (v :: ws) → is_u32 v →
  0 ≤ r_esp (m_regs m) → r_esp (m_regs m) + 4 < 2 ^ 32 →
  pop m = Ok (v, m <| m_regs ::= rset ESP (r_esp (m_regs m) + 4) |>).
Proof.
  intros [Hv _]%words_cons Hu H0 Hlt. unfold pop, mget. erewrite bind_ok by (unfold kget; reflexivity).
  change (rget ESP (m_regs m)) with (r_esp (m_regs m)).
  rewrite (bind_ok _ _ m v m).
  - rewrite u32_id by (unfold is_u32; lia). reflexivity.
  - unfold on_k. erewrite zoom_ok; [|apply on_mem_pure, load32_le32; [exact Hv|done]]. by destruct m.
Qed.

(** The next word, and the assignment of it to a register. *)
Lemma pop_at a c d b sp bp si di cm k v ws :
  words_at (kmem k) sp (v :: ws) → is_u32 v → 0 ≤ sp → sp + 4 < 2 ^ 32 →
  pop (Mk_machine (Mk_regs a c d b sp bp si di) cm k) = Ok (v, Mk_machine (Mk_regs a c d b (sp + 4) bp si di) cm k).
Proof. intros Hw Hv H0 Hlt. by erewrite pop_word. Qed.
Lemma mset_at {A} r v x cm k (f : unit → K machine A) :
  (mset r v ≫= f) (Mk_machine x cm k) = f tt (Mk_machine (rset r v x) cm k).
Proof. reflexivity. Qed.
Ltac pop_step Hw Hx r :=
  erewrite bind_ok by (eapply pop_at; [exact Hw|apply (Hx r)|lia|lia]);
  rewrite ?mset_at; cbn [rset]; apply words_cons in Hw as [_ Hw].

(** ** [pusha] and [popa] *)
Definition saved_regs (x : regs) : list Z :=
  [r_edi x; r_esi x; r_ebp x; r_esp x; r_ebx x; r_edx x; r_ecx x; r_eax x].
Lemma pusha_ok m : room m 8 → pusha m = Ok (tt, stacked m (saved_regs (m_regs m))).
Proof.
  intros Hr. unfold pusha. erewrite bind_ok by (unfold kget; reflexivity).
  rewrite <-(stacked_nil m) at 2.
  do 7 (erewrite bind_ok by (eapply push_stacked; [exact Hr|cbn; lia])).
  by rewrite (push_stacked m 8) by (done || cbn; lia).
Qed.
Lemma popa_ok m x :
  words_at (kmem (m_k m)) (r_esp (m_regs m)) (saved_regs x) → regs_ok x →
  0 ≤ r_esp (m_regs m) → r_esp (m_regs m) + 32 < 2 ^ 32 →
  popa m = Ok (tt, m <| m_regs := rset ESP (r_esp (m_regs m) + 32) x |>).
Proof.
  intros Hw Hx H0 Hlt. unfold saved_regs in Hw. destruct m as [[a c d b sp bp si di] cm k]. cbn [m_regs m_k r_esp] in *.
  unfold popa.
  pop_step Hw Hx EDI. pop_step Hw Hx ESI. pop_step Hw Hx EBP. pop_step Hw Hx ESP.
  pop_step Hw Hx EBX. pop_step Hw Hx EDX. pop_step Hw Hx ECX. pop_step Hw Hx EAX.
  destruct x as [xa xc xd xb xsp xbp xsi xdi]. cbn [r_edi r_esi r_ebp r_esp r_ebx r_edx r_ecx r_eax rset].
  replace (sp + 32) with (sp + 4 + 4 + 4 + 4 + 4 + 4 + 4 + 4) by lia. reflexivity.
Qed.

(** ** An interrupt *)
Section stubs.
Context `{Device} `{Layout} `{Linked}.
Context (handler : irq → K kstate unit) (busy polls : nat) (scancode : Z).
Let stub := stub handler busy polls scancode.
Let c_run := c_run handler busy polls scancode.

(** The machine at the call of the handler. *)
Definition at_handler (m : machine) : machine :=
  stacked (m <| m_k ::= upd kio (λ io, (io <| io_trace ::= cons Cli |>) <| io_if := false |>) |>)
    (saved_regs (m_regs m)).
Definition sti_k (k : kstate) : kstate :=
  k <| kio ::= (λ io, (io <| io_trace ::= cons Sti |>) <| io_if := true |>) |>.

(** The registers behind a call. *)
Lemma c_back_run f v m sp : ebp (kcpu (m_k m)) + ebp_below f = sp → is_u32 sp →
  ∃ x, c_back f v m = Ok (tt, Mk_machine x (m_cmp m) (m_k m)) ∧ r_esp x = sp ∧ r_eax x = u32 v.
Proof using Type.
  intros Hsp Hu. unfold c_back. erewrite bind_ok by (unfold kget; reflexivity).
  rewrite Hsp, (u32_id sp) by done. eexists. split; [by destruct m|]. by destruct (scratch _ _).
Qed.

(** An instruction that does not end the stub. *)
Lemma run_step n i code code' m m' : step handler busy polls scancode i code m = Ok (inr code', m') →
  run handler busy polls scancode (S n) (i :: code) m = run handler busy polls scancode n code' m'.
Proof using Type. intros E. cbn [run]. by erewrite bind_ok by exact E. Qed.
Lemma run_iret n code m : run handler busy polls scancode (S n) (i_iret :: code) m = Ok (Iret, m).
Proof using Type. reflexivity. Qed.

Lemma wrapper_run n f rest m m2 v y sp :
  room m 8 → c_run f (at_handler m) = Ok (Return v, m2) →
  ebp (kcpu (m_k m2)) + ebp_below f = sp → words_at (kmem (m_k m2)) sp (saved_regs y) → regs_ok y →
  0 ≤ sp → sp + 32 < 2 ^ 32 →
  run handler busy polls scancode (6 + n) (wrapper f ++ rest) m =
    Ok (Iret, Mk_machine (rset ESP (sp + 32) y) (m_cmp m2) (sti_k (m_k m2))).
Proof using Type.
  intros Hr Hc Hsp Hw Hy Hsp0 Hlt. unfold wrapper. cbn [Nat.add app].
  erewrite run_step by (cbn [step]; erewrite bind_ok by reflexivity; reflexivity).
  erewrite run_step by (cbn [step]; erewrite bind_ok by (apply pusha_ok; exact Hr); reflexivity).
  destruct (c_back_run f v m2 sp Hsp ltac:(unfold is_u32; lia)) as (x & Eb & Ex & _).
  erewrite run_step by (cbn [step]; erewrite bind_ok by exact Hc; cbn [after_call]; erewrite bind_ok by exact Eb; reflexivity).
  erewrite run_step by (cbn [step]; erewrite bind_ok by (apply (popa_ok _ y); cbn [m_regs m_k]; rewrite ?Ex; done); reflexivity).
  cbn [m_regs]. rewrite Ex. erewrite run_step by (cbn [step]; erewrite bind_ok by reflexivity; reflexivity).
  reflexivity.
Qed.

(** The call of a function that comes back. *)
Definition called (f : cfun) (m : machine) : kstate :=
  (m_k m) <| kcpu ::= (λ c, (c <| esp := r_esp (m_regs m) - esp_below f |>)
    <| ebp := r_esp (m_regs m) - ebp_below f |>) |>.
Lemma c_run_ok f m r k' :
  c_body handler busy polls scancode f (m_regs m) (called f m) = Ok (r, k') → c_run f m = Ok (r, m <| m_k := k' |>).
Proof using Type.
  intros E. unfold c_run, Stubs.c_run. erewrite bind_ok by (unfold kget; reflexivity).
  apply zoom_ok. by rewrite (bind_ok _ _ _ tt (called f m)).
Qed.
Lemma c_run_inv f m r m' : c_run f m = Ok (r, m') →
  ∃ k', c_body handler busy polls scancode f (m_regs m) (called f m) = Ok (r, k') ∧ m' = m <| m_k := k' |>.
Proof using Type.
  unfold c_run, Stubs.c_run. erewrite bind_ok by (unfold kget; reflexivity). unfold on_k, zoom.
  rewrite (bind_ok _ _ _ tt (called f m)) by reflexivity.
  destruct (c_body _ _ _ _ _ _ _) as [[a k]| |]; [|done..]. intros [= <- <-]. by exists k.
Qed.
Lemma void_ok (c : K kstate unit) k k' : c k = Ok (tt, k') → (_ ← c; mret (Return 0)) k = Ok (Return 0, k').
Proof using Type. intros E. by erewrite bind_ok by exact E. Qed.

Lemma stub_pit : ∃ rest, text_at at_pit_handler_wrapper = wrapper F_pit_handler ++ rest.
Proof using Type. eexists. reflexivity. Qed.
Lemma stub_rtc : ∃ rest, text_at at_rtc_handler_wrapper = wrapper F_rtc_handler ++ rest.
Proof using Type. eexists. reflexivity. Qed.

(** ** The words on the stack *)
Lemma stacked_words m ws : words_at (kmem (m_k (stacked m ws))) (r_esp (m_regs m) - 4 * Z.of_nat (length ws)) ws.
Proof using Type. unfold stacked, words_at. apply put_bytes_at. Qed.
Lemma stacked_mem m ws a : ¬ (r_esp (m_regs m) - 4 * Z.of_nat (length ws) ≤ a < r_esp (m_regs m)) →
  kmem (m_k (stacked m ws)) !! a = kmem (m_k m) !! a.
Proof using Type.
  intros Ha. unfold stacked. cbn [m_k kmem upd Set_kmem]. apply put_bytes_outside. rewrite words_length. lia.
Qed.
Lemma at_handler_esp m : r_esp (m_regs (at_handler m)) = r_esp (m_regs m) - 32.
Proof using Type. by destruct m as [[] ? ?]. Qed.
Lemma at_handler_words m : words_at (kmem (m_k (at_handler m))) (r_esp (m_regs m) - 32) (saved_regs (m_regs m)).
Proof using Type. exact (stacked_words (m <| m_k ::= _ |>) (saved_regs (m_regs m))). Qed.
Lemma words_agree m m' a ws : words_at m a ws → (∀ x, a ≤ x < a + 4 * Z.of_nat (length ws) → m' !! x = m !! x) →
  words_at m' a ws.
Proof using Type.
  intros Hw Hm. eapply bytes_at_agree; [|exact Hw]. intros x Hx. rewrite words_length in Hx. apply Hm. lia.
Qed.
End stubs.

(** ** An interrupt that comes back *)
Section interrupt.
Context `{Device} `{Layout} `{Linked}.
Context (handler : irq → K kstate unit) (busy polls : nat) (scancode : Z).

Definition ticked_rtc (r : rtc_t) : rtc_t := Mk_rtc_t 1 (u32 (rtc_interrupt_count r + 1)) (rtc_cur_freq r).
Lemma rtc_handler_run k : ∃ io, rtc_handler k = Ok (tt, (k <| krtc := ticked_rtc (krtc k) |>) <| kio := io |>).
Proof using Type. eexists. by destruct k as [? ? ? ? ? [] ? ? ? ? ? ?]. Qed.

(** C9: a clock interrupt is not noticed by the code it interrupts: its stub
    ends with all registers as they were, interrupts on, no memory changed
    but the 32 bytes below the stack, and no variable but those of the clock,
    which counts the tick and releases a reader. *)
Theorem rtc_interrupt_unnoticed m :
  room m 8 → regs_ok (m_regs m) →
  ∃ m', stub handler busy polls scancode at_rtc_handler_wrapper m = Ok (Iret, m') ∧ m_regs m' = m_regs m ∧
    (∀ a, ¬ (r_esp (m_regs m) - 32 ≤ a < r_esp (m_regs m)) → kmem (m_k m') !! a = kmem (m_k m) !! a) ∧
    io_if (kio (m_k m')) = true ∧
    krtc (m_k m') = Mk_rtc_t 1 (u32 (rtc_interrupt_count (krtc (m_k m)) + 1)) (rtc_cur_freq (krtc (m_k m))) ∧
    (kscr (m_k m'), kterm (m_k m'), kkbd (m_k m'), kproc (m_k m'), kpage (m_k m'), kpages (m_k m')) =
      (kscr (m_k m), kterm (m_k m), kkbd (m_k m), kproc (m_k m), kpage (m_k m), kpages (m_k m)).
Proof using Type.
  intros Hr Hx. pose proof Hr as [He _]. change (4 * Z.of_nat 8) with 32 in He.
  destruct (rtc_handler_run (called F_rtc_handler (at_handler m))) as [io E].
  set (k := called F_rtc_handler (at_handler m)) in *. destruct stub_rtc as [rest Et].
  unfold stub. rewrite Et. change 64%nat with (6 + 58)%nat. set (sp := r_esp (m_regs m) - 32).
  eexists. split; [apply (wrapper_run handler busy polls scancode 58 F_rtc_handler rest m
    ((at_handler m) <| m_k := (k <| krtc := ticked_rtc (krtc k) |>) <| kio := io |> |>) 0 (m_regs m) sp)|].
  - exact Hr.
  - apply c_run_ok. apply void_ok. exact E.
  - change (r_esp (m_regs (at_handler m)) - ebp_below F_rtc_handler + ebp_below F_rtc_handler = sp).
    rewrite at_handler_esp. subst sp. lia.
  - apply at_handler_words.
  - exact Hx.
  - subst sp. lia.
  - subst sp. lia.
  - split; [subst sp; cbn [m_regs]; destruct (m_regs m); cbn; f_equal; lia|].
    split; [intros a Ha; apply (stacked_mem _ (saved_regs (m_regs m)) a Ha)|]. done.
Qed.
End interrupt.

(** ** Preemption *)
Lemma kernel_ok_mem `{Layout} s m i b : kernel_ok s i b → kernel_ok (s <| kmem := m |>) i b.
Proof. by intros []. Qed.
Lemma view_as `{Layout} s s' j : kpage s' = kpage s → kpages s' = kpages s →
  (∀ a, in_prog a → kmem s' !! a = kmem s !! a) → prog_view s' j = prog_view s j.
Proof.
  intros E1 E2 Hm. rewrite <-(view_kernel s (kmem s') j Hm). unfold prog_view.
  cbn [kpage kpages kmem upd Set_kmem]. by rewrite E1, E2.
Qed.

Section preempt.
Context `{Device} `{Layout} (Hlay : layout_ok) `{Linked}.
Context (handler : irq → K kstate unit) (busy polls : nat) (scancode : Z).
Let stub := stub handler busy polls scancode.

(** The stack is the kernel's. *)
Definition kernel_stack (m : machine) (n : nat) : Prop :=
  room m n ∧ ∀ a, r_esp (m_regs m) - 4 * Z.of_nat n ≤ a < r_esp (m_regs m) → ¬ in_prog a.

Let kp (m : machine) : kstate := called F_pit_handler (at_handler m).
Lemma kp_ok m i b : kernel_ok (m_k m) i b → kernel_ok (kp m) i b.
Proof using Type. intros Hk. by eapply kernel_ok_as. Qed.
Lemma kp_mem m a : ¬ (r_esp (m_regs m) - 32 ≤ a < r_esp (m_regs m)) → kmem (kp m) !! a = kmem (m_k m) !! a.
Proof using Type. exact (stacked_mem _ (saved_regs (m_regs m)) a). Qed.
Lemma kp_view m j : kernel_stack m 8 → prog_view (kp m) j = prog_view (m_k m) j.
Proof using Type.
  intros [_ Hs]. apply view_as; [done..|]. intros a Ha. apply kp_mem. intros Hr.
  by apply (Hs a); [lia|].
Qed.

(** A tick through the stub: the words it pushed, and what the handler did. *)
Lemma stub_pit_run m sp y k2 :
  kernel_stack m 8 → pit_handler (kp m) = Ok (tt, k2) →
  ebp (kcpu k2) + ebp_below F_pit_handler = sp → words_at (kmem k2) sp (saved_regs y) → regs_ok y →
  0 ≤ sp → sp + 32 < 2 ^ 32 →
  stub at_pit_handler_wrapper m = Ok (Iret, Mk_machine (rset ESP (sp + 32) y) (m_cmp m) (sti_k k2)).
Proof using Type.
  intros [Hr _] E Hsp Hw Hy Hsp0 Hlt. unfold stub, Stubs.stub. destruct stub_pit as [rest ->].
  change 64%nat with (6 + 58)%nat.
  erewrite (wrapper_run handler busy polls scancode 58 F_pit_handler rest m ((at_handler m) <| m_k := k2 |>) 0 y sp); try done.
  apply c_run_ok. apply void_ok. exact E.
Qed.


(** What the stub leaves of the kernel is what the handler left. *)
Lemma load32_same a m v m' : load32 a m = Ok (v, m') → m' = m.
Proof using Type.
  unfold load32, load8, mbind, K_bind, mret, K_ret.
  destruct (m !! a), (m !! (a + 1)), (m !! (a + 2)), (m !! (a + 3)); by intros [=].
Qed.
Lemma pop_same k : keeps (λ m, m_k m = k) pop.
Proof using Type.
  unfold pop. eapply safe_bind; [apply (safe_get _ _ (λ _, True)); done|]. intros sp _.
  eapply safe_bind; [|intros v _; eapply safe_bind; [by apply safe_mod|intros _ _; by apply safe_ret]].
  instantiate (1 := λ _, True). intros m v m' Hm. unfold on_k, zoom, on_mem, zoom.
  destruct (load32 _ _) as [[w l]| |] eqn:El; [|done..]. intros [= _ <-]. apply load32_same in El as ->.
  split; [|done]. rewrite <-Hm. cbn. by destruct (m_k m).
Qed.
Lemma mset_same k r v : keeps (λ m, m_k m = k) (mset r v).
Proof using Type. by apply safe_mod. Qed.
#[local] Hint Resolve pop_same mset_same : safe.
Lemma popa_same k : keeps (λ m, m_k m = k) popa.
Proof using Type. unfold popa. safe_auto. Qed.
Lemma run_inv n i code m o m' : run handler busy polls scancode (S n) (i :: code) m = Ok (o, m') →
  ∃ r m1, step handler busy polls scancode i code m = Ok (r, m1) ∧
    match r with inl o' => o = o' ∧ m' = m1 | inr c => run handler busy polls scancode n c m1 = Ok (o, m') end.
Proof using Type.
  cbn [run]. intros E. apply bind_run in E as (r & m1 & E1 & E). exists r, m1. split; [done|].
  destruct r; [by injection E as <- <-|done].
Qed.
Lemma stub_pit_inv m o m' : kernel_stack m 8 → stub at_pit_handler_wrapper m = Ok (o, m') →
  ∃ k1, pit_handler (kp m) = Ok (tt, k1) ∧ m_k m' = sti_k k1.
Proof using Type.
  intros [Hr _] E. unfold stub, Stubs.stub in E. destruct stub_pit as [rest Et]. rewrite Et in E. unfold wrapper in E. cbn [app] in E.
  erewrite run_step in E by (cbn [step]; erewrite bind_ok by reflexivity; reflexivity).
  erewrite run_step in E by (cbn [step]; erewrite bind_ok by (apply pusha_ok; exact Hr); reflexivity).
  apply run_inv in E as (r & m1 & E1 & E). cbn [step] in E1.
  apply bind_run in E1 as (c & m2 & E2 & E1). apply c_run_inv in E2 as (k' & Ek & ->). cbn [c_body] in Ek.
  apply bind_run in Ek as ([] & k1 & Ek & [= <- <-]). cbn [after_call] in E1.
  apply bind_run in E1 as ([] & m3 & E3 & [= <- <-]).
  exists k1. split; [exact Ek|].
  assert (m_k m3 = k1) as E4.
  { unfold c_back in E3. apply bind_run in E3 as (? & ? & [= <- <-] & [= <-]). done. }
  apply run_inv in E as (r & m4 & E5 & E). cbn [step] in E5.
  apply bind_run in E5 as ([] & m5 & E5 & [= <- <-]).
  apply (popa_same k1 m3 _ m5 E4) in E5 as [E5 _].
  apply run_inv in E as (r & m6 & E6 & E). cbn [step] in E6.
  apply bind_run in E6 as ([] & m7 & E6 & [= <- <-]). injection E6 as <-.
  apply run_inv in E as (r & m8 & [= <- <-] & [-> ->]). cbn [m_k upd Set_m_k]. by rewrite E5.
Qed.

Lemma turn_unique k c j j' : turn k c j → turn k c j' → j = j'.
Proof using Type.
  intros (d & Hd & Ej & Hr & Hlt) (d' & Hd' & Ej' & Hr' & Hlt').
  assert (d = d') as ->; [|congruence]. destruct (Z.lt_trichotomy d d') as [Hdd|[Hdd|Hdd]]; [|done|].
  - rewrite Ej in Hr. rewrite Hlt' in Hr by lia. done.
  - rewrite Ej' in Hr'. rewrite Hlt in Hr' by lia. done.
Qed.

(** C6: a program that is preempted and later given the processor again goes
    on with the eight registers it had and the memory it had, whatever ran in
    between and left alone its control block, its program memory and the words
    that the stub of the timer pushed on its kernel stack. *)
Theorem preempted_registers_restored m m1 m2 i b i2 b2 :
  kernel_stack m 8 → regs_ok (m_regs m) → kernel_ok (m_k m) i b → 0 ≤ curProc (kproc (m_k m)) < 6 →
  stub at_pit_handler_wrapper m = Ok (Iret, m1) →
  kernel_stack m2 8 → kernel_ok (m_k m2) i2 b2 → i2 ≠ i → 0 ≤ curProc (kproc (m_k m2)) < 6 →
  disjoint_range (r_esp (m_regs m2) - 32) 32 (r_esp (m_regs m) - 32) 32 →
  pcbs (kproc (m_k m2)) !! PCB_ADDR i = pcbs (kproc (m_k m1)) !! PCB_ADDR i →
  prog_view (m_k m2) i = prog_view (m_k m1) i →
  (∀ a, r_esp (m_regs m) - 32 ≤ a < r_esp (m_regs m) → kmem (m_k m2) !! a = kmem (m_k m1) !! a) →
  turn (kproc (m_k m2)) (curProc (kproc (m_k m2))) i →
  ∃ m3, stub at_pit_handler_wrapper m2 = Ok (Iret, m3) ∧ m_regs m3 = m_regs m ∧
    ∀ a, in_prog a → kmem (m_k m3) !! a = kmem (m_k m) !! a.
Proof using Hlay.
  intros Hs Hx Hk Hc E Hs2 Hk2 Hne Hc2 Hdis Hblk Hview Hmem Ht.
  destruct (stub_pit_inv m Iret m1 Hs E) as (k1 & E1 & Em1).
  destruct (pit_handler_run Hlay (kp m) i b (kp_ok m i b Hk) Hc) as (j & bj & k1' & _ & E1' & T & _).
  rewrite E1 in E1'. simplify_eq E1'. intros <-. rewrite Em1 in Hblk, Hview, Hmem.
  destruct (pit_handler_run Hlay (kp m2) i2 b2 (kp_ok m2 i2 b2 Hk2) Hc2) as (j2 & bj2 & k3 & Ht2 & E3 & T3 & _).
  assert (j2 = i) as -> by (eapply turn_unique; [exact Ht2|exact Ht]).
  assert (bj2 = saved (kp m) b) as ->.
  { destruct (ti_used _ _ _ _ _ _ T3) as (_ & _ & Hl). change (kproc (kp m2)) with (kproc (m_k m2)) in Hl.
    rewrite Hblk in Hl. cbn [sti_k kproc upd Set_kio] in Hl. rewrite (ti_proc _ _ _ _ _ _ T) in Hl.
    cbn [pcbs] in Hl. rewrite lookup_insert_eq in Hl. by simplify_eq. }
  pose proof Hs as [[Hr Hmp] Hst]. change (4 * Z.of_nat 8) with 32 in *. set (sp := r_esp (m_regs m) - 32).
  pose proof (kk_range _ _ _ Hk) as Hi.
  assert (∀ a, sp ≤ a < r_esp (m_regs m) → kmem k3 !! a = kmem (kp m) !! a) as Hw.
  { intros a Ha. assert (¬ in_prog a) as Hna by (apply Hst; subst sp; lia).
    rewrite (ti_mem _ _ _ _ _ _ T3) by done. unfold disjoint_range in Hdis. subst sp.
    rewrite kp_mem by lia. rewrite Hmem by lia. cbn [sti_k kmem upd Set_kio].
    apply (ti_mem _ _ _ _ _ _ T). done. }
  eexists. split; [apply (stub_pit_run m2 sp (m_regs m) k3); try done|split].
  - rewrite (ti_switch _ _ _ _ _ _ T3) by done. upd_cbv. unfold saved. upd_cbv.
    change (r_esp (m_regs (at_handler m)) - ebp_below F_pit_handler + ebp_below F_pit_handler = sp).
    rewrite at_handler_esp. subst sp. lia.
  - eapply (words_agree (kmem (kp m))); [apply at_handler_words|].
    intros a Ha. apply Hw. change (4 * Z.of_nat (length (saved_regs (m_regs m)))) with 32 in Ha. subst sp. cbn in Ha |- *. lia.
  - subst sp. lia.
  - subst sp. lia.
  - cbn [m_regs]. subst sp. destruct (m_regs m). cbn. f_equal. lia.
  - intros a Ha. cbn [m_k]. cbn [sti_k kmem upd Set_kio].
    pose proof (ti_kernel _ _ _ _ _ _ T3) as Hk3. rewrite decide_False in Hk3 by done.
    destruct (kk_space _ _ _ Hk) as [v Hsp]. destruct (kk_space _ _ _ Hk3) as [v3 Hs3].
    rewrite (view_shown Hlay k3 i v3 a Hs3 Ha), (view_shown Hlay (m_k m) i v a Hsp Ha).
    rewrite (ti_views _ _ _ _ _ _ T3), kp_view, Hview by done.
    rewrite (view_as k1 (sti_k k1)) by done. rewrite (ti_views _ _ _ _ _ _ T), kp_view by done. done.
Qed.
End preempt.

(** ** Witnesses *)
#[local] Instance ex_dev : Device := ex_device 0.
Definition ex_linked : Linked := {|
  syscall_table_at := 0x500700; esp_below := λ _, 96; ebp_below := λ _, 64;
  scratch := λ x _, x; label_reg := λ _, 0;
|}.
#[local] Existing Instance ex_linked.
Definition ex_handler : irq → K kstate unit := λ _, mret tt.
Definition ex_regs (n a sp : Z) : regs := Mk_regs n 0 0 a sp 0 0 0.
Lemma ex_regs_ok n a sp : is_u32 n → is_u32 a → is_u32 sp → regs_ok (ex_regs n a sp).
Proof. intros Hn Ha Hs []; cbn; try done. Qed.
Definition ex_machine (x : regs) (k : kstate) : machine := Mk_machine x (0, 0) k.

(** The two root shells of [ex_two] with a stack for each; the second was
    preempted with zeros in its registers. *)
Definition ex_preempt : kstate := ex_two <| kmem := put_bytes ex_mem 0x7FDE00 (replicate 256 0) |>.
Lemma ex_preempt_ok : kernel_ok ex_preempt 0 (ex_pcb 1 0 (-1) (-1)).
Proof. exact (kernel_ok_mem ex_two _ _ _ ex_two_kernel_ok). Qed.
Definition ex_before : machine := ex_machine (Mk_regs 1 2 3 4 ex_esp 5 6 7) ex_preempt.
Lemma ex_before_stack : kernel_stack ex_before 8.
Proof.
  split; [split; [change (32 ≤ 0x7FFF00 < 2 ^ 32); lia|]|].
  - change (mapped (put_bytes ex_mem 0x7FDE00 (replicate 256 0)) 0x7FFEE0 32). decide_it.
  - intros a Ha. change (0x7FFEE0 ≤ a < 0x7FFF00) in Ha. unfold in_prog, PROG_VIR_ADDR_START. lia.
Qed.
Lemma ex_before_regs : regs_ok (m_regs ex_before).
Proof. by intros []. Qed.
Lemma ex_ticked : ∃ k1, pit_handler (called F_pit_handler (at_handler ex_before)) = Ok (tt, k1) ∧
  ticked (called F_pit_handler (at_handler ex_before)) 0 (ex_pcb 1 0 (-1) (-1)) 1 ex_second k1.
Proof.
  destruct (pit_handler_run ex_layout_ok (called F_pit_handler (at_handler ex_before)) 0 (ex_pcb 1 0 (-1) (-1)))
    as (j & bj & k1 & Ht & E & T & _).
  - apply kp_ok, ex_preempt_ok.
  - vm_compute. by split.
  - assert (j = 1) as ->.
    { eapply turn_unique; [exact Ht|]. exists 0. split; [done|]. split; [reflexivity|]. split; [vm_compute; reflexivity|]. intros e He. lia. }
    assert (bj = ex_second) as ->; [|by exists k1].
    destruct (ex_two_used 1 bj (ti_used _ _ _ _ _ _ T)) as [[? _]|[_ ?]]; done.
Qed.

(** The second shell goes on with zeros, on the stack it was preempted on. *)
Definition ex_zeros : regs := Mk_regs 0 0 0 0 0 0 0 0.
Definition ex_switched (k1 : kstate) : machine := Mk_machine (rset ESP 0x7FDEA0 ex_zeros) (0, 0) (sti_k k1).
Lemma ex_first_tick k1 :
  pit_handler (called F_pit_handler (at_handler ex_before)) = Ok (tt, k1) →
  ticked (called F_pit_handler (at_handler ex_before)) 0 (ex_pcb 1 0 (-1) (-1)) 1 ex_second k1 →
  (∀ a, 0x7FDE00 ≤ a < 0x7FDF00 → kmem k1 !! a = Some 0) ∧
  stub ex_handler 0 0 0 at_pit_handler_wrapper ex_before = Ok (Iret, ex_switched k1).
Proof.
  intros E T.
  assert (∀ a, 0x7FDE00 ≤ a < 0x7FDF00 → kmem k1 !! a = Some 0) as Hz.
  { intros a Ha. rewrite (ti_mem _ _ _ _ _ _ T) by (unfold in_prog, PROG_VIR_ADDR_START; lia).
    rewrite kp_mem by (change (¬ (0x7FFEE0 ≤ a < 0x7FFF00)); lia).
    change (kmem (m_k ex_before)) with (put_bytes ex_mem 0x7FDE00 (replicate 256 0)).
    rewrite put_bytes_lookup, decide_True by (rewrite length_replicate; lia).
    apply lookup_replicate. split; [done|lia]. }
  split; [exact Hz|].
  apply (stub_pit_run ex_handler 0 0 0 ex_before 0x7FDE80 ex_zeros k1 ex_before_stack E).
  - rewrite (ti_switch _ _ _ _ _ _ T) by done. reflexivity.
  - apply bytes_at_lookup. intros n v Hn.
    assert (words (saved_regs ex_zeros) = replicate 32 0) as Ew by reflexivity. rewrite Ew in Hn.
    apply lookup_replicate in Hn as [-> Hn]. apply Hz. lia.
  - by intros [].
  - lia.
  - lia.
Qed.

Lemma preempted_registers_restored_witness :
  ∃ m1 m3, stub ex_handler 0 0 0 at_pit_handler_wrapper ex_before = Ok (Iret, m1) ∧
    stub ex_handler 0 0 0 at_pit_handler_wrapper m1 = Ok (Iret, m3) ∧ m_regs m3 = m_regs ex_before.
Proof.
  destruct ex_ticked as (k1 & E & T). destruct (ex_first_tick k1 E T) as [Hz E1].
  pose proof (ti_kernel _ _ _ _ _ _ T) as Hk1. rewrite decide_False in Hk1 by done.
  pose proof (ti_proc _ _ _ _ _ _ T) as Hproc.
  edestruct (preempted_registers_restored ex_layout_ok ex_handler 0 0 0 ex_before (ex_switched k1) (ex_switched k1) 0
    (ex_pcb 1 0 (-1) (-1)) 1) as (m3 & E3 & Er & _).
  - exact ex_before_stack.
  - exact ex_before_regs.
  - exact ex_preempt_ok.
  - change (0 ≤ 1 < 6). lia.
  - exact E1.
  - split; [split; [change (32 ≤ 0x7FDEA0 < 2 ^ 32); lia|]|].
    + change (mapped (kmem k1) 0x7FDE80 32). apply mapped_spec. intros a Ha. rewrite Hz by lia. done.
    + intros a Ha. change (0x7FDE80 ≤ a < 0x7FDEA0) in Ha. unfold in_prog, PROG_VIR_ADDR_START. lia.
  - apply kernel_ok_io. exact Hk1.
  - done.
  - change (0 ≤ curProc (kproc k1) < 6). rewrite Hproc. change (0 ≤ 2 < 6). lia.
  - left. change (0x7FDE80 + 32 ≤ 0x7FFEE0). lia.
  - reflexivity.
  - reflexivity.
  - reflexivity.
  - change (turn (kproc k1) (curProc (kproc k1)) 0). rewrite Hproc. cbn [curProc].
    exists 4. split; [lia|]. split; [reflexivity|]. split; [vm_compute; reflexivity|].
    intros e He. assert (e = 0 ∨ e = 1 ∨ e = 2 ∨ e = 3) as [->|[->|[->| ->]]] by lia; vm_compute; reflexivity.
  - exists (ex_switched k1), m3. split; [exact E1|]. split; [exact E3|exact Er].
Defined.

Lemma rtc_interrupt_unnoticed_witness :
  ∃ m', stub ex_handler 0 0 0 at_rtc_handler_wrapper ex_before = Ok (Iret, m') ∧
    m_regs m' = Mk_regs 1 2 3 4 ex_esp 5 6 7 ∧ krtc (m_k m') = Mk_rtc_t 1 1 2.
Proof.
  destruct (rtc_interrupt_unnoticed ex_handler 0 0 0 ex_before) as (m' & E & Er & _ & _ & Ec & _).
  - apply ex_before_stack.
  - exact ex_before_regs.
  - exists m'. split; [exact E|]. split; [exact Er|exact Ec].
Defined.
