(* ===== verification/StubCalls.v ===== *)
(** * The stub of the system calls

    It runs the function of the table on the registers and gives them back,
    [eax] apart, to the caller or to the parent of a program that halts. *)

From S2P Require Import Prelude CInt Memory State Screen Paging PagingInit Translate.
From S2P Require Import Process Syscalls Boot Views ProcTable ProcessSpec HaltSpec.
From S2P Require Import Example ScheduleSpec Typed Stubs StubSpec.

Section calls.
Context `{Device} `{Layout} `{Linked}.
Context (handler : irq → K kstate unit) (busy polls : nat) (scancode : Z).
Let stub := stub handler busy polls scancode.
Let run := run handler busy polls scancode.
Let c_run := c_run handler busy polls scancode.

(** What the stub pushes. *)
Definition call_words (x : regs) : list Z := [r_ebx x; r_ecx x; r_edx x; r_edi x; r_esi x; r_ebp x; r_esp x].

Lemma run_pushl k n r code m ws : room m n → (length ws < n)%nat → r ≠ ESP →
  run (S k) (i_pushl r :: code) (stacked m ws) = run k code (stacked m (rget r (m_regs m) :: ws)).
Proof using Type.
  intros Hr Hl Hne. apply run_step. cbn [step]. unfold mget. erewrite bind_ok by (unfold kget; reflexivity).
  change (rget r (m_regs (stacked m ws))) with
    (rget r (rset ESP (r_esp (m_regs m) - 4 * Z.of_nat (length ws)) (m_regs m))).
  rewrite rget_rset, decide_False by done. by erewrite bind_ok by (eapply push_stacked; [exact Hr|exact Hl]).
Qed.
Lemma run_pushl_esp k n code m : room m n → (0 < n)%nat →
  run (S k) (i_pushl ESP :: code) m = run k code (stacked m [r_esp (m_regs m)]).
Proof using Type.
  intros Hr Hl. apply run_step. cbn [step]. unfold mget. erewrite bind_ok by (unfold kget; reflexivity).
  rewrite <-(stacked_nil m) at 2. by erewrite bind_ok by (eapply push_stacked; [exact Hr|exact Hl]).
Qed.
Lemma run_popl k r code a c d b sp bp si di cm kk v ws :
  words_at (kmem kk) sp (v :: ws) → is_u32 v → 0 ≤ sp → sp + 4 < 2 ^ 32 →
  run (S k) (i_popl r :: code) (Mk_machine (Mk_regs a c d b sp bp si di) cm kk) =
  run k code (Mk_machine (rset r v (Mk_regs a c d b (sp + 4) bp si di)) cm kk).
Proof using Type.
  intros Hw Hv Hsp Hlt. apply run_step. cbn [step].
  by erewrite bind_ok by (eapply pop_at; [exact Hw|exact Hv|lia|lia]).
Qed.

(** One [popl] of the exit. *)
Ltac exit_step Hw Hy r :=
  erewrite run_popl by (exact Hw || apply (Hy r) || lia); cbn [rset]; apply words_cons in Hw as [_ Hw].
(** [syscall_exit]: the registers of the words on the stack. *)
Lemma run_exit k m y :
  words_at (kmem (m_k m)) (r_esp (m_regs m)) (call_words y) → regs_ok y →
  0 ≤ r_esp (m_regs m) → r_esp (m_regs m) + 28 < 2 ^ 32 →
  run (8 + k) (text_at at_syscall_exit) m =
    Ok (Iret, Mk_machine (rset EAX (r_eax (m_regs m)) y) (m_cmp m) (m_k m)).
Proof using Type.
  intros Hw Hy Hsp0 Hlt. unfold call_words in Hw. destruct m as [[a c d b sp bp si di] cm kk].
  cbn [m_regs m_k m_cmp r_esp r_eax] in *. change (text_at at_syscall_exit) with
    [i_popl EBX; i_popl ECX; i_popl EDX; i_popl EDI; i_popl ESI; i_popl EBP; i_popl ESP; i_iret].
  cbn [Nat.add].
  exit_step Hw Hy EBX. exit_step Hw Hy ECX. exit_step Hw Hy EDX. exit_step Hw Hy EDI.
  exit_step Hw Hy ESI. exit_step Hw Hy EBP. exit_step Hw Hy ESP.
  unfold run. rewrite run_iret. by destruct y.
Qed.

(** The machine at the [call] of the table. *)
Definition at_call (m : machine) : machine :=
  let mc := stacked m (call_words (m_regs m)) in
  Mk_machine (rset EDI syscall_table_at (rset EAX (r_eax (m_regs m) - 1) (m_regs mc)))
    (s32 (r_eax (m_regs m)) - 1, 0) (m_k mc).
Definition table_ok : Prop := 0 ≤ syscall_table_at ∧ syscall_table_at + 40 ≤ 2 ^ 32.
Definition call_tail : list instr := i_jmp at_syscall_exit :: text_at at_syscall_invalid_number.

Lemma run_entry k m : room m 7 → regs_ok (m_regs m) → table_ok →
  1 ≤ r_eax (m_regs m) ≤ 10 →
  ∃ f, zlookup syscall_table (r_eax (m_regs m) - 1) = Some f ∧
  run (14 + k) (text_at at_syscall_handler) m =
    (r ← (r ← c_run f; after_call f r call_tail);
     match r with inl o => mret o | inr code => run k code end) (at_call m).
Proof using Type.
  intros Hr Hx Ht Hn. change (text_at at_syscall_handler) with
    ([i_pushl ESP; i_pushl EBP; i_pushl ESI; i_pushl EDI; i_pushl EDX; i_pushl ECX; i_pushl EBX;
       i_cmpl 1 EAX; i_jl at_syscall_invalid_number; i_cmpl 10 EAX; i_jg at_syscall_invalid_number;
       i_decl EAX; i_movl syscall_table_at EDI; i_call_at EDI EAX] ++ call_tail).
  cbn [Nat.add app]. rewrite (run_pushl_esp _ 7) by (done || lia).
  do 6 (erewrite run_pushl by (exact Hr || done || (cbn; lia))).
  assert (∃ f, zlookup syscall_table (r_eax (m_regs m) - 1) = Some f) as [f Hf].
  { assert (is_Some (zlookup syscall_table (r_eax (m_regs m) - 1))) as [f Hf]; [|by exists f].
    apply zlookup_is_Some. cbn. lia. }
  exists f. split; [exact Hf|].
  set (n := r_eax (m_regs m)) in *. set (mc := stacked m (call_words (m_regs m))).
  assert (rget EAX (m_regs mc) = n) as Ea by (unfold mc, stacked; cbn [m_regs]; by rewrite rget_rset).
  assert (s32 n = n) as Es by (apply s32_id; unfold is_s32; lia).
  (* the checks of the number *)
  set (cmp := λ v, mc <| m_cmp := (n, v) |>).
  assert (∀ v k code, run (S k) (i_cmpl v EAX :: code) mc = run k code (cmp v)) as Hcmp.
  { intros v k0 code. apply run_step. cbn [step]. unfold mget. erewrite bind_ok by (unfold kget; reflexivity).
    rewrite Ea, Es. reflexivity. }
  assert (∀ v w k code, run (S k) (i_cmpl v EAX :: code) (cmp w) = run k code (cmp v)) as Hcmp'.
  { intros v w k0 code. apply run_step. cbn [step]. unfold mget. erewrite bind_ok by (unfold kget; reflexivity).
    change (m_regs (cmp w)) with (m_regs mc). rewrite Ea, Es. reflexivity. }
  rewrite Hcmp. unfold run.
  rewrite (run_step _ _ _ _ _ _ _ (i_cmpl 10 EAX :: i_jg at_syscall_invalid_number :: i_decl EAX
      :: i_movl syscall_table_at EDI :: i_call_at EDI EAX :: call_tail) _ (cmp 1)).
  2: { cbn [step]. erewrite bind_ok by (unfold kget; reflexivity). cbn [cmp m_cmp upd Set_m_cmp fst snd].
       by rewrite bool_decide_eq_false_2 by lia. }
  fold run. rewrite Hcmp'. unfold run.
  rewrite (run_step _ _ _ _ _ _ _ (i_decl EAX
      :: i_movl syscall_table_at EDI :: i_call_at EDI EAX :: call_tail) _ (cmp 10)).
  2: { cbn [step]. erewrite bind_ok by (unfold kget; reflexivity). cbn [cmp m_cmp upd Set_m_cmp fst snd].
       by rewrite bool_decide_eq_false_2 by lia. }
  (* the index and the table *)
  erewrite run_step.
  2: { cbn [step]. unfold mget. erewrite bind_ok by (unfold kget; reflexivity).
       change (m_regs (cmp 10)) with (m_regs mc). rewrite Ea, u32_id, Es by (unfold is_u32; lia).
       do 2 erewrite bind_ok by reflexivity. reflexivity. }
  erewrite run_step.
  2: { cbn [step]. erewrite bind_ok by reflexivity. reflexivity. }
  match goal with |- Stubs.run _ _ _ _ _ _ ?m' = _ => assert (m' = at_call m) as -> end.
  { unfold at_call, cmp, mc. fold n. rewrite (u32_id syscall_table_at), Es by (unfold is_u32; destruct Ht; lia). reflexivity. }
  assert (step handler busy polls scancode (i_call_at EDI EAX) call_tail (at_call m) =
    (r ← c_run f; after_call f r call_tail) (at_call m)) as Estep.
  { cbn [step]. unfold mget. do 2 erewrite bind_ok by (unfold kget; reflexivity). cbv zeta.
    assert (rget EDI (m_regs (at_call m)) = syscall_table_at ∧ rget EAX (m_regs (at_call m)) = n - 1) as [-> ->].
    { unfold at_call. cbn [m_regs]. by rewrite !rget_rset. }
    rewrite u32_id by (unfold is_u32; destruct Ht; lia).
    replace (syscall_table_at + 4 * (n - 1) - syscall_table_at) with ((n - 1) * 4) by lia.
    rewrite Z.mod_mul, Z.div_mul, bool_decide_eq_true_2, Hf by done. by erewrite bind_ok by reflexivity. }
  unfold mbind at 1, K_bind at 1. cbn [Stubs.run]. unfold mbind at 1, K_bind at 1. by rewrite Estep.
Qed.

(** The functions of the table take the words on the stack for arguments. *)
Lemma arg_word esp n k w ws : words_at (kmem k) (esp + 4 * n) (w :: ws) → is_u32 w → is_u32 (esp + 4 * n) →
  arg esp n k = Ok (w, k).
Proof using Type.
  intros [Hw _]%words_cons Hu He. unfold arg. rewrite u32_id by done. by apply on_mem_pure, load32_le32.
Qed.
Lemma c_body_dispatch f x y k :
  zlookup syscall_table (r_eax y - 1) = Some f → words_at (kmem k) (r_esp x) (call_words y) → regs_ok y →
  r_ebx x = r_ebx y → 0 ≤ r_esp x → r_esp x + 28 < 2 ^ 32 →
  c_body handler busy polls scancode f x k =
    syscall_dispatch handler busy polls scancode (r_eax y) (r_ebx y) (r_ecx y) (r_edx y) k.
Proof using Type.
  intros Hf Hw Hy Hb Hsp0 Hlt. unfold call_words in Hw.
  assert (arg (r_esp x) 0 k = Ok (r_ebx y, k)) as A0.
  { eapply arg_word; [rewrite Z.add_0_r; exact Hw|apply (Hy EBX)|unfold is_u32; lia]. }
  apply words_cons in Hw as [_ Hw].
  assert (arg (r_esp x) 1 k = Ok (r_ecx y, k)) as A1.
  { eapply arg_word; [exact Hw|apply (Hy ECX)|unfold is_u32; lia]. }
  apply words_cons in Hw as [_ Hw].
  assert (arg (r_esp x) 2 k = Ok (r_edx y, k)) as A2.
  { eapply arg_word; [|apply (Hy EDX)|unfold is_u32; lia].
    replace (r_esp x + 4 * 2) with (r_esp x + 4 + 4) by lia. exact Hw. }
  assert (is_Some (zlookup syscall_table (r_eax y - 1))) as Hr%zlookup_is_Some by (by rewrite Hf).
  cbn [syscall_table length] in Hr. destruct y as [n c d b sp bp si di]. cbn [r_eax r_ebx r_ecx r_edx] in *.
  assert (n = 1 ∨ n = 2 ∨ n = 3 ∨ n = 4 ∨ n = 5 ∨ n = 6 ∨ n = 7 ∨ n = 8 ∨ n = 9 ∨ n = 10) as Hn by lia.
  destruct Hn as [->|[->|[->|[->|[->|[->|[->|[->|[->| ->]]]]]]]]]; injection Hf as <-; cbn [c_body];
    rewrite ?Hb; repeat (erewrite bind_ok by (exact A0 || exact A1 || exact A2)); reflexivity.
Qed.

(** The state in which the function starts. *)
Definition call_k (m : machine) (f : cfun) : kstate := called f (at_call m).
Lemma at_call_esp m : r_esp (m_regs (at_call m)) = r_esp (m_regs m) - 28.
Proof using Type. by destruct m as [[] ? ?]. Qed.
Lemma at_call_words m : words_at (kmem (m_k (at_call m))) (r_esp (m_regs m) - 28) (call_words (m_regs m)).
Proof using Type. exact (stacked_words m (call_words (m_regs m))). Qed.

(** Behind the call: [jmp syscall_exit], with the stack and value that
    [after_call] found. *)
Lemma call_returns k code m y v f sp :
  ebp (kcpu (m_k m)) + ebp_below f = sp → words_at (kmem (m_k m)) sp (call_words y) → regs_ok y →
  0 ≤ sp → sp + 28 < 2 ^ 32 → (code = text_at at_syscall_exit ∨ code = call_tail) →
  (_ ← c_back f v; run (9 + k) code) m = Ok (Iret, Mk_machine (rset EAX (u32 v) y) (m_cmp m) (m_k m)).
Proof using Type.
  intros Hsp Hw Hy Hsp0 Hlt Hcode. destruct (c_back_run f v m sp Hsp ltac:(unfold is_u32; lia)) as (x & E & Ex & Ea).
  erewrite bind_ok by exact E. rewrite <-Ea.
  assert (∀ k, run (8 + k) (text_at at_syscall_exit) (Mk_machine x (m_cmp m) (m_k m)) =
    Ok (Iret, Mk_machine (rset EAX (r_eax x) y) (m_cmp m) (m_k m))) as Hx.
  { intros k0. apply (run_exit k0 (Mk_machine x (m_cmp m) (m_k m))); cbn [m_regs m_k]; rewrite ?Ex; done. }
  destruct Hcode as [->| ->]; [exact (Hx (S k))|]. cbn [Nat.add]. unfold run, call_tail.
  erewrite run_step by reflexivity. exact (Hx k).
Qed.

Lemma go_bind {B} (c : K machine unit) code (g : outcome + list instr → K machine B) m :
  ((_ ← c; go code) ≫= g) m = (_ ← c; g (inr code)) m.
Proof using Type. unfold mbind, K_bind. by destruct (c m) as [[? ?]| |]. Qed.
Lemma bind_assoc_run {A B C} (c : K machine A) (f : A → K machine B) (g : B → K machine C) m a m' :
  c m = Ok (a, m') → ((r ← c; f r) ≫= g) m = (f a ≫= g) m'.
Proof using Type. unfold mbind, K_bind. by intros ->. Qed.

Lemma syscall_stub_run m r k1 f :
  room m 7 → regs_ok (m_regs m) → table_ok → zlookup syscall_table (r_eax (m_regs m) - 1) = Some f →
  syscall_dispatch handler busy polls scancode (r_eax (m_regs m)) (r_ebx (m_regs m)) (r_ecx (m_regs m))
    (r_edx (m_regs m)) (call_k m f) = Ok (r, k1) →
  match r with
  | Return v => ebp (kcpu k1) = ebp (kcpu (call_k m f)) →
      (∀ a, r_esp (m_regs m) - 28 ≤ a < r_esp (m_regs m) → kmem k1 !! a = kmem (call_k m f) !! a) →
      ∃ m', stub at_syscall_handler m = Ok (Iret, m') ∧ m_regs m' = rset EAX (u32 v) (m_regs m) ∧ m_k m' = k1
  | Enter ip sp => ∃ m', stub at_syscall_handler m = Ok (Enter_user ip sp, m') ∧ m_k m' = k1
  | Resume v => ∀ y, regs_ok y → 28 ≤ r_esp y →
      ebp (kcpu k1) = r_esp y - 28 - ebp_below F_sys_execute → words_at (kmem k1) (r_esp y - 28) (call_words y) →
      ∃ m', stub at_syscall_handler m = Ok (Iret, m') ∧
        m_regs m' = rset EAX (u32 (halt_return (label_reg k1) v)) y ∧ m_k m' = k1
  end.
Proof using Type.
  intros Hr Hx Ht Hf E.
  assert (is_Some (zlookup syscall_table (r_eax (m_regs m) - 1))) as Hn%zlookup_is_Some by (by rewrite Hf).
  cbn [syscall_table length] in Hn. pose proof Hr as [Hesp _].
  destruct (run_entry 50 m Hr Hx Ht ltac:(lia)) as (f' & Hf' & Erun). rewrite Hf in Hf'. simplify_eq Hf'. intros <-.
  assert (c_run f (at_call m) = Ok (r, (at_call m) <| m_k := k1 |>)) as Ec.
  { apply c_run_ok. erewrite c_body_dispatch; [exact E|exact Hf|..].
    - rewrite at_call_esp. apply at_call_words.
    - done.
    - by destruct m as [[] ? ?].
    - rewrite at_call_esp. lia.
    - rewrite at_call_esp. lia. }
  change (stub at_syscall_handler) with (run (14 + 50) (text_at at_syscall_handler)). rewrite Erun.
  rewrite (bind_assoc_run _ _ _ _ _ _ Ec). set (m1 := (at_call m) <| m_k := k1 |>) in *.
  destruct r as [v|ip sp|v]; cbn [after_call].
  - intros Hbp Hmem. rewrite go_bind.
    eexists. split; [apply (call_returns 41 _ m1 (m_regs m) v f (r_esp (m_regs m) - 28))|]; try done; try lia.
    + cbn [m1 m_k upd Set_m_k]. rewrite Hbp. unfold call_k, called. cbn [kcpu ebp upd Set_kcpu Set_ebp Set_esp].
      rewrite at_call_esp. lia.
    + eapply words_agree; [apply at_call_words|]. intros a Ha. apply Hmem. cbn in Ha. lia.
    + by right.
  - eexists. split; reflexivity.
  - intros y Hy Hy28 Hbp Hw. rewrite (bind_assoc_run (kget m_k) _ _ m1 k1 m1 eq_refl). rewrite go_bind.
    pose proof (Hy ESP) as Hysp. unfold is_u32 in Hysp. cbn [rget] in Hysp.
    eexists. split; [apply (call_returns 41 _ m1 y _ F_sys_execute (r_esp y - 28))|]; try done; try lia.
    + cbn [m1 m_k upd Set_m_k]. lia.
    + by left.
Qed.
(** C7: [syscall_handler] of [idt.S] implements the dispatcher: it runs the
    function that the table has for the number, on the registers of the
    caller, and when that comes back on its frame with the pushed words in
    place, the caller has all its registers back but [eax], which is the
    result. A call that starts a program goes there. A call that ends one
    returns for the parent: with the parent's registers, and the status. *)
Theorem syscall_stub_dispatches m r k1 f :
  room m 7 → regs_ok (m_regs m) → table_ok → zlookup syscall_table (r_eax (m_regs m) - 1) = Some f →
  syscall_dispatch handler busy polls scancode (r_eax (m_regs m)) (r_ebx (m_regs m)) (r_ecx (m_regs m))
    (r_edx (m_regs m)) (call_k m f) = Ok (r, k1) →
  match r with
  | Return v => ebp (kcpu k1) = ebp (kcpu (call_k m f)) →
      (∀ a, r_esp (m_regs m) - 28 ≤ a < r_esp (m_regs m) → kmem k1 !! a = kmem (call_k m f) !! a) →
      ∃ m', stub at_syscall_handler m = Ok (Iret, m') ∧ m_regs m' = rset EAX (u32 v) (m_regs m) ∧ m_k m' = k1
  | Enter ip sp => ∃ m', stub at_syscall_handler m = Ok (Enter_user ip sp, m') ∧ m_k m' = k1
  | Resume v => ∀ y, regs_ok y → 28 ≤ r_esp y →
      ebp (kcpu k1) = r_esp y - 28 - ebp_below F_sys_execute → words_at (kmem k1) (r_esp y - 28) (call_words y) →
      ∃ m', stub at_syscall_handler m = Ok (Iret, m') ∧
        m_regs m' = rset EAX (u32 (halt_return (label_reg k1) v)) y ∧ m_k m' = k1
  end.
Proof using Type. apply syscall_stub_run. Qed.

(** C8: a program that halts gives its parent back the registers that it had at
    its [execute] call, but for [eax], which is the status (or 256 by the
    register that [halt_ret_label] compares): the stub runs [sys_halt] on the
    child's stack and ends on the words that the parent's stub pushed on the
    parent's, which is again the process that runs. *)
Theorem halt_restores_parent_registers m i b y :
  layout_ok → room m 7 → regs_ok (m_regs m) → table_ok → r_eax (m_regs m) = 1 →
  kernel_ok (m_k m) i b → parent_pid b ≠ -1 →
  regs_ok y → 28 ≤ r_esp y → (∀ a, r_esp y - 28 ≤ a < r_esp y → ¬ in_prog a) →
  parent_ebp b = r_esp y - 28 - ebp_below F_sys_execute → words_at (kmem (m_k m)) (r_esp y - 28) (call_words y) →
  disjoint_range (r_esp (m_regs m) - 28) 28 (r_esp y - 28) 28 →
  ∃ m' o, stub at_syscall_handler m = Ok (Iret, m') ∧
    m_regs m' = rset EAX (u32 (halt_return (label_reg (m_k m')) (u8 (r_ebx (m_regs m))))) y ∧
    kernel_ok (m_k m') (parent_pid b) o.
Proof using Type.
  intros Hlay Hr Hx Ht Ha Hk Hp Hy Hy28 Hprog Hbp Hw Hdis.
  destruct (parent_used _ _ i b (kk_table _ _ _ Hk) (kk_used _ _ _ Hk) Hp (kk_leaf _ _ _ Hk)) as (o & Hpu & _ & _).
  assert (kernel_ok (call_k m F_sys_halt) i b) as Hk' by (by eapply kernel_ok_as).
  destruct (sys_halt_run (call_k m F_sys_halt) i b _ o (r_ebx (m_regs m)) Hlay Hk' eq_refl Hp Hpu) as (k1 & E & Hh).
  pose proof (syscall_stub_run m (Resume (u8 (r_ebx (m_regs m)))) k1 F_sys_halt Hr Hx Ht) as Hrun.
  rewrite Ha in Hrun. destruct (Hrun eq_refl E y Hy Hy28) as (m' & Es & Er & Em).
  - rewrite (ha_cpu _ _ _ _ _ _ _ Hh). exact Hbp.
  - eapply words_agree; [exact Hw|]. intros a Hra. cbn in Hra. unfold disjoint_range in Hdis.
    rewrite (ha_mem _ _ _ _ _ _ _ Hh) by (apply Hprog; lia).
    apply (stacked_mem m (call_words (m_regs m))). cbn. lia.
  - exists m', (o <| child_pid := -1 |>). split; [exact Es|]. split; [by rewrite Er, Em|].
    rewrite Em. apply Hh.
Qed.
End calls.

(** ** Witnesses *)
#[local] Instance ex_dev : Device := ex_device 0.
#[local] Existing Instance ex_linked.
(** Kernel stacks of two processes, with the words of [ex_parent] on the
    first. *)
Definition ex_parent : regs := Mk_regs 2 3 4 5 ex_esp 6 7 8.
Definition ex_stacks : mem :=
  put_bytes (put_bytes ex_mem 0x7FDE00 (replicate 256 0)) (ex_esp - 28) (words (call_words ex_parent)).

Definition ex_child_block : pcb_t := (ex_pcb 1 1 0 (-1)) <| parent_ebp := ex_esp - 28 - 64 |>.
Definition ex_halting : kstate :=
  (ex_child <| kproc ::= (λ k, k <| pcbs ::= insert (PCB_ADDR 1) ex_child_block |>) |>) <| kmem := ex_stacks |>.
Lemma ex_halting_ok : kernel_ok ex_halting 1 ex_child_block.
Proof.
  pose proof ex_child_kernel_ok as Hk. split.
  - reflexivity.
  - split; [done|]. split; [reflexivity|]. apply lookup_insert_eq.
  - reflexivity.
  - exact (kk_space _ _ _ Hk).
  - exact (kk_paging _ _ _ Hk).
  - exact (kk_pages _ _ _ Hk).
  - eapply (table_block (kproc ex_child) _ 1 (ex_pcb 1 1 0 (-1)) ex_child_block); try done; apply Hk.
  - exact (kk_started _ _ _ Hk).
  - exact (kk_term _ _ _ Hk).
Qed.

Lemma halt_restores_parent_registers_witness :
  ∃ m' o, stub ex_handler 0 0 0 at_syscall_handler (ex_machine (ex_regs 1 7 0x7FDF00) ex_halting) = Ok (Iret, m') ∧
    m_regs m' = rset EAX 7 ex_parent ∧ kernel_ok (m_k m') 0 o.
Proof.
  edestruct (halt_restores_parent_registers ex_handler 0 0 0 (ex_machine (ex_regs 1 7 0x7FDF00) ex_halting) 1
    ex_child_block ex_parent ex_layout_ok) as (m' & o & E & Er & Hk).
  - split; [cbn; lia|]. change (mapped ex_stacks 0x7FDEE4 28). decide_it.
  - by apply ex_regs_ok.
  - by split.
  - reflexivity.
  - exact ex_halting_ok.
  - done.
  - by intros [].
  - done.
  - intros a Ha. unfold in_prog, PROG_VIR_ADDR_START. change (0x7FFEE4 ≤ a < 0x7FFF00) in Ha. lia.
  - reflexivity.
  - exact (put_bytes_at _ _ _).
  - left. change (0x7FDEE4 + 28 ≤ 0x7FFEE4). lia.
  - exists m', o. split; [exact E|]. split; [exact Er|exact Hk].
Defined.

Lemma syscall_stub_dispatches_witness :
  ∃ m', stub ex_handler 0 0 0 at_syscall_handler (ex_machine (ex_regs 6 9 0x7FDF00) ex_halting) = Ok (Iret, m') ∧
    m_regs m' = rset EAX (u32 (-1)) (ex_regs 6 9 0x7FDF00) ∧
    m_k m' = call_k (ex_machine (ex_regs 6 9 0x7FDF00) ex_halting) F_sys_close.
Proof.
  apply (syscall_stub_dispatches ex_handler 0 0 0 (ex_machine (ex_regs 6 9 0x7FDF00) ex_halting) (Return (-1))
    (call_k (ex_machine (ex_regs 6 9 0x7FDF00) ex_halting) F_sys_close) F_sys_close).
  - split; [cbn; lia|]. change (mapped ex_stacks 0x7FDEE4 28). decide_it.
  - by apply ex_regs_ok.
  - by split.
  - reflexivity.
  - reflexivity.
  - reflexivity.
  - reflexivity.
Defined.
