(* ===== verification/Entry.v ===== *)
(** * [entry] of [kernel.c]: from the boot loader to the first shell

    The report of the multiboot structure ([multiboot.h]), the descriptor
    tables and their registers, then the devices and the shell of [Boot]. *)

From S2P Require Import Prelude CInt Memory CString State I8259 Screen Printf Process.
From S2P Require Import Boot.

(** The fields of [multiboot_info_t], of its [elf_sec], of [module_t] and of
    [memory_map_t], by the address of the structure. *)
Definition mbi_flags (a : Z) : Z := a.
Definition mbi_mem_lower (a : Z) : Z := a + 4.
Definition mbi_mem_upper (a : Z) : Z := a + 8.
Definition mbi_boot_device (a : Z) : Z := a + 12.
Definition mbi_cmdline (a : Z) : Z := a + 16.
Definition mbi_mods_count (a : Z) : Z := a + 20.
Definition mbi_mods_addr (a : Z) : Z := a + 24.
Definition mbi_elf_sec (a k : Z) : Z := a + 28 + 4 * k.
Definition mbi_mmap_length (a : Z) : Z := a + 44.
Definition mbi_mmap_addr (a : Z) : Z := a + 48.
Definition mod_field (a k : Z) : Z := a + 4 * k.
Definition mmap_field (a k : Z) : Z := a + 4 * k.

(** The strings of the report. *)
Definition msg_magic : list Z := chars "Invalid magic number: 0x%#x" ++ newline.
Definition msg_flags : list Z := chars "flags = 0x%#x" ++ newline.
Definition msg_mem : list Z := chars "mem_lower = %uKB, mem_upper = %uKB" ++ newline.
Definition msg_boot_device : list Z := chars "boot_device = 0x%#x" ++ newline.
Definition msg_cmdline : list Z := chars "cmdline = %s" ++ newline.
Definition msg_module : list (list Z) :=
  [ chars "string in module %d is : %s" ++ newline;
    chars "Module %d loaded at address: 0x%#x" ++ newline;
    chars "Module %d ends at address: 0x%#x" ++ newline;
    chars "First few bytes of module:" ++ newline ].
Definition msg_byte : list Z := chars "0x%x ".
Definition msg_both : list Z := chars "Both bits 4 and 5 are set." ++ newline.
Definition msg_elf : list Z :=
  chars "elf_sec: num = %u, size = 0x%#x, addr = 0x%#x, shndx = 0x%#x" ++ newline.
Definition msg_mmap : list Z := chars "mmap_addr = 0x%#x, mmap_length = 0x%x" ++ newline.
Definition msg_map : list Z :=
  chars " size = 0x%x,     base_addr = 0x%#x%#x" ++ newline ++
  chars "     type = 0x%x,  length    = 0x%#x%#x" ++ newline.

(** [CHECK_FLAG] *)
Definition CHECK_FLAG (flags bit : Z) : bool := bool_decide (Z.land flags (Z.shiftl 1 bit) ≠ 0).

Section report.
Context `{Layout}.

Definition word (a : Z) : K kstate Z := on_mem (load32 a).
Definition print (fmt args : list Z) : K kstate unit := _ ← printf fmt args; mret tt.
(** A field that is read and printed when its flag is set. *)
Definition flagged (mbi bit : Z) (report : K kstate unit) : K kstate unit :=
  flags ← word (mbi_flags mbi); if CHECK_FLAG flags bit then report else mret tt.

(** One module: its string and addresses, and its first 16 bytes as [char]s. *)
Definition report_module (mod_count m : Z) : K kstate unit :=
  string ← word (mod_field m 2);
  _ ← print (nth 0 msg_module []) [mod_count; string];
  mod_start ← word (mod_field m 0);
  _ ← print (nth 1 msg_module []) [mod_count; mod_start];
  mod_end ← word (mod_field m 1);
  _ ← print (nth 2 msg_module []) [mod_count; mod_end];
  _ ← print (nth 3 msg_module []) [];
  _ ← for_loop 16 0 (λ i,
        mod_start ← word (mod_field m 0);
        c ← on_mem (load8 (u32 (mod_start + i)));
        print msg_byte [s8 c]);
  print newline [].
(** [while(mod_count < mbi->mods_count)]. An iteration reads a structure at a
    new address. *)
Fixpoint report_modules (fuel : nat) (mbi mod_count m : Z) : K kstate unit :=
  match fuel with
  | O => kspin
  | S fuel' =>
      mods_count ← word (mbi_mods_count mbi);
      if bool_decide (mod_count < mods_count) then
        _ ← report_module mod_count m;
        report_modules fuel' mbi (mod_count + 1) (m + 16)
      else mret tt
  end.

(** The memory map: [maps] bounds its entries. An entry gives the distance to
    the next, so that the loop of the code can run round the address space. *)
Fixpoint report_maps (maps : nat) (mbi mmap : Z) : K kstate unit :=
  match maps with
  | O => kspin
  | S maps' =>
      mmap_addr ← word (mbi_mmap_addr mbi);
      mmap_length ← word (mbi_mmap_length mbi);
      if bool_decide (mmap < u32 (mmap_addr + mmap_length)) then
        size ← word (mmap_field mmap 0);
        base_addr_high ← word (mmap_field mmap 2);
        base_addr_low ← word (mmap_field mmap 1);
        type ← word (mmap_field mmap 5);
        length_high ← word (mmap_field mmap 4);
        length_low ← word (mmap_field mmap 3);
        _ ← print msg_map [size; base_addr_high; base_addr_low; type; length_high; length_low];
        size ← word (mmap_field mmap 0);
        report_maps maps' mbi (u32 (mmap + size + 4))
      else mret tt
  end.

(** Everything up to the check of bits 4 and 5. *)
Definition report_head (mbi : Z) : K kstate unit :=
  flags ← word (mbi_flags mbi);
  _ ← print msg_flags [flags];
  _ ← flagged mbi 0 (
        mem_lower ← word (mbi_mem_lower mbi); mem_upper ← word (mbi_mem_upper mbi);
        print msg_mem [mem_lower; mem_upper]);
  _ ← flagged mbi 1 (d ← word (mbi_boot_device mbi); print msg_boot_device [d]);
  _ ← flagged mbi 2 (c ← word (mbi_cmdline mbi); print msg_cmdline [c]);
  flagged mbi 3 (
    m ← word (mbi_mods_addr mbi);
    n ← kget (λ s, size (kmem s));
    report_modules (S n) mbi 0 m).
(** The rest of it. *)
Definition report_tail (maps : nat) (mbi : Z) : K kstate unit :=
  _ ← flagged mbi 5 (
        num ← word (mbi_elf_sec mbi 0); size ← word (mbi_elf_sec mbi 1);
        addr ← word (mbi_elf_sec mbi 2); shndx ← word (mbi_elf_sec mbi 3);
        print msg_elf [num; size; addr; shndx]);
  flagged mbi 6 (
    mmap_addr ← word (mbi_mmap_addr mbi); mmap_length ← word (mbi_mmap_length mbi);
    _ ← print msg_mmap [mmap_addr; mmap_length];
    mmap ← word (mbi_mmap_addr mbi);
    report_maps maps mbi mmap).
End report.

(** ** The whole of it *)

(** The kernel with the tables of [x86_desc.S] that [entry] fills, and the
    selectors in LDTR and TR; [b_lidt]: the IDT is in use. *)
Record boot_t : Type := Mk_boot_t {
  b_k : kstate;
  b_idt : list idt_desc_t;
  ldt_desc_ptr : seg_desc_t;
  tss_desc_ptr : seg_desc_t;
  ldtr : Z;
  tr : Z;
  b_lidt : bool;
  ldt_segment_selector : Z;
}.
#[global] Instance Set_b_k : Setter b_k := λ g b, Mk_boot_t (g (b_k b)) (b_idt b) (ldt_desc_ptr b)
  (tss_desc_ptr b) (ldtr b) (tr b) (b_lidt b) (ldt_segment_selector b).
#[global] Instance Set_b_idt : Setter b_idt := λ g b, Mk_boot_t (b_k b) (g (b_idt b)) (ldt_desc_ptr b)
  (tss_desc_ptr b) (ldtr b) (tr b) (b_lidt b) (ldt_segment_selector b).

(** The global descriptor table: eight entries, the last two of which [entry]
    fills. A selector gives the entry in its bits from 3 on. *)
Definition quad (v : Z) : list Z := le32 (v mod 2 ^ 32) ++ le32 (v / 2 ^ 32).
Definition gdt (b : boot_t) : list (list Z) :=
  (quad <$> [0; 0; 0x00CF9A000000FFFF; 0x00CF92000000FFFF; 0x00CFFA000000FFFF; 0x00CFF2000000FFFF]) ++
  [seg_bytes (tss_desc_ptr b); seg_bytes (ldt_desc_ptr b)].
Definition gdt_entry (b : boot_t) (sel : Z) : option (list Z) := zlookup (gdt b) (Z.shiftr sel 3).

(** The addresses of the tables; [ldt_size] and [tss_size] of [x86_desc.S]. *)
Class Tables := { L_ldt : Z; L_tss : Z }.
Definition ldt_size := 31.
Definition tss_size := 103.
Definition KERNEL_TSS := 0x30.

Section entry.
Context `{Device} `{Layout} `{Handlers} `{Tables}.

Definition load_descriptors : K boot_t unit :=
  _ ← kmod (λ b, Mk_boot_t (b_k b) (b_idt b) (the_ldt_desc L_ldt ldt_size) (tss_desc_ptr b)
        KERNEL_LDT (tr b) (b_lidt b) (ldt_segment_selector b));
  _ ← kmod (λ b, Mk_boot_t (b_k b) (b_idt b) (ldt_desc_ptr b) (the_tss_desc L_tss tss_size)
        (ldtr b) KERNEL_TSS (b_lidt b) KERNEL_LDT);
  _ ← zoom b_k (mod_cpu (λ c, (c <| tss_ss0 := KERNEL_DS |>) <| tss_esp0 := 0x800000 |>));
  kmod (λ b, Mk_boot_t (b_k b) (b_idt b) (ldt_desc_ptr b) (tss_desc_ptr b)
    (ldtr b) (tr b) true (ldt_segment_selector b)).

(** Everything from the descriptors to the first shell. *)
Definition entry_set_up (addr : Z) : K boot_t unit :=
  _ ← load_descriptors;
  _ ← zoom b_idt setup_idt;
  _ ← zoom b_k init_devices;
  _ ← zoom b_k (set_timer_and_image addr);
  zoom b_idt squash_exceptions.

(** [return] gives back to [boot.S], which halts; so does [sys_execute] when
    there is no shell. *)
Definition entry (maps : nat) (magic addr : Z) : K boot_t ctl :=
  _ ← zoom b_k clear;
  if bool_decide (magic ≠ MULTIBOOT_BOOTLOADER_MAGIC) then
    _ ← zoom b_k (print msg_magic [magic]); mret (Return 0)
  else
    _ ← zoom b_k (report_head addr);
    flags ← zoom b_k (word (mbi_flags addr));
    if CHECK_FLAG flags 4 && CHECK_FLAG flags 5 then
      _ ← zoom b_k (print msg_both []); mret (Return 0)
    else
      _ ← zoom b_k (report_tail maps addr);
      _ ← entry_set_up addr;
      zoom b_k first_shell.
End entry.
