(* ===== verification/Start.v ===== *)
(** * The start of the kernel ([boot.S])

    The text from the boot loader to [entry], as a list of its instructions on
    a machine with registers, segment registers and the kernel. *)

From S2P Require Import Prelude CInt Memory State Process Stubs Boot Entry.

(** ** The header that the boot loader looks for *)
Definition MULTIBOOT_HEADER_MAGIC := 0x1BADB002.
Definition MULTIBOOT_HEADER_FLAGS := 0x3.
Definition multiboot_header : list Z :=
  le32 MULTIBOOT_HEADER_MAGIC ++ le32 MULTIBOOT_HEADER_FLAGS ++
  le32 (- (MULTIBOOT_HEADER_MAGIC + MULTIBOOT_HEADER_FLAGS)).

(** ** Text *)
Inductive sreg : Type := CS | SS | DS | ES | FS | GS.
#[global] Instance sreg_eq_dec : EqDecision sreg.
Proof. solve_decision. Defined.
Inductive start_label : Type := at_start | at_continue | at_keep_going | at_halt.
#[global] Instance start_label_eq_dec : EqDecision start_label.
Proof. solve_decision. Defined.
Inductive start_instr : Type :=
  | s_cli | s_hlt | s_jmp (l : start_label) | s_lgdt (* gdt_desc_ptr *)
  | s_ljmp (sel : Z) (l : start_label) | s_movl (imm : Z) (r : reg) | s_movw (imm : Z) (r : reg)
  | s_movw_seg (r : reg) (s : sreg) | s_pushl (r : reg) | s_call_entry.
Definition start_text : list (start_label * list start_instr) :=
  [ (at_start, [s_cli; s_jmp at_continue]);
    (at_continue, [s_lgdt; s_ljmp KERNEL_CS at_keep_going]);
    (at_keep_going,
      [s_movl 0x800000 ESP; s_movw KERNEL_DS ECX; s_movw_seg ECX SS; s_movw_seg ECX DS;
       s_movw_seg ECX ES; s_movw_seg ECX FS; s_movw_seg ECX GS; s_pushl EBX; s_pushl EAX; s_call_entry]);
    (at_halt, [s_hlt; s_jmp at_halt]) ].
Fixpoint start_from (l : start_label) (t : list (start_label * list start_instr)) : list start_instr :=
  match t with
  | [] => []
  | (l', c) :: t' => if bool_decide (l' = l) then mjoin (c :: t'.*2) else start_from l t'
  end.

(** ** Machine *)

(** A segment register: the selector, and the descriptor it was loaded with.
    [s_gdtr]: limit and base of the table in use. *)
Record start_t : Type := Mk_start {
  s_regs : regs;
  s_segs : sreg → Z * list Z;
  s_gdtr : Z * Z;
  s_boot : boot_t;
}.
#[global] Instance Set_s_regs : Setter s_regs := λ g s, Mk_start (g (s_regs s)) (s_segs s) (s_gdtr s) (s_boot s).
#[global] Instance Set_s_segs : Setter s_segs := λ g s, Mk_start (s_regs s) (g (s_segs s)) (s_gdtr s) (s_boot s).
#[global] Instance Set_s_gdtr : Setter s_gdtr := λ g s, Mk_start (s_regs s) (s_segs s) (g (s_gdtr s)) (s_boot s).
#[global] Instance Set_s_boot : Setter s_boot := λ g s, Mk_start (s_regs s) (s_segs s) (s_gdtr s) (g (s_boot s)).

(** The address of [gdt]; the address behind the call of [entry]; how far below
    the stack of the call the [asm] of [entry] finds [esp] and [ebp]. *)
Class StartLinked := { L_gdt : Z; after_entry : Z; entry_esp_below : Z; entry_ebp_below : Z }.
(** [gdt_bottom - gdt - 1] *)
Definition gdt_limit := 63.

(** What the processor looks at in a descriptor: present, not a system
    segment, code, writable. *)
Definition access (d : list Z) (k : Z) : bool := Z.testbit (nth 5 d 0) k.
Definition fits (r : sreg) (d : list Z) : bool :=
  access d 7 && access d 4 &&
  match r with
  | CS => access d 3
  | SS => negb (access d 3) && access d 1
  | _ => negb (access d 3) || access d 1
  end.

Section machine.
Context `{Device} `{Layout} `{Handlers} `{Tables} `{StartLinked}.

Definition sget (r : reg) : K start_t Z := kget (λ s, rget r (s_regs s)).
Definition sset (r : reg) (v : Z) : K start_t unit := kmod (λ s, s <| s_regs ::= rset r v |>).
Definition on_boot {A} (c : K boot_t A) : K start_t A := zoom s_boot c.
Definition on_boot_mem {A} (c : K mem A) : K start_t A := on_boot (zoom b_k (on_mem c)).
Definition spush (v : Z) : K start_t unit :=
  sp ← sget ESP;
  let sp := u32 (sp - 4) in
  _ ← on_boot_mem (store32 sp v);
  sset ESP sp.
(** A selector is looked up in the table in use; an entry that does not fit
    is a fault. *)
Definition load_seg (r : sreg) (sel : Z) : K start_t unit :=
  gdtr ← kget s_gdtr;
  e ← kget (λ s, gdt_entry (s_boot s) sel);
  d ← klift e;
  if bool_decide (gdtr.2 = L_gdt) && bool_decide (8 * Z.shiftr sel 3 + 7 ≤ gdtr.1) && fits r d
  then kmod (λ s, s <| s_segs ::= λ g r', if decide (r' = r) then (sel, d) else g r' |>)
  else kfault.

(** A call of [entry] with the two words on the stack. *)
Definition call_entry (maps : nat) : K start_t ctl :=
  _ ← spush after_entry;
  sp ← sget ESP;
  _ ← on_boot (zoom b_k (mod_cpu (λ c, (c <| esp := sp - entry_esp_below |>) <| ebp := sp - entry_ebp_below |>)));
  magic ← on_boot_mem (load32 (u32 (sp + 4)));
  addr ← on_boot_mem (load32 (u32 (sp + 8)));
  on_boot (entry maps magic addr).

(** How it ends: a program is entered, or the processor halts; interrupts are
    off then, or their handlers come back to the same loop. *)
Definition start_step (maps : nat) (i : start_instr) (code : list start_instr) :
    K start_t (Stubs.outcome + list start_instr) :=
  let go := λ code, mret (inr code) in
  match i with
  | s_cli => _ ← on_boot (zoom b_k (on_io cli)); go code
  | s_hlt => mret (inl Halted)
  | s_jmp l => go (start_from l start_text)
  | s_lgdt => _ ← put s_gdtr (gdt_limit, L_gdt); go code
  | s_ljmp sel l => _ ← load_seg CS sel; go (start_from l start_text)
  | s_movl imm r => _ ← sset r (u32 imm); go code
  | s_movw imm r => v ← sget r; _ ← sset r (v - u16 v + u16 imm); go code
  | s_movw_seg r s => v ← sget r; _ ← load_seg s (u16 v); go code
  | s_pushl r => v ← sget r; _ ← spush v; go code
  | s_call_entry =>
      r ← call_entry maps;
      match r with
      | Return _ => go code
      | Enter eip esp => mret (inl (Enter_user eip esp))
      | Resume _ => kfault (* there is no process to resume *)
      end
  end.
(** The text has 16 instructions, each of which runs once. *)
Fixpoint start_run (fuel maps : nat) (code : list start_instr) : K start_t Stubs.outcome :=
  match fuel, code with
  | S n, i :: code =>
      r ← start_step maps i code;
      match r with inl o => mret o | inr code => start_run n maps code end
  | _, _ => kspin
  end.
Definition start (maps : nat) : K start_t Stubs.outcome := start_run 32 maps (start_from at_start start_text).
End machine.
