(* ===== verification/TypedCalls.v ===== *)
(** * System calls, the stubs and boot keep the types *)

From S2P Require Import Prelude CInt Memory CString State I8259 Screen Printf Paging FS.
From S2P Require Import Rtc Pit ExecHelper Process Terminal Keyboard Schedule Syscalls.
From S2P Require Import Boot Stubs Entry Typed TypedMem TypedState TypedIO TypedKernel.
From S2P Require Import TypedProc.

(** ** System calls *)
Section syscalls.
Context `{Device} `{Layout}.
Context (handler : irq → K kstate unit) (Hq : quiet handler) (busy polls : nat) (scancode : Z).
Lemma find_fd_safe n i : keeps state_ok (find_fd n i).
Proof using Type. revert i. safe_loop n find_fd. Qed.
#[local] Hint Resolve find_fd_safe : safe.
Lemma sys_open_safe f : keeps state_ok (sys_open f).
Proof using Type. unfold sys_open. safe_auto. Qed.
Lemma fops_read_safe t fd b n : keeps state_ok (fops_read handler busy polls scancode t fd b n).
Proof using Hq. unfold fops_read. safe_auto. Qed.
Lemma fops_write_safe t fd b n : keeps state_ok (fops_write t fd b n).
Proof using Type. unfold fops_write. safe_auto; apply safe_ret; done. Qed.
Lemma fops_close_safe t fd : keeps state_ok (fops_close t fd).
Proof using Type. unfold fops_close. safe_auto; apply safe_ret; done. Qed.
#[local] Hint Resolve fops_read_safe fops_write_safe fops_close_safe : safe.
Lemma sys_read_safe fd b n : keeps state_ok (sys_read handler busy polls scancode fd b n).
Proof using Hq. unfold sys_read. safe_auto. Qed.
Lemma sys_write_safe fd b n : keeps state_ok (sys_write fd b n).
Proof using Type. unfold sys_write. safe_auto. Qed.
Lemma sys_close_safe fd : keeps state_ok (sys_close fd).
Proof using Type. unfold sys_close. safe_auto. Qed.
Lemma sys_getargs_safe b n : keeps state_ok (sys_getargs b n).
Proof using Type. unfold sys_getargs. safe_auto. Qed.
Lemma vidmap_safe a : keeps state_ok (vidmap a).
Proof using Type. unfold vidmap. safe_auto. Qed.
#[local] Hint Resolve sys_open_safe sys_read_safe sys_write_safe sys_close_safe sys_getargs_safe vidmap_safe : safe.

(** ** The functions that the stubs call *)
Lemma print_exceptions_safe n : keeps state_ok (print_exceptions n).
Proof using Type. unfold print_exceptions. safe_auto. Qed.
#[local] Hint Resolve print_exceptions_safe : safe.
Lemma arg_safe sp n : keeps state_ok (arg sp n).
Proof using Type. unfold arg. safe_auto. Qed.
#[local] Hint Resolve arg_safe : safe.
Lemma c_body_safe f x : keeps state_ok (c_body handler busy polls scancode f x).
Proof using Hq. unfold c_body, set_handler, sigreturn. safe_auto. Qed.
#[local] Hint Resolve c_body_safe : safe.

(** ** The stubs *)
Context `{Linked}.
Definition machine_ok (m : machine) : Prop := state_ok (m_k m).
Lemma on_k_safe {A} (c : K kstate A) Q : safe state_ok c Q → safe machine_ok (on_k c) Q.
Proof using Type. by apply (safe_zoom m_k). Qed.
#[local] Hint Resolve on_k_safe : safe.
Lemma mset_safe r v : keeps machine_ok (mset r v).
Proof using Type. by apply safe_mod. Qed.
Lemma mget_safe r : keeps machine_ok (mget r).
Proof using Type. by apply safe_get. Qed.
#[local] Hint Resolve mset_safe mget_safe : safe.
Lemma push_safe v : keeps machine_ok (push v).
Proof using Type. unfold push. safe_auto. Qed.
Lemma pop_safe : keeps machine_ok pop.
Proof using Type. unfold pop. safe_auto. Qed.
#[local] Hint Resolve push_safe pop_safe : safe.
Lemma pusha_safe : keeps machine_ok pusha.
Proof using Type. unfold pusha. safe_auto. Qed.
Lemma popa_safe : keeps machine_ok popa.
Proof using Type. unfold popa. safe_auto. Qed.
#[local] Hint Resolve pusha_safe popa_safe : safe.
Lemma m_k_safe : keeps machine_ok (kget m_k).
Proof using Type. by apply safe_get. Qed.
#[local] Hint Resolve m_k_safe : safe.
Lemma c_back_safe f v : keeps machine_ok (c_back f v).
Proof using Type. unfold c_back. safe_step. by apply safe_mod. Qed.
Lemma c_run_safe f : keeps machine_ok (c_run handler busy polls scancode f).
Proof using Hq. unfold c_run. safe_auto. Qed.
#[local] Hint Resolve c_back_safe c_run_safe : safe.
Lemma go_safe code : keeps machine_ok (go code).
Proof using Type. by apply safe_ret. Qed.
#[local] Hint Resolve go_safe : safe.
Lemma after_call_safe f r code : keeps machine_ok (after_call f r code).
Proof using Type. unfold after_call. safe_auto. Qed.
#[local] Hint Resolve after_call_safe : safe.
Lemma step_safe i code : keeps machine_ok (step handler busy polls scancode i code).
Proof using Hq. unfold step. safe_auto; by apply safe_mod. Qed.
#[local] Hint Resolve step_safe : safe.
Lemma run_safe n code : keeps machine_ok (run handler busy polls scancode n code).
Proof using Hq. revert code. induction n as [|n IH]; intros [|i code]; cbn [run]; safe_auto. Qed.
Lemma stub_safe l : keeps machine_ok (stub handler busy polls scancode l).
Proof using Hq. apply run_safe. Qed.
End syscalls.

(** ** Boot *)
Section boot.
Context `{Device} `{Layout} `{Handlers} `{Tables}.
Definition boot_ok (b : boot_t) : Prop := state_ok (b_k b).
Lemma on_kernel_safe {A} (c : K kstate A) Q : safe state_ok c Q → safe boot_ok (zoom b_k c) Q.
Proof using Type. by apply (safe_zoom b_k). Qed.
Lemma on_idt_safe (c : K (list idt_desc_t) unit) : keeps boot_ok (zoom b_idt c).
Proof using Type. by apply (safe_zoom b_idt _ (λ _, True)). Qed.
#[local] Hint Resolve on_kernel_safe on_idt_safe : safe.

Lemma bblock_set_safe v : keeps state_ok (kmod (λ s, s <| bblock := v |>)).
Proof using Type. apply safe_mod. intros s []. by split. Qed.
#[local] Hint Resolve bblock_set_safe : safe.
Lemma init_devices_safe : keeps state_ok init_devices.
Proof using Type. unfold init_devices. safe_auto. Qed.
Lemma set_timer_and_image_safe a : keeps state_ok (set_timer_and_image a).
Proof using Type. unfold set_timer_and_image. safe_auto. Qed.
Lemma start_shell_safe : keeps state_ok start_shell.
Proof using Type. unfold start_shell. safe_auto. Qed.
#[local] Hint Resolve start_shell_safe : safe.
Lemma first_shell_safe : keeps state_ok first_shell.
Proof using Type. unfold first_shell. safe_auto. Qed.
#[local] Hint Resolve init_devices_safe set_timer_and_image_safe first_shell_safe : safe.
Lemma word_safe a : keeps state_ok (word a).
Proof using Type. unfold word. safe_auto. Qed.
Lemma print_safe f a : keeps state_ok (print f a).
Proof using Type. unfold print. safe_auto. Qed.
#[local] Hint Resolve word_safe print_safe : safe.
Lemma flagged_safe m b c : keeps state_ok c → keeps state_ok (flagged m b c).
Proof using Type. intros Hc. unfold flagged. safe_auto. Qed.
#[local] Hint Resolve flagged_safe : safe.
Lemma report_module_safe n m : keeps state_ok (report_module n m).
Proof using Type. unfold report_module. safe_auto. Qed.
#[local] Hint Resolve report_module_safe : safe.
Lemma report_modules_safe n a c m : keeps state_ok (report_modules n a c m).
Proof using Type. revert c m. safe_loop n report_modules. Qed.
Lemma report_maps_safe n a m : keeps state_ok (report_maps n a m).
Proof using Type. revert m. safe_loop n report_maps. Qed.
#[local] Hint Resolve report_modules_safe report_maps_safe : safe.
Lemma size_safe : keeps state_ok (kget (λ s, size (kmem s))).
Proof using Type. by apply safe_get. Qed.
#[local] Hint Resolve size_safe : safe.
Lemma report_head_safe a : keeps state_ok (report_head a).
Proof using Type. unfold report_head. safe_auto. Qed.
Lemma report_tail_safe n a : keeps state_ok (report_tail n a).
Proof using Type. unfold report_tail. safe_auto. Qed.
#[local] Hint Resolve report_head_safe report_tail_safe : safe.
Lemma load_descriptors_safe : keeps boot_ok load_descriptors.
Proof using Type.
  unfold load_descriptors. eapply safe_bind; [by apply safe_mod|]. intros _ _.
  eapply safe_bind; [by apply safe_mod|]. intros _ _. safe_step. by apply safe_mod.
Qed.
#[local] Hint Resolve load_descriptors_safe : safe.
Lemma entry_set_up_safe a : keeps boot_ok (entry_set_up a).
Proof using Type. unfold entry_set_up. safe_auto. Qed.
#[local] Hint Resolve entry_set_up_safe : safe.
Lemma entry_safe n g a : keeps boot_ok (entry n g a).
Proof using Type. unfold entry. safe_auto. Qed.
End boot.
