(* ===== verification/Runs.v ===== *)
(** * What the kernel can do, step by step

    Everything that changes the kernel's state once it is loaded: the boot
    code, a trap or interrupt through a stub, a store of a program, a request
    of a device. *)

From S2P Require Import Prelude CInt Memory CString State I8259 Screen Printf Paging.
From S2P Require Import PagingInit Translate FS Pit Process Schedule Keyboard Boot Views.
From S2P Require Import ProcTable ProcessSpec ScheduleSpec Example Stubs StubSpec Entry.
From S2P Require Import Typed TypedMem TypedState TypedIO TypedKernel TypedProc.
From S2P Require Import TypedCalls.

Section runs.
Context `{Device} `{Layout} `{Linked} `{Handlers} `{Tables}.

(** Where a store of a program at the address [va] goes; it needs a mapping
    that user code may access. *)
Definition user_address (p : page_t) (va : Z) : option Z :=
  match translate p va with
  | Some (pa, true) => Some (if decide (in_prog va) then va else pa)
  | _ => None
  end.

(** The words the processor pushes before the first instruction of a stub:
    the frame of [iret], on the stack it has taken. *)
Fixpoint pushes (ws : list Z) : K machine unit :=
  match ws with [] => mret tt | w :: ws => _ ← push w; pushes ws end.

(** Any registers, any frame and any stub: a system call, an exception or an
    interrupt, in user code or in the kernel. The code that waits for an
    interrupt, with [handler], is given any run of the kernel before control
    comes back to it: other programs run, calls and interrupts nest. *)
Inductive runs : kstate → kstate → Prop :=
  | runs_refl s : runs s s
  | runs_trap s s1 handler busy polls scancode l ws x c m o m' :
      runs s s1 →
      (∀ i t u, handler i t = Ok (tt, u) → runs t u) →
      pushes ws (Mk_machine x c s1) = Ok (tt, m) →
      stub handler busy polls scancode l m = Ok (o, m') →
      runs s (m_k m')
  | runs_store s s1 va a v :
      runs s s1 → user_address (kpage s1) va = Some a → is_u8 v →
      runs s (s1 <| kmem ::= <[a := v]> |>)
  | runs_request s s1 i : runs s s1 → runs s (s1 <| kirqs ::= λ l, l ++ [i] |>)
  | runs_boot s b maps magic addr r b' :
      runs s (b_k b) → entry maps magic addr b = Ok (r, b') → runs s (b_k b')
  | runs_set_up s b addr b' :
      runs s (b_k b) → entry_set_up addr b = Ok (tt, b') → runs s (b_k b')
  | runs_shell s s1 r s' : runs s s1 → start_shell s1 = Ok (r, s') → runs s s'.

(** The kernel as it is loaded, where memory holds bytes. *)
Lemma loaded_typed k : as_loaded k → mem_ok (kmem k) → map_Forall (λ _, mem_ok) (kpages k) → trace_ok (kio k) →
  state_ok k.
Proof using Type.
  intros [Es Et Ek Er Ep (Ed & E0 & Ev & Em) _] Hm Hp Hi.
  assert (page_table_ok (replicate 1024 0)) as Hz by (split; [done|by apply Forall_replicate]).
  split; [done|done|done|rewrite Es|rewrite Et|rewrite Ek|rewrite Er|rewrite Ep|].
  - split; [split; [done|decide_it]|split; [done|decide_it]|done|by left].
  - split; [done|decide_it].
  - split; [done|decide_it].
  - split; [by left|done|done].
  - split; [|done|by left|by left|by left|done]. intros a b Hb.
    apply elem_of_list_to_map_2, list_elem_of_fmap in Hb as (j & [= _ ->] & _).
    split; [|done]. split; [done|]. apply Forall_replicate. intros Hf. by destruct Hf.
  - split; rewrite ?Ed, ?E0, ?Ev, ?Em; try done. split; [done|by apply Forall_replicate].
Qed.

(** C5: the data of the kernel have their types as it is loaded, if memory
    holds bytes, and keep them, whatever it runs: the set-up of the boot and the
    first shell, which start from there, and then calls, interrupts, programs
    and devices in any order. In every state that is reached from one whose
    data have their types, memory and pages hold bytes, the page tables 1024
    words each, the devices were given bytes; the cursors are on the screen
    and the lines fit their buffers; the running process number is one of the
    six, every control block has eight descriptors and a terminal number,
    and a descriptor that is open has its operations, so that a read, a write
    or a close never goes through a null table. *)
Theorem kernel_keeps_types s s' :
  runs s s' →
  state_ok s ∨ as_loaded s ∧ mem_ok (kmem s) ∧ map_Forall (λ _, mem_ok) (kpages s) ∧ trace_ok (kio s) →
  state_ok s'.
Proof using Type.
  intros Hr Hs. assert (state_ok s) as Hok by (destruct Hs as [|(? & ? & ? & ?)]; [done|by apply loaded_typed]).
  clear Hs. revert Hok. induction Hr as [s|s s1 handler busy polls scancode l ws x c m o m' _ IH _ IHh Ep Es|
    s s1 va a v _ IH _ Hv|s s1 i _ IH|s b maps magic addr r b' _ IH Ee|s b addr b' _ IH Ee|s s1 r s' _ IH Ee]; intros Hs; [done|..].
  - assert (keeps machine_ok (pushes ws)) as Hp.
    { clear. induction ws; cbn [pushes]; [by apply safe_ret|]. eapply safe_bind; [apply push_safe|done]. }
    assert (machine_ok m) as Hm by (by apply (Hp (Mk_machine x c s1) tt m (IH Hs))).
    assert (quiet handler) as Hq by (intros i t [] u Ht E; split; [by eapply IHh|done]).
    apply (stub_safe handler Hq busy polls scancode l m o m' Hm Es).
  - destruct (IH Hs). split; try done. upd_cbv. intros b w. rewrite lookup_insert. case_decide.
    + by intros [= <-].
    + by apply st_mem.
  - destruct (IH Hs). by split.
  - apply (entry_safe maps magic addr b r b' (IH Hs) Ee).
  - apply (entry_set_up_safe addr b tt b' (IH Hs) Ee).
  - apply (start_shell_safe s1 r s' (IH Hs) Ee).
Qed.
End runs.

(** ** Witness: a tick between the two shells of [ex_preempt] *)
#[local] Instance ex_dev : Device := ex_device 0.
#[local] Existing Instance ex_linked.
Definition ex_handlers : Handlers := Build_Handlers (λ n, 0x401000 + n) 0x401100 0x401200 0x401300 0x401400 0x401500 0x401600.
#[local] Existing Instance ex_handlers.
Definition ex_tables : Tables := Build_Tables 0x402000 0x402100.
#[local] Existing Instance ex_tables.

Lemma mem_ok_check m : map_Forall (λ _ b, is_u8 b) m → mem_ok m.
Proof. done. Qed.
Lemma ex_preempt_mem : mem_ok (kmem ex_preempt).
Proof. apply mem_ok_check. change (kmem ex_preempt) with (put_bytes ex_mem 0x7FDE00 (replicate 256 0)). decide_it. Qed.
#[global] Instance page_table_ok_dec l : Decision (page_table_ok l).
Proof. unfold page_table_ok, is_u32. apply _. Defined.
Lemma ex_preempt_page : page_ok (kpage ex_preempt).
Proof. change (kpage ex_preempt) with (ex_space 0 false). split; decide_it. Qed.
#[global] Instance file_ok_dec f : Decision (file_ok f).
Proof. unfold file_ok. apply _. Defined.
#[global] Instance pcb_ok_dec b : Decision (pcb_ok b).
Proof.
  refine (cast_if (decide ((length (file_array b) = 8%nat ∧ Forall file_ok (file_array b)) ∧ 0 ≤ curTerminal b ≤ 3)));
  abstract (first [by destruct_and!; split | by intros []; naive_solver]).
Defined.
Lemma ex_preempt_proc : proc_ok (kproc ex_preempt).
Proof.
  change (kproc ex_preempt) with (Mk_proc_t (PCB_ADDR 0) (<[PCB_ADDR 1 := ex_second]> ex_pcbs) 3 1 0 0 1).
  split; [decide_it|done|by right|by left|by left|done].
Qed.
Lemma ex_preempt_typed : state_ok ex_preempt.
Proof.
  split; [exact ex_preempt_mem|done|by apply Forall_nil| | | | |exact ex_preempt_proc|exact ex_preempt_page].
  - split; [split; [done|decide_it]|split; [done|decide_it]|done|by left].
  - split; [done|decide_it].
  - split; [done|decide_it].
  - split; [by left|done|done].
Qed.

(** The variables as they are loaded, no memory shown. *)
Definition ex_blank : kstate :=
  Mk_kstate ∅ (Mk_io_t [] false) (Mk_screen_t [0; 0; 0] [0; 0; 0] 0 0 0 0)
    (Mk_term_t [0; 0; 0] 1) (Mk_kbd_t getChar_init 0) (Mk_rtc_t 0 0 0) (Mk_proc_t 0 pcbs_zero 0 0 0 0 0)
    (Mk_page_t (replicate 6 (replicate 1024 0)) (replicate 1024 0) (replicate 1024 0) (replicate 1024 0) 0 0 0)
    (Mk_cpu_t 0 0 0 0 0) ∅ 0 [].

Lemma kernel_keeps_types_witness :
  (∃ s', runs ex_preempt s' ∧ pcb (kproc s') = PCB_ADDR 1 ∧ state_ok s') ∧
  state_ok (ex_blank <| kirqs := [IRQ_rtc] |>).
Proof.
  split.
  - destruct ex_ticked as (k1 & E & T). destruct (ex_first_tick k1 E T) as [_ E1].
    assert (runs ex_preempt (m_k (ex_switched k1))) as Hr.
    { refine (runs_trap ex_preempt ex_preempt ex_handler 0 0 0 at_pit_handler_wrapper [] _ _ ex_before Iret _
        (runs_refl _) _ eq_refl E1). intros i t u [= <-]. apply runs_refl. }
    exists (m_k (ex_switched k1)). split; [exact Hr|]. split.
    + change (pcb (kproc k1) = PCB_ADDR 1). by rewrite (ti_proc _ _ _ _ _ _ T).
    + exact (kernel_keeps_types ex_preempt (m_k (ex_switched k1)) Hr (or_introl ex_preempt_typed)).
  - apply (kernel_keeps_types ex_blank).
    + exact (runs_request _ _ IRQ_rtc (runs_refl ex_blank)).
    + right. split; [|split; [|split]].
      * split; try reflexivity. by split_and!.
      * apply map_Forall_empty.
      * apply map_Forall_empty.
      * by apply Forall_nil.
Defined.
