(* ===== verification/EntrySpec.v ===== *)
(** * What [entry] sets up

    The tables, devices and paging it leaves to the first shell; and its
    screen calls, which come before the variables they use are set. *)

From S2P Require Import Prelude CInt Memory CString State I8259 Screen Printf Paging.
From S2P Require Import PagingInit Pit Rtc Terminal Keyboard Process Translate Boot.
From S2P Require Import BootSpec Typed Entry Example.

(** ** The devices and paging *)
Section devices.
Context `{Device} `{Layout}.
Lemma keyboard_init_run s : ∃ io, keyboard_init s = Ok (tt, (s <| kio := io |>) <| kscr ::= (λ c, c <| keyInt := 0 |>) |>).
Proof using Type.
  assert (∀ io, ∃ io', (fl ← cli_and_save; v ← inb KB_STAT;
    let check := Z.land v 0x01 in
    _ ← (if bool_decide (check = 0) then
          _ ← outb RD_CMD KB_STAT; curCmd ← inb KB_PORT;
          _ ← outb WRT_CMD KB_STAT; outb (Z.lor curCmd SET_BITS) KB_PORT
        else mret tt);
    _ ← enable_irq KB_IR_LINE; restore_flags fl) io = Ok (tt, io')) as Hio.
  { intros io. erewrite bind_ok by reflexivity. erewrite bind_ok by reflexivity. cbv zeta.
    destruct (bool_decide _); eexists; reflexivity. }
  destruct (Hio (kio s)) as [io E]. exists io. unfold keyboard_init.
  rewrite (bind_ok _ _ s tt (s <| kio := io |>)); [reflexivity|].
  unfold on_io. erewrite zoom_ok; [reflexivity|exact E].
Qed.
Lemma init_devices_run s : tables_ok (kpage s) →
  ∃ io, init_devices s = Ok (tt, ((s <| kio := io |>) <| kscr ::= (λ c, c <| keyInt := 0 |>) |>)
    <| kpage := pages_init (kpage s) |>) ∧ io_if io = true.
Proof using Type.
  intros Hp. unfold init_devices.
  assert (∃ io1, on_io i8259_init s = Ok (tt, s <| kio := io1 |>)) as [io1 E1] by (eexists; reflexivity).
  erewrite bind_ok by exact E1. set (s1 := s <| kio := io1 |>).
  assert (∃ io2, rtc_init s1 = Ok (tt, s <| kio := io2 |>)) as [io2 E2] by (eexists; reflexivity).
  erewrite bind_ok by exact E2. set (s2 := s <| kio := io2 |>).
  assert (∃ io3, on_io pit_init s2 = Ok (tt, s <| kio := io3 |>)) as [io3 E3] by (eexists; reflexivity).
  erewrite bind_ok by exact E3. set (s3 := s <| kio := io3 |>).
  destruct (keyboard_init_run s3) as [io4 E4]. erewrite bind_ok by exact E4.
  set (s4 := (s3 <| kio := io4 |>) <| kscr ::= _ |>).
  rewrite (bind_ok _ _ s4 tt (s4 <| kpage := pages_init (kpage s) |>)).
  - eexists. split; reflexivity.
  - apply zoom_ok. apply initilize_paging_ok. exact Hp.
Qed.
End devices.

(** ** The set-up *)
Section boot.
Context `{Device} `{Layout} `{Handlers} `{Tables}.

Lemma load_descriptors_run b : load_descriptors b = Ok (tt, Mk_boot_t
  ((b_k b) <| kcpu ::= (λ c, (c <| tss_ss0 := KERNEL_DS |>) <| tss_esp0 := 0x800000 |>) |>) (b_idt b)
  (the_ldt_desc L_ldt ldt_size) (the_tss_desc L_tss tss_size) KERNEL_LDT KERNEL_TSS true KERNEL_LDT).
Proof using Type. reflexivity. Qed.
Lemma set_timer_and_image_run s mbi m start :
  bytes_at (kmem s) (mbi_mods_addr mbi) (le32 m) → is_u32 m → bytes_at (kmem s) m (le32 start) → is_u32 start →
  ∃ io, set_timer_and_image mbi s = Ok (tt, (s <| kio := io |>) <| bblock := start |>) ∧ io_if io = true.
Proof using Type.
  intros Hm Um Hs Us. unfold set_timer_and_image.
  assert (∃ z io, on_io (pit_set_freq 0 PIT_FREQ_SCHEDULE) s = Ok (z, s <| kio := io |>) ∧ io_if io = true)
    as (z & io & E & Hif) by (do 2 eexists; split; reflexivity).
  exists io. erewrite bind_ok by exact E. split; [|exact Hif].
  erewrite bind_ok by (apply on_mem_pure, load32_le32; [exact Hm|done]).
  erewrite bind_ok by (apply on_mem_pure, load32_le32; [exact Hs|done]). reflexivity.
Qed.

(** The descriptors the selectors in TR and LDTR lead to. *)
Definition task_tables (b : boot_t) : Prop :=
  (∃ e, gdt_entry b (tr b) = Some e ∧ seg_base e = Some L_tss ∧ seg_limit e = Some tss_size) ∧
  (∃ e, gdt_entry b (ldtr b) = Some e ∧ seg_base e = Some L_ldt ∧ seg_limit e = Some ldt_size).
Lemma task_tables_ok b : is_u32 L_tss → is_u32 L_ldt → tss_desc_ptr b = the_tss_desc L_tss tss_size →
  ldt_desc_ptr b = the_ldt_desc L_ldt ldt_size → tr b = KERNEL_TSS → ldtr b = KERNEL_LDT → task_tables b.
Proof using Type.
  intros Ht Hl Et El Er Elr. unfold task_tables, gdt_entry, gdt. rewrite Et, El, Er, Elr.
  split; (eexists; split; [reflexivity|]; apply seg_params_roundtrip; [done|vm_compute; split; [intros [=]|done]|..]; cbn; lia).
Qed.


(** The kernel [b'] that [entry_set_up] makes of [b]. *)
Record set_up (b : boot_t) (start : Z) (b' : boot_t) : Prop := {
  su_idt : b_lidt b' = true ∧ b_idt b' = final_table;
  su_tables : task_tables b';
  su_if : io_if (kio (b_k b')) = true;
  su_k : b_k b' = ((((b_k b) <| kio := kio (b_k b') |>) <| kscr ::= λ c, c <| keyInt := 0 |> |>)
    <| kpage ::= pages_init |> <| bblock := start |>)
    <| kcpu ::= λ c, (c <| tss_ss0 := KERNEL_DS |>) <| tss_esp0 := 0x800000 |> |>;
}.
Lemma entry_set_up_runs mbi b m start :
  tables_ok (kpage (b_k b)) → b_idt b = replicate 256 idt_zero → is_u32 L_tss → is_u32 L_ldt →
  bytes_at (kmem (b_k b)) (mbi_mods_addr mbi) (le32 m) → is_u32 m →
  bytes_at (kmem (b_k b)) m (le32 start) → is_u32 start →
  ∃ b', entry_set_up mbi b = Ok (tt, b') ∧ set_up b start b'.
Proof using Type.
  intros Htab Hidt Ut Ul Ha Um Hm Us.
  set (s3 := (b_k b) <| kcpu ::= (λ c, (c <| tss_ss0 := KERNEL_DS |>) <| tss_esp0 := 0x800000 |>) |>).
  destruct (init_devices_run s3 Htab) as (io & E4 & _).
  match type of E4 with _ = Ok (_, ?s) => set (s4 := s) in E4 end.
  destruct (set_timer_and_image_run s4 mbi m start Ha Um Hm Us) as (io' & E5 & Hif).
  match type of E5 with _ = Ok (_, ?s) => set (s5 := s) in E5 end.
  destruct (bind_run _ _ _ _ _ setup_idt_table) as ([] & t1 & Ei1 & Ei2).
  set (bt := λ s t, Mk_boot_t s t (the_ldt_desc L_ldt ldt_size) (the_tss_desc L_tss tss_size) KERNEL_LDT KERNEL_TSS true KERNEL_LDT).
  exists (bt s5 final_table). split.
  - unfold entry_set_up. rewrite (bind_ok _ _ _ tt _ (load_descriptors_run _)). rewrite Hidt. fold s3.
    rewrite (bind_ok _ _ _ tt (bt s3 t1)) by (unfold zoom; cbn [b_idt]; by rewrite Ei1).
    rewrite (bind_ok _ _ _ tt (bt s4 t1)) by (unfold zoom; change (b_k (bt s3 t1)) with s3; by rewrite E4).
    rewrite (bind_ok _ _ _ tt (bt s5 t1)) by (unfold zoom; change (b_k (bt s4 t1)) with s4; by rewrite E5).
    unfold zoom. change (b_idt (bt s5 t1)) with t1. by rewrite Ei2.
  - split; [done|by apply task_tables_ok|exact Hif|].
    change (b_k (bt s5 final_table)) with s5. unfold s5, s4, s3. by destruct (b_k b).
Qed.

(** C36: between its report and the first shell [entry] sets the kernel up,
    whatever the screen variables and [pcb] hold: the interrupt table is built
    and loaded, with the gates a processor must find there; TR and LDTR select
    the descriptors of the task state and of the local table, the kernel stack
    of the task state is at 8 MB; the page tables are set up; interrupts are
    on; the file system is at the first module; and memory, processes,
    terminals and the rest are left as they were. *)
Theorem entry_sets_up mbi b m start :
  tables_ok (kpage (b_k b)) → b_idt b = replicate 256 idt_zero → handlers_ok → is_u32 L_tss → is_u32 L_ldt →
  bytes_at (kmem (b_k b)) (mbi_mods_addr mbi) (le32 m) → is_u32 m →
  bytes_at (kmem (b_k b)) m (le32 start) → is_u32 start →
  ∃ b', entry_set_up mbi b = Ok (tt, b') ∧ b_lidt b' = true ∧ length (b_idt b') = 256%nat ∧
    (∀ v, 0 ≤ v < 256 → (decode_gate ∘ idt_bytes <$> zlookup (b_idt b') v) = Some (vector_gate v)) ∧
    task_tables b' ∧ tss_ss0 (kcpu (b_k b')) = KERNEL_DS ∧ tss_esp0 (kcpu (b_k b')) = 0x800000 ∧
    kpage (b_k b') = pages_init (kpage (b_k b)) ∧ io_if (kio (b_k b')) = true ∧ bblock (b_k b') = start ∧
    kmem (b_k b') = kmem (b_k b) ∧ kproc (b_k b') = kproc (b_k b) ∧ kpages (b_k b') = kpages (b_k b) ∧
    kscr (b_k b') = (kscr (b_k b)) <| keyInt := 0 |> ∧
    (kterm (b_k b'), kkbd (b_k b'), krtc (b_k b')) = (kterm (b_k b), kkbd (b_k b), krtc (b_k b)).
Proof using Type.
  intros Htab Hidt Hh Ut Ul Ha Um Hm Us.
  destruct (entry_set_up_runs mbi b m start Htab Hidt Ut Ul Ha Um Hm Us) as (b' & E & [[Hl Hi] Ht Hif Hk]).
  destruct (final_gates Hh) as [Hn Hg]. exists b'. rewrite Hi. split_and?; try done; by rewrite Hk.
Qed.

Lemma loaded_tables k : as_loaded k → tables_ok (kpage k).
Proof using Type.
  intros [_ _ _ _ _ (Ed & E0 & Ev & Et) _]. split; rewrite ?Ed, ?E0, ?Ev, ?Et; try done. apply Forall_replicate. done.
Qed.

(** ** The screen calls *)
Lemma loaded_no_block a : (∀ j, 0 ≤ j < 6 → a ≠ PCB_ADDR j) → pcbs_zero !! a = None.
Proof using Type.
  intros Ha. apply not_elem_of_list_to_map_1. rewrite <-list_fmap_compose. intros (j & -> & Hj)%list_elem_of_fmap.
  apply elem_of_seqZ in Hj. by apply (Ha j).
Qed.
(** A kernel whose screen variables are those that are loaded: [clear] and
    every [putc] fault. *)
Lemma clear_unset k : currentTerminal (kscr k) = 0 → mapped (kmem k) VIDEO 4000 → clear k = Fault.
Proof using Type.
  intros Ht Hm. unfold clear. erewrite bind_ok by (apply on_mem_ok, clear_screen_ok, Hm).
  erewrite bind_ok by (unfold whatTerm; erewrite bind_ok by (unfold kget; reflexivity); reflexivity).
  change (currentTerminal (kscr (k <| kmem := _ |>))) with (currentTerminal (kscr k)). rewrite Ht.
  unfold set_screen_y, mbind, K_bind, kget, klift, zupdate. rewrite bool_decide_eq_false_2 by lia. done.
Qed.
Lemma putc_unset k c : pcbs (kproc k) !! pcb (kproc k) = None → putc c k = Fault.
Proof using Type. intros Hb. unfold putc, cur_pcb, pcb_get, mbind, K_bind, kget, klift. by rewrite Hb. Qed.

(** C37: on the variables as they are loaded the screen calls of [entry] leave
    what C defines. [currentTerminal] is 0 until a first program is started,
    and [pcb] null: [clear] indexes the cursors at -1, so that [entry] goes
    wrong in its first call; and so would the calls after it, were the report
    to come back: [clear] again, and every character that is printed reads a
    control block through the null pointer. *)
Theorem screen_unset_at_load maps magic mbi b :
  as_loaded (b_k b) → mapped (kmem (b_k b)) VIDEO 4000 →
  entry maps magic mbi b = Fault ∧
  ∀ k, reported (b_k b) k → (mapped (kmem k) VIDEO 4000 → clear k = Fault) ∧ ∀ c, putc c k = Fault.
Proof using Type.
  intros Hl Hm. split.
  - unfold entry, mbind at 1, K_bind at 1, zoom at 1. by rewrite clear_unset by (done || by rewrite (al_scr _ Hl)).
  - intros k (m & x & y & ->). split.
    + intros Hv. apply clear_unset; [|done]. change (currentTerminal (kscr (b_k b)) = 0). by rewrite (al_scr _ Hl).
    + intros c. apply putc_unset. change (pcbs (kproc (b_k b)) !! pcb (kproc (b_k b)) = None).
      rewrite (al_proc _ Hl). cbn [pcb pcbs]. apply loaded_no_block. intros j Hj. unfold PCB_ADDR, KERNEL_STACK_BASE, TASK_STACK_SIZE. lia.
Qed.
End boot.

(** ** Witnesses

    The kernel as a loader leaves it that gives the file system image as a
    module, called from [boot.S]. *)
#[global] Instance ex_entry_dev : Device := ex_device 0.
#[global] Instance ex_tables : Tables := {| L_ldt := 0x500800; L_tss := 0x500900 |}.
Definition ex_mbi := 0x500A00.
Definition ex_mb_bytes : list Z :=
  ([8; 639; 65000; 0; 0x500A80; 1; 0x500A40; 0; 0; 0; 0; 0; 0; 0; 0; 0] ++
    [ex_bblock; 0x607000; 0x500A90; 0]) ≫= le32.
(** The stack of [entry]: the address it returns to and its arguments. *)
Definition ex_entry_stack : list Z := le32 0x400080 ++ le32 MULTIBOOT_BOOTLOADER_MAGIC ++ le32 ex_mbi.
Definition ex_tables_zero : page_t :=
  Mk_page_t (replicate 6 (replicate 1024 0)) (replicate 1024 0) (replicate 1024 0) (replicate 1024 0) 0 0 0.
Definition ex_loaded : kstate :=
  Mk_kstate (put_bytes (put_bytes ex_mem ex_mbi ex_mb_bytes) 0x7FFFF4 ex_entry_stack)
    (Mk_io_t [Cli] false) (Mk_screen_t [0; 0; 0] [0; 0; 0] 0 0 0 0)
    (Mk_term_t [0; 0; 0] 1) (Mk_kbd_t getChar_init 0) (Mk_rtc_t 0 0 0)
    (Mk_proc_t 0 pcbs_zero 0 0 0 0 0) ex_tables_zero (Mk_cpu_t ex_esp (ex_esp + 64) 0 0 0)
    {[ prog_base 0 := put_bytes ∅ 0x8048000 (replicate 40 0) ]} 0 [].
Definition ex_boot : boot_t := Mk_boot_t ex_loaded (replicate 256 idt_zero)
  (Mk_seg_desc_t 0 0 0 0 0 0 0 0 0 0 0 0 0) (Mk_seg_desc_t 0 0 0 0 0 0 0 0 0 0 0 0 0) 0 0 false 0.
Lemma ex_as_loaded : as_loaded ex_loaded.
Proof. split; try reflexivity. by split_and!. Qed.
Lemma ex_loaded_outside a : a < 0x500A00 ∨ 0x800000 ≤ a ∨ ex_bblock ≤ a < ex_bblock + 0x7000 →
  kmem ex_loaded !! a = ex_mem !! a.
Proof.
  intros Ha. change (kmem ex_loaded) with (put_bytes (put_bytes ex_mem ex_mbi ex_mb_bytes) 0x7FFFF4 ex_entry_stack).
  unfold ex_bblock in Ha. assert (length ex_mb_bytes = 80%nat) as Hl by (by vm_compute).
  rewrite put_bytes_outside by (change (length ex_entry_stack) with 12%nat; lia).
  rewrite put_bytes_outside by (rewrite Hl; unfold ex_mbi; lia). reflexivity.
Qed.
Lemma ex_video : mapped (kmem ex_loaded) VIDEO 4000.
Proof.
  assert (mapped ex_mem VIDEO 4000) as Hm by decide_it.
  rewrite mapped_spec in *. intros a Ha. rewrite ex_loaded_outside by (unfold VIDEO in Ha; lia). by apply Hm.
Qed.
Lemma ex_tables_zero_ok : tables_ok ex_tables_zero.
Proof. split; try reflexivity. apply Forall_replicate. reflexivity. Qed.
Lemma ex_module : bytes_at (kmem ex_loaded) (mbi_mods_addr ex_mbi) (le32 0x500A40) ∧
  bytes_at (kmem ex_loaded) 0x500A40 (le32 ex_bblock).
Proof. split; decide_it. Qed.

Lemma entry_sets_up_witness :
  ∃ b', entry_set_up ex_mbi ex_boot = Ok (tt, b') ∧ b_lidt b' = true ∧ bblock (b_k b') = ex_bblock ∧
    io_if (kio (b_k b')) = true ∧ task_tables b' ∧ currentTerminal (kscr (b_k b')) = 0.
Proof.
  destruct (entry_sets_up ex_mbi ex_boot 0x500A40 ex_bblock ex_tables_zero_ok)
    as (b' & E & Hl & _ & _ & Ht & _ & _ & _ & Hi & Hb & _ & _ & _ & Hs & _).
  - reflexivity.
  - unfold handlers_ok, is_u32. cbn. split_lia.
  - done.
  - done.
  - exact (proj1 ex_module).
  - done.
  - exact (proj2 ex_module).
  - done.
  - exists b'. split; [exact E|]. split; [exact Hl|]. split; [exact Hb|]. split; [exact Hi|].
    split; [exact Ht|]. by rewrite Hs.
Defined.
Lemma screen_unset_at_load_witness : entry 1 MULTIBOOT_BOOTLOADER_MAGIC ex_mbi ex_boot = Fault.
Proof. exact (proj1 (screen_unset_at_load 1 MULTIBOOT_BOOTLOADER_MAGIC ex_mbi ex_boot ex_as_loaded ex_video)). Defined.
