(* ===== verification/StartRun.v ===== *)
(** * From the boot loader to the first shell

    [boot.S] up to [entry]; and from there, but for the screen calls, to the
    first instruction of the first shell. *)

From S2P Require Import Prelude CInt Memory CString State I8259 Screen Printf Paging.
From S2P Require Import PagingInit Translate FS FSSpec ExecHelper Process Terminal.
From S2P Require Import Keyboard ParseSpec SpaceSpec ExecSpec Views LoadSpec StartSpec.
From S2P Require Import ProcTable ProcessSpec SwitchSpec NewTerm Stubs Boot BootSpec.
From S2P Require Import Typed Entry EntrySpec Start Example.

(** ** The first shell *)

(** No process has run: the variables of the processes as they are loaded,
    paging off. *)
Record unstarted `{Layout} (k : kstate) : Prop := {
  us_proc : kproc k = Mk_proc_t 0 pcbs_zero 0 0 0 0 0;
  us_off : Z.testbit (cr0 (kpage k)) 31 = false;
  us_pages : pages_ok (kpages k);
}.
(** The file system at [bblock] has a shell, and memory the room to load it;
    all of it is where it stays when paging comes on. *)
Record shell_ready `{Layout} (k : kstate) (img : image) (stale : list Z) (e : FSSpec.entry) (x : inode_a) (ep : Z) : Prop := {
  sr_loader : loader_env k img L_shell_nl shell_line;
  sr_program : program_env k img shell_line stale e x ep 0;
  sr_header : (28 ≤ length (content img x))%nat;
  sr_stays : kept_ranges stays k img L_shell_nl shell_line;
  sr_screen : Forall (λ r, disjoint_range VIDEO 4000 r.1 r.2) (take 6 (loader_ranges k img L_shell_nl shell_line));
}.

Section first.
Context `{Device} `{Layout} (Hlay : layout_ok).

Lemma zero_block j : 0 ≤ j < 6 → pcbs_zero !! PCB_ADDR j = Some pcb_zero.
Proof using Type.
  intros Hj. assert (j = 0 ∨ j = 1 ∨ j = 2 ∨ j = 3 ∨ j = 4 ∨ j = 5)
    as [->|[->|[->|[->|[->| ->]]]]] by lia; vm_compute; reflexivity.
Qed.
Lemma zero_table dirs : table_ok (Mk_proc_t 0 pcbs_zero 0 0 0 0 0) dirs.
Proof using Type.
  split.
  - done.
  - intros j Hj. exists pcb_zero. split; [by apply zero_block|done].
  - intros j c (_ & Hj & _). by rewrite Z.bits_0 in Hj.
  - intros j c (_ & Hj & _). by rewrite Z.bits_0 in Hj.
  - intros j c (_ & Hj & _). by rewrite Z.bits_0 in Hj.
  - intros j c (_ & Hj & _). by rewrite Z.bits_0 in Hj.
Qed.

Lemma start_shell_runs k img stale e x ep :
  unstarted k → paging_ok (kpage k) → Z.testbit (cr4 (kpage k)) 4 = true → shell_ready k img stale e x ep →
  let k1 := k <| kscr ::= λ c, c <| whichTerm := 1 |> |> in
  ∃ s' b, start_shell k = Ok (Enter ep child_esp, s') ∧ kernel_ok s' 0 b ∧
    rooted stays k1 1 img L_shell_nl shell_line x 0 s' b.
Proof using Hlay.
  intros [Up Uo Ug] Hp H4 [Hl Hpr Hh Hs _] k1.
  destruct (execute_root Hlay stays k1 1 img L_shell_nl shell_line stale e x ep 0) as (s' & b & E & Hk & Hr).
  - by apply first_enters.
  - exact Hs.
  - change (kproc k1) with (kproc k). rewrite Up. apply zero_table.
  - change (kproc k1) with (kproc k). by rewrite Up.
  - by left.
  - by destruct Hl.
  - by destruct Hpr.
  - done.
  - exists s', b. split; [|done]. unfold start_shell. by rewrite (bind_ok _ _ k tt k1) by reflexivity.
Qed.

(** What the display shows becomes the first terminal. *)
Lemma first_shell_screen k img stale e x ep s' b v :
  unstarted k → shell_ready k img stale e x ep →
  rooted stays (k <| kscr ::= λ c, c <| whichTerm := 1 |> |>) 1 img L_shell_nl shell_line x 0 s' b →
  tty_ok v → screen_at (kmem k) VIDEO (cells v) →
  zlookup (screen_x (kscr k)) 0 = Some (col v) → zlookup (screen_y (kscr k)) 0 = Some (row v) → tty_at s' 1 v.
Proof using Type.
  intros [Up _ _] [_ _ _ _ Hoff] [_ _ _ _ _ _ _ Hscr _ Hmem] Hv Hs Hx Hy.
  assert (screen_x (kscr s') = screen_x (kscr k) ∧ screen_y (kscr s') = screen_y (kscr k) ∧
    currentTerminal (kscr s') = 1) as (Ex & Ey & Ec).
  { rewrite Hscr. unfold first_screen. cbn [kproc upd Set_kscr]. rewrite Up. done. }
  split; [done|]. rewrite Ex, Ey. split; [|done]. unfold term_base. rewrite Ec, bool_decide_eq_true_2 by done.
  eapply screen_at_same; [apply Hv| |exact Hs]. intros a Ha.
  apply Hmem; [right; unfold VIDEO in Ha; lia| |].
  - unfold in_prog, PROG_VIR_ADDR_START. unfold VIDEO in Ha. lia.
  - eapply Forall_impl; [exact Hoff|]. intros r Hr. unfold disjoint_range in Hr. cbv beta in Hr. lia.
Qed.
End first.

(** ** [boot.S] *)

(** The loader finds the header by its first word, and takes it if its three
    words add up to zero. *)
Definition loader_accepts (header : list Z) : bool :=
  match header with
  | [a0; a1; a2; a3; f0; f1; f2; f3; c0; c1; c2; c3] =>
      bool_decide (of_le32 a0 a1 a2 a3 = 0x1BADB002) &&
      bool_decide (u32 (of_le32 a0 a1 a2 a3 + of_le32 f0 f1 f2 f3 + of_le32 c0 c1 c2 c3) = 0)
  | _ => false
  end.

Section start.
Context `{Device} `{Layout} `{Handlers} `{Tables} `{StartLinked}.

Definition entry_stack (magic addr : Z) : list Z := le32 after_entry ++ le32 magic ++ le32 addr.
(** The kernel as [boot.S] hands it to [entry]. *)
Definition at_entry (b : boot_t) (magic addr : Z) : boot_t :=
  b <| b_k ::= λ k,
    ((k <| kmem ::= λ m, put_bytes m 0x7FFFF4 (entry_stack magic addr) |>)
      <| kio ::= λ io, (io <| io_trace ::= cons Cli |>) <| io_if := false |> |>)
      <| kcpu ::= λ c, (c <| esp := 0x7FFFF4 - entry_esp_below |>) <| ebp := 0x7FFFF4 - entry_ebp_below |> |> |>.

(** A segment that starts at zero and has no end: addresses are linear. *)
Definition flat (d : list Z) : Prop :=
  seg_base d = Some 0 ∧ seg_limit d = Some 0xFFFFF ∧ Z.testbit (nth 6 d 0) 7 = true ∧ access d 7 = true.
Definition flat_segments (s : start_t) : Prop := ∀ r, ∃ d,
  s_segs s r = (if decide (r = CS) then KERNEL_CS else KERNEL_DS, d) ∧ flat d ∧ fits r d = true.

Lemma start_run_step n maps i code code' s s' : start_step maps i code s = Ok (inr code', s') →
  start_run (S n) maps (i :: code) s = start_run n maps code' s'.
Proof using Type. intros E. cbn [start_run]. by erewrite bind_ok by exact E. Qed.

Lemma load_seg_ok r sel d s : s_gdtr s = (gdt_limit, L_gdt) → gdt_entry (s_boot s) sel = Some d →
  8 * Z.shiftr sel 3 + 7 ≤ gdt_limit → fits r d = true →
  load_seg r sel s = Ok (tt, s <| s_segs ::= λ g r', if decide (r' = r) then (sel, d) else g r' |>).
Proof using Type.
  intros Eg Ed Hl Hf. unfold load_seg. erewrite bind_ok by reflexivity. erewrite bind_ok by reflexivity.
  rewrite Ed. erewrite bind_ok by reflexivity. rewrite Eg. cbn [fst snd].
  by rewrite !bool_decide_eq_true_2, Hf by done.
Qed.
Lemma kernel_ds b : gdt_entry b KERNEL_DS = Some (quad 0x00CF92000000FFFF).
Proof using Type. reflexivity. Qed.
Lemma kernel_cs b : gdt_entry b KERNEL_CS = Some (quad 0x00CF9A000000FFFF).
Proof using Type. reflexivity. Qed.

Definition pushed (sp v : Z) (s : start_t) : start_t :=
  (s <| s_boot ::= λ b, b <| b_k ::= λ k, k <| kmem ::= λ m, put_bytes m sp (le32 v) |> |> |>) <| s_regs ::= rset ESP sp |>.
Lemma spush_ok v s sp : u32 (rget ESP (s_regs s) - 4) = sp → mapped (kmem (b_k (s_boot s))) sp 4 →
  spush v s = Ok (tt, pushed sp v s).
Proof using Type.
  intros <- Hm. unfold spush. erewrite bind_ok by reflexivity. erewrite bind_ok; [reflexivity|].
  unfold on_boot_mem, on_boot, on_mem. erewrite zoom_ok; [reflexivity|]. erewrite zoom_ok; [reflexivity|].
  erewrite zoom_ok; [reflexivity|]. by apply store32_ok.
Qed.
Lemma pushed_mapped sp v s a n : mapped (kmem (b_k (s_boot s))) sp 4 → mapped (kmem (b_k (s_boot s))) a n →
  mapped (kmem (b_k (s_boot (pushed sp v s)))) a n.
Proof using Type.
  intros Hm Ha. apply (mapped_dom (kmem (b_k (s_boot s)))); [|exact Ha]. by apply put_bytes_dom.
Qed.
Lemma pushed_reg sp v s r : rget r (s_regs (pushed sp v s)) = if decide (r = ESP) then sp else rget r (s_regs s).
Proof using Type. unfold pushed. destruct s as [[] ? ? ?]. by destruct r. Qed.

Lemma low_word v imm : 0 ≤ imm < 2 ^ 16 → u16 (v - u16 v + u16 imm) = imm.
Proof using Type.
  intros Hi. rewrite (u16_id imm) by done. unfold u16. symmetry. apply Z.mod_unique with (v / 2 ^ 16); [lia|].
  pose proof (Z.div_mod v (2 ^ 16)). lia.
Qed.

Lemma seg_step r n maps code s : s_gdtr s = (gdt_limit, L_gdt) → u16 (rget ECX (s_regs s)) = KERNEL_DS → r ≠ CS →
  start_run (S n) maps (s_movw_seg ECX r :: code) s = start_run n maps code
    (s <| s_segs ::= λ g r', if decide (r' = r) then (KERNEL_DS, quad 0x00CF92000000FFFF) else g r' |>).
Proof using Type.
  intros Eg Ec Hr. erewrite start_run_step; [reflexivity|]. cbn [start_step]. erewrite bind_ok by reflexivity. rewrite Ec.
  erewrite bind_ok; [reflexivity|]. apply load_seg_ok; [done|apply kernel_ds|done|by destruct r].
Qed.

(** Show the text at a label. *)
Ltac start_code l := let c := eval cbv in (start_from l start_text) in change (start_from l start_text) with c.

(** Everything before the pushes. *)
Lemma start_segments maps s : ∃ s1, start maps s = start_run 21 maps
    [s_pushl EBX; s_pushl EAX; s_call_entry; s_hlt; s_jmp at_halt] s1 ∧ flat_segments s1 ∧
  s_boot s1 = (s_boot s) <| b_k ::= λ k, k <| kio ::= λ io, (io <| io_trace ::= cons Cli |>) <| io_if := false |> |> |> ∧
  rget ESP (s_regs s1) = 0x800000 ∧ rget EAX (s_regs s1) = rget EAX (s_regs s) ∧ rget EBX (s_regs s1) = rget EBX (s_regs s).
Proof using Type.
  assert (∃ s0, start maps s = start_run 26 maps
    (((λ r, s_movw_seg ECX r) <$> [SS; DS; ES; FS; GS]) ++ [s_pushl EBX; s_pushl EAX; s_call_entry; s_hlt; s_jmp at_halt]) s0 ∧
    s_gdtr s0 = (gdt_limit, L_gdt) ∧ u16 (rget ECX (s_regs s0)) = KERNEL_DS ∧
    s_segs s0 CS = (KERNEL_CS, quad 0x00CF9A000000FFFF) ∧
    s_boot s0 = (s_boot s) <| b_k ::= λ k, k <| kio ::= λ io, (io <| io_trace ::= cons Cli |>) <| io_if := false |> |> |> ∧
    rget ESP (s_regs s0) = 0x800000 ∧ rget EAX (s_regs s0) = rget EAX (s_regs s) ∧ rget EBX (s_regs s0) = rget EBX (s_regs s))
    as (s0 & E & Eg & Ec & Ecs & Eb & Esp & Ea & Ebx).
  { destruct s as [[a c d b sp bp si di] segs gdtr bt]. eexists. split.
    { unfold start. etransitivity; [|reflexivity]. start_code at_start.
      erewrite start_run_step by reflexivity. erewrite start_run_step by reflexivity. start_code at_continue.
      erewrite start_run_step by reflexivity.
      erewrite start_run_step by (cbn [start_step]; erewrite bind_ok by (apply load_seg_ok; [reflexivity|apply kernel_cs|done|reflexivity]); reflexivity).
      start_code at_keep_going. erewrite start_run_step by reflexivity. erewrite start_run_step by reflexivity. reflexivity. }
    split; [reflexivity|]. split; [apply low_word; done|]. repeat split. }
  cbn [fmap list_fmap app] in E. rewrite !seg_step in E by done. eexists. split; [exact E|]. split; [|done].
  intros r. assert (flat (quad 0x00CF92000000FFFF) ∧ flat (quad 0x00CF9A000000FFFF)) as [Hds Hcs] by (by repeat split).
  destruct r; cbn; rewrite ?Ecs; eexists; (split; [reflexivity|split; [done|reflexivity]]).
Qed.

(** [boot.S] is the call of [entry] with what the loader left in [eax] and
    [ebx], on a stack of its own and in flat segments. *)
Lemma start_enters maps s magic addr : mapped (kmem (b_k (s_boot s))) 0x7FFFF4 12 →
  rget EAX (s_regs s) = magic → rget EBX (s_regs s) = addr → is_u32 magic → is_u32 addr →
  ∃ s1, flat_segments s1 ∧ s_boot s1 = at_entry (s_boot s) magic addr ∧
    start maps s = (r ← on_boot (entry maps magic addr);
      match r with
      | Return _ => mret Halted
      | Enter eip esp => mret (Enter_user eip esp)
      | Resume _ => kfault
      end) s1.
Proof using Type.
  intros Hm Ea Eb Ha Hb. destruct (start_segments maps s) as (s0 & E & Hflat & Ebt & Esp & Ea0 & Eb0).
  rewrite Ea in Ea0. rewrite Eb in Eb0.
  assert (∀ a n, 0x7FFFF4 ≤ a → a + n ≤ 0x800000 → mapped (kmem (b_k (s_boot s0))) a n) as Hm0.
  { intros a n ??. rewrite Ebt. eapply mapped_sub; [exact Hm|done|lia]. }
  rewrite E. erewrite start_run_step.
  2:{ cbn [start_step]. erewrite bind_ok by reflexivity. rewrite Eb0. erewrite bind_ok; [reflexivity|].
      apply (spush_ok _ s0 0x7FFFFC); [by rewrite Esp|by apply Hm0]. }
  erewrite start_run_step.
  2:{ cbn [start_step]. erewrite bind_ok by reflexivity. rewrite pushed_reg, Ea0. erewrite bind_ok; [reflexivity|].
      apply (spush_ok _ _ 0x7FFFF8); [by rewrite pushed_reg|]. apply pushed_mapped; by apply Hm0. }
  set (s2 := pushed 0x7FFFF8 _ _).
  assert (∀ a n, 0x7FFFF4 ≤ a → a + n ≤ 0x800000 → mapped (kmem (b_k (s_boot s2))) a n) as Hm2.
  { intros a n ??. unfold s2. rewrite decide_False by done. repeat (apply pushed_mapped; [|]); by apply Hm0. }
  assert (rget ESP (s_regs s2) = 0x7FFFF8) as Esp2 by (unfold s2; by rewrite pushed_reg).
  set (s3 := pushed 0x7FFFF4 after_entry s2).
  set (s4 := s3 <| s_boot ::= λ b, b <| b_k ::= λ k, k <| kcpu ::= λ c,
    (c <| esp := 0x7FFFF4 - entry_esp_below |>) <| ebp := 0x7FFFF4 - entry_ebp_below |> |> |> |>).
  assert (s_boot s4 = at_entry (s_boot s) magic addr) as Eb4.
  { unfold s4, s3, s2, pushed. rewrite decide_False by done. cbn [s_boot upd Set_s_boot Set_s_regs]. rewrite Ebt.
    destruct (s_boot s) as [[] ? ? ? ? ? ? ?]. reflexivity. }
  assert (∀ i v, List.In (i, v) [(0, after_entry); (1, magic); (2, addr)] → bytes_at (kmem (b_k (s_boot s4))) (0x7FFFF4 + 4 * i) (le32 v)) as Hw.
  { intros i v Hi. rewrite Eb4. pose proof (put_bytes_at (kmem (b_k (s_boot s))) 0x7FFFF4 (entry_stack magic addr)) as Hp.
    unfold entry_stack in Hp at 2. rewrite !bytes_at_app in Hp. destruct Hp as (P0 & P1 & P2).
    cbn in Hi. destruct Hi as [[= <- <-]|[[= <- <-]|[[= <- <-]|[]]]]; [exact P0|exact P1|exact P2]. }
  assert (call_entry maps s2 = on_boot (entry maps magic addr) s4) as Ecall.
  { unfold call_entry. erewrite bind_ok by (apply (spush_ok _ s2 0x7FFFF4); [by rewrite Esp2|by apply Hm2]).
    fold s3. assert (sget ESP s3 = Ok (0x7FFFF4, s3)) as Eg3 by (unfold sget, kget, s3; by rewrite pushed_reg).
    erewrite bind_ok by exact Eg3. erewrite bind_ok by reflexivity. fold s4.
    change (u32 (0x7FFFF4 + 4)) with (0x7FFFF4 + 4 * 1). change (u32 (0x7FFFF4 + 8)) with (0x7FFFF4 + 4 * 2).
    assert (∀ i v, is_u32 v → List.In (i, v) [(0, after_entry); (1, magic); (2, addr)] →
      on_boot_mem (load32 (0x7FFFF4 + 4 * i)) s4 = Ok (v, s4)) as Hld.
    { intros i v Hv Hi. unfold on_boot_mem, on_boot, on_mem.
      erewrite zoom_ok by (erewrite zoom_ok by (erewrite zoom_ok by (apply load32_le32; [by apply Hw|done]); reflexivity); reflexivity).
      destruct s4 as [? ? ? [[] ? ? ? ? ? ? ?]]. reflexivity. }
    erewrite bind_ok by (apply Hld; [exact Ha|cbn; tauto]). by erewrite bind_ok by (apply Hld; [exact Hb|cbn; tauto]). }
  exists s4. split; [|split; [exact Eb4|]].
  { intros r. destruct (Hflat r) as (d & Hd). exists d. unfold s4, s3, s2, pushed. exact Hd. }
  cbn [start_run start_step]. unfold mbind, K_bind. rewrite Ecall. unfold on_boot, zoom.
  by destruct (entry maps magic addr (s_boot s4)) as [[[] ?]| |].
Qed.

(** A kernel that is already as [boot.S] leaves it, but for [cli]. *)
Lemma at_entry_id b magic addr tr io : bytes_at (kmem (b_k b)) 0x7FFFF4 (entry_stack magic addr) →
  kio (b_k b) = Mk_io_t (Cli :: tr) false → esp (kcpu (b_k b)) = 0x7FFFF4 - entry_esp_below →
  ebp (kcpu (b_k b)) = 0x7FFFF4 - entry_ebp_below →
  at_entry (b <| b_k ::= λ k, k <| kio := Mk_io_t tr io |> |>) magic addr = b.
Proof using Type.
  destruct b as [[m i' sc te kb rt pr pg [e f c1 c2 c3] ps bb iq] idt ld td lr r ll sel].
  cbn [b_k kmem kio kcpu esp ebp]. intros Hm -> -> ->. apply put_bytes_id in Hm. revert Hm. unfold at_entry.
  generalize (entry_stack magic addr). intros l Hm. rewrite <-Hm at 2. reflexivity.
Qed.

(** C4: the boot, but for its screen calls, which leave what C defines
    (claim C37). The loader takes the kernel by its header, and [boot.S] comes
    to the call of [entry] with what the loader gave, in flat segments. From
    the variables as they are loaded and whatever memory and cursors the report
    leaves, [entry] then sets the kernel up; and whatever memory and cursors
    the second [clear] leaves, if the module has a shell it comes to the first
    instruction of that shell: process 0, in its own address space with paging
    on, the file's bytes in its page, no arguments and no parent, the only
    process; what the display shows is then the first terminal, the interrupt
    table and the task state are in place, interrupts are on and the kernel's
    invariant holds. *)
Theorem boot_starts_shell (Hlay : layout_ok) maps s mbi m start_of img stale e x ep :
  rget EAX (s_regs s) = MULTIBOOT_BOOTLOADER_MAGIC → rget EBX (s_regs s) = mbi → is_u32 mbi →
  mapped (kmem (b_k (s_boot s))) 0x7FFFF4 12 → as_loaded (b_k (s_boot s)) → pages_ok (kpages (b_k (s_boot s))) →
  b_idt (s_boot s) = replicate 256 idt_zero → is_u32 L_tss → is_u32 L_ldt → is_u32 m → is_u32 start_of →
  let b := at_entry (s_boot s) MULTIBOOT_BOOTLOADER_MAGIC mbi in
  loader_accepts multiboot_header = true ∧
  (∃ s1, flat_segments s1 ∧ s_boot s1 = b ∧
    start maps s = (r ← on_boot (entry maps MULTIBOOT_BOOTLOADER_MAGIC mbi);
      match r with
      | Return _ => mret Halted
      | Enter eip esp => mret (Enter_user eip esp)
      | Resume _ => kfault
      end) s1) ∧
  ∀ k1, reported (b_k b) k1 →
    bytes_at (kmem k1) (mbi_mods_addr mbi) (le32 m) → bytes_at (kmem k1) m (le32 start_of) →
  ∃ b2, entry_set_up mbi (b <| b_k := k1 |>) = Ok (tt, b2) ∧ set_up (b <| b_k := k1 |>) start_of b2 ∧
  ∀ k2, reported (b_k b2) k2 → shell_ready k2 img stale e x ep →
  ∃ k3 blk, start_shell k2 = Ok (Enter ep child_esp, k3) ∧ kernel_ok k3 0 blk ∧
    parent_pid blk = -1 ∧ curTerminal blk = 1 ∧ cstr_at (kmem k3) (arguments blk) [] ∧
    prog_view k3 0 = put_bytes (prog_view k2 0) LOAD_ADDR (loaded img x) ∧
    (∀ j, 0 ≤ j < 8 → Z.testbit (pid_bitmap (kproc k3)) j = bool_decide (j = 0)) ∧
    (∀ v, tty_ok v → screen_at (kmem k2) VIDEO (cells v) → zlookup (screen_x (kscr k2)) 0 = Some (col v) →
      zlookup (screen_y (kscr k2)) 0 = Some (row v) → tty_at k3 1 v) ∧
    currentTerminal (kscr k3) = 1 ∧ tss_esp0 (kcpu k3) = KERNEL_STACK_BASE ∧ io_if (kio k3) = true.
Proof using Type.
  intros Ha Hb Hu Hm Hl Hpg Hidt Ut Ul Um Us b. split; [reflexivity|]. split.
  { destruct (start_enters maps s MULTIBOOT_BOOTLOADER_MAGIC mbi Hm Ha Hb ltac:(done) Hu) as (s1 & ? & ? & ?). by exists s1. }
  intros k1 (m1 & x1 & y1 & E1) Hma Hms.
  assert (kpage k1 = kpage (b_k (s_boot s)) ∧ kproc k1 = kproc (b_k (s_boot s)) ∧ kpages k1 = kpages (b_k (s_boot s)))
    as (Eg & Ek & Es) by (by rewrite E1).
  destruct (entry_set_up_runs mbi (b <| b_k := k1 |>) m start_of) as (b2 & E2 & Hset); try done.
  { change (tables_ok (kpage k1)). rewrite Eg. by apply loaded_tables. }
  exists b2. split; [exact E2|]. split; [exact Hset|]. destruct Hset as [_ _ Hif Hb2].
  intros k2 (m2 & x2 & y2 & E3) Hr.
  assert (kpage k2 = pages_init (kpage k1) ∧ kproc k2 = kproc k1 ∧ kpages k2 = kpages k1 ∧ kio k2 = kio (b_k b2))
    as (Eg2 & Ek2 & Es2 & Ei2) by (rewrite E3; split_and?; try done; by rewrite Hb2).
  assert (unstarted k2) as Hun.
  { split; [rewrite Ek2, Ek; apply Hl| |by rewrite Es2, Es]. rewrite Eg2, Eg. apply Hl. }
  destruct (start_shell_runs Hlay k2 img stale e x ep Hun) as (k3 & blk & E & Hk & Hro); try done.
  { rewrite Eg2. apply pages_init_ready. }
  { rewrite Eg2. change (Z.testbit (Z.lor (cr4 (kpage k1)) 0x10) 4 = true). rewrite Z.lor_spec. apply orb_true_r. }
  exists k3, blk. split; [exact E|]. split; [exact Hk|].
  pose proof (first_shell_screen k2 img stale e x ep k3 blk) as Hscr.
  pose proof Hro as [(P1 & _ & P3 & P4) _ _ Hbits Htss Hown _ Hs3 (Hio & _) _].
  split; [done|]. split; [done|]. split; [exact P4|]. split; [exact Hown|].
  split; [|split; [by eauto|split; [|split; [done|]]]].
  - intros j Hj. rewrite Hbits by done. change (kproc (k2 <| kscr ::= _ |>)) with (kproc k2). rewrite (us_proc _ Hun).
    cbn [pid_bitmap]. by rewrite Z.bits_0.
  - rewrite Hs3. unfold first_screen. cbn [kproc upd Set_kscr]. by rewrite (us_proc _ Hun).
  - rewrite Hio. change (io_if (kio k2) = true). by rewrite Ei2.
Qed.
End start.

(** ** Witness *)
Lemma reported_refl k : reported k k.
Proof. exists (kmem k), (screen_x (kscr k)), (screen_y (kscr k)). by destruct k as [? ? [] ? ? ? ? ? ? ? ? ?]. Qed.
Lemma ex_unstarted : unstarted ex_loaded.
Proof.
  split; [done..|].
  intros b pg a Hb Ha. change (({[ prog_base 0 := put_bytes ∅ 0x8048000 (replicate 40 0) ]} : gmap Z mem) !! b = Some pg) in Hb.
  apply lookup_singleton_Some in Hb as [_ <-]. destruct (decide (in_prog a)) as [|Hn]; [done|].
  rewrite put_bytes_outside in Ha; [by destruct Ha|]. rewrite length_replicate. unfold in_prog, PROG_VIR_ADDR_START, FOUR_MB in Hn. lia.
Qed.
Definition ex_mounted : kstate := ex_loaded <| bblock := ex_bblock |>.
Lemma kmem_mounted k bb : kmem (k <| bblock := bb |>) = kmem k.
Proof. by destruct k. Qed.
Lemma ex_mounted_loader : loader_env ex_mounted ex_image 0x500430 shell_line.
Proof.
  split.
  - unfold ex_mounted. rewrite kmem_mounted. apply ex_image_in. intros a Ha. apply ex_loaded_outside. lia.
  - by vm_compute.
  - decide_it.
  - by vm_compute.
  - change [ (L_cmd (esp (kcpu ex_mounted)), 1024); (L_args (esp (kcpu ex_mounted)), 32);
      (L_prog (esp (kcpu ex_mounted)), 64); (L_exe_prog, 64); (L_elf, 4) ]
    with [ (0x7FEF00, 1024); (0x7FF400, 32); (0x7FF500, 64); (0x500200, 64); (0x500300, 4) ].
    decide_it.
  - decide_it.
  - unfold loader_ranges. cbn [take]. each; vm_compute; split; discriminate.
Qed.
Lemma ex_mounted_program : program_env ex_mounted ex_image shell_line [5; 5; 5; 5]
  (Mk_entry (ex_name (chars "shell")) 2 1) (ex_inode 40 1) 0x8048094 0.
Proof.
  split.
  - decide_it.
  - done.
  - exists 2%nat. vm_compute. reflexivity.
  - vm_compute. reflexivity.
  - vm_compute. reflexivity.
  - split; [decide_it|vm_compute; reflexivity].
  - change (mapped (kmem ex_mounted) 0x79FF00 40). decide_it.
  - assert (prog_view ex_mounted 0 = put_bytes ∅ 0x8048000 (replicate 40 0)) as -> by reflexivity.
    change (mapped (put_bytes ∅ 0x8048000 (replicate 40 0)) 0x8048000 40). decide_it.
  - split; [lia|]. split; [reflexivity|]. intros j Hj. lia.
Qed.
Lemma ex_mounted_ready : shell_ready ex_mounted ex_image [5; 5; 5; 5]
  (Mk_entry (ex_name (chars "shell")) 2 1) (ex_inode 40 1) 0x8048094.
Proof.
  split.
  - exact ex_mounted_loader.
  - exact ex_mounted_program.
  - apply (bool_decide_unpack _). vm_compute. exact I.
  - assert (Forall (λ r, 0x400000 ≤ r.1 ∧ r.1 + r.2 ≤ 0x800000)
      (take 9 (loader_ranges ex_mounted ex_image L_shell_nl shell_line))) as Hr by decide_it.
    eapply Forall_impl; [exact Hr|]. intros r Hb a Ha. left. cbv beta in Hb. lia.
  - decide_it.
Qed.
(** What is ready does not depend on what [entry] sets. *)
Lemma shell_ready_set k k' img stale e x ep : shell_ready k img stale e x ep →
  kmem k' = kmem k → bblock k' = bblock k → esp (kcpu k') = esp (kcpu k) → kproc k' = kproc k →
  prog_view k' 0 = prog_view k 0 → shell_ready k' img stale e x ep.
Proof.
  intros [[] [] ? ? ?] Em Eb Ee Ep Ev.
  assert (loader_ranges k' img L_shell_nl shell_line = loader_ranges k img L_shell_nl shell_line) as Er.
  { unfold loader_ranges. by rewrite Eb, Ee. }
  unfold kept_ranges in *.
  split; [split; rewrite ?Er, ?Em, ?Eb, ?Ee; done|split; rewrite ?Em, ?Ee, ?Ep, ?Ev; done|done|unfold kept_ranges; by rewrite Er|by rewrite Er].
Qed.
Lemma shell_ready_set_up `{Handlers} `{Tables} b start b' img stale e x ep :
  set_up b start b' → Z.testbit (cr0 (kpage (b_k b))) 31 = false →
  shell_ready ((b_k b) <| bblock := start |>) img stale e x ep → shell_ready (b_k b') img stale e x ep.
Proof.
  intros [_ _ _ Hk] Hoff Hr. assert (∀ p, Z.testbit (cr0 p) 31 = false → prog_page p = None) as Hnone.
  { intros p Hp. unfold prog_page. by rewrite Hp. }
  apply (shell_ready_set _ _ _ _ _ _ _ Hr); try by rewrite Hk.
  apply view_eq; rewrite Hk; try done. by rewrite !Hnone.
Qed.
#[local] Instance ex_start_linked : StartLinked := {|
  L_gdt := 0x400200; after_entry := 0x400080; entry_esp_below := 0x800000 - 12 - ex_esp;
  entry_ebp_below := 0x800000 - 12 - (ex_esp + 64) |}.
(** The registers as the boot loader leaves them. *)
Definition ex_start : start_t := Mk_start (Mk_regs MULTIBOOT_BOOTLOADER_MAGIC 0 0 ex_mbi 0 0 0 0) (λ _, (8, [])) (0, 0)
  (ex_boot <| b_k ::= λ k, k <| kio := Mk_io_t [] true |> |>).
Lemma ex_at_entry : at_entry (s_boot ex_start) MULTIBOOT_BOOTLOADER_MAGIC ex_mbi = ex_boot.
Proof.
  apply (at_entry_id ex_boot); [|reflexivity|reflexivity|reflexivity].
  exact (put_bytes_at _ 0x7FFFF4 ex_entry_stack).
Qed.
Lemma kmem_with_io b io : kmem (b_k (b <| b_k ::= λ k, k <| kio := io |> |>)) = kmem (b_k b).
Proof. by destruct b as [[] ? ? ? ? ? ? ?]. Qed.
Lemma ex_start_stack : mapped (kmem (b_k (s_boot ex_start))) 0x7FFFF4 12.
Proof.
  unfold ex_start. cbn [s_boot]. rewrite kmem_with_io. apply (bytes_at_mapped _ _ ex_entry_stack).
  exact (put_bytes_at _ 0x7FFFF4 ex_entry_stack).
Qed.
Lemma boot_starts_shell_witness :
  ∃ b2 k3 blk, entry_set_up ex_mbi ex_boot = Ok (tt, b2) ∧ start_shell (b_k b2) = Ok (Enter 0x8048094 child_esp, k3) ∧
    kernel_ok k3 0 blk ∧ parent_pid blk = -1 ∧ currentTerminal (kscr k3) = 1 ∧ io_if (kio k3) = true.
Proof.
  destruct (boot_starts_shell ex_layout_ok 2 ex_start ex_mbi 0x500A40 ex_bblock ex_image [5; 5; 5; 5]
    (Mk_entry (ex_name (chars "shell")) 2 1) (ex_inode 40 1) 0x8048094) as (_ & _ & Hset).
  - reflexivity.
  - reflexivity.
  - done.
  - exact ex_start_stack.
  - split; try reflexivity. by split_and!.
  - exact (us_pages _ ex_unstarted).
  - reflexivity.
  - done.
  - done.
  - done.
  - done.
  - rewrite ex_at_entry in Hset.
    destruct (Hset ex_loaded) as (b2 & E & Hs & Hrun).
    + exact (reported_refl ex_loaded).
    + exact (proj1 ex_module).
    + exact (proj2 ex_module).
    + destruct (Hrun (b_k b2)) as (k3 & blk & E3 & Hk & P1 & _ & _ & _ & _ & _ & Hc & _ & Hi).
      * exact (reported_refl _).
      * exact (shell_ready_set_up _ _ _ _ _ _ _ _ Hs eq_refl ex_mounted_ready).
      * exists b2, k3, blk. split; [exact E|]. split; [exact E3|]. split; [exact Hk|]. split; [exact P1|]. split; [exact Hc|exact Hi].
Defined.
